(* ===== verification/_CoqProject ===== *)
-Q . S2P
Prelude.v
JsStd.v
JsDate.v
Html.v
Types.v
Platform.v
RelayApi.v
Config.v
StateManager.v
Effects.v
Shell.v
Process.v
Signal.v
Recorder.v
Decoders.v
SstvScanner.v
Scheduler.v
Events.v
AutoGain.v
FftDsp.v
FftStream.v
SdrInterfaces.v
SdrClient.v
SdrProvider.v
Relay.v
RelaySpec.v
Wire.v
WebFiles.v
Dashboard.v
Waterfall.v
Tracking.v
Views.v
Canvas.v
LegacyPage.v
WebServer.v
Controls.v
App.v
Cards.v
Widgets.v
TimelineView.v
TrackingView.v
PanelView.v
Gallery.v
GalleryView.v
Orbit.v
Passes.v
Tle.v
Globe.v
MainLoop.v
Station.v
PageView.v
Switches.v
Monitor.v
Commands.v
Schema.v
Database.v
Pipeline.v
Maintenance.v
Reports.v
