(* ===== verification/Prelude.v ===== *)
(** * Night Watch: verification development (root file)

    The repository is a ground station for weather satellites and the SSTV of the
    ISS: it predicts passes, records them with an RTL-SDR receiver, decodes the
    recordings into images and shows the station on a web page.  This library is a
    shallow embedding of its TypeScript (src/backend, src/middleware,
    src/sdr-relay, src/frontend) with the theorems that make its parts correct, and that
    make them work together.  Paths below are relative to src/.

    ** How the program is modelled

    - Numbers: a TypeScript number used as an integer (frequencies, times,
      durations in seconds, identifiers) is a [Z] or a [nat], one used as a fraction
      (degrees, decibels, gains) a [Q].  Rounding of floats, NaN and the infinities
      are not modelled; where the code tests for them the value is an [option].
    - Strings are [String.string], characters 8 bits wide; JsStd has the methods of
      strings, arrays and maps the program calls, with their corner cases (what
      [slice], [split], [includes], [||], [sort] do there), JsDate the dates.
    - Asynchronous code comes in two forms.  A routine that runs from its call to
      its result ([capturePass], [recordPass], [scanForSstv], ...) is a program
      of type [prog A] over calls to its environment (Effects): sleeping, the clock, child
      processes, files, HTTP, the state manager.  Theorems quantify over the handler
      of the calls, so they hold whatever the environment answers; where they need
      time to pass or a child process to end, the hypotheses are the classes [Clock] and
      [Settles].  A run has its result, its trace and the answers its calls got.
      A server whose handlers interleave (FftStream, Relay, WebServer, SdrClient,
      Dashboard) is a transition system: its module variables are a record, an event
      is a message, a timer, the data of a process or the end of an await, and every
      [await] splits its handler into a step before and a step after it.
    - Exceptions are the constructor [Throw] of [res], caught by [try_catch] where the
      code has [catch].  A promise that never settles is [Pending].
    - Third-party code is a parameter: the propagation of satellite.js is the class
      [SatelliteJs], the transform of fft.js, cosine and logarithm are arguments,
      JSON is a pair of functions with their round trip as hypothesis where one is
      needed, and the programs rtl_sdr, rtl_fm, rtl_power, sox, satdump are
      processes of the environment.
    - Request bodies and messages are records of optional fields.  A gain may have any
      type, as in the tests the code makes of it; a body or message with another field of
      a type the code does not test for is marked ([QOther], [b_other], [FftOther]) and
      leaves the model with the output [Untyped].  An exception nobody catches is the
      output [Uncaught].
    - Loops bounded by time take fuel.  [record_fuel], [scan_fuel] and their like are
      computed from the duration, and the termination theorems show that the
      result is never [Pending]: the clock advances by the sleep of each round, so the
      fuel outlasts the loop.  The search of orbits has a measure, the time left.

    ** The files

    - Prelude: tactics, hints, generic lemmas on lists, options and rationals, the
      bounded retries shared by the two reconnecting clients.
    - JsStd, JsDate: the standard library of JavaScript as far as it is used.  Html: the
      trees of elements that components return, and the way of an event from its target
      to the root.
    - Types: backend/types.ts and backend/satellites/constants.ts.  RelayApi:
      sdr-relay/types.ts.  Platform: backend/utils/logger.ts and node-compat.ts.
    - StateManager: backend/state/state-manager.ts, each operation with the event it
      emits.  Well-formedness: the next pass heads the upcoming ones.
    - Effects: programs over calls, their traces, results and handlers, and the
      logic [holds] that follows the calls of a program.
    - Process: [spawnProcess] of utils/shell.ts.  To wait for a process that was handed
      out is to have run it as a command, unless it has ended already.
    - Shell (utils/shell.ts, utils/fs.ts), Signal (capture/signal.ts), Recorder
      (capture/recorder.ts), Decoders (capture/decoders/), SstvScanner
      (capture/sstv-scanner.ts), Scheduler (scheduler/scheduler.ts): the path of a
      capture.  Every routine is shown to end; a capture frees the receiver before it
      takes it, saves and completes exactly the result it returns; the scheduler
      attempts every pass that has not ended; the verification is a majority vote.
    - Events: satellites/events.ts, the SSTV events and switches.
    - AutoGain: middleware/web/auto-gain.ts.  Calibration locks, within a bounded
      number of frames, and never leaves the range of gains.
    - FftDsp, FftStream: capture/fft-stream.ts, the arithmetic of spectra and notch filters,
      and the life of the receiver process: one process at a time when starts and
      stops do not overlap, stops end with their process and not at their limit of two
      seconds, and a process closes before a newer one runs.
    - SdrInterfaces (capture/sdr-interfaces.ts) gives the contract of a receiver as
      classes with laws; SdrProvider (local-sdr-provider.ts, sdr-provider.ts) and
      SdrClient (sdr-client/index.ts) discharge them for the local and the remote
      receiver, with the reconnection of the latter.
    - Relay: sdr-relay/server.ts.  Every request is answered once, still awaited, or one
      the code cannot answer; every recording is watched.  RelaySpec: the abstract life of a session, and
      the refinement of the relay to it.
    - Wire, WebFiles and WebServer: middleware/web/server.ts, bodies and sockets, the
      files, and the rest.  Gains that are numbers stay in range, starts of the stream are
      debounced.
    - Dashboard: frontend/src/hooks/useWebSocket.ts.  What it shows is the state
      of the server.  Tracking: components/SatelliteTracking.tsx and the requests of the
      hook, which frequency the page is subscribed to.  Waterfall: the rows and the
      arithmetic of both spectrum views.  Views: what the other components compute
      before they draw (lib/utils.ts, store/index.ts, PassTimeline.tsx,
      CaptureGallery.tsx, DiagnosticsPanel.tsx, App.tsx).  Controls: SstvToggle.tsx and
      hooks/useApi.ts, composed with the routes of WebServer and with Events.
    - App: App.tsx, hooks/useFavicon.ts and usePageTitle.ts, the chips, the version
      check, the icon; a page reloads only when the version it is told changes.  Canvas:
      the drawing commands of WaterfallView.tsx and SatelliteTracking.tsx and the picture
      they leave; the waterfall shows at each place the level of its bin and row, where no
      line and no text is drawn over it.  Gallery:
      CaptureGallery.tsx with the route of the images.  Cards: the texts and states of
      the smaller components (PassTimeline, ProgressSection, DopplerChart, Tooltip,
      Footer, Header, StatusBar, StatusCards, PassesTable, DiagnosticsPanel).
    - Widgets, TimelineView, TrackingView, PanelView, GalleryView: the elements of those
      components, translated from their JSX, each definition named as the component.  An
      event at an element is followed to the handlers and to the state: the bars of the
      timeline lie on its track and bring up the tooltip of their pass, a button of a
      frequency is what the server is asked for, a tab shows what belongs to it, the
      handle resizes the panel, a thumbnail opens its image and a click beside it closes
      it.  PageView: App.tsx as a whole; composed with Station, the header says what the
      station does, and a frequency that is clicked is asked for and shown.
    - Station composes WebServer, Dashboard and MainLoop: every event of the state manager
      reaches a connected dashboard once, which shows what the station does, as long as
      nothing happens while a pass start waits for the stop of the spectrum, and the
      station idle between captures, but for its scans.  Switches composes App with
      WebServer over two connections, a socket that keeps its order and requests that are
      answered in any: the chips agree with the server unless an answer is overtaken.
      Monitor composes the stream,
      WebServer, Tracking, Waterfall and Canvas: what a canvas shows are spectra the
      process of the receiver published.
    - LegacyPage: middleware/web/static/app.js.  Its badge and sections agree with its
      copy of the state in every run, and the copy follows the state manager.
    - Orbit, Passes: prediction/orbit.ts, ground-track.ts, passes.ts, doppler.ts.
      The search reports passes that rise, stay up, peak as stated and are disjoint;
      prediction sorts exactly those.  The search in local time is the one in UTC where
      the offset of the zone does not change.
    - Config: backend/config/config.ts.  A configuration that loads is in range.
    - Globe: middleware/web/globe-service.ts, its two intervals and what they send.
    - MainLoop: cli/commands/run.ts and serve.ts.  The station opens exactly when its
      directories, its database and the required commands are there; the loop neither dies nor spins, and what it publishes is in order and
      good enough.  Commands: cli/main.ts, and the single session of backend/index.ts.
    - Reports: the commands predict and status, what they print as data.
    - Tle: satellites/tle.ts.  Database and Schema: db/database.ts, its operations, and
      what opening does to the file.  Maintenance: cli/commands/maintenance.ts.  Round
      trips of the formats, the consistency of the tables, and what maintenance adds to
      them and deletes.
    - Pipeline composes Scheduler, Decoders, Database, WebServer, Gallery and WebFiles:
      what the station captures the gallery shows, and the address of its image is
      answered with the file the decoder wrote.

    ** What the theorems found

    Several theorems and examples state behaviours the code does not mean to have:
    [capturePass_leaves_pass_listed], [captureSstv_ignores_stop],
    [start_race_orphans], [timed_out_stop_orphans], [refused_size_blocks],
    [sigkill_never_needed], [bin_level_floor], [autumn_misses],
    [predicted_doppler_is_zero], [refinePassTiming_widens], [tle_of_meteor_m_n2_4],
    [getTles_ignores_expired], [startPass_keeps_scanning_frequency],
    [parse_generated_filename] (local time), [maintenance_outcome] (a
    database that is not awaited), [overlapping_starts_both_record],
    [stop_of_old_session_frees_mode], [relay_never_sends_audio],
    [remote_recording_saves_status], [signal_check_loses_stream], [refused_and_null],
    [other_gains_accepted], [scan_recording],
    [image_request_escapes], [malformed_image_name],
    [frequency_change_during_capture], [pending_start_during_capture],
    [closed_client_leaves_stream], [completed_pass_still_shown],
    [init_during_capture], [page_loaded_during_capture], [page_load_never_subscribes],
    [history_replay_adds_one_row], [quiet_rows_invert_range], [globe_elements_never_refreshed],
    [catalogue_name_hidden], [stop_during_start], [second_start_leaks_intervals],
    [shared_cache_misses], [empty_station_is_zero], [auto_gain_refused],
    [legacy_listeners_pile_up], [empty_list_keeps_next], [scan_shown_as_standby],
    [event_holds_switch], [first_request_failed], [badges_never_active], [late_pass_start],
    [overtaken_answer], [version_never_checked], [answer_frees_other],
    [noaa_chip_is_local], [date_line_hides], [image_request_names_file] (images of the LRPT
    decoder are not found), [failed_refresh_empties], [short_names], [unheard_error],
    [late_wait_hangs], [rows_overflow], [status_contradicts], [other_frequency_shown],
    [canvases_inert] (a click does not start the waterfall), [key_on_thumbnail] (Escape
    does not reach the large image).
    Each is stated about the definitions that the other theorems use, at inputs the
    program can meet.

    ** What is not modelled

    The text of messages that only go to the log or the terminal, and pino, which writes
    them; zod itself, of which Config has what the schema asks; in the elements of the
    dashboard the class names that never change and the paths of icons, React's choice of
    when to render, the focus, and the texts of the locale, which are parameters; of the
    page without build step the elements, of which the texts and states are modelled;
    SQLite, node's HTTP and socket libraries, canvases beyond filled rectangles, of lines,
    areas and texts what they may cover; the death of the process by an error event of
    rtl_fm or sox (Recorder); the wire format of JSON and of WebSocket frames; the entry points
    that only start a component (sdr-relay/index.ts, frontend/src/main.tsx).  Tests,
    scripts and styles are no part of the program. *)

From stdpp Require Export sorting countable base list numbers strings option pretty sets.
From Stdlib Require Export ZArith QArith Qround Lqa Lia Permutation.

Declare Scope sat_scope.
Delimit Scope sat_scope with sat.
Global Open Scope nat_scope.
Global Open Scope sat_scope.

(** ** Hint databases and tactics of the development

    [sat] resolves side conditions of the shared list lemmas, [sat_rw]
    normalises boolean comparisons into propositions. *)

Create HintDb sat.
Create Rewrite HintDb sat_rw.

(** Case analysis on the scrutinee of some [if] or [match] of the goal or of a
    hypothesis, keeping the equation. *)
Ltac break_match_goal :=
  match goal with
  | |- context [match ?x with _ => _ end] =>
      lazymatch x with
      | context [match _ with _ => _ end] => fail
      | _ => destruct x eqn:?
      end
  end.

Ltac break_match_hyp :=
  match goal with
  | H : context [match ?x with _ => _ end] |- _ =>
      lazymatch x with
      | context [match _ with _ => _ end] => fail
      | _ => destruct x eqn:?
      end
  end.

Ltac break_match := first [break_match_goal | break_match_hyp].

(** ** Numbers

    A JavaScript number that the program uses as a count, a time in
    milliseconds or a frequency in Hz is a [Z]; one that carries a fraction (a
    level in dB, a gain, an angle) is a [Q]. *)

Global Instance Q_eq_dec : EqDecision Q.
Proof. solve_decision. Defined.

(** [a < b] of two numbers. *)
Definition Qltb (a b : Q) : bool := negb (Qle_bool b a).

Notation "a <=?q b" := (Qle_bool a b) (at level 70, no associativity) : sat_scope.
Notation "a <?q b" := (Qltb a b) (at level 70, no associativity) : sat_scope.
Notation "a ==?q b" := (Qeq_bool a b) (at level 70, no associativity) : sat_scope.

Lemma Qltb_lt (a b : Q) : Qltb a b = true <-> (a < b)%Q.
Proof.
  unfold Qltb. rewrite negb_true_iff. split; intros H.
  - apply Qnot_le_lt. intros Hle. apply Qle_bool_iff in Hle. congruence.
  - apply not_true_iff_false. intros Hle. apply Qle_bool_iff in Hle. lra.
Qed.

Lemma Qltb_ge (a b : Q) : Qltb a b = false <-> (b <= a)%Q.
Proof.
  unfold Qltb. rewrite negb_false_iff. apply Qle_bool_iff.
Qed.

Lemma Qleb_gt (a b : Q) : Qle_bool a b = false <-> (b < a)%Q.
Proof.
  rewrite <- Qltb_lt. unfold Qltb. rewrite negb_true_iff. done.
Qed.

Lemma Qeqb_neq (a b : Q) : Qeq_bool a b = false <-> ~ (a == b)%Q.
Proof.
  split; intros H.
  - intros Heq. apply Qeq_bool_iff in Heq. congruence.
  - apply not_true_iff_false. intros Heq. apply Qeq_bool_iff in Heq. done.
Qed.

#[export] Hint Rewrite Qle_bool_iff Qltb_lt Qltb_ge Qleb_gt Qeq_bool_iff Qeqb_neq
  Z.ltb_lt Z.ltb_ge Z.leb_le Z.leb_gt Z.eqb_eq Z.eqb_neq
  Nat.ltb_lt Nat.ltb_ge Nat.leb_le Nat.leb_gt Nat.eqb_eq Nat.eqb_neq
  andb_true_iff andb_false_iff orb_true_iff orb_false_iff negb_true_iff negb_false_iff
  : sat_rw.

(** Turns every boolean comparison of the context into a proposition. *)
Ltac props := autorewrite with sat_rw in *.

(** [Math.max] and [Math.min] of two numbers. *)
Definition js_max (a b : Q) : Q := if Qle_bool a b then b else a.
Definition js_min (a b : Q) : Q := if Qle_bool a b then a else b.

Lemma js_max_l a b : (a <= js_max a b)%Q.
Proof. unfold js_max. break_match; props; lra. Qed.

Lemma js_max_r a b : (b <= js_max a b)%Q.
Proof. unfold js_max. break_match; props; lra. Qed.

Lemma js_max_lub a b c : (a <= c)%Q -> (b <= c)%Q -> (js_max a b <= c)%Q.
Proof. unfold js_max. break_match; done. Qed.

Lemma js_min_l a b : (js_min a b <= a)%Q.
Proof. unfold js_min. break_match; props; lra. Qed.

Lemma js_min_r a b : (js_min a b <= b)%Q.
Proof. unfold js_min. break_match; props; lra. Qed.

Lemma js_min_glb a b c : (c <= a)%Q -> (c <= b)%Q -> (c <= js_min a b)%Q.
Proof. unfold js_min. break_match; done. Qed.

#[export] Hint Resolve js_max_l js_max_r js_max_lub js_min_l js_min_r js_min_glb : sat.

(** [Math.floor], [Math.ceil], [Math.round] of a finite number. *)
Definition js_floor (q : Q) : Z := Qfloor q.
Definition js_ceil (q : Q) : Z := Qceiling q.
Definition js_round (q : Q) : Z := Qfloor (q + (1 # 2)).

(** ** Lists *)

(** [l.slice(-n)]: the last [n] elements. *)
Definition lastn {A} (n : nat) (l : list A) : list A := drop (length l - n) l.

Lemma length_lastn {A} n (l : list A) : length (lastn n l) = Nat.min n (length l).
Proof. unfold lastn. rewrite length_drop. lia. Qed.

Lemma lastn_all {A} n (l : list A) : length l <= n -> lastn n l = l.
Proof. intros H. unfold lastn. replace (length l - n) with 0 by lia. done. Qed.

(** [a.find(p)] and [a.findIndex(p)]. *)
Fixpoint js_find {A} (p : A -> bool) (l : list A) : option A :=
  match l with
  | [] => None
  | x :: r => if p x then Some x else js_find p r
  end.

Fixpoint js_findIndex {A} (p : A -> bool) (l : list A) : option nat :=
  match l with
  | [] => None
  | x :: r => if p x then Some 0 else S <$> js_findIndex p r
  end.

(** [a.filter(p)] with a boolean predicate. *)
Definition js_filter {A} (p : A -> bool) (l : list A) : list A := List.filter p l.

Lemma js_find_Some {A} (p : A -> bool) l x :
  js_find p l = Some x -> x ∈ l /\ p x = true.
Proof.
  induction l as [|y l IH]; simpl; [done|].
  destruct (p y) eqn:Hy.
  - intros [= ->]. split; [left|done].
  - intros H. destruct (IH H). split; [by right|done].
Qed.

Lemma js_find_None {A} (p : A -> bool) l :
  js_find p l = None <-> forall x, x ∈ l -> p x = false.
Proof.
  induction l as [|y l IH]; simpl.
  - split; [intros _ x Hx; inversion Hx|done].
  - destruct (p y) eqn:Hy.
    + split; [done|]. intros H. rewrite (H y) in Hy; [done|left].
    + rewrite IH. split; intros H x Hx.
      * apply elem_of_cons in Hx as [->|Hx]; [done|by apply H].
      * apply H. by right.
Qed.

Lemma js_findIndex_Some {A} (p : A -> bool) l i :
  js_findIndex p l = Some i -> exists x, l !! i = Some x /\ p x = true.
Proof.
  revert i. induction l as [|y l IH]; intros i; simpl; [done|]. destruct (p y) eqn:Hy.
  - intros [= <-]. by exists y.
  - destruct (js_findIndex p l) as [j|]; [|done]. intros [= <-]. by apply IH.
Qed.

Lemma js_filter_elem {A} (p : A -> bool) l x :
  x ∈ js_filter p l <-> x ∈ l /\ p x = true.
Proof.
  unfold js_filter. rewrite !list_elem_of_In. apply filter_In.
Qed.

Lemma js_filter_all {A} (p : A -> bool) l :
  (forall x, x ∈ l -> p x = true) -> js_filter p l = l.
Proof.
  induction l as [|y l IH]; intros H; simpl; [done|].
  rewrite H by left. f_equal. apply IH. intros x Hx. apply H. by right.
Qed.

Lemma js_filter_perm {A} (p : A -> bool) l l' : l ≡ₚ l' -> js_filter p l ≡ₚ js_filter p l'.
Proof.
  induction 1 as [|x l l' _ IH|x y l|l l' l'' _ IH1 _ IH2]; simpl.
  - done.
  - destruct (p x); [by apply perm_skip|done].
  - destruct (p x), (p y); try apply perm_swap; reflexivity.
  - by etransitivity.
Qed.

Lemma js_filter_length {A} (p : A -> bool) l : length (js_filter p l) <= length l.
Proof. induction l as [|y l IH]; simpl; [done|]. destruct (p y); simpl; lia. Qed.

Lemma js_filter_sorted {A} (R : relation A) (p : A -> bool) l :
  StronglySorted R l -> StronglySorted R (js_filter p l).
Proof.
  induction 1 as [|x l Hl IH Hx]; simpl; [constructor|]. destruct (p x); [|done].
  constructor; [done|]. rewrite Forall_forall in *. intros y Hy.
  apply js_filter_elem in Hy as [Hy _]. auto.
Qed.

Lemma elem_of_take_inv {A} n (l : list A) x : x ∈ take n l -> x ∈ l.
Proof. intros H. rewrite <- (take_drop n l). apply elem_of_app. by left. Qed.

Lemma elem_of_drop_inv {A} n (l : list A) x : x ∈ drop n l -> x ∈ l.
Proof. intros H. rewrite <- (take_drop n l). apply elem_of_app. by right. Qed.

Lemma omap_cons {A B} (f : A -> option B) x l :
  omap f (x :: l) = match f x with Some y => y :: omap f l | None => omap f l end.
Proof. done. Qed.

(** ** Stable sorting

    [Array.prototype.sort] is stable: elements the comparator calls equal keep
    their order.  [js_sort leb] is the insertion sort with that property. *)
Section Sort.
Context {A : Type} (leb : A -> A -> bool).

Fixpoint js_insert (x : A) (l : list A) : list A :=
  match l with
  | [] => [x]
  | y :: r => if leb x y then x :: y :: r else y :: js_insert x r
  end.

Definition js_sort (l : list A) : list A := foldr js_insert [] l.

Lemma js_insert_perm x l : js_insert x l ≡ₚ x :: l.
Proof.
  induction l as [|y l IH]; simpl; [done|].
  destruct (leb x y); [done|]. rewrite IH. apply perm_swap.
Qed.

Lemma js_sort_perm l : js_sort l ≡ₚ l.
Proof.
  induction l as [|x l IH]; simpl; [done|].
  by rewrite js_insert_perm, IH.
Qed.

Lemma js_sort_length l : length (js_sort l) = length l.
Proof. by rewrite js_sort_perm. Qed.

Lemma js_sort_elem x l : x ∈ js_sort l <-> x ∈ l.
Proof. by rewrite js_sort_perm. Qed.

Hypothesis leb_total : forall x y, leb x y = true \/ leb y x = true.
Hypothesis leb_trans : forall x y z, leb x y = true -> leb y z = true -> leb x z = true.

Lemma js_insert_sorted x l :
  StronglySorted leb l -> StronglySorted leb (js_insert x l).
Proof.
  induction 1 as [|y l Hl IH Hy]; simpl.
  - repeat constructor.
  - destruct (leb x y) eqn:Hxy.
    + constructor; [by constructor|]. constructor; [by rewrite Hxy|].
      eapply Forall_impl; [exact Hy|]. simpl. intros z Hyz.
      apply Is_true_true. eapply leb_trans; [done|]. by apply Is_true_true.
    + constructor; [done|]. rewrite js_insert_perm. constructor; [|done].
      destruct (leb_total x y) as [?|Hyx]; [congruence|]. by rewrite Hyx.
Qed.

Lemma js_sort_sorted l : StronglySorted leb (js_sort l).
Proof.
  induction l as [|x l IH]; simpl; [constructor|]. by apply js_insert_sorted.
Qed.

(** Sorting a sorted list changes nothing, so the sort is stable on it. *)
Lemma js_sort_id l : StronglySorted leb l -> js_sort l = l.
Proof.
  induction 1 as [|x l Hl IH Hx]; simpl; [done|]. rewrite IH.
  destruct l as [|y l]; simpl; [done|].
  inversion Hx as [|? ? Hxy]; subst. by rewrite (Is_true_true_1 _ Hxy).
Qed.
End Sort.

(** Two entries of a list sorted by a relation are related. *)
Lemma sorted_pair {A} (R : A -> A -> Prop) l : StronglySorted R l ->
  forall i j a b, i < j -> l !! i = Some a -> l !! j = Some b -> R a b.
Proof.
  induction 1 as [|x l Hl IH Hx]; intros i j a b Hij Hi Hj; [done|].
  destruct j as [|j]; [lia|]. simpl in Hj. destruct i as [|i]; simpl in Hi.
  - injection Hi as <-. rewrite Forall_forall in Hx. apply Hx. by eapply list_elem_of_lookup_2.
  - apply (IH i j); [lia|done..].
Qed.

(** ** Insertion-ordered maps and sets

    JavaScript's [Map] and [Set] iterate in insertion order, and the program
    sends that order to its clients: both are modelled as lists. *)
Section JsMap.
Context {K V : Type} `{EqDecision K}.

Fixpoint map_get (k : K) (m : list (K * V)) : option V :=
  match m with
  | [] => None
  | (k', v) :: r => if decide (k = k') then Some v else map_get k r
  end.

Fixpoint map_set (k : K) (v : V) (m : list (K * V)) : list (K * V) :=
  match m with
  | [] => [(k, v)]
  | (k', v') :: r => if decide (k = k') then (k, v) :: r else (k', v') :: map_set k v r
  end.

Definition map_delete (k : K) (m : list (K * V)) : list (K * V) :=
  js_filter (fun kv => bool_decide (k <> kv.1)) m.

Lemma map_get_set k v m : map_get k (map_set k v m) = Some v.
Proof.
  induction m as [|[k' v'] m IH]; simpl.
  - by rewrite decide_True.
  - destruct (decide (k = k')) as [->|Hne]; simpl.
    + by rewrite decide_True.
    + by rewrite decide_False.
Qed.

Lemma map_get_set_ne k k' v m :
  k <> k' -> map_get k (map_set k' v m) = map_get k m.
Proof.
  intros Hne. induction m as [|[k2 v2] m IH]; simpl.
  - by rewrite decide_False.
  - destruct (decide (k' = k2)) as [->|Hne']; simpl.
    + by rewrite !decide_False.
    + by rewrite IH.
Qed.

Lemma map_get_delete k m : map_get k (map_delete k m) = None.
Proof.
  induction m as [|[k' v'] m IH]; simpl; [done|].
  case_bool_decide; simpl; [by rewrite decide_False|done].
Qed.

Lemma map_get_delete_ne k k' m :
  k <> k' -> map_get k (map_delete k' m) = map_get k m.
Proof.
  intros Hne. induction m as [|[k2 v2] m IH]; simpl; [done|].
  case_bool_decide as Hk; simpl; [by rewrite IH|].
  destruct (decide (k' = k2)) as [->|]; [|done]. by rewrite decide_False.
Qed.

(** The keys of a map are distinct; every operation keeps them so. *)
Definition map_wf (m : list (K * V)) : Prop := NoDup m.*1.

Lemma map_set_keys k v m x : x ∈ (map_set k v m).*1 <-> x = k \/ x ∈ m.*1.
Proof.
  induction m as [|[k' v'] m IH]; simpl.
  - rewrite list_elem_of_singleton, elem_of_nil. tauto.
  - destruct (decide (k = k')) as [->|]; simpl; rewrite !elem_of_cons; [tauto|].
    rewrite IH. tauto.
Qed.

Lemma map_set_new k v m : k ∉ m.*1 -> map_set k v m = m ++ [(k, v)].
Proof.
  induction m as [|[k' v'] m IH]; intros Hk; simpl; [done|].
  rewrite decide_False by (intros ->; apply Hk; left). rewrite IH; [done|]. intros Hin. apply Hk. by right.
Qed.

Lemma map_set_wf k v m : map_wf m -> map_wf (map_set k v m).
Proof.
  unfold map_wf. induction m as [|[k' v'] m IH]; simpl; intros Hm.
  - apply NoDup_singleton.
  - apply NoDup_cons in Hm as [Hk Hm].
    destruct (decide (k = k')) as [->|]; simpl; apply NoDup_cons; [done|].
    split; [|by apply IH]. rewrite map_set_keys. naive_solver.
Qed.

Lemma map_delete_wf k m : map_wf m -> map_wf (map_delete k m).
Proof.
  unfold map_wf, map_delete. induction m as [|[k' v'] m IH]; simpl; intros Hm; [done|].
  apply NoDup_cons in Hm as [Hk Hm]. case_bool_decide; simpl; [|by apply IH].
  apply NoDup_cons. split; [|by apply IH]. intros Hin. apply Hk.
  apply list_elem_of_fmap in Hin as [kv [-> Hkv]]. apply js_filter_elem in Hkv as [Hkv _].
  apply list_elem_of_fmap. eauto.
Qed.
End JsMap.

#[export] Hint Resolve map_get_set map_get_set_ne map_get_delete map_get_delete_ne
  map_set_wf map_delete_wf : sat.

Section JsSet.
Context {K : Type} `{EqDecision K}.

Definition set_has (k : K) (s : list K) : bool := bool_decide (k ∈ s).
Definition set_add (k : K) (s : list K) : list K := if set_has k s then s else s ++ [k].
Definition set_del (k : K) (s : list K) : list K :=
  js_filter (fun x => bool_decide (x <> k)) s.

Lemma set_add_elem k s x : x ∈ set_add k s <-> x = k \/ x ∈ s.
Proof.
  unfold set_add, set_has. case_bool_decide; [naive_solver|].
  rewrite elem_of_app, list_elem_of_singleton. naive_solver.
Qed.

Lemma set_del_elem k s x : x ∈ set_del k s <-> x ∈ s /\ x <> k.
Proof. unfold set_del. rewrite js_filter_elem, bool_decide_eq_true. done. Qed.

Lemma set_add_NoDup k s : NoDup s -> NoDup (set_add k s).
Proof.
  unfold set_add, set_has. case_bool_decide; [done|]. intros Hs.
  apply NoDup_app. split_and!; [done| |apply NoDup_singleton].
  intros x Hx Hk. apply list_elem_of_singleton in Hk. congruence.
Qed.

Lemma set_del_NoDup k s : NoDup s -> NoDup (set_del k s).
Proof.
  unfold set_del, js_filter. rewrite !NoDup_ListNoDup. apply List.NoDup_filter.
Qed.
End JsSet.

#[export] Hint Resolve set_add_NoDup set_del_NoDup : sat.

(** ** Bounded retries

    A machine that counts its attempts and sets a timer for each: as long as no
    event resets the count, the timers are those of the attempts that are left. *)
Section Retries.
Context {S E : Type} (step : E -> S -> S * list Z) (attempts : S -> nat) (limit : nat)
  (delay : nat -> Z) (resets : E -> bool).
Context (Hstep : forall e s, resets e = false ->
  (attempts (step e s).1 = attempts s /\ (step e s).2 = []) \/
  (attempts s < limit /\ attempts (step e s).1 = Datatypes.S (attempts s) /\
   (step e s).2 = [delay (Datatypes.S (attempts s))])).

Fixpoint retry_run (evs : list E) (s : S) : S * list Z :=
  match evs with
  | [] => (s, [])
  | e :: r => let '(s1, o1) := step e s in let '(s2, o2) := retry_run r s1 in (s2, o1 ++ o2)
  end.

Lemma bounded_retries evs : forall s, Forall (fun e => resets e = false) evs ->
  attempts s <= limit ->
  exists k, attempts s + k <= limit /\ attempts (retry_run evs s).1 = attempts s + k /\
    (retry_run evs s).2 = map delay (seq (Datatypes.S (attempts s)) k).
Proof.
  induction evs as [|e evs IH]; intros s He Hs; simpl; [exists 0; rewrite Nat.add_0_r; done|].
  apply Forall_cons in He as [He Hes]. pose proof (Hstep e s He) as H.
  destruct (step e s) as [s1 o1]. simpl in H. destruct H as [[Hr ->]|(Hlt & Hr & ->)].
  all: destruct (IH s1 Hes) as (k & Hk & Hr2 & Hd2); [lia|].
  all: destruct (retry_run evs s1) as [s2 o2]; simpl in *; rewrite Hd2, Hr in *.
  - exists k. done.
  - exists (Datatypes.S k). split; [lia|]. split; [lia|]. done.
Qed.
End Retries.
