(* ===== verification/JsStd.v ===== *)
(** * The parts of JavaScript's standard library the program uses

    Strings (as sequences of 8-bit characters; the program only searches and
    splits ASCII text), the exact decimal value read by [parseFloat], and the
    calendar arithmetic behind [Date.prototype.toISOString].  Nothing here is
    code of the repository. *)

From S2P Require Import Prelude.
From Stdlib Require Import Ascii String.
Local Open Scope string_scope.
Local Open Scope nat_scope.

#[global] Arguments String.append !_ _ / : simpl nomatch.

(** ** Characters and strings *)

(** [\s] of a regular expression, restricted to ASCII. *)
Definition is_ws (c : ascii) : bool :=
  let n := nat_of_ascii c in (n =? 32) || ((9 <=? n) && (n <=? 13)).

Definition is_digit (c : ascii) : bool :=
  let n := nat_of_ascii c in (48 <=? n) && (n <=? 57).

Definition digit_val (c : ascii) : Z := Z.of_nat (nat_of_ascii c) - 48.

Definition nl : ascii := "010"%char.
Definition comma : ascii := ","%char.
Definition slash : ascii := "/"%char.
Definition dquote : string := String "034"%char EmptyString.

(** [s.split(c)] for a one-character separator. *)
Fixpoint split_on (c : ascii) (s : string) : list string :=
  match s with
  | EmptyString => [EmptyString]
  | String a r =>
      if Ascii.eqb a c then EmptyString :: split_on c r
      else match split_on c r with
           | h :: t => String a h :: t
           | [] => [String a EmptyString]
           end
  end.

(** [l.join(sep)]. *)
Definition join (sep : string) (l : list string) : string := String.concat sep l.

(** [s.includes(p)], [s.startsWith(p)], [s.endsWith(p)]. *)
Fixpoint includes (p s : string) : bool :=
  String.prefix p s || match s with EmptyString => false | String _ r => includes p r end.

Definition startsWith (p s : string) : bool := String.prefix p s.

Fixpoint endsWith (p s : string) : bool :=
  String.eqb p s || match s with EmptyString => false | String _ r => endsWith p r end.

(** [s.slice(0, n)] and [s.slice(n)]. *)
Definition slice_to (n : nat) (s : string) : string := String.substring 0 n s.
Definition slice_from (n : nat) (s : string) : string :=
  String.substring n (String.length s - n) s.

Fixpoint ltrim (s : string) : string :=
  match s with
  | EmptyString => EmptyString
  | String c r => if is_ws c then ltrim r else s
  end.

Fixpoint rtrim (s : string) : string :=
  match s with
  | EmptyString => EmptyString
  | String c r =>
      match rtrim r with
      | EmptyString => if is_ws c then EmptyString else String c EmptyString
      | r' => String c r'
      end
  end.

(** [s.trim()]. *)
Definition trim (s : string) : string := rtrim (ltrim s).

Definition lower_char (c : ascii) : ascii :=
  let n := nat_of_ascii c in
  if (65 <=? n) && (n <=? 90) then ascii_of_nat (n + 32) else c.

Fixpoint str_map (f : ascii -> ascii) (s : string) : string :=
  match s with
  | EmptyString => EmptyString
  | String c r => String (f c) (str_map f r)
  end.

(** [s.toLowerCase()] on ASCII. *)
Definition toLowerCase (s : string) : string := str_map lower_char s.

(** [s.replace(/\s+/g, rep)]; [in_ws] says the previous character was white
    space. *)
Fixpoint replace_ws_from (in_ws : bool) (rep s : string) : string :=
  match s with
  | EmptyString => EmptyString
  | String c r =>
      if is_ws c then (if in_ws then replace_ws_from true rep r
                       else (rep ++ replace_ws_from true rep r)%string)
      else String c (replace_ws_from false rep r)
  end.

Definition replace_ws (rep s : string) : string := replace_ws_from false rep s.

(** [s.replace(/[:.]/g, '-')]. *)
Definition dash_punct (s : string) : string :=
  str_map (fun c => if Ascii.eqb c ":" || Ascii.eqb c "." then "-"%char else c) s.

Fixpoint no_char (c : ascii) (s : string) : bool :=
  match s with
  | EmptyString => true
  | String a r => negb (Ascii.eqb a c) && no_char c r
  end.

Fixpoint str_forall (p : ascii -> bool) (s : string) : bool :=
  match s with
  | EmptyString => true
  | String a r => p a && str_forall p r
  end.

(** ** Facts about the string functions *)

Lemma str_app_assoc (a b c : string) : ((a ++ b) ++ c = a ++ (b ++ c))%string.
Proof. induction a as [|x a IH]; simpl; [done|]. by rewrite IH. Qed.

Lemma str_app_nil (a : string) : (a ++ "" = a)%string.
Proof. induction a as [|x a IH]; simpl; [done|]. by rewrite IH. Qed.

Lemma split_on_ne c s : split_on c s <> [].
Proof.
  destruct s as [|a s]; simpl; [done|].
  destruct (Ascii.eqb a c); [done|]. by destruct (split_on c s).
Qed.

Lemma split_on_no_char c s : no_char c s = true -> split_on c s = [s].
Proof.
  induction s as [|a s IH]; simpl; [done|]. intros H. props. destruct H as [Ha Hs].
  rewrite Ha, IH by done. done.
Qed.

Lemma split_on_app c s r :
  no_char c s = true -> split_on c (s ++ String c r)%string = s :: split_on c r.
Proof.
  induction s as [|a s IH]; simpl; intros H.
  - by rewrite Ascii.eqb_refl.
  - props. destruct H as [Ha Hs]. rewrite Ha, IH by done. done.
Qed.

(** Splitting what was joined gives the parts back. *)
Lemma ltrim_app a b : ltrim a = a -> a <> ""%string -> ltrim (a ++ b)%string = (a ++ b)%string.
Proof.
  destruct a as [|c a]; [done|]. simpl. destruct (is_ws c) eqn:E; [|done]. intros Ha _.
  assert (Hlen : String.length (ltrim a) <= String.length a).
  { clear. induction a as [|x a IH]; simpl; [lia|]. destruct (is_ws x); simpl; lia. }
  rewrite Ha in Hlen. simpl in Hlen. lia.
Qed.

Lemma rtrim_app a b : rtrim b = b -> b <> ""%string -> rtrim (a ++ b)%string = (a ++ b)%string.
Proof.
  intros Hb Hne. induction a as [|c a IH]; simpl; [done|]. rewrite IH.
  destruct (a ++ b)%string eqn:E; [|done]. by destruct a; simpl in E; [destruct b|].
Qed.

Lemma length_str_app a b : String.length (a ++ b)%string = String.length a + String.length b.
Proof. induction a as [|x a IH]; simpl; [done|]. by rewrite IH. Qed.

Lemma substring_0_length s : String.substring 0 (String.length s) s = s.
Proof. induction s as [|x s IH]; simpl; [done|]. by rewrite IH. Qed.

Lemma slice_to_app a b : slice_to (String.length a) (a ++ b)%string = a.
Proof. unfold slice_to. induction a as [|x a IH]; simpl; [by destruct b|]. by rewrite IH. Qed.

Lemma slice_from_app a b : slice_from (String.length a) (a ++ b)%string = b.
Proof.
  unfold slice_from. rewrite length_str_app.
  replace (String.length a + String.length b - String.length a) with (String.length b) by lia.
  induction a as [|x a IH]; simpl; [apply substring_0_length|done].
Qed.

Lemma split_join c l :
  l <> [] -> Forall (fun s => no_char c s = true) l ->
  split_on c (join (String c EmptyString) l) = l.
Proof.
  unfold join. induction l as [|s l IH]; [done|]. intros _ Hl.
  apply Forall_cons in Hl as [Hs Hl]. destruct l as [|s' l'].
  - by apply split_on_no_char.
  - change (String.concat (String c EmptyString) (s :: s' :: l'))
      with (s ++ String c (String.concat (String c EmptyString) (s' :: l')))%string.
    rewrite split_on_app by done. f_equal. by apply IH.
Qed.

Lemma prefix_app p s : String.prefix p (p ++ s)%string = true.
Proof.
  induction p as [|a p IH]; simpl; [by destruct s|].
  destruct (ascii_dec a a); done.
Qed.

Lemma prefix_spec p s : String.prefix p s = true <-> exists b, s = (p ++ b)%string.
Proof.
  split.
  - revert s. induction p as [|a p IH]; intros s.
    { by exists s. }
    destruct s as [|c s]; simpl; [done|]. destruct (ascii_dec a c) as [->|]; [|done].
    intros H. destruct (IH _ H) as [b ->]. by exists b.
  - intros [b ->]. apply prefix_app.
Qed.

Lemma includes_unfold p s :
  includes p s =
  String.prefix p s || match s with EmptyString => false | String _ r => includes p r end.
Proof. by destruct s. Qed.

(** [includes p s] holds exactly when [p] is a factor of [s]. *)
Lemma includes_spec p s : includes p s = true <-> exists a b, s = (a ++ p ++ b)%string.
Proof.
  split.
  - induction s as [|c s IH]; intros H.
    + change (String.prefix p EmptyString || false = true) in H.
      rewrite orb_false_r in H. apply prefix_spec in H as [b Hb].
      by exists EmptyString, b.
    + change (includes p (String c s)) with (String.prefix p (String c s) || includes p s) in H.
      apply orb_true_iff in H as [H|H].
      * apply prefix_spec in H as [b Hb]. by exists EmptyString, b.
      * destruct (IH H) as (a & b & ->). by exists (String c a), b.
  - intros (a & b & ->). induction a as [|c a IH].
    + rewrite includes_unfold. change (EmptyString ++ p ++ b)%string with (p ++ b)%string.
      by rewrite prefix_app.
    + change (String.prefix p (String c a ++ p ++ b)%string || includes p (a ++ p ++ b)%string = true).
      rewrite IH. apply orb_true_r.
Qed.

Lemma replace_ws_id s : str_forall (fun c => negb (is_ws c)) s = true ->
  forall b rep, replace_ws_from b rep s = s.
Proof.
  induction s as [|c s IH]; simpl; [done|]. intros H b rep. props.
  destruct H as [Hc Hs]. rewrite Hc. by rewrite IH.
Qed.

Lemma replace_ws_no_ws s rep : str_forall (fun c => negb (is_ws c)) rep = true ->
  forall b, str_forall (fun c => negb (is_ws c)) (replace_ws_from b rep s) = true.
Proof.
  intros Hrep. assert (Happ : forall a r, str_forall (fun c => negb (is_ws c)) a = true ->
    str_forall (fun c => negb (is_ws c)) r = true ->
    str_forall (fun c => negb (is_ws c)) (a ++ r)%string = true).
  { intros a. induction a as [|c a IH]; simpl; [done|]. intros r Ha Hr. props.
    destruct Ha as [Hc Ha]. split; [done|]. by apply IH. }
  induction s as [|c s IH]; intros b; simpl; [done|].
  destruct (is_ws c) eqn:Hc; [destruct b; [apply IH|by apply Happ]|].
  simpl. rewrite Hc. apply IH.
Qed.

(** ** Numbers read from text *)

(** A JavaScript number as [parseFloat] can return it. *)
Inductive num := NFin (q : Q) | NInf (negative : bool) | NNaN.

Fixpoint take_digits (acc : Z) (n : nat) (s : string) : Z * nat * string :=
  match s with
  | String c r => if is_digit c then take_digits (acc * 10 + digit_val c)%Z (S n) r
                  else (acc, n, s)
  | EmptyString => (acc, n, s)
  end.

Definition take_sign (s : string) : bool * string :=
  match s with
  | String c r =>
      if Ascii.eqb c "-" then (true, r) else if Ascii.eqb c "+" then (false, r) else (false, s)
  | EmptyString => (false, s)
  end.

Definition pow10 (e : Z) : Q := (10 # 1) ^ e.

(** The optional exponent part; an [e] not followed by digits is ignored. *)
Definition take_exponent (s : string) : Z :=
  match s with
  | String c r =>
      if Ascii.eqb c "e" || Ascii.eqb c "E" then
        let '(neg, r) := take_sign r in
        let '(v, n, _) := take_digits 0 0 r in
        match n with O => 0%Z | _ => if neg then (- v)%Z else v end
      else 0%Z
  | EmptyString => 0%Z
  end.

Definition parseFloat (s : string) : num :=
  let '(neg, s) := take_sign (ltrim s) in
  if startsWith "Infinity" s then NInf neg
  else
    let '(vi, ni, r) := take_digits 0 0 s in
    let '(vf, nf, r') :=
      match r with
      | String c r2 => if Ascii.eqb c "." then
                         let '(vf, nf, r3) := take_digits vi 0 r2 in (vf, nf, r3)
                       else (vi, 0, r)
      | EmptyString => (vi, 0, r)
      end in
    match ni + nf with
    | O => NNaN
    | _ =>
        let m := inject_Z (if neg then - vf else vf) in
        NFin (Qred (m * pow10 (take_exponent r' - Z.of_nat nf)))
    end.

Example parseFloat_level : parseFloat " -23.45" = NFin (-469 # 20).
Proof. vm_compute. reflexivity. Qed.

Example parseFloat_exp : parseFloat "1.5e2x" = NFin (150 # 1).
Proof. vm_compute. reflexivity. Qed.

Example parseFloat_nan : parseFloat "nan" = NNaN.
Proof. vm_compute. reflexivity. Qed.

(** [Number(s)] of a text: white space around is dropped, nothing at all is 0, and the
    rest must be one literal; [None] is NaN.  "Infinity" is left out. *)
Definition take_exponent_strict (s : string) : option (Z * string) :=
  match s with
  | String c r =>
      if Ascii.eqb c "e" || Ascii.eqb c "E" then
        let '(neg, r) := take_sign r in
        let '(v, n, r') := take_digits 0 0 r in
        match n with O => None | _ => Some (if neg then - v else v, r')%Z end
      else Some (0%Z, s)
  | EmptyString => Some (0%Z, s)
  end.

Definition number_decimal (s : string) : option Q :=
  let '(neg, s) := take_sign s in
  let '(vi, ni, r) := take_digits 0 0 s in
  let '(vf, nf, r') :=
    match r with
    | String c r2 => if Ascii.eqb c "." then take_digits vi 0 r2 else (vi, 0, r)
    | EmptyString => (vi, 0, r)
    end in
  match ni + nf, take_exponent_strict r' with
  | O, _ | _, None | _, Some (_, String _ _) => None
  | _, Some (e, EmptyString) =>
      Some (Qred (inject_Z (if neg then - vf else vf) * pow10 (e - Z.of_nat nf)))
  end.

(** A digit of a radix up to 16. *)
Definition radix_digit (c : ascii) : Z :=
  let n := Z.of_nat (nat_of_ascii c) in
  if is_digit c then digit_val c
  else if ((97 <=? n) && (n <=? 102))%Z then (n - 87)%Z
  else if ((65 <=? n) && (n <=? 70))%Z then (n - 55)%Z
  else 16%Z.

Fixpoint number_radix (radix acc : Z) (s : string) : option Z :=
  match s with
  | EmptyString => Some acc
  | String c r =>
      if (radix_digit c <? radix)%Z then number_radix radix (acc * radix + radix_digit c) r else None
  end.

Definition js_Number (s : string) : option Q :=
  match trim s with
  | EmptyString => Some 0%Q
  | String "0" (String x (String c r)) as t =>
      let radix := if Ascii.eqb x "x" || Ascii.eqb x "X" then Some 16%Z
                   else if Ascii.eqb x "o" || Ascii.eqb x "O" then Some 8%Z
                   else if Ascii.eqb x "b" || Ascii.eqb x "B" then Some 2%Z else None in
      match radix with
      | Some radix => inject_Z <$> number_radix radix 0 (String c r)
      | None => number_decimal t
      end
  | t => number_decimal t
  end.

Example js_Number_ex :
  map js_Number ["  -51.5 "; ""; "1e3"; "0x1F"; "12 km"; ".5"; "."]%string =
  [Some (-103 # 2); Some 0%Q; Some (1000 # 1); Some (31 # 1); None; Some (1 # 2); None].
Proof. vm_compute. reflexivity. Qed.

(** ** Values of any type, as JSON has them *)

(** The fields of an object do not matter here. *)
Inductive js_value :=
| JsNull
| JsBool (b : bool)
| JsNumber (q : Q)
| JsString (s : string)
| JsArray (l : list js_value)
| JsObject.

Definition text_number (s : string) : num :=
  let t := trim s in
  if String.eqb t "Infinity" || String.eqb t "+Infinity" then NInf false
  else if String.eqb t "-Infinity" then NInf true
  else match js_Number s with Some q => NFin q | None => NNaN end.

(** [Number(v)], which a comparison with a number applies: an array counts as the texts of
    its elements with commas between, where null is empty, an object as a text that is no
    number. *)
Fixpoint js_ToNumber (v : js_value) : num :=
  match v with
  | JsNull => NFin 0
  | JsBool b => NFin (if b then 1 else 0)
  | JsNumber q => NFin q
  | JsString s => text_number s
  | JsArray [] => NFin 0
  | JsArray [JsNull] => NFin 0
  | JsArray [JsBool _] => NNaN
  | JsArray [v] => js_ToNumber v
  | JsArray _ | JsObject => NNaN
  end.

(** Comparisons of numbers: none holds of NaN. *)
Definition num_ltb (a b : num) : bool :=
  match a, b with
  | NFin x, NFin y => x <?q y
  | NInf true, (NFin _ | NInf false) | NFin _, NInf false => true
  | _, _ => false
  end.

Definition num_leb (a b : num) : bool :=
  match a, b with
  | NFin x, NFin y => x <=?q y
  | NInf true, (NFin _ | NInf _) | (NFin _ | NInf false), NInf false => true
  | _, _ => false
  end.

(** [v ? ... : ...]. *)
Definition js_truthy (v : js_value) : bool :=
  match v with
  | JsNull | JsBool false | JsString "" => false
  | JsNumber q => negb (q ==?q 0)
  | _ => true
  end.

Example js_ToNumber_ex :
  map js_ToNumber [JsNull; JsString "abc"; JsString " 12 "; JsArray [JsString "7"]; JsObject; JsBool true] =
  [NFin 0; NNaN; NFin 12; NFin 7; NNaN; NFin 1].
Proof. vm_compute. reflexivity. Qed.

(** [Number.parseInt(s)] on an unsigned run of decimal digits; [None] is NaN. *)
Definition parseInt (s : string) : option Z :=
  let '(v, n, _) := take_digits 0 0 (ltrim s) in
  match n with O => None | _ => Some v end.

(** [`${n}`] of an integer. *)
Definition show_Z (n : Z) : string := pretty n.

(** [n.toString().padStart(2, '0')] and the four digit year of a date. *)
Definition digit_char (n : Z) : ascii := ascii_of_nat (Z.to_nat (n mod 10 + 48)).
Definition pad2 (n : Z) : string := String (digit_char (n / 10)) (String (digit_char n) "").
Definition pad3 (n : Z) : string := String (digit_char (n / 100)) (pad2 n).
Definition pad4 (n : Z) : string := (pad2 (n / 100) ++ pad2 n)%string.

(** [n.toString().padStart(2, '0')] of a non-negative integer. *)
Definition padStart2 (n : Z) : string :=
  if (n <? 10)%Z then ("0" ++ show_Z n)%string else show_Z n.

Lemma digit_char_val n : (0 <= n < 10)%Z -> digit_val (digit_char n) = n.
Proof.
  intros H. unfold digit_val, digit_char. rewrite Z.mod_small by lia.
  rewrite nat_ascii_embedding by lia. lia.
Qed.

Lemma digit_char_digit n : is_digit (digit_char n) = true.
Proof.
  unfold is_digit, digit_char. pose proof (Z.mod_pos_bound n 10).
  rewrite nat_ascii_embedding by lia. props. lia.
Qed.

Lemma digit_char_value n : digit_val (digit_char n) = (n mod 10)%Z.
Proof.
  unfold digit_val, digit_char. pose proof (Z.mod_pos_bound n 10).
  rewrite nat_ascii_embedding by lia. lia.
Qed.

(** A digit is none of the given non-digits. *)
Lemma digit_char_neq n c : is_digit c = false -> Ascii.eqb (digit_char n) c = false.
Proof.
  intros Hc. apply Ascii.eqb_neq. intros <-. by rewrite digit_char_digit in Hc.
Qed.

Lemma digit_char_mod n : digit_char (n mod 10) = digit_char n.
Proof. unfold digit_char. by rewrite Z.mod_mod. Qed.

(** ** Paths (node:path, POSIX) *)

Fixpoint normalize_segments (absolute : bool) (acc : list string) (l : list string) : list string :=
  match l with
  | [] => rev acc
  | s :: r =>
      if String.eqb s "" || String.eqb s "." then normalize_segments absolute acc r
      else if String.eqb s ".." then
        match acc with
        | [] => normalize_segments absolute (if absolute then [] else [".."%string]) r
        | t :: acc' => if String.eqb t ".." then normalize_segments absolute (s :: acc) r
                       else normalize_segments absolute acc' r
        end
      else normalize_segments absolute (s :: acc) r
  end.

Definition is_absolute (s : string) : bool := startsWith "/" s.

(** [path.normalize] of a path without a trailing slash to keep. *)
Definition path_normalize (s : string) : string :=
  let body := join "/" (normalize_segments (is_absolute s) [] (split_on "/" s)) in
  if is_absolute s then ("/" ++ body)%string
  else if String.eqb body "" then "."%string else body.

(** [path.join(a, b)]. *)
Definition path_join (a b : string) : string :=
  if String.eqb a "" then path_normalize b
  else if String.eqb b "" then path_normalize a
  else path_normalize (a ++ "/" ++ b)%string.

(** [path.basename(p, ext)]. *)
Definition drop_suffix (ext s : string) : string :=
  if endsWith ext s && negb (String.eqb ext s)
  then slice_to (String.length s - String.length ext) s else s.

(** [dirname(p)], for a path without trailing slashes. *)
Definition dirname (p : string) : string :=
  match removelast (split_on slash p) with
  | [] => "."
  | [EmptyString] => "/"
  | l => join "/" l
  end.

Definition basename (p ext : string) : string :=
  drop_suffix ext (List.last (js_filter (fun s => negb (String.eqb s "")) (split_on "/" p)) ""%string).

Example path_join_ex : path_join "./recordings" "a.wav" = "recordings/a.wav"%string.
Proof. vm_compute. reflexivity. Qed.

Example basename_ex : basename "./recordings/a.wav" ".wav" = "a"%string.
Proof. vm_compute. reflexivity. Qed.
