(* ===== verification/JsDate.v ===== *)
(** * Dates

    A [Date] is its time value: milliseconds since the epoch, UTC.  The
    calendar functions are those of ECMA-262 on the proleptic Gregorian
    calendar, for the years 0 to 9999 that [toISOString] prints with four
    digits.  Nothing here is code of the repository. *)

From S2P Require Import Prelude JsStd.
From Stdlib Require Import Ascii String.
Local Open Scope Z_scope.
#[local] Ltac Zify.zify_post_hook ::= Z.div_mod_to_equations.

Definition msPerDay : Z := 86400000.

(** Days since 1970-01-01 to (year, month, day) and back. *)
Definition civil_of_days (z : Z) : Z * Z * Z :=
  let z := z + 719468 in
  let era := z / 146097 in
  let doe := z mod 146097 in
  let yoe := (doe - doe / 1460 + doe / 36524 - doe / 146096) / 365 in
  let doy := doe - (365 * yoe + yoe / 4 - yoe / 100) in
  let mp := (5 * doy + 2) / 153 in
  let d := doy - (153 * mp + 2) / 5 + 1 in
  let m := if mp <? 10 then mp + 3 else mp - 9 in
  (yoe + era * 400 + (if m <=? 2 then 1 else 0), m, d).

Definition days_of_civil (y m d : Z) : Z :=
  let y := if m <=? 2 then y - 1 else y in
  let era := y / 400 in
  let yoe := y mod 400 in
  let mp := if 2 <? m then m - 3 else m + 9 in
  let doy := (153 * mp + 2) / 5 + d - 1 in
  let doe := yoe * 365 + yoe / 4 - yoe / 100 + doy in
  era * 146097 + doe - 719468.

Lemma yoe_bounds doe : 0 <= doe < 146097 ->
  0 <= (doe - doe / 1460 + doe / 36524 - doe / 146096) / 365 <= 399.
Proof. lia. Qed.

Lemma doy_bounds doe : 0 <= doe < 146097 ->
  let yoe := (doe - doe / 1460 + doe / 36524 - doe / 146096) / 365 in
  0 <= doe - (365 * yoe + yoe / 4 - yoe / 100) <= 365.
Proof. intros H yoe; subst yoe. lia. Qed.

Lemma civil_bounds z :
  let '(y, m, d) := civil_of_days z in 1 <= m <= 12 /\ 1 <= d <= 31.
Proof.
  unfold civil_of_days.
  set (doe := (z + 719468) mod 146097).
  assert (Hdoe : 0 <= doe < 146097) by (apply Z.mod_pos_bound; lia).
  pose proof (doy_bounds doe Hdoe) as Hdoy. simpl in Hdoy.
  set (doy := doe - _) in *.
  destruct (_ <? 10) eqn:?; props; lia.
Qed.

(** The calendar is a bijection: the day number of a day's date is that day. *)
Lemma days_of_civil_of_days z :
  let '(y, m, d) := civil_of_days z in days_of_civil y m d = z.
Proof.
  unfold civil_of_days, days_of_civil.
  set (doe := (z + 719468) mod 146097).
  assert (Hdoe : 0 <= doe < 146097) by (apply Z.mod_pos_bound; lia).
  pose proof (yoe_bounds doe Hdoe) as Hyoe.
  pose proof (doy_bounds doe Hdoe) as Hdoy. simpl in Hdoy.
  assert (Hz : (z + 719468) / 146097 * 146097 + doe = z + 719468)
    by (subst doe; clear; lia).
  set (yoe := _ / 365) in *.
  set (doy := doe - (365 * yoe + yoe / 4 - yoe / 100)) in *.
  assert (Hdoe' : doe = yoe * 365 + yoe / 4 - yoe / 100 + doy) by (subst doy; ring).
  set (era := (z + 719468) / 146097) in *.
  clearbody doy yoe era doe.
  set (mp := (5 * doy + 2) / 153).
  assert (Hmp : 0 <= mp <= 11) by (subst mp; clear -Hdoy; lia).
  assert (Hera : (yoe + era * 400) / 400 = era) by (clear -Hyoe; lia).
  assert (Hy : (yoe + era * 400) mod 400 = yoe) by (clear -Hyoe; lia).
  clearbody mp. destruct (mp <? 10) eqn:E; props.
  - replace (mp + 3 <=? 2) with false by (symmetry; props; lia).
    replace (2 <? mp + 3) with true by (symmetry; props; lia).
    rewrite Z.add_0_r, Hera, Hy. replace (mp + 3 - 3) with mp by ring. lia.
  - replace (mp - 9 <=? 2) with true by (symmetry; props; lia).
    replace (2 <? mp - 9) with false by (symmetry; props; lia).
    replace (yoe + era * 400 + 1 - 1) with (yoe + era * 400) by ring.
    rewrite Hera, Hy. replace (mp - 9 + 9) with mp by ring. lia.
Qed.

(** The calendar fields of a time value, in UTC. *)
Record fields := Fields {
  f_year : Z; f_month : Z; f_day : Z;
  f_hour : Z; f_min : Z; f_sec : Z; f_ms : Z
}.

Definition fields_of_time (t : Z) : fields :=
  let '(y, m, d) := civil_of_days (t / msPerDay) in
  let tod := t mod msPerDay in
  Fields y m d (tod / 3600000) (tod / 60000 mod 60) (tod / 1000 mod 60) (tod mod 1000).

(** [Date.UTC] of fields within range. *)
Definition time_of_fields (f : fields) : Z :=
  days_of_civil (f_year f) (f_month f) (f_day f) * msPerDay
  + f_hour f * 3600000 + f_min f * 60000 + f_sec f * 1000 + f_ms f.

Lemma time_of_fields_of_time t : time_of_fields (fields_of_time t) = t.
Proof.
  unfold fields_of_time, time_of_fields, msPerDay.
  pose proof (days_of_civil_of_days (t / 86400000)) as Hc.
  destruct (civil_of_days _) as [[y m] d]. simpl. rewrite Hc. lia.
Qed.

Definition fields_wf (f : fields) : Prop :=
  0 <= f_year f <= 9999 /\ 1 <= f_month f <= 12 /\ 1 <= f_day f <= 31 /\
  0 <= f_hour f <= 23 /\ 0 <= f_min f <= 59 /\ 0 <= f_sec f <= 59 /\ 0 <= f_ms f <= 999.

(** Times whose year has four digits, where the ISO format is the usual one. *)
Definition four_digit_year (t : Z) : Prop := 0 <= f_year (fields_of_time t) <= 9999.

Lemma fields_of_time_wf t : four_digit_year t -> fields_wf (fields_of_time t).
Proof.
  unfold four_digit_year, fields_wf, fields_of_time, msPerDay.
  pose proof (civil_bounds (t / 86400000)) as Hc.
  destruct (civil_of_days _) as [[y m] d]. simpl. lia.
Qed.

(** [YYYY-MM-DDTHH], the separator between the time fields a parameter. *)
Definition show_to_seconds (sep : ascii) (f : fields) : string :=
  (pad4 (f_year f) ++ "-" ++ pad2 (f_month f) ++ "-" ++ pad2 (f_day f) ++ "T" ++
   pad2 (f_hour f) ++ String sep "" ++ pad2 (f_min f) ++ String sep "" ++ pad2 (f_sec f))%string.

(** [new Date(t).toISOString()]. *)
Definition toISOString (t : Z) : string :=
  let f := fields_of_time t in
  (show_to_seconds ":" f ++ "." ++ pad3 (f_ms f) ++ "Z")%string.

Example toISOString_ex : toISOString 1770105939123 = "2026-02-03T08:05:39.123Z"%string.
Proof. vm_compute. reflexivity. Qed.

(** The clock of the process: a reading is the time value of [Date.now()]. *)
Definition seconds_floor (t : Z) : Z := t - t mod 1000.

Lemma seconds_floor_fields t :
  time_of_fields (let f := fields_of_time t in
    Fields (f_year f) (f_month f) (f_day f) (f_hour f) (f_min f) (f_sec f) 0)
  = seconds_floor t.
Proof.
  pose proof (time_of_fields_of_time t) as Ht.
  assert (Hms : f_ms (fields_of_time t) = t mod 1000).
  { unfold fields_of_time, msPerDay. destruct (civil_of_days _) as [[y m] d]. simpl. lia. }
  destruct (fields_of_time t) as [y m d h mi s ms]. unfold seconds_floor, time_of_fields in *.
  cbn [f_year f_month f_day f_hour f_min f_sec f_ms] in *. lia.
Qed.
