(* ===== verification/Html.v ===== *)
(** * Element trees and their events

    What a component of the dashboard returns: a list of elements as JSX writes them, with
    the attributes that depend on the state or name the element, the handlers, and the
    children.  An event runs from its target to the root, as in the document of a browser:
    each handler on the way is called, until one stops the propagation.  Class names that
    never change, and the paths of icons, are left out. *)

From S2P Require Import Prelude JsStd.

Module Html.

(** ** Trees *)

(** A text with numbers in it; the text of a number is that of the browser. *)
Inductive piece := Lit (s : string) | Num (q : Q).

Inductive dom_event :=
| Click | KeyDown (key : string) | MouseEnter (clientX clientY : Z) | MouseMove (clientX clientY : Z)
| MouseLeave | MouseDown | Focus | Blur | Change (value : string).

(** What a handler does: it sends a message to the component, or stops the event. *)
Inductive reaction (msg : Type) := Send (m : msg) | StopPropagation.
Arguments Send {msg}. Arguments StopPropagation {msg}.

Section Tree.
Context {msg : Type}.

Definition handler : Type := dom_event -> list (reaction msg).

Definition attribute : Type := string * list piece.

Unset Elimination Schemes.
Inductive node :=
| Text (t : string)
| El (tag : string) (attrs : list attribute) (on : handler) (children : list node).
Set Elimination Schemes.

(** Induction with a hypothesis for each child. *)
Section Induction.
Context (P : node -> Prop) (Ptext : forall t, P (Text t))
  (Pel : forall tag attrs on children, Forall P children -> P (El tag attrs on children)).

Fixpoint node_ind (n : node) : P n :=
  match n with
  | Text t => Ptext t
  | El tag attrs on children =>
      Pel tag attrs on children
        ((fix all (l : list node) : Forall P l :=
            match l with
            | [] => Forall_nil_2 P
            | c :: r => Forall_cons_2 P c r (node_ind c) (all r)
            end) children)
  end.
End Induction.

Definition silent : handler := fun _ => [].
Definition onClick (l : list (reaction msg)) : handler :=
  fun e => match e with Click => l | _ => [] end.
Definition onKeyDown (f : string -> list (reaction msg)) : handler :=
  fun e => match e with KeyDown k => f k | _ => [] end.
Definition onMouseDown (l : list (reaction msg)) : handler :=
  fun e => match e with MouseDown => l | _ => [] end.
Definition onMouseMove (f : Z -> Z -> list (reaction msg)) : handler :=
  fun e => match e with MouseMove x y => f x y | _ => [] end.
Definition onMouseEnter (f : Z -> Z -> list (reaction msg)) : handler :=
  fun e => match e with MouseEnter x y => f x y | _ => [] end.
Definition onMouseLeave (l : list (reaction msg)) : handler :=
  fun e => match e with MouseLeave => l | _ => [] end.
Definition onFocus (l : list (reaction msg)) : handler :=
  fun e => match e with Focus => l | _ => [] end.
Definition onBlur (l : list (reaction msg)) : handler :=
  fun e => match e with Blur => l | _ => [] end.
Definition onChange (f : string -> list (reaction msg)) : handler :=
  fun e => match e with Change v => f v | _ => [] end.
Definition both (h k : handler) : handler := fun e => h e ++ k e.

(** Elements without handlers, and without attributes. *)
Definition ela (tag : string) (attrs : list attribute) (children : list node) : node := El tag attrs silent children.
Definition el (tag : string) (children : list node) : node := ela tag [] children.

Definition attr (name value : string) : attribute := (name, [Lit value]).
Definition cls (value : string) : attribute := attr "class" value.

(** [condition && element]. *)
Definition show (b : bool) (l : list node) : list node := if b then l else [].

Definition flag (name : string) (b : bool) : list attribute := if b then [(name, [Lit name])] else [].

(** ** Reading a tree *)

Definition tag_of (n : node) : string := match n with Text _ => "" | El tag _ _ _ => tag end.
Definition attrs_of (n : node) : list attribute := match n with Text _ => [] | El _ attrs _ _ => attrs end.
Definition children_of (n : node) : list node := match n with Text _ => [] | El _ _ _ children => children end.

Definition get_attr (name : string) (n : node) : option (list piece) :=
  snd <$> List.find (fun a => String.eqb (fst a) name) (attrs_of n).

Fixpoint text_of (n : node) : string :=
  match n with
  | Text t => t
  | El _ _ _ children => String.concat "" (map text_of children)
  end.

Definition text_content (l : list node) : string := String.concat "" (map text_of l).

(** All elements, in the order of the document. *)
Fixpoint elements (n : node) : list node :=
  match n with
  | Text _ => []
  | El _ _ _ children => n :: concat (map elements children)
  end.

Definition all_elements (l : list node) : list node := concat (map elements l).

Definition has_attr (name value : string) (n : node) : bool :=
  match get_attr name n with Some [Lit v] => String.eqb v value | _ => false end.

Definition by_attr (name value : string) (l : list node) : list node :=
  js_filter (has_attr name value) (all_elements l).

Definition by_test_id (id : string) (l : list node) : list node := by_attr "data-testid" id l.

Definition by_tag (tag : string) (l : list node) : list node :=
  js_filter (fun n => String.eqb (tag_of n) tag) (all_elements l).

(** ** Events *)

(** A disabled button has no mouse events. *)
Definition is_mouse (e : dom_event) : bool :=
  match e with Click | MouseDown | MouseEnter _ _ | MouseMove _ _ => true | _ => false end.

Definition disabled (n : node) : bool :=
  String.eqb (tag_of n) "button" && bool_decide (is_Some (get_attr "disabled" n)).

Definition reactions (e : dom_event) (n : node) : list (reaction msg) :=
  match n with
  | Text _ => []
  | El _ _ on _ => if is_mouse e && disabled n then [] else on e
  end.

Definition sent (l : list (reaction msg)) : list msg :=
  omap (fun r => match r with Send m => Some m | StopPropagation => None end) l.

Definition stops (l : list (reaction msg)) : bool :=
  existsb (fun r => match r with StopPropagation => true | Send _ => false end) l.

(** The elements from a node down to the one a path names, the path cut where it leaves
    the tree. *)
Fixpoint chain (path : list nat) (n : node) : list node :=
  n :: match path with
       | [] => []
       | i :: path => match children_of n !! i with Some c => chain path c | None => [] end
       end.

(** [ns] begins with the target. *)
Fixpoint bubble (e : dom_event) (ns : list node) : list msg :=
  match ns with
  | [] => []
  | n :: up => let l := reactions e n in sent l ++ if stops l then [] else bubble e up
  end.

Definition bubbles (e : dom_event) : bool :=
  match e with MouseEnter _ _ | MouseLeave => false | _ => true end.

Definition dispatch (e : dom_event) (path : list nat) (l : list node) : list msg :=
  match path with
  | [] => []
  | i :: path =>
      match l !! i with
      | Some n =>
          if bubbles e then bubble e (rev (chain path n))
          else default [] ((fun t => sent (reactions e t)) <$> last (chain path n))
      | None => []
      end
  end.

(** ** Facts *)

(** No element of the tree reacts to the event. *)
Fixpoint inert (e : dom_event) (n : node) : bool :=
  match reactions e n with [] => true | _ => false end &&
  match n with Text _ => true | El _ _ _ children => forallb (inert e) children end.

Lemma inert_reactions e n : inert e n = true -> reactions e n = [].
Proof. destruct n; cbn [inert]; intros [H _]%andb_true_iff; by destruct (reactions _ _). Qed.

Lemma inert_child e n i c : inert e n = true -> children_of n !! i = Some c -> inert e c = true.
Proof.
  destruct n; [done|]. cbn [inert children_of]. intros [_ H]%andb_true_iff Hi.
  rewrite forallb_forall in H. by apply H, list_elem_of_In, list_elem_of_lookup_2 with i.
Qed.

(** An event in an inert subtree is one on the element around it. *)
Lemma bubble_inert e path n up : inert e n = true -> bubble e (rev (chain path n) ++ up) = bubble e up.
Proof.
  revert n up. induction path as [|i path IH]; intros n up Hn; cbn [chain rev].
  - cbn. by rewrite inert_reactions.
  - destruct (children_of n !! i) as [c|] eqn:Ei.
    + rewrite <- app_assoc, IH by (by eapply inert_child). cbn. by rewrite inert_reactions.
    + cbn. by rewrite inert_reactions.
Qed.

(** The event climbs through inert children to the element that holds them. *)
Lemma bubble_children e path n up : forallb (inert e) (children_of n) = true ->
  bubble e (rev (chain path n) ++ up) = bubble e (n :: up).
Proof.
  intros H. destruct path as [|i path]; cbn [chain rev]; [done|].
  destruct (children_of n !! i) as [c|] eqn:Ei; cbn [app rev]; [|done].
  rewrite <- app_assoc. rewrite bubble_inert; [done|].
  rewrite forallb_forall in H. by apply H, list_elem_of_In, list_elem_of_lookup_2 with i.
Qed.

Lemma bubble_silent e n up : reactions e n = [] -> bubble e (n :: up) = bubble e up.
Proof. intros H. cbn. by rewrite H. Qed.

Lemma chain_cons i path n :
  chain (i :: path) n = n :: match children_of n !! i with Some c => chain path c | None => [] end.
Proof. done. Qed.

Lemma chain_child i path n c : children_of n !! i = Some c -> chain (i :: path) n = n :: chain path c.
Proof. intros H. by rewrite chain_cons, H. Qed.

(** An event that does not climb. *)
Lemma dispatch_own e i path l n c : bubbles e = false -> l !! i = Some n -> last (chain path n) = Some c ->
  dispatch e (i :: path) l = sent (reactions e c).
Proof. intros He Hi Hc. cbn. by rewrite Hi, He, Hc. Qed.

Lemma lookup_map_app {A B} (f : A -> B) l k i a : l !! i = Some a -> (map f l ++ k) !! i = Some (f a).
Proof.
  intros H. rewrite lookup_app_l by (rewrite length_map; by apply lookup_lt_Some in H).
  by rewrite list_lookup_fmap, H.
Qed.

(** One step down. *)
Lemma bubble_chain e i path n c up : children_of n !! i = Some c ->
  bubble e (rev (chain (i :: path) n) ++ up) = bubble e (rev (chain path c) ++ n :: up).
Proof. intros H. rewrite chain_cons, H. cbn [rev]. by rewrite <- app_assoc. Qed.

Lemma dispatch_bubble e i path l n : bubbles e = true -> l !! i = Some n ->
  dispatch e (i :: path) l = bubble e (rev (chain path n) ++ []).
Proof. intros He Hi. cbn. by rewrite Hi, He, app_nil_r. Qed.

Lemma all_elements_app l k : all_elements (l ++ k) = all_elements l ++ all_elements k.
Proof. unfold all_elements. by rewrite map_app, concat_app. Qed.

Lemma all_elements_cons n l : all_elements (n :: l) = elements n ++ all_elements l.
Proof. done. Qed.

Lemma by_attr_app name v l k : by_attr name v (l ++ k) = by_attr name v l ++ by_attr name v k.
Proof. unfold by_attr. rewrite all_elements_app. apply List.filter_app. Qed.

Lemma by_tag_app tag l k : by_tag tag (l ++ k) = by_tag tag l ++ by_tag tag k.
Proof. unfold by_tag. rewrite all_elements_app. apply List.filter_app. Qed.

Lemma by_tag_cons tag n k l : by_tag tag (n :: k :: l) = by_tag tag [n] ++ by_tag tag (k :: l).
Proof. by rewrite <- by_tag_app. Qed.

Lemma by_attr_cons name v n k l : by_attr name v (n :: k :: l) = by_attr name v [n] ++ by_attr name v (k :: l).
Proof. by rewrite <- by_attr_app. Qed.

(** One element with the attribute for each item drawn. *)
Lemma by_attr_map {A} name v (f : A -> node) (l : list A) :
  by_attr name v (map f l) = concat (map (fun a => by_attr name v [f a]) l).
Proof.
  induction l as [|a l IH]; [done|]. cbn [map concat].
  change (f a :: map f l) with ([f a] ++ map f l). by rewrite by_attr_app, IH.
Qed.

Lemma by_tag_map {A} tag (f : A -> node) (l : list A) :
  by_tag tag (map f l) = concat (map (fun a => by_tag tag [f a]) l).
Proof.
  induction l as [|a l IH]; [done|]. cbn [map concat].
  change (f a :: map f l) with ([f a] ++ map f l). by rewrite by_tag_app, IH.
Qed.

Lemma by_tag_el tag t attrs on children :
  by_tag tag [El t attrs on children] =
    (if String.eqb t tag then [El t attrs on children] else []) ++ by_tag tag children.
Proof.
  unfold by_tag, all_elements. cbn [map concat elements]. rewrite app_nil_r. unfold js_filter. cbn [List.filter tag_of].
  by destruct (String.eqb t tag).
Qed.

Lemma by_attr_el name v t attrs on children :
  by_attr name v [El t attrs on children] =
    (if has_attr name v (El t attrs on children) then [El t attrs on children] else []) ++ by_attr name v children.
Proof.
  unfold by_attr, all_elements. cbn [map concat elements]. rewrite app_nil_r. unfold js_filter. cbn [List.filter].
  by destruct (has_attr name v _).
Qed.

Lemma by_tag_imap {A} tag (f : nat -> A -> node) (l : list A) :
  by_tag tag (imap f l) = concat (imap (fun i a => by_tag tag [f i a]) l).
Proof.
  revert f. induction l as [|a l IH]; intros f; [done|]. cbn [imap concat].
  change (f 0 a :: imap (f ∘ S) l) with ([f 0 a] ++ imap (f ∘ S) l). by rewrite by_tag_app, IH.
Qed.

Lemma by_tag_each {A} tag (f : nat -> A -> node) (l : list A) :
  (forall i a, by_tag tag [f i a] = [f i a]) -> by_tag tag (imap f l) = imap f l.
Proof.
  intros H. rewrite by_tag_imap. revert f H. induction l as [|a l IH]; intros f H; [done|].
  cbn [imap concat]. rewrite H. f_equal. apply (IH (f ∘ S)). intros i b. apply H.
Qed.

Lemma by_tag_map_each {A} tag (f : A -> node) (l : list A) :
  (forall a, by_tag tag [f a] = [f a]) -> by_tag tag (map f l) = map f l.
Proof. intros H. rewrite by_tag_map. induction l as [|a l IH]; [done|]. cbn [map concat]. by rewrite H, IH. Qed.

Lemma text_content_app l k : text_content (l ++ k) = (text_content l ++ text_content k)%string.
Proof.
  unfold text_content. rewrite map_app. induction l as [|a l IH]; [done|]. cbn [map app].
  assert (E : forall (s : string) r, String.concat "" (s :: r) = (s ++ String.concat "" r)%string).
  { intros s [|? ?]; [|done]. cbn. by rewrite str_app_nil. }
  by rewrite !E, IH, str_app_assoc.
Qed.

End Tree.
Arguments node : clear implicits.
Arguments handler : clear implicits.

(** ** A component in a larger one: its messages under another name *)

Section Lift.
Context {A B : Type} (f : A -> B).

Definition lift_reaction (r : reaction A) : reaction B :=
  match r with Send m => Send (f m) | StopPropagation => StopPropagation end.

Fixpoint lift (n : node A) : node B :=
  match n with
  | Text t => Text t
  | El tag attrs on children => El tag attrs (fun e => map lift_reaction (on e)) (map lift children)
  end.

Lemma lift_attr name n : get_attr name (lift n) = get_attr name n.
Proof. by destruct n. Qed.

Lemma lift_children n : children_of (lift n) = map lift (children_of n).
Proof. by destruct n. Qed.

Lemma lift_text n : text_of (lift n) = text_of n.
Proof.
  induction n as [t|tag attrs on children IH]; [done|]. cbn. f_equal. rewrite map_map.
  induction IH as [|c l Hc _ IH]; [done|]. cbn. by rewrite Hc, IH.
Qed.

Lemma lift_reactions e n : reactions e (lift n) = map lift_reaction (reactions e n).
Proof. destruct n as [t|tag attrs on children]; [done|]. cbn. unfold disabled. cbn. by destruct (_ && _). Qed.

Lemma lift_sent l : sent (map lift_reaction l) = map f (sent l).
Proof.
  unfold sent. induction l as [|[m|] l IH]; [done|..]; cbn; [f_equal; exact IH|exact IH].
Qed.

Lemma lift_stops l : stops (map lift_reaction l) = stops l.
Proof. by induction l as [|[m|] l IH]. Qed.

Lemma lift_chain path : forall n, chain path (lift n) = map lift (chain path n).
Proof.
  induction path as [|i path IH]; intros n; [done|]. rewrite !chain_cons. cbn [map]. f_equal.
  rewrite lift_children. change (map lift ?l) with (lift <$> l). rewrite list_lookup_fmap.
  destruct (children_of n !! i); [apply IH|done].
Qed.

Lemma lift_bubble e ns : bubble e (map lift ns) = map f (bubble e ns).
Proof.
  induction ns as [|n ns IH]; [done|]. cbn [map bubble]. cbv zeta. rewrite lift_reactions, lift_sent, lift_stops, map_app, IH.
  by destruct (stops _).
Qed.

(** An event at an element of the component is what it was, under the other name. *)
Lemma dispatch_lift e path l : dispatch e path (map lift l) = map f (dispatch e path l).
Proof.
  destruct path as [|i path]; [done|]. cbn. change (map lift l) with (lift <$> l). rewrite list_lookup_fmap.
  destruct (l !! i) as [n|]; [|done]. cbn. rewrite lift_chain, <- map_rev, lift_bubble.
  destruct (bubbles e); [done|]. change (map lift ?l) with (lift <$> l). rewrite fmap_last.
  destruct (last (chain path n)); [|done]. cbn [fmap option_fmap option_map default]. by rewrite lift_reactions, lift_sent.
Qed.

Lemma lift_inert e n : inert e (lift n) = inert e n.
Proof.
  induction n as [t|tag attrs on children IH]; [done|].
  change (inert e (lift (El tag attrs on children))) with
    (match reactions e (lift (El tag attrs on children)) with [] => true | _ => false end && forallb (inert e) (map lift children)).
  rewrite lift_reactions. cbn [inert]. f_equal; [by destruct (reactions _ _)|].
  induction IH as [|c l Hc _ IH]; [done|]. cbn. by rewrite Hc, IH.
Qed.
End Lift.

Lemma reactions_silent {A} e tag attrs children : reactions e (El (msg := A) tag attrs silent children) = [].
Proof. cbn. by destruct (_ && _). Qed.

(** A component below elements that do not react. *)
Lemma bubble_lift {A B} (f : A -> B) e path (n : node A) (up : list (node B)) :
  Forall (fun u => reactions e u = []) up ->
  bubble e (rev (chain path (lift f n)) ++ up) = map f (bubble e (rev (chain path n) ++ [])).
Proof.
  intros Hup. rewrite lift_chain, <- map_rev, app_nil_r, <- lift_bubble.
  assert (E : bubble e up = []) by (induction Hup as [|u up Hu _ IH]; [done|]; cbn; by rewrite Hu).
  induction (map (lift f) (rev (chain path n))) as [|a k IH]; [done|]. cbn. by rewrite IH.
Qed.

End Html.
