(* ===== verification/Types.v ===== *)
(** * Data model (src/backend/types.ts, src/backend/satellites/constants.ts)

    The records and unions the backend's components exchange, with the fields
    of the source, and the constant tables.  A [Date] is a time value in
    milliseconds ([Z]), a frequency is a whole number of Hz ([Z]), a level, an
    angle or a gain is a [Q].  Each definition that models code is preceded by
    a tag naming the file and the lines it translates. *)

From S2P Require Import Prelude JsStd.
Local Open Scope string_scope.

Definition date := Z.

(* @src backend/types.ts:1-5 Coordinates *)
Record Coordinates := mkCoordinates { latitude : Q; longitude : Q; altitude : Q }.

(* @src backend/types.ts:7-7 SignalType *)
Inductive SignalType := sstv | lrpt.

(* @src backend/types.ts:9-9 DemodulationType *)
Inductive DemodulationType := fm | am | ssb.

(* @src backend/types.ts:11-16 SignalConfig *)
Record SignalConfig := mkSignalConfig {
  sc_type : SignalType;
  sc_bandwidth : Z;
  sc_sampleRate : Z;
  sc_demodulation : DemodulationType
}.

(* @src backend/types.ts:18-26 SatelliteInfo *)
Record SatelliteInfo := mkSatelliteInfo {
  si_name : string;
  si_noradId : Z;
  si_frequency : Z;
  si_signalType : SignalType;
  si_signalConfig : SignalConfig;
  si_enabled : bool;
  si_eventBased : option bool
}.

(* @src backend/types.ts:28-32 TwoLineElement *)
Record TwoLineElement := mkTle { tle_name : string; tle_line1 : string; tle_line2 : string }.

(* @src backend/types.ts:34-39 SatellitePosition *)
Record SatellitePosition := mkPosition {
  sp_azimuth : Q;
  sp_elevation : Q;
  sp_rangeSat : Q;
  sp_timestamp : date
}.

(* @src backend/types.ts:41-48 SatelliteGeolocation *)
Record SatelliteGeolocation := mkGeolocation {
  sg_noradId : Z;
  sg_name : string;
  sg_latitude : Q;
  sg_longitude : Q;
  sg_altitude : Q;
  sg_signalType : SignalType
}.

(* @src backend/types.ts:50-53 GroundTrackPoint *)
Record GroundTrackPoint := mkPoint { gp_lat : Q; gp_lng : Q }.

(* @src backend/types.ts:55-60 GroundTrack *)
Record GroundTrack := mkGroundTrack {
  gt_noradId : Z;
  gt_name : string;
  gt_signalType : SignalType;
  gt_points : list GroundTrackPoint
}.

(* @src backend/types.ts:62-69 GlobeState *)
Record GlobeState := mkGlobeState {
  gs_satellites : list SatelliteGeolocation;
  gs_groundTracks : list GroundTrack;
  gs_station_latitude : Q;
  gs_station_longitude : Q
}.

(* @src backend/types.ts:71-78 SatellitePass *)
Record SatellitePass := mkPass {
  pass_satellite : SatelliteInfo;
  pass_aos : date;
  pass_los : date;
  pass_maxElevation : Q;
  pass_maxElevationTime : date;
  pass_duration : Q
}.

(* @src backend/types.ts:80-84 DopplerPoint *)
Record DopplerPoint := mkDopplerPoint { dp_timestamp : date; dp_frequency : Q; dp_shift : Q }.

(* @src backend/types.ts:86-90 DopplerData *)
Record DopplerData := mkDopplerData {
  dd_points : list DopplerPoint;
  dd_maxShift : Q;
  dd_minShift : Q
}.

(* @src backend/types.ts:92-96 PassPrediction *)
Record PassPrediction := mkPrediction {
  pp_pass : SatellitePass;
  pp_positions : list SatellitePosition;
  pp_doppler : option DopplerData
}.

(* @src backend/types.ts:98-107 CaptureResult *)
Record CaptureResult := mkResult {
  cr_satellite : SatelliteInfo;
  cr_recordingPath : string;
  cr_imagePaths : list string;
  cr_startTime : date;
  cr_endTime : date;
  cr_maxSignalStrength : Q;
  cr_success : bool;
  cr_error : option string
}.

(* @src backend/types.ts:109-109 LogLevel *)
Inductive LogLevel := log_debug | log_info | log_warn | log_error.

(* @src backend/types.ts:117-117 ServiceMode *)
Inductive ServiceMode := mode_full | mode_sdr_relay | mode_server.

(* @src backend/types.ts:119-156 ReceiverConfig *)
Record ReceiverConfig := mkConfig {
  cfg_serviceMode : ServiceMode;
  cfg_relay_url : option string;
  cfg_relay_port : Z;
  cfg_relay_host : string;
  cfg_station : Coordinates;
  cfg_gain : Q;
  cfg_sampleRate : Z;
  cfg_ppmCorrection : Z;
  cfg_minElevation : Q;
  cfg_minSignalStrength : Q;
  cfg_skipSignalCheck : bool;
  cfg_recordingsDir : string;
  cfg_imagesDir : string;
  cfg_tle_updateIntervalHours : Z;
  cfg_web_port : Z;
  cfg_web_host : string;
  cfg_database_path : string;
  cfg_logLevel : LogLevel;
  cfg_issSstvEnabled : bool
}.

(* @src backend/types.ts:159-159 SystemStatus *)
Inductive SystemStatus := idle | waiting | capturing | decoding | scanning.

(* @src backend/types.ts:161-173 SystemState *)
Record SystemState := mkState {
  st_status : SystemStatus;
  st_currentPass : option SatellitePass;
  st_nextPass : option SatellitePass;
  st_upcomingPasses : list SatellitePass;
  st_captureProgress : Z;
  st_captureElapsed : Z;
  st_captureTotal : Z;
  st_lastUpdate : date;
  st_scanningFrequency : option Z;
  st_scanningFrequencyName : option string
}.

(* @src backend/types.ts:175-182 StateEvent *)
Inductive StateEvent :=
| status_change (status : SystemStatus)
| pass_start (pass : SatellitePass)
| pass_complete (result : CaptureResult)
| capture_progress (progress elapsed total : Z)
| passes_updated (passes : list SatellitePass)
| satellite_positions (globe : GlobeState)
| scanning_frequency (frequency : Z) (name : string).

(* @src backend/types.ts:184-203 CaptureHistoryEntry *)
Record CaptureHistoryEntry := mkEntry {
  he_id : Z;
  he_passId : string;
  he_satelliteName : string;
  he_satelliteNoradId : Z;
  he_frequency : Z;
  he_signalType : SignalType;
  he_aosTime : string;
  he_losTime : string;
  he_maxElevation : Q;
  he_durationSeconds : Z;
  he_recordingPath : option string;
  he_startTime : string;
  he_endTime : option string;
  he_maxSignalStrength : option Q;
  he_success : bool;
  he_errorMessage : option string;
  he_createdAt : Z;
  he_imagePaths : list string
}.

(* @src backend/types.ts:205-212 SSTVEvent *)
Record SSTVEvent := mkSstvEvent {
  ev_id : string;
  ev_name : string;
  ev_startTime : date;
  ev_endTime : date;
  ev_modes : list string;
  ev_active : bool
}.

(* @src backend/types.ts:214-221 SSTVStatus *)
Record SSTVStatus := mkSstvStatus {
  ss_enabled : bool;
  ss_manualEnabled : bool;
  ss_groundScanEnabled : bool;
  ss_status : SystemStatus;
  ss_activeEvent : option SSTVEvent;
  ss_upcomingEvents : list SSTVEvent
}.

Global Instance SignalType_eq_dec : EqDecision SignalType.
Proof. solve_decision. Defined.
Global Instance DemodulationType_eq_dec : EqDecision DemodulationType.
Proof. solve_decision. Defined.
Global Instance SignalConfig_eq_dec : EqDecision SignalConfig.
Proof. solve_decision. Defined.
Global Instance SatelliteInfo_eq_dec : EqDecision SatelliteInfo.
Proof. solve_decision. Defined.
Global Instance TwoLineElement_eq_dec : EqDecision TwoLineElement.
Proof. solve_decision. Defined.
Global Instance SystemStatus_eq_dec : EqDecision SystemStatus.
Proof. solve_decision. Defined.
Global Instance SatellitePass_eq_dec : EqDecision SatellitePass.
Proof. solve_decision. Defined.
Global Instance CaptureResult_eq_dec : EqDecision CaptureResult.
Proof. solve_decision. Defined.

(** ** Constants *)

(* @src backend/satellites/constants.ts:3-16 SIGNAL_CONFIGS *)
Definition SIGNAL_CONFIGS (t : SignalType) : SignalConfig :=
  match t with
  | sstv => mkSignalConfig sstv 3000 48000 fm
  | lrpt => mkSignalConfig lrpt 120000 1024000 fm
  end.

(* @src backend/satellites/constants.ts:18-44 SATELLITES *)
Definition SATELLITES : list SatelliteInfo := [
  mkSatelliteInfo "ISS" 25544 145800000 sstv (SIGNAL_CONFIGS sstv) false (Some true);
  mkSatelliteInfo "METEOR-M N2-3" 57166 137900000 lrpt (SIGNAL_CONFIGS lrpt) true None;
  mkSatelliteInfo "METEOR-M N2-4" 59051 137900000 lrpt (SIGNAL_CONFIGS lrpt) true None
].

(* @src backend/satellites/constants.ts:47-47 WEATHER_SATELLITES *)
Definition WEATHER_SATELLITES : list SatelliteInfo :=
  js_filter (fun s => bool_decide (si_signalType s = lrpt)) SATELLITES.

(* @src backend/satellites/constants.ts:49-49 CELESTRAK_GP_API *)
Definition CELESTRAK_GP_API : string := "https://celestrak.org/NORAD/elements/gp.php".

(** The fields of [PASS_CONSTRAINTS] and of [SIGNAL] the program reads. *)
(* @src backend/satellites/constants.ts:51-56 PASS_CONSTRAINTS.captureBufferSeconds *)
Definition captureBufferSeconds : Z := 60.

(* @src backend/satellites/constants.ts:58-61 SIGNAL *)
Definition scanBandwidthHz : Z := 25000.
Definition scanDurationSeconds : Z := 5.

(** [sat.enabled || (sat.eventBased && sstvActive)]: the satellites of one round
    of the capture loop. *)
(* @src backend/cli/commands/run.ts:86-88 activeSatellites *)
Definition activeSatellites (sstvActive : bool) : list SatelliteInfo :=
  js_filter (fun s => si_enabled s || (default false (si_eventBased s) && sstvActive)) SATELLITES.
