(* ===== verification/Platform.v ===== *)
(** * The logger and the layer over node (src/backend/utils/logger.ts, node-compat.ts)

    The logger keeps an instance of pino, which it replaces when the level changes; what
    pino does with a record is a parameter, but that it writes those its level lets
    through.  The functions of node-compat are node's under other names; one copies the
    bytes of a file out of the memory that node keeps them in. *)

From Stdlib Require Import Strings.Byte.
From S2P Require Import Prelude JsStd Types.

Module Logger.

(* @src backend/utils/logger.ts:4-9 pinoLevelMap *)
Definition pinoLevelMap (l : LogLevel) : string :=
  match l with log_debug => "debug" | log_info => "info" | log_warn => "warn" | log_error => "error" end%string.

(** The options of the instance that differ between instances. *)
Record pino := mkPino { level : string }.

(* @src backend/utils/logger.ts:11-24 createLogger *)
Definition createLogger : pino := mkPino "info"%string.

(* @src backend/utils/logger.ts:27-39 setLevel *)
Definition setLevel (l : LogLevel) (p : pino) : pino := mkPino (pinoLevelMap l).

(** The object that goes with a message. *)
Inductive fields (A : Type) := Args (args : option (list A)) | Satellite (name : string) | Type_ (t : string).
Arguments Args {A}. Arguments Satellite {A}. Arguments Type_ {A}.

(** The calls of the program. *)
(* @src backend/utils/logger.ts:41-71 logger *)
Inductive entry (A : Type) :=
| debug (message : string) (args : list A) | info (message : string) (args : list A)
| warn (message : string) (args : list A) | error (message : string) (args : list A)
| satellite (name message : string) | pass (message : string) | capture (message : string) | image (message : string).
Arguments debug {A}. Arguments info {A}. Arguments warn {A}. Arguments error {A}.
Arguments satellite {A}. Arguments pass {A}. Arguments capture {A}. Arguments image {A}.

Section Calls.
Context {A : Type} (enabled : string -> string -> bool).

Definition args_of (args : list A) : fields A := Args (if 0 <? length args then Some args else None).

(** The method of pino, the object and the message. *)
(* @src backend/utils/logger.ts:41-71 logger *)
Definition record_of (e : entry A) : string * fields A * string :=
  match e with
  | debug m args => ("debug", args_of args, m)
  | info m args => ("info", args_of args, m)
  | warn m args => ("warn", args_of args, m)
  | error m args => ("error", args_of args, m)
  | satellite name m => ("info", Satellite name, m)
  | pass m => ("info", Type_ "pass", m)
  | capture m => ("info", Type_ "capture", m)
  | image m => ("info", Type_ "image", m)
  end%string.

Inductive call := SetLevel (l : LogLevel) | Log (e : entry A).

(** The records written, in order. *)
Fixpoint written (l : list call) (p : pino) : list (string * fields A * string) :=
  match l with
  | [] => []
  | SetLevel lv :: r => written r (setLevel lv p)
  | Log e :: r => (if enabled (level p) (record_of e).1.1 then [record_of e] else []) ++ written r p
  end.

Lemma written_app l k p : written (l ++ k) p =
  written l p ++ written k (foldl (fun p c => match c with SetLevel lv => setLevel lv p | Log _ => p end) p l).
Proof.
  revert p. induction l as [|[lv|e] l IH]; intros p; cbn [app written foldl]; [done|apply IH|]. by rewrite IH, app_assoc.
Qed.

(** After a change of level, what is written is what the new level lets through, whatever
    the levels before. *)
Theorem level_holds before lv es p :
  written (before ++ SetLevel lv :: map Log es) p =
  written before p ++ js_filter (fun r => enabled (pinoLevelMap lv) r.1.1) (map record_of es).
Proof.
  rewrite written_app. f_equal. cbn [written].
  set (q := setLevel lv _). change (pinoLevelMap lv) with (level q). clearbody q.
  induction es as [|e es IH]; [done|]. cbn [map written]. rewrite IH. unfold js_filter. cbn [List.filter].
  cbv beta. by destruct (enabled (level q) (record_of e).1.1).
Qed.
End Calls.
End Logger.

Module NodeCompat.

(** A Buffer of node: a part of an ArrayBuffer that it may share with others. *)
Record Buffer := mkBuffer { buffer : list Byte.byte; byteOffset : nat; byteLength : nat }.

(** [arrayBuffer.slice(begin, end)] *)
Definition slice (b e : nat) (l : list Byte.byte) : list Byte.byte := take (e - b) (drop b l).

(* @src backend/utils/node-compat.ts:31-34 readFileBuffer *)
Definition readFileBuffer (b : Buffer) : list Byte.byte :=
  slice (byteOffset b) (byteOffset b + byteLength b) (buffer b).

(** A Buffer for a file: its bytes in a memory that holds other bytes before and after. *)
Definition holds_file (file : list Byte.byte) (b : Buffer) : Prop :=
  exists before after, buffer b = before ++ file ++ after /\ byteOffset b = length before /\ byteLength b = length file.

(** What is handed on is the file, without the bytes of others around it. *)
Theorem readFileBuffer_file file b : holds_file file b -> readFileBuffer b = file.
Proof.
  intros (before & after & E1 & E2 & E3). unfold readFileBuffer, slice. rewrite E1, E2, E3.
  rewrite drop_app_length, take_app_le by lia. apply take_ge. lia.
Qed.

Lemma readFileBuffer_file_witness :
  readFileBuffer (mkBuffer ["a"; "b"; "c"; "d"]%byte 1 2) = ["b"; "c"]%byte.
Proof. apply readFileBuffer_file. by exists ["a"]%byte, ["d"]%byte. Defined.

Section Names.
Context (fileURLToPath : string -> string).

(* @src backend/utils/node-compat.ts:58-60 getDirname *)
Definition getDirname (importMetaUrl : string) : string := dirname (fileURLToPath importMetaUrl).
End Names.
End NodeCompat.
