(* ===== verification/RelayApi.v ===== *)
(** * The relay's HTTP vocabulary (src/sdr-relay/types.ts)

    The bodies the relay server and its client exchange.  Both sides cast what
    they parse to these types; a field of a body that another body lacks reads as
    undefined.  A date sent as its ISO text stands as its time value. *)

From S2P Require Import Prelude JsStd Types.
Local Open Scope Z_scope.

Inductive SDRMode := sdr_idle | sdr_fft | sdr_recording.

#[export] Instance SDRMode_eq_dec : EqDecision SDRMode.
Proof. solve_decision. Defined.

(* @src sdr-relay/types.ts:15-20 SDRStatus *)
Record SDRStatus := mkSDRStatus {
  sdr_connected : bool;
  sdr_device : option string;
  sdr_mode : SDRMode;
  sdr_error : option string
}.

Inductive SessionStatus := session_recording | session_complete | session_error.

#[export] Instance SessionStatus_eq_dec : EqDecision SessionStatus.
Proof. solve_decision. Defined.

(* @src sdr-relay/types.ts:25-34 CaptureSession *)
Record CaptureSession := mkCaptureSession {
  cs_sessionId : string;
  cs_frequency : Z;
  cs_startTime : date;
  cs_durationSeconds : Z;
  cs_status : SessionStatus;
  cs_progress : Q;
  cs_outputPath : option string;
  cs_error : option string
}.

(* @src sdr-relay/types.ts:39-46 StartCaptureRequest *)
Record StartCaptureRequest := mkStartRequest {
  sr_frequency : Z;
  sr_durationSeconds : Z;
  sr_sampleRate : Z;
  sr_gain : Q;
  sr_ppmCorrection : option Z;
  sr_satelliteName : option string
}.

(* @src sdr-relay/types.ts:51-55 StartCaptureResponse *)
Record StartCaptureResponse := mkStartResponse {
  sc_sessionId : string;
  sc_success : bool;
  sc_error : option string
}.

(* @src sdr-relay/types.ts:60-62 StopCaptureRequest *)
Record StopCaptureRequest := mkStopRequest { sp_sessionId : string }.

(* @src sdr-relay/types.ts:67-71 StopCaptureResponse *)
Record StopCaptureResponse := mkStopResponse {
  so_success : bool;
  so_outputPath : option string;
  so_error : option string
}.

(* @src sdr-relay/types.ts:76-80 SignalCheckRequest *)
Record SignalCheckRequest := mkCheckRequest { cr_frequency : Z; cr_gain : Q }.

(* @src sdr-relay/types.ts:85-90 SignalCheckResponse *)
Record SignalCheckResponse := mkCheckResponse {
  ck_frequency : Z;
  ck_power : Q;
  ck_detected : bool;
  ck_timestamp : date
}.

(* @src sdr-relay/types.ts:95-97 TuneRequest *)
Record TuneRequest := mkTuneRequest { tq_frequency : Z }.

(* @src sdr-relay/types.ts:102-106 TuneResponse *)
Record TuneResponse := mkTuneResponse { tr_success : bool; tr_frequency : option Z }.

(** A request's body, as parsed, or the message of the parse error. *)
Inductive Request :=
| NoBody
| Malformed (message : string)
| QTune (r : TuneRequest)
| QStart (r : StartCaptureRequest)
| QStop (r : StopCaptureRequest)
| QCheck (r : SignalCheckRequest)
| QNull                                  (* the JSON null *)
| QOther.                                (* any other JSON of none of these types *)

(** A reply: a status code and what its body holds. *)
Inductive Reply :=
| RStatus (r : SDRStatus)
| RTune (r : TuneResponse)
| RStart (r : StartCaptureResponse)
| RStop (r : StopCaptureResponse)
| RSession (r : CaptureSession)
| RCheck (r : SignalCheckResponse)
| RHealth (mode : SDRMode)
| RError (error : string)
| RAudio (bytes : string)
| REmpty.

Record HttpReply := mkHttpReply { reply_status : Z; reply_body : Reply }.

(** [response.ok]. *)
Definition reply_ok (r : HttpReply) : bool :=
  (200 <=? reply_status r) && (reply_status r <=? 299).

(** The fields the client reads, whatever body it got. *)
Definition body_error (b : Reply) : option string :=
  match b with
  | RStatus r => sdr_error r
  | RStart r => sc_error r
  | RStop r => so_error r
  | RSession r => cs_error r
  | RError e => Some e
  | _ => None
  end.

Definition body_sessionId (b : Reply) : option string :=
  match b with
  | RStart r => Some (sc_sessionId r)
  | RSession r => Some (cs_sessionId r)
  | _ => None
  end.

(** [body.status], where it is the status of a session. *)
Definition body_session_status (b : Reply) : option SessionStatus :=
  match b with RSession r => Some (cs_status r) | _ => None end.

(** [response.json()]: a body that is no JSON throws. *)
Definition reply_json (r : HttpReply) : string + Reply :=
  match reply_body r with
  | RAudio _ | REmpty => inl "Unexpected end of JSON input"%string
  | b => inr b
  end.
