(* ===== verification/Config.v ===== *)
(** * Configuration (src/backend/config/config.ts)

    The environment variables of the process are validated by a schema and become the
    configuration.  The schema is a value of the validation applicative below, which
    does what zod does with it: a variable that is absent takes its default, a
    number is coerced by [Number], and every variable that fails is reported. *)

From S2P Require Import Prelude JsStd Types.
Local Open Scope Z_scope.

Module Config.

(** ** Validation *)

(** The names of the variables that fail, in the order of the schema, or a value. *)
Definition valid (A : Type) : Type := list string + A.

Definition vmap {A B} (f : A -> B) (x : valid A) : valid B :=
  match x with inl e => inl e | inr a => inr (f a) end.

Definition vapp {A B} (f : valid (A -> B)) (x : valid A) : valid B :=
  match f, x with
  | inl e1, inl e2 => inl (e1 ++ e2)
  | inl e, inr _ | inr _, inl e => inl e
  | inr f, inr a => inr (f a)
  end.

Declare Scope valid_scope.
Delimit Scope valid_scope with valid.
Infix "<$$>" := vmap (at level 61, left associativity) : valid_scope.
Infix "<**>" := vapp (at level 61, left associativity) : valid_scope.
Local Open Scope valid_scope.

Section Schema.
Context (env : string -> option string).

Definition above (lo : option Q) (q : Q) : bool := match lo with Some l => l <=?q q | None => true end.
Definition below (hi : option Q) (q : Q) : bool := match hi with Some h => q <=?q h | None => true end.

(** [z.coerce.number().min(lo).max(hi).default(d)]: without a default, an absent
    variable is [Number(undefined)], NaN, which fails. *)
Definition number (name : string) (lo hi d : option Q) : valid Q :=
  match env name with
  | None => match d with Some d => inr d | None => inl [name] end
  | Some text =>
      match js_Number text with
      | Some q => if above lo q && below hi q then inr q else inl [name]
      | None => inl [name]
      end
  end.

(** [z.enum(names).default(d)]. *)
Definition enum {A} (name : string) (values : list (string * A)) (d : A) : valid A :=
  match env name with
  | None => inr d
  | Some text =>
      match js_find (fun v => String.eqb v.1 text) values with
      | Some v => inr v.2
      | None => inl [name]
      end
  end.

(** [z.string().default(d)] and [z.string().transform((v) => v === 'true').default(d)]. *)
Definition text (name d : string) : valid string := inr (default d (env name)).
Definition flag (name d : string) : valid bool := inr (String.eqb (default d (env name)) "true").

(* @src backend/config/config.ts:4-44 envSchema *)
Record Env := mkEnv {
  SERVICE_MODE : ServiceMode;
  SDR_RELAY_URL : option string;
  SDR_RELAY_PORT : Q;
  SDR_RELAY_HOST : string;
  STATION_LATITUDE : Q;
  STATION_LONGITUDE : Q;
  STATION_ALTITUDE : Q;
  SDR_GAIN : Q;
  SDR_SAMPLE_RATE : Q;
  SDR_PPM_CORRECTION : Q;
  MIN_ELEVATION : Q;
  MIN_SIGNAL_STRENGTH : Q;
  SKIP_SIGNAL_CHECK : bool;
  RECORDINGS_DIR : string;
  IMAGES_DIR : string;
  TLE_UPDATE_INTERVAL_HOURS : Q;
  LOG_LEVEL : LogLevel;
  WEB_PORT : Q;
  WEB_HOST : string;
  DATABASE_PATH : string;
  ISS_SSTV_ENABLED : bool
}.

(* @src backend/config/config.ts:4-44 envSchema *)
Definition envSchema : valid Env :=
  mkEnv <$$> enum "SERVICE_MODE"
               [("full", mode_full); ("sdr-relay", mode_sdr_relay); ("server", mode_server)]%string mode_full
        <**> inr (env "SDR_RELAY_URL")
        <**> number "SDR_RELAY_PORT" None None (Some 3001%Q)
        <**> text "SDR_RELAY_HOST" "0.0.0.0"
        <**> number "STATION_LATITUDE" (Some (-90)%Q) (Some 90%Q) None
        <**> number "STATION_LONGITUDE" (Some (-180)%Q) (Some 180%Q) None
        <**> number "STATION_ALTITUDE" None None (Some 0%Q)
        <**> number "SDR_GAIN" (Some 0%Q) (Some 50%Q) (Some 45%Q)
        <**> number "SDR_SAMPLE_RATE" None None (Some 48000%Q)
        <**> number "SDR_PPM_CORRECTION" None None (Some 0%Q)
        <**> number "MIN_ELEVATION" (Some 0%Q) (Some 90%Q) (Some 20%Q)
        <**> number "MIN_SIGNAL_STRENGTH" None None (Some (-30)%Q)
        <**> flag "SKIP_SIGNAL_CHECK" "false"
        <**> text "RECORDINGS_DIR" "./recordings"
        <**> text "IMAGES_DIR" "./images"
        <**> number "TLE_UPDATE_INTERVAL_HOURS" None None (Some 24%Q)
        <**> enum "LOG_LEVEL" [("debug", log_debug); ("info", log_info); ("warn", log_warn);
                               ("error", log_error)]%string log_info
        <**> number "WEB_PORT" None None (Some 3000%Q)
        <**> text "WEB_HOST" "0.0.0.0"
        <**> text "DATABASE_PATH" "./data/captures.db"
        <**> flag "ISS_SSTV_ENABLED" "true".
End Schema.

(** The exception of [parseEnv] names every variable that fails. *)
(* @src backend/config/config.ts:46-55 parseEnv *)
Definition parseEnv (env : string -> option string) : valid Env := envSchema env.

(** A number the program uses as an integer; [None] when it is not one, which the
    code does not test and [ReceiverConfig] does not represent. *)
Definition whole (q : Q) : option Z := if inject_Z (Qfloor q) ==?q q then Some (Qfloor q) else None.

(* @src backend/config/config.ts:57-91 loadConfig *)
Definition loadConfig (env : string -> option string) : valid (option ReceiverConfig) :=
  vmap (fun e =>
    relay_port ← whole (SDR_RELAY_PORT e);
    sampleRate ← whole (SDR_SAMPLE_RATE e);
    ppm ← whole (SDR_PPM_CORRECTION e);
    hours ← whole (TLE_UPDATE_INTERVAL_HOURS e);
    web_port ← whole (WEB_PORT e);
    Some (mkConfig (SERVICE_MODE e) (SDR_RELAY_URL e) relay_port (SDR_RELAY_HOST e)
            (mkCoordinates (STATION_LATITUDE e) (STATION_LONGITUDE e) (STATION_ALTITUDE e))
            (SDR_GAIN e) sampleRate ppm (MIN_ELEVATION e) (MIN_SIGNAL_STRENGTH e)
            (SKIP_SIGNAL_CHECK e) (RECORDINGS_DIR e) (IMAGES_DIR e) hours web_port (WEB_HOST e)
            (DATABASE_PATH e) (LOG_LEVEL e) (ISS_SSTV_ENABLED e))) (parseEnv env).

(** ** A reference reading of the schema

    What each constrained variable accepts, in the order of the schema. *)

Definition accepts_number (lo hi : option Q) (optional : bool) (value : option string) : bool :=
  match value with
  | None => optional
  | Some t => match js_Number t with Some q => above lo q && below hi q | None => false end
  end.

Definition accepts_name (names : list string) (value : option string) : bool :=
  match value with None => true | Some t => bool_decide (t ∈ names) end.

Definition rules : list (string * (option string -> bool)) := [
  ("SERVICE_MODE", accepts_name ["full"; "sdr-relay"; "server"]);
  ("SDR_RELAY_PORT", accepts_number None None true);
  ("STATION_LATITUDE", accepts_number (Some (-90)%Q) (Some 90%Q) false);
  ("STATION_LONGITUDE", accepts_number (Some (-180)%Q) (Some 180%Q) false);
  ("STATION_ALTITUDE", accepts_number None None true);
  ("SDR_GAIN", accepts_number (Some 0%Q) (Some 50%Q) true);
  ("SDR_SAMPLE_RATE", accepts_number None None true);
  ("SDR_PPM_CORRECTION", accepts_number None None true);
  ("MIN_ELEVATION", accepts_number (Some 0%Q) (Some 90%Q) true);
  ("MIN_SIGNAL_STRENGTH", accepts_number None None true);
  ("TLE_UPDATE_INTERVAL_HOURS", accepts_number None None true);
  ("LOG_LEVEL", accepts_name ["debug"; "info"; "warn"; "error"]);
  ("WEB_PORT", accepts_number None None true)
]%string.

(** The variables that fail. *)
Definition rejected (env : string -> option string) : list string :=
  map fst (js_filter (fun r => negb (r.2 (env r.1))) rules).

Definition errors {A} (x : valid A) : list string := match x with inl e => e | inr _ => [] end.

Lemma errors_vapp {A B} (f : valid (A -> B)) (x : valid A) : errors (f <**> x)%valid = errors f ++ errors x.
Proof. destruct f, x; simpl; by rewrite ?app_nil_r. Qed.

Lemma errors_number env name lo hi d : errors (number env name lo hi d) =
  if accepts_number lo hi (match d with Some _ => true | None => false end) (env name) then [] else [name].
Proof.
  unfold number, accepts_number. destruct (env name) as [t|]; [|by destruct d].
  destruct (js_Number t); [|done]. by destruct (_ && _).
Qed.

Lemma errors_enum {A} env name (values : list (string * A)) d : errors (enum env name values d) =
  if accepts_name (map fst values) (env name) then [] else [name].
Proof.
  unfold enum, accepts_name. destruct (env name) as [t|]; [|done].
  destruct (js_find _ values) as [v|] eqn:E.
  - apply js_find_Some in E as [Hin Ht]. apply String.eqb_eq in Ht as <-.
    rewrite bool_decide_true; [done|]. by apply (list_elem_of_fmap_2 fst).
  - rewrite bool_decide_false; [done|]. intros ([k x] & -> & Hin)%list_elem_of_fmap.
    rewrite js_find_None in E. specialize (E _ Hin). simpl in E. by rewrite String.eqb_refl in E.
Qed.

Lemma rejected_cons (env : string -> option string) r l :
  map fst (js_filter (fun r => negb (r.2 (env r.1))) (r :: l)) =
  (if r.2 (env r.1) then [] else [r.1]) ++ map fst (js_filter (fun r => negb (r.2 (env r.1))) l).
Proof. simpl. by destruct (r.2 (env r.1)). Qed.

Lemma errors_vmap {A B} (f : A -> B) (x : valid A) : errors (f <$$> x)%valid = errors x.
Proof. by destruct x. Qed.

Lemma parseEnv_errors env : errors (parseEnv env) = rejected env.
Proof.
  unfold parseEnv, envSchema, rejected, rules.
  rewrite !errors_vapp, errors_vmap, !errors_number, !errors_enum, !rejected_cons. simpl.
  by rewrite !app_nil_r, <- !app_assoc.
Qed.

(** An error names something. *)
Definition nonempty {A} (x : valid A) : Prop := x <> inl [].

Lemma vapp_nonempty {A B} (f : valid (A -> B)) (x : valid A) :
  nonempty f -> nonempty x -> nonempty (f <**> x)%valid.
Proof. unfold nonempty. destruct f as [[]|], x as [[]|]; simpl; congruence. Qed.

Lemma number_nonempty (env : string -> option string) name lo hi d : nonempty (number env name lo hi d).
Proof. unfold number, nonempty. by repeat case_match. Qed.

Lemma enum_nonempty {A} env name (values : list (string * A)) d : nonempty (enum env name values d).
Proof. unfold enum, nonempty. by repeat case_match. Qed.

Lemma parseEnv_nonempty env : nonempty (parseEnv env).
Proof.
  unfold parseEnv, envSchema.
  repeat (apply vapp_nonempty; [|first [apply number_nonempty | apply enum_nonempty | discriminate]]).
  unfold enum, nonempty. destruct (env _) as [t|]; [|discriminate].
  by destruct (js_find _ _).
Qed.

(** A value that went through the schema. *)
Lemma vapp_inr {A B} (f : valid (A -> B)) (x : valid A) b :
  (f <**> x)%valid = inr b -> exists g a, f = inr g /\ x = inr a /\ b = g a.
Proof. destruct f, x; try done. intros [= <-]. eauto. Qed.

Lemma vmap_inr {A B} (f : A -> B) (x : valid A) b :
  (f <$$> x)%valid = inr b -> exists a, x = inr a /\ b = f a.
Proof. destruct x; try done. intros [= <-]. eauto. Qed.

Lemma number_bounds env name lo hi d q : number env name (Some lo) (Some hi) d = inr q ->
  (forall x, d = Some x -> lo <= x <= hi)%Q -> (lo <= q <= hi)%Q.
Proof.
  unfold number. intros Hq Hd. destruct (env name) as [t|].
  - destruct (js_Number t); [|done]. destruct (_ && _) eqn:E; [|done]. injection Hq as <-.
    simpl in E. by props.
  - destruct d as [x|]; [|done]. injection Hq as <-. by apply Hd.
Qed.

Definition env_ok (e : Env) : Prop :=
  (-90 <= STATION_LATITUDE e <= 90)%Q /\ (-180 <= STATION_LONGITUDE e <= 180)%Q /\
  (0 <= SDR_GAIN e <= 50)%Q /\ (0 <= MIN_ELEVATION e <= 90)%Q.

Lemma parseEnv_ok env e : parseEnv env = inr e -> env_ok e.
Proof.
  unfold parseEnv, envSchema. intros E.
  repeat (apply vapp_inr in E as (? & ? & E & ? & ->)).
  apply vmap_inr in E as (? & ? & ->). unfold env_ok. simpl.
  split; [|split; [|split]]; (eapply number_bounds; [eassumption|]; intros q [= <-]; lra).
Qed.

(** C32: Validation reports exactly the variables that break their rule, in order; and a
    configuration that is loaded has the station on the globe, a gain between 0
    and 50 dB, and an elevation above the horizon. *)
Theorem loadConfig_valid env :
  match loadConfig env with
  | inl names => names = rejected env /\ names <> []
  | inr config => rejected env = [] /\ forall c, config = Some c ->
      (-90 <= latitude (cfg_station c) <= 90)%Q /\ (-180 <= longitude (cfg_station c) <= 180)%Q /\
      (0 <= cfg_gain c <= 50)%Q /\ (0 <= cfg_minElevation c <= 90)%Q
  end.
Proof.
  pose proof (parseEnv_errors env) as He. pose proof (parseEnv_nonempty env) as Hn.
  pose proof (parseEnv_ok env) as Hok.
  unfold loadConfig, nonempty in *. destruct (parseEnv env) as [names|e]; simpl in *.
  { split; [exact He|]. congruence. }
  split; [exact (eq_sym He)|]. intros c Hc.
  simplify_option_eq. exact (Hok e eq_refl).
Qed.

(** An environment for the examples. *)
Definition of_list (l : list (string * string)) (name : string) : option string :=
  snd <$> js_find (fun v => String.eqb v.1 name) l.

(** A variable that is set to nothing counts as 0, not as missing. *)
Example empty_station_is_zero :
  match loadConfig (of_list [("STATION_LATITUDE", ""); ("STATION_LONGITUDE", "")]%string) with
  | inr (Some c) => cfg_station c = mkCoordinates 0 0 0
  | _ => False
  end.
Proof. vm_compute. reflexivity. Qed.

(** The gain "auto", which the README proposes, is refused. *)
Example auto_gain_refused :
  loadConfig (of_list [("STATION_LATITUDE", "51.5"); ("STATION_LONGITUDE", "-0.1");
                       ("SDR_GAIN", "auto")]%string) = inl ["SDR_GAIN"%string].
Proof. vm_compute. reflexivity. Qed.

End Config.
