(* ===== verification/StateManager.v ===== *)
(** * State manager (src/backend/state/state-manager.ts)

    The process-wide [SystemState] and its operations.  An operation takes the
    clock reading of its [new Date()] and returns the new state with the event
    it emits to the listeners of 'state'; every operation emits exactly one.
    [op] names the operations so that a run is a list of them. *)

From S2P Require Import Prelude JsStd Types.

Module StateManager.

(* @src backend/state/state-manager.ts:12-23 state *)
Definition initial (now : date) : SystemState :=
  mkState idle None None [] 0 0 0 now None None.

(* @src backend/state/state-manager.ts:29-38 setStatus *)
Definition setStatus (now : date) (status : SystemStatus) (s : SystemState)
  : SystemState * StateEvent :=
  let keep := bool_decide (status = scanning) in
  (mkState status (st_currentPass s) (st_nextPass s) (st_upcomingPasses s)
     (st_captureProgress s) (st_captureElapsed s) (st_captureTotal s) now
     (if keep then st_scanningFrequency s else None)
     (if keep then st_scanningFrequencyName s else None),
   status_change status).

(* @src backend/state/state-manager.ts:40-45 setScanningFrequency *)
Definition setScanningFrequency (now : date) (frequency : Z) (name : string) (s : SystemState)
  : SystemState * StateEvent :=
  (mkState (st_status s) (st_currentPass s) (st_nextPass s) (st_upcomingPasses s)
     (st_captureProgress s) (st_captureElapsed s) (st_captureTotal s) now
     (Some frequency) (Some name),
   scanning_frequency frequency name).

(* @src backend/state/state-manager.ts:47-55 startPass *)
Definition startPass (now : date) (pass : SatellitePass) (s : SystemState)
  : SystemState * StateEvent :=
  (mkState capturing (Some pass) (st_nextPass s) (st_upcomingPasses s)
     0 0 (js_ceil (pass_duration pass)) now
     (st_scanningFrequency s) (st_scanningFrequencyName s),
   pass_start pass).

(* @src backend/state/state-manager.ts:57-63 updateProgress *)
Definition updateProgress (now : date) (progress elapsed total : Z) (s : SystemState)
  : SystemState * StateEvent :=
  (mkState (st_status s) (st_currentPass s) (st_nextPass s) (st_upcomingPasses s)
     progress elapsed total now (st_scanningFrequency s) (st_scanningFrequencyName s),
   capture_progress progress elapsed total).

(** The passes [completePass] drops: same satellite, and an AOS equal to the
    start time of the result. *)
(* @src backend/state/state-manager.ts:74-80 completePass *)
Definition completed (result : CaptureResult) (p : SatellitePass) : bool :=
  Z.eqb (si_noradId (pass_satellite p)) (si_noradId (cr_satellite result)) &&
  Z.eqb (pass_aos p) (cr_startTime result).

(* @src backend/state/state-manager.ts:65-84 completePass *)
Definition completePass (now : date) (result : CaptureResult) (s : SystemState)
  : SystemState * StateEvent :=
  let upcoming := js_filter (fun p => negb (completed result p)) (st_upcomingPasses s) in
  (mkState idle None (head upcoming) upcoming 0 0 0 now
     (st_scanningFrequency s) (st_scanningFrequencyName s),
   pass_complete result).

(* @src backend/state/state-manager.ts:86-91 updatePasses *)
Definition updatePasses (now : date) (passes : list SatellitePass) (s : SystemState)
  : SystemState * StateEvent :=
  (mkState (st_status s) (st_currentPass s) (head passes) passes
     (st_captureProgress s) (st_captureElapsed s) (st_captureTotal s) now
     (st_scanningFrequency s) (st_scanningFrequencyName s),
   passes_updated passes).

(* @src backend/state/state-manager.ts:93-95 emitGlobeState *)
Definition emitGlobeState (globe : GlobeState) (s : SystemState) : SystemState * StateEvent :=
  (s, satellite_positions globe).

(** The operations as data, and the dispatcher. *)
Inductive op :=
| SetStatus (status : SystemStatus)
| SetScanningFrequency (frequency : Z) (name : string)
| StartPass (pass : SatellitePass)
| UpdateProgress (progress elapsed total : Z)
| CompletePass (result : CaptureResult)
| UpdatePasses (passes : list SatellitePass)
| EmitGlobeState (globe : GlobeState).

(* @src backend/state/state-manager.ts:11-100 StateManager *)
Definition apply (now : date) (o : op) (s : SystemState) : SystemState * StateEvent :=
  match o with
  | SetStatus x => setStatus now x s
  | SetScanningFrequency f n => setScanningFrequency now f n s
  | StartPass p => startPass now p s
  | UpdateProgress p e t => updateProgress now p e t s
  | CompletePass r => completePass now r s
  | UpdatePasses ps => updatePasses now ps s
  | EmitGlobeState g => emitGlobeState g s
  end.

(** A run: operations with the clock readings they saw, oldest first.  The
    result is the final state and the events in emission order. *)
Fixpoint run (ops : list (date * op)) (s : SystemState) : SystemState * list StateEvent :=
  match ops with
  | [] => (s, [])
  | (now, o) :: r =>
      let '(s1, e) := apply now o s in
      let '(s2, es) := run r s1 in (s2, e :: es)
  end.

(** ** Invariants *)

(** The next pass shown to clients is the first upcoming pass. *)
Definition next_is_head (s : SystemState) : Prop :=
  st_nextPass s = head (st_upcomingPasses s).

Lemma apply_next_is_head now o s : next_is_head s -> next_is_head (apply now o s).1.
Proof. destruct o; done. Qed.

Lemma run_app ops1 ops2 s :
  run (ops1 ++ ops2) s =
  let '(s1, e1) := run ops1 s in let '(s2, e2) := run ops2 s1 in (s2, e1 ++ e2).
Proof.
  revert s. induction ops1 as [|[now o] r IH]; intros s; simpl.
  - by destruct (run ops2 s).
  - destruct (apply now o s) as [s1 e]. rewrite IH.
    destruct (run r s1) as [s2 e2]. by destruct (run ops2 s2).
Qed.

Lemma run_snoc ops now o s :
  (run (ops ++ [(now, o)]) s).1 = (apply now o (run ops s).1).1.
Proof.
  rewrite run_app. destruct (run ops s) as [s1 e1]. simpl.
  by destruct (apply now o s1).
Qed.

Lemma completePass_unmatched now r s :
  (forall p, p ∈ st_upcomingPasses s -> pass_aos p <> cr_startTime r) ->
  st_upcomingPasses (completePass now r s).1 = st_upcomingPasses s.
Proof.
  intros H. apply js_filter_all. intros p Hp. unfold completed.
  apply negb_true_iff, andb_false_iff. right. apply Z.eqb_neq. auto.
Qed.

(** ** Properties *)

(** In every state reachable from the initial one by operations of the
    state manager, [nextPass] is the first element of [upcomingPasses] (or
    null when there is none), and each operation has emitted exactly one
    event. *)
Theorem reachable_next_is_head now0 ops :
  next_is_head (run ops (initial now0)).1 /\
  length (run ops (initial now0)).2 = length ops.
Proof.
  assert (H : next_is_head (initial now0)) by done.
  revert H. generalize (initial now0) as s.
  induction ops as [|[now o] r IH]; intros s Hs; simpl; [done|].
  pose proof (apply_next_is_head now o s Hs) as Hs1.
  destruct (apply now o s) as [s1 e]. simpl in Hs1.
  destruct (IH s1 Hs1) as [H1 H2]. destruct (run r s1) as [s2 es]. simpl in *. auto.
Qed.

(** Completing a pass resets the capture (idle, no current pass, zero
    progress), keeps exactly the upcoming passes that are not the completed one
    and in their order, and makes the first of them the next pass. *)
Theorem completePass_spec now result s :
  let s' := (completePass now result s).1 in
  st_status s' = idle /\ st_currentPass s' = None /\
  (st_captureProgress s', st_captureElapsed s', st_captureTotal s') = (0, 0, 0)%Z /\
  st_upcomingPasses s' `sublist_of` st_upcomingPasses s /\
  (forall p, p ∈ st_upcomingPasses s' <->
     p ∈ st_upcomingPasses s /\
     ~ (si_noradId (pass_satellite p) = si_noradId (cr_satellite result) /\
        pass_aos p = cr_startTime result)) /\
  st_nextPass s' = head (st_upcomingPasses s').
Proof.
  simpl. split_and!; [done..| | |done].
  - induction (st_upcomingPasses s) as [|p l IH]; simpl; [constructor|].
    destruct (negb _); by constructor.
  - intros p. rewrite js_filter_elem. unfold completed.
    rewrite negb_true_iff, andb_false_iff, Z.eqb_neq, Z.eqb_neq.
    destruct (decide (si_noradId (pass_satellite p) = si_noradId (cr_satellite result)));
      tauto.
Qed.

(** A status other than scanning does not imply that the scanning frequency
    is cleared: [setStatus] clears it, but [startPass] sets the status
    directly, so after a scan step a captured pass still shows the scanned
    frequency. *)
Theorem startPass_keeps_scanning_frequency now0 now1 now2 now3 f n pass :
  let s := (run [(now1, SetStatus scanning); (now2, SetScanningFrequency f n);
                 (now3, StartPass pass)] (initial now0)).1 in
  st_status s = capturing /\ st_scanningFrequency s = Some f /\
  st_scanningFrequencyName s = Some n.
Proof. done. Qed.

End StateManager.
