(* ===== verification/Effects.v ===== *)
(** * Asynchronous code as programs over calls

    An [async] function of the backend is a tree of calls: what it asks of its
    environment (the clock, timers, child processes, files, the network) and of
    the process-wide components it shares with the other tasks (the state
    manager, the FFT stream, the database, the scanner's flags).  A handler
    answers each call from an arbitrary world, so a theorem about all handlers
    holds for every behaviour of the environment, every interleaving with other
    tasks at an await point included.  A run also yields its trace, the calls
    made, on which ordering properties are stated. *)

From S2P Require Import Prelude JsStd Types RelayApi StateManager.
Local Open Scope Z_scope.

(** ** Results *)

(** How an async function ends: with a value, with an exception (its message),
    or not at all within the fuel its loops were given. *)
Inductive res (A : Type) : Type :=
| Ok (a : A)
| Throw (msg : string)
| Pending.
Arguments Ok {A} a.
Arguments Throw {A} msg.
Arguments Pending {A}.

(** ** Data exchanged with the environment *)

(* @src backend/utils/shell.ts:4-8 CommandResult *)
Record CommandResult := mkCommandResult { stdout : string; stderr : string; exitCode : Z }.

(** What a child process reports, in order. *)
Inductive proc_event :=
| OnStdout (data : string)
| OnStderr (data : string)
| OnError (message : string)
| OnClose (code : option Z).

(* @src backend/capture/fft-stream.ts:6-12 FFTData *)
Record FFTData := mkFFTData {
  fft_timestamp : Z;
  fft_centerFreq : Z;
  fft_bins : list Q;
  fft_minPower : Q;
  fft_maxPower : Q
}.

Record FetchResponse := mkFetchResponse { fr_ok : bool; fr_body : string }.

(** An argument of a child process: a literal, the decimal text of a number
    ([n.toString()], [`${n}s`]), or [`${lo}M:${hi}M:${step}`]. *)
Inductive arg :=
| Lit (s : string)
| Num (q : Q)
| Secs (n : Z)
| FreqRange (loMHz hiMHz : Q) (step : string).

(** ** Calls *)

Inductive call :=
| Now                                            (* Date.now() *)
| Sleep (ms : Z)                                 (* await sleep(ms) *)
| Spawn (cmd : string) (args : list arg)         (* spawn, collecting its events *)
| FileExists (path : string)
| EnsureDir (path : string)
| ReadText (path : string)
| WriteText (path content : string)
| Fetch (url : string)
| Http (method url : string) (body : Request)    (* fetch of the relay's API *)
| WriteBody (path : string) (body : Reply)       (* writeFile of a response body *)
| SM (o : StateManager.op)                       (* stateManager.* *)
| GetStatus                                      (* stateManager.getState().status *)
| IsFFTRunning
| StopFFT                                        (* await stopFFTStream() *)
| LatestFFT                                      (* getLatestFFTData() *)
| IsScanning | SetScanning (b : bool)            (* the scanner's isScanning *)
| ShouldStop | SetShouldStop (b : bool)          (* the scanner's shouldStop *)
| GroundScanEnabled                              (* isGroundSstvScanEnabled() *)
| ForkScan (maxDurationSeconds : Z)              (* scanForSstv(..) not awaited *)
| SaveCapture (r : CaptureResult) (p : SatellitePass)
| SaveImages (captureId : Z) (paths : list string)
| SpawnRecorder (frequency : Z) (gain : Q) (sampleRate ppm : Z) (outputPath : string)
                                                 (* both spawns; an exception is one spawn throws *)
| KillRtl                                        (* rtlProcess.kill('SIGTERM') *)
| AwaitSoxClose (timeout : Z)                    (* the race in session.stop() *)
| KillSox
| SstvActive                                     (* isSstvActive() *)
| SetManualSstv (enabled : bool)                 (* setManualSstvEnabled(..) *)
| Unlink (path : string)                         (* await unlink(..) *)
| InitDatabase (path : string)                   (* await initializeDatabase(..) *)
| StartWebServer (port : Z) (host imagesDir : string)
| StartGlobe (station : Coordinates)             (* await startGlobeService(..) *)
| Exit (code : Z).                               (* process.exit(..), nothing follows *)

(** The answer to a call; [inl msg] is an exception. *)
Definition resp (c : call) : Type :=
  match c with
  | Now => Z
  | Spawn _ _ => list proc_event
  | FileExists _ | IsFFTRunning | IsScanning | ShouldStop | GroundScanEnabled | SstvActive => bool
  | EnsureDir _ | WriteText _ _ | SaveImages _ _ => string + unit
  | ReadText _ => string + string
  | Fetch _ => string + FetchResponse
  | Http _ _ _ => string + HttpReply
  | WriteBody _ _ | Unlink _ => string + unit
  | GetStatus => SystemStatus
  | LatestFFT => option FFTData
  | SaveCapture _ _ => string + Z
  | SpawnRecorder _ _ _ _ _ => string + unit
  | AwaitSoxClose _ => bool
  | InitDatabase _ | StartGlobe _ => string + unit
  | _ => unit
  end.

(** ** Programs *)

Inductive prog (A : Type) : Type :=
| Ret (a : A)
| Do (c : call) (k : resp c -> prog A).
Arguments Ret {A} a.
Arguments Do {A} c k.

Fixpoint bind {A B} (p : prog A) (f : A -> prog B) : prog B :=
  match p with
  | Ret a => f a
  | Do c k => Do c (fun r => bind (k r) f)
  end.

Definition ask (c : call) : prog (resp c) := Do c Ret.

(** Programs that may throw: sequencing stops at an exception. *)
Definition bindR {A B} (p : prog (res A)) (f : A -> prog (res B)) : prog (res B) :=
  bind p (fun r => match r with
                   | Ok a => f a
                   | Throw m => Ret (Throw m)
                   | Pending => Ret Pending
                   end).

Declare Scope prog_scope.
Delimit Scope prog_scope with prog.
Notation "x <- p ;; q" := (bind p (fun x => q))
  (at level 100, p at next level, right associativity) : prog_scope.
Notation "p ;; q" := (bind p (fun _ => q))
  (at level 100, right associativity) : prog_scope.
Notation "x <-! p ;; q" := (bindR p (fun x => q))
  (at level 100, p at next level, right associativity) : prog_scope.
Notation "c ';;;' q" := (Do c (fun _ => q))
  (at level 100, right associativity) : prog_scope.
Notation "x <~ c ;; q" := (Do c (fun x => q))
  (at level 100, c at next level, right associativity) : prog_scope.
Local Open Scope prog_scope.

(** An answer that may be an exception, as a result. *)
Definition of_sum {A} (r : string + A) : res A :=
  match r with inl m => Throw m | inr a => Ok a end.

(** [try { p } catch (e) { h(e) }]; divergence is not caught. *)
Definition try_catch {A} (p : prog (res A)) (h : string -> prog (res A)) : prog (res A) :=
  bind p (fun r => match r with Throw m => h m | _ => Ret r end).

(** [try { p } finally { f }]. *)
Definition try_finally {A} (p : prog (res A)) (f : prog unit) : prog (res A) :=
  r <- p;; f;; Ret r.

(** A call with its answer. *)
Inductive answered := Answer (c : call) (r : resp c).

(** The child processes of a run, with what they reported. *)
Definition spawned (x : answered) : option (string * list arg * list proc_event) :=
  match x with
  | Answer c r =>
      match c as c return resp c -> option (string * list arg * list proc_event) with
      | Spawn cmd args => fun evs => Some (cmd, args, evs)
      | _ => fun _ => None
      end r
  end.

(** ** Runs *)

Section Exec.
Context {W : Type} (h : forall c, W -> resp c * W).

(** The result, the final world and the calls made, oldest first. *)
Fixpoint exec {A} (p : prog A) (w : W) : A * W * list call :=
  match p with
  | Ret a => (a, w, [])
  | Do c k =>
      let '(r, w1) := h c w in
      let '(a, w2, tr) := exec (k r) w1 in
      (a, w2, c :: tr)
  end.

Definition result {A} (p : prog A) (w : W) : A := (exec p w).1.1.
Definition final {A} (p : prog A) (w : W) : W := (exec p w).1.2.
Definition trace {A} (p : prog A) (w : W) : list call := (exec p w).2.

Lemma exec_eq {A} (p : prog A) w : exec p w = (result p w, final p w, trace p w).
Proof. unfold result, final, trace. by destruct (exec p w) as [[a w'] tr]. Qed.

Lemma exec_bind {A B} (p : prog A) (f : A -> prog B) w :
  exec (bind p f) w =
  let '(a, w1, t1) := exec p w in
  let '(b, w2, t2) := exec (f a) w1 in
  (b, w2, t1 ++ t2).
Proof.
  revert w. induction p as [a|c k IH]; intros w; simpl.
  - by destruct (exec (f a) w) as [[b w2] t2].
  - destruct (h c w) as [r w1]. rewrite IH.
    destruct (exec (k r) w1) as [[a w2] t1].
    by destruct (exec (f a) w2) as [[b w3] t2].
Qed.

Lemma result_bind {A B} (p : prog A) (f : A -> prog B) w :
  result (bind p f) w = result (f (result p w)) (final p w).
Proof.
  unfold result, final. rewrite exec_bind.
  destruct (exec p w) as [[a w1] t1]. simpl. by destruct (exec (f a) w1) as [[b w2] t2].
Qed.

Lemma final_bind {A B} (p : prog A) (f : A -> prog B) w :
  final (bind p f) w = final (f (result p w)) (final p w).
Proof.
  unfold result, final. rewrite exec_bind.
  destruct (exec p w) as [[a w1] t1]. simpl. by destruct (exec (f a) w1) as [[b w2] t2].
Qed.

Lemma trace_bind {A B} (p : prog A) (f : A -> prog B) w :
  trace (bind p f) w = trace p w ++ trace (f (result p w)) (final p w).
Proof.
  unfold result, final, trace. rewrite exec_bind.
  destruct (exec p w) as [[a w1] t1]. simpl. by destruct (exec (f a) w1) as [[b w2] t2].
Qed.

Lemma result_Do {A} c (k : resp c -> prog A) w :
  result (Do c k) w = result (k (h c w).1) (h c w).2.
Proof.
  unfold result. simpl. destruct (h c w) as [r w1]. simpl.
  by destruct (exec (k r) w1) as [[a w2] t].
Qed.

Lemma final_Do {A} c (k : resp c -> prog A) w :
  final (Do c k) w = final (k (h c w).1) (h c w).2.
Proof.
  unfold final. simpl. destruct (h c w) as [r w1]. simpl.
  by destruct (exec (k r) w1) as [[a w2] t].
Qed.

Lemma trace_Do {A} c (k : resp c -> prog A) w :
  trace (Do c k) w = c :: trace (k (h c w).1) (h c w).2.
Proof.
  unfold trace. simpl. destruct (h c w) as [r w1]. simpl.
  by destruct (exec (k r) w1) as [[a w2] t].
Qed.

(** A sequence that yields a value went through both of its parts. *)
Lemma bindR_Ok {A B} (p : prog (res A)) (f : A -> prog (res B)) w b :
  result (bindR p f) w = Ok b ->
  exists a, result p w = Ok a /\ result (f a) (final p w) = Ok b /\
    trace (bindR p f) w = trace p w ++ trace (f a) (final p w).
Proof.
  unfold bindR. rewrite result_bind, trace_bind.
  destruct (result p w) as [a|m|]; [eauto|done|done].
Qed.

Lemma result_Ret {A} (a : A) w : result (Ret a) w = a.
Proof. done. Qed.
Lemma final_Ret {A} (a : A) w : final (Ret a) w = w.
Proof. done. Qed.
Lemma trace_Ret {A} (a : A) w : trace (Ret a) w = [].
Proof. done. Qed.

(** The calls of a run with the answers they got. *)
Fixpoint answers {A} (p : prog A) (w : W) : list answered :=
  match p with
  | Ret _ => []
  | Do c k => Answer c (h c w).1 :: answers (k (h c w).1) (h c w).2
  end.

Lemma answers_Do {A} c (k : resp c -> prog A) w :
  answers (Do c k) w = Answer c (h c w).1 :: answers (k (h c w).1) (h c w).2.
Proof. done. Qed.

Lemma answers_Ret {A} (a : A) w : answers (Ret a) w = [].
Proof. done. Qed.

Lemma answers_bind {A B} (p : prog A) (f : A -> prog B) w :
  answers (bind p f) w = answers p w ++ answers (f (result p w)) (final p w).
Proof.
  revert w. induction p as [a|c k IH]; intros w; [done|]. cbn [bind].
  by rewrite !answers_Do, result_Do, final_Do, IH.
Qed.

(** Weakest-precondition style reading of a run: [post] holds of the result,
    the final world and the trace. *)
Definition runs {A} (p : prog A) (w : W) (post : A -> W -> list call -> Prop) : Prop :=
  post (result p w) (final p w) (trace p w).

Lemma runs_Ret {A} (a : A) w (post : A -> W -> list call -> Prop) :
  post a w [] -> runs (Ret a) w post.
Proof. done. Qed.

Lemma runs_Do {A} c (k : resp c -> prog A) w post :
  (forall r w', h c w = (r, w') ->
     runs (k r) w' (fun a w2 t => post a w2 (c :: t))) ->
  runs (Do c k) w post.
Proof.
  unfold runs. rewrite result_Do, final_Do, trace_Do. intros H.
  destruct (h c w) as [r w'] eqn:E. by apply (H r w').
Qed.

Lemma runs_bind {A B} (p : prog A) (f : A -> prog B) w post :
  runs p w (fun a w1 t1 => runs (f a) w1 (fun b w2 t2 => post b w2 (t1 ++ t2))) ->
  runs (bind p f) w post.
Proof. unfold runs. by rewrite result_bind, final_bind, trace_bind. Qed.

Lemma runs_mono {A} (p : prog A) w (P Q : A -> W -> list call -> Prop) :
  runs p w P -> (forall a w' t, P a w' t -> Q a w' t) -> runs p w Q.
Proof. unfold runs. auto. Qed.
End Exec.

(** Symbolic execution of a program against [runs]: one case per answer. *)
Ltac run_step :=
  lazymatch goal with
  | |- runs _ (Ret _) _ _ => apply runs_Ret
  | |- runs _ (bind _ _) _ _ => apply runs_bind
  | |- runs _ (bindR _ _) _ _ => unfold bindR
  | |- runs _ (try_catch _ _) _ _ => unfold try_catch
  | |- runs _ (Do _ _) _ _ => apply runs_Do; intros ? ? _
  | |- runs _ (match ?x with _ => _ end) _ _ => destruct x eqn:?
  end.

#[export] Hint Rewrite @result_bind @final_bind @trace_bind @result_Do @final_Do @trace_Do
  @result_Ret @final_Ret @trace_Ret @answers_bind @answers_Do @answers_Ret : sat_rw.

(** ** What a program may do, whatever the answers

    [holds C R p]: every call [p] can make satisfies [C] and every value it can
    return satisfies [R], for any answers at all. *)
Fixpoint holds {A} (C : call -> Prop) (R : A -> Prop) (p : prog A) : Prop :=
  match p with
  | Ret a => R a
  | Do c k => C c /\ forall r, holds C R (k r)
  end.

Lemma holds_Do {A} (C : call -> Prop) (R : A -> Prop) c k :
  C c -> (forall r, holds C R (k r)) -> holds C R (Do c k).
Proof. done. Qed.

Lemma holds_bind {A B} C (R : A -> Prop) (Q : B -> Prop) p f :
  holds C R p -> (forall a, R a -> holds C Q (f a)) -> holds C Q (bind p f).
Proof.
  intros Hp Hf. induction p as [a|c k IH]; simpl in *; [auto|].
  destruct Hp as [Hc Hk]. split; [done|]. intros r. apply IH, Hk.
Qed.

Lemma holds_mono {A} (C D : call -> Prop) (R Q : A -> Prop) p :
  holds C R p -> (forall c, C c -> D c) -> (forall a, R a -> Q a) -> holds D Q p.
Proof.
  intros Hp HC HR. induction p as [a|c k IH]; simpl in *; [auto|].
  destruct Hp as [Hc Hk]. split; [auto|]. intros r. apply IH, Hk.
Qed.

Lemma holds_result {W} (h : forall c, W -> resp c * W) {A} C (R : A -> Prop) p w :
  holds C R p -> R (result h p w).
Proof.
  revert w. induction p as [a|c k IH]; intros w; simpl; [done|].
  intros [_ Hk]. rewrite result_Do. apply IH, Hk.
Qed.

Lemma holds_trace {W} (h : forall c, W -> resp c * W) {A} C (R : A -> Prop) p w :
  holds C R p -> Forall C (trace h p w).
Proof.
  revert w. induction p as [a|c k IH]; intros w; simpl; [constructor|].
  intros [Hc Hk]. rewrite trace_Do. constructor; [done|]. apply IH, Hk.
Qed.

Lemma holds_runs {W} (h : forall c, W -> resp c * W) {A} C (R : A -> Prop) p w :
  holds C R p -> runs h p w (fun a _ t => R a /\ Forall C t).
Proof.
  split; [by eapply holds_result|by eapply holds_trace].
Qed.

(** Symbolic execution against [holds]; a bind needs its middle condition. *)
Ltac holds_step :=
  lazymatch goal with
  | |- holds _ _ (Ret _) => simpl
  | |- holds _ _ (bindR _ _) => unfold bindR
  | |- holds _ _ (try_catch _ _) => unfold try_catch
  | |- holds _ _ (try_finally _ _) => unfold try_finally
  | |- holds _ _ (Do _ _) => apply holds_Do; [|intros ?]
  | |- holds _ _ (match ?x with _ => _ end) => destruct x eqn:?
  end.

(** ** The state manager along a trace *)

(** The operations a task performed on the state manager, in order. *)
Definition sm_ops (tr : list call) : list StateManager.op :=
  omap (fun c => match c with SM o => Some o | _ => None end) tr.

Lemma sm_ops_app t1 t2 : sm_ops (t1 ++ t2) = sm_ops t1 ++ sm_ops t2.
Proof. unfold sm_ops. apply omap_app. Qed.

#[export] Hint Rewrite sm_ops_app : sat_rw.

Lemma sm_ops_nil tr : Forall (fun c => forall o, c <> SM o) tr -> sm_ops tr = [].
Proof.
  induction 1 as [|c tr Hc _ IH]; [done|]. unfold sm_ops in *. rewrite omap_cons, IH.
  destruct c; try done. by destruct (Hc o).
Qed.

Lemma sm_ops_Forall (P : StateManager.op -> Prop) tr :
  Forall (fun c => forall o, c = SM o -> P o) tr -> Forall P (sm_ops tr).
Proof.
  induction 1 as [|c tr Hc _ IH]; [constructor|]. unfold sm_ops in *. rewrite omap_cons.
  destruct c; try done. constructor; auto.
Qed.

(** ** A clock that advances

    What [setTimeout] and [Date.now] promise: no call turns the clock back, and
    a sleep of [ms] lasts at least [ms]. *)
Class Clock {W : Type} (h : forall c, W -> resp c * W) (time : W -> Z) : Prop := {
  clock_now : forall w, (h Now w).1 = time w;
  clock_mono : forall c w, time w <= time (h c w).2;
  clock_sleep : forall ms w, time w + ms <= time (h (Sleep ms) w).2
}.

Lemma clock_final {W} (h : forall c, W -> resp c * W) time `{!Clock h time} {A} (p : prog A) w :
  time w <= time (final h p w).
Proof.
  revert w. induction p as [a|c k IH]; intros w; props; [lia|].
  etransitivity; [apply clock_mono|apply IH].
Qed.

(** ** A concrete world, for the witnesses

    A clock, scripted answers for child processes (each of which ends), no other
    task. *)
Record world := mkWorld {
  w_time : Z;
  w_fft : option FFTData;
  w_spawns : list (list proc_event);
  w_files : list string;
  w_stop : bool;
  w_scanning : bool;
  w_status : SystemStatus
}.

Definition sample_satellite : SatelliteInfo :=
  mkSatelliteInfo "METEOR-M N2-3" 57166 137900000 lrpt (SIGNAL_CONFIGS lrpt) true None.

Definition set_time (t : Z) (w : world) : world :=
  mkWorld t (w_fft w) (w_spawns w) (w_files w) (w_stop w) (w_scanning w) (w_status w).

Definition handle (c : call) (w : world) : resp c * world :=
  match c as c return resp c * world with
  | Now => (w_time w, w)
  | Sleep ms => (tt, set_time (w_time w + Z.max 0 ms) w)
  | Spawn _ _ =>
      match w_spawns w with
      | [] => ([OnClose (Some 0)], w)
      | e :: r => (e ++ [OnClose (Some 0)], mkWorld (w_time w) (w_fft w) r (w_files w) (w_stop w)
                        (w_scanning w) (w_status w))
      end
  | FileExists p => (bool_decide (p ∈ w_files w), w)
  | EnsureDir _ => (inr tt, w)
  | ReadText _ => (inl "ENOENT"%string, w)
  | WriteText p _ => (inr tt, mkWorld (w_time w) (w_fft w) (w_spawns w) (p :: w_files w)
                                (w_stop w) (w_scanning w) (w_status w))
  | Fetch _ => (inl "fetch failed"%string, w)
  | Http _ _ _ => (inl "fetch failed"%string, w)
  | WriteBody p _ => (inr tt, mkWorld (w_time w) (w_fft w) (w_spawns w) (p :: w_files w)
                                (w_stop w) (w_scanning w) (w_status w))
  | SM o =>
      (tt, match o with
           | StateManager.SetStatus s =>
               mkWorld (w_time w) (w_fft w) (w_spawns w) (w_files w) (w_stop w) (w_scanning w) s
           | StateManager.StartPass _ =>
               mkWorld (w_time w) (w_fft w) (w_spawns w) (w_files w) (w_stop w) (w_scanning w)
                 capturing
           | StateManager.CompletePass _ =>
               mkWorld (w_time w) (w_fft w) (w_spawns w) (w_files w) (w_stop w) (w_scanning w) idle
           | _ => w
           end)
  | GetStatus => (w_status w, w)
  | IsFFTRunning => (match w_fft w with Some _ => true | None => false end, w)
  | StopFFT => (tt, mkWorld (w_time w) None (w_spawns w) (w_files w) (w_stop w)
                      (w_scanning w) (w_status w))
  | LatestFFT => (w_fft w, w)
  | IsScanning => (w_scanning w, w)
  | SetScanning b => (tt, mkWorld (w_time w) (w_fft w) (w_spawns w) (w_files w) (w_stop w) b
                            (w_status w))
  | ShouldStop => (w_stop w, w)
  | SetShouldStop b => (tt, mkWorld (w_time w) (w_fft w) (w_spawns w) (w_files w) b
                              (w_scanning w) (w_status w))
  | GroundScanEnabled => (true, w)
  | ForkScan _ => (tt, w)
  | SaveCapture _ _ => (inr 1, w)
  | SaveImages _ _ => (inr tt, w)
  | SpawnRecorder _ _ _ _ p => (inr tt, mkWorld (w_time w) (w_fft w) (w_spawns w) (p :: w_files w)
                                          (w_stop w) (w_scanning w) (w_status w))
  | KillRtl => (tt, w)
  | AwaitSoxClose _ => (true, w)
  | KillSox => (tt, w)
  | SstvActive => (false, w)
  | SetManualSstv _ => (tt, w)
  | Unlink p => (inr tt, mkWorld (w_time w) (w_fft w) (w_spawns w) (js_filter (fun q => negb (bool_decide (q = p))) (w_files w))
                           (w_stop w) (w_scanning w) (w_status w))
  | InitDatabase _ => (inr tt, w)
  | StartWebServer _ _ _ => (tt, w)
  | StartGlobe _ => (inr tt, w)
  | Exit _ => (tt, w)
  end.

Global Instance handle_clock : Clock handle w_time.
Proof.
  split; intros.
  - done.
  - destruct c; simpl; try lia; repeat break_match; simpl; lia.
  - simpl. lia.
Qed.
