(* ===== verification/Shell.v ===== *)
(** * Child processes and file names (src/backend/utils/shell.ts, fs.ts)

    [runCommand] folds the events of a child process into one settled result;
    a process that reports neither an error nor its end leaves it pending. *)

From S2P Require Import Prelude JsStd JsDate Types StateManager Effects.
Local Open Scope Z_scope.
Local Open Scope prog_scope.

(* @src backend/utils/shell.ts:21-46 runCommand *)
Fixpoint settle (command : string) (out err : string) (evs : list proc_event)
  : res CommandResult :=
  match evs with
  | [] => Pending
  | OnStdout d :: r => settle command (out ++ d)%string err r
  | OnStderr d :: r => settle command out (err ++ d)%string r
  | OnError m :: _ => Throw ("Failed to start " ++ command ++ ": " ++ m)%string
  | OnClose code :: _ => Ok (mkCommandResult out err (default 0 code))
  end.

(* @src backend/utils/shell.ts:16-47 runCommand *)
Definition runCommand (command : string) (args : list arg) : prog (res CommandResult) :=
  evs <~ Spawn command args;;
  Ret (settle command "" "" evs).

#[global] Arguments runCommand : simpl never.

(* @src backend/utils/shell.ts:90-97 commandExists *)
Definition commandExists (command : string) : prog (res bool) :=
  try_catch (r <-! runCommand "which" [Lit command];; Ret (Ok (Z.eqb (exitCode r) 0)))
    (fun _ => Ret (Ok false)).

(* @src backend/utils/shell.ts:99-114 checkDependencies *)
Fixpoint checkDependencies_from (results : list (string * bool)) (commands : list string)
  : prog (res (list (string * bool))) :=
  match commands with
  | [] => Ret (Ok results)
  | cmd :: r =>
      exists_ <-! commandExists cmd;;
      checkDependencies_from (map_set cmd exists_ results) r
  end.

Definition checkDependencies (commands : list string) : prog (res (list (string * bool))) :=
  checkDependencies_from [] commands.

(* @src backend/utils/fs.ts:36-40 generateFilename *)
Definition generateFilename (now : date) (satellite extension : string) : string :=
  let timestamp := slice_to 19 (dash_punct (toISOString now)) in
  let safeName := replace_ws "-" satellite in
  (safeName ++ "_" ++ timestamp ++ "." ++ extension)%string.

(** ** Facts *)

(** A process that settles: it reports an error or its end. *)
Definition terminal (e : proc_event) : bool :=
  match e with OnError _ | OnClose _ => true | _ => false end.

Class Settles {W : Type} (h : forall c, W -> resp c * W) : Prop :=
  settles : forall cmd args w, existsb terminal (h (Spawn cmd args) w).1 = true.

Global Instance handle_settles : Settles handle.
Proof.
  intros cmd args w. simpl. destruct (w_spawns w) as [|e r]; simpl; [done|].
  rewrite existsb_app. simpl. by rewrite orb_true_r.
Qed.

Lemma settle_terminal command out err evs :
  existsb terminal evs = true -> settle command out err evs <> Pending.
Proof.
  revert out err. induction evs as [|e evs IH]; intros out err; [done|].
  destruct e; simpl; auto.
Qed.

(** Output split into chunks is collected as one text. *)
Lemma settle_chunks command out err outs errs code rest :
  settle command out err (map OnStdout outs ++ map OnStderr errs ++ OnClose code :: rest) =
  Ok (mkCommandResult (foldl String.append out outs) (foldl String.append err errs)
        (default 0 code)).
Proof.
  revert out. induction outs as [|o outs IH]; intros out; simpl; [|by rewrite IH].
  revert err. induction errs as [|e errs IH]; intros err; simpl; [done|by rewrite IH].
Qed.

Lemma runCommand_settles {W} (h : forall c, W -> resp c * W) `{!Settles h} cmd args w :
  result h (runCommand cmd args) w <> Pending.
Proof. unfold runCommand. props. apply settle_terminal, settles. Qed.

Lemma runCommand_trace {W} (h : forall c, W -> resp c * W) cmd args w :
  trace h (runCommand cmd args) w = [Spawn cmd args].
Proof. unfold runCommand. by props. Qed.

(** A command in the middle of a program: any result, which is not pending when
    the processes end. *)
Lemma runs_runCommand {W} (h : forall c, W -> resp c * W) cmd args w post :
  (forall r w', (Settles h -> r <> Pending) -> post r w' [Spawn cmd args]) ->
  runs h (runCommand cmd args) w post.
Proof.
  intros H. unfold runs. rewrite runCommand_trace. apply H. intros Hs.
  by apply runCommand_settles.
Qed.

(** [checkDependencies] reports every command exactly once, in order, and keeps
    the last answer for a command listed twice. *)
Lemma commandExists_ok {W} (h : forall c, W -> resp c * W) `{!Settles h} cmd w :
  exists b, result h (commandExists cmd) w = Ok b.
Proof.
  unfold commandExists, try_catch, bindR. props.
  pose proof (runCommand_settles h "which" [Lit cmd] w) as Hs.
  destruct (result h (runCommand _ _) w) as [r|m|]; props; [eauto|eauto|done].
Qed.

Section Dependencies.
Context {W : Type} (h : forall c, W -> resp c * W) `{!Settles h}.

Lemma checkDependencies_from_keys commands : forall results w,
  exists m, result h (checkDependencies_from results commands) w = Ok m /\
    (forall x, x ∈ m.*1 <-> x ∈ results.*1 \/ x ∈ commands) /\
    (map_wf results -> map_wf m).
Proof.
  induction commands as [|c r IH]; intros results w; simpl.
  - exists results. split_and!; [done| |done]. intros x. rewrite elem_of_nil. tauto.
  - unfold bindR. props. destruct (commandExists_ok h c w) as [b Hb]. rewrite Hb.
    destruct (IH (map_set c b results) (final h (commandExists c) w)) as (m & Hm & Hk & Hw).
    exists m. split_and!; [done| |].
    + intros x. rewrite Hk, map_set_keys, elem_of_cons. tauto.
    + intros Hr. by apply Hw, map_set_wf.
Qed.
End Dependencies.

(** Whether [which] finds a command, by what its process reports. *)
Definition found (evs : list proc_event) : bool :=
  match settle "which" "" "" evs with Ok r => Z.eqb (exitCode r) 0 | _ => false end.

(** The questions for some commands, with what the processes reported. *)
Definition which (commands : list string) (reports : list (list proc_event)) : list answered :=
  zip_with (fun c evs => Answer (Spawn "which" [Lit c]) evs) commands reports.

Section Which.
Context {W : Type} (h : forall c, W -> resp c * W) `{!Settles h}.

(** A command starts one process and settles as its reports say. *)
Lemma runCommand_asks cmd args w : exists evs,
  answers h (runCommand cmd args) w = [Answer (Spawn cmd args) evs] /\
  result h (runCommand cmd args) w = settle cmd "" "" evs /\ settle cmd "" "" evs <> Pending.
Proof.
  exists (h (Spawn cmd args) w).1. unfold runCommand. rewrite answers_Do, answers_Ret, result_Do, result_Ret.
  split; [done|]. split; [done|apply settle_terminal, settles].
Qed.

Lemma commandExists_asks cmd w : exists evs,
  answers h (commandExists cmd) w = [Answer (Spawn "which" [Lit cmd]) evs] /\
  result h (commandExists cmd) w = Ok (found evs).
Proof.
  exists (h (Spawn "which" [Lit cmd]) w).1. unfold commandExists, try_catch, bindR, runCommand, found. props.
  pose proof (settle_terminal "which" "" "" _ (settles (h := h) "which" [Lit cmd] w)) as Hs.
  destruct (settle _ _ _ _) as [r|m|]; by props.
Qed.

(** Each command is asked for once, in order, and its answer is stored. *)
Lemma checkDependencies_asks commands : forall results w, exists reports,
  length reports = length commands /\
  answers h (checkDependencies_from results commands) w = which commands reports /\
  result h (checkDependencies_from results commands) w =
    Ok (foldl (fun m x => map_set x.1 (found x.2) m) results (zip commands reports)).
Proof.
  induction commands as [|c r IH]; intros results w; [by exists []|]. cbn [checkDependencies_from]. unfold bindR. props.
  destruct (commandExists_asks c w) as (evs & Ha & Hr). rewrite Ha, Hr.
  destruct (IH (map_set c (found evs) results) (final h (commandExists c) w)) as (reports & Hl & Hq & Hx).
  exists (evs :: reports). cbn [length]. split; [by f_equal|]. split; [by rewrite Hq|by rewrite Hx].
Qed.
End Which.

Lemma runCommand_calls (C : call -> Prop) (R : res CommandResult -> Prop) c a :
  C (Spawn c a) -> (forall r, R r) -> holds C R (runCommand c a).
Proof. intros HC HR. split; [done|]. intros evs. apply HR. Qed.

(** From here on [runCommand] is used through these facts. *)
#[global] Opaque runCommand.
