(* ===== verification/Process.v ===== *)
(** * A process that is watched (src/backend/utils/shell.ts, [spawnProcess])

    Unlike [runCommand], [spawnProcess] hands the process out: its caller may signal it
    and wait for its end, at any time and more than once.  The listeners it sets are a
    transition system over what the process emits and what the caller does. *)

From S2P Require Import Prelude JsStd Types StateManager Effects Shell.
Local Open Scope Z_scope.

Module Process.

(** The variables of the closure, whether a signal was sent, whether the process has
    closed, and the promises that wait. *)
(* @src backend/utils/shell.ts:54-57 spawnProcess *)
Record process := mkProcess {
  out : string;
  err : string;
  killed : bool;
  closed : bool;
  waits : list nat
}.

Definition spawned : process := mkProcess "" "" false false [].

(** What happens to it: the process emits, or the caller calls [kill] or [wait]; the number
    tells the promises apart. *)
Inductive event := Emit (e : proc_event) | Kill | Wait (i : nat).

(** What it does: sends SIGTERM, settles a promise, or brings the program down. *)
Inductive output := Sigterm | Resolve (i : nat) (r : CommandResult) | Crash (message : string).

(* @src backend/utils/shell.ts:59-65 stdout *)
Definition on_data (e : proc_event) (p : process) : process :=
  match e with
  | OnStdout d => mkProcess (out p ++ d) (err p) (killed p) (closed p) (waits p)
  | OnStderr d => mkProcess (out p) (err p ++ d) (killed p) (closed p) (waits p)
  | _ => p
  end.

(** A signal to a process that has ended is not sent, and [killed] not set. *)
(* @src backend/utils/shell.ts:70-74 kill *)
Definition kill (p : process) : process * list output :=
  if killed p || closed p then (p, [])
  else (mkProcess (out p) (err p) true (closed p) (waits p), [Sigterm]).

(* @src backend/utils/shell.ts:76-78 wait *)
Definition wait (i : nat) (p : process) : process :=
  mkProcess (out p) (err p) (killed p) (closed p) (waits p ++ [i]).

(* @src backend/utils/shell.ts:78-84 close *)
Definition on_close (code : option Z) (p : process) : process * list output :=
  (mkProcess (out p) (err p) (killed p) true (waits p),
   map (fun i => Resolve i (mkCommandResult (out p) (err p) (default 0 code))) (waits p)).

(** Nothing is emitted after the end.  There is no listener of [error], which node then
    throws. *)
(* @src backend/utils/shell.ts:49-88 spawnProcess *)
Definition step (e : event) (p : process) : process * list output :=
  match e with
  | Kill => kill p
  | Wait i => (wait i p, [])
  | Emit e =>
      if closed p then (p, [])
      else match e with
           | OnClose code => on_close code p
           | OnError m => (p, [Crash m])
           | _ => (on_data e p, [])
           end
  end.

Fixpoint run (evs : list event) (p : process) : process * list output :=
  match evs with
  | [] => (p, [])
  | e :: evs => let '(p, o) := step e p in let '(p, o2) := run evs p in (p, o ++ o2)
  end.

(** ** Reading a run *)

Definition emitted (evs : list event) : list proc_event :=
  omap (fun e => match e with Emit e => Some e | _ => None end) evs.

Definition answers (i : nat) (os : list output) : list CommandResult :=
  omap (fun o => match o with Resolve j r => if Nat.eqb i j then Some r else None | _ => None end) os.

Definition sigterms (os : list output) : nat :=
  length (js_filter (fun o => match o with Sigterm => true | _ => false end) os).

(** What a promise is to be settled with. *)
Definition settled (command : string) (p : process) (evs : list event) : list CommandResult :=
  match settle command (out p) (err p) (emitted evs) with Ok r => [r] | _ => [] end.

Definition waited (i : nat) (evs : list event) : bool :=
  existsb (fun e => match e with Wait j => Nat.eqb i j | _ => false end) evs.
Definition failed (evs : list event) : bool :=
  existsb (fun e => match e with Emit (OnError _) => true | _ => false end) evs.
Definition ended (evs : list event) : bool :=
  existsb (fun e => match e with Emit (OnClose _) => true | _ => false end) evs.

Lemma events_cons e evs p :
  run (e :: evs) p = ((run evs (step e p).1).1, (step e p).2 ++ (run evs (step e p).1).2).
Proof. simpl. destruct (step e p) as [p1 o1]. simpl. by destruct (run evs p1). Qed.

Lemma events_app a : forall b p,
  run (a ++ b) p = ((run b (run a p).1).1, (run a p).2 ++ (run b (run a p).1).2).
Proof.
  induction a as [|e a IH]; intros b p; [simpl; by destruct (run b p)|].
  change ((e :: a) ++ b) with (e :: (a ++ b)). rewrite !events_cons, IH. cbn [fst snd]. by rewrite app_assoc.
Qed.

Lemma answers_app i a b : answers i (a ++ b) = answers i a ++ answers i b.
Proof. apply omap_app. Qed.

Lemma answers_close i r l :
  answers i (map (fun j => Resolve j r) l) = repeat r (length (js_filter (Nat.eqb i) l)).
Proof.
  unfold answers, js_filter. induction l as [|j l IH]; [done|]. cbn [map]. rewrite omap_cons, IH.
  simpl. by destruct (Nat.eqb i j).
Qed.

Lemma waits_app i l j : js_filter (Nat.eqb i) (l ++ [j]) =
  js_filter (Nat.eqb i) l ++ (if Nat.eqb i j then [j] else []).
Proof. unfold js_filter. rewrite List.filter_app. simpl. by destruct (Nat.eqb i j). Qed.

(** After the end nothing is settled and nothing signalled. *)
Lemma run_closed evs : forall p, closed p = true -> closed (run evs p).1 = true /\ (run evs p).2 = [].
Proof.
  induction evs as [|e evs IH]; intros p Hp; [done|]. rewrite events_cons. cbn [fst snd].
  assert (H : closed (step e p).1 = true /\ (step e p).2 = []).
  { destruct e as [e| |i]; simpl; [by rewrite Hp| |done]. unfold kill. rewrite Hp, orb_true_r. by split. }
  destruct H as [H1 H2]. destruct (IH _ H1) as [H3 H4]. by rewrite H2, H4.
Qed.

(** A promise that waits is settled once, with what [settle] makes of what follows. *)
Lemma run_answers command i evs : forall p,
  closed p = false -> waited i evs = false -> failed evs = false ->
  answers i (run evs p).2 =
    concat (repeat (settled command p evs) (length (js_filter (Nat.eqb i) (waits p)))).
Proof.
  unfold settled. induction evs as [|e evs IH]; intros p Hp Hw Hf.
  { simpl. set (n := length _). clearbody n. by induction n. }
  rewrite events_cons. cbn [snd]. rewrite answers_app.
  cbn [waited failed existsb] in Hw, Hf. apply orb_false_iff in Hw as [Hi Hw], Hf as [He Hf].
  assert (Hk : forall q, closed q = false -> out q = out p -> err q = err p ->
    length (js_filter (Nat.eqb i) (waits q)) = length (js_filter (Nat.eqb i) (waits p)) ->
    answers i (run evs q).2 = concat (repeat (match settle command (out p) (err p) (emitted evs) with
      Ok r => [r] | _ => [] end) (length (js_filter (Nat.eqb i) (waits p))))).
  { intros q H1 H2 H3 H4. rewrite (IH q H1 Hw Hf). by rewrite H2, H3, H4. }
  destruct e as [e| |j]; cbn [step].
  - rewrite Hp. destruct e as [d|d|m|code]; cbn [fst snd].
    + by rewrite (IH (on_data (OnStdout d) p) Hp Hw Hf).
    + by rewrite (IH (on_data (OnStderr d) p) Hp Hw Hf).
    + done.
    + cbn [on_close fst snd]. rewrite answers_close.
      destruct (run_closed evs (mkProcess (out p) (err p) (killed p) true (waits p)) eq_refl) as [_ ->].
      rewrite app_nil_r. simpl. set (n := length _). clearbody n. induction n as [|n IHn]; [done|].
      simpl. by rewrite IHn.
  - unfold kill. rewrite Hp. destruct (killed p); simpl; by apply Hk.
  - simpl. apply Hk; try done. cbn [wait waits]. rewrite waits_app, Hi. by rewrite app_nil_r.
Qed.

(** Before the end the process collects what was emitted. *)
Lemma run_open evs : forall p, closed p = false -> ended evs = false -> failed evs = false ->
  closed (run evs p).1 = false /\
  forall command rest, settle command (out (run evs p).1) (err (run evs p).1) rest =
    settle command (out p) (err p) (emitted evs ++ rest).
Proof.
  induction evs as [|e evs IH]; intros p Hp He Hf; [done|]. rewrite events_cons. cbn [fst].
  cbn [ended failed existsb] in He, Hf. apply orb_false_iff in He as [He1 He], Hf as [Hf1 Hf].
  destruct e as [e| |j]; cbn [step].
  - rewrite Hp. destruct e as [d|d|m|code]; try done.
    + by apply (IH (on_data (OnStdout d) p) Hp He Hf).
    + by apply (IH (on_data (OnStderr d) p) Hp He Hf).
  - unfold kill. rewrite Hp. destruct (killed p) eqn:Hk; cbn [orb fst]; [by apply (IH p Hp He Hf)|].
    by apply (IH (mkProcess (out p) (err p) true false (waits p)) eq_refl He Hf).
  - by apply (IH (wait j p) Hp He Hf).
Qed.

Lemma run_waits i evs : forall p, waited i evs = false ->
  length (js_filter (Nat.eqb i) (waits (run evs p).1)) = length (js_filter (Nat.eqb i) (waits p)).
Proof.
  induction evs as [|e evs IH]; intros p Hw; [done|]. rewrite events_cons. cbn [fst].
  cbn [waited existsb] in Hw. apply orb_false_iff in Hw as [Hi Hw]. rewrite (IH _ Hw).
  destruct e as [e| |j]; cbn [step].
  - destruct (closed p); [done|]. by destruct e.
  - unfold kill. by destruct (killed p || closed p).
  - cbn [wait waits fst]. rewrite waits_app, Hi. by rewrite app_nil_r.
Qed.

Lemma emitted_app a b : emitted (a ++ b) = emitted a ++ emitted b.
Proof. apply omap_app. Qed.

(** ** Properties *)

(** To wait for a process is to have run it as a command: a promise asked for before the
    process ends is settled as [runCommand] would settle, with everything that was
    emitted, also before it was asked for, once, and not before the end. *)
Theorem wait_is_runCommand command i before after
  (Hopen : ended before = false) (Hok : failed (before ++ after) = false)
  (Hfresh : waited i (before ++ after) = false) :
  answers i (run (before ++ Wait i :: after) spawned).2 =
  match settle command "" "" (emitted (before ++ after)) with Ok r => [r] | _ => [] end.
Proof.
  unfold failed, waited in Hok, Hfresh. rewrite existsb_app in Hok, Hfresh.
  apply orb_false_iff in Hok as [Hok1 Hok2], Hfresh as [Hw1 Hw2].
  destruct (run_open before spawned eq_refl Hopen Hok1) as [Hc Hs].
  pose proof (run_waits i before spawned Hw1) as Hn. cbn in Hn.
  rewrite events_app. cbn [snd]. rewrite answers_app, events_cons. cbn [snd step fst].
  set (p := (run before spawned).1) in *.
  rewrite app_nil_l.
  rewrite (run_answers command i after (wait i p) Hc Hw2 Hok2).
  cbn [wait waits]. rewrite waits_app, length_app, Hn, Nat.eqb_refl. simpl. rewrite app_nil_r.
  unfold settled. cbn [wait out err]. rewrite Hs, emitted_app.
  rewrite (run_answers command i before spawned eq_refl Hw1 Hok1). done.
Qed.

Definition sample_before : list event := [Emit (OnStdout "a"); Kill].
Definition sample_after : list event :=
  [Emit (OnStderr "x"); Emit (OnStdout "b"); Wait 2; Kill; Emit (OnClose (Some 3))].

Lemma wait_is_runCommand_witness :
  answers 1 (run (sample_before ++ Wait 1 :: sample_after) spawned).2 = [mkCommandResult "ab" "x" 3].
Proof. exact (wait_is_runCommand "rtl_power" 1 sample_before sample_after eq_refl eq_refl eq_refl). Defined.

(** A promise asked for after the end is never settled: its caller waits for ever. *)
Lemma late_wait_hangs before after i :
  ended before = true -> failed before = false -> waited i before = false ->
  answers i (run (before ++ after) spawned).2 = [].
Proof.
  intros He Hf Hw. rewrite events_app. cbn [snd]. rewrite answers_app.
  rewrite (run_answers "" i before spawned eq_refl Hw Hf). simpl.
  assert (Hc : closed (run before spawned).1 = true).
  { clear Hw. revert He Hf. generalize spawned. induction before as [|e l IH]; intros p He Hf; [done|].
    rewrite events_cons. cbn [fst]. cbn [ended failed existsb] in He, Hf. apply orb_false_iff in Hf as [Hf1 Hf].
    destruct (closed (step e p).1) eqn:Hc; [by apply run_closed|]. apply IH; [|done].
    apply orb_true_iff in He as [He|He]; [|done]. destruct e as [[]| |]; try done.
    simpl in Hc. destruct (closed p) eqn:Hp; simpl in Hc; by rewrite ?Hp in Hc. }
  by destruct (run_closed after _ Hc) as [_ ->].
Qed.

(** However often it is killed, a process is signalled once. *)
Lemma signalled_once evs : forall p,
  (sigterms (run evs p).2 + (if killed p then 1 else 0) <= 1)%nat.
Proof.
  induction evs as [|e evs IH]; intros p; [unfold sigterms; simpl; destruct (killed p); lia|]. rewrite events_cons. cbn [snd].
  unfold sigterms, js_filter. rewrite List.filter_app, length_app. specialize (IH (step e p).1).
  unfold sigterms, js_filter in IH.
  assert (Hs : (length (List.filter (fun o => match o with Sigterm => true | _ => false end) (step e p).2) +
    (if killed p then 1 else 0) <= if killed (step e p).1 then 1 else 0)%nat); [|lia].
  destruct e as [e| |j]; cbn [step].
  - destruct (closed p); [simpl; lia|]. destruct e as [d|d|m|code]; simpl; try lia.
    rewrite (proj2 (length_zero_iff_nil _)); [lia|]. by induction (waits p).
  - unfold kill. destruct (killed p) eqn:Hk; simpl; [rewrite Hk; simpl; lia|].
    destruct (closed p); simpl; rewrite ?Hk; simpl; lia.
  - simpl. lia.
Qed.

(** A program that is missing brings the station down: [runCommand] rejects, but the
    process handed out has no listener of its error. *)
Example unheard_error :
  (run [Emit (OnError "spawn rtl_power ENOENT")] spawned).2 = [Crash "spawn rtl_power ENOENT"].
Proof. reflexivity. Qed.
End Process.
