(* ===== verification/Signal.v ===== *)
(** * Signal strength (src/backend/capture/signal.ts)

    Parsing of the power sweeps printed by rtl_power, the vote over several
    attempts that decides whether a satellite is audible, and the line buffer of
    the continuous monitor. *)

From S2P Require Import Prelude JsStd Types StateManager Effects Shell.
Local Open Scope prog_scope.

Module Signal.

(* @src backend/capture/signal.ts:7-11 SignalStrength *)
Record SignalStrength := mkStrength { power_frequency : Z; power : Q; power_timestamp : date }.

(** The seventh comma separated field, when it is a finite number. *)
(* @src backend/capture/signal.ts:29-33 parsePowerFromLine *)
Definition parsePowerFromLine (line : string) : option Q :=
  let parts := split_on comma line in
  if 7 <=? length parts then
    match parseFloat (default "0" (parts !! 6)) with NFin q => Some q | _ => None end
  else None.

(* @src backend/capture/signal.ts:17-26 parsePowerReadings *)
Definition add_reading (acc : Q * nat) (line : string) : Q * nat :=
  let parts := split_on comma line in
  let p := if 7 <=? length parts then parseFloat (default "0" (parts !! 6)) else NNaN in
  match p with
  | NFin q => ((acc.1 + q)%Q, S acc.2)
  | _ => acc
  end.

(* @src backend/capture/signal.ts:13-27 parsePowerReadings *)
Definition parsePowerReadings (out : string) : Q * nat :=
  foldl add_reading (0%Q, 0) (split_on nl (trim out)).

(* @src backend/capture/signal.ts:35-70 checkSignalStrength *)
Definition checkSignalStrength (satellite : SatelliteInfo) (gain : Q)
  : prog (res (option SignalStrength)) :=
  let freqMHz := (inject_Z (si_frequency satellite) / inject_Z 1000000)%Q in
  try_catch
    (result <-! runCommand "rtl_power"
       [Lit "-f"; FreqRange freqMHz (freqMHz + 1)%Q (show_Z scanBandwidthHz);
        Lit "-g"; Num gain; Lit "-i"; Lit "1"; Lit "-e"; Secs scanDurationSeconds; Lit "-"];;
     let scanFailed := negb (Z.eqb (exitCode result) 0) in
     let '(totalPower, count) :=
       if scanFailed then (0%Q, 0) else parsePowerReadings (stdout result) in
     if 0 <? count then
       now <~ Now;;
       Ret (Ok (Some (mkStrength (si_frequency satellite)
                        (totalPower / inject_Z (Z.of_nat count))%Q now)))
     else Ret (Ok None))
    (fun _ => Ret (Ok None)).

(* @src backend/capture/signal.ts:72-89 checkSignalOnce *)
Definition checkSignalOnce (satellite : SatelliteInfo) (gain minStrength : Q) : prog (res bool) :=
  strength <-! checkSignalStrength satellite gain;;
  Ret (Ok (match strength with Some s => minStrength <?q power s | None => false end)).

(** The attempts that remain, in order: a pause of 2 s between two attempts. *)
(* @src backend/capture/signal.ts:99-105 verifySignal *)
Fixpoint attempt_loop (check : prog (res bool)) (remaining : nat) (results : list bool)
  : prog (res (list bool)) :=
  match remaining with
  | 0 => Ret (Ok results)
  | S r =>
      isStrong <-! check;;
      match r with
      | 0 => attempt_loop check r (results ++ [isStrong])
      | _ => Sleep 2000;;; attempt_loop check r (results ++ [isStrong])
      end
  end.

(** [results.filter(Boolean).length >= Math.ceil(attempts / 2)]. *)
(* @src backend/capture/signal.ts:107-108 verifySignal *)
Definition vote (attempts : nat) (results : list bool) : bool :=
  (attempts + 1) / 2 <=? length (js_filter id results).

(* @src backend/capture/signal.ts:91-115 verifySignal *)
Definition verifySignal (satellite : SatelliteInfo) (gain minStrength : Q) (attempts : nat)
  : prog (res bool) :=
  results <-! attempt_loop (checkSignalOnce satellite gain minStrength) attempts [];;
  Ret (Ok (vote attempts results)).

(* @src backend/capture/signal.ts:121-157 verifySignalAtFrequency *)
Definition verifySignalAtFrequency (frequency : Z) (gain minStrength : Q) : prog (res bool) :=
  let freqMHz := (inject_Z frequency / inject_Z 1000000)%Q in
  try_catch
    (result <-! runCommand "rtl_power"
       [Lit "-f"; FreqRange freqMHz (freqMHz + (1 # 10))%Q "10k"; Lit "-g"; Num gain;
        Lit "-i"; Lit "1"; Lit "-e"; Lit "2s"; Lit "-"];;
     if negb (Z.eqb (exitCode result) 0) then Ret (Ok false)
     else
       let '(totalPower, count) := parsePowerReadings (stdout result) in
       if count =? 0 then Ret (Ok false)
       else
         let avgPower := (totalPower / inject_Z (Z.of_nat count))%Q in
         Ret (Ok (minStrength <?q avgPower)))
    (fun _ => Ret (Ok false)).

(** The 'data' handler of [startSignalMonitor]: the incomplete last line stays
    in the buffer, every complete line that carries a reading is reported. *)
(* @src backend/capture/signal.ts:178-189 startSignalMonitor *)
Definition monitor_data (buffer data : string) : string * list Q :=
  let lines := split_on nl (buffer ++ data)%string in
  (List.last lines "", omap parsePowerFromLine (removelast lines)).

Fixpoint monitor_run (buffer : string) (chunks : list string) : string * list Q :=
  match chunks with
  | [] => (buffer, [])
  | d :: r =>
      let '(b1, q1) := monitor_data buffer d in
      let '(b2, q2) := monitor_run b1 r in (b2, q1 ++ q2)
  end.

(** ** Facts about the readings *)

Lemma add_reading_parse acc line :
  add_reading acc line =
  match parsePowerFromLine line with Some q => ((acc.1 + q)%Q, S acc.2) | None => acc end.
Proof.
  unfold add_reading, parsePowerFromLine. destruct (7 <=? _); [|done].
  by destruct (parseFloat _).
Qed.

Lemma readings_fold lines acc :
  let qs := omap parsePowerFromLine lines in
  ((foldl add_reading acc lines).1 == acc.1 + foldr Qplus 0%Q qs)%Q /\
  (foldl add_reading acc lines).2 = acc.2 + length qs.
Proof.
  simpl. revert acc. induction lines as [|l lines IH]; intros acc.
  - simpl. split; [lra|lia].
  - rewrite omap_cons. simpl.
    destruct (IH (add_reading acc l)) as [H1 H2]. rewrite add_reading_parse in *.
    destruct (parsePowerFromLine l) as [q|]; simpl in *; (split; [|rewrite H2; simpl; lia]).
    + rewrite H1. ring.
    + exact H1.
Qed.

Lemma count_filter_snoc rs b :
  length (js_filter id (rs ++ [b])) = length (js_filter id rs) + (if b then 1 else 0).
Proof. unfold js_filter. rewrite List.filter_app, length_app. by destruct b. Qed.

Lemma split_on_snoc c s : exists l x, split_on c s = l ++ [x] /\ no_char c x = true.
Proof.
  induction s as [|a s IH]; simpl.
  - by exists [], ""%string.
  - destruct IH as (l & x & E & Hx). destruct (Ascii.eqb a c) eqn:Ha.
    + exists (""%string :: l), x. by rewrite E.
    + rewrite E. destruct l as [|y l]; simpl.
      * exists [], (String.String a x). split; [done|]. simpl. by rewrite Ha, Hx.
      * by exists (String.String a y :: l), x.
Qed.

(** Splitting a text and appending: only the last line is affected. *)
Lemma split_on_app_last c s t l x :
  split_on c s = l ++ [x] -> split_on c (s ++ t)%string = l ++ split_on c (x ++ t)%string.
Proof.
  revert l x. induction s as [|a s IH]; intros l x; simpl.
  - destruct l as [|y l]; simpl; [|by destruct l]. by intros [= <-].
  - destruct (Ascii.eqb a c) eqn:Ha.
    + destruct l as [|y l]; simpl; intros [= <- E].
      * by destruct (split_on_ne c s).
      * by rewrite (IH _ _ E).
    + destruct (split_on c s) as [|h t'] eqn:E; [by destruct (split_on_ne c s)|].
      destruct l as [|y l]; simpl; intros [= <- E'].
      * subst t'. rewrite (IH [] h eq_refl). simpl. rewrite Ha.
        by destruct (split_on c (h ++ t)).
      * rewrite (IH (h :: l) x) by (by rewrite E'). done.
Qed.

Lemma last_snoc {A} (l : list A) x d : List.last (l ++ [x]) d = x.
Proof. induction l as [|y l IH]; simpl; [done|]. rewrite IH. by destruct l. Qed.

Lemma monitor_data_app b d1 d2 :
  let '(b1, q1) := monitor_data b d1 in
  let '(b2, q2) := monitor_data b1 d2 in
  monitor_data b (d1 ++ d2)%string = (b2, q1 ++ q2).
Proof.
  unfold monitor_data. destruct (split_on_snoc nl (b ++ d1)%string) as (l & x & E & Hx).
  rewrite E, last_snoc, removelast_last, <- str_app_assoc, (split_on_app_last _ _ _ _ _ E).
  destruct (split_on_snoc nl (x ++ d2)%string) as (l2 & x2 & E2 & _).
  rewrite E2, app_assoc, !last_snoc, !removelast_last, omap_app. done.
Qed.

Lemma monitor_run_concat chunks b :
  no_char nl b = true -> monitor_run b chunks = monitor_data b (foldr String.append ""%string chunks).
Proof.
  revert b. induction chunks as [|d r IH]; intros b Hb; cbn [monitor_run foldr].
  - unfold monitor_data. rewrite str_app_nil, split_on_no_char by done. done.
  - destruct (monitor_data b d) as [b1 q1] eqn:E1.
    assert (Hb1 : no_char nl b1 = true).
    { unfold monitor_data in E1. destruct (split_on_snoc nl (b ++ d)%string) as (l & x & E & Hx).
      rewrite E, last_snoc in E1. by injection E1 as <- _. }
    rewrite (IH b1 Hb1). pose proof (monitor_data_app b d (foldr String.append ""%string r)) as H.
    rewrite E1 in H. destruct (monitor_data b1 _) as [b2 q2]. by rewrite H.
Qed.

(** ** Facts about the attempts *)

Section Attempts.
Context {W : Type} (h : forall c, W -> resp c * W).

(** A check that always answers: the loop collects one answer per attempt. *)
Lemma attempt_loop_ok check n : forall rs w,
  (forall w, exists b, result h check w = Ok b) ->
  exists bs, result h (attempt_loop check n rs) w = Ok (rs ++ bs) /\ length bs = n.
Proof.
  induction n as [|n IH]; intros rs w Hc; simpl.
  - exists []. by rewrite app_nil_r.
  - unfold bindR. props. destruct (Hc w) as [b Hb]. rewrite Hb.
    destruct n as [|n]; props.
    + destruct (IH (rs ++ [b]) (final h check w) Hc) as (bs & Hr & Hl).
      exists (b :: bs). rewrite Hr, <- app_assoc. simpl. by rewrite Hl.
    + destruct (IH (rs ++ [b]) (h (Sleep 2000) (final h check w)).2 Hc) as (bs & Hr & Hl).
      exists (b :: bs). rewrite Hr, <- app_assoc. simpl. by rewrite Hl.
Qed.

Lemma checkSignalStrength_ok `{!Settles h} sat gain w :
  exists o, result h (checkSignalStrength sat gain) w = Ok o.
Proof.
  unfold checkSignalStrength, try_catch, bindR. props.
  match goal with |- context [runCommand ?c ?a] =>
    pose proof (runCommand_settles h c a w) as Hs;
    destruct (result h (runCommand c a) w) as [r|m|]; props; [|eauto|done] end.
  destruct (if negb _ then _ else _) as [tot cnt]. destruct (0 <? cnt); props; eauto.
Qed.

Lemma checkSignalOnce_ok `{!Settles h} sat gain m w :
  exists b, result h (checkSignalOnce sat gain m) w = Ok b.
Proof.
  unfold checkSignalOnce, bindR. props.
  destruct (checkSignalStrength_ok sat gain w) as [o Ho]. rewrite Ho. props. eauto.
Qed.

Lemma verifySignal_ok `{!Settles h} sat gain m n w :
  exists b, result h (verifySignal sat gain m n) w = Ok b.
Proof.
  unfold verifySignal, bindR. props.
  destruct (attempt_loop_ok (checkSignalOnce sat gain m) n [] w) as (bs & Hb & _);
    [intros; apply checkSignalOnce_ok|]. rewrite Hb. props. eauto.
Qed.
End Attempts.

Lemma vote_spec n rs : vote n rs = true <-> n <= 2 * length (js_filter id rs).
Proof.
  unfold vote. rewrite Nat.leb_le. pose proof (Nat.div_mod_eq (n + 1) 2).
  pose proof (Nat.mod_upper_bound (n + 1) 2). lia.
Qed.

(** *** Sweeps *)

(** The readings a sweep printed, when its process ended well. *)
Definition readings (evs : list proc_event) : list Q :=
  match settle "rtl_power" "" "" evs with
  | Ok r => if Z.eqb (exitCode r) 0 then omap parsePowerFromLine (split_on nl (trim (stdout r))) else []
  | _ => []
  end.

(** There are readings, and their average is above the threshold. *)
Definition above (m : Q) (evs : list proc_event) : bool :=
  match readings evs with
  | [] => false
  | qs => m <?q foldr Qplus 0%Q qs / inject_Z (Z.of_nat (length qs))
  end.

Definition sweep_args (sat : SatelliteInfo) (gain : Q) : list arg :=
  let freqMHz := (inject_Z (si_frequency sat) / inject_Z 1000000)%Q in
  [Lit "-f"; FreqRange freqMHz (freqMHz + 1)%Q (show_Z scanBandwidthHz); Lit "-g"; Num gain; Lit "-i"; Lit "1";
   Lit "-e"; Secs scanDurationSeconds; Lit "-"].

Lemma readings_summary out :
  let qs := omap parsePowerFromLine (split_on nl (trim out)) in
  ((parsePowerReadings out).1 == foldr Qplus 0%Q qs)%Q /\ (parsePowerReadings out).2 = length qs.
Proof.
  destruct (readings_fold (split_on nl (trim out)) (0%Q, 0)) as [H1 H2].
  unfold parsePowerReadings. split; [|by rewrite H2]. rewrite H1. simpl. lra.
Qed.

Lemma filter_map_id {A} (f : A -> bool) l : length (js_filter id (map f l)) = length (js_filter f l).
Proof. unfold js_filter, id. induction l as [|x l IH]; simpl; [done|]. destruct (f x); simpl; congruence. Qed.

Section Sweeps.
Context {W : Type} (h : forall c, W -> resp c * W) `{!Settles h}.

(** A check is one sweep, compared with the threshold. *)
Lemma checkSignalOnce_asks sat gain m w : exists evs,
  omap spawned (answers h (checkSignalOnce sat gain m) w) = [("rtl_power"%string, sweep_args sat gain, evs)] /\
  result h (checkSignalOnce sat gain m) w = Ok (above m evs).
Proof.
  unfold checkSignalOnce, checkSignalStrength, try_catch, bindR. fold (sweep_args sat gain). props.
  destruct (runCommand_asks h "rtl_power" (sweep_args sat gain) w) as (evs & Ha & Hr & Hp). exists evs. rewrite Ha, Hr.
  unfold above, readings. destruct (settle _ _ _ evs) as [r|e|]; [|by props|done]. props.
  destruct (Z.eqb (exitCode r) 0); cbn [negb]; [|by props].
  destruct (readings_summary (stdout r)) as [H1 H2]. destruct (parsePowerReadings (stdout r)) as [tot cnt].
  cbn [fst snd] in H1, H2. subst cnt. destruct (omap _ _) as [|q qs] eqn:Eq; [by props|]. cbn [length Nat.ltb Nat.leb].
  props. split; [done|]. cbn [power]. apply (f_equal Ok).
  assert (E : (tot / inject_Z (Z.of_nat (S (length qs))) == foldr Qplus 0 (q :: qs) / inject_Z (Z.of_nat (S (length qs))))%Q)
    by (unfold Qdiv; apply Qmult_comp; [exact H1|reflexivity]).
  apply eq_true_iff_eq. split; intros Hm; props; [rewrite <- E|rewrite E]; exact Hm.
Qed.

Lemma attempt_loop_asks sat gain m n : forall rs w, exists reports,
  length reports = n /\
  omap spawned (answers h (attempt_loop (checkSignalOnce sat gain m) n rs) w) =
    map (fun evs => ("rtl_power"%string, sweep_args sat gain, evs)) reports /\
  result h (attempt_loop (checkSignalOnce sat gain m) n rs) w = Ok (rs ++ map (above m) reports).
Proof.
  induction n as [|n IH]; intros rs w; cbn [attempt_loop]; [exists []; by rewrite app_nil_r|].
  unfold bindR. props. destruct (checkSignalOnce_asks sat gain m w) as (evs & Ha & Hr). rewrite Hr, omap_app, Ha.
  destruct (IH (rs ++ [above m evs]) (match n with 0 => final h (checkSignalOnce sat gain m) w
    | _ => (h (Sleep 2000) (final h (checkSignalOnce sat gain m) w)).2 end)) as (reports & Hl & Hq & Hx).
  exists (evs :: reports). cbn [length map]. split; [by rewrite Hl|].
  destruct n as [|n]; props; cbn [omap list_omap spawned app]; by rewrite Hq, Hx, <- app_assoc.
Qed.
End Sweeps.

(** ** Properties *)

(** The summary of a sweep is the sum and the number of its valid readings,
    a reading being the seventh comma separated field of a line when it is a
    finite number; every other line is ignored. *)
Theorem parsePowerReadings_spec out :
  let qs := omap parsePowerFromLine (split_on nl (trim out)) in
  ((parsePowerReadings out).1 == foldr Qplus 0%Q qs)%Q /\
  (parsePowerReadings out).2 = length qs.
Proof. apply readings_summary. Qed.

(** The readings the monitor reports do not depend on how the process output
    is cut into chunks: from an empty buffer they are those of the complete
    lines of the whole text, the incomplete last line staying in the buffer. *)
Theorem monitor_chunking chunks :
  let text := foldr String.append ""%string chunks in
  monitor_run "" chunks =
  (List.last (split_on nl text) ""%string, omap parsePowerFromLine (removelast (split_on nl text))).
Proof. simpl. rewrite monitor_run_concat by done. done. Qed.

(** C21: Verification always answers, whatever the sweeps print or however they fail, as long
    as the child processes end: it runs exactly [attempts] sweeps around the frequency of
    the satellite, and its verdict is that in at least half of them the average of the
    readings printed is above the threshold, a sweep that fails or prints none not being. *)
Theorem verifySignal_majority {W} (h : forall c, W -> resp c * W) (Hs : Settles h)
  sat gain m n w :
  exists reports b, length reports = n /\
    omap spawned (answers h (verifySignal sat gain m n) w) =
      map (fun evs => ("rtl_power"%string, sweep_args sat gain, evs)) reports /\
    result h (verifySignal sat gain m n) w = Ok b /\
    (b = true <-> n <= 2 * length (js_filter (above m) reports)).
Proof.
  destruct (attempt_loop_asks h sat gain m n [] w) as (reports & Hl & Ha & Hr).
  exists reports, (vote n (map (above m) reports)). split; [exact Hl|].
  unfold verifySignal, bindR. props. rewrite Hr. props. cbn [app]. rewrite app_nil_r. split; [exact Ha|].
  split; [done|]. by rewrite vote_spec, filter_map_id.
Qed.

(** A world where three sweeps end, two of them above -30 dB. *)
Definition sweep (db : string) : list proc_event :=
  [OnStdout "2026-02-03, 07:05:39, 137900000, 138900000, 25000, 1, ";
   OnStdout (db ++ ", -60.1" ++ String.String nl "")%string].

Definition sweep_world (l : list (list proc_event)) : world :=
  mkWorld 0 None l [] false false idle.

Lemma verifySignal_majority_witness :
  let w := sweep_world [sweep "-20.5"; sweep "-45"; sweep "-28.25"] in
  result handle (verifySignal sample_satellite 45 (-30) 3) w = Ok true /\
  exists reports b, length reports = 3 /\
    omap spawned (answers handle (verifySignal sample_satellite 45 (-30) 3) w) =
      map (fun evs => ("rtl_power"%string, sweep_args sample_satellite 45, evs)) reports /\
    result handle (verifySignal sample_satellite 45 (-30) 3) w = Ok b /\
    (b = true <-> 3 <= 2 * length (js_filter (above (-30)) reports)).
Proof.
  split; [vm_compute; reflexivity|].
  apply (verifySignal_majority handle handle_settles sample_satellite 45 (-30) 3).
Defined.

End Signal.
