(* ===== verification/Recorder.v ===== *)
(** * Recording (src/backend/capture/recorder.ts)

    [startRecording] starts rtl_fm piped into sox; [recordPass] records for a
    number of seconds, reporting the progress about once per second, and stops
    the session.  The loop runs on fuel; [record_loop_total] gives the amount
    that is always enough.

    The exception [SpawnRecorder] may answer is one that [spawn] itself throws.  A program
    that cannot be started says so later, in an 'error' event of the child process: nobody
    listens to it, and node ends the whole process.  A run of the model is one the process
    survives; the preparation (MainLoop) asks for both programs before the first. *)

From S2P Require Import Prelude JsStd JsDate Types StateManager Effects Shell.
Local Open Scope Z_scope.
Local Open Scope prog_scope.

Module Recorder.

(* @src backend/capture/recorder.ts:9-16 RecordingSession *)
Record RecordingSession := mkSession {
  rs_satellite : SatelliteInfo;
  rs_outputPath : string;
  rs_startTime : date
}.

(* @src backend/capture/recorder.ts:18-108 startRecording *)
Definition startRecording (satellite : SatelliteInfo) (config : ReceiverConfig)
  : prog (res RecordingSession) :=
  d <~ EnsureDir (cfg_recordingsDir config);;
  _ <-! Ret (of_sum d);;
  now <~ Now;;
  let filename := generateFilename now (si_name satellite) "wav" in
  let outputPath := path_join (cfg_recordingsDir config) filename in
  p <~ SpawnRecorder (si_frequency satellite) (cfg_gain config) (cfg_sampleRate config)
         (cfg_ppmCorrection config) outputPath;;
  _ <-! Ret (of_sum p);;
  startTime <~ Now;;
  Ret (Ok (mkSession satellite outputPath startTime)).

(** [session.stop()]: SIGTERM to rtl_fm, then the end of sox or 5 seconds,
    whichever comes first; a sox that is still there is told to stop. *)
(* @src backend/capture/recorder.ts:88-104 stop *)
Definition session_stop (s : RecordingSession) : prog unit :=
  KillRtl;;;
  closed <~ AwaitSoxClose 5000;;
  if closed then Ret tt else KillSox;;; Ret tt.

(* @src backend/capture/recorder.ts:121-125 recordPass *)
Fixpoint record_loop (fuel : nat) (startTime endTime durationSeconds : Z)
  (onProgress : Z -> Z -> prog unit) : prog (res unit) :=
  match fuel with
  | O => Ret Pending
  | S fuel =>
      now <~ Now;;
      if now <? endTime then
        now2 <~ Now;;
        let elapsed := (now2 - startTime) / 1000 in
        onProgress elapsed durationSeconds;;
        Sleep 1000;;;
        record_loop fuel startTime endTime durationSeconds onProgress
      else Ret (Ok tt)
  end.

(* @src backend/capture/recorder.ts:110-130 recordPass *)
Definition recordPass (fuel : nat) (satellite : SatelliteInfo) (durationSeconds : Z)
  (config : ReceiverConfig) (onProgress : Z -> Z -> prog unit) : prog (res string) :=
  session <-! startRecording satellite config;;
  startTime <~ Now;;
  let endTime := startTime + durationSeconds * 1000 in
  _ <-! record_loop fuel startTime endTime durationSeconds onProgress;;
  session_stop session;;
  Ret (Ok (rs_outputPath session)).

(** The fuel that is enough for a recording of [d] seconds. *)
Definition record_fuel (d : Z) : nat := S (Z.to_nat d).

(** ** Facts *)

Lemma record_loop_S fuel t0 tend dur onProgress :
  record_loop (S fuel) t0 tend dur onProgress =
  (now <~ Now;;
   if now <? tend then
     now2 <~ Now;;
     onProgress ((now2 - t0) / 1000) dur;;
     Sleep 1000;;;
     record_loop fuel t0 tend dur onProgress
   else Ret (Ok tt)).
Proof. done. Qed.

Section Facts.
Context {W : Type} (h : forall c, W -> resp c * W) (time : W -> Z) `{!Clock h time}.

Lemma record_loop_total onProgress dur t0 tend : forall fuel w,
  tend <= time w + 1000 * Z.of_nat fuel ->
  result h (record_loop (S fuel) t0 tend dur onProgress) w = Ok tt /\
  tend <= time (final h (record_loop (S fuel) t0 tend dur onProgress) w).
Proof.
  induction fuel as [|fuel IH]; intros w Hf.
  - rewrite record_loop_S. props. rewrite clock_now.
    destruct (time w <? tend) eqn:E; props; [lia|]. split; [done|].
    pose proof (clock_mono Now w). lia.
  - rewrite record_loop_S. props. rewrite clock_now.
    destruct (time w <? tend) eqn:E; props.
    2:{ split; [done|]. pose proof (clock_mono Now w). lia. }
    set (w1 := (h Now w).2). set (w2 := (h Now w1).2).
    set (w3 := final h (onProgress _ _) w2).
    apply (IH (h (Sleep 1000) w3).2).
    pose proof (clock_mono Now w). pose proof (clock_mono Now w1).
    assert (time w2 <= time w3) by (apply clock_final; done).
    pose proof (clock_sleep 1000 w3). subst w1 w2. lia.
Qed.

(** A recording never hangs, whatever the environment does. *)
Lemma recordPass_settles sat dur cfg onProgress w :
  result h (recordPass (record_fuel dur) sat dur cfg onProgress) w <> Pending.
Proof.
  unfold recordPass, bindR. props.
  destruct (result h (startRecording sat cfg) w) as [s|m|] eqn:E; props; [| done |].
  - set (w1 := (h Now (final h (startRecording sat cfg) w)).2).
    rewrite clock_now. set (t0 := time _).
    destruct (record_loop_total onProgress dur t0 (t0 + dur * 1000) (Z.to_nat dur) w1)
      as [Hr _].
    + pose proof (clock_mono Now (final h (startRecording sat cfg) w)). subst w1 t0. lia.
    + unfold record_fuel. rewrite Hr. props. done.
  - revert E. unfold startRecording, bindR. props.
    destruct (h (EnsureDir _) w) as [[?|?] ?]; simpl; props; [done|].
    match goal with |- context [h (SpawnRecorder ?a ?b ?c ?d ?e) ?x] =>
      destruct (h (SpawnRecorder a b c d e) x) as [[?|?] ?] end; simpl; props; done.
Qed.

(** When it returns a path, the whole duration has elapsed. *)
Lemma recordPass_lasts sat dur cfg onProgress w path :
  result h (recordPass (record_fuel dur) sat dur cfg onProgress) w = Ok path ->
  time w + dur * 1000 <= time (final h (recordPass (record_fuel dur) sat dur cfg onProgress) w).
Proof.
  unfold recordPass, bindR. props.
  destruct (result h (startRecording sat cfg) w) as [s|m|] eqn:E; props; [|done|done].
  set (ws := final h (startRecording sat cfg) w).
  set (w1 := (h Now ws).2). rewrite clock_now.
  destruct (record_loop_total onProgress dur (time ws) (time ws + dur * 1000)
              (Z.to_nat dur) w1) as [Hr Ht].
  { pose proof (clock_mono Now ws). subst w1. lia. }
  unfold record_fuel. rewrite Hr. props. intros _.
  assert (time w <= time ws) by (apply clock_final; done).
  etransitivity; [|apply clock_final; done]. lia.
Qed.
End Facts.

(** The calls of a recording: its own ones and those of its progress callback. *)
Definition recorder_call (c : call) : bool :=
  match c with
  | EnsureDir _ | Now | Sleep _ | SpawnRecorder _ _ _ _ _ | KillRtl | AwaitSoxClose _ | KillSox => true
  | _ => false
  end.

Section Calls.
Context (C : call -> Prop) (onProgress : Z -> Z -> prog unit)
  (Hown : forall c, recorder_call c = true -> C c)
  (Hcb : forall e d, holds C (fun _ => True) (onProgress e d)).

Lemma record_loop_calls fuel t0 tend dur :
  holds C (fun _ => True) (record_loop fuel t0 tend dur onProgress).
Proof.
  induction fuel as [|fuel IH]; [done|].
  rewrite record_loop_S. holds_step; [by apply Hown|]. holds_step; [|done].
  holds_step; [by apply Hown|]. eapply holds_bind; [apply Hcb|]. intros _ _.
  holds_step; [by apply Hown|]. done.
Qed.

Lemma startRecording_calls sat cfg : holds C (fun _ => True) (startRecording sat cfg).
Proof.
  unfold startRecording. repeat first [holds_step | by apply Hown | done | apply (holds_bind _ (fun _ => True)); [|intros ? ?]].
Qed.

Lemma recordPass_calls fuel sat dur cfg :
  holds C (fun _ => True) (recordPass fuel sat dur cfg onProgress).
Proof.
  unfold recordPass, session_stop.
  repeat first [holds_step | by apply Hown | done | apply startRecording_calls
               | apply record_loop_calls | apply (holds_bind _ (fun _ => True)); [|intros ? ?]].
Qed.
End Calls.

(** ** Properties *)

(** C22: A recording always ends: on a clock that advances, [record_fuel d] steps
    of the loop are enough, for any progress callback and any environment, and
    a recording that yields a path has lasted at least its duration. *)
Theorem recordPass_terminates {W} (h : forall c, W -> resp c * W) (time : W -> Z)
  (Hc : Clock h time) sat dur cfg onProgress w :
  result h (recordPass (record_fuel dur) sat dur cfg onProgress) w <> Pending /\
  (forall path, result h (recordPass (record_fuel dur) sat dur cfg onProgress) w = Ok path ->
     time w + dur * 1000 <=
     time (final h (recordPass (record_fuel dur) sat dur cfg onProgress) w)).
Proof.
  split; [by apply (recordPass_settles h time)|]. intros path. by apply recordPass_lasts.
Qed.

Definition sample_config : ReceiverConfig :=
  mkConfig mode_full None 3001 "0.0.0.0" (mkCoordinates (515 # 10) 0 10) 45 48000 0 20 (-30)
    false "./recordings" "./images" 24 3000 "0.0.0.0" "./data/captures.db" log_info true.

Definition sample_world : world := mkWorld 1770105939123 None [] [] false false waiting.

Lemma recordPass_terminates_witness :
  result handle (recordPass (record_fuel 3) sample_satellite 3 sample_config
    (fun _ _ => Ret tt)) sample_world
  = Ok "recordings/METEOR-M-N2-3_2026-02-03T08-05-39.wav"%string /\
  result handle (recordPass (record_fuel 3) sample_satellite 3 sample_config
    (fun _ _ => Ret tt)) sample_world <> Pending.
Proof.
  split; [vm_compute; reflexivity|].
  apply (recordPass_terminates handle w_time handle_clock sample_satellite 3 sample_config).
Defined.

End Recorder.
