(* ===== verification/Decoders.v ===== *)
(** * Decoders (src/backend/capture/decoders)

    The registry of decoders by signal type, the two decoders, and
    [decodeRecording], which picks the decoder of a recording and runs it when
    it is installed.  [cwd] is the working directory of the process. *)

From S2P Require Import Prelude JsStd Types StateManager Effects Shell.
Local Open Scope prog_scope.

Module Decoders.

(* @src backend/capture/decoders/types.ts:3-6 DecoderResult *)
Record DecoderResult := mkDecoderResult {
  outputPaths : list string;
  metadata : list (string * string)
}.

(* @src backend/capture/decoders/types.ts:8-13 Decoder *)
Record Decoder := mkDecoder {
  dec_name : string;
  dec_signalType : SignalType;
  dec_decode : string -> string -> prog (res (option DecoderResult));
  dec_checkInstalled : prog (res bool)
}.

(** ** Registry *)

Definition registry := list (SignalType * Decoder).

(* @src backend/capture/decoders/registry.ts:6-8 registerDecoder *)
Definition registerDecoder (d : Decoder) (r : registry) : registry :=
  map_set (dec_signalType d) d r.

(* @src backend/capture/decoders/registry.ts:10-12 getDecoder *)
Definition getDecoder (t : SignalType) (r : registry) : option Decoder := map_get t r.

(* @src backend/capture/decoders/registry.ts:14-16 getAllDecoders *)
Definition getAllDecoders (r : registry) : list Decoder := r.*2.

(* @src backend/capture/decoders/registry.ts:18-20 hasDecoder *)
Definition hasDecoder (t : SignalType) (r : registry) : bool :=
  match map_get t r with Some _ => true | None => false end.

Section Decoders.
Variable cwd : string.

Definition script (name : string) : string := path_join (path_join cwd "scripts") name.

(** ** LRPT *)

(* @src backend/capture/decoders/lrpt-decoder.ts:7-45 decodeWithSatDump *)
Definition decodeWithSatDump (wavPath outputDir : string) : prog (res (list string)) :=
  let baseName := basename wavPath ".wav" in
  let decodeOutputDir := path_join outputDir (baseName ++ "_lrpt")%string in
  result <-! runCommand (script "lrpt-decode-wrapper.sh") [Lit wavPath; Lit decodeOutputDir];;
  if Z.eqb (exitCode result) 0 then
    ls <-! runCommand "find"
      [Lit decodeOutputDir; Lit "-name"; Lit "*.png"; Lit "-type"; Lit "f"];;
    let imagePaths :=
      if Z.eqb (exitCode ls) 0
      then js_filter (fun p => 0 <? String.length p) (split_on nl (trim (stdout ls)))
      else [] in
    if 0 <? length imagePaths then Ret (Ok imagePaths) else Ret (Ok [])
  else Ret (Ok []).

(* @src backend/capture/decoders/lrpt-decoder.ts:51-72 decode *)
Definition lrpt_decode (wavPath outputDir : string) : prog (res (option DecoderResult)) :=
  fileFound <~ FileExists wavPath;;
  if negb fileFound then Ret (Ok None)
  else
    d <~ EnsureDir outputDir;;
    _ <-! Ret (of_sum d);;
    paths <-! decodeWithSatDump wavPath outputDir;;
    Ret (Ok (if 0 <? length paths
             then Some (mkDecoderResult paths
               [("decoder", "SatDump"); ("pipeline", "meteor_m2-x_lrpt")]%string)
             else None)).

(* @src backend/capture/decoders/lrpt-decoder.ts:74-96 checkInstalled *)
Definition lrpt_checkInstalled : prog (res bool) :=
  try_catch
    (result <-! runCommand "which" [Lit "satdump"];;
     if negb (Z.eqb (exitCode result) 0) then Ret (Ok false)
     else
       wrapperExists <~ FileExists (script "lrpt-decode-wrapper.sh");;
       if negb wrapperExists then Ret (Ok false) else Ret (Ok true))
    (fun _ => Ret (Ok false)).

(* @src backend/capture/decoders/lrpt-decoder.ts:47-97 lrptDecoder *)
Definition lrptDecoder : Decoder :=
  mkDecoder "LRPT Decoder (SatDump)" lrpt lrpt_decode lrpt_checkInstalled.

(** ** SSTV *)

(* @src backend/capture/decoders/sstv-decoder.ts:7-27 decodeWithSstv *)
Definition decodeWithSstv (wavPath outputDir : string) : prog (res (option DecoderResult)) :=
  let baseName := basename wavPath ".wav" in
  let outputPath := path_join outputDir (baseName ++ "-sstv.png")%string in
  result <-! runCommand "python3"
    [Lit (script "sstv-decode-wrapper.py"); Lit wavPath; Lit outputPath];;
  if Z.eqb (exitCode result) 0 then
    exists_ <~ FileExists outputPath;;
    Ret (Ok (if exists_ : bool
             then Some (mkDecoderResult [outputPath] [("mode", "auto-detected")]%string)
             else None))
  else Ret (Ok None).

(* @src backend/capture/decoders/sstv-decoder.ts:33-43 decode *)
Definition sstv_decode (wavPath outputDir : string) : prog (res (option DecoderResult)) :=
  fileFound <~ FileExists wavPath;;
  if fileFound : bool then
    d <~ EnsureDir outputDir;;
    _ <-! Ret (of_sum d);;
    decodeWithSstv wavPath outputDir
  else Ret (Ok None).

(* @src backend/capture/decoders/sstv-decoder.ts:45-62 checkInstalled *)
Definition sstv_checkInstalled : prog (res bool) :=
  try_catch
    (wrapperExists <~ FileExists (script "sstv-decode-wrapper.py");;
     if negb wrapperExists then Ret (Ok false)
     else
       result <-! runCommand "python3" [Lit "-c"; Lit ("import sstv; print(" ++ dquote ++ "OK" ++ dquote ++ ")")%string];;
       Ret (Ok (Z.eqb (exitCode result) 0 && includes "OK" (stdout result))))
    (fun _ => Ret (Ok false)).

(* @src backend/capture/decoders/sstv-decoder.ts:29-63 sstvDecoder *)
Definition sstvDecoder : Decoder :=
  mkDecoder "SSTV Decoder" sstv sstv_decode sstv_checkInstalled.

(** ** The registry of the process *)

(* @src backend/capture/decoders/index.ts:8-9 registerDecoder *)
Definition decoderRegistry : registry :=
  registerDecoder sstvDecoder (registerDecoder lrptDecoder []).

(* @src backend/capture/decoders/index.ts:11-25 decodeRecording *)
Definition decodeRecording (wavPath outputDir : string) (signalType : SignalType)
  : prog (res (option DecoderResult)) :=
  match getDecoder signalType decoderRegistry with
  | None => Ret (Ok None)
  | Some decoder =>
      decoderInstalled <-! dec_checkInstalled decoder;;
      if decoderInstalled : bool then dec_decode decoder wavPath outputDir else Ret (Ok None)
  end.

(* @src backend/capture/decoders/index.ts:27-30 checkDecoderInstalled *)
Definition checkDecoderInstalled (signalType : SignalType) : prog (res bool) :=
  match getDecoder signalType decoderRegistry with
  | Some decoder => dec_checkInstalled decoder
  | None => Ret (Ok false)
  end.

(** ** Facts *)

(** The calls of a decoder, and what a decoding may return. *)
Definition decoder_call (c : call) : Prop :=
  match c with Spawn _ _ | FileExists _ | EnsureDir _ => True | _ => False end.

Definition has_images (r : res (option DecoderResult)) : Prop :=
  match r with Ok (Some x) => outputPaths x <> [] | _ => True end.

(** What a decoder promises to its callers: it makes only its own calls (so it
    does not touch the state manager), a result it returns has images, it
    settles when its processes do, and the installation check never throws. *)
Class DecoderOk (d : Decoder) : Prop := {
  dec_calls : forall p o, holds decoder_call has_images (dec_decode d p o);
  dec_check_calls : holds decoder_call (fun _ => True) (dec_checkInstalled d);
  dec_settles : forall {W} (h : forall c, W -> resp c * W) `{!Settles h} p o w,
    result h (dec_decode d p o) w <> Pending;
  dec_check_settles : forall {W} (h : forall c, W -> resp c * W) `{!Settles h} w,
    exists b, result h (dec_checkInstalled d) w = Ok b
}.

Lemma of_sum_not_pending {A} (r : string + A) : of_sum r <> Pending.
Proof. by destruct r. Qed.

Ltac calls_step :=
  first [ apply (holds_bind _ (fun _ => True));
            [first [by apply runCommand_calls | done | idtac]|intros ? _]
        | holds_step ].

Ltac decoder_calls := repeat (calls_step; try done).

(** A run against a world whose processes end: one case per answer. *)
Ltac decoder_runs h :=
  repeat match goal with
  | |- context [result h (runCommand ?c ?a) ?w] =>
      let Hs := fresh in pose proof (runCommand_settles h c a w) as Hs;
      destruct (result h (runCommand c a) w) as [?|?|]; [| |done]; clear Hs; props
  | |- context [h (EnsureDir ?a) ?w] =>
      destruct (h (EnsureDir a) w) as [[?|?] ?]; simpl; props
  | |- context [if ?b then _ else _] =>
      lazymatch b with context [if _ then _ else _] => fail | _ => idtac end;
      destruct b; props
  end.

#[export] Instance lrptDecoder_ok : DecoderOk lrptDecoder.
Proof.
  split.
  - intros p o. cbn [dec_decode lrptDecoder]. unfold lrpt_decode, decodeWithSatDump.
    decoder_calls. destruct (0 <? length _) eqn:E; [|done].
    simpl. intros ->. done.
  - cbn [dec_checkInstalled lrptDecoder]. unfold lrpt_checkInstalled. decoder_calls.
  - intros W h Hs p o w. cbn [dec_decode lrptDecoder].
    unfold lrpt_decode, decodeWithSatDump, bindR. props. by decoder_runs h.
  - intros W h Hs w. cbn [dec_checkInstalled lrptDecoder].
    unfold lrpt_checkInstalled, bindR, try_catch. props. decoder_runs h; eexists; done.
Qed.

#[export] Instance sstvDecoder_ok : DecoderOk sstvDecoder.
Proof.
  split.
  - intros p o. cbn [dec_decode sstvDecoder]. unfold sstv_decode, decodeWithSstv. decoder_calls. by destruct r1.
  - cbn [dec_checkInstalled sstvDecoder]. unfold sstv_checkInstalled. decoder_calls.
  - intros W h Hs p o w. cbn [dec_decode sstvDecoder].
    unfold sstv_decode, decodeWithSstv, bindR. props. by decoder_runs h.
  - intros W h Hs w. cbn [dec_checkInstalled sstvDecoder].
    unfold sstv_checkInstalled, bindR, try_catch. props. decoder_runs h; eexists; done.
Qed.

Lemma getDecoder_ok t d : getDecoder t decoderRegistry = Some d -> DecoderOk d.
Proof. destruct t; simpl; intros [= <-]; apply _. Qed.

(** [decodeRecording] keeps the decoders' promises. *)
Lemma decodeRecording_calls p o t :
  holds decoder_call has_images (decodeRecording p o t).
Proof.
  unfold decodeRecording. destruct (getDecoder t decoderRegistry) as [d|] eqn:E; [|done].
  pose proof (getDecoder_ok t d E) as Hd. unfold bindR.
  eapply holds_bind; [apply dec_check_calls|]. intros r _.
  destruct r as [[|]|m|]; try done. apply dec_calls.
Qed.

Lemma decodeRecording_settles {W} (h : forall c, W -> resp c * W) `{!Settles h} p o t w :
  result h (decodeRecording p o t) w <> Pending.
Proof.
  unfold decodeRecording. destruct (getDecoder t decoderRegistry) as [d|] eqn:E; [|done].
  pose proof (getDecoder_ok t d E) as Hd. unfold bindR. props.
  destruct (dec_check_settles h w) as [b Hb]. rewrite Hb.
  destruct b; [by apply dec_settles|done].
Qed.
End Decoders.

(** ** Properties *)

(** C24: Decoding a recording never hangs when the child processes end, does not
    touch the state manager, and never reports success without an image: the
    result is null, an exception, or a non-empty list of paths. *)
Theorem decodeRecording_ok {W} (h : forall c, W -> resp c * W) (Hs : Settles h)
  cwd wavPath outputDir signalType w :
  let r := result h (decodeRecording cwd wavPath outputDir signalType) w in
  r <> Pending /\
  sm_ops (trace h (decodeRecording cwd wavPath outputDir signalType) w) = [] /\
  (forall x, r = Ok (Some x) -> outputPaths x <> []).
Proof.
  pose proof (decodeRecording_calls cwd wavPath outputDir signalType) as Hp. simpl.
  split_and!; [by apply decodeRecording_settles| |].
  - apply sm_ops_nil. eapply Forall_impl; [eapply holds_trace, Hp|]. by intros [].
  - intros x Hx. pose proof (holds_result h _ _ _ w Hp) as Hr. by rewrite Hx in Hr.
Qed.

Lemma decodeRecording_ok_witness :
  let w := mkWorld 0 None [[]; [OnStdout "OK"]] ["/app/scripts/sstv-decode-wrapper.py";
    "recordings/a.wav"; "images/a-sstv.png"]%string false false decoding in
  result handle (decodeRecording "/app" "recordings/a.wav" "./images" sstv) w
  <> Pending.
Proof.
  intros w.
  apply (decodeRecording_ok handle handle_settles "/app" "recordings/a.wav" "./images" sstv w).
Defined.

End Decoders.
