(* ===== verification/SstvScanner.v ===== *)
(** * The 2 m SSTV scanner (src/backend/capture/sstv-scanner.ts)

    While the receiver waits for a pass, [scanForSstv] dwells on the ground
    frequencies in turn and records when the FFT level exceeds the threshold.
    Its module variables [isScanning] and [shouldStop] are shared with the
    scheduler, so they are calls: another task may change them at any await. *)

From S2P Require Import Prelude JsStd JsDate Types StateManager Effects Shell Recorder Decoders.
Import Recorder Decoders.
Local Open Scope Z_scope.
Local Open Scope prog_scope.

Module SstvScanner.

Record ScanFrequency := mkScanFrequency { sf_frequency : Z; sf_name : string }.

(* @src backend/capture/sstv-scanner.ts:14-17 SSTV_SCAN_FREQUENCIES *)
Definition SSTV_SCAN_FREQUENCIES : list ScanFrequency :=
  [mkScanFrequency 144500000 "2m SSTV Calling"; mkScanFrequency 145500000 "2m SSTV Alt"].

(* @src backend/capture/sstv-scanner.ts:20-27 GROUND_SSTV_INFO *)
Definition GROUND_SSTV_INFO : SatelliteInfo :=
  mkSatelliteInfo "2m SSTV" 0 144500000 sstv (SIGNAL_CONFIGS sstv) true None.

(** [{...GROUND_SSTV_INFO, name, frequency}] *)
(* @src backend/capture/sstv-scanner.ts:121-126 captureInfo *)
Definition captureInfo (freq : ScanFrequency) : SatelliteInfo :=
  mkSatelliteInfo (sf_name freq) (si_noradId GROUND_SSTV_INFO) (sf_frequency freq)
    (si_signalType GROUND_SSTV_INFO) (si_signalConfig GROUND_SSTV_INFO)
    (si_enabled GROUND_SSTV_INFO) (si_eventBased GROUND_SSTV_INFO).

(* @src backend/capture/sstv-scanner.ts:32-34 stopSstvScanner *)
Definition stopSstvScanner : prog unit := SetShouldStop true;;; Ret tt.

(* @src backend/capture/sstv-scanner.ts:36-38 isSstvScannerRunning *)
Definition isSstvScannerRunning : prog bool := ask IsScanning.

(** [Math.round((elapsed / total) * 100)], reported to the state manager. *)
(* @src backend/capture/sstv-scanner.ts:172-175 captureSstv *)
Definition report_progress (elapsed total : Z) : prog unit :=
  let progress := js_round (inject_Z elapsed / inject_Z total * 100) in
  SM (StateManager.UpdateProgress progress elapsed total);;; Ret tt.

(** The dwell on one frequency: a reading of the stream every 500 ms, at most
    [n] of them, until one is above the threshold, a stop or the end. *)
(* @src backend/capture/sstv-scanner.ts:89-102 scanForSstv *)
Fixpoint dwell (n : nat) (endTime : Z) (signalThreshold : Q) : prog bool :=
  match n with
  | O => Ret false
  | S n =>
      stop <~ ShouldStop;;
      if stop then Ret false
      else
        now <~ Now;;
        if now <? endTime then
          Sleep 500;;;
          fftData <~ LatestFFT;;
          match fftData with
          | Some d => if signalThreshold <?q fft_maxPower d then Ret true
                      else dwell n endTime signalThreshold
          | None => dwell n endTime signalThreshold
          end
        else Ret false
  end.

Section Scanner.
Context (cwd : string).

(** The row written for a capture, with the pass made up for it. *)
(* @src backend/capture/sstv-scanner.ts:191-200 fakePass *)
Definition save_with_fake_pass (info : SatelliteInfo) (startTime : date) (durationSeconds : Z)
  (result : CaptureResult) : prog (res unit) :=
  now <~ Now;;
  let fakePass := mkPass info startTime now 90 startTime (inject_Z durationSeconds) in
  captureId <~ SaveCapture result fakePass;;
  captureId <-! Ret (of_sum captureId);;
  match cr_imagePaths result with
  | [] => Ret (Ok tt)
  | paths => r <~ SaveImages captureId paths;; Ret (of_sum r)
  end.

(* @src backend/capture/sstv-scanner.ts:160-208 captureSstv *)
Definition captureSstv (info : SatelliteInfo) (config : ReceiverConfig) (durationSeconds : Z)
  : prog (res (option CaptureResult)) :=
  startTime <~ Now;;
  SM (StateManager.SetStatus capturing);;;
  try_catch
    (recordingPath <-! recordPass (record_fuel durationSeconds) info durationSeconds config
                         report_progress;;
     SM (StateManager.SetStatus decoding);;;
     decoderResult <-! decodeRecording cwd recordingPath (cfg_imagesDir config) sstv;;
     let imagePaths := from_option outputPaths [] decoderResult in
     endTime <~ Now;;
     let result := mkResult info recordingPath imagePaths startTime endTime 0
                     (Nat.ltb 0 (length imagePaths)) None in
     _ <-! try_catch (save_with_fake_pass info startTime durationSeconds result)
             (fun _ => Ret (Ok tt));;
     SM (StateManager.SetStatus idle);;;
     Ret (Ok (Some result)))
    (fun _ => SM (StateManager.SetStatus idle);;; Ret (Ok None)).

(** One round over the frequencies: [Some result] when the function returns. *)
(* @src backend/capture/sstv-scanner.ts:71-137 scanForSstv *)
Fixpoint scan_freqs (config : ReceiverConfig) (maxDurationSeconds endTime : Z)
  (freqs : list ScanFrequency) : prog (res (option CaptureResult)) :=
  match freqs with
  | [] => Ret (Ok None)
  | freq :: rest =>
      stop <~ ShouldStop;;
      if stop then Ret (Ok None)
      else
        now <~ Now;;
        if endTime <=? now then Ret (Ok None)
        else
          SM (StateManager.SetScanningFrequency (sf_frequency freq) (sf_name freq));;;
          let signalThreshold := (cfg_minSignalStrength config - 5)%Q in
          hasSignal <- dwell 40 endTime signalThreshold;;
          if hasSignal : bool then
            stop2 <~ ShouldStop;;
            if stop2 then scan_freqs config maxDurationSeconds endTime rest
            else
              StopFFT;;;
              Sleep 1000;;;
              result <-! captureSstv (captureInfo freq) config maxDurationSeconds;;
              match result with
              | Some r =>
                  if cr_success r then SetScanning false;;; Ret (Ok (Some r))
                  else SM (StateManager.SetStatus scanning);;;
                       scan_freqs config maxDurationSeconds endTime rest
              | None => SM (StateManager.SetStatus scanning);;;
                        scan_freqs config maxDurationSeconds endTime rest
              end
          else scan_freqs config maxDurationSeconds endTime rest
  end.

(* @src backend/capture/sstv-scanner.ts:68-139 scanForSstv *)
Fixpoint scan_while (fuel : nat) (config : ReceiverConfig) (maxDurationSeconds endTime : Z)
  : prog (res (option CaptureResult)) :=
  match fuel with
  | O => Ret Pending
  | S fuel =>
      stop <~ ShouldStop;;
      if stop then Ret (Ok None)
      else
        now <~ Now;;
        if now <? endTime then
          r <-! scan_freqs config maxDurationSeconds endTime SSTV_SCAN_FREQUENCIES;;
          match r with
          | Some result => Ret (Ok (Some result))
          | None => scan_while fuel config maxDurationSeconds endTime
          end
        else Ret (Ok None)
  end.

(* @src backend/capture/sstv-scanner.ts:140-147 scanForSstv *)
Definition scan_finally : prog unit :=
  SetScanning false;;;
  status <~ GetStatus;;
  if bool_decide (status = scanning) then SM (StateManager.SetStatus idle);;; Ret tt else Ret tt.

(* @src backend/capture/sstv-scanner.ts:47-150 scanForSstv *)
Definition scanForSstv (fuel : nat) (config : ReceiverConfig) (maxDurationSeconds : Z)
  : prog (res (option CaptureResult)) :=
  running <~ IsScanning;;
  if running then Ret (Ok None)
  else
    SetScanning true;;;
    SetShouldStop false;;;
    SM (StateManager.SetStatus scanning);;;
    startTime <~ Now;;
    let endTime := startTime + maxDurationSeconds * 1000 in
    try_finally (scan_while fuel config maxDurationSeconds endTime) scan_finally.

End Scanner.

(** The fuel that is enough: every round that does not end the scan sleeps at
    least 500 ms. *)
Definition scan_fuel (maxDurationSeconds : Z) : nat := S (S (Z.to_nat (2 * maxDurationSeconds))).

(** Between the start of a scan and its end nobody clears the stop request: the
    only assignment of [false] is at the start of [scanForSstv], which
    [isScanning] guards. *)
Class StopFlag {W : Type} (h : forall c, W -> resp c * W) (stopped : W -> bool) : Prop := {
  stop_read : forall w, (h ShouldStop w).1 = stopped w;
  stop_sticky : forall c w, c <> SetShouldStop false -> stopped w = true ->
    stopped (h c w).2 = true
}.

(** ** Facts *)

(** The calls of a recording followed by its decoding and storage: the stop
    request is not among them. *)
Definition capture_call (c : call) : Prop :=
  match c with
  | SM (StateManager.SetStatus _) | SM (StateManager.UpdateProgress _ _ _) => True
  | SaveCapture _ _ | SaveImages _ _ => True
  | _ => recorder_call c = true \/ decoder_call c
  end.

Definition scan_call (c : call) : Prop :=
  match c with
  | ShouldStop | LatestFFT | StopFFT | GetStatus | SetScanning false
  | SM (StateManager.SetScanningFrequency _ _) => True
  | _ => capture_call c
  end.

Lemma capture_scan_call c : capture_call c -> scan_call c.
Proof. destruct c; try done; [by destruct o|]. simpl. by intros [?|?]. Qed.

Lemma recorder_capture_call c : recorder_call c = true -> capture_call c.
Proof. destruct c; simpl; intuition done. Qed.

Lemma decoder_capture_call c : decoder_call c -> capture_call c.
Proof. destruct c; simpl; intuition done. Qed.

(** What a capture and a scan return. *)
Definition capture_value (r : res (option CaptureResult)) : Prop :=
  match r with
  | Ok (Some x) => cr_success x = Nat.ltb 0 (length (cr_imagePaths x)) /\ cr_error x = None
  | _ => True
  end.

Definition scan_value (r : res (option CaptureResult)) : Prop :=
  match r with
  | Ok (Some x) => cr_success x = true /\ cr_imagePaths x <> []
  | Throw _ => False
  | _ => True
  end.

Section Calls.
Context (cwd : string) (config : ReceiverConfig) (dur : Z).

Lemma save_with_fake_pass_calls info t r :
  holds capture_call (fun _ => True) (save_with_fake_pass info t dur r).
Proof.
  unfold save_with_fake_pass.
  repeat first [holds_step | by left | done | apply (holds_bind _ (fun _ => True)); [|intros ? _]].
Qed.

Lemma captureSstv_calls info :
  holds capture_call (fun r => capture_value r /\ forall m, r <> Throw m)
    (captureSstv cwd info config dur).
Proof.
  unfold captureSstv. holds_step; [by left|]. holds_step; [done|]. holds_step.
  apply (holds_bind _ capture_value).
  2:{ intros [o|m|] Hr; simpl; [done| |done]. split; [done|]. by intros _. }
  unfold bindR. apply (holds_bind _ (fun _ => True)).
  { apply recordPass_calls; [apply recorder_capture_call|]. intros e d. done. }
  intros [path|m|] _; [|done|done]. apply holds_Do; [done|]. intros _.
  apply (holds_bind _ (fun _ => True)).
  { eapply holds_mono; [apply decodeRecording_calls|apply decoder_capture_call|done]. }
  intros [o|m|] _; [|done|done]. apply holds_Do; [by left|]. intros t1.
  apply (holds_bind _ (fun _ => True)).
  { unfold try_catch. eapply holds_bind; [apply save_with_fake_pass_calls|]. by intros [[]|?|]. }
  intros [[]|m|] _; [|done|done]. apply holds_Do; [done|]. by intros _.
Qed.

Lemma dwell_calls n e th : holds scan_call (fun _ => True) (dwell n e th).
Proof.
  induction n as [|n IH]; cbn [dwell]; [done|]. apply holds_Do; [done|]. intros [|]; [done|].
  apply holds_Do; [by left|]. intros t. destruct (t <? e); [|done].
  apply holds_Do; [by left|]. intros _. apply holds_Do; [done|]. intros [d|]; [|done]. by destruct (_ <?q _).
Qed.

Lemma scan_freqs_calls e fs : holds scan_call scan_value (scan_freqs cwd config dur e fs).
Proof.
  induction fs as [|f fs IH]; cbn [scan_freqs]; [done|]. apply holds_Do; [done|]. intros [|]; [done|].
  apply holds_Do; [by left|]. intros t. destruct (e <=? t); [done|]. apply holds_Do; [done|]. intros _.
  eapply holds_bind; [apply dwell_calls|]. intros [|] _; [|done].
  apply holds_Do; [done|]. intros [|]; [done|]. apply holds_Do; [done|]. intros _. apply holds_Do; [by left|]. intros _.
  unfold bindR. eapply holds_bind.
  { eapply holds_mono; [apply captureSstv_calls|apply capture_scan_call|]. intros a Ha. exact Ha. }
  intros [[r|]|m|] [Hv Ht]; [| |by destruct (Ht m)|done].
  - destruct (cr_success r) eqn:E; (apply holds_Do; [done|]; intros _); [|done].
    simpl in *. split; [done|]. destruct Hv as [Hv _]. intros Hn. by rewrite Hn, E in Hv.
  - apply holds_Do; [done|]. by intros _.
Qed.

Lemma scan_while_calls fuel e : holds scan_call scan_value (scan_while cwd fuel config dur e).
Proof.
  induction fuel as [|fuel IH]; cbn [scan_while]; [done|]. apply holds_Do; [done|]. intros [|]; [done|].
  apply holds_Do; [by left|]. intros t. destruct (t <? e); [|done].
  unfold bindR. eapply holds_bind; [apply scan_freqs_calls|]. by intros [[r|]|m|].
Qed.
End Calls.

Section Runs.
Context {W : Type} (h : forall c, W -> resp c * W) (time : W -> Z) (stopped : W -> bool).
Context `{!Clock h time} `{!Settles h} `{!StopFlag h stopped}.
Context (cwd : string) (config : ReceiverConfig) (dur : Z).

Lemma captureSstv_settles info w : result h (captureSstv cwd info config dur) w <> Pending.
Proof.
  unfold captureSstv, try_catch, bindR. props.
  set (w1 := (h (SM _) _).2).
  pose proof (recordPass_settles h time info dur config report_progress w1) as Hr.
  destruct (result h (recordPass _ _ _ _ _) w1) as [path|m|]; props; [|done|done].
  set (w2 := (h (SM _) _).2).
  pose proof (decodeRecording_settles cwd h path (cfg_imagesDir config) sstv w2) as Hd.
  destruct (result h (decodeRecording _ _ _ _) w2) as [o|m|]; props; [|done|done].
  unfold save_with_fake_pass, bindR. props.
  match goal with |- context [h (SaveCapture ?a ?b) ?w] =>
    destruct (h (SaveCapture a b) w) as [[?|?] ?] end; simpl; props; [done|].
  match goal with |- context [match ?l with [] => _ | _ => _ end] => destruct l end; simpl; props; [done|].
  match goal with |- context [h (SaveImages ?a ?b) ?w] =>
    destruct (h (SaveImages a b) w) as [[?|?] ?] end; simpl; props; done.
Qed.

(** A stop request is not lost by anything a scan does. *)
Lemma scan_call_keeps_stop {A} (R : A -> Prop) p w :
  holds scan_call R p -> stopped w = true -> stopped (final h p w) = true.
Proof.
  revert w. induction p as [a|c k IH]; intros w; [done|].
  intros [Hc Hk] Hw. rewrite final_Do. apply IH; [apply Hk|].
  apply stop_sticky; [|done]. by intros ->; destruct Hc as [?|?].
Qed.

(** A world in which the scan is over, or half a second after [t]. *)
Definition progressed (t e : Z) (w : W) : Prop :=
  stopped w = true \/ e <= time w \/ t + 500 <= time w.

Lemma progressed_final {A} (R : A -> Prop) p t e w :
  holds scan_call R p -> progressed t e w -> progressed t e (final h p w).
Proof.
  intros Hp Hw. pose proof (clock_final h time p w).
  destruct Hw as [Hw|Hw]; [left; by eapply scan_call_keeps_stop|]. right. lia.
Qed.

Lemma progressed_call c t e w : scan_call c -> progressed t e w -> progressed t e (h c w).2.
Proof.
  intros Hc Hw. apply (progressed_final (fun _ => True) (Do c (fun _ => Ret tt))) in Hw; [|done].
  by rewrite final_Do in Hw.
Qed.

Lemma dwell_S n e th : dwell (S n) e th =
  (stop <~ ShouldStop;;
   if stop then Ret false
   else
     now <~ Now;;
     if now <? e then
       Sleep 500;;;
       fftData <~ LatestFFT;;
       match fftData with
       | Some d => if th <?q fft_maxPower d then Ret true else dwell n e th
       | None => dwell n e th
       end
     else Ret false).
Proof. done. Qed.

Lemma dwell_progress n e th w : progressed (time w) e (final h (dwell (S n) e th) w).
Proof.
  rewrite dwell_S. props. rewrite stop_read.
  destruct (stopped w) eqn:Es; props.
  { left. by apply (stop_sticky ShouldStop). }
  set (w1 := (h ShouldStop w).2). rewrite clock_now.
  pose proof (clock_mono ShouldStop w). pose proof (clock_mono Now w1).
  destruct (time w1 <? e) eqn:Et; props.
  - set (w2 := (h (Sleep 500) _).2).
    assert (Hw2 : progressed (time w) e w2).
    { right; right. subst w2. pose proof (clock_sleep 500 (h Now w1).2). subst w1. lia. }
    assert (Hw3 : progressed (time w) e (h LatestFFT w2).2) by (by apply progressed_call).
    destruct ((h LatestFFT w2).1) as [d|]; [destruct (_ <?q _)|]; [by props| |];
      (eapply progressed_final; [apply dwell_calls|done]).
  - right; left. subst w1. lia.
Qed.

Lemma progressed_le t t' e w : t <= t' -> progressed t' e w -> progressed t e w.
Proof. unfold progressed. intuition lia. Qed.

Lemma scan_freqs_settles e fs w :
  result h (scan_freqs cwd config dur e fs) w <> Pending.
Proof.
  revert w. induction fs as [|f fs IH]; intros w; cbn [scan_freqs]; [done|].
  unfold bindR. props.
  destruct ((h ShouldStop w).1); props; [done|].
  set (w1 := (h ShouldStop w).2). destruct (e <=? _); props; [done|].
  set (w2 := (h (SM _) _).2). destruct (result h (dwell _ _ _) w2); props; [|apply IH].
  set (w3 := final h (dwell _ _ _) w2). destruct ((h ShouldStop w3).1); props; [apply IH|].
  set (w4 := (h (Sleep 1000) _).2).
  pose proof (captureSstv_settles (captureInfo f) w4) as Hc.
  destruct (result h (captureSstv _ _ _ _) w4) as [[r|]|m|]; props; [|apply IH|done|done].
  destruct (cr_success r); props; [done|apply IH].
Qed.

Lemma scan_freqs_progress e f fs w :
  progressed (time w) e (final h (scan_freqs cwd config dur e (f :: fs)) w).
Proof.
  cbn [scan_freqs]. props. rewrite stop_read.
  destruct (stopped w) eqn:Es; props.
  { left. by apply (stop_sticky ShouldStop). }
  set (w1 := (h ShouldStop w).2). rewrite clock_now.
  pose proof (clock_mono ShouldStop w). pose proof (clock_mono Now w1).
  destruct (e <=? time w1) eqn:Et; props.
  { right; left. subst w1. lia. }
  set (w2 := (h (SM _) _).2).
  assert (Hle : time w <= time w2).
  { subst w2. etransitivity; [|apply clock_mono]. subst w1. lia. }
  eapply progressed_le; [exact Hle|].
  pose proof (dwell_progress 39 e (cfg_minSignalStrength config - 5)%Q w2) as Hd.
  set (w3 := final h (dwell 40 _ _) w2) in *.
  eapply progressed_final; [|exact Hd]. instantiate (1 := fun _ => True).
  pose proof (scan_freqs_calls cwd config dur e fs) as Hfs.
  eapply holds_mono in Hfs; [|intros c Hc; exact Hc|intros ? _; exact I].
  destruct (result h (dwell _ _ _) w2); [|exact Hfs].
  apply holds_Do; [done|]. intros [|]; [exact Hfs|]. apply holds_Do; [done|]. intros _.
  apply holds_Do; [by left|]. intros _. unfold bindR. eapply holds_bind.
  { eapply holds_mono; [apply captureSstv_calls|apply capture_scan_call|]. intros a _. exact I. }
  intros [[r|]|m|] _; [destruct (cr_success r)| | |]; try done.
Qed.

Lemma scan_while_S fuel e : scan_while cwd (S fuel) config dur e =
  (stop <~ ShouldStop;;
   if stop then Ret (Ok None)
   else
     now <~ Now;;
     if now <? e then
       r <-! scan_freqs cwd config dur e SSTV_SCAN_FREQUENCIES;;
       match r with
       | Some result => Ret (Ok (Some result))
       | None => scan_while cwd fuel config dur e
       end
     else Ret (Ok None)).
Proof. done. Qed.

Lemma scan_while_over fuel e w :
  stopped w = true \/ e <= time w -> result h (scan_while cwd (S fuel) config dur e) w <> Pending.
Proof.
  intros Hw. rewrite scan_while_S. props. rewrite stop_read.
  destruct (stopped w); props; [done|]. destruct Hw as [?|Hw]; [done|].
  rewrite clock_now. pose proof (clock_mono ShouldStop w).
  destruct (_ <? e) eqn:E; props; [lia|done].
Qed.

Lemma scan_while_settles fuel e w :
  e <= time w + 500 * Z.of_nat fuel ->
  result h (scan_while cwd (S fuel) config dur e) w <> Pending.
Proof.
  revert w. induction fuel as [|fuel IH]; intros w Hf; [apply scan_while_over; lia|].
  rewrite scan_while_S. unfold bindR. props. rewrite stop_read.
  destruct (stopped w); props; [done|]. set (w1 := (h ShouldStop w).2).
  destruct (_ <? e); props; [|done]. set (w2 := (h Now w1).2).
  pose proof (scan_freqs_settles e SSTV_SCAN_FREQUENCIES w2) as Hs.
  pose proof (scan_freqs_progress e (mkScanFrequency 144500000 "2m SSTV Calling")
    [mkScanFrequency 145500000 "2m SSTV Alt"] w2) as Hp.
  fold SSTV_SCAN_FREQUENCIES in Hp.
  destruct (result h (scan_freqs _ _ _ _ _) w2) as [[r|]|m|]; props; [done| |done|done].
  pose proof (clock_mono ShouldStop w). pose proof (clock_mono Now w1).
  destruct Hp as [Hp|[Hp|Hp]]; [apply scan_while_over; by left|apply scan_while_over; by right|].
  apply IH. subst w1 w2. lia.
Qed.
End Runs.

(** The successive values of [isScanning], and what a scan may do to the state
    manager: nothing that concerns the passes. *)
Definition scan_flags (tr : list call) : list bool :=
  omap (fun c => match c with SetScanning b => Some b | _ => None end) tr.

Definition scan_op (o : StateManager.op) : Prop :=
  match o with
  | StateManager.SetStatus _ | StateManager.SetScanningFrequency _ _
  | StateManager.UpdateProgress _ _ _ => True
  | _ => False
  end.

Lemma scan_flags_app t1 t2 : scan_flags (t1 ++ t2) = scan_flags t1 ++ scan_flags t2.
Proof. unfold scan_flags. apply omap_app. Qed.

Lemma scan_finally_flags {W} (h : forall c, W -> resp c * W) w :
  scan_flags (trace h scan_finally w) = [false].
Proof.
  unfold scan_finally. props. by case_bool_decide; props.
Qed.

Lemma scan_ops_run ops : Forall scan_op ops.*2 -> forall s,
  st_upcomingPasses (StateManager.run ops s).1 = st_upcomingPasses s /\
  st_nextPass (StateManager.run ops s).1 = st_nextPass s /\
  st_currentPass (StateManager.run ops s).1 = st_currentPass s.
Proof.
  induction ops as [|[now o] ops IH]; intros Ho s; [done|].
  inversion Ho as [|? ? Hop Hops]; subst. simpl.
  destruct (StateManager.apply now o s) as [s1 e] eqn:E.
  destruct (IH Hops s1) as (H1 & H2 & H3).
  destruct (StateManager.run ops s1) as [s2 es] eqn:E2. simpl in *. rewrite H1, H2, H3.
  destruct o; try done; unfold StateManager.apply in E; injection E as <- <-; done.
Qed.

Lemma scanForSstv_ops {W} (h : forall c, W -> resp c * W) cwd fuel config dur w :
  Forall scan_op (sm_ops (trace h (scanForSstv cwd fuel config dur) w)).
Proof.
  apply sm_ops_Forall.
  assert (Hs : holds (fun c => forall o, c = SM o -> scan_op o) (fun _ => True)
                 (scanForSstv cwd fuel config dur)).
  { unfold scanForSstv, try_finally. repeat (holds_step; try by intros ? [= <-]); try done.
    apply (holds_bind _ (fun _ => True)).
    - eapply holds_mono; [apply scan_while_calls| |done].
      intros c Hc o ->. destruct o; try done; by destruct Hc.
    - intros a _. apply (holds_bind _ (fun _ => True)); [|done]. unfold scan_finally.
      repeat (holds_step; try by intros ? [= <-]); try done. }
  eapply holds_trace, Hs.
Qed.

(** ** Properties *)

(** C19: A scan that starts always ends, without an exception, within the fuel
    given by its duration; it returns only recordings that yielded images, and
    leaves [isScanning] false.  A scan requested while another runs returns null
    at once and touches nothing. *)
Theorem scanForSstv_ok {W} (h : forall c, W -> resp c * W) (time : W -> Z) (stopped : W -> bool)
  (Hc : Clock h time) (Hs : Settles h) (Hf : StopFlag h stopped) cwd config dur w :
  let p := scanForSstv cwd (scan_fuel dur) config dur in
  exists o, result h p w = Ok o /\
    (forall r, o = Some r -> cr_success r = true /\ cr_imagePaths r <> []) /\
    (if (h IsScanning w).1 then o = None /\ trace h p w = [IsScanning]
     else last (scan_flags (trace h p w)) = Some false).
Proof.
  simpl. unfold scanForSstv, try_finally. props.
  destruct (h IsScanning w) as [[|] w0]; cbn [fst snd]; props; [by exists None; split_and!|].
  set (w1 := (h (SM _) _).2). rewrite clock_now. set (e := time w1 + dur * 1000).
  set (w2 := (h Now w1).2).
  assert (Hn : result h (scan_while cwd (scan_fuel dur) config dur e) w2 <> Pending).
  { apply (scan_while_settles h time stopped). pose proof (clock_mono Now w1).
    subst e w2. lia. }
  pose proof (holds_result h _ _ _ w2 (scan_while_calls cwd config dur (scan_fuel dur) e)) as Hv.
  destruct (result h (scan_while _ _ _ _ e) w2) as [o|m|]; [|done..].
  exists o. split_and!; [done| |].
  - intros r ->. exact Hv.
  - change (?a :: ?b :: ?c :: ?d :: ?f :: ?t) with ([a; b; c; d; f] ++ t).
    rewrite !scan_flags_app, scan_finally_flags. generalize (scan_flags (trace h (scan_while cwd (scan_fuel dur) config dur e) w2)).
    intros l. rewrite app_nil_r, app_assoc. apply last_snoc.
Qed.

#[export] Instance handle_stop : StopFlag handle w_stop.
Proof.
  split; [done|]. intros c w Hc Hw. destruct c; simpl; try done; repeat break_match; try done.
  by destruct b.
Qed.

Definition scan_world : world :=
  mkWorld 0 (Some (mkFFTData 0 144500000 [] (-80) (-20))) [] [] false false waiting.

Lemma scanForSstv_ok_witness :
  exists o, result handle (scanForSstv "/app" (scan_fuel 3) sample_config 3) scan_world = Ok o /\
    (forall r, o = Some r -> cr_success r = true /\ cr_imagePaths r <> []) /\
    last (scan_flags (trace handle (scanForSstv "/app" (scan_fuel 3) sample_config 3) scan_world))
      = Some false.
Proof.
  exact (scanForSstv_ok handle w_time w_stop handle_clock handle_settles handle_stop
           "/app" sample_config 3 scan_world).
Defined.

(** A scan leaves the pass bookkeeping of the state manager alone: replaying
    its operations, at any times, keeps the current, next and upcoming passes. *)
Theorem scanForSstv_keeps_passes {W} (h : forall c, W -> resp c * W) cwd fuel config dur w ops s
  (Hops : ops.*2 = sm_ops (trace h (scanForSstv cwd fuel config dur) w)) :
  let s' := (StateManager.run ops s).1 in
  st_upcomingPasses s' = st_upcomingPasses s /\ st_nextPass s' = st_nextPass s /\
  st_currentPass s' = st_currentPass s.
Proof. simpl. apply scan_ops_run. rewrite Hops. apply scanForSstv_ops. Qed.

Lemma scanForSstv_keeps_passes_witness :
  let ops := map (fun o => (0, o)) (sm_ops (trace handle
               (scanForSstv "/app" (scan_fuel 3) sample_config 3) scan_world)) in
  st_upcomingPasses (StateManager.run ops (StateManager.initial 0)).1 = [].
Proof.
  intros ops.
  apply (scanForSstv_keeps_passes handle "/app" (scan_fuel 3) sample_config 3 scan_world ops
           (StateManager.initial 0)).
  vm_compute. reflexivity.
Defined.

(** A recording started by the scanner does not look at the stop request and
    lasts the whole scan duration, whatever the time of the detection: the
    scan's own limit, and the scheduler's order to stop 30 s before a pass, do
    not bound it. *)
Theorem captureSstv_ignores_stop {W} (h : forall c, W -> resp c * W) (time : W -> Z)
  (Hc : Clock h time) cwd info config dur w :
  ShouldStop ∉ trace h (captureSstv cwd info config dur) w /\
  (forall r, result h (captureSstv cwd info config dur) w = Ok (Some r) ->
     time w + dur * 1000 <= time (final h (captureSstv cwd info config dur) w)).
Proof.
  split.
  - intros Hin.
    pose proof (holds_trace h _ _ _ w (captureSstv_calls cwd config dur info)) as Ht.
    rewrite Forall_forall in Ht. by destruct (Ht _ Hin).
  - intros r. unfold captureSstv, try_catch, bindR. props.
    set (w1 := (h (SM _) _).2).
    assert (Hw : time w <= time w1) by
      (subst w1; etransitivity; [apply (clock_mono Now)|apply clock_mono]).
    destruct (result h (recordPass _ _ _ _ _) w1) as [path|m|] eqn:E; props; [|done|done].
    apply (recordPass_lasts h time) in E. intros _.
    do 3 (etransitivity; [|apply clock_final; done]).
    etransitivity; [|apply clock_mono]. lia.
Qed.

Lemma captureSstv_ignores_stop_witness :
  ShouldStop ∉ trace handle (captureSstv "/app" sample_satellite sample_config 3) scan_world.
Proof.
  apply (captureSstv_ignores_stop handle w_time handle_clock "/app" sample_satellite
           sample_config 3 scan_world).
Defined.

End SstvScanner.
