(* ===== verification/Scheduler.v ===== *)
(** * The scheduler (src/backend/scheduler/scheduler.ts)

    [waitForPass] sleeps until shortly before a pass, with an SSTV scan forked
    in the background when there is time for one; [capturePass] frees the
    receiver, verifies the signal, records, decodes, stores the result and
    closes the pass; [runScheduler] does both for every pass of the list. *)

From S2P Require Import Prelude JsStd JsDate Types StateManager Effects Shell Signal.
From S2P Require Import Recorder Decoders SstvScanner.
Import Signal Recorder Decoders SstvScanner.
Local Open Scope Z_scope.
Local Open Scope prog_scope.

Module Scheduler.

(* @src backend/scheduler/scheduler.ts:18-18 MIN_IDLE_FOR_SSTV_SCAN *)
Definition MIN_IDLE_FOR_SSTV_SCAN : Z := 180.

(** The number of checks [verifySignal] makes by default. *)
(* @src backend/capture/signal.ts:95-95 attempts *)
Definition default_attempts : nat := 3.

(* @src backend/scheduler/scheduler.ts:108-120 formatDuration *)
Definition formatDuration (seconds : Z) : string :=
  let hours := seconds / 3600 in
  let minutes := (seconds mod 3600) / 60 in
  let secs := seconds mod 60 in
  if 0 <? hours then (show_Z hours ++ "h " ++ show_Z minutes ++ "m " ++ show_Z secs ++ "s")%string
  else if 0 <? minutes then (show_Z minutes ++ "m " ++ show_Z secs ++ "s")%string
  else (show_Z secs ++ "s")%string.

(* @src backend/scheduler/scheduler.ts:122-128 formatCountdown *)
Definition formatCountdown (seconds : Z) : string :=
  let hours := seconds / 3600 in
  let minutes := (seconds mod 3600) / 60 in
  let secs := seconds mod 60 in
  ("Time until pass: " ++ padStart2 hours ++ ":" ++ padStart2 minutes ++ ":" ++ padStart2 secs)%string.

(** [targetTime] *)
(* @src backend/scheduler/scheduler.ts:22-24 waitForPass *)
Definition wait_target (pass : SatellitePass) : Z :=
  let passStart := pass_aos pass in
  let bufferMs := captureBufferSeconds * 1000 in
  passStart - bufferMs.

(** The condition of the scan during the wait, short-circuit as in the code. *)
(* @src backend/scheduler/scheduler.ts:42-47 waitForPass *)
Definition may_scan (config : option ReceiverConfig) (waitSeconds : Z) : prog bool :=
  match config with
  | None => Ret false
  | Some _ =>
      if MIN_IDLE_FOR_SSTV_SCAN <? waitSeconds then
        running <~ IsScanning;;
        if running then Ret false else ask GroundScanEnabled
      else Ret false
  end.

(* @src backend/scheduler/scheduler.ts:20-106 waitForPass *)
Definition waitForPass (pass : SatellitePass) (config : option ReceiverConfig) : prog unit :=
  now <~ Now;;
  let targetTime := wait_target pass in
  SM (StateManager.SetStatus waiting);;;
  if targetTime <=? now then Ret tt
  else
    let waitMs := targetTime - now in
    let waitSeconds := js_ceil (inject_Z waitMs / 1000) in
    scan <- may_scan config waitSeconds;;
    if scan : bool then
      let maxScanDuration := Z.min (waitSeconds - 60) 120 in
      ForkScan maxScanDuration;;;
      Sleep waitMs;;;
      SetShouldStop true;;;
      Ret tt
    else
      Sleep waitMs;;;
      Ret tt.

(** The timer that runs every second during the wait with a scan. *)
(* @src backend/scheduler/scheduler.ts:70-80 updateInterval *)
Definition wait_tick (targetTime : Z) : prog (option string) :=
  now <~ Now;;
  let remaining := js_ceil (inject_Z (targetTime - now) / 1000) in
  let text := if 0 <? remaining then Some (formatCountdown remaining ++ " (SSTV scanning)")%string
              else None in
  if remaining <=? 30 then
    running <~ IsScanning;;
    if running then SetShouldStop true;;; Ret (Some (formatCountdown remaining)) else Ret text
  else Ret text.

(* @src backend/scheduler/scheduler.ts:233-243 saveResultToDatabase *)
Definition saveResultToDatabase (result : CaptureResult) (pass : SatellitePass) : prog unit :=
  captureId <~ SaveCapture result pass;;
  match captureId with
  | inl _ => Ret tt
  | inr id =>
      match cr_imagePaths result with
      | [] => Ret tt
      | paths => SaveImages id paths;;; Ret tt
      end
  end.

(** [saveResultToDatabase(result, pass); stateManager.completePass(result);
    return result], the end of every branch of [capturePass]. *)
(* @src backend/scheduler/scheduler.ts:212-214 capturePass *)
Definition finish (result : CaptureResult) (pass : SatellitePass) : prog (res CaptureResult) :=
  saveResultToDatabase result pass;;
  SM (StateManager.CompletePass result);;;
  Ret (Ok result).

(** The progress callback of the recording. *)
(* @src backend/scheduler/scheduler.ts:184-189 capturePass *)
Definition on_progress (elapsed total : Z) : prog unit :=
  let progress := js_round (inject_Z elapsed / inject_Z total * 100) in
  SM (StateManager.UpdateProgress progress elapsed total);;; Ret tt.

(** The release of the receiver by the FFT stream. *)
(* @src backend/scheduler/scheduler.ts:137-144 capturePass *)
Definition release_sdr : prog unit :=
  running <~ IsFFTRunning;;
  if running then StopFFT;;; Sleep 1000;;; Ret tt else Ret tt.

Section Capture.
Context (cwd : string).

(* @src backend/scheduler/scheduler.ts:176-230 capturePass *)
Definition record_and_decode (pass : SatellitePass) (config : ReceiverConfig) (duration : Z)
  : prog (res CaptureResult) :=
  let satellite := pass_satellite pass in
  startTime <~ Now;;
  try_catch
    (recordingPath <-! recordPass (record_fuel duration) satellite duration config on_progress;;
     SM (StateManager.SetStatus decoding);;;
     decoderResult <-! decodeRecording cwd recordingPath (cfg_imagesDir config)
                         (si_signalType satellite);;
     let imagePaths := from_option outputPaths [] decoderResult in
     endTime <~ Now;;
     finish (mkResult satellite recordingPath imagePaths startTime endTime 0 true None) pass)
    (fun error =>
       endTime <~ Now;;
       finish (mkResult satellite "" [] startTime endTime 0 false (Some error)) pass).

(* @src backend/scheduler/scheduler.ts:130-231 capturePass *)
Definition capturePass (pass : SatellitePass) (config : ReceiverConfig)
  : prog (res CaptureResult) :=
  let satellite := pass_satellite pass in
  let duration := js_ceil (pass_duration pass) + captureBufferSeconds * 2 in
  release_sdr;;
  SM (StateManager.StartPass pass);;;
  signalOk <-! (if cfg_skipSignalCheck config then Ret (Ok true)
                else verifySignal satellite (cfg_gain config) (cfg_minSignalStrength config)
                       default_attempts);;
  if signalOk : bool then record_and_decode pass config duration
  else
    startTime <~ Now;;
    endTime <~ Now;;
    finish (mkResult satellite "" [] startTime endTime 0 false (Some "Signal too weak"%string)) pass.

(* @src backend/scheduler/scheduler.ts:245-274 runScheduler *)
Fixpoint runScheduler (passes : list SatellitePass) (config : ReceiverConfig)
  (results : list CaptureResult) : prog (res (list CaptureResult)) :=
  match passes with
  | [] => Ret (Ok results)
  | pass :: rest =>
      now <~ Now;;
      if pass_los pass <? now then runScheduler rest config results
      else
        waitForPass pass (Some config);;
        result <-! capturePass pass config;;
        runScheduler rest config (results ++ [result])
  end.

End Capture.

(** ** Facts *)

(** What happens between the start of a pass and its completion, as far as the
    state manager is concerned. *)
Definition busy_op (o : StateManager.op) : Prop :=
  match o with
  | StateManager.SetStatus decoding | StateManager.UpdateProgress _ _ _ => True
  | _ => False
  end.

Definition busy_call (c : call) : Prop :=
  match c with
  | SM o => busy_op o
  | Now | Sleep _ | Spawn _ _ | FileExists _ | EnsureDir _ | SpawnRecorder _ _ _ _ _ | KillRtl
  | AwaitSoxClose _ | KillSox => True
  | _ => False
  end.

(** The storage of a result, then the completion of its pass with that result. *)
Definition finishing (r : CaptureResult) (pass : SatellitePass) (t : list call) : Prop :=
  exists saved, t = SaveCapture r pass :: saved ++ [SM (StateManager.CompletePass r)] /\
    (saved = [] \/ exists id, saved = [SaveImages id (cr_imagePaths r)] /\ cr_imagePaths r <> []).

Definition result_ok (pass : SatellitePass) (r : CaptureResult) : Prop :=
  cr_satellite r = pass_satellite pass /\
  (cr_success r = true <-> cr_error r = None) /\
  (cr_success r = false -> cr_recordingPath r = ""%string /\ cr_imagePaths r = []).

Section Facts.
Context {W : Type} (h : forall c, W -> resp c * W).

Lemma finish_runs r pass w :
  runs h (finish r pass) w (fun a _ t => a = Ok r /\ finishing r pass t).
Proof.
  unfold finish, saveResultToDatabase, finishing.
  repeat run_step; simpl; split; try done.
  - by exists []; auto.
  - by exists []; auto.
  - eexists [_]. split; [done|]. right. eauto.
Qed.

Lemma checkSignalStrength_calls sat gain :
  holds busy_call (fun _ => True) (checkSignalStrength sat gain).
Proof.
  unfold checkSignalStrength.
  repeat first [holds_step | done | apply (holds_bind _ (fun _ => True)); [first [by apply runCommand_calls|idtac]|intros ? _]].
Qed.

Lemma attempt_loop_calls check n rs :
  holds busy_call (fun _ => True) check ->
  holds busy_call (fun _ => True) (attempt_loop check n rs).
Proof.
  intros Hc. revert rs. induction n as [|n IH]; intros rs; [done|]. cbn [attempt_loop].
  unfold bindR. eapply holds_bind; [exact Hc|]. intros [b|m|] _; [|done|done].
  destruct n; [apply IH|]. apply holds_Do; [done|]. intros _. apply IH.
Qed.

Lemma verifySignal_calls sat gain m n :
  holds busy_call (fun _ => True) (verifySignal sat gain m n).
Proof.
  unfold verifySignal, bindR. eapply holds_bind.
  { apply attempt_loop_calls. unfold checkSignalOnce, bindR.
    eapply holds_bind; [apply checkSignalStrength_calls|]. by intros [?|?|]. }
  by intros [?|?|].
Qed.

Lemma recording_calls fuel sat dur cfg :
  holds busy_call (fun _ => True) (recordPass fuel sat dur cfg on_progress).
Proof. apply recordPass_calls; [by intros []|]. done. Qed.

Lemma decoding_calls cwd p o t : holds busy_call (fun _ => True) (decodeRecording cwd p o t).
Proof. eapply holds_mono; [apply decodeRecording_calls|by intros []|done]. Qed.

(** A completed capture: only busy calls, then the storage and the completion. *)
Definition captured (pass : SatellitePass) (a : res CaptureResult) (t : list call) : Prop :=
  match a with
  | Ok r => result_ok pass r /\ exists mid fin, t = mid ++ fin /\ Forall busy_call mid /\
              finishing r pass fin
  | _ => True
  end.

Lemma captured_app pass a t1 t2 :
  Forall busy_call t1 -> captured pass a t2 -> captured pass a (t1 ++ t2).
Proof.
  intros H1. destruct a as [r|m|]; simpl; [|done..]. intros (Hr & mid & fin & -> & Hm & Hf).
  split; [done|]. exists (t1 ++ mid), fin. rewrite app_assoc. split; [done|].
  split; [|done]. by apply Forall_app.
Qed.

Lemma captured_cons pass a c t : busy_call c -> captured pass a t -> captured pass a (c :: t).
Proof. intros Hc. apply (captured_app pass a [c]). by constructor. Qed.

Definition no_throw {A} (a : res A) : Prop := forall m, a <> Throw m.

Lemma finish_captured r pass w :
  result_ok pass r -> runs h (finish r pass) w (fun a _ t => captured pass a t /\ no_throw a).
Proof.
  intros Hr. eapply runs_mono; [apply finish_runs|]. simpl. intros a w' t [-> Ht].
  split; [|by intros m]. split; [done|]. by exists [], t.
Qed.

Lemma record_and_decode_runs cwd pass cfg dur w :
  runs h (record_and_decode cwd pass cfg dur) w (fun a _ t => captured pass a t /\ no_throw a).
Proof.
  unfold record_and_decode; cbv zeta. run_step. run_step. run_step.
  eapply (runs_mono _ _ _ (fun a _ t => match a with
    | Throw _ => Forall busy_call t | _ => captured pass a t end)).
  - unfold bindR. run_step. eapply runs_mono; [apply holds_runs, recording_calls|].
    cbv beta. intros [path|m|] w1 t1 [_ H1]; run_step; [|by rewrite app_nil_r|done].
    run_step. eapply runs_mono; [apply holds_runs, decoding_calls|].
    cbv beta. intros [o|m|] w2 t2 [_ H2]; run_step; [| |done].
    + eapply runs_mono; [apply (finish_captured (mkResult _ _ _ _ _ _ _ _))|].
      { split_and!; [done|done|]. simpl. discriminate. }
      cbv beta. intros [x|m|] w3 t3 [H3 Hn]; [|by destruct (Hn m)|done].
      apply captured_app; [done|]. apply captured_cons; [done|].
      apply captured_app; [done|]. by apply captured_cons.
    + rewrite app_nil_r. apply Forall_app; split; [done|]. by constructor.
  - cbv beta. intros [x|m|] w1 t1 H1; run_step.
    + rewrite app_nil_r. by split; [apply captured_cons|].
    + eapply runs_mono; [apply (finish_captured (mkResult _ _ _ _ _ _ _ _))|].
      { split_and!; [done|done|]. done. }
      cbv beta. intros a w2 t2 [H2 Hn]. split; [|done]. apply captured_cons; [done|].
      apply captured_app; [done|]. by apply captured_cons.
    + done.
Qed.

(** The start of a capture: a spectrum that runs is stopped, and a second passes, before the
    pass is announced. *)
Definition released (running : bool) (t : list call) : Prop :=
  t = IsFFTRunning :: if running then [StopFFT; Sleep 1000] else [].

Lemma release_sdr_runs w : runs h release_sdr w (fun _ _ t => released (h IsFFTRunning w).1 t).
Proof.
  unfold release_sdr, released. apply runs_Do. intros r w' ->. destruct r; repeat run_step; done.
Qed.

Lemma capturePass_runs cwd pass cfg w :
  runs h (capturePass cwd pass cfg) w (fun a _ t =>
    exists t0 t1, t = t0 ++ SM (StateManager.StartPass pass) :: t1 /\
      released (h IsFFTRunning w).1 t0 /\
      captured pass a t1).
Proof.
  unfold capturePass; cbv zeta. run_step. eapply runs_mono; [apply release_sdr_runs|].
  cbv beta. intros _ w0 t0 H0. run_step.
  match goal with |- runs _ ?p _ _ =>
    assert (Hr : forall w, runs h p w (fun a _ t => captured pass a t)) end.
  { clear. intros w. unfold bindR. run_step.
    apply (runs_mono _ _ _ (fun a _ t => Forall busy_call t)).
    { destruct (cfg_skipSignalCheck cfg); [by run_step; constructor|].
      eapply runs_mono; [apply holds_runs, verifySignal_calls|]. by intros a w' t []. }
    intros [[|]|m|] w1 t1 H1; [| |done..].
    - eapply runs_mono; [apply record_and_decode_runs|]. intros a w2 t2 [H2 _].
      by apply captured_app.
    - run_step. run_step. eapply runs_mono; [apply (finish_captured (mkResult _ _ _ _ _ _ _ _))|].
      { split_and!; done. }
      intros a w2 t2 [H2 _]. apply captured_app; [done|]. by do 2 (apply captured_cons; [done|]). }
  eapply runs_mono; [apply Hr|]. intros a w2 t2 H2. by exists t0, t2.
Qed.

End Facts.

Section Settled.
Context {W : Type} (h : forall c, W -> resp c * W) (time : W -> Z).
Context `{!Clock h time} `{!Settles h}.
Context (cwd : string) (config : ReceiverConfig).

Lemma finish_settles r pass w : result h (finish r pass) w = Ok r.
Proof. apply (finish_runs h r pass w). Qed.

Lemma record_and_decode_settles pass dur w :
  result h (record_and_decode cwd pass config dur) w <> Pending.
Proof.
  unfold record_and_decode; cbv zeta. unfold try_catch, bindR. props.
  pose proof (recordPass_settles h time (pass_satellite pass) dur config on_progress (h Now w).2) as Hr.
  destruct (result h (recordPass _ _ _ _ _) _) as [path|m|]; props;
    rewrite ?finish_settles; props; [|done|done].
  set (w2 := (h (SM _) _).2).
  pose proof (decodeRecording_settles cwd h path (cfg_imagesDir config)
    (si_signalType (pass_satellite pass)) w2) as Hd.
  destruct (result h (decodeRecording _ _ _ _) w2) as [o|m|]; props;
    rewrite ?finish_settles; props; rewrite ?finish_settles; done.
Qed.

Lemma capturePass_ok pass w : exists r, result h (capturePass cwd pass config) w = Ok r.
Proof.
  assert (Hrd : forall dur w, exists r, result h (record_and_decode cwd pass config dur) w = Ok r).
  { intros dur w'. pose proof (record_and_decode_settles pass dur w') as Hn.
    destruct (record_and_decode_runs h cwd pass config dur w') as [_ Ht].
    destruct (result h (record_and_decode _ _ _ _) w') as [r|m|]; [eauto|by destruct (Ht m)|done]. }
  unfold capturePass; cbv zeta. unfold bindR. props.
  set (w1 := (h (SM _) _).2).
  assert (Hv : exists b, result h (if cfg_skipSignalCheck config then Ret (Ok true)
      else verifySignal (pass_satellite pass) (cfg_gain config) (cfg_minSignalStrength config)
             default_attempts) w1 = Ok b).
  { destruct (cfg_skipSignalCheck config); [by exists true|]. by apply verifySignal_ok. }
  destruct Hv as [b ->]. destruct b; [apply Hrd|]. props. rewrite finish_settles. eauto.
Qed.

Lemma capturePass_satellite pass w r :
  result h (capturePass cwd pass config) w = Ok r -> cr_satellite r = pass_satellite pass.
Proof.
  intros Hr. destruct (capturePass_runs h cwd pass config w) as (t0 & t1 & _ & _ & Hc).
  rewrite Hr in Hc. apply Hc.
Qed.

Lemma waitForPass_until pass cfg w :
  wait_target pass <= time (final h (waitForPass pass cfg) w).
Proof.
  unfold waitForPass; cbv zeta. props. rewrite clock_now.
  set (w1 := (h (SM _) _).2).
  assert (Hw : time w <= time w1) by
    (subst w1; etransitivity; [apply (clock_mono Now)|apply clock_mono]).
  destruct (wait_target pass <=? time w) eqn:E; props; [lia|].
  set (waitSeconds := js_ceil _).
  pose proof (clock_final h time (may_scan cfg waitSeconds) w1) as Hm.
  destruct (result h (may_scan _ _) w1); props.
  - etransitivity; [|apply clock_mono].
    match goal with |- context [h (Sleep ?d) ?w'] => pose proof (clock_sleep d w') end.
    match goal with |- context [h (ForkScan ?d) ?w'] => pose proof (clock_mono (ForkScan d) w') end.
    lia.
  - match goal with |- context [h (Sleep ?d) ?w'] => pose proof (clock_sleep d w') end. lia.
Qed.

(** The scheduler attempts the passes that have not expired when their turn
    comes: those that end after the whole run are among them. *)
Lemma runScheduler_results passes rs w :
  exists kept out, result h (runScheduler cwd passes config rs) w = Ok (rs ++ out) /\
    kept `sublist_of` passes /\ map cr_satellite out = map pass_satellite kept /\
    (forall p, p ∈ passes ->
       time (final h (runScheduler cwd passes config rs) w) <= pass_los p -> p ∈ kept).
Proof.
  revert rs w. induction passes as [|p passes IH]; intros rs w; cbn [runScheduler].
  { exists [], []. rewrite app_nil_r. split_and!; try done. }
  unfold bindR. props. rewrite clock_now. destruct (pass_los p <? time w) eqn:E; props.
  - destruct (IH rs (h Now w).2) as (kept & out & H1 & H2 & H3 & H4).
    exists kept, out. split_and!; [done|by constructor|done|].
    intros q [->|Hq]%elem_of_cons Hl; [|by apply H4].
    pose proof (clock_mono Now w).
    pose proof (clock_final h time (runScheduler cwd passes config rs) (h Now w).2). lia.
  - set (w2 := final h (waitForPass _ _) _).
    destruct (capturePass_ok p w2) as [r Hr]. rewrite Hr. props.
    destruct (IH (rs ++ [r]) (final h (capturePass cwd p config) w2))
      as (kept & out & H1 & H2 & H3 & H4).
    exists (p :: kept), (r :: out). split_and!.
    + by rewrite H1, <- app_assoc.
    + by constructor.
    + simpl. by rewrite H3, (capturePass_satellite _ _ _ Hr).
    + intros q [->|Hq]%elem_of_cons Hl; [left|right; by apply H4].
Qed.
End Settled.

(** The state manager along a capture. *)
Lemma busy_run ops s : Forall busy_op ops.*2 ->
  st_upcomingPasses (StateManager.run ops s).1 = st_upcomingPasses s.
Proof.
  revert s. induction ops as [|[now o] ops IH]; intros s Ho; [done|].
  inversion Ho as [|? ? Hop Hops]; subst. simpl.
  destruct (StateManager.apply now o s) as [s1 e] eqn:E. specialize (IH s1 Hops).
  destruct (StateManager.run ops s1) as [s2 es]. simpl in *. rewrite IH.
  destruct o; try done; unfold StateManager.apply in E; by injection E as <- <-.
Qed.

Lemma busy_sm_ops t : Forall busy_call t -> Forall busy_op (sm_ops t).
Proof.
  intros Ht. apply sm_ops_Forall. eapply Forall_impl; [exact Ht|]. by intros c Hc o ->.
Qed.

Lemma released_sm_ops b t : released b t -> sm_ops t = [].
Proof. intros ->. by destruct b. Qed.

Lemma finishing_sm_ops r pass t : finishing r pass t -> sm_ops t = [StateManager.CompletePass r].
Proof. by intros (saved & -> & [->|(id & -> & _)]). Qed.

(** The operations of a capture on the state manager: the start, some progress,
    the completion with the result. *)
Lemma capturePass_sm_ops {W} (h : forall c, W -> resp c * W) cwd pass config w r :
  result h (capturePass cwd pass config) w = Ok r ->
  exists mid, Forall busy_op mid /\
    sm_ops (trace h (capturePass cwd pass config) w) =
    StateManager.StartPass pass :: mid ++ [StateManager.CompletePass r].
Proof.
  intros Hr. destruct (capturePass_runs h cwd pass config w) as (t0 & t1 & Ht & H0 & Hc).
  rewrite Hr in Hc. destruct Hc as (_ & mid & fin & -> & Hmid & Hfin).
  exists (sm_ops mid). split; [by apply busy_sm_ops|]. rewrite Ht.
  change (?c :: mid ++ fin) with ([c] ++ (mid ++ fin)).
  by rewrite !sm_ops_app, (released_sm_ops _ t0 H0), (finishing_sm_ops _ _ _ Hfin).
Qed.

Lemma capture_replay ops mid pass r s :
  ops.*2 = StateManager.StartPass pass :: mid ++ [StateManager.CompletePass r] ->
  Forall busy_op mid ->
  let s' := (StateManager.run ops s).1 in
  st_status s' = idle /\ st_currentPass s' = None /\
  st_upcomingPasses s' =
    js_filter (fun p => negb (StateManager.completed r p)) (st_upcomingPasses s).
Proof.
  intros Ho Hm. destruct ops as [|[n0 o0] ops]; [done|]. injection Ho as -> Ho.
  destruct ops as [|[n1 o1] ops' _] using rev_ind; [by destruct mid|].
  rewrite fmap_app in Ho. change ([(n1, o1)].*2) with [o1] in Ho. apply app_inj_tail in Ho as [Ho ->].
  rewrite app_comm_cons, StateManager.run_snoc.
  assert (Hu : st_upcomingPasses
    (StateManager.run ((n0, StateManager.StartPass pass) :: ops') s).1 = st_upcomingPasses s).
  { simpl. pose proof (busy_run ops' (StateManager.startPass n0 pass s).1) as Hb.
    rewrite Ho in Hb. specialize (Hb Hm). simpl in Hb.
    destruct (StateManager.run ops' _) as [s2 es]. done. }
  destruct (StateManager.run (_ :: _) s) as [s1 es]. simpl in *. by rewrite Hu.
Qed.

(** ** Properties *)

(** C1: Whatever the environment answers, a capture that returns a result first asked
    whether the spectrum runs and, exactly if it did, stopped it and waited a second, all
    before it announced the pass; what follows is only the signal check, the recording and
    the decoding, then the storage of exactly that result (its images too when there are
    any) and only then, once and last, the completion of the pass with it. *)
Theorem capturePass_protocol {W} (h : forall c, W -> resp c * W) cwd pass config w r
  (Hr : result h (capturePass cwd pass config) w = Ok r) :
  exists mid saved,
    trace h (capturePass cwd pass config) w =
      (IsFFTRunning :: if (h IsFFTRunning w).1 then [StopFFT; Sleep 1000] else []) ++
      SM (StateManager.StartPass pass) :: mid ++
      SaveCapture r pass :: saved ++ [SM (StateManager.CompletePass r)] /\
    Forall busy_call mid /\
    (saved = [] \/ exists id, saved = [SaveImages id (cr_imagePaths r)] /\ cr_imagePaths r <> []) /\
    cr_satellite r = pass_satellite pass /\
    (cr_success r = true <-> cr_error r = None) /\
    (cr_success r = false -> cr_recordingPath r = ""%string /\ cr_imagePaths r = []).
Proof.
  destruct (capturePass_runs h cwd pass config w) as (t0 & t1 & Ht & H0 & Hc).
  rewrite Hr in Hc. destruct Hc as ((Hs & He & Hf) & mid & fin & -> & Hm & saved & -> & Hsv).
  red in H0. subst t0. by exists mid, saved.
Qed.

Definition sample_pass : SatellitePass :=
  mkPass sample_satellite 1770105999123 1770106599123 45 1770106299123 600.

Definition short_pass : SatellitePass :=
  mkPass sample_satellite 1770105999123 1770106000123 45 1770106000000 1.

(** A receiver whose spectrum is on. *)
Definition watched_world : world :=
  mkWorld 1770105939123 (Some (mkFFTData 0 137900000 [] (-80) (-20))) [] [] false false waiting.

Lemma capturePass_protocol_witness :
  exists r, result handle (capturePass "/app" short_pass sample_config) watched_world = Ok r /\
    exists mid saved,
      trace handle (capturePass "/app" short_pass sample_config) watched_world =
        [IsFFTRunning; StopFFT; Sleep 1000] ++ SM (StateManager.StartPass short_pass) :: mid ++
        SaveCapture r short_pass :: saved ++ [SM (StateManager.CompletePass r)].
Proof.
  eexists. split; [vm_compute; reflexivity|].
  edestruct (capturePass_protocol handle "/app" short_pass sample_config watched_world)
    as (mid & saved & Ht & _); [vm_compute; reflexivity|].
  by exists mid, saved.
Defined.

(** C2: A capture always returns a result for the satellite of its pass: it never
    throws and never hangs, as long as the clock advances and the child processes
    end; every failure of the recording is a result with its error. *)
Theorem capturePass_total {W} (h : forall c, W -> resp c * W) (time : W -> Z)
  (Hc : Clock h time) (Hs : Settles h) cwd config pass w :
  exists r, result h (capturePass cwd pass config) w = Ok r /\
    cr_satellite r = pass_satellite pass.
Proof.
  destruct (capturePass_ok h time cwd config pass w) as [r Hr].
  exists r. split; [done|]. by eapply capturePass_satellite.
Qed.

Lemma capturePass_total_witness :
  exists r, result handle (capturePass "/app" sample_pass sample_config) sample_world = Ok r /\
    cr_satellite r = sample_satellite.
Proof.
  exact (capturePass_total handle w_time handle_clock handle_settles "/app" sample_config
           sample_pass sample_world).
Defined.

(** C23: After a capture the receiver is idle with no current pass, and exactly
    the upcoming passes that its result completes have been removed: the
    operations of the capture, replayed at any times on any state, say so. *)
Theorem capturePass_state {W} (h : forall c, W -> resp c * W) cwd pass config w r ops s
  (Hr : result h (capturePass cwd pass config) w = Ok r)
  (Hops : ops.*2 = sm_ops (trace h (capturePass cwd pass config) w)) :
  let s' := (StateManager.run ops s).1 in
  st_status s' = idle /\ st_currentPass s' = None /\
  st_upcomingPasses s' =
    js_filter (fun p => negb (StateManager.completed r p)) (st_upcomingPasses s).
Proof.
  destruct (capturePass_sm_ops h cwd pass config w r Hr) as (mid & Hm & He).
  apply (capture_replay ops mid pass); [by rewrite Hops|done].
Qed.

Definition replay_ops : list (date * StateManager.op) :=
  map (fun o => (0, o))
    (sm_ops (trace handle (capturePass "/app" short_pass sample_config) sample_world)).

Definition listed : SystemState :=
  (StateManager.updatePasses 0 [short_pass] (StateManager.initial 0)).1.

Lemma capturePass_state_witness :
  st_status (StateManager.run replay_ops listed).1 = idle.
Proof.
  eapply (capturePass_state handle "/app" short_pass sample_config sample_world);
    vm_compute; reflexivity.
Defined.

(** Completion compares the pass's AOS with the time the recording started,
    so a pass whose capture did not start in the very millisecond of its AOS
    stays listed as upcoming after it was captured. *)
Theorem capturePass_leaves_pass_listed {W} (h : forall c, W -> resp c * W) cwd pass config w r ops s
  (Hr : result h (capturePass cwd pass config) w = Ok r)
  (Hops : ops.*2 = sm_ops (trace h (capturePass cwd pass config) w))
  (Hlisted : pass ∈ st_upcomingPasses s)
  (Hstart : cr_startTime r <> pass_aos pass) :
  pass ∈ st_upcomingPasses (StateManager.run ops s).1.
Proof.
  destruct (capturePass_sm_ops h cwd pass config w r Hr) as (mid & Hm & He).
  destruct (capture_replay ops mid pass r s) as (_ & _ & Hu); [by rewrite Hops|done|].
  rewrite Hu. apply js_filter_elem. split; [done|]. unfold StateManager.completed.
  apply negb_true_iff, andb_false_iff. right. apply Z.eqb_neq. congruence.
Qed.

Lemma capturePass_leaves_pass_listed_witness :
  short_pass ∈ st_upcomingPasses (StateManager.run replay_ops listed).1.
Proof.
  eapply (capturePass_leaves_pass_listed handle "/app" short_pass sample_config sample_world).
  - vm_compute. reflexivity.
  - vm_compute. reflexivity.
  - by left.
  - done.
Defined.

(** C3: The scheduler always ends with one result per pass it attempted, in the
    order of the list, and it attempts every pass that has not ended by then. *)
Theorem runScheduler_spec {W} (h : forall c, W -> resp c * W) (time : W -> Z)
  (Hc : Clock h time) (Hs : Settles h) cwd config passes w :
  exists attempted results,
    result h (runScheduler cwd passes config []) w = Ok results /\
    attempted `sublist_of` passes /\
    map cr_satellite results = map pass_satellite attempted /\
    (forall p, p ∈ passes ->
       time (final h (runScheduler cwd passes config []) w) <= pass_los p -> p ∈ attempted).
Proof. exact (runScheduler_results h time cwd config passes [] w). Qed.

Lemma runScheduler_spec_witness :
  exists attempted results,
    result handle (runScheduler "/app" [short_pass] sample_config []) sample_world = Ok results /\
    attempted `sublist_of` [short_pass] /\
    map cr_satellite results = map pass_satellite attempted.
Proof.
  destruct (runScheduler_spec handle w_time handle_clock handle_settles "/app" sample_config
    [short_pass] sample_world) as (kept & rs & H1 & H2 & H3 & _). by exists kept, rs.
Defined.

(** The wait for a pass returns no earlier than a minute before its AOS,
    whether or not a scan runs meanwhile. *)
Theorem waitForPass_not_early {W} (h : forall c, W -> resp c * W) (time : W -> Z)
  (Hc : Clock h time) pass cfg w :
  pass_aos pass - 60000 <= time (final h (waitForPass pass cfg) w).
Proof. apply (waitForPass_until h time). Qed.

Lemma waitForPass_not_early_witness :
  1770105939123 <= w_time (final handle (waitForPass sample_pass (Some sample_config)) sample_world).
Proof.
  exact (waitForPass_not_early handle w_time handle_clock sample_pass (Some sample_config)
           sample_world).
Defined.

End Scheduler.
