(* ===== verification/Events.v ===== *)
(** * SSTV events (src/backend/satellites/events.ts)

    The module keeps a list of events sorted by start time and two switches.
    Turning the ground scan off also asks the scanner to stop, which the
    operation reports. *)

From S2P Require Import Prelude JsStd Types.
Local Open Scope Z_scope.

Module Events.

(* @src backend/satellites/events.ts:5-7 activeEvents *)
Record state := mkEvents {
  activeEvents : list SSTVEvent;
  manualSstvEnabled : bool;
  groundSstvScanEnabled : bool
}.

(** [GROUND_SSTV_SCAN_ENABLED === 'true'] is read once. *)
(* @src backend/satellites/events.ts:5-7 groundSstvScanEnabled *)
Definition initial (env : option string) : state :=
  mkEvents [] false (bool_decide (env = Some "true"%string)).

(* @src backend/satellites/events.ts:9-12 setManualSstvEnabled *)
Definition setManualSstvEnabled (enabled : bool) (s : state) : state :=
  mkEvents (activeEvents s) enabled (groundSstvScanEnabled s).

(** The second component tells whether [stopSstvScanner] is called. *)
(* @src backend/satellites/events.ts:18-24 setGroundSstvScanEnabled *)
Definition setGroundSstvScanEnabled (enabled : bool) (s : state) : state * bool :=
  (mkEvents (activeEvents s) (manualSstvEnabled s) enabled, negb enabled).

(* @src backend/satellites/events.ts:14-16 isManualSstvEnabled *)
Definition isManualSstvEnabled (s : state) : bool := manualSstvEnabled s.

(* @src backend/satellites/events.ts:26-28 isGroundSstvScanEnabled *)
Definition isGroundSstvScanEnabled (s : state) : bool := groundSstvScanEnabled s.

Definition starts_before (a b : SSTVEvent) : bool := ev_startTime a <=? ev_startTime b.

(* @src backend/satellites/events.ts:30-33 addEvent *)
Definition addEvent (event : SSTVEvent) (s : state) : state :=
  mkEvents (js_sort starts_before (activeEvents s ++ [event]))
    (manualSstvEnabled s) (groundSstvScanEnabled s).

(* @src backend/satellites/events.ts:35-37 removeEvent *)
Definition removeEvent (eventId : string) (s : state) : state :=
  mkEvents (js_filter (fun e => bool_decide (ev_id e <> eventId)) (activeEvents s))
    (manualSstvEnabled s) (groundSstvScanEnabled s).

(* @src backend/satellites/events.ts:39-41 clearEvents *)
Definition clearEvents (s : state) : state :=
  mkEvents [] (manualSstvEnabled s) (groundSstvScanEnabled s).

(* @src backend/satellites/events.ts:43-46 getActiveEvent *)
Definition getActiveEvent (now : date) (s : state) : option SSTVEvent :=
  js_find (fun e => ev_active e && (ev_startTime e <=? now) && (now <=? ev_endTime e))
    (activeEvents s).

(* @src backend/satellites/events.ts:48-51 getUpcomingEvents *)
Definition getUpcomingEvents (now : date) (limit : nat) (s : state) : list SSTVEvent :=
  take limit (js_filter (fun e => now <? ev_endTime e) (activeEvents s)).

(* @src backend/satellites/events.ts:53-55 isSstvActive *)
Definition isSstvActive (now : date) (s : state) : bool :=
  manualSstvEnabled s || match getActiveEvent now s with Some _ => true | None => false end.

(* @src backend/satellites/events.ts:57-66 getSstvStatus *)
Definition getSstvStatus (now : date) (s : state) : SSTVStatus :=
  mkSstvStatus (isSstvActive now s) (manualSstvEnabled s) (groundSstvScanEnabled s) idle
    (getActiveEvent now s) (getUpcomingEvents now 10 s).

(** The operations on the module, in sequence. *)
Inductive op :=
| AddEvent (e : SSTVEvent) | RemoveEvent (id : string) | ClearEvents
| SetManual (b : bool) | SetGround (b : bool).

Definition step (s : state) (o : op) : state :=
  match o with
  | AddEvent e => addEvent e s
  | RemoveEvent id => removeEvent id s
  | ClearEvents => clearEvents s
  | SetManual b => setManualSstvEnabled b s
  | SetGround b => (setGroundSstvScanEnabled b s).1
  end.

Definition events_sorted (s : state) : Prop := StronglySorted starts_before (activeEvents s).

Lemma starts_before_total x y : starts_before x y = true \/ starts_before y x = true.
Proof. unfold starts_before. props. lia. Qed.

Lemma starts_before_trans x y z :
  starts_before x y = true -> starts_before y z = true -> starts_before x z = true.
Proof. unfold starts_before. props. lia. Qed.

Lemma step_sorted s o : events_sorted s -> events_sorted (step s o).
Proof.
  unfold events_sorted. destruct o; simpl; try done.
  - intros _. apply js_sort_sorted; [apply starts_before_total|apply starts_before_trans].
  - intros Hs. by apply js_filter_sorted.
  - constructor.
Qed.

Lemma run_sorted ops s : events_sorted s -> events_sorted (foldl step s ops).
Proof. revert s. induction ops as [|o ops IH]; simpl; auto using step_sorted. Qed.

Lemma sorted_find_first (P : SSTVEvent -> bool) l e :
  StronglySorted starts_before l -> js_find P l = Some e ->
  forall x, x ∈ l -> P x = true -> ev_startTime e <= ev_startTime x.
Proof.
  induction 1 as [|y l Hl IH Hy]; simpl; [done|].
  destruct (P y) eqn:E.
  - intros [= <-] x [->|Hx]%elem_of_cons _; [lia|].
    rewrite Forall_forall in Hy. specialize (Hy x Hx). apply Is_true_true in Hy.
    unfold starts_before in Hy. props. lia.
  - intros Hf x [->|Hx]%elem_of_cons HP; [congruence|]. by apply IH.
Qed.

(** ** Properties *)

(** In every reachable state of the module, an event is active at a time
    exactly when an enabled event covers that time, and the event reported is
    then the one that started first. *)
Theorem getActiveEvent_first ops env now :
  let s := foldl step (initial env) ops in
  let covers e := ev_active e = true /\ ev_startTime e <= now <= ev_endTime e in
  match getActiveEvent now s with
  | Some e => e ∈ activeEvents s /\ covers e /\
      (forall x, x ∈ activeEvents s -> covers x -> ev_startTime e <= ev_startTime x)
  | None => forall x, x ∈ activeEvents s -> ~ covers x
  end.
Proof.
  simpl. assert (Hs : events_sorted (foldl step (initial env) ops)) by (apply run_sorted; constructor).
  destruct (getActiveEvent now _) as [e|] eqn:E.
  - pose proof (sorted_find_first _ _ _ Hs E) as Hf.
    apply js_find_Some in E as [Hin Hc]. props. split_and!; try tauto.
    intros x Hx Hcov. apply (Hf x Hx). props. tauto.
  - intros x Hx Hcov. pose proof (proj1 (js_find_None _ _) E x Hx) as Hn. cbv beta in Hn. props.
    destruct Hcov as [Ha ?]. rewrite Ha in Hn. destruct Hn as [[?|?]|?]; [done|lia..].
Qed.

(** The upcoming events are at most [limit], not yet over, in order of start
    time, and none that is left out starts before one that is shown. *)
Theorem getUpcomingEvents_spec ops env now limit :
  let s := foldl step (initial env) ops in
  let shown := getUpcomingEvents now limit s in
  (length shown <= limit)%nat /\ StronglySorted starts_before shown /\
  (forall e, e ∈ shown -> e ∈ activeEvents s /\ now < ev_endTime e) /\
  (forall e x, e ∈ shown -> x ∈ activeEvents s -> now < ev_endTime x -> x ∉ shown ->
     ev_startTime e <= ev_startTime x).
Proof.
  simpl. assert (Hs : events_sorted (foldl step (initial env) ops)) by (apply run_sorted; constructor).
  unfold getUpcomingEvents. set (l := activeEvents _) in *.
  set (fl := js_filter _ l).
  assert (Hfl : StronglySorted starts_before fl) by (by apply js_filter_sorted).
  rewrite <- (take_drop limit fl) in Hfl. apply StronglySorted_app in Hfl as (H3 & H1 & H2).
  split_and!; [rewrite length_take; lia|done| |].
  - intros e He%elem_of_take_inv. apply js_filter_elem in He as [? ?]. props. done.
  - intros e x He Hx Hlt Hn.
    assert (Hxf : x ∈ take limit fl ++ drop limit fl).
    { rewrite take_drop. apply js_filter_elem. split; [done|]. by props. }
    apply elem_of_app in Hxf as [?|Hd]; [done|].
    specialize (H3 e x He Hd). apply Is_true_true in H3. unfold starts_before in H3. props. done.
Qed.

End Events.
