(* ===== verification/AutoGain.v ===== *)
(** * Automatic gain (src/middleware/web/auto-gain.ts)

    The classification of frequencies into bands, the store of the gain found
    for each band, and the calibration that steps the gain until the noise
    floor, the average of the median bin over some frames, is in range. *)

From S2P Require Import Prelude JsStd Types.
Local Open Scope Q_scope.

Module AutoGain.

(** ** Bands *)

(* @src middleware/web/auto-gain.ts:7-7 FrequencyBand *)
Inductive FrequencyBand := noaa | two_m | unknown.

#[export] Instance FrequencyBand_eq_dec : EqDecision FrequencyBand.
Proof. solve_decision. Defined.

(* @src middleware/web/auto-gain.ts:9-12 BAND_RANGES *)
Definition BAND_RANGES : list (FrequencyBand * Q * Q) :=
  [(noaa, 136000000, 138000000); (two_m, 144000000, 146000000)].

Fixpoint first_band (ranges : list (FrequencyBand * Q * Q)) (frequencyHz : Q) : FrequencyBand :=
  match ranges with
  | [] => unknown
  | (band, lo, hi) :: rest =>
      if (lo <=?q frequencyHz) && (frequencyHz <=?q hi) then band else first_band rest frequencyHz
  end.

(* @src middleware/web/auto-gain.ts:14-21 classifyBand *)
Definition classifyBand (frequencyHz : Q) : FrequencyBand := first_band BAND_RANGES frequencyHz.

(** ** The band gain store *)

(* @src middleware/web/auto-gain.ts:27-31 BandGainState *)
Record BandGainState := mkBandGain {
  bg_band : FrequencyBand;
  bg_gain : Q;
  bg_calibrated : bool
}.

Definition BandGainStore := list (FrequencyBand * BandGainState).

(* @src middleware/web/auto-gain.ts:45-75 createBandGainStore *)
Definition createBandGainStore : BandGainStore := [].

(* @src middleware/web/auto-gain.ts:49-51 get *)
Definition store_get (band : FrequencyBand) (s : BandGainStore) : option BandGainState :=
  map_get band s.

(* @src middleware/web/auto-gain.ts:53-55 set *)
Definition store_set (band : FrequencyBand) (gain : Q) (calibrated : bool) (s : BandGainStore)
  : BandGainStore := map_set band (mkBandGain band gain calibrated) s.

(** band, gain, needsCalibration *)
(* @src middleware/web/auto-gain.ts:57-64 getForFrequency *)
Definition getForFrequency (frequencyHz defaultGain : Q) (s : BandGainStore)
  : FrequencyBand * Q * bool :=
  let band := classifyBand frequencyHz in
  match map_get band s with
  | Some stored => (band, bg_gain stored, false)
  | None => (band, defaultGain, true)
  end.

(* @src middleware/web/auto-gain.ts:66-68 clear *)
Definition store_clear (band : FrequencyBand) (s : BandGainStore) : BandGainStore :=
  map_delete band s.

(* @src middleware/web/auto-gain.ts:70-72 clearAll *)
Definition store_clearAll (s : BandGainStore) : BandGainStore := [].

(* @src middleware/web/auto-gain.ts:74-76 getAll *)
Definition store_getAll (s : BandGainStore) : list BandGainState := s.*2.

(** ** Calibration *)

(* @src middleware/web/auto-gain.ts:84-91 AutoGainConfig *)
Record AutoGainConfig := mkAutoGainConfig {
  targetMin : Q;
  targetMax : Q;
  samplesNeeded : nat;
  step : Q;
  minGain : Q;
  maxGain : Q
}.

(* @src middleware/web/auto-gain.ts:93-97 AutoGainState *)
Record AutoGainState := mkAutoGain {
  enabled : bool;
  currentGain : Q;
  samples : list Q
}.

(* @src middleware/web/auto-gain.ts:99-103 GainAdjustResult *)
Inductive GainAdjustResult :=
| waiting_samples
| in_range (gain : Q)
| adjusted (oldGain newGain : Q)
| limit_reached (gain : Q).

(* @src middleware/web/auto-gain.ts:105-112 DEFAULT_CONFIG *)
Definition DEFAULT_CONFIG : AutoGainConfig := mkAutoGainConfig (-80) (-55) 10 5 0 50.

(* @src middleware/web/auto-gain.ts:126-131 createAutoGain *)
Definition createAutoGain (initialGain : Q) : AutoGainState := mkAutoGain true initialGain [].

(** [sorted[Math.floor(sorted.length / 2)] ?? -100] *)
(* @src middleware/web/auto-gain.ts:138-140 feed *)
Definition median (bins : list Q) : Q :=
  default (-100) (js_sort Qle_bool bins !! (length bins / 2)%nat).

(* @src middleware/web/auto-gain.ts:147-147 avgMedian *)
Definition average (l : list Q) : Q := fold_left Qplus l 0 / inject_Z (Z.of_nat (length l)).

(* @src middleware/web/auto-gain.ts:133-183 feed *)
Definition feed (config : AutoGainConfig) (s : AutoGainState) (bins : list Q)
  : AutoGainState * GainAdjustResult :=
  if negb (enabled s) then (s, waiting_samples)
  else
    let samples := samples s ++ [median bins] in
    if (length samples <? samplesNeeded config)%nat
    then (mkAutoGain (enabled s) (currentGain s) samples, waiting_samples)
    else
      let avgMedian := average samples in
      let finish_step newGain :=
        if negb (newGain ==?q currentGain s)
        then (mkAutoGain (enabled s) newGain [], adjusted (currentGain s) newGain)
        else (mkAutoGain false (currentGain s) [], limit_reached (currentGain s)) in
      if targetMax config <?q avgMedian then
        finish_step (js_max (minGain config) (currentGain s - step config))
      else if avgMedian <?q targetMin config then
        finish_step (js_min (maxGain config) (currentGain s + step config))
      else (mkAutoGain false (currentGain s) [], in_range (currentGain s)).

(* @src middleware/web/auto-gain.ts:185-188 reset *)
Definition reset (s : AutoGainState) : AutoGainState := mkAutoGain true (currentGain s) [].

(* @src middleware/web/auto-gain.ts:190-193 enable *)
Definition enable (s : AutoGainState) : AutoGainState := mkAutoGain true (currentGain s) [].

(* @src middleware/web/auto-gain.ts:195-198 disable *)
Definition disable (s : AutoGainState) : AutoGainState := mkAutoGain false (currentGain s) [].

(* @src middleware/web/auto-gain.ts:200-204 setGain *)
Definition setGain (gain : Q) (s : AutoGainState) : AutoGainState := mkAutoGain false gain [].

(** The calibration over a sequence of frames. *)
Definition feed_all (config : AutoGainConfig) (s : AutoGainState) (frames : list (list Q))
  : AutoGainState := foldl (fun s bins => (feed config s bins).1) s frames.

(** ** Facts *)

Lemma feed_disabled c s bins : enabled s = false -> (feed c s bins).1 = s.
Proof. unfold feed. by intros ->. Qed.

Lemma feed_all_disabled c frames s : enabled s = false -> feed_all c s frames = s.
Proof.
  unfold feed_all. revert s. induction frames as [|b l IH]; intros s Hs; simpl; [done|].
  rewrite feed_disabled by done. auto.
Qed.

Lemma fold_left_Qplus l a : fold_left Qplus l a == a + fold_left Qplus l 0.
Proof.
  revert a. induction l as [|x l IH]; intros a; simpl; [ring|].
  rewrite (IH (a + x)), (IH (0 + x)). ring.
Qed.

(** An average of values above (below, within) a bound is above (below, within) it. *)
Lemma sum_gt t l : (forall x, x ∈ l -> t < x) -> l <> [] ->
  t * inject_Z (Z.of_nat (length l)) < fold_left Qplus l 0.
Proof.
  induction l as [|x l IH]; intros H Hn; [done|].
  cbn [fold_left length]. rewrite fold_left_Qplus, Nat2Z.inj_succ.
  unfold Z.succ. rewrite inject_Z_plus.
  assert (Hx : t < x) by (apply H; left).
  destruct l as [|y l].
  { change (t * (0 + 1) < 0 + x + 0). lra. }
  assert (Hl : t * inject_Z (Z.of_nat (length (y :: l))) < fold_left Qplus (y :: l) 0).
  { apply IH; [|done]. intros z Hz. apply H. by right. }
  set (n := inject_Z (Z.of_nat (length (y :: l)))) in *. set (f := fold_left _ _ _) in *.
  change (inject_Z 1) with 1. lra.
Qed.

Lemma length_pos_Q {A} (l : list A) : l <> [] -> 0 < inject_Z (Z.of_nat (length l)).
Proof. destruct l; [done|]. intros _. unfold Qlt. simpl. lia. Qed.

Lemma average_gt t l : (forall x, x ∈ l -> t < x) -> l <> [] -> t < average l.
Proof.
  intros H Hn. unfold average. apply Qlt_shift_div_l; [by apply length_pos_Q|]. by apply sum_gt.
Qed.

Lemma average_opp l : fold_left Qplus (map Qopp l) 0 == - fold_left Qplus l 0.
Proof.
  induction l as [|x l IH]; [done|]. simpl. rewrite fold_left_Qplus, IH.
  rewrite (fold_left_Qplus l (0 + x)). ring.
Qed.

Lemma average_lt t l : (forall x, x ∈ l -> x < t) -> l <> [] -> average l < t.
Proof.
  intros H Hn. unfold average. apply Qlt_shift_div_r; [by apply length_pos_Q|].
  pose proof (sum_gt (- t) (map Qopp l)) as Hs. rewrite length_map, average_opp in Hs.
  assert (Hs' : - t * inject_Z (Z.of_nat (length l)) < - fold_left Qplus l 0); [|lra].
  apply Hs; [|by destruct l]. intros x (y & -> & Hy)%list_elem_of_fmap.
  specialize (H y Hy). lra.
Qed.

(** The gain stays in the limits of the configuration. *)
Definition gain_ok (c : AutoGainConfig) (s : AutoGainState) : Prop :=
  minGain c <= currentGain s /\ currentGain s <= maxGain c.

(** It stays in any wider limits it was in. *)
Lemma feed_gain_within lo hi c s bins : 0 <= step c ->
  lo <= minGain c <= hi -> lo <= maxGain c <= hi -> lo <= currentGain s <= hi ->
  lo <= currentGain (feed c s bins).1 <= hi.
Proof.
  unfold feed. intros Hstep [Ha Hb] [Hc Hd] [Hlo Hhi].
  repeat (break_match_goal; simpl; try done); split; auto with sat;
    unfold js_max, js_min; repeat break_match_goal; props; lra.
Qed.

Lemma feed_gain_ok c s bins : 0 <= step c -> gain_ok c s -> gain_ok c (feed c s bins).1.
Proof. unfold gain_ok. intros Hs [H1 H2]. apply feed_gain_within; lra. Qed.

Lemma feed_all_gain_ok c frames s : 0 <= step c -> gain_ok c s -> gain_ok c (feed_all c s frames).
Proof.
  intros Hstep. unfold feed_all. revert s. induction frames as [|b l IH]; intros s Hs; simpl; [done|].
  apply IH. by apply feed_gain_ok.
Qed.

(** Frames that are too loud (too quiet): every median is above (below) the
    target range. *)
Definition loud (c : AutoGainConfig) (bins : list Q) : Prop := targetMax c < median bins.
Definition quiet (c : AutoGainConfig) (bins : list Q) : Prop := median bins < targetMin c.

(** Before the last frame of a round, the medians only accumulate. *)
Lemma feed_wait c g sm b : (S (length sm) < samplesNeeded c)%nat ->
  (feed c (mkAutoGain true g sm) b).1 = mkAutoGain true g (sm ++ [median b]).
Proof.
  intros Hl. unfold feed. simpl. rewrite length_app. simpl.
  by destruct (Nat.ltb_spec (length sm + 1) (samplesNeeded c)); [|lia].
Qed.

Lemma feed_all_wait c frames : forall g sm,
  (length sm + length frames < samplesNeeded c)%nat ->
  feed_all c (mkAutoGain true g sm) frames = mkAutoGain true g (sm ++ map median frames).
Proof.
  induction frames as [|b l IH]; intros g sm Hl; simpl in *.
  - by rewrite app_nil_r.
  - unfold feed_all in *. cbn [foldl]. rewrite feed_wait by lia.
    rewrite IH; [by rewrite <- app_assoc|]. rewrite length_app. simpl. lia.
Qed.

(** The decision taken on an average level. *)
Definition decision (c : AutoGainConfig) (g avg : Q) : AutoGainState :=
  if targetMax c <?q avg then
    let n := js_max (minGain c) (g - step c) in
    if n ==?q g then mkAutoGain false g [] else mkAutoGain true n []
  else if avg <?q targetMin c then
    let n := js_min (maxGain c) (g + step c) in
    if n ==?q g then mkAutoGain false g [] else mkAutoGain true n []
  else mkAutoGain false g [].

Lemma feed_decide c g sm b : (samplesNeeded c <= S (length sm))%nat ->
  (feed c (mkAutoGain true g sm) b).1 = decision c g (average (sm ++ [median b])).
Proof.
  intros Hl. unfold feed, decision. cbn [enabled samples currentGain negb]. rewrite length_app. cbn [length].
  destruct (Nat.ltb_spec (length sm + 1) (samplesNeeded c)); [lia|].
  destruct (targetMax c <?q _); [by destruct (_ ==?q g)|].
  destruct (_ <?q targetMin c); [by destruct (_ ==?q g)|done].
Qed.

(** A full round of samples from an empty buffer is one decision. *)
Lemma feed_round c g frames : (0 < samplesNeeded c)%nat -> length frames = samplesNeeded c ->
  feed_all c (mkAutoGain true g []) frames = decision c g (average (map median frames)).
Proof.
  intros H0 Hl. destruct frames as [|b l _] using rev_ind; simpl in Hl; [lia|].
  rewrite length_app in Hl. simpl in Hl. unfold feed_all. rewrite foldl_snoc.
  fold (feed_all c (mkAutoGain true g []) l). rewrite feed_all_wait by (simpl; lia).
  rewrite feed_decide by (rewrite app_nil_l, length_map; lia). by rewrite map_app.
Qed.

Lemma feed_all_app c s f1 f2 : feed_all c s (f1 ++ f2) = feed_all c (feed_all c s f1) f2.
Proof. apply foldl_app. Qed.

Lemma map_median_average_gt t frames :
  Forall (fun b => t < median b) frames -> frames <> [] -> t < average (map median frames).
Proof.
  intros Hf Hn. apply average_gt; [|by destruct frames].
  intros x (b & -> & Hb)%list_elem_of_fmap. rewrite Forall_forall in Hf. auto.
Qed.

Lemma map_median_average_lt t frames :
  Forall (fun b => median b < t) frames -> frames <> [] -> average (map median frames) < t.
Proof.
  intros Hf Hn. apply average_lt; [|by destruct frames].
  intros x (b & -> & Hb)%list_elem_of_fmap. rewrite Forall_forall in Hf. auto.
Qed.

(** Rounds of loud frames bring the gain down to its minimum and stop there. *)
Lemma loud_rounds c k : forall g frames,
  0 < step c -> (0 < samplesNeeded c)%nat -> minGain c <= g ->
  g <= minGain c + inject_Z (Z.of_nat k) * step c ->
  Forall (loud c) frames -> (samplesNeeded c * S k <= length frames)%nat ->
  let s := feed_all c (mkAutoGain true g []) frames in
  enabled s = false /\ currentGain s == minGain c.
Proof.
  induction k as [|k IH]; intros g frames Hs Hn Hlo Hhi Hf Hl; cbv zeta;
    rewrite <- (take_drop (samplesNeeded c) frames), feed_all_app.
  all: set (f1 := take _ frames) in *; set (f2 := drop _ frames) in *.
  all: assert (Hl1 : length f1 = samplesNeeded c) by (subst f1; rewrite length_take; lia).
  all: rewrite (feed_round c g f1 Hn Hl1); unfold decision; set (avg := average _).
  all: assert (Hloud : targetMax c <?q avg = true) by
    (apply Qltb_lt; subst avg; apply map_median_average_gt;
       [subst f1; by apply Forall_take|intros E; rewrite E in Hl1; simpl in Hl1; lia]).
  all: rewrite Hloud; cbv zeta; destruct (_ ==?q g) eqn:E; props.
  - rewrite feed_all_disabled by done. simpl. split; [done|].
    unfold js_max in E. revert E. break_match_goal; props; intros; lra.
  - exfalso. apply E. change (inject_Z (Z.of_nat 0)) with 0 in Hhi.
    unfold js_max. break_match_goal; props; lra.
  - rewrite feed_all_disabled by done. simpl. split; [done|].
    unfold js_max in E. revert E. break_match_goal; props; intros; lra.
  - apply IH; try done; [auto with sat| | |].
    + rewrite Nat2Z.inj_succ in Hhi. unfold Z.succ in Hhi. rewrite inject_Z_plus in Hhi.
      change (inject_Z 1) with 1 in Hhi.
      assert (0 <= inject_Z (Z.of_nat k)) by (unfold Qle; simpl; lia).
      apply js_max_lub; [|nra]. nra.
    + by apply Forall_drop.
    + subst f2. rewrite length_drop. lia.
Qed.

(** ** Properties *)

(** Calibration keeps the gain within the limits of its configuration,
    whatever the frames. *)
Theorem feed_all_in_limits c frames s (Hstep : 0 <= step c)
  (Hmin : minGain c <= currentGain s) (Hmax : currentGain s <= maxGain c) :
  minGain c <= currentGain (feed_all c s frames) /\ currentGain (feed_all c s frames) <= maxGain c.
Proof. by apply feed_all_gain_ok. Qed.

Lemma feed_all_in_limits_witness :
  minGain DEFAULT_CONFIG <= currentGain (feed_all DEFAULT_CONFIG (createAutoGain 20) [[-50]; [-40]]).
Proof.
  apply (feed_all_in_limits DEFAULT_CONFIG [[-50]; [-40]] (createAutoGain 20));
    apply Qle_bool_iff; reflexivity.
Defined.

(** C36: Calibration terminates: under a band that stays too loud it lowers the
    gain step by step and locks at the minimum, after at most one round of
    samples more than the number of steps between the gain and the minimum. *)
Theorem calibration_stops_loud c g frames k (Hstep : 0 < step c) (Hn : (0 < samplesNeeded c)%nat)
  (Hlo : minGain c <= g) (Hhi : g <= minGain c + inject_Z (Z.of_nat k) * step c)
  (Hloud : Forall (fun bins => targetMax c < median bins) frames)
  (Hlen : (samplesNeeded c * S k <= length frames)%nat) :
  let s := feed_all c (createAutoGain g) frames in
  enabled s = false /\ currentGain s == minGain c.
Proof. by apply loud_rounds with k. Qed.

Lemma calibration_stops_loud_witness :
  enabled (feed_all DEFAULT_CONFIG (createAutoGain 10) (repeat [-60; -30; -20] 30)) = false.
Proof.
  apply (calibration_stops_loud DEFAULT_CONFIG 10 (repeat [-60; -30; -20] 30) 2).
  - apply Qlt_alt. reflexivity.
  - simpl. lia.
  - apply Qle_bool_iff. reflexivity.
  - apply Qle_bool_iff. reflexivity.
  - apply Forall_forall. intros b Hb. apply list_elem_of_In, repeat_spec in Hb. subst b.
    apply Qlt_alt. reflexivity.
  - simpl. lia.
Defined.

(** Frames whose noise floor is in the target range lock the gain where it
    is after one round of samples, and later frames do not move it. *)
Theorem calibration_locks c g frames (Hn : (0 < samplesNeeded c)%nat)
  (Hin : Forall (fun bins => targetMin c < median bins /\ median bins < targetMax c) frames)
  (Hlen : (samplesNeeded c <= length frames)%nat) :
  feed_all c (createAutoGain g) frames = mkAutoGain false g [].
Proof.
  rewrite <- (take_drop (samplesNeeded c) frames), feed_all_app.
  set (f1 := take _ frames).
  assert (Hl1 : length f1 = samplesNeeded c) by (subst f1; rewrite length_take; lia).
  assert (Hne : f1 <> []) by (intros E; rewrite E in Hl1; simpl in Hl1; lia).
  assert (Hf1 : Forall (fun bins => targetMin c < median bins /\ median bins < targetMax c) f1)
    by (by apply Forall_take).
  unfold createAutoGain. rewrite (feed_round c g f1 Hn Hl1). unfold decision. set (avg := average _).
  assert (H1 : avg < targetMax c).
  { subst avg. apply map_median_average_lt; [|done].
    eapply Forall_impl; [exact Hf1|]. by intros x []. }
  assert (H2 : targetMin c < avg).
  { subst avg. apply map_median_average_gt; [|done].
    eapply Forall_impl; [exact Hf1|]. by intros x []. }
  destruct (targetMax c <?q avg) eqn:E1; props; [lra|].
  destruct (avg <?q targetMin c) eqn:E2; props; [lra|].
  by rewrite feed_all_disabled.
Qed.

Lemma calibration_locks_witness :
  feed_all DEFAULT_CONFIG (createAutoGain 20) (repeat [-60; -70; -20] 12) = mkAutoGain false 20 [].
Proof.
  apply (calibration_locks DEFAULT_CONFIG 20 (repeat [-60; -70; -20] 12)).
  - simpl. lia.
  - apply Forall_forall. intros b Hb. apply list_elem_of_In, repeat_spec in Hb. subst b.
    split; apply Qlt_alt; reflexivity.
  - simpl. lia.
Defined.

(** The gain recalled for a frequency is the one last stored for its band,
    and then no calibration is asked for; a band never stored gives the default
    gain and a calibration. *)
Theorem getForFrequency_set f d b g cal s :
  getForFrequency f d (store_set b g cal s) =
    (if decide (classifyBand f = b) then (b, g, false) else getForFrequency f d s) /\
  getForFrequency f d (store_clear b s) =
    (if decide (classifyBand f = b) then (b, d, true) else getForFrequency f d s).
Proof.
  unfold getForFrequency, store_set, store_clear. destruct (decide _) as [->|Hne].
  - by rewrite map_get_set, map_get_delete.
  - by rewrite map_get_set_ne, map_get_delete_ne.
Qed.

End AutoGain.
