(* ===== verification/FftDsp.v ===== *)
(** * Signal processing of the FFT stream (src/backend/capture/fft-stream.ts)

    The pure part of the stream: conversion of the receiver's bytes, window,
    power spectrum, moving average, notch filters.  [Math.cos] and [Math.log10]
    are arguments (their values are irrational); the transform is fft.js, also
    an argument.  Float32 and Float64 rounding is not modelled: samples are
    exact rationals. *)

From S2P Require Import Prelude JsStd Types Effects.
Local Open Scope Q_scope.

Module FftDsp.

(** ** Samples *)

(* @src backend/capture/fft-stream.ts:76-77 convertIQToComplex *)
Definition iq_value (buffer : list Z) (idx : nat) : Q :=
  (inject_Z (default 127%Z (buffer !! idx)) - (1275 # 10)) / (1275 # 10).

(** [buffer.length / 2] may be a half: the loop then runs once more. *)
(* @src backend/capture/fft-stream.ts:68-83 convertIQToComplex *)
Definition convertIQToComplex (buffer : list Z) (fftSize : nat) : list Q :=
  let samplesToProcess := Nat.min ((length buffer + 1) / 2) fftSize in
  flat_map (fun i => [iq_value buffer (i * 2); iq_value buffer (i * 2 + 1)]) (seq 0 samplesToProcess)
  ++ repeat 0 (2 * (fftSize - samplesToProcess)).

(** The Hamming window, [angle i] standing for [2 * Math.PI * i / (fftSize - 1)]. *)
(* @src backend/capture/fft-stream.ts:248-252 startFFTStream *)
Definition window_weight (cos : nat -> Q) (i : nat) : Q := (54 # 100) - (46 # 100) * cos i.

(* @src backend/capture/fft-stream.ts:247-252 startFFTStream *)
Definition apply_window (cos : nat -> Q) (complexData : list Q) : list Q :=
  imap (fun j x => x * window_weight cos (j / 2)) complexData.

(** ** Power *)

(* @src backend/capture/fft-stream.ts:94-95 computePowerSpectrum *)
Definition bin_level (log10 : Q -> Q) (magSquared : Q) : Q :=
  if (1 # 1000000000000000) <?q magSquared then 10 * log10 magSquared else -120.

(* @src backend/capture/fft-stream.ts:86-96 computePowerSpectrum *)
Definition spectrum_of (log10 : Q -> Q) (fftOutput : list Q) (fftSize : nat) : list Q :=
  let normFactor := inject_Z (Z.of_nat (fftSize * fftSize)) in
  map (fun i =>
         let real := default 0 (fftOutput !! (i * 2)%nat) in
         let imag := default 0 (fftOutput !! (i * 2 + 1)%nat) in
         bin_level log10 ((real * real + imag * imag) / normFactor)) (seq 0 fftSize).

(** [reordered[i] = spectrum[i + half]], [reordered[i + half] = spectrum[i]]. *)
(* @src backend/capture/fft-stream.ts:98-105 computePowerSpectrum *)
Definition reorder (spectrum : list Q) (fftSize : nat) : list Q :=
  let halfSize := (fftSize / 2)%nat in
  map (fun i => default (-120) (spectrum !! (i + halfSize)%nat)) (seq 0 halfSize)
  ++ map (fun i => default (-120) (spectrum !! i)) (seq 0 halfSize).

(* @src backend/capture/fft-stream.ts:85-106 computePowerSpectrum *)
Definition computePowerSpectrum (log10 : Q -> Q) (fftOutput : list Q) (fftSize : nat) : list Q :=
  reorder (spectrum_of log10 fftOutput fftSize) fftSize.

(** ** Moving average *)

(* @src backend/capture/fft-stream.ts:53-53 AVERAGING_FRAMES *)
Definition AVERAGING_FRAMES : Q := 8.

(** The averaging buffer and its frame counter after one more spectrum. *)
(* @src backend/capture/fft-stream.ts:262-280 startFFTStream *)
Definition average_step (fftSize : nat) (avg : option (list Q) * nat) (spectrum : list Q)
  : list Q * nat :=
  let '(buf, count) :=
    match avg.1 with
    | Some b => if (length b =? fftSize)%nat then (b, avg.2) else (repeat 0 fftSize, O)
    | None => (repeat 0 fftSize, O)
    end in
  let alpha := 1 / AVERAGING_FRAMES in
  let next :=
    if (count =? 0)%nat then map (fun i => default (-120) (spectrum !! i)) (seq 0 fftSize)
    else map (fun i =>
                let prev := default (-120) (buf !! i) in
                prev * (1 - alpha) + default (-120) (spectrum !! i) * alpha) (seq 0 fftSize) in
  (next, S count).

(** ** Notch filters *)

(* @src backend/capture/fft-stream.ts:22-26 NotchFilter *)
Record NotchFilter := mkNotch { nf_frequency : Q; nf_width : Q; nf_enabled : bool }.

Definition notchStart (f : NotchFilter) : Q := nf_frequency f - nf_width f.
Definition notchEnd (f : NotchFilter) : Q := nf_frequency f + nf_width f.

(** Reading an array at an index that may be out of range. *)
Definition at_index (l : list Q) (i : Z) : option Q :=
  if (i <? 0)%Z then None else l !! Z.to_nat i.

(* @src backend/capture/fft-stream.ts:124-133 applyNotchFilters *)
Definition notch_value (bins : list Q) (startFreq binWidth : Q) (filter : NotchFilter) : Q :=
  let len := Z.of_nat (length bins) in
  let leftIdx := Z.max 0 (js_floor ((notchStart filter - startFreq) / binWidth) - 2) in
  let rightIdx := Z.min (len - 1) (js_ceil ((notchEnd filter - startFreq) / binWidth) + 2) in
  let leftVal := match at_index bins leftIdx with
                 | Some v => v | None => default (-100) (at_index bins 0) end in
  let rightVal := match at_index bins rightIdx with
                  | Some v => v | None => default (-100) (at_index bins (len - 1)) end in
  (leftVal + rightVal) / 2.

Definition bin_freq (startFreq binWidth : Q) (i : nat) : Q :=
  startFreq + inject_Z (Z.of_nat i) * binWidth.

Definition in_notch (startFreq binWidth : Q) (filter : NotchFilter) (i : nat) : bool :=
  (notchStart filter <=?q bin_freq startFreq binWidth i) &&
  (bin_freq startFreq binWidth i <=?q notchEnd filter).

(** One filter over the bins: the values written come from the unfiltered data. *)
(* @src backend/capture/fft-stream.ts:117-136 applyNotchFilters *)
Definition notch_pass (bins : list Q) (startFreq binWidth : Q) (filteredBins : list Q)
  (filter : NotchFilter) : list Q :=
  imap (fun i v => if in_notch startFreq binWidth filter i
                   then notch_value bins startFreq binWidth filter else v) filteredBins.

(** [Math.min(...l)] and [Math.max(...l)]; [None] is an infinity. *)
Definition list_min (l : list Q) : option Q :=
  match l with [] => None | x :: r => Some (foldl js_min x r) end.
Definition list_max (l : list Q) : option Q :=
  match l with [] => None | x :: r => Some (foldl js_max x r) end.

(* @src backend/capture/fft-stream.ts:111-152 applyNotchFilters *)
Definition applyNotchFilters (filters : list NotchFilter) (data : FFTData) (startFreq binWidth : Q)
  : FFTData :=
  match filters with
  | [] => data
  | _ =>
      let enabledFilters := js_filter nf_enabled filters in
      let filteredBins := foldl (notch_pass (fft_bins data) startFreq binWidth) (fft_bins data)
                            enabledFilters in
      mkFFTData (fft_timestamp data) (fft_centerFreq data) filteredBins
        (default (-100) (list_min filteredBins)) (default (-50) (list_max filteredBins))
  end.

Definition near (frequency : Q) (f : NotchFilter) : bool :=
  (nf_frequency f - frequency <?q 1000) && (frequency - nf_frequency f <?q 1000).

Fixpoint update_first (frequency : Q) (g : NotchFilter -> NotchFilter) (l : list NotchFilter)
  : option (list NotchFilter) :=
  match l with
  | [] => None
  | f :: r => if near frequency f then Some (g f :: r) else (fun r => f :: r) <$> update_first frequency g r
  end.

(* @src backend/capture/fft-stream.ts:447-462 addNotchFilter *)
Definition addNotchFilter (frequency width : Q) (l : list NotchFilter) : list NotchFilter :=
  match update_first frequency (fun f => mkNotch (nf_frequency f) width true) l with
  | Some l' => l'
  | None => l ++ [mkNotch frequency width true]
  end.

(* @src backend/capture/fft-stream.ts:464-474 removeNotchFilter *)
Definition removeNotchFilter (frequency : Q) (l : list NotchFilter) : list NotchFilter * bool :=
  match js_findIndex (near frequency) l with
  | Some i => (take i l ++ drop (S i) l, true)
  | None => (l, false)
  end.

(* @src backend/capture/fft-stream.ts:476-486 setNotchFilterEnabled *)
Definition setNotchFilterEnabled (frequency : Q) (b : bool) (l : list NotchFilter)
  : list NotchFilter * bool :=
  match update_first frequency (fun f => mkNotch (nf_frequency f) (nf_width f) b) l with
  | Some l' => (l', true)
  | None => (l, false)
  end.

(* @src backend/capture/fft-stream.ts:488-490 getNotchFilters *)
Definition getNotchFilters (l : list NotchFilter) : list NotchFilter := l.

(* @src backend/capture/fft-stream.ts:492-495 clearNotchFilters *)
Definition clearNotchFilters (l : list NotchFilter) : list NotchFilter := [].

(** ** Facts *)

Lemma imap_lookup {A B} (f : nat -> A -> B) l i : imap f l !! i = f i <$> l !! i.
Proof. apply list_lookup_imap. Qed.

Lemma flat_map_pairs_length {A} (f g : nat -> A) l :
  length (flat_map (fun i => [f i; g i]) l) = (2 * length l)%nat.
Proof. induction l as [|x l IH]; simpl; [done|]. rewrite IH. lia. Qed.

Lemma convertIQ_length buffer n : length (convertIQToComplex buffer n) = (2 * n)%nat.
Proof.
  unfold convertIQToComplex. rewrite length_app, flat_map_pairs_length, length_seq, repeat_length.
  lia.
Qed.

Definition unit_range (x : Q) : Prop := -1 <= x /\ x <= 1.

Lemma iq_value_range buffer i :
  Forall (fun b => 0 <= b <= 255)%Z buffer -> unit_range (iq_value buffer i).
Proof.
  intros Hb. unfold iq_value.
  assert (Hv : (0 <= default 127 (buffer !! i) <= 255)%Z).
  { destruct (buffer !! i) as [b|] eqn:E; simpl; [|lia].
    rewrite Forall_forall in Hb. apply Hb. by eapply list_elem_of_lookup_2. }
  destruct Hv as [H1 H2]. set (v := default 127%Z _) in *.
  rewrite Zle_Qle in H1, H2. set (q := inject_Z v) in *.
  change (inject_Z 0) with 0 in H1. change (inject_Z 255) with (255 # 1) in H2.
  split; [apply Qle_shift_div_l|apply Qle_shift_div_r]; lra.
Qed.

Lemma convertIQ_range buffer n :
  Forall (fun b => 0 <= b <= 255)%Z buffer -> Forall unit_range (convertIQToComplex buffer n).
Proof.
  intros Hb. unfold convertIQToComplex. apply Forall_app. split.
  - apply Forall_forall. intros x Hx. apply list_elem_of_In, in_flat_map in Hx as (i & _ & Hx).
    destruct Hx as [<-|[<-|[]]]; by apply iq_value_range.
  - apply Forall_forall. intros x Hx. apply list_elem_of_In, repeat_spec in Hx. subst x.
    split; lra.
Qed.

Lemma window_range cos i x :
  unit_range (cos i) -> unit_range x -> unit_range (x * window_weight cos i).
Proof. unfold unit_range, window_weight. intros [H1 H2] [H3 H4]. split; nra. Qed.

(** Samples stay in the unit range through conversion and windowing. *)
Lemma windowed_range cos buffer n :
  (forall i, unit_range (cos i)) -> Forall (fun b => 0 <= b <= 255)%Z buffer ->
  Forall unit_range (apply_window cos (convertIQToComplex buffer n)).
Proof.
  intros Hc Hb. unfold apply_window. apply Forall_lookup. intros i x Hx.
  rewrite imap_lookup in Hx. apply fmap_Some in Hx as (y & Hy & ->).
  apply window_range; [done|]. eapply Forall_lookup_1; [by apply convertIQ_range|done].
Qed.

(** Moving average. *)
Definition between (lo hi x : Q) : Prop := lo <= x /\ x <= hi.

Lemma average_step_range n lo hi avg spectrum :
  between lo hi (-120) -> Forall (between lo hi) (default [] avg.1) ->
  Forall (between lo hi) spectrum -> Forall (between lo hi) (average_step n avg spectrum).1.
Proof.
  intros Hd Ha Hs.
  assert (Hdef : forall (l : list Q) i, Forall (between lo hi) l ->
    between lo hi (default (-120) (l !! i))).
  { intros l i Hl. destruct (l !! i) eqn:E; simpl; [|done]. by eapply Forall_lookup_1. }
  unfold average_step. destruct avg as [o c]. simpl in *.
  assert (Hcopy : Forall (between lo hi) (map (fun i => default (-120) (spectrum !! i)) (seq 0 n))).
  { apply Forall_fmap, Forall_forall. intros i _. by apply Hdef. }
  destruct o as [b|]; [|done]. simpl in Ha. destruct (length b =? n)%nat; [|done].
  destruct (c =? 0)%nat; [done|].
  apply Forall_fmap, Forall_forall. intros i _. simpl.
  destruct (Hdef b i Ha) as [H1 H2], (Hdef spectrum i Hs) as [H3 H4].
  set (x := default _ (b !! i)) in *. set (y := default _ (spectrum !! i)) in *.
  assert (E : x * (1 - 1 / AVERAGING_FRAMES) + y * (1 / AVERAGING_FRAMES) == (7 # 8) * x + (1 # 8) * y)
    by (unfold AVERAGING_FRAMES; field).
  unfold between. rewrite E. split; lra.
Qed.

(** Notch filters. *)
Lemma notch_pass_lookup bins sf bw l f i :
  notch_pass bins sf bw l f !! i =
  (fun v => if in_notch sf bw f i then notch_value bins sf bw f else v) <$> l !! i.
Proof. apply imap_lookup. Qed.

Lemma notch_passes_lookup bins sf bw fs : forall l i,
  foldl (notch_pass bins sf bw) l fs !! i =
  (fun v => match last (js_filter (fun f => in_notch sf bw f i) fs) with
            | Some f => notch_value bins sf bw f | None => v end) <$> l !! i.
Proof.
  induction fs as [|f fs IH] using rev_ind; intros l i.
  { simpl. by destruct (l !! i). }
  rewrite foldl_snoc, notch_pass_lookup, IH. unfold js_filter. rewrite List.filter_app. simpl.
  destruct (in_notch sf bw f i) eqn:E.
  - rewrite last_snoc. by destruct (l !! i).
  - rewrite app_nil_r. by destruct (l !! i).
Qed.

Lemma notch_passes_length bins sf bw fs l :
  length (foldl (notch_pass bins sf bw) l fs) = length l.
Proof.
  revert l. induction fs as [|f fs IH]; intros l; simpl; [done|].
  rewrite IH. apply length_imap.
Qed.

Lemma list_min_le l x m : list_min l = Some m -> x ∈ l -> m <= x.
Proof.
  assert (Hf : forall r y, foldl js_min y r <= y /\ (forall x, x ∈ r -> foldl js_min y r <= x)).
  { induction r as [|z r IH]; intros y; simpl; [split; [lra|intros ? Hx; inversion Hx]|].
    destruct (IH (js_min y z)) as [H1 H2]. pose proof (js_min_l y z). pose proof (js_min_r y z).
    split; [lra|]. intros w [->|Hw]%elem_of_cons; [lra|auto]. }
  destruct l as [|y r]; simpl; [done|]. intros [= <-] [->|Hx]%elem_of_cons; [apply (proj1 (Hf _ _))|by apply (proj2 (Hf _ _))].
Qed.

Lemma list_max_ge l x m : list_max l = Some m -> x ∈ l -> x <= m.
Proof.
  assert (Hf : forall r y, y <= foldl js_max y r /\ (forall x, x ∈ r -> x <= foldl js_max y r)).
  { induction r as [|z r IH]; intros y; simpl; [split; [lra|intros ? Hx; inversion Hx]|].
    destruct (IH (js_max y z)) as [H1 H2]. pose proof (js_max_l y z). pose proof (js_max_r y z).
    split; [lra|]. intros w [->|Hw]%elem_of_cons; [lra|auto]. }
  destruct l as [|y r]; simpl; [done|]. intros [= <-] [->|Hx]%elem_of_cons; [apply (proj1 (Hf _ _))|by apply (proj2 (Hf _ _))].
Qed.

(** The list of filters: two filters are at least 1 kHz apart. *)
Definition apart (f g : NotchFilter) : Prop := near (nf_frequency f) g = false.

Lemma apart_sym f g : apart f g -> apart g f.
Proof. unfold apart, near. props. intuition. Qed.

Inductive notch_op := AddNotch (f w : Q) | RemoveNotch (f : Q) | EnableNotch (f : Q) (b : bool) | ClearNotch.

Definition notch_step (l : list NotchFilter) (o : notch_op) : list NotchFilter :=
  match o with
  | AddNotch f w => addNotchFilter f w l
  | RemoveNotch f => (removeNotchFilter f l).1
  | EnableNotch f b => (setNotchFilterEnabled f b l).1
  | ClearNotch => clearNotchFilters l
  end.

Lemma update_first_freqs f g l l' : (forall x, nf_frequency (g x) = nf_frequency x) ->
  update_first f g l = Some l' -> map nf_frequency l' = map nf_frequency l.
Proof.
  intros Hg. revert l'. induction l as [|x l IH]; simpl; [done|]. intros l'.
  destruct (near f x).
  - intros [= <-]. simpl. by rewrite Hg.
  - intros (r & Hr & ->)%fmap_Some. simpl. by rewrite (IH r).
Qed.

Lemma update_first_None f g l : update_first f g l = None ->
  forall x, x ∈ l -> near f x = false.
Proof.
  induction l as [|y l IH]; simpl; intros H x Hx; [inversion Hx|].
  destruct (near f y) eqn:E; [done|]. apply fmap_None in H.
  apply elem_of_cons in Hx as [->|Hx]; [done|]. auto.
Qed.

(** [apart] in terms of the frequencies alone. *)
Definition freqs_apart (a b : Q) : Prop := near a (mkNotch b 0 true) = false.

Definition notches_ok (l : list NotchFilter) : Prop :=
  StronglySorted freqs_apart (map nf_frequency l).

Lemma notch_step_ok l o : notches_ok l -> notches_ok (notch_step l o).
Proof.
  unfold notches_ok. intros Hl. destruct o as [f w|f|f b|]; simpl.
  - unfold addNotchFilter. destruct (update_first _ _ l) as [l'|] eqn:E.
    + apply update_first_freqs in E; [by rewrite E|done].
    + rewrite map_app. apply StronglySorted_app. simpl. split_and!.
      * intros a b (x & -> & Hx)%list_elem_of_fmap ->%list_elem_of_singleton.
        pose proof (update_first_None _ _ _ E x Hx) as Hn.
        unfold freqs_apart, near in *. simpl in *. props. intuition.
      * done.
      * repeat constructor.
  - unfold removeNotchFilter. destruct (js_findIndex _ l) as [i|]; simpl; [|done].
    rewrite map_app, <- firstn_map, <- skipn_map.
    rewrite <- (take_drop i (map nf_frequency l)) in Hl.
    apply StronglySorted_app in Hl as (H1 & H2 & H3). apply StronglySorted_app. split_and!.
    + intros a b Ha Hb. apply H1; [done|]. rewrite <- Nat.add_1_r, <- drop_drop in Hb.
      by apply elem_of_drop_inv in Hb.
    + done.
    + rewrite <- Nat.add_1_r, <- drop_drop. destruct (drop i (map nf_frequency l)); simpl; [done|].
      by inversion H3.
  - unfold setNotchFilterEnabled. destruct (update_first _ _ l) as [l'|] eqn:E; simpl; [|done].
    apply update_first_freqs in E; [by rewrite E|done].
  - constructor.
Qed.

Lemma notch_run_ok ops l : notches_ok l -> notches_ok (foldl notch_step l ops).
Proof. revert l. induction ops as [|o ops IH]; simpl; auto using notch_step_ok. Qed.

(** ** Properties *)

(** C35: Notch filtering changes exactly the bins whose frequency lies in an
    enabled notch: such a bin becomes the mean of the unfiltered bins next to the
    last notch that covers it; every other bin, the number of bins, the time and
    the centre frequency are kept, and the reported range bounds the result. *)
Theorem applyNotchFilters_spec filters data sf bw i (Hne : filters <> []) :
  let out := applyNotchFilters filters data sf bw in
  let covering := js_filter (fun f => in_notch sf bw f i) (js_filter nf_enabled filters) in
  fft_bins out !! i =
    match last covering with
    | Some f => (fun _ => notch_value (fft_bins data) sf bw f) <$> fft_bins data !! i
    | None => fft_bins data !! i
    end /\
  length (fft_bins out) = length (fft_bins data) /\
  (fft_timestamp out, fft_centerFreq out) = (fft_timestamp data, fft_centerFreq data) /\
  Forall (fun v => fft_minPower out <= v /\ v <= fft_maxPower out) (fft_bins out).
Proof.
  destruct filters as [|f0 fs]; [done|]. cbv zeta. unfold applyNotchFilters.
  set (en := js_filter nf_enabled (f0 :: fs)).
  cbn [fft_bins fft_timestamp fft_centerFreq fft_minPower fft_maxPower].
  set (out := foldl _ _ en). split_and!; [| |done|].
  - subst out. rewrite notch_passes_lookup.
    destruct (last _); [done|]. by destruct (fft_bins data !! i).
  - subst out. apply notch_passes_length.
  - apply Forall_forall. intros v Hv.
    destruct (list_min out) as [lo|] eqn:E1; [|by destruct out; [inversion Hv|]].
    destruct (list_max out) as [hi|] eqn:E2; [|by destruct out; [inversion Hv|]].
    simpl. split; [by eapply list_min_le|by eapply list_max_ge].
Qed.

Lemma applyNotchFilters_spec_witness :
  fft_bins (applyNotchFilters [mkNotch 102 1 true] (mkFFTData 0 0 [-90; -80; -10; -20; -70; -60] (-90) (-10))
    100 1) !! 2%nat = Some (notch_value [-90; -80; -10; -20; -70; -60] 100 1 (mkNotch 102 1 true)).
Proof.
  apply (applyNotchFilters_spec [mkNotch 102 1 true]
    (mkFFTData 0 0 [-90; -80; -10; -20; -70; -60] (-90) (-10)) 100 1 2). done.
Defined.

(** The power spectrum is the list of the bins' levels with its two halves
    exchanged, so that frequencies ascend: bin [i] of the result is bin
    [(i + n/2) mod n] of the transform, for an even size [n]. *)
Theorem computePowerSpectrum_shift log10 fftOutput half i (Hi : (i < 2 * half)%nat) :
  computePowerSpectrum log10 fftOutput (2 * half) !! i =
  spectrum_of log10 fftOutput (2 * half) !! ((i + half) mod (2 * half))%nat.
Proof.
  unfold computePowerSpectrum, reorder.
  replace (2 * half / 2)%nat with half by (rewrite Nat.mul_comm, Nat.div_mul; lia).
  set (sp := spectrum_of _ _ _).
  assert (Hl : length sp = (2 * half)%nat) by (subst sp; unfold spectrum_of; by rewrite length_map, length_seq).
  assert (Hd : forall k, (k < 2 * half)%nat -> Some (default (-120) (sp !! k)) = sp !! k).
  { intros k Hk. destruct (sp !! k) eqn:E; [done|]. apply lookup_ge_None in E. lia. }
  destruct (Nat.lt_ge_cases i half) as [Hlt|Hge].
  - rewrite lookup_app_l by (rewrite length_map, length_seq; lia).
    rewrite list_lookup_fmap, lookup_seq_lt by lia. simpl.
    rewrite Hd by lia. rewrite Nat.mod_small by lia. done.
  - rewrite lookup_app_r by (rewrite length_map, length_seq; lia).
    rewrite length_map, length_seq, list_lookup_fmap, lookup_seq_lt by lia. simpl.
    rewrite Hd by lia. f_equal.
    replace (i + half)%nat with (i - half + 1 * (2 * half))%nat by lia.
    rewrite Nat.Div0.mod_add, Nat.mod_small by lia. done.
Qed.

Lemma computePowerSpectrum_shift_witness :
  computePowerSpectrum (fun x => x) [3; 4; 0; 0; 1; 0; 0; 2] 4 !! 1%nat =
  spectrum_of (fun x => x) [3; 4; 0; 0; 1; 0; 0; 2] 4 !! 3%nat.
Proof. apply (computePowerSpectrum_shift (fun x => x) [3; 4; 0; 0; 1; 0; 0; 2] 2 1). lia. Defined.

(** The level given to a bin without power is not a floor: a bin with power
    1e-14 is reported below it, at -140 dB against -120 dB. *)
Theorem bin_level_floor log10 (Hlog : log10 (1 # 100000000000000) == -14) :
  bin_level log10 (1 # 100000000000000) == -140 /\ bin_level log10 0 == -120.
Proof.
  unfold bin_level. split; [|done].
  destruct (_ <?q _) eqn:E; props; [|exfalso; revert E; unfold Qle; simpl; lia].
  rewrite Hlog. done.
Qed.

Lemma bin_level_floor_witness :
  bin_level (fun _ => -14) (1 # 100000000000000) == -140 /\ bin_level (fun _ => -14) 0 == -120.
Proof. apply (bin_level_floor (fun _ => -14)). reflexivity. Defined.

(** Whatever sequence of additions, removals and switches is applied, two
    filters of the list are always at least 1 kHz apart, so an operation by
    frequency designates at most one of them. *)
Theorem notch_filters_apart ops i j f g
  (Hij : (i < j)%nat)
  (Hi : foldl notch_step [] ops !! i = Some f) (Hj : foldl notch_step [] ops !! j = Some g) :
  1000 <= nf_frequency f - nf_frequency g \/ 1000 <= nf_frequency g - nf_frequency f.
Proof.
  assert (Hok : notches_ok (foldl notch_step [] ops)) by (apply notch_run_ok; constructor).
  assert (Ha : freqs_apart (nf_frequency f) (nf_frequency g)).
  { eapply (sorted_pair _ _ Hok i j); [done| |].
    - unfold notches_ok. change (map nf_frequency) with (fmap (M := list) nf_frequency).
      by rewrite list_lookup_fmap, Hi.
    - change (map nf_frequency) with (fmap (M := list) nf_frequency).
      by rewrite list_lookup_fmap, Hj. }
  unfold freqs_apart, near in Ha. simpl in Ha. props. destruct Ha; [right|left]; lra.
Qed.

Lemma notch_filters_apart_witness :
  1000 <= 137102000 - 137100000 \/ 1000 <= 137100000 - 137102000.
Proof.
  destruct (notch_filters_apart [AddNotch 137100000 5000; AddNotch 137100500 100; AddNotch 137102000 5000]
    0 1 (mkNotch 137100000 100 true) (mkNotch 137102000 5000 true)) as [H|H];
    [lia|reflexivity|reflexivity|right|left]; exact H.
Defined.

End FftDsp.
