(* ===== verification/FftStream.v ===== *)
(** * The FFT stream (src/backend/capture/fft-stream.ts)

    The module owns at most one rtl_sdr process and publishes spectra from its
    output.  [startFFTStream] and [stopFFTStream] suspend at awaits, so the
    stream is a transition system: a call runs to its first await and leaves a
    task, an event resumes it, and the events of child processes arrive in
    between in any order.  A continuation that awaits nothing but a settled
    promise runs in the same step. *)

From S2P Require Import Prelude JsStd Types Effects FftDsp.
Import FftDsp.

Module FftStream.

(* @src backend/capture/fft-stream.ts:14-20 FFTStreamConfig *)
Record FFTStreamConfig := mkFFTConfig {
  fc_frequency : Z;
  fc_bandwidth : Z;
  fc_fftSize : nat;
  fc_gain : Q;
  fc_updateRate : Z
}.

#[export] Instance FFTStreamConfig_eq_dec : EqDecision FFTStreamConfig.
Proof. solve_decision. Defined.

(* @src backend/capture/fft-stream.ts:42-42 MIN_RESTART_DELAY_MS *)
Definition MIN_RESTART_DELAY_MS : Z := 4000.

(* @src backend/capture/fft-stream.ts:62-62 SAMPLE_RATE *)
Definition SAMPLE_RATE : Z := 250000.

(** A spawned rtl_sdr with the variables of its handlers' closure.  [p_killed] is
    Node's [killed], true once a signal was sent successfully; [p_timer] is the
    SIGKILL timer; [p_alive] is the operating system's view; [p_closed] tells that
    its close event, the last of all, has been emitted. *)
(* @src backend/capture/fft-stream.ts:188-231 startFFTStream *)
Record process := mkProcess {
  p_config : FFTStreamConfig;
  p_buffer : list Z;
  p_lastUpdateTime : Z;
  p_killed : bool;
  p_timer : bool;
  p_alive : bool;
  p_closed : bool
}.

(** A suspended call: [stopFFTStream] waiting for the end of a process, alone or
    on behalf of a start, or a start sleeping until the device is released. *)
Inductive task :=
| Stopping (pid : nat) (next : option (FFTStreamConfig * nat))
| Sleeping (until : Z) (config : FFTStreamConfig) (callback : nat).

(** What the n-th attempt to start a process comes to: the FFT library refuses the size,
    or [spawn] throws at once, or there is a process (whose program may still be missing,
    which is an error event). *)
Inductive attempt := Spawns | SpawnThrows (message : string) | FftThrows (message : string).

(** [attempts] are the outcomes of the attempts to come; beyond them all succeed. *)
(* @src backend/capture/fft-stream.ts:30-52 module variables *)
Record state := mkStream {
  sdrProcess : option nat;
  currentCallback : option nat;
  currentConfig : option FFTStreamConfig;
  isRunning : bool;
  isStarting : bool;
  lastStopTime : Z;
  lastError : option string;
  latestData : option FFTData;
  notchFilters : list NotchFilter;
  fftProcessor : option nat;
  averagingBuffer : option (list Q);
  averagingCount : nat;
  procs : list process;
  tasks : list task;
  attempts : list attempt
}.

Definition initial : state :=
  mkStream None None None false false 0 None None [] None None 0 [] [] [].

(** Field updates. *)
Definition with_procs (f : list process -> list process) (s : state) : state :=
  mkStream (sdrProcess s) (currentCallback s) (currentConfig s) (isRunning s) (isStarting s)
    (lastStopTime s) (lastError s) (latestData s) (notchFilters s) (fftProcessor s)
    (averagingBuffer s) (averagingCount s) (f (procs s)) (tasks s) (attempts s).

Definition with_tasks (f : list task -> list task) (s : state) : state :=
  mkStream (sdrProcess s) (currentCallback s) (currentConfig s) (isRunning s) (isStarting s)
    (lastStopTime s) (lastError s) (latestData s) (notchFilters s) (fftProcessor s)
    (averagingBuffer s) (averagingCount s) (procs s) (f (tasks s)) (attempts s).

Definition with_flags (running starting : bool) (s : state) : state :=
  mkStream (sdrProcess s) (currentCallback s) (currentConfig s) running starting
    (lastStopTime s) (lastError s) (latestData s) (notchFilters s) (fftProcessor s)
    (averagingBuffer s) (averagingCount s) (procs s) (tasks s) (attempts s).

Definition with_error (e : option string) (s : state) : state :=
  mkStream (sdrProcess s) (currentCallback s) (currentConfig s) (isRunning s) (isStarting s)
    (lastStopTime s) e (latestData s) (notchFilters s) (fftProcessor s)
    (averagingBuffer s) (averagingCount s) (procs s) (tasks s) (attempts s).

Definition with_callback (cb : option nat) (s : state) : state :=
  mkStream (sdrProcess s) cb (currentConfig s) (isRunning s) (isStarting s)
    (lastStopTime s) (lastError s) (latestData s) (notchFilters s) (fftProcessor s)
    (averagingBuffer s) (averagingCount s) (procs s) (tasks s) (attempts s).

Definition with_process (p : option nat) (stopTime : Z) (s : state) : state :=
  mkStream p (currentCallback s) (currentConfig s) (isRunning s) (isStarting s)
    stopTime (lastError s) (latestData s) (notchFilters s) (fftProcessor s)
    (averagingBuffer s) (averagingCount s) (procs s) (tasks s) (attempts s).

Definition killed (pid : nat) (s : state) : bool :=
  match procs s !! pid with Some p => p_killed p | None => true end.

Definition alive (pid : nat) (s : state) : bool :=
  match procs s !! pid with Some p => p_alive p | None => false end.

(** Its handlers may still be called. *)
Definition open (pid : nat) (s : state) : bool :=
  match procs s !! pid with Some p => negb (p_closed p) | None => false end.

Definition update_proc (pid : nat) (f : process -> process) (s : state) : state :=
  with_procs (alter f pid) s.

(* @src backend/capture/fft-stream.ts:420-422 isFFTStreamRunning *)
Definition isFFTStreamRunning (s : state) : bool :=
  isRunning s && match sdrProcess s with Some pid => negb (killed pid s) | None => false end.

(* @src backend/capture/fft-stream.ts:427-429 getFFTStreamConfig *)
Definition getFFTStreamConfig (s : state) : option FFTStreamConfig := currentConfig s.

(* @src backend/capture/fft-stream.ts:500-502 getLatestFFTData *)
Definition getLatestFFTData (s : state) : option FFTData := latestData s.

(* @src backend/capture/fft-stream.ts:507-509 getFFTStreamError *)
Definition getFFTStreamError (s : state) : option string := lastError s.

(** What a step shows to the rest of the program and to the system. *)
Inductive output :=
| Emit (callback : nat) (data : FFTData)
| Spawned (pid : nat) (frequency : Z) (gain : Q) (blockSize : Z)
| Signal (pid : nat) (name : string)
| Answer (b : bool)
| Reject (message : string).                             (* the promise of a start *)

(** [proc.kill('SIGTERM')], which succeeds on a live process, and the timer. *)
Definition proc_terminate (p : process) : process :=
  mkProcess (p_config p) (p_buffer p) (p_lastUpdateTime p) (p_killed p || p_alive p) true (p_alive p)
    (p_closed p).

(** The process has ended, and so have its streams when [closed]. *)
Definition proc_gone (closed : bool) (p : process) : process :=
  mkProcess (p_config p) (p_buffer p) (p_lastUpdateTime p) (p_killed p) (p_timer p) false
    (p_closed p || closed).

(** ** Stop *)

(** The assignments at the end of [stopFFTStream]. *)
(* @src backend/capture/fft-stream.ts:407-414 stopFFTStream *)
Definition stop_reset (s : state) : state :=
  mkStream (sdrProcess s) None None false (isStarting s) (lastStopTime s) None None
    (notchFilters s) None None 0 (procs s) (tasks s) (attempts s).

(** The first part: [inl] when it suspends on the end of a process. *)
(* @src backend/capture/fft-stream.ts:381-403 stopFFTStream *)
Definition stop_begin (next : option (FFTStreamConfig * nat)) (s : state)
  : (state * list output) + state :=
  match sdrProcess s with
  | Some pid =>
      if killed pid s then inr (stop_reset s)
      else
        let s := with_process None (lastStopTime s) s in
        let s := update_proc pid proc_terminate s in
        inl (with_tasks (fun l => l ++ [Stopping pid next]) s, [Signal pid "SIGTERM"])
  | None => inr (stop_reset s)
  end.

(** After [Promise.race]: [lastStopTime = Date.now()], then the resets. *)
(* @src backend/capture/fft-stream.ts:403-414 stopFFTStream *)
Definition stop_end (now : Z) (s : state) : state :=
  stop_reset (with_process (sdrProcess s) now s).

(** The SIGKILL timer, 500 ms after SIGTERM. *)
(* @src backend/capture/fft-stream.ts:395-400 stopFFTStream *)
Definition kill_timer (pid : nat) (s : state) : list output :=
  match procs s !! pid with
  | Some p => if p_timer p && negb (p_killed p) then [Signal pid "SIGKILL"] else []
  | None => []
  end.

(** ** Start *)

(* @src backend/capture/fft-stream.ts:194-198 blockSize *)
Definition blockSize (config : FFTStreamConfig) : Z :=
  Z.max (Z.of_nat (fc_fftSize config * 2)) (SAMPLE_RATE / fc_updateRate config * 2).

Definition with_attempts (l : list attempt) (s : state) : state :=
  mkStream (sdrProcess s) (currentCallback s) (currentConfig s) (isRunning s) (isStarting s)
    (lastStopTime s) (lastError s) (latestData s) (notchFilters s) (fftProcessor s)
    (averagingBuffer s) (averagingCount s) (procs s) (tasks s) l.

Definition with_processor (n : nat) (s : state) : state :=
  mkStream (sdrProcess s) (currentCallback s) (currentConfig s) (isRunning s) (isStarting s)
    (lastStopTime s) (lastError s) (latestData s) (notchFilters s) (Some n)
    (averagingBuffer s) (averagingCount s) (procs s) (tasks s) (attempts s).

(** The process with its handlers. *)
(* @src backend/capture/fft-stream.ts:207-231 startFFTStream *)
Definition spawned (now : Z) (config : FFTStreamConfig) (callback : nat) (s : state)
  : state * list output :=
  let pid := length (procs s) in
  let p := mkProcess config [] now false false true false in
  (mkStream (Some pid) (Some callback) (Some config) true false (lastStopTime s) None
     (latestData s) (notchFilters s) (fftProcessor s)
     (averagingBuffer s) (averagingCount s) (procs s ++ [p]) (tasks s) (attempts s),
   [Spawned pid (fc_frequency config) (fc_gain config) (blockSize config); Answer true]).

(* @src backend/capture/fft-stream.ts:370-375 startFFTStream *)
Definition start_failed (s : state) : state * list output :=
  (with_flags false false s, [Answer false]).

(** [new FFT] is outside the [try]: when it throws the promise is rejected with
    [isStarting] still set. *)
(* @src backend/capture/fft-stream.ts:187-231 startFFTStream *)
Definition start_spawn (now : Z) (config : FFTStreamConfig) (callback : nat) (s : state)
  : state * list output :=
  let outcome := default Spawns (head (attempts s)) in
  let s := with_attempts (tail (attempts s)) s in
  match outcome with
  | FftThrows message => (s, [Reject message])
  | SpawnThrows _ => start_failed (with_processor (fc_fftSize config) s)
  | Spawns => spawned now config callback (with_processor (fc_fftSize config) s)
  end.

(* @src backend/capture/fft-stream.ts:180-185 startFFTStream *)
Definition start_wait (now : Z) (config : FFTStreamConfig) (callback : nat) (s : state)
  : state * list output :=
  let timeSinceStop := (now - lastStopTime s)%Z in
  if (timeSinceStop <? MIN_RESTART_DELAY_MS)%Z && (0 <? lastStopTime s)%Z then
    let waitTime := (MIN_RESTART_DELAY_MS - timeSinceStop)%Z in
    (with_tasks (fun l => l ++ [Sleeping (now + waitTime)%Z config callback]) s, [])
  else start_spawn now config callback s.

Definition same_frequency (config : FFTStreamConfig) (s : state) : bool :=
  match currentConfig s with
  | Some c => Z.eqb (fc_frequency c) (fc_frequency config)
  | None => false
  end.

(* @src backend/capture/fft-stream.ts:157-185 startFFTStream *)
Definition startFFTStream (now : Z) (config : FFTStreamConfig) (callback : nat) (s : state)
  : state * list output :=
  if isStarting s then (s, [Answer false])
  else if isRunning s && same_frequency config s then
    (with_callback (Some callback) s, [Answer true])
  else
    let s := with_flags (isRunning s) true s in
    if isRunning s then
      match stop_begin (Some (config, callback)) s with
      | inl r => r
      | inr s => start_wait now config callback s
      end
    else start_wait now config callback s.

(* @src backend/capture/fft-stream.ts:434-441 updateFFTFrequency *)
Definition updateFFTFrequency (now : Z) (frequency : Z) (s : state) : state * list output :=
  match currentConfig s, currentCallback s with
  | Some c, Some cb =>
      startFFTStream now (mkFFTConfig frequency (fc_bandwidth c) (fc_fftSize c) (fc_gain c)
                            (fc_updateRate c)) cb s
  | _, _ => (s, [Answer false])
  end.

(* @src backend/capture/fft-stream.ts:381-415 stopFFTStream *)
Definition stopFFTStream (s : state) : state * list output :=
  match stop_begin None s with
  | inl r => r
  | inr s => (s, [])
  end.

(** A suspended call goes on. *)
(* @src backend/capture/fft-stream.ts:175-190 startFFTStream *)
Definition resume (now : Z) (t : task) (s : state) : state * list output :=
  match t with
  | Stopping _ None => (stop_end now s, [])
  | Stopping _ (Some (config, callback)) => start_wait now config callback (stop_end now s)
  | Sleeping _ config callback => start_spawn now config callback s
  end.

(** ** Handlers of the process *)

Section Data.
Context (cos : nat -> nat -> Q) (log10 : Q -> Q) (transform : nat -> list Q -> list Q).

(** From the bytes of a frame to its spectrum. *)
(* @src backend/capture/fft-stream.ts:244-260 startFFTStream *)
Definition frame_spectrum (fftSize processor : nat) (frame : list Z) : list Q :=
  let complexData := apply_window (cos fftSize) (convertIQToComplex frame fftSize) in
  computePowerSpectrum log10 (transform processor complexData) fftSize.

(* @src backend/capture/fft-stream.ts:294-309 startFFTStream *)
Definition make_data (config : FFTStreamConfig) (filters : list NotchFilter) (now : Z)
  (averaged : list Q) : FFTData :=
  let binWidth := (inject_Z SAMPLE_RATE / inject_Z (Z.of_nat (fc_fftSize config)))%Q in
  let startFreq := (inject_Z (fc_frequency config) - inject_Z SAMPLE_RATE / 2)%Q in
  applyNotchFilters filters
    (mkFFTData now (fc_frequency config) averaged (default 0%Q (list_min averaged))
       (default 0%Q (list_max averaged))) startFreq binWidth.

(** The variables the loop assigns. *)
Record progress := mkProgress {
  pr_avg : option (list Q);
  pr_count : nat;
  pr_latest : option FFTData;
  pr_last : Z;
  pr_out : list FFTData
}.

Definition bytesPerFrame (config : FFTStreamConfig) : nat := fc_fftSize config * 2.

Definition due (config : FFTStreamConfig) (now last : Z) : bool :=
  (inject_Z 1000 / inject_Z (fc_updateRate config))%Q <=?q inject_Z (now - last).

(** One frame that is due. *)
(* @src backend/capture/fft-stream.ts:242-318 startFFTStream *)
Definition process_frame (config : FFTStreamConfig) (processor : nat) (filters : list NotchFilter)
  (now : Z) (frame : list Z) (a : progress) : progress :=
  let spectrum := frame_spectrum (fc_fftSize config) processor frame in
  let '(buf, count) := average_step (fc_fftSize config) (pr_avg a, pr_count a) spectrum in
  if count <? 2 then mkProgress (Some buf) count (pr_latest a) now (pr_out a)
  else
    let fftData := make_data config filters now buf in
    mkProgress (Some buf) count (Some fftData) now (pr_out a ++ [fftData]).

(** The [while] loop; [now i] is the clock at its [i]-th round.  The boolean
    tells that the handler returned from within the loop. *)
(* @src backend/capture/fft-stream.ts:236-322 startFFTStream *)
Fixpoint frames (fuel i : nat) (config : FFTStreamConfig) (processor : option nat)
  (filters : list NotchFilter) (now : nat -> Z) (buffer : list Z) (a : progress)
  : list Z * progress * bool :=
  match fuel with
  | 0 => (buffer, a, false)
  | S fuel =>
      if bytesPerFrame config <=? length buffer then
        let rest := drop (bytesPerFrame config) buffer in
        if due config (now i) (pr_last a) then
          match processor with
          | None => (buffer, a, true)
          | Some n =>
              frames fuel (S i) config processor filters now rest
                (process_frame config n filters (now i) (take (bytesPerFrame config) buffer) a)
          end
        else frames fuel (S i) config processor filters now rest a
      else (buffer, a, false)
  end.

(* @src backend/capture/fft-stream.ts:233-328 startFFTStream *)
Definition on_data (pid : nat) (data : list Z) (now : nat -> Z) (s : state)
  : state * list output :=
  match procs s !! pid with
  | None => (s, [])
  | Some p =>
      let buffer := p_buffer p ++ data in
      let n := bytesPerFrame (p_config p) in
      let '(buffer, a, returned) :=
        frames (S (length buffer)) 0 (p_config p) (fftProcessor s) (notchFilters s) now buffer
          (mkProgress (averagingBuffer s) (averagingCount s) (latestData s) (p_lastUpdateTime p) [])
      in
      let buffer :=
        if returned then buffer
        else if n * 10 <? length buffer then drop (length buffer - n) buffer else buffer in
      (mkStream (sdrProcess s) (currentCallback s) (currentConfig s) (isRunning s) (isStarting s)
         (lastStopTime s) (lastError s) (pr_latest a) (notchFilters s) (fftProcessor s)
         (pr_avg a) (pr_count a)
         (<[pid := mkProcess (p_config p) buffer (pr_last a) (p_killed p) (p_timer p) (p_alive p)
                    (p_closed p)]> (procs s))
         (tasks s) (attempts s),
       match currentCallback s with
       | Some cb => map (Emit cb) (pr_out a)
       | None => []
       end)
  end.

(* @src backend/capture/fft-stream.ts:330-347 startFFTStream *)
Definition on_stderr (data : string) (s : state) : state :=
  let msg := trim data in
  if includes "No supported" msg then with_error (Some "No SDR hardware detected"%string) s
  else if includes "error" msg || includes "failed" msg || includes "usb_" msg
       then with_error (Some msg) s
  else s.

(* @src backend/capture/fft-stream.ts:349-354 startFFTStream *)
Definition on_error (message : string) (s : state) : state :=
  with_flags false false (with_error (Some message) s).

(* @src backend/capture/fft-stream.ts:356-367 startFFTStream *)
Definition on_close (now : Z) (code : option Z) (s : state) : state :=
  let s :=
    match code with
    | Some c =>
        if Z.eqb c 0 then s
        else match lastError s with
             | None | Some EmptyString =>
                 with_error (Some ("SDR process exited with code " ++ show_Z c)%string) s
             | Some _ => s
             end
    | None => s
    end in
  with_process None now (with_flags false false s).

(** ** The transition system *)

Inductive event :=
| EStart (config : FFTStreamConfig) (callback : nat)
| EStop
| EUpdate (frequency : Z)
| EResume (k : nat)
| EKillTimer (pid : nat)
| EData (pid : nat) (data : list Z)
| EStderr (pid : nat) (data : string)
| EError (pid : nat) (message : string)
| EExit (pid : nat)
| EClose (pid : nat) (code : option Z)
| ENotch (o : notch_op)
| EAttempts (l : list attempt).                          (* what the next attempts will come to *)

(** An error event is a process that could not be spawned.  A process that ends emits
    exit, which no handler but a suspended stop hears, and, once its streams have ended,
    close; one that could not be spawned emits close too.

    A task can go on when what it waits for has happened: the process has ended
    or 2 s have passed (any time, for the model), or the sleep is over. *)
Definition ready (now : Z) (t : task) : bool :=
  match t with Stopping _ _ => true | Sleeping until _ _ => (until <=? now)%Z end.

Definition step (now : Z) (e : event) (s : state) : state * list output :=
  match e with
  | EStart config cb => startFFTStream now config cb s
  | EStop => stopFFTStream s
  | EUpdate f => updateFFTFrequency now f s
  | EResume k =>
      match tasks s !! k with
      | Some t => if ready now t
                  then resume now t (with_tasks (fun l => take k l ++ drop (S k) l) s)
                  else (s, [])
      | None => (s, [])
      end
  | EKillTimer pid => (s, kill_timer pid s)
  | EData pid data => if open pid s then on_data pid data (fun _ => now) s else (s, [])
  | EStderr pid data => if open pid s then (on_stderr data s, []) else (s, [])
  | EError pid m =>
      if alive pid s then (on_error m (update_proc pid (proc_gone false) s), []) else (s, [])
  | EExit pid =>
      if alive pid s then (update_proc pid (proc_gone false) s, []) else (s, [])
  | EClose pid code =>
      if open pid s then (on_close now code (update_proc pid (proc_gone true) s), [])
      else (s, [])
  | ENotch o =>
      (mkStream (sdrProcess s) (currentCallback s) (currentConfig s) (isRunning s) (isStarting s)
         (lastStopTime s) (lastError s) (latestData s) (notch_step (notchFilters s) o)
         (fftProcessor s) (averagingBuffer s) (averagingCount s) (procs s) (tasks s) (attempts s), [])
  | EAttempts l => (with_attempts l s, [])
  end.

Fixpoint run (evs : list (Z * event)) (s : state) : state * list output :=
  match evs with
  | [] => (s, [])
  | (now, e) :: r =>
      let '(s1, o1) := step now e s in
      let '(s2, o2) := run r s1 in (s2, o1 ++ o2)
  end.

(** ** Facts *)

(** The whole state is consistent: a running stream has its configuration, its
    callback and its processor; a signal timer never finds a live process that
    no signal reached. *)
Record consistent (s : state) : Prop := mkConsistent {
  running_configured : isRunning s = true ->
    is_Some (currentConfig s) /\ is_Some (currentCallback s) /\ is_Some (fftProcessor s);
  current_exists : forall pid, sdrProcess s = Some pid -> pid < length (procs s);
  timers_useless : Forall (fun p => p_timer p = true -> p_alive p = true -> p_killed p = true) (procs s)
}.

Lemma Forall_alter_same {A} (P : A -> Prop) f i (l : list A) :
  Forall P l -> (forall x, P x -> P (f x)) -> Forall P (alter f i l).
Proof. intros Hl Hf. apply Forall_alter; [done|]. auto. Qed.

Lemma stop_reset_consistent s : consistent s -> consistent (stop_reset s).
Proof. intros [H1 H2 H3]. by split. Qed.

Lemma stop_begin_consistent next s : consistent s ->
  match stop_begin next s with inl (s', _) => consistent s' | inr s' => consistent s' end.
Proof.
  intros Hc. pose proof Hc as [H1 H2 H3]. unfold stop_begin. destruct (sdrProcess s) as [pid|]; [|by apply stop_reset_consistent].
  destruct (killed pid s); [by apply stop_reset_consistent|]. split; simpl; [done|done|].
  apply Forall_alter_same; [done|]. intros p Hp. simpl. intros _ ->. by rewrite orb_true_r.
Qed.

Lemma start_spawn_consistent now c cb s : consistent s -> consistent (start_spawn now c cb s).1.
Proof.
  intros [H1 H2 H3]. unfold start_spawn. destruct (default _ _); [|by split..].
  split; simpl; [eauto| |].
  - intros pid [= <-]. rewrite length_app. simpl. lia.
  - apply Forall_app. split; [done|]. by repeat constructor.
Qed.

Lemma start_wait_consistent now c cb s : consistent s -> consistent (start_wait now c cb s).1.
Proof.
  intros Hc. unfold start_wait. destruct (_ && _); [|by apply start_spawn_consistent].
  destruct Hc. by split.
Qed.

Lemma startFFTStream_consistent now c cb s : consistent s -> consistent (startFFTStream now c cb s).1.
Proof.
  intros Hc. pose proof Hc as [H1 H2 H3]. unfold startFFTStream. destruct (isStarting s); [done|].
  destruct (isRunning s && same_frequency c s) eqn:E.
  { split; simpl; [|done..]. intros Hr. destruct (H1 Hr) as (? & ? & ?). eauto. }
  set (s1 := with_flags _ _ s). assert (Hc1 : consistent s1) by (by split).
  destruct (isRunning s1); [|by apply start_wait_consistent].
  pose proof (stop_begin_consistent (Some (c, cb)) s1 Hc1) as Hb.
  destruct (stop_begin _ s1) as [[s2 o]|s2]; [done|by apply start_wait_consistent].
Qed.

Lemma gone_consistent b pid s : consistent s -> consistent (update_proc pid (proc_gone b) s).
Proof.
  intros [H1 H2 H3]. split; simpl; [done| |].
  - intros q Hq. rewrite length_alter. auto.
  - by apply Forall_alter_same.
Qed.

Lemma step_consistent now e s : consistent s -> consistent (step now e s).1.
Proof.
  intros Hc. pose proof Hc as [H1 H2 H3]. destruct e as [c cb| |f|k|pid|pid d|pid d|pid m|pid|pid code|o|l]; simpl.
  - by apply startFFTStream_consistent.
  - unfold stopFFTStream. pose proof (stop_begin_consistent None s Hc) as Hb.
    by destruct (stop_begin None s) as [[s2 o]|s2].
  - unfold updateFFTFrequency. destruct (currentConfig s); [|done].
    destruct (currentCallback s); [|done]. by apply startFFTStream_consistent.
  - destruct (tasks s !! k) as [t|]; [|done]. destruct (ready now t); [|done].
    set (s1 := with_tasks _ s). assert (Hc1 : consistent s1) by (by split).
    assert (Hc2 : consistent (stop_end now s1)) by (by split).
    destruct t as [p [[c cb]|]|u c cb]; cbn [resume fst];
      [by apply start_wait_consistent|done|by apply start_spawn_consistent].
  - done.
  - destruct (open pid s); [|done]. unfold on_data. destruct (procs s !! pid) as [p|] eqn:E; [|done].
    destruct (frames _ _ _ _ _ _ _ _) as [[b a] r]. split; simpl; [done| |].
    + intros q Hq. rewrite length_insert. auto.
    + apply Forall_insert; [done|]. simpl. rewrite Forall_lookup in H3. by apply (H3 _ _ E).
  - destruct (open pid s); [|done]. simpl. unfold on_stderr. repeat case_match; try done; by split.
  - destruct (alive pid s); [|done]. split; simpl; [done| |]; apply (gone_consistent false pid s Hc).
  - destruct (alive pid s); [|done]. by apply gone_consistent.
  - destruct (open pid s); [|done]. simpl. pose proof (gone_consistent true pid s Hc) as Hc1.
    unfold on_close. destruct Hc1 as [G1 G2 G3].
    repeat case_match; by split.
  - by split.
  - by split.
Qed.

Lemma run_consistent evs s : consistent s -> consistent (run evs s).1.
Proof.
  revert s. induction evs as [|[now e] evs IH]; intros s Hc; simpl; [done|].
  pose proof (step_consistent now e s Hc) as H1. destruct (step now e s) as [s1 o1].
  specialize (IH s1 H1). by destruct (run evs s1).
Qed.

(** ** Calls that do not overlap

    A run is orderly when no start or stop is issued while another is suspended, a stop
    goes on because its process ended and not because of its 2 s limit, and a process
    closes before a newer one runs. *)
Definition orderly (e : event) (s : state) : Prop :=
  match e with
  | EStart _ _ | EUpdate _ | EStop => tasks s = []
  | EResume k => match tasks s !! k with
                 | Some (Stopping pid _) => alive pid s = false
                 | _ => True
                 end
  | EClose pid _ => isRunning s = true -> sdrProcess s = None \/ sdrProcess s = Some pid
  | _ => True
  end.

Fixpoint orderly_run (evs : list (Z * event)) (s : state) : Prop :=
  match evs with
  | [] => True
  | (now, e) :: r => orderly e s /\ orderly_run r (step now e s).1
  end.

Definition none_alive (s : state) : Prop := forall pid, alive pid s = false.

(** Every live process is either the current one of a running stream, or has been
    told to stop by the one suspended call. *)
Record single (s : state) : Prop := mkSingle {
  live_owner : forall pid, alive pid s = true ->
    (sdrProcess s = Some pid /\ isRunning s = true /\ killed pid s = false) \/
    (exists n, tasks s = [Stopping pid n] /\ killed pid s = true);
  one_task : match tasks s with
             | [] => True
             | [Stopping _ _] => sdrProcess s = None
             | [Sleeping _ _ _] => none_alive s /\ isRunning s = false
             | _ => False
             end;
  current_open : isRunning s = true -> forall pid, sdrProcess s = Some pid -> open pid s = true
}.

Lemma lookup_spawned {A} (l : list A) p pid :
  (l ++ [p]) !! pid = if decide (pid = length l) then Some p else l !! pid.
Proof.
  destruct (decide (pid = length l)) as [->|Hne]; [by rewrite list_lookup_middle|].
  destruct (decide (pid < length l)) as [Hlt|Hge]; [by rewrite lookup_app_l|].
  rewrite !lookup_ge_None_2; [done|lia|]. rewrite length_app. simpl. lia.
Qed.

Lemma start_spawn_single now c cb s : none_alive s -> isRunning s = false -> tasks s = [] ->
  single (start_spawn now c cb s).1.
Proof.
  intros Hn Hr Ht. unfold start_spawn. destruct (default _ _).
  - split; cbn.
    + intros pid. unfold alive, killed. cbn. rewrite lookup_spawned.
      destruct (decide _) as [->|]; [by left|]. intros Ha. specialize (Hn pid). unfold alive in Hn. congruence.
    + by rewrite Ht.
    + intros _ pid [= <-]. unfold open. cbn. by rewrite list_lookup_middle.
  - split; cbn; [|by rewrite Ht|done]. intros pid Ha. specialize (Hn pid). unfold alive in *. cbn in *. congruence.
  - split; cbn; [|by rewrite Ht|by rewrite Hr].
    intros pid Ha. specialize (Hn pid). unfold alive in *. cbn in *. congruence.
Qed.

Lemma start_wait_single now c cb s :
  none_alive s -> isRunning s = false -> tasks s = [] -> single (start_wait now c cb s).1.
Proof.
  intros Hn Hr Ht. unfold start_wait. destruct (_ && _); [|by apply start_spawn_single].
  split; simpl.
  - intros pid Hp. specialize (Hn pid). unfold alive in *. simpl in *. congruence.
  - rewrite Ht. by split.
  - by rewrite Hr.
Qed.

(** With no suspended call, a stream that is not running has no live process. *)
Lemma idle_none_alive s : single s -> tasks s = [] -> isRunning s = false -> none_alive s.
Proof.
  intros [H1 _ _] Ht Hr pid. apply not_true_iff_false. intros Ha.
  destruct (H1 pid Ha) as [(_ & ? & _)|(n & ? & _)]; congruence.
Qed.

Lemma stop_begin_single next s : single s -> tasks s = [] ->
  match stop_begin next s with
  | inl (s', _) => single s'
  | inr s' => single s' /\ none_alive s' /\ isRunning s' = false /\ tasks s' = []
  end.
Proof.
  intros Hs Ht. pose proof Hs as [H1 H2 H3].
  assert (Hreset : none_alive s -> single (stop_reset s) /\ none_alive (stop_reset s) /\
                     isRunning (stop_reset s) = false /\ tasks (stop_reset s) = []).
  { intros Hn. split_and!; [|done|done|done]. split; simpl; [|by rewrite Ht|done].
    intros pid Hp. specialize (Hn pid). unfold alive in *. simpl in *. congruence. }
  unfold stop_begin. destruct (sdrProcess s) as [pid|] eqn:E.
  - destruct (killed pid s) eqn:Ek.
    + apply Hreset. intros q. apply not_true_iff_false. intros Ha.
      destruct (H1 q Ha) as [(Eq & _ & Hk)|(n & ? & _)]; [|congruence].
      injection Eq as <-. congruence.
    + split; simpl; [|by rewrite Ht|done]. intros q Ha.
      assert (Hq : alive q s = true).
      { unfold alive in *. simpl in Ha. destruct (decide (q = pid)) as [->|Hne].
        - rewrite list_lookup_alter_eq in Ha. by destruct (procs s !! pid).
        - by rewrite list_lookup_alter_ne in Ha. }
      destruct (H1 q Hq) as [(Eq & _ & Hk)|(n & ? & _)]; [|congruence].
      injection Eq as <-. right. exists next. rewrite Ht. split; [done|].
      unfold killed, alive in *. simpl in *. rewrite list_lookup_alter_eq in *.
      destruct (procs s !! pid); [|done]. simpl in *. rewrite Ha. by rewrite orb_true_r.
  - apply Hreset. intros q. apply not_true_iff_false. intros Ha.
    destruct (H1 q Ha) as [(Eq & _ & Hk)|(n & ? & _)]; congruence.
Qed.

Lemma startFFTStream_single now c cb s : single s -> tasks s = [] ->
  single (startFFTStream now c cb s).1.
Proof.
  intros Hs Ht. unfold startFFTStream. destruct (isStarting s); [done|].
  destruct (isRunning s && same_frequency c s) eqn:E.
  { destruct Hs as [H1 H2 H3]. split; done. }
  set (s1 := with_flags _ _ s).
  assert (Hs1 : single s1) by (destruct Hs as [H1 H2 H3]; split; done).
  assert (Ht1 : tasks s1 = []) by done.
  destruct (isRunning s1) eqn:Er.
  - pose proof (stop_begin_single (Some (c, cb)) s1 Hs1 Ht1) as Hb.
    destruct (stop_begin _ s1) as [[s2 o]|s2]; [done|].
    destruct Hb as (_ & ? & ? & ?). by apply start_wait_single.
  - apply start_wait_single; [by apply idle_none_alive|done|done].
Qed.

(** The end of a process, whatever reports it. *)
Lemma alive_gone b pid q s :
  alive q (update_proc pid (proc_gone b) s) = (if decide (q = pid) then false else alive q s).
Proof.
  unfold alive. simpl. destruct (decide (q = pid)) as [->|Hne].
  - rewrite list_lookup_alter_eq. by destruct (procs s !! pid).
  - by rewrite list_lookup_alter_ne.
Qed.

Lemma killed_gone b pid q s : killed q (update_proc pid (proc_gone b) s) = killed q s.
Proof.
  unfold killed. simpl. destruct (decide (q = pid)) as [->|Hne].
  - rewrite list_lookup_alter_eq. by destruct (procs s !! pid).
  - by rewrite list_lookup_alter_ne.
Qed.

Lemma open_exited pid q s : open q (update_proc pid (proc_gone false) s) = open q s.
Proof.
  unfold open. simpl. destruct (decide (q = pid)) as [->|Hne].
  - rewrite list_lookup_alter_eq. destruct (procs s !! pid); [|done]. simpl. by rewrite orb_false_r.
  - by rewrite list_lookup_alter_ne.
Qed.

(** A state with the processes and tasks of one in which a process has ended, whose stream
    runs as before or no longer. *)
Lemma gone_single b pid s s' : single s ->
  procs s' = procs (update_proc pid (proc_gone b) s) -> tasks s' = tasks s ->
  (isRunning s' = true -> b = false /\ isRunning s = true /\ sdrProcess s' = sdrProcess s) ->
  (isRunning s' = false -> isRunning s = true -> sdrProcess s = None \/ alive pid s = true \/ sdrProcess s = Some pid) ->
  (sdrProcess s' = None \/ sdrProcess s' = sdrProcess s) -> single s'.
Proof.
  intros [H1 H2 H3] Eprocs Et Er Hown Esdr.
  assert (Ea : forall q, alive q s' = if decide (q = pid) then false else alive q s).
  { intros q. rewrite <- (alive_gone b). unfold alive. by rewrite Eprocs. }
  assert (Ek : forall q, killed q s' = killed q s).
  { intros q. rewrite <- (killed_gone b pid q s). unfold killed. by rewrite Eprocs. }
  split.
  - intros q. rewrite Ea, Ek, Et. destruct (decide (q = pid)) as [|Hne]; [done|]. intros Hq.
    destruct (H1 q Hq) as [(Eq & Erun & Hk)|Hr]; [|by right].
    destruct (isRunning s') eqn:Er'; [left; destruct (Er eq_refl) as (_ & _ & ->); done|].
    destruct (Hown eq_refl Erun) as [?|[Hp|?]]; [congruence| |congruence].
    destruct (H1 pid Hp) as [(Ep & _ & _)|(n & Hn & _)]; [congruence|].
    rewrite Hn in H2. congruence.
  - rewrite Et. destruct (tasks s) as [|[p n|u c cb] [|? ?]]; try done.
    + by destruct Esdr as [->| ->].
    + destruct H2 as [Hn Hr]. split.
      * intros q. rewrite Ea. destruct (decide _); [done|apply Hn].
      * apply not_true_iff_false. intros (_ & ? & _)%Er. congruence.
  - intros Hr q Hq. destruct (Er Hr) as (-> & Hr0 & Es). rewrite Es in Hq.
    specialize (H3 Hr0 q Hq). rewrite <- (open_exited pid) in H3. unfold open in *. by rewrite Eprocs.
Qed.

Lemma step_single now e s : single s -> orderly e s -> single (step now e s).1.
Proof.
  intros Hs Ho. destruct e as [c cb| |f|k|pid|pid d|pid d|pid m|pid|pid code|o|l]; simpl in *.
  - by apply startFFTStream_single.
  - unfold stopFFTStream. pose proof (stop_begin_single None s Hs Ho) as Hb.
    destruct (stop_begin None s) as [[s2 o]|s2]; [done|apply Hb].
  - unfold updateFFTFrequency. destruct (currentConfig s); [|done].
    destruct (currentCallback s); [|done]. by apply startFFTStream_single.
  - destruct (tasks s !! k) as [t|] eqn:Ek; [|done]. destruct (ready now t); [|done].
    pose proof Hs as [H1 H2 H3].
    assert (Htk : tasks s = [t] /\ k = 0).
    { destruct (tasks s) as [|t0 [|? ?]]; [done| |by destruct t0].
      destruct k as [|k]; simpl in Ek; [by injection Ek as ->|done]. }
    destruct Htk as [Ht ->]. set (s1 := with_tasks _ s).
    assert (Ht1 : tasks s1 = []) by (subst s1; simpl; by rewrite Ht).
    assert (Hn : none_alive s).
    { rewrite Ht in H2. destruct t as [p n|u c cb]; [|apply H2].
      intros q. apply not_true_iff_false. intros Ha.
      destruct (H1 q Ha) as [(? & _ & _)|(n' & Hn' & _)]; [congruence|].
      rewrite Ht in Hn'. injection Hn' as <- <-. congruence. }
    destruct t as [p [[c cb]|]|u c cb]; cbn [resume fst].
    + by apply start_wait_single.
    + split; [|by simpl; rewrite Ht|done]. intros q Ha. specialize (Hn q).
      unfold alive in *. simpl in *. congruence.
    + apply start_spawn_single; [done| |done]. rewrite Ht in H2. apply H2.
  - done.
  - destruct (open pid s); [|done]. unfold on_data. destruct (procs s !! pid) as [p|] eqn:E; [|done].
    destruct (frames _ _ _ _ _ _ _ _) as [[b a] r]. cbn [fst].
    set (s' := mkStream _ _ _ _ _ _ _ _ _ _ _ _ _ _ _).
    assert (Hsame : forall q, alive q s' = alive q s /\ killed q s' = killed q s /\ open q s' = open q s).
    { intros q. unfold alive, killed, open. simpl. destruct (decide (q = pid)) as [->|Hne].
      - rewrite list_lookup_insert_eq by (by eapply lookup_lt_Some). by rewrite E.
      - by rewrite list_lookup_insert_ne. }
    destruct Hs as [H1 H2 H3]. split.
    + intros q. destruct (Hsame q) as (-> & -> & _). apply H1.
    + simpl. destruct (tasks s) as [|[|] [|]]; try done. split; [|apply H2]. intros q.
      destruct (Hsame q) as (-> & _). apply H2.
    + intros Hr q Hq. destruct (Hsame q) as (_ & _ & ->). by apply H3.
  - destruct (open pid s); [|done]. unfold on_stderr. destruct Hs as [H1 H2 H3].
    cbv zeta. repeat match goal with |- context [if ?b then _ else _] => destruct b end; by split.
  - destruct (alive pid s) eqn:Ea; [|done]. eapply (gone_single false pid s); try done; auto.
  - destruct (alive pid s) eqn:Ea; [|done]. eapply (gone_single false pid s); try done; auto.
  - destruct (open pid s) eqn:Ea; [|done].
    eapply (gone_single true pid s); [done| | | | |by left]; unfold on_close; repeat case_match;
      simpl; try done; intros _ Hr; destruct (Ho Hr); auto.
  - destruct Hs as [H1 H2 H3]. by split.
  - destruct Hs as [H1 H2 H3]. by split.
Qed.

Lemma run_single evs s : single s -> orderly_run evs s -> single (run evs s).1.
Proof.
  revert s. induction evs as [|[now e] evs IH]; intros s Hs Ho; simpl in *; [done|].
  destruct Ho as [He Hr]. pose proof (step_single now e s Hs He) as H1.
  destruct (step now e s) as [s1 o1]. specialize (IH s1 H1 Hr). by destruct (run evs s1).
Qed.

(** ** Frames *)

(** Times of emission: each one is due after the previous one. *)
Fixpoint spaced (config : FFTStreamConfig) (last : Z) (l : list FFTData) : Prop :=
  match l with
  | [] => True
  | d :: r => due config (fft_timestamp d) last = true /\ spaced config (fft_timestamp d) r
  end.

Lemma due_le config now last : (0 < fc_updateRate config)%Z ->
  due config now last = true -> (last <= now)%Z.
Proof.
  unfold due. intros Hr Hd. props. rewrite Zle_Qle.
  assert (0 <= inject_Z 1000 / inject_Z (fc_updateRate config))%Q.
  { apply Qle_shift_div_l; [change 0%Q with (inject_Z 0); rewrite <- Zlt_Qlt; lia|]. change (inject_Z 1000) with (1000 # 1). lra. }
  rewrite <- Zle_Qle. assert (H0 : (0 <= inject_Z (now - last))%Q) by lra.
  change 0%Q with (inject_Z 0) in H0. rewrite <- Zle_Qle in H0. lia.
Qed.

Lemma due_weaken config now last last' : (last <= last')%Z ->
  due config now last' = true -> due config now last = true.
Proof.
  unfold due. intros Hl Hd. props. eapply Qle_trans; [exact Hd|]. rewrite <- Zle_Qle. lia.
Qed.

Lemma spaced_weaken config last last' l : (last <= last')%Z ->
  spaced config last' l -> spaced config last l.
Proof.
  destruct l as [|d r]; simpl; [done|]. intros Hl [Hd Hr]. split; [|done]. by eapply due_weaken.
Qed.

Lemma process_frame_out config n filters now frame a :
  let a' := process_frame config n filters now frame a in
  pr_last a' = now /\
  (pr_out a' = pr_out a \/ exists d, pr_out a' = pr_out a ++ [d] /\ fft_timestamp d = now).
Proof.
  unfold process_frame. destruct (average_step _ _ _) as [b c]. destruct (c <? 2); simpl; [auto|].
  split; [done|]. right. eexists. split; [done|]. unfold make_data, applyNotchFilters.
  by destruct filters.
Qed.

Lemma frames_spec config processor filters now fuel :
  0 < fc_fftSize config -> (0 < fc_updateRate config)%Z -> forall i buffer a,
  length buffer < fuel ->
  let '(buffer', a', returned) := frames fuel i config processor filters now buffer a in
  (exists new, pr_out a' = pr_out a ++ new /\ spaced config (pr_last a) new) /\
  (if returned then processor = None else length buffer' < bytesPerFrame config).
Proof.
  intros Hn Hr. induction fuel as [|fuel IH]; intros i buffer a Hl; [lia|]. cbn [frames].
  destruct (Nat.leb_spec (bytesPerFrame config) (length buffer)) as [Hge|Hlt].
  2:{ split; [|done]. exists []. by rewrite app_nil_r. }
  assert (Hd : length (drop (bytesPerFrame config) buffer) < fuel).
  { rewrite length_drop. unfold bytesPerFrame in *. lia. }
  destruct (due config (now i) (pr_last a)) eqn:Ed.
  - destruct processor as [n|]; [|split; [exists []; by rewrite app_nil_r|done]].
    set (a1 := process_frame _ _ _ _ _ a).
    pose proof (process_frame_out config n filters (now i) (take (bytesPerFrame config) buffer) a)
      as [Hlast Hout]. fold a1 in Hlast, Hout.
    specialize (IH (S i) (drop (bytesPerFrame config) buffer) a1 Hd).
    destruct (frames fuel _ _ _ _ _ _ a1) as [[b' a'] r].
    destruct IH as [(new & E & Hs) Hb]. split; [|done]. rewrite Hlast in Hs.
    destruct Hout as [Ho|(d & Ho & Ht)]; rewrite Ho in E.
    + exists new. split; [done|]. eapply spaced_weaken; [|exact Hs]. by eapply due_le.
    + exists (d :: new). split; [by rewrite E, <- app_assoc|]. simpl. by rewrite Ht.
  - apply IH. exact Hd.
Qed.

(** ** A process nobody refers to *)

Definition orphan (pid : nat) (s : state) : Prop :=
  sdrProcess s <> Some pid /\ exists p, procs s !! pid = Some p /\ p_timer p = false.

Definition silent (pid : nat) (o : list output) : Prop := forall name, Signal pid name ∉ o.

Lemma silent_nil pid : silent pid [].
Proof. intros n Hn. inversion Hn. Qed.

Lemma orphan_update pid q f s : orphan pid s -> q <> pid -> orphan pid (update_proc q f s).
Proof.
  intros [Hs (p & Hp & Ht)] Hne. split; [done|]. exists p. simpl.
  by rewrite list_lookup_alter_ne.
Qed.

Lemma orphan_gone b pid q s : orphan pid s -> orphan pid (update_proc q (proc_gone b) s).
Proof.
  intros [Hs (p & Hp & Ht)]. split; [done|]. simpl. destruct (decide (q = pid)) as [->|Hne].
  - rewrite list_lookup_alter_eq, Hp. simpl. eauto.
  - rewrite list_lookup_alter_ne by done. eauto.
Qed.

Lemma orphan_same pid s s' : orphan pid s -> procs s' = procs s ->
  (sdrProcess s' = None \/ sdrProcess s' = sdrProcess s) -> orphan pid s'.
Proof.
  intros [Hs Hp] E [E'|E']; (split; [by rewrite E'|by rewrite E]).
Qed.

Lemma start_spawn_orphan pid now c cb s : orphan pid s ->
  orphan pid (start_spawn now c cb s).1 /\ silent pid (start_spawn now c cb s).2.
Proof.
  intros Ho. pose proof Ho as [Hs (p & Hp & Ht)]. pose proof (lookup_lt_Some _ _ _ Hp) as Hlt.
  unfold start_spawn. destruct (default _ _).
  - split.
    + split; simpl; [intros [= Heq]; lia|]. exists p. split; [|done]. by rewrite lookup_app_l.
    + intros n. simpl. rewrite !elem_of_cons, elem_of_nil. naive_solver.
  - split; [eapply orphan_same; [exact Ho|done|by right]|].
    intros n. cbn [snd start_failed]. by rewrite list_elem_of_singleton.
  - split; [eapply orphan_same; [exact Ho|done|by right]|].
    intros n. cbn [snd start_failed]. by rewrite list_elem_of_singleton.
Qed.

Lemma start_wait_orphan pid now c cb s : orphan pid s ->
  orphan pid (start_wait now c cb s).1 /\ silent pid (start_wait now c cb s).2.
Proof.
  intros Ho. unfold start_wait. destruct (_ && _); [|by apply start_spawn_orphan].
  split; [|apply silent_nil]. eapply orphan_same; [exact Ho|done|by right].
Qed.

Lemma stop_begin_orphan pid next s : orphan pid s ->
  match stop_begin next s with
  | inl (s', o) => orphan pid s' /\ silent pid o
  | inr s' => orphan pid s'
  end.
Proof.
  intros Ho. unfold stop_begin. destruct (sdrProcess s) as [q|] eqn:E.
  - destruct (killed q s); [eapply orphan_same; [exact Ho|done|by right]|].
    assert (Hne : q <> pid) by (intros ->; by destruct Ho).
    split.
    + destruct Ho as [_ (p & Hp & Ht)]. split; [done|]. exists p. simpl.
      by rewrite list_lookup_alter_ne.
    + intros n. rewrite list_elem_of_singleton. naive_solver.
  - eapply orphan_same; [exact Ho|done|by right].
Qed.

Lemma startFFTStream_orphan pid now c cb s : orphan pid s ->
  orphan pid (startFFTStream now c cb s).1 /\ silent pid (startFFTStream now c cb s).2.
Proof.
  intros Ho. unfold startFFTStream.
  assert (Ha : forall b, silent pid [Answer b]).
  { intros b n. rewrite list_elem_of_singleton. done. }
  destruct (isStarting s); [split; [done|apply Ha]|]. destruct (_ && _).
  { split; [|apply Ha]. eapply orphan_same; [exact Ho|done|by right]. }
  set (s1 := with_flags _ _ s).
  assert (Ho1 : orphan pid s1) by (eapply orphan_same; [exact Ho|done|by right]).
  destruct (isRunning s1); [|by apply start_wait_orphan].
  pose proof (stop_begin_orphan pid (Some (c, cb)) s1 Ho1) as Hb.
  destruct (stop_begin _ s1) as [[s2 o]|s2]; [done|by apply start_wait_orphan].
Qed.

Lemma step_orphan pid now e s : orphan pid s ->
  orphan pid (step now e s).1 /\ silent pid (step now e s).2.
Proof.
  intros Ho. pose proof Ho as [Hs (p0 & Hp0 & Ht0)].
  destruct e as [c cb| |f|k|q|q d|q d|q m|q|q code|o|l]; cbn [step].
  - by apply startFFTStream_orphan.
  - unfold stopFFTStream. pose proof (stop_begin_orphan pid None s Ho) as Hb.
    destruct (stop_begin None s) as [[s2 o]|s2]; [done|split; [done|apply silent_nil]].
  - unfold updateFFTFrequency.
    assert (Ha : silent pid [Answer false]) by (intros n; rewrite list_elem_of_singleton; done).
    destruct (currentConfig s); [|done]. destruct (currentCallback s); [|done].
    by apply startFFTStream_orphan.
  - destruct (tasks s !! k) as [t|]; [|split; [done|apply silent_nil]].
    destruct (ready now t); [|split; [done|apply silent_nil]].
    set (s1 := with_tasks _ s).
    assert (Ho1 : orphan pid s1) by (eapply orphan_same; [exact Ho|done|by right]).
    assert (Ho2 : orphan pid (stop_end now s1)) by (eapply orphan_same; [exact Ho1|done|by right]).
    destruct t as [p [[c cb]|]|u c cb]; cbn [resume];
      [by apply start_wait_orphan|split; [done|apply silent_nil]|by apply start_spawn_orphan].
  - split; [done|]. unfold kill_timer. cbn [snd]. destruct (procs s !! q) as [p|] eqn:E; [|apply silent_nil].
    destruct (p_timer p && _) eqn:Ek; [|apply silent_nil].
    intros n. rewrite list_elem_of_singleton. intros [= <- _]. rewrite Hp0 in E. injection E as <-.
    by rewrite Ht0 in Ek.
  - destruct (open q s); [|split; [done|apply silent_nil]]. unfold on_data.
    destruct (procs s !! q) as [p|] eqn:E; [|split; [done|apply silent_nil]].
    destruct (frames _ _ _ _ _ _ _ _) as [[b a] r]. cbn [fst snd]. split.
    + split; [done|]. simpl. destruct (decide (q = pid)) as [->|Hne].
      * rewrite list_lookup_insert_eq by (by eapply lookup_lt_Some). eexists. split; [done|].
        rewrite Hp0 in E. by injection E as <-.
      * rewrite list_lookup_insert_ne by done. eauto.
    + destruct (currentCallback s); [|apply silent_nil].
      intros name (d' & Hd & _)%list_elem_of_fmap. done.
  - destruct (open q s); [|split; [done|apply silent_nil]]. split; [|apply silent_nil].
    cbn [fst]. unfold on_stderr. cbv zeta.
    repeat match goal with |- context [if ?b then _ else _] => destruct b end;
      (eapply orphan_same; [exact Ho|done|by right]).
  - destruct (alive q s); [|split; [done|apply silent_nil]]. split; [|apply silent_nil].
    eapply orphan_same; [by apply (orphan_gone false pid q)|done|by right].
  - destruct (alive q s); [|split; [done|apply silent_nil]]. split; [|apply silent_nil].
    by apply orphan_gone.
  - destruct (open q s); [|split; [done|apply silent_nil]]. split; [|apply silent_nil].
    pose proof (orphan_gone true pid q s Ho) as Ho1.
    cbn [fst]. unfold on_close. eapply orphan_same; [exact Ho1| |by left].
    by repeat case_match.
  - split; [|apply silent_nil]. eapply orphan_same; [exact Ho|done|by right].
  - split; [|apply silent_nil]. eapply orphan_same; [exact Ho|done|by right].
Qed.

Lemma run_orphan pid evs s : orphan pid s -> silent pid (run evs s).2.
Proof.
  revert s. induction evs as [|[now e] evs IH]; intros s Ho; simpl; [apply silent_nil|].
  destruct (step_orphan pid now e s Ho) as [H1 H2].
  destruct (step now e s) as [s1 o1]. specialize (IH s1 H1).
  destruct (run evs s1) as [s2 o2]. simpl in *. intros n [?|?]%elem_of_app; [by eapply H2|by eapply IH].
Qed.

(** ** Properties *)

(** C8: Whatever the attempts to start a process come to, as long as starts and stops do not
    overlap, a stop waits for the end of its process and not for its limit of two seconds,
    and a process closes before a newer one runs: a receiver process that lives and was not
    told to stop is the current one of a stream that says it is running, so that there is
    at most one; and the current process of such a stream has not been told to stop and its
    end has not been reported, which is what a capture relies on before it takes the device. *)
Theorem orderly_single_process evs pid (Ho : orderly_run evs initial) :
  let s := (run evs initial).1 in
  (alive pid s = true /\ killed pid s = false ->
   sdrProcess s = Some pid /\ isFFTStreamRunning s = true) /\
  (sdrProcess s = Some pid /\ isFFTStreamRunning s = true ->
   open pid s = true /\ killed pid s = false).
Proof.
  cbv zeta. assert (Hi : single initial) by (split; [intros p H; by destruct p|done..]).
  pose proof (run_single evs initial Hi Ho) as [H1 H2 H3].
  set (s := (run evs initial).1) in *. unfold isFFTStreamRunning. split.
  - intros [Ha Hk]. destruct (H1 pid Ha) as [(Es & Er & _)|(n & _ & Hk')]; [|congruence].
    by rewrite Es, Er, Hk.
  - intros [Es Hr]. rewrite Es in Hr. props. destruct Hr as [Hr Hk]. auto.
Qed.

(** Overlapping starts leak a process: a start issued while another start
    waits for the device, after the old process closed, spawns a second receiver
    beside the first; the first keeps the device, the stream has forgotten it,
    and nothing that happens later ever sends it a signal. *)
Theorem start_race_orphans :
  let cfg f := mkFFTConfig f 200000 2048 40 30 in
  let evs := [(10000, EStart (cfg 137100000) 0%nat); (20000, EStart (cfg 137900000) 1%nat);
              (20100, EClose 0 None); (20100, EResume 0);
              (20200, EStart (cfg 144500000) 2%nat); (24100, EResume 0); (24200, EResume 0)]%Z in
  let s := (run evs initial).1 in
  alive 1 s = true /\ killed 1 s = false /\ alive 2 s = true /\ killed 2 s = false /\
  sdrProcess s = Some 2 /\
  (forall evs' name, Signal 1 name ∉ (run evs' s).2).
Proof.
  cbv zeta. split_and!; [reflexivity..|]. intros evs' name. apply run_orphan.
  split; [done|]. eexists. split; reflexivity.
Qed.

(** A stop that goes on after its two seconds, before its process has ended: when that
    process closes at last, the handler of its close forgets the process started since,
    which keeps the device and is never told to stop. *)
Theorem timed_out_stop_orphans :
  let cfg f := mkFFTConfig f 200000 2048 40 30 in
  let evs := [(10000, EStart (cfg 137100000) 0%nat); (20000, EStop); (22000, EResume 0);
              (30000, EStart (cfg 137900000) 0%nat); (30100, EClose 0 None)]%Z in
  let s := (run evs initial).1 in
  alive 1 s = true /\ killed 1 s = false /\ isFFTStreamRunning s = false /\
  (forall evs' name, Signal 1 name ∉ (run evs' s).2).
Proof.
  cbv zeta. split_and!; [reflexivity..|]. intros evs' name. apply run_orphan.
  split; [done|]. eexists. split; reflexivity.
Qed.

(** A size the FFT library refuses: the promise is rejected while the start is still noted
    as under way, and every later start is ignored, whatever its size. *)
Theorem refused_size_blocks l now c cb m s (Hs : isStarting s = false) (Hr : isRunning s = false)
  (Hl : attempts s = FftThrows m :: l) (Hn : lastStopTime s = 0%Z) :
  let r := startFFTStream now c cb s in
  r.2 = [Reject m] /\ forall now' c' cb', startFFTStream now' c' cb' r.1 = (r.1, [Answer false]).
Proof.
  assert (E : startFFTStream now c cb s = (with_attempts l (with_flags false true s), [Reject m])).
  { unfold startFFTStream, start_wait, start_spawn. rewrite Hs, Hr. cbn. by rewrite Hn, andb_false_r, Hl. }
  cbv zeta. by rewrite E.
Qed.

(** The escalation to SIGKILL never reaches a process that is alive: the
    flag its timer tests was set by the SIGTERM sent before it. *)
Theorem sigkill_never_needed evs pid o
  (Ho : o ∈ kill_timer pid (run evs initial).1) : alive pid (run evs initial).1 = false.
Proof.
  assert (Hi : consistent initial) by (split; [done|done|constructor]).
  pose proof (run_consistent evs initial Hi) as [_ _ H3].
  unfold kill_timer in Ho. unfold alive. destruct (procs _ !! pid) as [p|] eqn:E; [|done].
  rewrite Forall_lookup in H3. specialize (H3 pid p E). apply not_true_iff_false. intros Ha.
  destruct (p_timer p); [|inversion Ho]. rewrite H3 in Ho by done. inversion Ho.
Qed.

(** A running stream has a configuration, a callback and a processor, in
    every reachable state. *)
Theorem running_is_configured evs :
  let s := (run evs initial).1 in
  isRunning s = true ->
  is_Some (currentConfig s) /\ is_Some (currentCallback s) /\ is_Some (fftProcessor s).
Proof.
  cbv zeta. assert (Hi : consistent initial) by (split; [done|done|constructor]).
  apply (run_consistent evs initial Hi).
Qed.

(** C34: Data of a process are cut into frames to the end: what stays in the
    buffer is less than one frame (unless the stream is being stopped), and the
    spectra published are spaced by at least the update interval, counted from
    the last frame processed before. *)
Theorem on_data_spec pid p data now s
  (Hp : procs s !! pid = Some p) (Hsize : 0 < fc_fftSize (p_config p))
  (Hrate : (0 < fc_updateRate (p_config p))%Z) :
  exists out,
    (on_data pid data now s).2 =
      match currentCallback s with Some cb => map (Emit cb) out | None => [] end /\
    spaced (p_config p) (p_lastUpdateTime p) out /\
    (is_Some (fftProcessor s) -> exists p',
       procs (on_data pid data now s).1 !! pid = Some p' /\
       length (p_buffer p') < bytesPerFrame (p_config p)).
Proof.
  unfold on_data. rewrite Hp.
  pose proof (frames_spec (p_config p) (fftProcessor s) (notchFilters s) now
    (S (length (p_buffer p ++ data))) Hsize Hrate 0 (p_buffer p ++ data)
    (mkProgress (averagingBuffer s) (averagingCount s) (latestData s) (p_lastUpdateTime p) [])
    ltac:(lia)) as Hf.
  destruct (frames _ _ _ _ _ _ _ _) as [[b a] r]. destruct Hf as [(new & Ea & Hs) Hb].
  simpl in Ea, Hs. exists (pr_out a). cbn [snd fst procs]. split_and!; [done|by rewrite Ea|].
  intros [n Hn]. rewrite list_lookup_insert_eq by (by eapply lookup_lt_Some).
  eexists. split; [done|]. cbn [p_buffer]. destruct r; [congruence|].
  destruct (bytesPerFrame _ * 10 <? _) eqn:E; [|done]. props. lia.
Qed.

End Data.

Definition flat_cos (n i : nat) : Q := 1.
Definition no_log (x : Q) : Q := x.
Definition same (n : nat) (l : list Q) : list Q := l.

Definition small_config (f : Z) : FFTStreamConfig := mkFFTConfig f 200000 2 40 30.

Lemma orderly_single_process_witness :
  let evs := [(0, EAttempts [Spawns; SpawnThrows "spawn ENOMEM"]); (10000, EStart (small_config 137100000) 0%nat); (20000, EStop);
              (20100, EExit 0); (20100, EResume 0); (20101, EClose 0 None);
              (30000, EStart (small_config 144500000) 2%nat);
              (31000, EStart (small_config 144500000) 2%nat)]%Z in
  let s := (run flat_cos no_log same evs initial).1 in
  alive 1 s = true /\ killed 1 s = false /\ sdrProcess s = Some 1 /\ isFFTStreamRunning s = true.
Proof.
  intros evs s. split; [reflexivity|]. split; [reflexivity|].
  apply (orderly_single_process flat_cos no_log same evs 1).
  - repeat split. intros _. by left.
  - split; reflexivity.
Defined.

Example refused_size_example :
  startFFTStream 0 (small_config 137100000) 0 (with_attempts [FftThrows "FFT size must be a power of two"] initial) =
    (with_attempts [] (with_flags false true initial),
     [Reject "FFT size must be a power of two"]).
Proof. reflexivity. Qed.

Lemma sigkill_never_needed_witness :
  let evs := [(10000, EStart (small_config 137100000) 0%nat);
              (10001, EError 0 "spawn rtl_sdr ENOENT"); (20000, EStop)]%Z in
  kill_timer 0 (run flat_cos no_log same evs initial).1 = [Signal 0 "SIGKILL"] /\
  alive 0 (run flat_cos no_log same evs initial).1 = false.
Proof.
  intros evs. split; [reflexivity|].
  apply (sigkill_never_needed flat_cos no_log same evs 0 (Signal 0 "SIGKILL")). by left.
Defined.

Lemma running_is_configured_witness :
  let s := (run flat_cos no_log same [(10000%Z, EStart (small_config 137100000) 0%nat)] initial).1 in
  is_Some (currentConfig s) /\ is_Some (currentCallback s) /\ is_Some (fftProcessor s).
Proof.
  apply (running_is_configured flat_cos no_log same
    [(10000%Z, EStart (small_config 137100000) 0%nat)]). reflexivity.
Defined.

Lemma on_data_spec_witness :
  let s := (run flat_cos no_log same [(10000%Z, EStart (small_config 137100000) 0%nat)] initial).1 in
  exists out, (on_data flat_cos no_log same 0 [1; 2; 3; 4; 5; 6; 7; 8; 9]%Z
    (fun i => 20000 + 40 * Z.of_nat i)%Z s).2 = map (Emit 0) out.
Proof.
  intros s.
  destruct (on_data_spec flat_cos no_log same 0 (mkProcess (small_config 137100000) [] 10000 false false true false)
    [1; 2; 3; 4; 5; 6; 7; 8; 9]%Z (fun i => 20000 + 40 * Z.of_nat i)%Z s) as (out & H & _).
  - reflexivity.
  - simpl. lia.
  - simpl. lia.
  - by exists out.
Defined.

End FftStream.
