(* ===== verification/SdrInterfaces.v ===== *)
(** * The SDR interfaces (src/backend/capture/sdr-interfaces.ts)

    The contract between the users of the radio and its two implementations, the
    local one that runs rtl_* commands and the remote one that asks a relay.  The
    recorder and the signal checker are records of programs; the FFT stream is a
    state machine, with the laws that both implementations satisfy. *)

From Stdlib Require Import Ascii.
From S2P Require Import Prelude JsStd Types RelayApi StateManager Effects Shell Signal FftStream.
Import Signal FftStream.
Local Open Scope prog_scope.

(** The messages of the FFT socket, in both directions. *)
(* @src sdr-relay/types.ts:111-118 FFTWSMessage *)
Inductive FFTWSMessage :=
| Subscribe (config : FFTStreamConfig)
| Unsubscribe
| SetFrequency (frequency : Z)
| FftData (data : FFTData)
| Subscribed (config : FFTStreamConfig)
| Unsubscribed
| ErrorMsg (message : string).

(** Structurally the [SignalStrength] of signal.ts. *)
(* @src backend/capture/sdr-interfaces.ts:95-99 SignalMeasurement *)
Definition SignalMeasurement : Type := SignalStrength.

(* @src backend/capture/sdr-interfaces.ts:75-90 IRecorder *)
Record IRecorder := mkRecorder {
  recorder_recordPass : nat -> SatelliteInfo -> Z -> ReceiverConfig -> (Z -> Z -> prog unit) ->
    prog (res string)
}.

(* @src backend/capture/sdr-interfaces.ts:104-136 ISignalChecker *)
Record ISignalChecker := mkChecker {
  checker_strength : SatelliteInfo -> Q -> prog (res (option SignalMeasurement));
  checker_verify : SatelliteInfo -> Q -> Q -> nat -> prog (res bool);
  checker_at_frequency : Z -> Q -> Q -> prog (res bool)
}.

(** The operations of a stream with states [St] and visible outputs [Out]; a
    callback is a number, [Z] the time of the call. *)
(* @src backend/capture/sdr-interfaces.ts:21-51 IFFTStream *)
Class IFFTStream (St Out : Type) := {
  stream_start : Z -> FFTStreamConfig -> nat -> St -> St * list Out;
  stream_stop : St -> St * list Out;
  stream_isRunning : St -> bool;
  stream_getConfig : St -> option FFTStreamConfig;
  stream_updateFrequency : Z -> Z -> St -> St * list Out
}.

(** What a user may rely on. *)
Class StreamLaws (St Out : Type) `{IFFTStream St Out} := {
  stream_inv : St -> Prop;
  start_inv now c cb s : stream_inv s -> stream_inv (stream_start now c cb s).1;
  stop_inv s : stream_inv s -> stream_inv (stream_stop s).1;
  update_inv now f s : stream_inv s -> stream_inv (stream_updateFrequency now f s).1;
  running_has_config s : stream_inv s -> stream_isRunning s = true -> is_Some (stream_getConfig s);
  stop_not_running s : stream_isRunning (stream_stop s).1 = false
}.

(* @src backend/capture/sdr-interfaces.ts:152-171 ISDRProvider *)
Record ISDRProvider := mkProvider {
  provider_recorder : IRecorder;
  provider_signal : ISignalChecker;
  provider_getStatus : prog SDRStatus;
  provider_isAvailable : prog bool
}.

(** ** The device named by rtl_test: [/Using device \d+: (.+)/] *)

Fixpoint skip_digits (s : string) : nat * string :=
  match s with
  | String.String c r =>
      if is_digit c then let '(n, t) := skip_digits r in (S n, t) else (0, s)
  | _ => (0, s)
  end.

(** The longest prefix without a line terminator. *)
Fixpoint to_line_end (s : string) : string :=
  match s with
  | String.String c r =>
      if Ascii.eqb c nl || Ascii.eqb c "013"%char then "" else String.String c (to_line_end r)
  | _ => ""
  end.

Definition device_at (s : string) : option string :=
  if startsWith "Using device " s then
    let '(n, t) := skip_digits (slice_from 13 s) in
    if (0 <? n) && startsWith ": " t then
      match to_line_end (slice_from 2 t) with
      | ""%string => None
      | d => Some d
      end
    else None
  else None.

(** The leftmost match. *)
(* @src backend/capture/local-sdr-provider.ts:129-130 getStatus *)
Fixpoint device_of (s : string) : option string :=
  match device_at s with
  | Some d => Some d
  | None => match s with String.String _ r => device_of r | _ => None end
  end.

Example device_of_rtl_test :
  device_of ("Found 1 device(s):" ++ String.String nl "Using device 0: Generic RTL2832U OEM"
             ++ String.String nl "Exact sample rate")%string
  = Some "Generic RTL2832U OEM"%string.
Proof. vm_compute. reflexivity. Qed.

(** [connected] and [device] from the end of rtl_test. *)
(* @src backend/capture/local-sdr-provider.ts:126-130 getStatus *)
Definition rtl_test_status (r : CommandResult) : bool * option string :=
  (Z.eqb (exitCode r) 0 || includes "Found" (stderr r), device_of (stderr r)).
