(* ===== verification/SdrClient.v ===== *)
(** * The remote SDR (src/backend/sdr-client/index.ts)

    In server mode the radio is behind a relay: spectra arrive over a WebSocket
    that is reconnected with a growing delay, recordings and signal checks are
    HTTP requests.  The socket side is a transition system: a method or an event
    of a socket or of a timer is a step.  The handlers close over the stream, not
    over their socket, so an event of an old socket acts on the stream's current
    one. *)

From Stdlib Require Import Ascii.
From S2P Require Import Prelude JsStd JsDate Types RelayApi StateManager Effects Shell Signal.
From S2P Require Import Recorder FftStream SdrInterfaces.
Import Signal.
Local Open Scope prog_scope.

Module SdrClient.

(** [a || b] on strings. *)
Definition or_else (a : option string) (b : string) : string :=
  match a with Some ""%string | None => b | Some s => s end.

(** ** The FFT stream *)

Inductive ready_state := Connecting | Open | Closing | Closed.

#[export] Instance ready_state_eq_dec : EqDecision ready_state.
Proof. solve_decision. Defined.

(** A WebSocket with the configuration its handlers close over. *)
Record socket := mkSocket { so_state : ready_state; so_config : FftStream.FFTStreamConfig }.

(** [sockets] and [timers] are all those created so far; a timer is pending or
    not; a callback is a number. *)
(* @src backend/sdr-client/index.ts:38-45 RemoteFFTStream *)
Record stream := mkRemote {
  ws : option nat;
  callback : option nat;
  currentConfig : option FftStream.FFTStreamConfig;
  running : bool;
  reconnectAttempts : nat;
  reconnectTimeout : option nat;
  sockets : list socket;
  timers : list bool
}.

Definition initial : stream := mkRemote None None None false 0 None [] [].

Definition maxReconnectAttempts : nat := 10.

Inductive output :=
| Connect (url : string)
| SendMsg (sock : nat) (m : FFTWSMessage)
| CloseSocket (sock : nat)
| Deliver (cb : nat) (data : FFTData)
| Schedule (delay : Z)
| Answer (b : bool).

Definition socket_state (s : stream) (i : nat) : ready_state :=
  match sockets s !! i with Some k => so_state k | None => Closed end.

Definition set_socket (i : nat) (st : ready_state) (s : stream) : stream :=
  mkRemote (ws s) (callback s) (currentConfig s) (running s) (reconnectAttempts s)
    (reconnectTimeout s) (alter (fun k => mkSocket st (so_config k)) i (sockets s)) (timers s).

(** [ws.send(m)]: throws while connecting, is dropped once closing. *)
Definition send (i : nat) (m : FFTWSMessage) (s : stream) : option (list output) :=
  match socket_state s i with
  | Connecting => None
  | Open => Some [SendMsg i m]
  | _ => Some []
  end.

(** [Math.min(1000 * 2 ** n, 30000)]. *)
(* @src backend/sdr-client/index.ts:91-91 delay *)
Definition backoff (n : nat) : Z := Z.min (1000 * 2 ^ Z.of_nat n) 30000.

(** [relayUrl.replace(/^http/, 'ws')]. *)
(* @src backend/sdr-client/index.ts:58-58 wsUrl *)
Definition ws_url (relayUrl : string) : string :=
  ((if startsWith "http" relayUrl then "ws" ++ slice_from 4 relayUrl else relayUrl)
   ++ "/sdr/fft")%string.

Section Stream.
Context (relayUrl : string) (url_valid : string -> bool).

(** The constructor of [WebSocket] throws on a URL it does not accept. *)
(* @src backend/sdr-client/index.ts:55-112 connect *)
Definition connect (config : FftStream.FFTStreamConfig) (s : stream)
  : stream * list output * bool :=
  if url_valid (ws_url relayUrl) then
    (mkRemote (Some (length (sockets s))) (callback s) (currentConfig s) (running s)
       (reconnectAttempts s) (reconnectTimeout s) (sockets s ++ [mkSocket Connecting config])
       (timers s), [Connect (ws_url relayUrl)], true)
  else (s, [], false).

(* @src backend/sdr-client/index.ts:49-53 start *)
Definition start (config : FftStream.FFTStreamConfig) (cb : nat) (s : stream)
  : stream * list output :=
  let s := mkRemote (ws s) (Some cb) (Some config) (running s) (reconnectAttempts s)
             (reconnectTimeout s) (sockets s) (timers s) in
  let '(s, o, b) := connect config s in
  (s, o ++ [Answer b]).

(* @src backend/sdr-client/index.ts:61-69 onopen *)
Definition on_open (i : nat) (s : stream) : stream * list output :=
  match sockets s !! i with
  | None => (s, [])
  | Some k =>
      let s := set_socket i Open s in
      let s := mkRemote (ws s) (callback s) (currentConfig s) true 0 (reconnectTimeout s)
                 (sockets s) (timers s) in
      (s, match ws s with
          | Some j => default [] (send j (Subscribe (so_config k)) s)
          | None => []
          end)
  end.

(** [None] is a message that does not parse. *)
(* @src backend/sdr-client/index.ts:71-82 onmessage *)
Definition on_message (m : option FFTWSMessage) (s : stream) : list output :=
  match m with
  | Some (FftData d) => match callback s with Some cb => [Deliver cb d] | None => [] end
  | _ => []
  end.

(* @src backend/sdr-client/index.ts:84-101 onclose *)
Definition on_close (i : nat) (s : stream) : stream * list output :=
  let s := set_socket i Closed s in
  let s := mkRemote (ws s) (callback s) (currentConfig s) false (reconnectAttempts s)
             (reconnectTimeout s) (sockets s) (timers s) in
  match callback s with
  | Some _ =>
      if reconnectAttempts s <? maxReconnectAttempts then
        let n := S (reconnectAttempts s) in
        (mkRemote (ws s) (callback s) (currentConfig s) (running s) n
           (Some (length (timers s))) (sockets s) (timers s ++ [true]), [Schedule (backoff n)])
      else (s, [])
  | None => (s, [])
  end.

Definition set_timer (t : nat) (b : bool) (s : stream) : stream :=
  mkRemote (ws s) (callback s) (currentConfig s) (running s) (reconnectAttempts s)
    (reconnectTimeout s) (sockets s) (<[t := b]> (timers s)).

(* @src backend/sdr-client/index.ts:95-99 reconnectTimeout *)
Definition on_timer (t : nat) (s : stream) : stream * list output :=
  let s := set_timer t false s in
  match currentConfig s with
  | Some c => (connect c s).1
  | None => (s, [])
  end.

(** [ws.close()]. *)
Definition close_socket (i : nat) (s : stream) : stream :=
  match socket_state s i with
  | Connecting | Open => set_socket i Closing s
  | _ => s
  end.

(* @src backend/sdr-client/index.ts:114-136 stop *)
Definition stop (s : stream) : stream * list output :=
  let s := match reconnectTimeout s with
           | Some t =>
               let s := set_timer t false s in
               mkRemote (ws s) (callback s) (currentConfig s) (running s) (reconnectAttempts s)
                 None (sockets s) (timers s)
           | None => s
           end in
  let '(s, o) :=
    match ws s with
    | Some i => (close_socket i s, default [] (send i Unsubscribe s) ++ [CloseSocket i])
    | None => (s, [])
    end in
  (mkRemote None None None false (reconnectAttempts s) (reconnectTimeout s) (sockets s)
     (timers s), o).

(* @src backend/sdr-client/index.ts:138-140 isRunning *)
Definition isRunning (s : stream) : bool :=
  running s && match ws s with Some i => bool_decide (socket_state s i = Open) | None => false end.

(* @src backend/sdr-client/index.ts:142-144 getConfig *)
Definition getConfig (s : stream) : option FftStream.FFTStreamConfig := currentConfig s.

(* @src backend/sdr-client/index.ts:146-162 updateFrequency *)
Definition updateFrequency (frequency : Z) (s : stream) : stream * list output :=
  match ws s with
  | Some i =>
      if decide (socket_state s i = Open) then
        (mkRemote (ws s) (callback s)
           ((fun c => FftStream.mkFFTConfig frequency (FftStream.fc_bandwidth c)
                        (FftStream.fc_fftSize c) (FftStream.fc_gain c)
                        (FftStream.fc_updateRate c)) <$> currentConfig s)
           (running s) (reconnectAttempts s) (reconnectTimeout s) (sockets s) (timers s),
         [SendMsg i (SetFrequency frequency); Answer true])
      else (s, [Answer false])
  | None => (s, [Answer false])
  end.

(** ** The transition system

    A socket opens once, delivers messages while it is open and closes once. *)
Inductive event :=
| EStart (config : FftStream.FFTStreamConfig) (cb : nat)
| EStop
| EUpdate (frequency : Z)
| EOpen (i : nat)
| EMessage (i : nat) (m : option FFTWSMessage)
| EClose (i : nat)
| ETimer (t : nat).

Definition step (e : event) (s : stream) : stream * list output :=
  match e with
  | EStart c cb => start c cb s
  | EStop => stop s
  | EUpdate f => updateFrequency f s
  | EOpen i => if decide (socket_state s i = Connecting) then on_open i s else (s, [])
  | EMessage i m =>
      if decide (socket_state s i = Open) then (s, on_message m s) else (s, [])
  | EClose i => if decide (socket_state s i = Closed) then (s, []) else on_close i s
  | ETimer t => match timers s !! t with Some true => on_timer t s | _ => (s, []) end
  end.

Fixpoint run (evs : list event) (s : stream) : stream * list output :=
  match evs with
  | [] => (s, [])
  | e :: r => let '(s1, o1) := step e s in let '(s2, o2) := run r s1 in (s2, o1 ++ o2)
  end.
End Stream.

(** ** The recorder *)

Section Http.
Context (relayUrl : string).

Definition fetch (method path : string) (body : Request) : prog (res HttpReply) :=
  r <~ Http method (relayUrl ++ path)%string body;;
  Ret (of_sum r).

Definition json (r : HttpReply) : prog (res Reply) := Ret (of_sum (reply_json r)).

(** One poll of the session's status; [true] ends the loop. *)
(* @src backend/sdr-client/index.ts:217-227 recordPass *)
Definition poll (sessionId : string) : prog (res bool) :=
  statusResponse <-! fetch "GET" ("/sdr/capture/" ++ sessionId)%string NoBody;;
  if reply_ok statusResponse then
    session <-! json statusResponse;;
    Ret (match body_session_status session with
         | Some session_complete => Ok true
         | Some session_error => Throw (or_else (body_error session) "Capture failed")
         | _ => Ok false
         end)
  else Ret (Ok false).

(* @src backend/sdr-client/index.ts:213-230 recordPass *)
Fixpoint poll_loop (fuel : nat) (sessionId : string) (startTime endTime durationSeconds : Z)
  (onProgress : Z -> Z -> prog unit) : prog (res unit) :=
  match fuel with
  | O => Ret Pending
  | S fuel =>
      now <~ Now;;
      if (now <? endTime)%Z then
        now2 <~ Now;;
        onProgress ((now2 - startTime) / 1000)%Z durationSeconds;;
        done <-! poll sessionId;;
        if (done : bool) then Ret (Ok tt)
        else Sleep 1000;;; poll_loop fuel sessionId startTime endTime durationSeconds onProgress
      else Ret (Ok tt)
  end.

(** The request, and the identifier of the session it starts. *)
(* @src backend/sdr-client/index.ts:180-205 recordPass *)
Definition start_capture (satellite : SatelliteInfo) (durationSeconds : Z)
  (config : ReceiverConfig) : prog (res string) :=
  let startRequest :=
    mkStartRequest (si_frequency satellite) durationSeconds (cfg_sampleRate config)
      (cfg_gain config) (Some (cfg_ppmCorrection config)) (Some (si_name satellite)) in
  startResponse <-! fetch "POST" "/sdr/capture/start" (QStart startRequest);;
  body <-! json startResponse;;
  Ret (if negb (reply_ok startResponse)
       then Throw (or_else (body_error body) "Failed to start capture")
       else match body_sessionId body with
            | None | Some ""%string => Throw "No session ID returned from capture start"
            | Some sessionId => Ok sessionId
            end).

(* @src backend/sdr-client/index.ts:238-253 recordPass *)
Definition download (localRecordingsDir sessionId : string) (satellite : SatelliteInfo)
  : prog (res string) :=
  audioResponse <-! fetch "GET" ("/sdr/capture/" ++ sessionId ++ "/audio")%string NoBody;;
  if negb (reply_ok audioResponse) then Ret (Throw "Failed to download recording"%string)
  else
    d <~ EnsureDir localRecordingsDir;;
    _ <-! Ret (of_sum d);;
    now <~ Now;;
    let timestamp := dash_punct (toISOString now) in
    let filename := (replace_ws "_" (si_name satellite) ++ "_" ++ timestamp ++ ".wav")%string in
    let localPath := path_join localRecordingsDir filename in
    w <~ WriteBody localPath (reply_body audioResponse);;
    _ <-! Ret (of_sum w);;
    Ret (Ok localPath).

(* @src backend/sdr-client/index.ts:174-254 recordPass *)
Definition recordPass (localRecordingsDir : string) (fuel : nat) (satellite : SatelliteInfo)
  (durationSeconds : Z) (config : ReceiverConfig) (onProgress : Z -> Z -> prog unit)
  : prog (res string) :=
  sessionId <-! start_capture satellite durationSeconds config;;
  startTime <~ Now;;
  let endTime := (startTime + durationSeconds * 1000)%Z in
  _ <-! poll_loop fuel sessionId startTime endTime durationSeconds onProgress;;
  Sleep 2000;;;
  download localRecordingsDir sessionId satellite.

(** ** The signal checker *)

(** A success whose body is no measurement, which the relay never sends, counts
    as none. *)
(* @src backend/sdr-client/index.ts:263-293 checkSignalStrength *)
Definition checkSignalStrength (satellite : SatelliteInfo) (gain : Q)
  : prog (res (option SignalMeasurement)) :=
  try_catch
    (response <-! fetch "POST" "/sdr/signal/check"
       (QCheck (mkCheckRequest (si_frequency satellite) gain));;
     if negb (reply_ok response) then Ret (Ok None)
     else
       data <-! json response;;
       Ret (Ok (match data with
                | RCheck d => Some (mkStrength (ck_frequency d) (ck_power d) (ck_timestamp d))
                | _ => None
                end)))
    (fun _ => Ret (Ok None)).

Definition strong (minStrength : Q) (m : option SignalMeasurement) : bool :=
  match m with Some m => minStrength <?q power m | None => false end.

(* @src backend/sdr-client/index.ts:301-312 verifySignal *)
Fixpoint verify_loop (check : prog (res (option SignalMeasurement))) (minStrength : Q)
  (remaining successCount : nat) : prog (res nat) :=
  match remaining with
  | 0 => Ret (Ok successCount)
  | S r =>
      measurement <-! check;;
      let successCount :=
        if strong minStrength measurement then S successCount else successCount in
      match r with
      | 0 => verify_loop check minStrength r successCount
      | _ => Sleep 2000;;; verify_loop check minStrength r successCount
      end
  end.

(* @src backend/sdr-client/index.ts:295-319 verifySignal *)
Definition verifySignal (satellite : SatelliteInfo) (gain minStrength : Q) (attempts : nat)
  : prog (res bool) :=
  successCount <-! verify_loop (checkSignalStrength satellite gain) minStrength attempts 0;;
  Ret (Ok ((attempts + 1) / 2 <=? successCount)).

(* @src backend/sdr-client/index.ts:321-347 verifySignalAtFrequency *)
Definition verifySignalAtFrequency (frequency : Z) (gain minStrength : Q) : prog (res bool) :=
  try_catch
    (response <-! fetch "POST" "/sdr/signal/check" (QCheck (mkCheckRequest frequency gain));;
     if negb (reply_ok response) then Ret (Ok false)
     else
       data <-! json response;;
       Ret (Ok (match data with
                | RCheck d => ck_detected d && (minStrength <?q ck_power d)
                | _ => false
                end)))
    (fun _ => Ret (Ok false)).

(** ** The provider *)

(* @src backend/sdr-client/index.ts:370-390 getStatus *)
Definition getStatus : prog SDRStatus :=
  r <- (response <-! fetch "GET" "/sdr/status" NoBody;;
        if negb (reply_ok response)
        then Ret (Ok (mkSDRStatus false None sdr_idle (Some "Failed to connect to SDR relay"%string)))
        else
          status <-! json response;;
          Ret (match status with
               | RStatus s => Ok s
               | _ => Ok (mkSDRStatus false None sdr_idle None)
               end));;
  Ret (match r with
       | Ok s => s
       | Throw m => mkSDRStatus false None sdr_idle (Some m)
       | Pending => mkSDRStatus false None sdr_idle None
       end).

(* @src backend/sdr-client/index.ts:392-399 isAvailable *)
Definition isAvailable : prog bool :=
  r <~ Http "GET" (relayUrl ++ "/health")%string NoBody;;
  Ret (match r with inr response => reply_ok response | inl _ => false end).

(* @src backend/sdr-client/index.ts:353-364 RemoteSDRProvider *)
Definition RemoteSDRProvider (recordingsDir : string) : ISDRProvider :=
  mkProvider (mkRecorder (recordPass recordingsDir))
    (mkChecker checkSignalStrength verifySignal verifySignalAtFrequency) getStatus isAvailable.
End Http.

(** ** Facts about the stream *)

Section StreamFacts.
Context (relayUrl : string) (url_valid : string -> bool).
Local Notation step := (step relayUrl url_valid).
Local Notation run := (run relayUrl url_valid).

(** A current socket has a configuration. *)
Definition configured (s : stream) : Prop := is_Some (ws s) -> is_Some (currentConfig s).

Lemma start_configured c cb s : configured (start relayUrl url_valid c cb s).1.
Proof.
  unfold start, connect, configured. destruct (url_valid _); simpl; eauto.
Qed.

Lemma stop_clears s :
  ws (stop s).1 = None /\ callback (stop s).1 = None /\ currentConfig (stop s).1 = None.
Proof.
  unfold stop. destruct (reconnectTimeout s); simpl; destruct (ws s); done.
Qed.

Lemma update_configured f s : configured s -> configured (updateFrequency f s).1.
Proof.
  intros Hs. unfold updateFrequency. destruct (ws s) as [i|] eqn:E; [|done].
  destruct (decide _); [|done]. unfold configured in *. simpl. intros _.
  apply fmap_is_Some, Hs. rewrite E. eauto.
Qed.

#[export] Instance remote_stream : IFFTStream stream output := {
  stream_start _ := start relayUrl url_valid;
  stream_stop := stop;
  stream_isRunning := isRunning;
  stream_getConfig := getConfig;
  stream_updateFrequency _ := updateFrequency
}.

#[export] Instance remote_stream_laws : StreamLaws stream output.
Proof.
  refine {| stream_inv := configured |}.
  - intros. apply start_configured.
  - intros s _ [i Hi]. simpl in Hi. by rewrite (proj1 (stop_clears s)) in Hi.
  - intros. by apply update_configured.
  - intros s Hs. simpl. unfold isRunning. destruct (running s); [|done].
    destruct (ws s) eqn:E; [|done]. intros _. apply Hs. rewrite E. eauto.
  - intros s. simpl. unfold isRunning. rewrite (proj1 (stop_clears s)). apply andb_false_r.
Defined.

(** What a stopped stream may show: the answer to a refused update. *)
Definition silent (o : output) : Prop := o = Answer false.

Definition stopped (s : stream) : Prop :=
  ws s = None /\ callback s = None /\ currentConfig s = None.

Lemma step_stopped e s : stopped s -> (forall c cb, e <> EStart c cb) ->
  stopped (step e s).1 /\ Forall silent (step e s).2.
Proof.
  intros (Hw & Hc & Hg) He. destruct e as [c cb| |f|i|i m|i|t]; simpl.
  - by destruct (He c cb).
  - split; [apply stop_clears|]. unfold stop. destruct (reconnectTimeout s); simpl; by rewrite Hw.
  - unfold updateFrequency. rewrite Hw. split; [done|]. by repeat constructor.
  - destruct (decide _); [|by split]. unfold on_open. destruct (sockets s !! i); [|by split].
    simpl. rewrite Hw. by split.
  - destruct (decide _); [|by split]. split; [done|]. unfold on_message. rewrite Hc.
    by destruct m as [[]|].
  - destruct (decide _); [by split|]. unfold on_close. simpl. rewrite Hc. by split.
  - destruct (timers s !! t) as [[]|]; try (by split). unfold on_timer. simpl. rewrite Hg.
    by split.
Qed.

Lemma run_stopped evs : forall s, stopped s -> (forall c cb, EStart c cb ∉ evs) ->
  stopped (run evs s).1 /\ Forall silent (run evs s).2.
Proof.
  induction evs as [|e evs IH]; intros s Hs He; simpl; [split; [done|constructor]|].
  destruct (step_stopped e s Hs) as [Hs1 Ho1].
  { intros c cb ->. apply (He c cb). left. }
  destruct (step e s) as [s1 o1]. simpl in *.
  destruct (IH s1 Hs1) as [Hs2 Ho2]. { intros c cb Hin. apply (He c cb). by right. }
  destruct (run evs s1) as [s2 o2]. simpl in *. split; [done|]. by apply Forall_app.
Qed.

(** The delays of the timers a run schedules. *)
Definition delays (os : list output) : list Z :=
  omap (fun o => match o with Schedule d => Some d | _ => None end) os.

Lemma delays_app a b : delays (a ++ b) = delays a ++ delays b.
Proof. apply omap_app. Qed.

Lemma connect_attempts c s :
  reconnectAttempts (connect relayUrl url_valid c s).1.1 = reconnectAttempts s /\
  delays (connect relayUrl url_valid c s).1.2 = [].
Proof. unfold connect. by destruct (url_valid _). Qed.

(** A step that opens no socket either schedules the next reconnection or
    schedules nothing and leaves the count alone. *)
Lemma step_attempts e s : (forall i, e <> EOpen i) ->
  (reconnectAttempts (step e s).1 = reconnectAttempts s /\ delays (step e s).2 = []) \/
  (reconnectAttempts s < maxReconnectAttempts /\
   reconnectAttempts (step e s).1 = S (reconnectAttempts s) /\
   delays (step e s).2 = [backoff (S (reconnectAttempts s))]).
Proof.
  intros He. destruct e as [c cb| |f|i|i m|i|t]; simpl.
  - left. unfold start. set (s1 := mkRemote _ _ _ _ _ _ _ _).
    destruct (connect_attempts c s1) as [H1 H2].
    destruct (connect relayUrl url_valid c s1) as [[s2 o] b]. simpl in *.
    by rewrite delays_app, H2.
  - left. unfold stop. destruct (reconnectTimeout s); simpl;
      (destruct (ws s); simpl; [|done]; unfold close_socket, send, set_timer;
       repeat case_match; simplify_eq/=; done).
  - left. unfold updateFrequency. destruct (ws s); [|done]. by destruct (decide _).
  - by destruct (He i).
  - left. destruct (decide _); [|done]. split; [done|]. unfold on_message.
    destruct m as [[]|]; try done. by destruct (callback s).
  - destruct (decide _); [by left|]. unfold on_close. simpl. destruct (callback s); [|by left].
    destruct (reconnectAttempts s <? maxReconnectAttempts) eqn:E; [right|by left].
    apply Nat.ltb_lt in E. done.
  - left. destruct (timers s !! t) as [[]|]; try done. unfold on_timer. simpl.
    destruct (currentConfig s) as [c|]; [|done].
    destruct (connect_attempts c (set_timer t false s)) as [H1 H2].
    by destruct (connect relayUrl url_valid c _) as [[s2 o] b].
Qed.

(** A run seen through its timers. *)
Definition timed_step (e : event) (s : stream) : stream * list Z :=
  ((step e s).1, delays (step e s).2).

Definition opens (e : event) : bool := match e with EOpen _ => true | _ => false end.

Lemma timed_run evs : forall s,
  retry_run timed_step evs s = ((run evs s).1, delays (run evs s).2).
Proof.
  induction evs as [|e evs IH]; intros s; simpl; [done|]. unfold timed_step at 1.
  destruct (step e s) as [s1 o1]. simpl. rewrite IH. destruct (run evs s1) as [s2 o2]. simpl.
  by rewrite delays_app.
Qed.

Lemma run_attempts evs s : Forall (fun e => opens e = false) evs ->
  reconnectAttempts s <= maxReconnectAttempts ->
  exists k, reconnectAttempts s + k <= maxReconnectAttempts /\
    reconnectAttempts (run evs s).1 = reconnectAttempts s + k /\
    delays (run evs s).2 = map backoff (seq (S (reconnectAttempts s)) k).
Proof.
  intros He Hs.
  pose proof (bounded_retries timed_step reconnectAttempts maxReconnectAttempts backoff opens
    (fun e s He => step_attempts e s (fun i Hi => ltac:(subst; done))) evs s He Hs) as H.
  by rewrite timed_run in H.
Qed.
End StreamFacts.

(** ** Facts about the recorder *)

Definition settled {A} (r : res A) : Prop := r <> Pending.

Lemma settled_bindR {A B} (p : prog (res A)) (f : A -> prog (res B)) :
  holds (fun _ => True) settled p -> (forall a, holds (fun _ => True) settled (f a)) ->
  holds (fun _ => True) settled (bindR p f).
Proof.
  intros Hp Hf. unfold bindR. eapply holds_bind; [exact Hp|].
  intros [a|m|] Hr; simpl; [apply Hf|done|by destruct Hr].
Qed.

Lemma settled_of_sum {A} (r : string + A) : holds (fun _ => True) settled (Ret (of_sum r)).
Proof. by destruct r. Qed.

Lemma settled_fetch url m p b : holds (fun _ => True) settled (fetch url m p b).
Proof. split; [done|]. apply settled_of_sum. Qed.

(** Splits a program of requests into parts that settle. *)
Ltac settle_step :=
  repeat first [done | apply settled_of_sum | apply settled_fetch
               | apply settled_bindR; [|intros ?] | holds_step | case_match].

Lemma start_capture_settles url sat d cfg :
  holds (fun _ => True) settled (start_capture url sat d cfg).
Proof. unfold start_capture, json. settle_step. Qed.

Lemma poll_settles url sid : holds (fun _ => True) settled (poll url sid).
Proof. unfold poll, json. settle_step. Qed.

Lemma download_settles url dir sid sat : holds (fun _ => True) settled (download url dir sid sat).
Proof. unfold download. settle_step. Qed.

Section RecorderFacts.
Context {W : Type} (h : forall c, W -> resp c * W) (time : W -> Z) `{!Clock h time}.

Lemma poll_loop_S url fuel sid t0 tend dur onProgress :
  poll_loop url (S fuel) sid t0 tend dur onProgress =
  (now <~ Now;;
   if (now <? tend)%Z then
     now2 <~ Now;;
     onProgress ((now2 - t0) / 1000)%Z dur;;
     done <-! poll url sid;;
     if (done : bool) then Ret (Ok tt)
     else Sleep 1000;;; poll_loop url fuel sid t0 tend dur onProgress
   else Ret (Ok tt)).
Proof. done. Qed.

Lemma poll_loop_settles url sid onProgress dur t0 tend : forall fuel w,
  (tend <= time w + 1000 * Z.of_nat fuel)%Z ->
  result h (poll_loop url (S fuel) sid t0 tend dur onProgress) w <> Pending.
Proof.
  induction fuel as [|fuel IH]; intros w Hf; rewrite poll_loop_S; props; rewrite clock_now;
    (destruct (time w <? tend)%Z eqn:E; props; [|done]).
  - apply Z.ltb_lt in E. lia.
  - unfold bindR at 1. props.
    set (w1 := (h Now w).2). set (w2 := (h Now w1).2). set (w3 := final h (onProgress _ _) w2).
    pose proof (holds_result h _ _ (poll url sid) w3 (poll_settles url sid)) as Hp.
    assert (Ht : (time w3 <= time (final h (poll url sid) w3))%Z) by (apply clock_final; done).
    destruct (result h (poll url sid) w3) as [[]|m|]; props; [done| |done|done].
    apply (IH (h (Sleep 1000) _).2).
    pose proof (clock_mono Now w). pose proof (clock_mono Now w1).
    assert (time w2 <= time w3)%Z by (apply clock_final; done).
    pose proof (clock_sleep 1000 (final h (poll url sid) w3)). subst w1 w2. lia.
Qed.

Lemma remote_recordPass_settles url dir sat dur cfg onProgress w :
  result h (recordPass url dir (Recorder.record_fuel dur) sat dur cfg onProgress) w <> Pending.
Proof.
  unfold recordPass, bindR at 1. props.
  pose proof (holds_result h _ _ _ w (start_capture_settles url sat dur cfg)) as Hs.
  destruct (result h (start_capture url sat dur cfg) w) as [sid|m|] eqn:E; props; [|done|done].
  unfold bindR at 1. props. set (w1 := final h (start_capture url sat dur cfg) w).
  rewrite clock_now. unfold Recorder.record_fuel.
  pose proof (poll_loop_settles url sid onProgress dur (time w1) (time w1 + dur * 1000)%Z
                (Z.to_nat dur) (h Now w1).2) as Hl.
  destruct (result h (poll_loop _ _ _ _ _ _ _) _) as [[]|m|]; props; [|done|].
  - apply (holds_result h _ _ _ _ (download_settles url dir sid sat)).
  - exfalso. apply Hl; [|done]. pose proof (clock_mono Now w1). lia.
Qed.
End RecorderFacts.

Lemma app_tail {A} (a b l : list A) x y : a ++ x :: b ++ y :: l = (a ++ x :: b ++ [y]) ++ l.
Proof. rewrite <- !app_assoc. simpl. by rewrite <- app_assoc. Qed.

Section DownloadFacts.
Context {W : Type} (h : forall c, W -> resp c * W).

Lemma start_capture_ok url sat d cfg w sid :
  result h (start_capture url sat d cfg) w = Ok sid ->
  exists req reply, trace h (start_capture url sat d cfg) w = [Http "POST" (url ++ "/sdr/capture/start") (QStart req)] /\
    (h (Http "POST" (url ++ "/sdr/capture/start")%string (QStart req)) w).1 = inr reply /\
    reply_ok reply = true /\ body_sessionId (reply_body reply) = Some sid.
Proof.
  unfold start_capture, fetch, json, bindR. props.
  destruct (h (Http _ _ _) w) as [[m|reply] w1] eqn:E; cbn [fst snd of_sum]; props; [done|].
  unfold reply_json. destruct (reply_body reply) eqn:Eb; cbn [of_sum]; props; try done;
    (destruct (reply_ok reply) eqn:Eo; cbn [negb body_sessionId]; [|done]; try done).
  all: (destruct (sc_sessionId _) eqn:Es || destruct (cs_sessionId _) eqn:Es); intros [= <-].
  all: eexists _, reply; rewrite E, Eb; cbn [fst body_sessionId]; by rewrite Es.
Qed.

(** The body of the reply to the audio request is what is saved. *)
Lemma download_ok url dir sid sat w path :
  result h (download url dir sid sat) w = Ok path ->
  let audio := Http "GET" (url ++ "/sdr/capture/" ++ sid ++ "/audio")%string NoBody in
  exists reply, (h audio w).1 = inr reply /\ reply_ok reply = true /\
    trace h (download url dir sid sat) w =
      [audio; EnsureDir dir; Now; WriteBody path (reply_body reply)].
Proof.
  unfold download, fetch, bindR. props.
  destruct (h (Http _ _ _) w) as [[m|reply] w1] eqn:E; cbn [fst snd of_sum]; props; [done|].
  destruct (reply_ok reply) eqn:Eo; cbn [negb]; props; [|done].
  destruct (h (EnsureDir dir) w1) as [[m|[]] w2]; cbn [fst snd of_sum]; props; [done|].
  destruct (h Now w2) as [now w3]. cbn [fst snd].
  destruct (h (WriteBody _ _) w3) as [[m|[]] w4]; cbn [fst snd of_sum]; props; [done|].
  intros [= <-]. exists reply. done.
Qed.
End DownloadFacts.

(** ** The vote of the remote checker *)

Definition map_res {A B} (f : A -> B) (r : res A) : res B :=
  match r with Ok a => Ok (f a) | Throw m => Throw m | Pending => Pending end.

(** One attempt, as the local checker has it. *)
Definition check_once (check : prog (res (option SignalMeasurement))) (minStrength : Q)
  : prog (res bool) :=
  m <-! check;; Ret (Ok (strong minStrength m)).

Lemma exec_verify_loop {W} (h : forall c, W -> resp c * W) check minStrength n : forall results w,
  exec h (verify_loop check minStrength n (length (js_filter id results))) w =
  (map_res (fun rs => length (js_filter id rs))
     (result h (attempt_loop (check_once check minStrength) n results) w),
   final h (attempt_loop (check_once check minStrength) n results) w,
   trace h (attempt_loop (check_once check minStrength) n results) w).
Proof.
  induction n as [|n IH]; intros results w; [done|]. cbn [verify_loop attempt_loop].
  unfold check_once, bindR in *. rewrite exec_eq. props.
  destruct (result h check w) as [m|m|]; props; rewrite ?app_nil_r; [|done|done].
  set (w1 := final h check w).
  assert (Hc : (if strong minStrength m then S (length (js_filter id results))
                else length (js_filter id results)) =
               length (js_filter id (results ++ [strong minStrength m]))).
  { rewrite count_filter_snoc. destruct (strong minStrength m); lia. }
  rewrite Hc. destruct n as [|n].
  - done.
  - props. specialize (IH (results ++ [strong minStrength m]) (h (Sleep 2000) w1).2).
    apply (f_equal (fun x => (x.1.1, x.1.2, trace h check w ++ Sleep 2000 :: x.2))) in IH.
    exact IH.
Qed.

(** ** A relay for the witnesses *)

(** Starts session [capture-7], reports it complete, and has its audio. *)
Definition sample_reply (url : string) (b : Request) : HttpReply :=
  match b with
  | QStart _ => mkHttpReply 200 (RStart (mkStartResponse "capture-7" true None))
  | QCheck r => mkHttpReply 200 (RCheck (mkCheckResponse (cr_frequency r) (-20) true 0%Z))
  | _ =>
      if endsWith "/audio" url then mkHttpReply 200 (RAudio "RIFF")
      else mkHttpReply 200 (RSession (mkCaptureSession "capture-7" 137900000 0%Z 3
                                        session_complete 100 None None))
  end.

Definition remote_handle (c : call) (w : world) : resp c * world :=
  match c as c return resp c * world with
  | Http m url b => (inr (sample_reply url b), w)
  | c => handle c w
  end.

#[export] Instance remote_handle_clock : Clock remote_handle w_time.
Proof.
  split.
  - done.
  - intros c w. destruct c; try apply (clock_mono (h := handle)). simpl. lia.
  - intros ms w. apply (clock_sleep (h := handle)).
Qed.

(** ** Properties *)

(** C25: A remote recording always ends, and a path it yields is a file with exactly
    the body of the successful reply to the audio request of the session that the
    relay opened: the last calls are that request and the write. *)
Theorem remote_recordPass_spec {W} (h : forall c, W -> resp c * W) (time : W -> Z)
  (Hc : Clock h time) url dir sat dur cfg onProgress w :
  let run := recordPass url dir (Recorder.record_fuel dur) sat dur cfg onProgress in
  result h run w <> Pending /\
  (forall path, result h run w = Ok path ->
     exists req r0 sid before w1 reply,
       (h (Http "POST" (url ++ "/sdr/capture/start")%string (QStart req)) w).1 = inr r0 /\
       body_sessionId (reply_body r0) = Some sid /\
       (h (Http "GET" (url ++ "/sdr/capture/" ++ sid ++ "/audio")%string NoBody) w1).1 = inr reply /\
       reply_ok reply = true /\
       trace h run w = before ++
         [Http "GET" (url ++ "/sdr/capture/" ++ sid ++ "/audio")%string NoBody; EnsureDir dir; Now;
          WriteBody path (reply_body reply)]).
Proof.
  cbv zeta. split; [by apply (remote_recordPass_settles h time)|]. intros path.
  unfold recordPass. intros Hp. apply bindR_Ok in Hp as (sid & Hs & Hp & ->).
  apply start_capture_ok in Hs as (req & r0 & Ht & Hr0 & _ & Hsid).
  revert Hp. props. intros Hp. apply bindR_Ok in Hp as (u & _ & Hd & ->).
  revert Hd. props. intros Hd. apply download_ok in Hd as (reply & Hr & Ho & ->).
  eexists req, r0, sid, _, _, reply. split; [done|]. split; [done|]. split; [exact Hr|].
  split; [done|]. apply app_tail.
Qed.

Lemma remote_recordPass_spec_witness :
  let run := recordPass "http://pi:3001" "./recordings" (Recorder.record_fuel 3) sample_satellite 3
               Recorder.sample_config (fun _ _ => Ret tt) in
  result remote_handle run Recorder.sample_world =
    Ok "recordings/METEOR-M_N2-3_2026-02-03T08-05-41-123Z.wav"%string /\
  result remote_handle run Recorder.sample_world <> Pending.
Proof.
  split; [vm_compute; reflexivity|].
  apply (remote_recordPass_spec remote_handle w_time remote_handle_clock "http://pi:3001"
           "./recordings" sample_satellite 3).
Defined.

(** C26: The remote checker decides as the local one does: its verification runs as the
    local loop over its own measurements, with the same vote, the same calls and
    the same pauses. *)
Theorem remote_verify_is_local_vote {W} (h : forall c, W -> resp c * W) url sat gain minStrength
  attempts w :
  exec h (verifySignal url sat gain minStrength attempts) w =
  exec h (results <-! attempt_loop (check_once (checkSignalStrength url sat gain) minStrength)
                        attempts [];;
          Ret (Ok (vote attempts results))) w.
Proof.
  unfold verifySignal, bindR, vote. rewrite !exec_bind.
  pose proof (exec_verify_loop h (checkSignalStrength url sat gain) minStrength attempts [] w) as H.
  change (length (js_filter id [])) with 0 in H. rewrite H.
  rewrite (exec_eq h (attempt_loop _ _ _)). by destruct (result h (attempt_loop _ _ _) w).
Qed.

(** C27: [stop] is final: until the next [start], whatever old sockets and timers do, the
    stream is not running, opens no socket, schedules nothing and delivers no
    spectrum. *)
Theorem remote_stop_is_final relayUrl url_valid evs s
  (Hevs : forall c cb, EStart c cb ∉ evs) :
  let '(s', outs) := run relayUrl url_valid evs (stop s).1 in
  isRunning s' = false /\ getConfig s' = None /\ Forall (fun o => o = Answer false) outs.
Proof.
  pose proof (run_stopped relayUrl url_valid evs (stop s).1 (stop_clears s) Hevs) as H.
  destruct (run _ _ evs _) as [s' outs]. destruct H as [(Hw & Hc & Hg) Ho].
  cbn [fst] in Hw. split; [|done]. unfold isRunning. rewrite Hw. apply andb_false_r.
Qed.

Definition sample_fft : FftStream.FFTStreamConfig := FftStream.mkFFTConfig 145800000 50000 2048 45 10.

Lemma remote_stop_is_final_witness :
  let s := (run "http://pi:3001" (fun _ => true) [EStart sample_fft 4; EOpen 0; EClose 0] initial).1 in
  timers s = [true] /\
  let '(s', outs) := run "http://pi:3001" (fun _ => true) [ETimer 0; EUpdate 7] (stop s).1 in
  isRunning s' = false /\ getConfig s' = None /\ Forall (fun o => o = Answer false) outs.
Proof.
  split; [reflexivity|].
  apply (remote_stop_is_final "http://pi:3001" (fun _ => true) [ETimer 0; EUpdate 7]).
  intros c cb Hin. by repeat (apply elem_of_cons in Hin as [[=]|Hin]); apply not_elem_of_nil in Hin.
Defined.

(** While no socket opens, the stream reconnects at most ten times in all, the
    [n]-th time after [min(1000 * 2^n, 30000)] milliseconds, restarts included. *)
Theorem remote_reconnect_backoff relayUrl url_valid evs s
  (Hevs : Forall (fun e => opens e = false) evs)
  (Hs : reconnectAttempts s <= maxReconnectAttempts) :
  let '(s', outs) := run relayUrl url_valid evs s in
  exists k, reconnectAttempts s + k <= 10 /\
    reconnectAttempts s' = reconnectAttempts s + k /\
    delays outs = map backoff (seq (S (reconnectAttempts s)) k) /\
    Forall (fun d => (2000 <= d <= 30000)%Z) (delays outs).
Proof.
  destruct (run_attempts relayUrl url_valid evs s Hevs Hs) as (k & Hk & Hr & Hd).
  destruct (run _ _ evs s) as [s' outs]. simpl in Hr, Hd. exists k. split; [done|].
  split; [done|]. split; [done|]. rewrite Hd. apply Forall_map, Forall_seq. intros n Hn. simpl.
  unfold backoff. assert (2 ^ 1 <= 2 ^ Z.of_nat n)%Z by (apply Z.pow_le_mono_r; lia). lia.
Qed.

Lemma remote_reconnect_backoff_witness :
  let evs := [EStart sample_fft 4; EClose 0; ETimer 0; EClose 1; ETimer 1; EClose 2] in
  delays (run "http://pi:3001" (fun _ => true) evs initial).2 = [2000; 4000; 8000]%Z /\
  let '(s', outs) := run "http://pi:3001" (fun _ => true) evs initial in
  exists k, 0 + k <= 10 /\ reconnectAttempts s' = 0 + k /\
    delays outs = map backoff (seq 1 k) /\ Forall (fun d => (2000 <= d <= 30000)%Z) (delays outs).
Proof.
  split; [vm_compute; reflexivity|].
  apply (remote_reconnect_backoff "http://pi:3001" (fun _ => true) _ initial).
  - by repeat constructor.
  - simpl. lia.
Defined.

End SdrClient.
