(* ===== verification/SdrProvider.v ===== *)
(** * The local SDR and the choice of a provider (src/backend/capture/local-sdr-provider.ts, sdr-provider.ts)

    The local provider hands every call to the capture modules; the factory
    keeps the provider it chose first until it is reset. *)

From S2P Require Import Prelude JsStd Types RelayApi StateManager Effects Shell Signal.
From S2P Require Import Recorder FftStream SdrInterfaces SdrClient.
Local Open Scope prog_scope.

Module SdrProvider.

(** ** The local provider *)

(* @src backend/capture/local-sdr-provider.ts:40-60 LocalFFTStream *)
#[export] Instance LocalFFTStream : IFFTStream FftStream.state FftStream.output := {
  stream_start := FftStream.startFFTStream;
  stream_stop := FftStream.stopFFTStream;
  stream_isRunning := FftStream.isFFTStreamRunning;
  stream_getConfig := FftStream.getFFTStreamConfig;
  stream_updateFrequency := FftStream.updateFFTFrequency
}.

#[export] Instance LocalFFTStream_laws : StreamLaws FftStream.state FftStream.output.
Proof.
  refine {| stream_inv := FftStream.consistent |}.
  - intros. by apply FftStream.startFFTStream_consistent.
  - intros s Hs. simpl. unfold FftStream.stopFFTStream.
    pose proof (FftStream.stop_begin_consistent None s Hs) as H.
    by destruct (FftStream.stop_begin None s) as [[s' o]|s'].
  - intros now f s Hs. simpl. unfold FftStream.updateFFTFrequency.
    destruct (FftStream.currentConfig s) as [c|]; [|done].
    destruct (FftStream.currentCallback s); [|done]. by apply FftStream.startFFTStream_consistent.
  - intros s Hs. simpl. unfold FftStream.isFFTStreamRunning. intros Hr.
    apply andb_true_iff in Hr as [Hr _]. by apply (FftStream.running_configured s Hs).
  - intros s. simpl. unfold FftStream.isFFTStreamRunning, FftStream.stopFFTStream, FftStream.stop_begin.
    destruct (FftStream.sdrProcess s) as [pid|] eqn:E; [|done].
    destruct (FftStream.killed pid s); [done|]. simpl. apply andb_false_r.
Defined.

(* @src backend/capture/local-sdr-provider.ts:65-74 LocalRecorder *)
Definition LocalRecorder : IRecorder := mkRecorder Recorder.recordPass.

(* @src backend/capture/local-sdr-provider.ts:79-104 LocalSignalChecker *)
Definition LocalSignalChecker : ISignalChecker :=
  mkChecker Signal.checkSignalStrength Signal.verifySignal Signal.verifySignalAtFrequency.

(** An exception of rtl_test is caught; a run that does not end has no status. *)
(* @src backend/capture/local-sdr-provider.ts:122-152 getStatus *)
Definition getStatus : prog (res SDRStatus) :=
  try_catch
    (result <-! runCommand "rtl_test" [Lit "-t"];;
     let '(connected, device) := rtl_test_status result in
     fft <~ IsFFTRunning;;
     let mode := if (fft : bool) then sdr_fft else sdr_idle in
     Ret (Ok (mkSDRStatus connected device mode None)))
    (fun m => Ret (Ok (mkSDRStatus false None sdr_idle (Some m)))).

(* @src backend/capture/local-sdr-provider.ts:154-157 isAvailable *)
Definition isAvailable : prog (res bool) :=
  status <-! getStatus;; Ret (Ok (sdr_connected status)).

(** ** The factory *)

(** A provider object: the local singleton, or a remote one for a URL and a
    recordings directory. *)
Inductive provider := Local | Remote (relayUrl recordingsDir : string).

#[export] Instance provider_eq_dec : EqDecision provider.
Proof. solve_decision. Defined.

Definition provider_recorder (p : provider) : IRecorder :=
  match p with
  | Local => LocalRecorder
  | Remote url dir => provider_recorder (SdrClient.RemoteSDRProvider url dir)
  end.

Definition provider_signal (p : provider) : ISignalChecker :=
  match p with
  | Local => LocalSignalChecker
  | Remote url dir => provider_signal (SdrClient.RemoteSDRProvider url dir)
  end.

(** [currentProvider] of the factory and [remoteProvider] of the client. *)
(* @src backend/capture/sdr-provider.ts:13-13 currentProvider *)
Record singletons := mkSingletons {
  currentProvider : option provider;
  remoteProvider : option (string * string)
}.

(* @src backend/sdr-client/index.ts:403-413 getRemoteSDRProvider *)
Definition getRemoteSDRProvider (relayUrl recordingsDir : string) (r : option (string * string))
  : string * string :=
  match r with
  | Some (u, d) => if String.eqb u relayUrl then (u, d) else (relayUrl, recordingsDir)
  | None => (relayUrl, recordingsDir)
  end.

(* @src backend/capture/sdr-provider.ts:18-47 getSDRProvider *)
Definition getSDRProvider (config : ReceiverConfig) (s : singletons)
  : (string + provider) * singletons :=
  match currentProvider s with
  | Some p => (inr p, s)
  | None =>
      match cfg_serviceMode config with
      | mode_full | mode_sdr_relay =>
          (inr Local, mkSingletons (Some Local) (remoteProvider s))
      | mode_server =>
          match cfg_relay_url config with
          | None | Some ""%string =>
              (inl "SDR_RELAY_URL must be set when SERVICE_MODE=server"%string, s)
          | Some url =>
              let '(u, d) :=
                getRemoteSDRProvider url (cfg_recordingsDir config) (remoteProvider s) in
              (inr (Remote u d), mkSingletons (Some (Remote u d)) (Some (u, d)))
          end
      end
  end.

(* @src backend/capture/sdr-provider.ts:52-54 resetSDRProvider *)
Definition resetSDRProvider (s : singletons) : singletons :=
  mkSingletons None (remoteProvider s).

(** ** Facts *)

(** The first successful choice stays, whatever configuration is passed later. *)
Lemma provider_sticky cfg cfg' s p :
  (getSDRProvider cfg s).1 = inr p ->
  (getSDRProvider cfg' (getSDRProvider cfg s).2).1 = inr p.
Proof.
  unfold getSDRProvider. destruct (currentProvider s) as [q|] eqn:E; cbn [fst snd];
    [intros [= <-]; by rewrite E|]. destruct (cfg_serviceMode cfg); try (intros [= <-]; done).
  destruct (cfg_relay_url cfg) as [[|a u]|]; try done.
  destruct (getRemoteSDRProvider _ _ _) as [u' d']. by intros [= <-].
Qed.

(** A remote provider is for the configured relay; a provider kept for the same
    relay keeps its old directory. *)
Lemma provider_for_relay cfg s url :
  currentProvider s = None -> cfg_serviceMode cfg = mode_server ->
  cfg_relay_url cfg = Some url -> url <> ""%string ->
  exists dir, (getSDRProvider cfg s).1 = inr (Remote url dir) /\
    (dir = cfg_recordingsDir cfg \/ remoteProvider s = Some (url, dir)).
Proof.
  intros Hc Hm Hu Hne. unfold getSDRProvider. rewrite Hc, Hm, Hu.
  destruct url as [|a u]; [done|]. unfold getRemoteSDRProvider.
  destruct (remoteProvider s) as [[u' d']|]; [|eauto].
  destruct (String.eqb u' _) eqn:E; [|eauto]. apply String.eqb_eq in E as ->. eauto.
Qed.

End SdrProvider.
