(* ===== verification/Relay.v ===== *)
(** * The SDR relay server (src/sdr-relay/server.ts)

    The server owns the radio of a remote station.  Its state is shared by the
    HTTP handlers, which suspend at awaits, the progress intervals of the capture
    sessions and the WebSocket handlers; the FFT stream is the module of
    FftStream.v, whose promises the server never awaits.  The server is a
    transition system: an event runs a handler to its first await, an answer
    resumes it.  Reading a request's body touches no shared state, so it belongs
    to the request's event. *)

From stdpp Require Import gmap.
From S2P Require Import Prelude JsStd Types RelayApi StateManager Effects Shell.
From S2P Require Import Recorder FftStream SdrInterfaces SdrClient.
Import Recorder.
Local Open Scope Z_scope.

Module Relay.

(* @src sdr-relay/server.ts:44-49 activeSessions *)
Record sessionData := mkSessionData {
  sd_session : RecordingSession;
  sd_startTime : date;
  sd_durationSeconds : Z;
  sd_status : SessionStatus;
  sd_progress : Q
}.

(** A suspended handler; [rid] is its request. *)
Inductive task :=
| TStatus (rid : nat)
| TStart (rid : nat) (sessionId : string) (durationSeconds : Z)
| TStop (rid : nat) (sessionId : string)
| TAutoStop (sessionId : string)
| TAudio (rid : nat) (sessionId : string)
| TCheck (rid : nat) (frequency : Z) (wasFFTRunning : bool).

(** [fftSubscribers] in insertion order; [intervals] are the live progress
    intervals, by session. *)
(* @src sdr-relay/server.ts:38-54 module variables *)
Record state := mkRelay {
  fftSubscribers : list nat;
  activeSessions : gmap string sessionData;
  currentMode : SDRMode;
  fft : FftStream.state;
  tasks : list task;
  intervals : list string
}.

Definition initial : state := mkRelay [] ∅ sdr_idle FftStream.initial [] [].

Inductive output :=
| Respond (rid : nat) (status : Z) (body : Reply)
| Send (ws : nat) (m : FFTWSMessage)
| Stream (o : FftStream.output)
| RtlTest (rid : nat)                                   (* runCommand('rtl_test') *)
| BeginRecording (rid : nat) (satellite : SatelliteInfo) (config : ReceiverConfig)
| StopRecording (sessionId : string)                    (* session.stop() *)
| CheckSignal (rid : nat) (frequency : Z) (gain minStrength : Q)
| ReadAudio (rid : nat) (path : string)
| Uncaught (rid : nat) (message : string)  (* an exception nobody catches: node ends the process *)
| Untyped (rid : nat).                     (* the handler goes on with values of other types *)

Definition with_mode (m : SDRMode) (s : state) : state :=
  mkRelay (fftSubscribers s) (activeSessions s) m (fft s) (tasks s) (intervals s).

Definition with_subscribers (l : list nat) (s : state) : state :=
  mkRelay l (activeSessions s) (currentMode s) (fft s) (tasks s) (intervals s).

Definition with_sessions (m : gmap string sessionData) (s : state) : state :=
  mkRelay (fftSubscribers s) m (currentMode s) (fft s) (tasks s) (intervals s).

Definition with_intervals (l : list string) (s : state) : state :=
  mkRelay (fftSubscribers s) (activeSessions s) (currentMode s) (fft s) (tasks s) l.

Definition suspend (t : task) (s : state) : state :=
  mkRelay (fftSubscribers s) (activeSessions s) (currentMode s) (fft s) (tasks s ++ [t])
    (intervals s).

(** A call of the FFT module that nobody awaits. *)
Definition call_fft (r : FftStream.state * list FftStream.output) (s : state)
  : state * list output :=
  (mkRelay (fftSubscribers s) (activeSessions s) (currentMode s) r.1 (tasks s) (intervals s),
   map Stream r.2).

Definition running (s : state) : bool := FftStream.isFFTStreamRunning (fft s).

(** The server has one callback, [broadcastFFTData]. *)
Definition broadcast : nat := 0.

(* @src sdr-relay/server.ts:59-61 generateSessionId *)
Definition generateSessionId (now : date) (random : string) : string :=
  ("capture-" ++ show_Z now ++ "-" ++ random)%string.

(** [throws] are the sockets whose [send] throws. *)
(* @src sdr-relay/server.ts:66-75 broadcastFFTData *)
Definition broadcastFFTData (throws : nat -> bool) (data : FFTData) (s : state)
  : state * list output :=
  let live := js_filter (fun ws => negb (throws ws)) (fftSubscribers s) in
  (with_subscribers live s, map (fun ws => Send ws (FftData data)) live).

(** [size === 0 && isFFTStreamRunning()]: stop the stream. *)
(* @src sdr-relay/server.ts:111-116 handleFFTMessage *)
Definition stop_unused (s : state) : state * list output :=
  match fftSubscribers s with
  | [] =>
      if running s then
        let '(s, o) := call_fft (FftStream.stopFFTStream (fft s)) s in (with_mode sdr_idle s, o)
      else (s, [])
  | _ => (s, [])
  end.

(** [started] is a promise, so [!started] is never true. *)
(* @src sdr-relay/server.ts:80-131 handleFFTMessage *)
Definition handleFFTMessage (now : Z) (ws : nat) (message : FFTWSMessage) (s : state)
  : state * list output :=
  match message with
  | Subscribe config =>
      match currentMode s with
      | sdr_recording => (s, [Send ws (ErrorMsg "SDR is currently recording")])
      | _ =>
          let s := with_subscribers (set_add ws (fftSubscribers s)) s in
          let '(s, o) :=
            if running s then (s, [])
            else
              let '(s, o) := call_fft (FftStream.startFFTStream now config broadcast (fft s)) s in
              (with_mode sdr_fft s, o) in
          (s, o ++ [Send ws (Subscribed config)])
      end
  | Unsubscribe =>
      let s := with_subscribers (set_del ws (fftSubscribers s)) s in
      let '(s, o) := stop_unused s in
      (s, Send ws Unsubscribed :: o)
  | SetFrequency frequency =>
      if running s then call_fft (FftStream.updateFFTFrequency now frequency (fft s)) s
      else (s, [])
  | _ => (s, [Send ws (ErrorMsg "Unknown message type")])
  end.

(** [None] is a message that does not parse. *)
(* @src sdr-relay/server.ts:496-503 message handler *)
Definition on_ws_message (now : Z) (ws : nat) (message : option FFTWSMessage) (s : state)
  : state * list output :=
  match message with
  | Some m => handleFFTMessage now ws m s
  | None => (s, [Send ws (ErrorMsg "Invalid message format")])
  end.

(* @src sdr-relay/server.ts:506-515 close handler *)
Definition on_ws_close (ws : nat) (s : state) : state * list output :=
  stop_unused (with_subscribers (set_del ws (fftSubscribers s)) s).

(** ** HTTP *)

Section Server.
Context (port : Z) (host : string).
Context (cos : nat -> nat -> Q) (log10 : Q -> Q) (transform : nat -> list Q -> list Q).

(* @src sdr-relay/server.ts:233-245 satelliteInfo *)
Definition capture_satellite (r : StartCaptureRequest) : SatelliteInfo :=
  mkSatelliteInfo
    (match sr_satelliteName r with Some ""%string | None => "Unknown"%string | Some n => n end) 0
    (sr_frequency r) lrpt (mkSignalConfig lrpt 120000 (sr_sampleRate r) fm) true None.

(* @src sdr-relay/server.ts:247-268 config *)
Definition capture_config (r : StartCaptureRequest) : ReceiverConfig :=
  mkConfig mode_sdr_relay None port host (mkCoordinates 0 0 0) (sr_gain r) (sr_sampleRate r)
    (default 0 (sr_ppmCorrection r)) 0 (-50) true "/tmp/sdr-relay" "/tmp/sdr-relay/images" 24
    3000 "0.0.0.0" "/tmp/sdr-relay.db" log_info false.

(* @src sdr-relay/server.ts:209-270 startSDRRelayServer *)
Definition capture_start (rid : nat) (now : Z) (random : string) (r : StartCaptureRequest)
  (s : state) : state * list output :=
  match currentMode s with
  | sdr_recording =>
      (s, [Respond rid 409 (RStart (mkStartResponse "" false (Some "SDR is already recording"%string)))])
  | _ =>
      let '(s, o) :=
        if running s then call_fft (FftStream.stopFFTStream (fft s)) s else (s, []) in
      let sessionId := generateSessionId now random in
      (suspend (TStart rid sessionId (sr_durationSeconds r)) s,
       o ++ [BeginRecording rid (capture_satellite r) (capture_config r)])
  end.

(** After [await startRecording(..)]. *)
(* @src sdr-relay/server.ts:270-317 startSDRRelayServer *)
Definition capture_started (rid : nat) (sessionId : string) (durationSeconds : Z) (now : Z)
  (r : string + RecordingSession) (s : state) : state * list output :=
  match r with
  | inr session =>
      let s := with_mode sdr_recording s in
      let data := mkSessionData session now durationSeconds session_recording 0 in
      let s := with_sessions (<[sessionId := data]> (activeSessions s)) s in
      (with_intervals (sessionId :: intervals s) s,
       [Respond rid 200 (RStart (mkStartResponse sessionId true None))])
  | inl message =>
      (with_mode sdr_idle s,
       [Respond rid 500 (RStart (mkStartResponse "" false (Some message)))])
  end.

Definition clear_interval (sessionId : string) (s : state) : state :=
  with_intervals (js_filter (fun x => negb (String.eqb x sessionId)) (intervals s)) s.

(** [Math.min(100, (elapsed / durationSeconds) * 100)]; a tick comes about one
    second after the start, so a duration of 0 gives 100. *)
(* @src sdr-relay/server.ts:285-286 progressInterval *)
Definition progress_of (elapsed : Q) (durationSeconds : Z) : Q :=
  if durationSeconds =? 0 then 100
  else js_min 100 (elapsed / inject_Z durationSeconds * 100).

(* @src sdr-relay/server.ts:282-300 progressInterval *)
Definition tick (now : Z) (sessionId : string) (s : state) : state * list output :=
  match activeSessions s !! sessionId with
  | Some d =>
      if decide (sd_status d = session_recording) then
        let elapsed := (inject_Z (now - sd_startTime d) / 1000)%Q in
        let d := mkSessionData (sd_session d) (sd_startTime d) (sd_durationSeconds d) (sd_status d)
                   (progress_of elapsed (sd_durationSeconds d)) in
        let s := with_sessions (<[sessionId := d]> (activeSessions s)) s in
        if inject_Z (sd_durationSeconds d) <=?q elapsed then
          (suspend (TAutoStop sessionId) (clear_interval sessionId s), [StopRecording sessionId])
        else (s, [])
      else (clear_interval sessionId s, [])
  | None => (clear_interval sessionId s, [])
  end.

Definition set_complete (d : sessionData) : sessionData :=
  mkSessionData (sd_session d) (sd_startTime d) (sd_durationSeconds d) session_complete
    (sd_progress d).

(** After [session.stop()], on behalf of the interval or of a request. *)
(* @src sdr-relay/server.ts:291-294 progressInterval *)
Definition finish (sessionId : string) (s : state) : state :=
  with_mode sdr_idle (with_sessions (alter set_complete sessionId (activeSessions s)) s).

(** The keys of the map are strings: no other value is found. *)
(* @src sdr-relay/server.ts:325-332 startSDRRelayServer *)
Definition session_not_found (rid : nat) : output :=
  Respond rid 404 (RStop (mkStopResponse false None (Some "Session not found"%string))).

(* @src sdr-relay/server.ts:321-335 startSDRRelayServer *)
Definition capture_stop (rid : nat) (r : StopCaptureRequest) (s : state)
  : state * list output :=
  match activeSessions s !! sp_sessionId r with
  | None => (s, [session_not_found rid])
  | Some _ => (suspend (TStop rid (sp_sessionId r)) s, [StopRecording (sp_sessionId r)])
  end.

(* @src sdr-relay/server.ts:336-345 startSDRRelayServer *)
Definition capture_stopped (rid : nat) (sessionId : string) (s : state) : state * list output :=
  (finish sessionId s,
   [Respond rid 200
      (RStop (mkStopResponse true
         ((fun d => rs_outputPath (sd_session d)) <$> activeSessions s !! sessionId) None))]).

(** [path.split('/')[3] || '']. *)
Definition path_session (path : string) : string := default "" (split_on slash path !! 3%nat).

(* @src sdr-relay/server.ts:348-369 startSDRRelayServer *)
Definition capture_status (rid : nat) (path : string) (s : state) : list output :=
  let sessionId := path_session path in
  match activeSessions s !! sessionId with
  | None => [Respond rid 404 (RError "Session not found")]
  | Some d =>
      [Respond rid 200 (RSession
         (mkCaptureSession sessionId (si_frequency (rs_satellite (sd_session d))) (sd_startTime d)
            (sd_durationSeconds d) (sd_status d) (sd_progress d)
            (if decide (sd_status d = session_complete) then Some (rs_outputPath (sd_session d))
             else None) None))]
  end.

(** The path matches [/^\/sdr\/capture\/[\w-]+\/audio$/]. *)
Definition word_char (c : Ascii.ascii) : bool :=
  let n := Ascii.nat_of_ascii c in
  is_digit c || ((65 <=? n) && (n <=? 90))%nat || ((97 <=? n) && (n <=? 122))%nat
  || Nat.eqb n 95 || Nat.eqb n 45.

(** The longest prefix of word characters, and the rest. *)
Fixpoint span_word (s : string) : nat * string :=
  match s with
  | String.String c r =>
      if word_char c then let '(n, t) := span_word r in (S n, t) else (0%nat, s)
  | _ => (0%nat, s)
  end.

Definition is_audio_path (path : string) : bool :=
  startsWith "/sdr/capture/" path &&
  let '(n, rest) := span_word (slice_from 13 path) in
  (0 <? n)%nat && String.eqb rest "/audio".

(* @src sdr-relay/server.ts:372-382 startSDRRelayServer *)
Definition capture_audio (rid : nat) (path : string) (s : state) : state * list output :=
  let sessionId := path_session path in
  match activeSessions s !! sessionId with
  | Some d =>
      if decide (sd_status d = session_complete)
      then (suspend (TAudio rid sessionId) s, [ReadAudio rid (rs_outputPath (sd_session d))])
      else (s, [Respond rid 404 (RError "Recording not complete or not found")])
  | None => (s, [Respond rid 404 (RError "Recording not complete or not found")])
  end.

(* @src sdr-relay/server.ts:382-393 startSDRRelayServer *)
Definition audio_read (rid : nat) (r : string + string) (s : state) : state * list output :=
  (s, [match r with
       | inr bytes => Respond rid 200 (RAudio bytes)
       | inl _ => Respond rid 500 (RError "Failed to read audio file")
       end]).

(* @src sdr-relay/server.ts:396-416 startSDRRelayServer *)
Definition signal_check (rid : nat) (r : SignalCheckRequest) (s : state)
  : state * list output :=
  match currentMode s with
  | sdr_recording => (s, [Respond rid 409 (RError "SDR is currently recording")])
  | _ =>
      let wasFFTRunning := running s in
      let '(s, o) :=
        if wasFFTRunning then call_fft (FftStream.stopFFTStream (fft s)) s else (s, []) in
      (suspend (TCheck rid (cr_frequency r) wasFFTRunning) s,
       o ++ [CheckSignal rid (cr_frequency r) (cr_gain r) (-30)])
  end.

(** "Restart FFT if it was running". *)
(* @src sdr-relay/server.ts:425-431 startSDRRelayServer *)
Definition restart_fft (now : Z) (wasFFTRunning : bool) (s : state) : state * list output :=
  if wasFFTRunning then
    match FftStream.getFFTStreamConfig (fft s) with
    | Some config => call_fft (FftStream.startFFTStream now config broadcast (fft s)) s
    | None => (s, [])
    end
  else (s, []).

(* @src sdr-relay/server.ts:417-452 startSDRRelayServer *)
Definition signal_checked (rid : nat) (frequency : Z) (wasFFTRunning : bool) (now : Z)
  (r : string + bool) (s : state) : state * list output :=
  let '(s, o) := restart_fft now wasFFTRunning s in
  (s, o ++
      [match r with
       | inr detected =>
           Respond rid 200
             (RCheck (mkCheckResponse frequency (if detected then -20 else -50)%Q detected now))
       | inl message => Respond rid 500 (RError message)
       end]).

(* @src sdr-relay/server.ts:136-155 getSDRStatus *)
Definition sdr_status (r : string + CommandResult) (s : state) : SDRStatus :=
  match r with
  | inr result =>
      let '(connected, device) := rtl_test_status result in
      mkSDRStatus connected device (currentMode s) None
  | inl message => mkSDRStatus false None (currentMode s) (Some message)
  end.

(* @src sdr-relay/server.ts:192-206 startSDRRelayServer *)
Definition tune (rid : nat) (now : Z) (r : TuneRequest) (s : state) : state * list output :=
  let '(s, o) :=
    if running s then call_fft (FftStream.updateFFTFrequency now (tq_frequency r) (fft s)) s
    else (s, []) in
  (s, o ++ [Respond rid 200 (RTune (mkTuneResponse true (Some (tq_frequency r))))]).

(** The error of reading a field of null. *)
Definition null_error (field : string) : string :=
  ("Cannot read properties of null (reading '" ++ field ++ "')")%string.

(** A start whose body has not the type it is cast to: null is an error inside the inner
    [try]; what the recorder makes of fields of other types is outside the model. *)
(* @src sdr-relay/server.ts:209-234 startSDRRelayServer *)
Definition capture_start_other (rid : nat) (null : bool) (s : state) : state * list output :=
  match currentMode s with
  | sdr_recording =>
      (s, [Respond rid 409 (RStart (mkStartResponse "" false (Some "SDR is already recording"%string)))])
  | _ =>
      let '(s, o) :=
        if running s then call_fft (FftStream.stopFFTStream (fft s)) s else (s, []) in
      if null then
        (with_mode sdr_idle s,
         o ++ [Respond rid 500 (RStart (mkStartResponse "" false (Some (null_error "satelliteName"))))])
      else (s, o ++ [Untyped rid])
  end.

(** The same for a signal check, whose inner [try] restarts the stream. *)
(* @src sdr-relay/server.ts:396-416 startSDRRelayServer *)
Definition signal_check_other (rid : nat) (null : bool) (now : Z) (s : state) : state * list output :=
  match currentMode s with
  | sdr_recording => (s, [Respond rid 409 (RError "SDR is currently recording")])
  | _ =>
      let wasFFTRunning := running s in
      let '(s, o) :=
        if wasFFTRunning then call_fft (FftStream.stopFFTStream (fft s)) s else (s, []) in
      if null then
        let '(s, o2) := restart_fft now wasFFTRunning s in
        (s, o ++ o2 ++ [Respond rid 500 (RError (null_error "frequency"))])
      else (s, o ++ [Untyped rid])
  end.

(** A body that does not parse is an exception, answered by the outer handler; an empty
    one does not parse. *)
Definition with_body (rid : nat) (b : Request) (f : Request -> state * list output)
  (s : state) : state * list output :=
  match b with
  | Malformed message => (s, [Respond rid 500 (RError message)])
  | NoBody => (s, [Respond rid 500 (RError "Unexpected end of JSON input")])
  | b => f b
  end.

(* @src sdr-relay/server.ts:181-470 startSDRRelayServer *)
Definition route (rid : nat) (now : Z) (random method path : string) (body : Request)
  (s : state) : state * list output :=
  if String.eqb path "/sdr/status" && String.eqb method "GET" then
    (suspend (TStatus rid) s, [RtlTest rid])
  else if String.eqb path "/sdr/tune" && String.eqb method "POST" then
    with_body rid body
      (fun b => match b with
                | QTune r => tune rid now r s
                | QNull => (s, [Respond rid 500 (RError (null_error "frequency"))])
                | _ => (s, [Untyped rid])
                end) s
  else if String.eqb path "/sdr/capture/start" && String.eqb method "POST" then
    with_body rid body
      (fun b => match b with
                | QStart r => capture_start rid now random r s
                | b => capture_start_other rid (match b with QNull => true | _ => false end) s
                end) s
  else if String.eqb path "/sdr/capture/stop" && String.eqb method "POST" then
    with_body rid body
      (fun b => match b with
                | QStop r => capture_stop rid r s
                | QNull => (s, [Respond rid 500 (RError (null_error "sessionId"))])
                | _ => (s, [session_not_found rid])
                end) s
  else if startsWith "/sdr/capture/" path && String.eqb method "GET" then
    (s, capture_status rid path s)
  else if is_audio_path path && String.eqb method "GET" then capture_audio rid path s
  else if String.eqb path "/sdr/signal/check" && String.eqb method "POST" then
    with_body rid body
      (fun b => match b with
                | QCheck r => signal_check rid r s
                | b => signal_check_other rid (match b with QNull => true | _ => false end) now s
                end) s
  else if String.eqb path "/health" && String.eqb method "GET" then
    (s, [Respond rid 200 (RHealth (currentMode s))])
  else (s, [Respond rid 404 (RError "Not found")]).

(** [path] is [None] when [new URL] refuses the address, outside any [try]: the promise of
    the handler is rejected and nobody hears it. *)
(* @src sdr-relay/server.ts:170-181 startSDRRelayServer *)
Definition on_request (rid : nat) (now : Z) (random method : string) (path : option string)
  (body : Request) (s : state) : state * list output :=
  match path with
  | None => (s, [Uncaught rid "Invalid URL"])
  | Some path =>
      if String.eqb method "OPTIONS" then (s, [Respond rid 200 REmpty])
      else route rid now random method path body s
  end.

(** ** The transition system *)

(** What a suspended handler was waiting for. *)
Inductive answer :=
| ACommand (r : string + CommandResult)
| ASession (r : string + RecordingSession)
| AStopped
| AChecked (r : string + bool)
| AFile (r : string + string).

Inductive event :=
| ERequest (rid : nat) (random method : string) (path : option string) (body : Request)
| EResume (k : nat) (a : answer)
| ETick (sessionId : string)
| EMessage (ws : nat) (m : option FFTWSMessage)
| EClose (ws : nat)
| EStream (throws : nat -> bool) (e : FftStream.event).

Definition resume (now : Z) (t : task) (a : answer) (s : state) : option (state * list output) :=
  match t, a with
  | TStatus rid, ACommand r => Some (s, [Respond rid 200 (RStatus (sdr_status r s))])
  | TStart rid id d, ASession r => Some (capture_started rid id d now r s)
  | TStop rid id, AStopped => Some (capture_stopped rid id s)
  | TAutoStop id, AStopped => Some (finish id s, [])
  | TAudio rid _, AFile r => Some (audio_read rid r s)
  | TCheck rid f was, AChecked r => Some (signal_checked rid f was now r s)
  | _, _ => None
  end.

(** The outputs of the FFT module: a spectrum goes to the subscribers. *)
Fixpoint relay_fft (throws : nat -> bool) (os : list FftStream.output) (s : state)
  : state * list output :=
  match os with
  | [] => (s, [])
  | FftStream.Emit _ data :: r =>
      let '(s, o1) := broadcastFFTData throws data s in
      let '(s, o2) := relay_fft throws r s in (s, o1 ++ o2)
  | o :: r => let '(s, o2) := relay_fft throws r s in (s, Stream o :: o2)
  end.

Definition step (now : Z) (e : event) (s : state) : state * list output :=
  match e with
  | ERequest rid random method path body => on_request rid now random method path body s
  | EResume k a =>
      match tasks s !! k with
      | Some t =>
          default (s, [])
            (resume now t a (mkRelay (fftSubscribers s) (activeSessions s) (currentMode s) (fft s)
                               (delete k (tasks s)) (intervals s)))
      | None => (s, [])
      end
  | ETick id => if bool_decide (id ∈ intervals s) then tick now id s else (s, [])
  | EMessage ws m => on_ws_message now ws m s
  | EClose ws => on_ws_close ws s
  | EStream throws e =>
      let '(f, os) := FftStream.step cos log10 transform now e (fft s) in
      relay_fft throws os
        (mkRelay (fftSubscribers s) (activeSessions s) (currentMode s) f (tasks s) (intervals s))
  end.

Fixpoint run (evs : list (Z * event)) (s : state) : state * list output :=
  match evs with
  | [] => (s, [])
  | (now, e) :: r =>
      let '(s1, o1) := step now e s in
      let '(s2, o2) := run r s1 in (s2, o1 ++ o2)
  end.
End Server.

(** ** Every request is answered once *)

Definition task_rid (t : task) : option nat :=
  match t with
  | TStatus r | TStart r _ _ | TStop r _ | TAudio r _ | TCheck r _ _ => Some r
  | TAutoStop _ => None
  end.

Definition answers (rid : nat) (o : output) : bool :=
  match o with Respond r _ _ => Nat.eqb r rid | _ => false end.

(** The request ends without an answer the model knows. *)
Definition drops (rid : nat) (o : output) : bool :=
  match o with Uncaught r _ | Untyped r => Nat.eqb r rid | _ => false end.

(** The answers to a request among the outputs, the times it was dropped, its suspended
    handlers. *)
Definition answered (rid : nat) (os : list output) : nat := length (js_filter (answers rid) os).

Definition dropped (rid : nat) (os : list output) : nat := length (js_filter (drops rid) os).

Definition pending (rid : nat) (s : state) : nat :=
  length (js_filter (fun t => bool_decide (task_rid t = Some rid)) (tasks s)).

(** What a step owes to [rid]: one for its request, one per suspended handler. *)
Definition settles (rid owed : nat) (s : state) (r : state * list output) : Prop :=
  (answered rid r.2 + dropped rid r.2 + pending rid r.1 = owed + pending rid s)%nat.

Definition bit (b : bool) : nat := if b then 1%nat else 0%nat.

Lemma answered_app rid a b : answered rid (a ++ b) = (answered rid a + answered rid b)%nat.
Proof. unfold answered, js_filter. by rewrite List.filter_app, length_app. Qed.

Lemma dropped_app rid a b : dropped rid (a ++ b) = (dropped rid a + dropped rid b)%nat.
Proof. unfold dropped, js_filter. by rewrite List.filter_app, length_app. Qed.

Lemma answered_stream rid os : answered rid (map Stream os) = 0%nat /\ dropped rid (map Stream os) = 0%nat.
Proof. induction os; [done|]. by unfold answered, dropped in *. Qed.

Lemma answered_send rid m l :
  answered rid (map (fun ws => Send ws m) l) = 0%nat /\ dropped rid (map (fun ws => Send ws m) l) = 0%nat.
Proof. induction l; [done|]. by unfold answered, dropped in *. Qed.

Lemma answered_one rid r c b : answered rid [Respond r c b] = bit (Nat.eqb r rid).
Proof. unfold answered. simpl. by destruct (Nat.eqb r rid). Qed.

Lemma pending_suspend rid t s :
  pending rid (suspend t s) = (pending rid s + bit (bool_decide (task_rid t = Some rid)))%nat.
Proof.
  unfold pending, suspend, js_filter. simpl. rewrite List.filter_app, length_app. simpl.
  by destruct (bool_decide _).
Qed.

Lemma pending_delete rid k t s s' : tasks s !! k = Some t -> tasks s' = delete k (tasks s) ->
  pending rid s = (pending rid s' + bit (bool_decide (task_rid t = Some rid)))%nat.
Proof.
  intros Hk Ht. unfold pending, js_filter. rewrite Ht, delete_take_drop.
  rewrite <- (take_drop_middle _ _ _ Hk) at 1. rewrite !List.filter_app, !length_app. simpl.
  destruct (bool_decide _); simpl; lia.
Qed.

(** An unawaited FFT call answers nobody. *)
Lemma call_fft_settles rid r s : settles rid 0 s (call_fft r s).
Proof.
  unfold settles, call_fft. cbn [fst snd]. by destruct (answered_stream rid r.2) as [-> ->].
Qed.

Lemma settles_seq rid a b s s1 o1 s2 o2 :
  settles rid a s (s1, o1) -> settles rid b s1 (s2, o2) ->
  settles rid (a + b) s (s2, o1 ++ o2).
Proof. unfold settles. cbn [fst snd]. rewrite answered_app, dropped_app. lia. Qed.

Lemma settles_answer rid r c b s s' : tasks s' = tasks s ->
  settles rid (bit (Nat.eqb r rid)) s (s', [Respond r c b]).
Proof. unfold settles, pending. cbn [fst snd]. rewrite answered_one. intros ->. cbn. lia. Qed.

Lemma settles_respond rid r c b s : settles rid (bit (Nat.eqb r rid)) s (s, [Respond r c b]).
Proof. by apply settles_answer. Qed.

Lemma settles_drop rid r o s : drops rid o = Nat.eqb r rid -> answers rid o = false ->
  settles rid (bit (Nat.eqb r rid)) s (s, [o]).
Proof.
  unfold settles, answered, dropped, js_filter. intros Hd Ha. cbn. rewrite Hd, Ha.
  destruct (Nat.eqb r rid); cbn; lia.
Qed.

(** The common shape: an optional FFT call, then an answer or a suspension. *)
Ltac fft_call rid s :=
  match goal with
  | |- context [call_fft ?r s] =>
      let H := fresh "Hf" in
      pose proof (call_fft_settles rid r s) as H; destruct (call_fft r s) as [? ?]
  end.

Lemma eqb_rid r rid : bit (bool_decide (Some r = Some rid)) = bit (Nat.eqb r rid).
Proof.
  f_equal. destruct (Nat.eqb_spec r rid) as [->|Hn]; [by apply bool_decide_eq_true|].
  apply bool_decide_eq_false. congruence.
Qed.

Lemma settles_suspend rid r t o s : task_rid t = Some r -> answered rid [o] = 0%nat ->
  dropped rid [o] = 0%nat -> settles rid (bit (Nat.eqb r rid)) s (suspend t s, [o]).
Proof.
  intros Ht Ho Hd. unfold settles. cbn [fst snd]. rewrite Ho, Hd, pending_suspend, Ht, eqb_rid. lia.
Qed.

(** A program of the server: an FFT call when [b], then [f]. *)
Lemma settles_optional rid n (b : bool) r s f :
  (forall s1, settles rid n s1 (f s1)) ->
  settles rid n s
    (let '(s1, o1) := if b then call_fft r s else (s, []) in
     let '(s2, o2) := f s1 in (s2, o1 ++ o2)).
Proof.
  intros Hf. destruct b.
  - pose proof (call_fft_settles rid r s) as H. destruct (call_fft r s) as [s1 o1].
    specialize (Hf s1). destruct (f s1) as [s2 o2]. by apply (settles_seq rid 0 n s s1 o1).
  - specialize (Hf s). by destruct (f s) as [s2 o2].
Qed.

Lemma stop_unused_settles rid s : settles rid 0 s (stop_unused s).
Proof.
  unfold stop_unused. destruct (fftSubscribers s); [|done]. destruct (running s); [|done].
  exact (call_fft_settles rid (FftStream.stopFFTStream (fft s)) s).
Qed.

Lemma handleFFTMessage_settles rid now ws m s : settles rid 0 s (handleFFTMessage now ws m s).
Proof.
  destruct m as [c| |f|d|c| |m]; try done; simpl.
  - destruct (currentMode s); [| |done].
    all: set (s1 := with_subscribers _ s); destruct (running s1); [done|].
    all: unfold settles, call_fft; cbn [fst snd]; rewrite answered_app, dropped_app;
      by rewrite (proj1 (answered_stream _ _)), (proj2 (answered_stream _ _)).
  - set (s1 := with_subscribers _ s). pose proof (stop_unused_settles rid s1) as H.
    by destruct (stop_unused s1).
  - destruct (running s); [apply call_fft_settles|done].
Qed.

Lemma with_body_settles rid r b f s :
  (forall b, settles rid (bit (Nat.eqb r rid)) s (f b)) ->
  settles rid (bit (Nat.eqb r rid)) s (with_body r b f s).
Proof. intros Hf. unfold with_body. destruct b; try apply Hf; apply settles_respond. Qed.

Lemma tune_settles rid r now q s : settles rid (bit (Nat.eqb r rid)) s (tune r now q s).
Proof.
  unfold tune.
  apply (settles_optional rid _ _ _ s (fun s1 => (s1, [Respond r 200 (RTune (mkTuneResponse true (Some (tq_frequency q))))]))).
  intros. apply settles_respond.
Qed.

Lemma capture_start_settles port host rid r now random q s :
  settles rid (bit (Nat.eqb r rid)) s (capture_start port host r now random q s).
Proof.
  unfold capture_start. destruct (currentMode s); [| |apply settles_respond].
  all: apply (settles_optional rid _ _ _ s (fun s1 =>
      (suspend (TStart r (generateSessionId now random) (sr_durationSeconds q)) s1,
       [BeginRecording r (capture_satellite q) (capture_config port host q)]))).
  all: intros; by apply settles_suspend.
Qed.

Lemma signal_check_settles rid r q s : settles rid (bit (Nat.eqb r rid)) s (signal_check r q s).
Proof.
  unfold signal_check. destruct (currentMode s); [| |apply settles_respond].
  all: apply (settles_optional rid _ _ _ s (fun s1 =>
      (suspend (TCheck r (cr_frequency q) (running s)) s1,
       [CheckSignal r (cr_frequency q) (cr_gain q) (-30)]))).
  all: intros; by apply settles_suspend.
Qed.

Lemma capture_stop_settles rid r q s : settles rid (bit (Nat.eqb r rid)) s (capture_stop r q s).
Proof.
  unfold capture_stop. destruct (activeSessions s !! _); [by apply settles_suspend|apply settles_respond].
Qed.

Lemma capture_audio_settles rid r p s : settles rid (bit (Nat.eqb r rid)) s (capture_audio r p s).
Proof.
  unfold capture_audio. destruct (activeSessions s !! _) as [d|]; [|apply settles_respond].
  destruct (decide _); [by apply settles_suspend|apply settles_respond].
Qed.

Lemma capture_status_settles rid r p s : settles rid (bit (Nat.eqb r rid)) s (s, capture_status r p s).
Proof. unfold capture_status. destruct (activeSessions s !! _); apply settles_respond. Qed.

Lemma restart_fft_settles rid now was s : settles rid 0 s (restart_fft now was s).
Proof.
  unfold restart_fft. destruct was; [|done].
  destruct (FftStream.getFFTStreamConfig _); [apply call_fft_settles|done].
Qed.

Lemma capture_start_other_settles rid r null s :
  settles rid (bit (Nat.eqb r rid)) s (capture_start_other r null s).
Proof.
  unfold capture_start_other. destruct (currentMode s); [| |apply settles_respond].
  all: destruct null;
    [ apply (settles_optional rid _ _ _ s (fun s1 => (with_mode sdr_idle s1, [_]))); intros; by apply settles_answer
    | apply (settles_optional rid _ _ _ s (fun s1 => (s1, [_]))); intros; by apply settles_drop ].
Qed.

Lemma signal_check_other_settles rid r null now s :
  settles rid (bit (Nat.eqb r rid)) s (signal_check_other r null now s).
Proof.
  unfold signal_check_other. destruct (currentMode s); [| |apply settles_respond].
  all: destruct null;
    [|apply (settles_optional rid _ _ _ s (fun s1 => (s1, [_]))); intros; by apply settles_drop].
  all: set (x := Respond _ _ _);
    pose proof (settles_optional rid (bit (Nat.eqb r rid)) (running s) (FftStream.stopFFTStream (fft s)) s
      (fun s1 => let '(s2, o2) := restart_fft now (running s) s1 in (s2, o2 ++ [x]))) as H.
  all: assert (H1 : forall s1, settles rid (bit (Nat.eqb r rid)) s1
    (let '(s2, o2) := restart_fft now (running s) s1 in (s2, o2 ++ [x])));
    [intros s1; pose proof (restart_fft_settles rid now (running s) s1) as Hr;
     destruct (restart_fft now (running s) s1) as [s2 o2];
     apply (settles_seq rid 0 _ s1 s2 o2 s2 [x]); [exact Hr|apply settles_respond]|].
  all: specialize (H H1); destruct (if running s then _ else _) as [s1 o1];
    by destruct (restart_fft now (running s) s1).
Qed.

Lemma route_settles port host rid r now random method path b s :
  settles rid (bit (Nat.eqb r rid)) s (route port host r now random method path b s).
Proof.
  unfold route.
  repeat match goal with
  | |- settles _ _ _ (if ?c then _ else _) => destruct c
  | |- settles _ _ _ (s, [Respond _ _ _]) => apply settles_respond
  | |- settles _ _ _ (s, [Untyped _]) => by apply settles_drop
  | |- settles _ _ _ (suspend _ _, _) => by apply settles_suspend
  | |- settles _ _ _ (capture_audio _ _ _) => apply capture_audio_settles
  | |- settles _ _ _ (s, capture_status _ _ _) => apply capture_status_settles
  | |- settles _ _ _ (with_body _ _ _ _) => apply with_body_settles; intros []
  end.
  all: first [apply tune_settles | apply capture_start_settles | apply capture_start_other_settles
             | apply capture_stop_settles | apply signal_check_settles
             | apply signal_check_other_settles | apply settles_respond].
Qed.

Lemma on_request_settles port host rid r now random method path b s :
  settles rid (bit (Nat.eqb r rid)) s (on_request port host r now random method path b s).
Proof.
  unfold on_request. destruct path; [|by apply settles_drop].
  destruct (String.eqb method "OPTIONS"); [apply settles_respond|apply route_settles].
Qed.

Lemma tick_settles rid now id s : settles rid 0 s (tick now id s).
Proof.
  unfold tick. destruct (activeSessions s !! id) as [d|]; [|done].
  destruct (decide _); [|done]. cbn [sd_durationSeconds]. destruct (_ <=?q _); [|done].
  unfold settles. cbn [fst snd]. rewrite pending_suspend, bool_decide_eq_false_2 by done.
  unfold answered, dropped, pending. simpl. lia.
Qed.

Lemma relay_fft_settles rid throws os : forall s, settles rid 0 s (relay_fft throws os s).
Proof.
  induction os as [|o os IH]; intros s; [done|]. simpl.
  destruct o as [cb d|pid f g b|pid n|b|m]; [|specialize (IH s); by destruct (relay_fft throws os s)..].
  set (s1 := with_subscribers _ s). specialize (IH s1). destruct (relay_fft throws os s1) as [s2 o2].
  unfold settles in *. cbn [fst snd] in *. rewrite answered_app, dropped_app.
  match goal with |- context [map (fun ws => Send ws ?m) ?l] => destruct (answered_send rid m l) as [-> ->] end.
  exact IH.
Qed.

Lemma signal_checked_settles rid r f was now a s :
  settles rid (bit (Nat.eqb r rid)) s (signal_checked r f was now a s).
Proof.
  unfold signal_checked. set (final := match a with inr _ => _ | inl _ => _ end).
  pose proof (restart_fft_settles rid now was s) as Hr.
  destruct (restart_fft now was s) as [s1 o1].
  apply (settles_seq rid 0 _ s s1 o1 s1 [final]); [exact Hr|].
  subst final. destruct a; apply settles_respond.
Qed.

Lemma resume_settles rid now t a s r : resume now t a s = Some r ->
  settles rid (bit (bool_decide (task_rid t = Some rid))) s r.
Proof.
  destruct t, a; try done; cbn [resume task_rid]; intros [= <-]; rewrite ?eqb_rid.
  - apply settles_respond.
  - destruct r0; by apply settles_answer.
  - by apply settles_answer.
  - rewrite bool_decide_eq_false_2 by done. done.
  - unfold audio_read. destruct r0; apply settles_respond.
  - apply signal_checked_settles.
Qed.

Definition asks (rid : nat) (e : event) : bool :=
  match e with ERequest r _ _ _ _ => Nat.eqb r rid | _ => false end.

(** The body is one its route can use, or none at all, or null. *)
Definition body_typed (path : string) (body : Request) : bool :=
  if String.eqb path "/sdr/tune" then
    match body with QStart _ | QStop _ | QCheck _ | QOther => false | _ => true end
  else if String.eqb path "/sdr/capture/start" then
    match body with QTune _ | QStop _ | QCheck _ | QOther => false | _ => true end
  else if String.eqb path "/sdr/signal/check" then
    match body with QTune _ | QStart _ | QStop _ | QOther => false | _ => true end
  else true.

(** The address is accepted, and the body is of the type it is cast to. *)
Definition understood (e : event) : bool :=
  match e with
  | ERequest _ _ _ None _ => false
  | ERequest _ _ _ (Some path) b => body_typed path b
  | _ => true
  end.

Section RunFacts.
Context (port : Z) (host : string).
Context (cos : nat -> nat -> Q) (log10 : Q -> Q) (transform : nat -> list Q -> list Q).
Local Notation step := (step port host cos log10 transform).
Local Notation run := (run port host cos log10 transform).

Lemma step_settles rid now e s : settles rid (bit (asks rid e)) s (step now e s).
Proof.
  destruct e as [r random method path b|k a|id|ws m|ws|throws e]; cbn [step asks].
  - apply on_request_settles.
  - destruct (tasks s !! k) as [t|] eqn:Hk; [|done].
    set (s0 := mkRelay _ _ _ _ _ _). destruct (resume now t a s0) as [r|] eqn:E; [|done].
    pose proof (resume_settles rid now t a s0 r E) as H.
    pose proof (pending_delete rid k t s s0 Hk eq_refl). unfold settles in *. simpl. lia.
  - case_bool_decide; [apply tick_settles|done].
  - destruct m; [apply handleFFTMessage_settles|done].
  - apply (stop_unused_settles rid (with_subscribers _ s)).
  - destruct (FftStream.step _ _ _ _ _ _) as [f os].
    apply (relay_fft_settles rid throws os (mkRelay _ _ _ _ _ _)).
Qed.

Lemma run_settles rid evs : forall s,
  settles rid (length (js_filter (fun e => asks rid e.2) evs)) s (run evs s).
Proof.
  induction evs as [|[now e] evs IH]; intros s; [done|].
  simpl. pose proof (step_settles rid now e s) as H. destruct (step now e s) as [s1 o1].
  specialize (IH s1). destruct (run evs s1) as [s2 o2].
  pose proof (settles_seq _ _ _ _ _ _ _ _ H IH) as Hs. simpl in *. by destruct (asks rid e).
Qed.
End RunFacts.

(** ** What is dropped *)

(** The outputs but for exceptions nobody catches and values of other types. *)
Definition kept (o : output) : Prop :=
  match o with Uncaught _ _ | Untyped _ => False | _ => True end.

Lemma kept_not_dropped rid os : Forall kept os -> dropped rid os = 0%nat.
Proof. induction 1 as [|o os Ho _ IH]; [done|]. unfold dropped in *. by destruct o. Qed.

Lemma stream_kept os : Forall kept (map Stream os).
Proof. induction os; by constructor. Qed.

Lemma send_kept m l : Forall kept (map (fun ws => Send ws m) l).
Proof. induction l; by constructor. Qed.

(** Cases on what the handlers test. *)
Ltac branch_case :=
  match goal with
  | H : match ?c with _ => _ end = (_, _) |- _ => destruct c
  | H : (_, _) = (_, _) |- _ => injection H as <- <-
  | |- context [match ?x with _ => _ end] => destruct x eqn:?
  end.

Ltac branch_cases := repeat branch_case.

(** A property of every output, by these cases; [streams] is that of the FFT module's. *)
Ltac outputs_cases streams :=
  repeat first
    [ done | apply Forall_nil_2 | apply Forall_cons_2; [done|] | apply Forall_app_2 | apply streams
    | progress (unfold call_fft in *; cbn [fst snd] in *) | branch_case ].

Lemma on_request_kept port host r now random method path b s :
  understood (ERequest r random method path b) = true ->
  Forall kept (on_request port host r now random method path b s).2.
Proof.
  unfold understood, body_typed, on_request, route. destruct path as [path|]; [|done].
  destruct (String.eqb method "OPTIONS"); [by repeat constructor|].
  unfold tune, capture_start, capture_start_other, capture_stop, signal_check, signal_check_other,
    with_body, capture_status, capture_audio, session_not_found, restart_fft.
  destruct (String.eqb path "/sdr/tune"), (String.eqb path "/sdr/capture/start"),
    (String.eqb path "/sdr/signal/check"), b; intros H; try discriminate H; clear H; outputs_cases stream_kept.
Qed.

Lemma relay_fft_kept throws os : forall s, Forall kept (relay_fft throws os s).2.
Proof.
  induction os as [|o os IH]; intros s; [by constructor|]. simpl.
  destruct o as [cb d|pid f g b|pid n|b|m];
    [|specialize (IH s); destruct (relay_fft throws os s); by constructor..].
  set (s1 := with_subscribers _ s). specialize (IH s1). destruct (relay_fft throws os s1).
  apply Forall_app_2; [apply send_kept|exact IH].
Qed.

Lemma resume_kept now t a s r : resume now t a s = Some r -> Forall kept r.2.
Proof.
  destruct t as [rid|rid id d|rid id|id|rid id|rid f was], a; try done; cbn [resume]; intros [= <-].
  all: unfold capture_started, capture_stopped, signal_checked, restart_fft, audio_read; outputs_cases stream_kept.
Qed.

(** A request only adds tasks. *)
Lemma on_request_tasks port host r now random method path b s :
  exists l, tasks (on_request port host r now random method path b s).1 = tasks s ++ l.
Proof.
  unfold on_request, route, tune, capture_start, capture_start_other, capture_stop, signal_check,
    signal_check_other, with_body, capture_audio, restart_fft, call_fft.
  branch_cases; first [by exists []; rewrite app_nil_r | by eexists [_]].
Qed.

Section Dropped.
Context (port : Z) (host : string).
Context (cos : nat -> nat -> Q) (log10 : Q -> Q) (transform : nat -> list Q -> list Q).
Local Notation step := (step port host cos log10 transform).
Local Notation run := (run port host cos log10 transform).

Lemma step_kept now e s : understood e = true -> Forall kept (step now e s).2.
Proof.
  destruct e as [r random method path b|k a|id|ws m|ws|throws e]; cbn [step].
  - apply on_request_kept.
  - intros _. destruct (tasks s !! k) as [t|]; [|by constructor].
    destruct (resume now t a _) as [r|] eqn:E; [by eapply resume_kept|by constructor].
  - intros _. case_bool_decide; [|by constructor]. unfold tick. outputs_cases stream_kept.
  - intros _. unfold on_ws_message, handleFFTMessage, stop_unused. outputs_cases stream_kept.
  - intros _. unfold on_ws_close, stop_unused. outputs_cases stream_kept.
  - intros _. destruct (FftStream.step _ _ _ _ _ _) as [f os]. apply relay_fft_kept.
Qed.

Lemma step_dropped rid now e s :
  (dropped rid (step now e s).2 <= bit (asks rid e && negb (understood e)))%nat.
Proof.
  destruct (understood e) eqn:E; [rewrite (kept_not_dropped _ _ (step_kept now e s E)); lia|].
  rewrite andb_true_r. destruct e as [r random method path b| | | | |]; try done. cbn [asks].
  pose proof (on_request_settles port host rid r now random method path b s) as H.
  destruct (on_request_tasks port host r now random method path b s) as [l Hl].
  unfold settles, pending in H. rewrite Hl in H. unfold js_filter in H.
  rewrite List.filter_app, length_app in H. cbn [Relay.step]. lia.
Qed.

Lemma run_dropped rid evs : forall s,
  (dropped rid (run evs s).2 <= length (js_filter (fun e => asks rid e.2 && negb (understood e.2)) evs))%nat.
Proof.
  induction evs as [|[now e] evs IH]; intros s; [done|]. simpl.
  pose proof (step_dropped rid now e s) as H. destruct (step now e s) as [s1 o1].
  specialize (IH s1). destruct (run evs s1) as [s2 o2]. cbn [snd] in *. rewrite dropped_app.
  destruct (_ && _); cbn in *; lia.
Qed.
End Dropped.

(** ** The recordings *)

Definition recording (id : string) (s : state) : Prop :=
  exists d, activeSessions s !! id = Some d /\ sd_status d = session_recording.

(** The mode says "recording" only while a session is; every recording session
    will be stopped by its interval or is being stopped by it; no session fails. *)
Record watched (s : state) : Prop := mkWatched {
  mode_truthful : currentMode s = sdr_recording -> exists id, recording id s;
  session_watched : forall id, recording id s -> id ∈ intervals s \/ TAutoStop id ∈ tasks s;
  no_error_session : forall id d, activeSessions s !! id = Some d -> sd_status d <> session_error;
  no_audio_task : forall rid id, TAudio rid id ∉ tasks s
}.

(** A step that leaves the sessions alone. *)
Record quiet (s s' : state) : Prop := mkQuiet {
  quiet_sessions : activeSessions s' = activeSessions s;
  quiet_intervals : intervals s' = intervals s;
  quiet_tasks : forall t, t ∈ tasks s -> t ∈ tasks s';
  quiet_audio : forall rid id, TAudio rid id ∈ tasks s' -> TAudio rid id ∈ tasks s;
  quiet_mode : currentMode s' = sdr_recording -> currentMode s = sdr_recording
}.

#[export] Instance quiet_preorder : PreOrder quiet.
Proof.
  split; [by split|]. intros s1 s2 s3 [a1 a2 a3 a4 a5] [b1 b2 b3 b4 b5].
  split; [congruence|congruence|auto..].
Qed.

Lemma quiet_watched s s' : quiet s s' -> watched s -> watched s'.
Proof.
  intros [q1 q2 q3 q4 q5] [w1 w2 w3 w4]. unfold recording in *. split; unfold recording; rewrite ?q1, ?q2.
  - auto.
  - intros id Hid. destruct (w2 id Hid); auto.
  - exact w3.
  - intros rid id Hin. by apply (w4 rid id), q4.
Qed.

Lemma call_fft_quiet r s : quiet s (call_fft r s).1.
Proof. by split. Qed.

Lemma with_subscribers_quiet l s : quiet s (with_subscribers l s).
Proof. by split. Qed.

Lemma with_mode_quiet m s : m <> sdr_recording -> quiet s (with_mode m s).
Proof. by split. Qed.

Lemma suspend_quiet t s : (forall rid id, t <> TAudio rid id) -> quiet s (suspend t s).
Proof.
  intros Ht. split; try done; simpl.
  - intros t' Hin. apply elem_of_app. by left.
  - intros rid id [Hin|Hin]%elem_of_app; [done|]. apply list_elem_of_singleton in Hin. by destruct (Ht rid id).
Qed.

(** A quiet step after an optional FFT call. *)
Lemma optional_quiet (b : bool) r s f :
  (forall s1, quiet s1 (f s1).1) ->
  quiet s (let '(s1, o1) := if b then call_fft r s else (s, []) in
           let '(s2, o2) := f s1 in (s2, o1 ++ o2)).1.
Proof.
  intros Hf. destruct b.
  - pose proof (call_fft_quiet r s) as H. destruct (call_fft r s) as [s1 o1]. specialize (Hf s1).
    destruct (f s1) as [s2 o2]. simpl in *. by etransitivity.
  - specialize (Hf s). by destruct (f s).
Qed.

Lemma stop_unused_quiet s : quiet s (stop_unused s).1.
Proof. unfold stop_unused. destruct (fftSubscribers s), (running s); by split. Qed.

Lemma handleFFTMessage_quiet now ws m s : quiet s (handleFFTMessage now ws m s).1.
Proof.
  destruct m as [c| |f|d|c| |m]; try done; simpl.
  - destruct (currentMode s) eqn:E; [| |done]; destruct (running (with_subscribers _ s)); by split.
  - set (s1 := with_subscribers _ s). pose proof (stop_unused_quiet s1) as H.
    destruct (stop_unused s1). transitivity s1; [apply with_subscribers_quiet|exact H].
  - by destruct (running s).
Qed.

Lemma broadcast_quiet throws d s : quiet s (broadcastFFTData throws d s).1.
Proof. by split. Qed.

Lemma relay_fft_quiet throws os : forall s, quiet s (relay_fft throws os s).1.
Proof.
  induction os as [|o os IH]; intros s; [done|]. simpl. destruct o as [cb d|pid f g b|pid n|b|m].
  2-5: specialize (IH s); by destruct (relay_fft throws os s).
  set (s1 := with_subscribers _ s). specialize (IH s1).
  destruct (relay_fft throws os s1) as [s2 o2]. simpl in *.
  transitivity s1; [apply with_subscribers_quiet|exact IH].
Qed.

(** The path of a recording is answered before the route of its audio. *)
Lemma audio_shadowed path method : is_audio_path path && method = true ->
  startsWith "/sdr/capture/" path && method = false -> False.
Proof.
  unfold is_audio_path. intros [[H1 _]%andb_true_iff H2]%andb_true_iff. by rewrite H1, H2.
Qed.

Lemma restart_fft_quiet now was x : quiet x (restart_fft now was x).1.
Proof.
  unfold restart_fft. destruct was; [|done]. destruct (FftStream.getFFTStreamConfig _); [|done].
  apply call_fft_quiet.
Qed.

Lemma other_quiet rid null now s :
  quiet s (capture_start_other rid null s).1 /\ quiet s (signal_check_other rid null now s).1.
Proof.
  unfold capture_start_other, signal_check_other, restart_fft, call_fft.
  split; branch_cases; by split.
Qed.

Lemma route_quiet port host r now random method path b s :
  quiet s (route port host r now random method path b s).1.
Proof.
  unfold route, with_body.
  repeat match goal with
  | |- quiet _ (if ?c then _ else _).1 => destruct c eqn:?
  | |- quiet ?s (?s, _).1 => reflexivity
  | |- quiet _ (suspend _ _, _).1 => by apply suspend_quiet
  | |- quiet _ (match b with _ => _ end).1 => destruct b
  | |- quiet _ (capture_start_other _ _ _).1 => apply (other_quiet _ _ now)
  | |- quiet _ (signal_check_other _ _ _ _).1 => apply other_quiet
  end.
  - apply (optional_quiet _ _ s (fun s1 => (s1, [Respond r 200 (RTune (mkTuneResponse true (Some (tq_frequency r0))))]))).
    reflexivity.
  - unfold capture_start. destruct (currentMode s); [| |reflexivity].
    all: apply (optional_quiet _ _ s (fun s1 => (suspend _ s1, [_]))); intros; by apply suspend_quiet.
  - unfold capture_stop. destruct (activeSessions s !! _); [by apply suspend_quiet|done].
  - exfalso. by eapply audio_shadowed.
  - unfold signal_check. destruct (currentMode s); [| |reflexivity].
    all: apply (optional_quiet _ _ s (fun s1 => (suspend _ s1, [_]))); intros; by apply suspend_quiet.
Qed.

Lemma on_request_quiet port host r now random method path b s :
  quiet s (on_request port host r now random method path b s).1.
Proof.
  unfold on_request. destruct path; [|done]. destruct (String.eqb method "OPTIONS"); [done|apply route_quiet].
Qed.

(** ** The steps that change a session *)

Lemma capture_started_watched r id d now a s : watched s -> watched (capture_started r id d now a s).1.
Proof.
  intros Hw. destruct a as [m|session]; [by eapply quiet_watched; [apply with_mode_quiet|]|].
  destruct Hw as [w1 w2 w3 w4]. simpl. split; unfold recording; simpl.
  - intros _. exists id, (mkSessionData session now d session_recording 0). by rewrite lookup_insert_eq.
  - intros id' (d' & Hd' & Hr). destruct (decide (id = id')) as [<-|Hne]; [left; left|].
    rewrite lookup_insert_ne in Hd' by done. destruct (w2 id') as [H|H]; [by exists d'| |by right].
    left. by right.
  - intros id' d'. destruct (decide (id = id')) as [<-|Hne].
    + rewrite lookup_insert_eq. by intros [= <-].
    + rewrite lookup_insert_ne by done. apply w3.
  - exact w4.
Qed.

Lemma clear_interval_watched id s : watched s -> ~ recording id s -> watched (clear_interval id s).
Proof.
  intros [w1 w2 w3 w4] Hn. split; unfold recording in *; simpl; [auto| |done..].
  intros id' Hr. destruct (w2 id' Hr) as [H|H]; [|by right]. left. apply js_filter_elem. split; [done|].
  destruct (String.eqb_spec id' id) as [->|]; [by destruct Hn|done].
Qed.

Lemma tick_watched now id s : watched s -> watched (tick now id s).1.
Proof.
  intros Hw. unfold tick. destruct (activeSessions s !! id) as [d|] eqn:Hd.
  2:{ apply clear_interval_watched; [done|]. intros (d & Hd' & _). congruence. }
  destruct (decide _) as [Hr|Hr].
  2:{ apply clear_interval_watched; [done|]. intros (d' & Hd' & ?). congruence. }
  destruct Hw as [w1 w2 w3 w4]. cbn [sd_durationSeconds]. set (d1 := mkSessionData _ _ _ _ _).
  set (s1 := with_sessions _ s).
  assert (Hrec : forall i, recording i s1 <-> recording i s).
  { intros i. unfold recording, s1. simpl. destruct (decide (id = i)) as [<-|Hne].
    - rewrite lookup_insert_eq. split; intros _; [by exists d|by exists d1].
    - by rewrite lookup_insert_ne. }
  assert (Hs1 : watched s1).
  { split; [intros Hm; destruct (w1 Hm) as [i Hi]; exists i; by apply Hrec| | |exact w4].
    - intros i Hi%Hrec. apply (w2 i Hi).
    - intros i di. unfold s1. simpl. destruct (decide (id = i)) as [<-|Hne].
      + rewrite lookup_insert_eq. intros [= <-]. simpl. congruence.
      + rewrite lookup_insert_ne by done. apply w3. }
  destruct (_ <=?q _); [|exact Hs1]. destruct Hs1 as [v1 v2 v3 v4].
  split; unfold recording in *; simpl; [exact v1| |exact v3|].
  - intros i Hi. destruct (String.eqb_spec i id) as [->|Hne].
    + right. apply elem_of_app. right. by apply list_elem_of_singleton.
    + destruct (v2 i Hi) as [H|H]; [left|right; apply elem_of_app; by left].
      apply js_filter_elem. split; [done|]. by destruct (String.eqb_spec i id).
  - intros rid i [Hin|Hin]%elem_of_app; [by apply (v4 rid i)|].
    by apply list_elem_of_singleton in Hin.
Qed.

Lemma elem_of_delete_task (l : list task) k t x : l !! k = Some t ->
  x ∈ delete k l \/ x = t <-> x ∈ l.
Proof.
  intros Hk. rewrite <- (take_drop_middle _ _ _ Hk) at 2. rewrite delete_take_drop.
  rewrite !elem_of_app, elem_of_cons. tauto.
Qed.

Section Resume.
Context (s s0 : state) (k : nat) (t : task) (Ht : tasks s !! k = Some t)
  (Hs0 : s0 = mkRelay (fftSubscribers s) (activeSessions s) (currentMode s) (fft s)
                (delete k (tasks s)) (intervals s)).

Lemma removed_watched : watched s -> (forall id, t <> TAutoStop id) -> watched s0.
Proof.
  intros [w1 w2 w3 w4] Hn. subst s0. split; unfold recording in *; simpl; [done| |done|].
  - intros id Hr. destruct (w2 id Hr) as [H|H]; [by left|right].
    apply (elem_of_delete_task _ _ _ _ Ht) in H as [H|H]; [done|by destruct (Hn id)].
  - intros rid id Hin. apply (w4 rid id), (elem_of_delete_task _ _ _ _ Ht). by left.
Qed.

Lemma finish_watched id : watched s -> (forall id', t = TAutoStop id' -> id' = id) ->
  watched (finish id s0).
Proof.
  intros [w1 w2 w3 w4] Hid. subst s0. split; unfold recording in *; simpl; [done| | |].
  - intros id' (d & Hd & Hr). destruct (decide (id = id')) as [<-|Hne].
    { rewrite lookup_alter_eq in Hd. destruct (activeSessions s !! id); simplify_eq/=. }
    rewrite lookup_alter_ne in Hd by done. destruct (w2 id') as [H|H]; [by exists d|by left|right].
    apply (elem_of_delete_task _ _ _ _ Ht) in H as [H|H]; [done|].
    symmetry in H. by destruct Hne; rewrite (Hid id' H).
  - intros id' d. destruct (decide (id = id')) as [<-|Hne].
    + rewrite lookup_alter_eq. destruct (activeSessions s !! id); intros ?; by simplify_eq/=.
    + rewrite lookup_alter_ne by done. apply w3.
  - intros rid i Hin. apply (w4 rid i), (elem_of_delete_task _ _ _ _ Ht). by left.
Qed.

End Resume.

Lemma resume_watched s s0 k t now a r : tasks s !! k = Some t ->
  s0 = mkRelay (fftSubscribers s) (activeSessions s) (currentMode s) (fft s)
         (delete k (tasks s)) (intervals s) ->
  watched s -> resume now t a s0 = Some r -> watched r.1.
Proof.
  intros Ht Hs0 Hw.
  destruct t as [rid|rid id d|rid id|id|rid id|rid f was], a; try done; cbn [resume];
    intros [= <-]; try (by apply (removed_watched s s0 k _ Ht)).
  - apply capture_started_watched. by apply (removed_watched s s0 k _ Ht).
  - by apply (finish_watched s s0 k _ Ht).
  - apply (finish_watched s s0 k _ Ht); [done..|]. by intros id' [= ->].
  - unfold signal_checked. pose proof (restart_fft_quiet now was s0) as H.
    destruct (restart_fft now was s0) as [s1 o1]. apply (quiet_watched s0); [exact H|].
    by apply (removed_watched s s0 k _ Ht).
Qed.

Section Watched.
Context (port : Z) (host : string).
Context (cos : nat -> nat -> Q) (log10 : Q -> Q) (transform : nat -> list Q -> list Q).
Local Notation step := (step port host cos log10 transform).
Local Notation run := (run port host cos log10 transform).

Lemma step_watched now e s : watched s -> watched (step now e s).1.
Proof.
  intros Hw. destruct e as [r random method path b|k a|id|ws m|ws|throws e]; cbn [step].
  - by apply (quiet_watched s); [apply on_request_quiet|].
  - destruct (tasks s !! k) as [t|] eqn:Hk; [|done].
    destruct (resume now t a _) as [r|] eqn:E; [|done]. by apply (resume_watched s _ k t now a r Hk eq_refl).
  - case_bool_decide; [by apply tick_watched|done].
  - destruct m; [|done]. by apply (quiet_watched s); [apply handleFFTMessage_quiet|].
  - apply (quiet_watched s); [|done]. unfold on_ws_close.
    etransitivity; [apply with_subscribers_quiet|apply stop_unused_quiet].
  - destruct (FftStream.step _ _ _ _ _ _) as [f os]. apply (quiet_watched s); [|done].
    etransitivity; [|apply relay_fft_quiet]. by split.
Qed.

Lemma run_watched evs : forall s, watched s -> watched (run evs s).1.
Proof.
  induction evs as [|[now e] evs IH]; intros s Hw; simpl; [done|].
  pose proof (step_watched now e s Hw) as H. destruct (step now e s) as [s1 o1].
  specialize (IH s1 H). by destruct (run evs s1).
Qed.

Lemma initial_watched : watched initial.
Proof.
  split; simpl; [done| | |].
  - by intros id (d & Hd & _).
  - by intros id d Hd.
  - intros rid id Hin. by apply not_elem_of_nil in Hin.
Qed.
End Watched.

(** ** The audio of a session *)

Lemma path_session_spec id rest : no_char slash id = true ->
  path_session ("/sdr/capture/" ++ id ++ String.String slash rest)%string = id.
Proof.
  intros Hid. unfold path_session.
  change ("/sdr/capture/" ++ id ++ String.String slash rest)%string
    with ("" ++ String.String slash ("sdr" ++ String.String slash ("capture" ++ String.String slash (id ++ String.String slash rest))))%string.
  rewrite !split_on_app by done. done.
Qed.

Definition status_of (id : string) (d : sessionData) : CaptureSession :=
  mkCaptureSession id (si_frequency (rs_satellite (sd_session d))) (sd_startTime d)
    (sd_durationSeconds d) (sd_status d) (sd_progress d)
    (if decide (sd_status d = session_complete) then Some (rs_outputPath (sd_session d)) else None)
    None.

(** The request for the audio of a session is answered with its status. *)
Lemma audio_request_status port host r now random id b s d :
  activeSessions s !! id = Some d -> no_char slash id = true ->
  on_request port host r now random "GET" (Some ("/sdr/capture/" ++ id ++ "/audio")%string) b s
  = (s, [Respond r 200 (RSession (status_of id d))]).
Proof.
  intros Hd Hid. unfold on_request, route.
  assert (Hs : startsWith "/sdr/capture/" ("/sdr/capture/" ++ id ++ "/audio")%string = true)
    by apply prefix_app.
  rewrite Hs. unfold capture_status.
  change "/audio"%string with (String.String slash "audio"). rewrite path_session_spec by done.
  rewrite Hd. change (String.eqb "GET" "POST") with false. rewrite !andb_false_r. reflexivity.
Qed.

(** Nothing a run shows reads or sends a recording. *)
Definition no_audio (o : output) : Prop :=
  match o with Respond _ _ (RAudio _) | ReadAudio _ _ => False | _ => True end.

Lemma stream_no_audio os : Forall no_audio (map Stream os).
Proof. induction os; by constructor. Qed.

Lemma call_fft_no_audio r s : Forall no_audio (call_fft r s).2.
Proof. apply stream_no_audio. Qed.

#[local] Hint Resolve stream_no_audio call_fft_no_audio Forall_app_2 : sat.

Lemma on_request_no_audio port host r now random method path b s :
  Forall no_audio (on_request port host r now random method path b s).2.
Proof.
  unfold on_request, route, tune, capture_start, capture_start_other, capture_stop, signal_check,
    signal_check_other, restart_fft, with_body, capture_status, session_not_found.
  destruct path as [path|]; [|by repeat constructor]. destruct (is_audio_path path) eqn:Ha; cbn [andb].
  - unfold is_audio_path in Ha. apply andb_true_iff in Ha as [-> _]. outputs_cases stream_no_audio.
  - outputs_cases stream_no_audio.
Qed.

Lemma handleFFTMessage_no_audio now ws m s : Forall no_audio (handleFFTMessage now ws m s).2.
Proof. unfold handleFFTMessage, stop_unused. outputs_cases stream_no_audio. Qed.

Lemma send_no_audio m l : Forall no_audio (map (fun ws => Send ws m) l).
Proof. induction l; by constructor. Qed.

Lemma relay_fft_no_audio throws os : forall s, Forall no_audio (relay_fft throws os s).2.
Proof.
  induction os as [|o os IH]; intros s; [by constructor|]. simpl.
  destruct o as [cb d|pid f g b|pid n|b|m];
    [|specialize (IH s); destruct (relay_fft throws os s); by constructor..].
  set (s1 := with_subscribers _ s). specialize (IH s1). destruct (relay_fft throws os s1).
  apply Forall_app_2; [apply send_no_audio|exact IH].
Qed.

Lemma resume_no_audio now t a s r : (forall rid id, t <> TAudio rid id) ->
  resume now t a s = Some r -> Forall no_audio r.2.
Proof.
  intros Ht. destruct t as [rid|rid id d|rid id|id|rid id|rid f was], a; try done; cbn [resume];
    intros [= <-]; try (by destruct (Ht rid id)).
  all: unfold capture_started, capture_stopped, signal_checked, restart_fft; outputs_cases stream_no_audio.
Qed.

Section AudioRun.
Context (port : Z) (host : string).
Context (cos : nat -> nat -> Q) (log10 : Q -> Q) (transform : nat -> list Q -> list Q).
Local Notation step := (step port host cos log10 transform).
Local Notation run := (run port host cos log10 transform).

Lemma step_no_audio now e s : watched s -> Forall no_audio (step now e s).2.
Proof.
  intros Hw. destruct e as [r random method path b|k a|id|ws m|ws|throws e]; cbn [step].
  - apply on_request_no_audio.
  - destruct (tasks s !! k) as [t|] eqn:Hk; [|by constructor].
    destruct (resume now t a _) as [r|] eqn:E; [|by constructor].
    eapply resume_no_audio; [|exact E]. intros rid id ->.
    apply list_elem_of_lookup_2 in Hk. by apply (no_audio_task s Hw rid id) in Hk.
  - case_bool_decide; [|by constructor]. unfold tick. outputs_cases stream_no_audio.
  - destruct m; [apply handleFFTMessage_no_audio|by repeat constructor].
  - unfold on_ws_close, stop_unused. outputs_cases stream_no_audio.
  - destruct (FftStream.step _ _ _ _ _ _) as [f os]. apply relay_fft_no_audio.
Qed.

Lemma run_no_audio evs : forall s, watched s -> Forall no_audio (run evs s).2.
Proof.
  induction evs as [|[now e] evs IH]; intros s Hw; simpl; [by constructor|].
  pose proof (step_watched port host cos log10 transform now e s Hw) as H.
  pose proof (step_no_audio now e s Hw) as Ho. destruct (step now e s) as [s1 o1].
  specialize (IH s1 H). destruct (run evs s1). by apply Forall_app_2.
Qed.
End AudioRun.

(** ** Properties *)

Section Properties.
Context (port : Z) (host : string).
Context (cos : nat -> nat -> Q) (log10 : Q -> Q) (transform : nat -> list Q -> list Q).

(** C15: Every HTTP request is answered exactly once, or its handler is still waiting, or it
    was dropped: whatever the interleaving of requests, answers, timers, sockets and the FFT
    process, these are as many as the times it came, and it is dropped only when its
    address is none (node then ends the process) or its body has not the type it is cast to. *)
Theorem relay_answers_once rid evs :
  let '(s, outs) := run port host cos log10 transform evs initial in
  (answered rid outs + dropped rid outs + pending rid s = length (js_filter (fun e => asks rid e.2) evs))%nat /\
  (dropped rid outs <= length (js_filter (fun e => asks rid e.2 && negb (understood e.2)) evs))%nat.
Proof.
  pose proof (run_settles port host cos log10 transform rid evs initial) as H.
  pose proof (run_dropped port host cos log10 transform rid evs initial) as Hd.
  unfold settles in H. destruct (run _ _ _ _ _ evs initial) as [s outs].
  cbn [fst snd] in *. unfold pending in H at 2. simpl in H. split; [lia|exact Hd].
Qed.

(** C28: In every reachable state the mode says "recording" only while a session is
    being recorded, every session being recorded has its progress interval or is
    being stopped by it, and no session is ever in the error state. *)
Theorem relay_recordings_watched evs :
  let s := (run port host cos log10 transform evs initial).1 in
  (currentMode s = sdr_recording -> exists id, recording id s) /\
  (forall id, recording id s -> id ∈ intervals s \/ TAutoStop id ∈ tasks s) /\
  (forall id d, activeSessions s !! id = Some d -> sd_status d <> session_error).
Proof.
  pose proof (run_watched port host cos log10 transform evs initial initial_watched) as [H1 H2 H3 _].
  done.
Qed.

(** The relay never sends a recording: its route for the audio of a session is
    shadowed by the route for its status, so no run reads or answers an audio
    file. *)
Theorem relay_never_sends_audio evs :
  Forall no_audio (run port host cos log10 transform evs initial).2.
Proof. apply run_no_audio, initial_watched. Qed.

(** The client and the relay together: when the audio request of a known session
    gets the relay's answer, the client saves that answer, the status of the session,
    under a .wav name and reports success. *)
Theorem remote_recording_saves_status {W} (h : forall c, W -> resp c * W) now random rid s id d
  url dir sat w
  (Hid : activeSessions s !! id = Some d) (Hslash : no_char slash id = true)
  (Hrelay : let path := ("/sdr/capture/" ++ id ++ "/audio")%string in
     forall status body,
       (step port host cos log10 transform now (ERequest rid random "GET" (Some path) NoBody) s).2
         = [Respond rid status body] ->
       (h (Http "GET" (url ++ path)%string NoBody) w).1 = inr (mkHttpReply status body))
  (Hdir : forall w', (h (EnsureDir dir) w').1 = inr tt)
  (Hwrite : forall p b w', (h (WriteBody p b) w').1 = inr tt) :
  exists path, result h (SdrClient.download url dir id sat) w = Ok path /\
    WriteBody path (RSession (status_of id d)) ∈ trace h (SdrClient.download url dir id sat) w.
Proof.
  cbv zeta in Hrelay. specialize (Hrelay 200 (RSession (status_of id d))).
  cbn [step] in Hrelay. rewrite (audio_request_status port host rid now random id NoBody s d Hid Hslash) in Hrelay.
  specialize (Hrelay eq_refl).
  assert (Hok : exists path, result h (SdrClient.download url dir id sat) w = Ok path).
  { unfold SdrClient.download, SdrClient.fetch, bindR. props. rewrite Hrelay. cbn [of_sum]. props.
    change (reply_ok _) with true. cbn [negb]. props. rewrite Hdir. cbn [of_sum]. props. rewrite Hwrite.
    cbn [of_sum]. props. by eexists. }
  destruct Hok as [path Hp]. exists path. split; [exact Hp|].
  apply SdrClient.download_ok in Hp as (reply & Hr & _ & ->). rewrite Hrelay in Hr.
  injection Hr as <-. simpl. do 3 right. left.
Qed.
End Properties.

(** ** Runs for the witnesses, and what they show *)

Definition start_request (name : string) : Request :=
  QStart (mkStartRequest 137900000 600 48000 40 None (Some name)).

Definition session_of (name : string) : RecordingSession :=
  mkSession (capture_satellite (mkStartRequest 137900000 600 48000 40 None (Some name)))
    ("/tmp/sdr-relay/" ++ name ++ ".wav")%string 1100.

Definition post (path : string) (rid : nat) (random : string) (b : Request) : event :=
  ERequest rid random "POST" (Some path) b.

(** One recording from start to its end, with its status and its audio asked for. *)
Definition sample_run : list (Z * event) :=
  [ (1000, post "/sdr/capture/start" 1 "a" (start_request "M3"));
    (1100, EResume 0 (ASession (inr (session_of "M3"))));
    (2100, ETick "capture-1000-a");
    (301100, ETick "capture-1000-a");
    (601200, ETick "capture-1000-a");
    (601300, EResume 0 AStopped);
    (602000, ERequest 2 "" "GET" (Some "/sdr/capture/capture-1000-a"%string) NoBody);
    (603000, ERequest 3 "" "GET" (Some "/sdr/capture/capture-1000-a/audio"%string) NoBody) ].

(** The status codes of the answers, in order. *)
Definition replies (os : list output) : list (nat * Z) :=
  omap (fun o => match o with Respond r c _ => Some (r, c) | _ => None end) os.

Section Runs.
Context (cos : nat -> nat -> Q) (log10 : Q -> Q) (transform : nat -> list Q -> list Q).
Local Notation run := (run 3001 "0.0.0.0" cos log10 transform).

(** A request for //, which [new URL] refuses, and a null body. *)
Example refused_and_null :
  let r := run [ (1000, ERequest 1 "" "GET" None NoBody);
                 (1001, post "/sdr/capture/start" 2 "a" QNull);
                 (1002, post "/sdr/tune" 3 "" NoBody); (1003, post "/sdr/capture/stop" 4 "" QOther) ] initial in
  dropped 1 r.2 = 1%nat /\ replies r.2 = [(2%nat, 500); (3%nat, 500); (4%nat, 404)].
Proof. vm_compute. done. Qed.

(** Two starts that both arrive before the first recording has begun are both
    accepted: the check of the mode and its change are separated by an await. *)
Example overlapping_starts_both_record :
  let r := run
    [ (1000, post "/sdr/capture/start" 1 "a" (start_request "M3"));
      (1001, post "/sdr/capture/start" 2 "b" (start_request "M4"));
      (1100, EResume 0 (ASession (inr (session_of "M3"))));
      (1101, EResume 0 (ASession (inr (session_of "M4")))) ] initial in
  recording "capture-1000-a" r.1 /\ recording "capture-1001-b" r.1 /\
  replies r.2 = [(1%nat, 200); (2%nat, 200)].
Proof.
  split; [eexists; split; vm_compute; reflexivity|].
  split; [eexists; split; vm_compute; reflexivity|]. vm_compute. reflexivity.
Qed.

(** Stopping a session that is already complete makes the mode idle while another
    one is being recorded. *)
Example stop_of_old_session_frees_mode :
  let s := (run
    [ (1000, post "/sdr/capture/start" 1 "a" (start_request "M3"));
      (1100, EResume 0 (ASession (inr (session_of "M3"))));
      (2000, post "/sdr/capture/stop" 2 "" (QStop (mkStopRequest "capture-1000-a")));
      (2100, EResume 0 AStopped);
      (3000, post "/sdr/capture/start" 3 "b" (start_request "M4"));
      (3100, EResume 0 (ASession (inr (session_of "M4"))));
      (4000, post "/sdr/capture/stop" 4 "" (QStop (mkStopRequest "capture-1000-a")));
      (4100, EResume 0 AStopped) ] initial).1 in
  currentMode s = sdr_idle /\ recording "capture-3000-b" s.
Proof. split; [vm_compute; reflexivity|]. eexists. split; vm_compute; reflexivity. Qed.

(** A signal check while spectra are streamed: once the stopped process has ended
    the configuration is gone, so the stream is not restarted although there are
    subscribers and the mode still says so. *)
Example signal_check_loses_stream :
  let s := (run
    [ (1000, EMessage 7 (Some (Subscribe (FftStream.mkFFTConfig 137900000 200000 1024 40 10))));
      (9000, post "/sdr/signal/check" 1 "" (QCheck (mkCheckRequest 137900000 40)));
      (9100, EStream (fun _ => false) (FftStream.EClose 0 None));
      (9100, EStream (fun _ => false) (FftStream.EResume 0));
      (12000, EResume 0 (AChecked (inr true))) ] initial).1 in
  running s = false /\ FftStream.tasks (fft s) = [] /\ fftSubscribers s = [7%nat] /\
  currentMode s = sdr_fft.
Proof. vm_compute. done. Qed.
End Runs.

Definition no_transform : nat -> list Q -> list Q := fun _ l => l.

(** A client in front of the relay at the end of [sample_run]. *)
Definition sample_relay : state :=
  (run 3001 "0.0.0.0" (fun _ _ => 0%Q) id no_transform sample_run initial).1.

Lemma sample_session : exists d, activeSessions sample_relay !! "capture-1000-a"%string = Some d /\
  sd_status d = session_complete.
Proof. eexists. split; vm_compute; reflexivity. Qed.

Definition relay_reply (url : string) : HttpReply :=
  match (step 3001 "0.0.0.0" (fun _ _ => 0%Q) id no_transform 604000
           (ERequest 9 "" "GET" (Some (slice_from 9 url)) NoBody) sample_relay).2 with
  | [Respond _ c b] => mkHttpReply c b
  | _ => mkHttpReply 500 REmpty
  end.

Definition relay_handle (c : call) (w : world) : resp c * world :=
  match c as c return resp c * world with
  | Http m url b => (inr (relay_reply url), w)
  | c => handle c w
  end.

Lemma remote_recording_saves_status_witness :
  exists d path, activeSessions sample_relay !! "capture-1000-a" = Some d /\
    sd_status d = session_complete /\
    result relay_handle (SdrClient.download "http://pi" "./recordings" "capture-1000-a"
                           sample_satellite) sample_world = Ok path /\
    WriteBody path (RSession (status_of "capture-1000-a" d)) ∈
      trace relay_handle (SdrClient.download "http://pi" "./recordings" "capture-1000-a"
                            sample_satellite) sample_world.
Proof.
  destruct sample_session as (d & E & Hs).
  destruct (remote_recording_saves_status 3001 "0.0.0.0" (fun _ _ => 0%Q) id no_transform relay_handle
              604000 "" 9 sample_relay "capture-1000-a" d "http://pi" "./recordings"
              sample_satellite sample_world E eq_refl) as (path & Hp & Hw).
  - cbv zeta. intros status body H. cbn [relay_handle fst]. unfold relay_reply.
    change (slice_from 9 _) with ("/sdr/capture/" ++ "capture-1000-a" ++ "/audio")%string.
    by rewrite H.
  - intros w'. exact eq_refl.
  - intros p b w'. exact eq_refl.
  - exists d, path. split; [exact E|]. split; [exact Hs|]. split; [exact Hp|exact Hw].
Defined.

End Relay.
