(* ===== verification/RelaySpec.v ===== *)
(** * The life of a capture session, as a specification of the relay

    A capture session is absent, then being recorded, then complete, and never
    goes back: an abstract machine of three states with stuttering.  The relay of
    Relay.v refines it, session by session, as long as the identifiers it draws
    are distinct. *)

From stdpp Require Import gmap.
From S2P Require Import Prelude JsStd Types RelayApi StateManager Effects Shell.
From S2P Require Import Recorder FftStream SdrInterfaces Relay.
Import Recorder Relay.
Local Open Scope Z_scope.

Module RelaySpec.

(** ** The abstract machine *)

Inductive life_step : option SessionStatus -> option SessionStatus -> Prop :=
| life_begin : life_step None (Some session_recording)
| life_end : life_step (Some session_recording) (Some session_complete)
| life_stutter x : life_step x x.

(** The abstraction of a relay state, for one session. *)
Definition life (id : string) (s : state) : option SessionStatus :=
  sd_status <$> activeSessions s !! id.

(** ** The identifiers in use *)

Definition start_id (t : task) : option string :=
  match t with TStart _ id _ => Some id | _ => None end.

(** The sessions that are being started. *)
Definition claimed (s : state) : list string := omap start_id (tasks s).

(** The identifiers the requests of a run draw. *)
Definition drawn_by (e : Z * event) : option string :=
  match e with
  | (now, ERequest _ random method (Some path) (QStart _)) =>
      if String.eqb path "/sdr/capture/start" && String.eqb method "POST"
      then Some (generateSessionId now random) else None
  | _ => None
  end.

Definition drawn (evs : list (Z * event)) : list string := omap drawn_by evs.

Record fresh (used : list string) (s : state) : Prop := mkFresh {
  claimed_once : NoDup (claimed s);
  claimed_new : forall id, id ∈ claimed s -> activeSessions s !! id = None /\ id ∈ used;
  sessions_used : forall id, is_Some (activeSessions s !! id) -> id ∈ used
}.

Lemma fresh_mono used used' s : fresh used s -> (forall x, x ∈ used -> x ∈ used') -> fresh used' s.
Proof.
  intros [H1 H2 H3] Hu. split; [done| |auto]. intros id Hid. destruct (H2 id Hid). auto.
Qed.

(** A step that leaves the sessions and the claims alone. *)
Lemma fresh_same used s s' : activeSessions s' = activeSessions s -> claimed s' = claimed s ->
  fresh used s -> fresh used s'.
Proof. intros Ha Hc [H1 H2 H3]. split; rewrite ?Hc, ?Ha; done. Qed.

Lemma claimed_suspend t s :
  claimed (suspend t s) = claimed s ++ match start_id t with Some id => [id] | None => [] end.
Proof. unfold claimed, suspend. simpl. rewrite omap_app. simpl. by destruct (start_id t). Qed.

Lemma fresh_claim used id s s' : activeSessions s' = activeSessions s ->
  claimed s' = claimed s ++ [id] -> id ∉ used -> fresh used s -> fresh (used ++ [id]) s'.
Proof.
  intros Ha Hc Hid [H1 H2 H3]. split; rewrite ?Hc, ?Ha.
  - apply NoDup_app. split_and!; [done| |apply NoDup_singleton].
    intros x Hx Hin. apply list_elem_of_singleton in Hin as ->. by destruct (H2 id Hx).
  - intros x [Hx|Hx]%elem_of_app.
    + destruct (H2 x Hx). split; [done|]. apply elem_of_app. by left.
    + apply list_elem_of_singleton in Hx as ->. split; [|apply elem_of_app; right; by apply list_elem_of_singleton].
      destruct (activeSessions s !! id) eqn:E; [|done]. destruct Hid. apply H3. eauto.
  - intros x Hx. apply elem_of_app. left. auto.
Qed.

(** ** Steps *)

Lemma stop_unused_claimed s : claimed (stop_unused s).1 = claimed s.
Proof. unfold stop_unused. by destruct (fftSubscribers s), (running s). Qed.

Lemma handleFFTMessage_claimed now ws m s : claimed (handleFFTMessage now ws m s).1 = claimed s.
Proof.
  destruct m as [c| |f|d|c| |m]; try done; simpl.
  - destruct (currentMode s); [| |done]; by destruct (running _).
  - pose proof (stop_unused_claimed (with_subscribers (set_del ws (fftSubscribers s)) s)) as H.
    by destruct (stop_unused _).
  - by destruct (running s).
Qed.

Lemma relay_fft_claimed throws os : forall s, claimed (relay_fft throws os s).1 = claimed s.
Proof.
  induction os as [|o os IH]; intros s; [done|]. simpl.
  destruct o; try (specialize (IH s); by destruct (relay_fft throws os s)).
  set (s1 := with_subscribers _ s). specialize (IH s1). by destruct (relay_fft throws os s1).
Qed.

(** The claims after an optional FFT call. *)
Lemma optional_claimed (b : bool) r s f l :
  (forall s1, claimed s1 = claimed s -> claimed (f s1).1 = l) ->
  claimed (let '(s1, o1) := if b then call_fft r s else (s, []) in
           let '(s2, o2) := f s1 in (s2, o1 ++ o2)).1 = l.
Proof.
  intros Hf. destruct b.
  - unfold call_fft. specialize (Hf (mkRelay (fftSubscribers s) (activeSessions s) (currentMode s) r.1
      (tasks s) (intervals s)) eq_refl). by destruct (f _).
  - specialize (Hf s eq_refl). by destruct (f s).
Qed.

(** What a request claims: the identifier it draws, or nothing. *)
Definition claims_of (drawn : option string) (s : state) (r : state * list output) : Prop :=
  claimed r.1 = claimed s \/ exists id, drawn = Some id /\ claimed r.1 = claimed s ++ [id].

Lemma capture_start_claims port host r now random q s :
  claims_of (Some (generateSessionId now random)) s (capture_start port host r now random q s).
Proof.
  unfold capture_start. destruct (currentMode s); [| |by left].
  all: right; eexists; split; [done|].
  all: apply (optional_claimed _ _ s (fun s1 => (suspend _ s1, [_]))).
  all: intros s1 Hs1; simpl; by rewrite claimed_suspend, Hs1.
Qed.

Lemma signal_check_claims d r q s : claims_of d s (signal_check r q s).
Proof.
  left. unfold signal_check. destruct (currentMode s); [| |done].
  all: apply (optional_claimed _ _ s (fun s1 => (suspend _ s1, [_]))).
  all: intros s1 Hs1; cbn [fst]; rewrite claimed_suspend, Hs1; apply app_nil_r.
Qed.

Lemma tune_claims d r now q s : claims_of d s (tune r now q s).
Proof. left. by apply (optional_claimed _ _ s (fun s1 => (s1, [_]))). Qed.

Lemma suspend_claims d t o s : start_id t = None -> claims_of d s (suspend t s, o).
Proof. intros Ht. left. cbn [fst]. rewrite claimed_suspend, Ht. apply app_nil_r. Qed.

Lemma other_claims d r null now s :
  claims_of d s (capture_start_other r null s) /\ claims_of d s (signal_check_other r null now s).
Proof.
  unfold capture_start_other, signal_check_other, restart_fft, call_fft.
  split; branch_cases; by left.
Qed.

Lemma on_request_claims port host now r random method path b s :
  claims_of (drawn_by (now, ERequest r random method path b)) s
    (on_request port host r now random method path b s).
Proof.
  unfold on_request. destruct path as [path|]; [|by left]. destruct (String.eqb method "OPTIONS"); [by left|].
  unfold route, with_body.
  repeat match goal with
  | |- claims_of _ _ (if ?c then _ else _) => destruct c eqn:?
  | |- claims_of _ _ (s, _) => by left
  | |- claims_of _ _ (suspend _ _, _) => by apply suspend_claims
  | |- claims_of _ _ (match b with _ => _ end) => destruct b; simplify_eq/=
  | |- claims_of _ _ (capture_start_other _ _ _) => apply (other_claims _ _ _ now)
  | |- claims_of _ _ (signal_check_other _ _ _ _) => apply other_claims
  end.
  - apply tune_claims.
  - match goal with H : _ && _ = true |- _ => rewrite H end. apply capture_start_claims.
  - unfold capture_stop. destruct (activeSessions s !! _); [by apply suspend_claims|by left].
  - unfold capture_audio. destruct (activeSessions s !! _); [|by left].
    destruct (decide _); [by apply suspend_claims|by left].
  - apply signal_check_claims.
Qed.

(** One step: every session's life makes at most one abstract step, and the
    identifiers stay distinct. *)
Section Step.
Context (port : Z) (host : string).
Context (cos : nat -> nat -> Q) (log10 : Q -> Q) (transform : nat -> list Q -> list Q).
Local Notation step := (step port host cos log10 transform).
Local Notation run := (run port host cos log10 transform).

Definition refines (used : list string) (s s' : state) : Prop :=
  (forall id, life_step (life id s) (life id s')) /\ fresh used s'.

Lemma refines_same used s s' : activeSessions s' = activeSessions s -> claimed s' = claimed s ->
  fresh used s -> refines used s s'.
Proof.
  intros Ha Hc Hf. split; [|by apply (fresh_same used s)].
  intros id. unfold life. rewrite Ha. constructor.
Qed.

Lemma drawn_fresh (used : list string) id : NoDup (used ++ [id]) -> id ∉ used.
Proof.
  intros (_ & Hn & _)%NoDup_app Hin. apply (Hn id Hin). by apply list_elem_of_singleton.
Qed.

Lemma request_refines (used : list string) now r random method path b s :
  let e := ERequest r random method path b in
  NoDup (used ++ option_list (drawn_by (now, e))) -> fresh used s ->
  refines (used ++ option_list (drawn_by (now, e))) s (on_request port host r now random method path b s).1.
Proof.
  cbv zeta. intros Hn Hf. set (dr := drawn_by _) in *.
  pose proof (quiet_sessions _ _ (on_request_quiet port host r now random method path b s)) as Ha.
  destruct (on_request_claims port host now r random method path b s) as [Hc|(id & Hd & Hc)].
  - apply refines_same; [done..|]. apply (fresh_mono used); [done|]. intros x Hx.
    apply elem_of_app. by left.
  - fold dr in Hd. rewrite Hd in *. simpl in *. split.
    + intros i. unfold life. rewrite Ha. constructor.
    + apply (fresh_claim used id s); [done..| |done]. by apply drawn_fresh.
Qed.

Lemma claimed_delete s s0 k t : tasks s !! k = Some t -> tasks s0 = delete k (tasks s) ->
  claimed s ≡ₚ option_list (start_id t) ++ claimed s0.
Proof.
  intros Hk Hs0. unfold claimed. rewrite Hs0, delete_take_drop.
  rewrite <- (take_drop_middle _ _ _ Hk) at 1. rewrite !omap_app, omap_cons.
  destruct (start_id t); simpl; [by rewrite Permutation_middle|done].
Qed.

(** Removing a task that claims nothing, or one that does. *)
Lemma fresh_delete used s s0 k t : tasks s !! k = Some t -> tasks s0 = delete k (tasks s) ->
  activeSessions s0 = activeSessions s -> fresh used s ->
  fresh used s0 /\ forall id, start_id t = Some id -> id ∉ claimed s0 /\ activeSessions s !! id = None /\ id ∈ used.
Proof.
  intros Hk Ht Ha [H1 H2 H3]. pose proof (claimed_delete s s0 k t Hk Ht) as Hp.
  rewrite Hp in H1. apply NoDup_app in H1 as (_ & Hd & Hn). split.
  - split; [done| |by rewrite Ha]. intros id Hid. rewrite Ha. apply H2. rewrite Hp.
    apply elem_of_app. by right.
  - intros id Hid. rewrite Hid in *. simpl in *. split; [apply Hd, list_elem_of_singleton; done|].
    apply H2. rewrite Hp. left.
Qed.

Lemma capture_started_refines used r id d now a s : fresh used s -> id ∉ claimed s ->
  activeSessions s !! id = None -> id ∈ used ->
  refines used s (capture_started r id d now a s).1.
Proof.
  intros Hf Hc Hn Hu. destruct a as [m|session]; [by apply refines_same|]. split.
  - intros i. unfold life. simpl. destruct (decide (id = i)) as [<-|Hne].
    + rewrite lookup_insert_eq, Hn. constructor.
    + rewrite lookup_insert_ne by done. constructor.
  - destruct Hf as [H1 H2 H3]. split; simpl; [exact H1| |].
    + intros i Hi. rewrite lookup_insert_ne by (intros <-; done). by apply H2.
    + intros i Hi. destruct (decide (id = i)) as [<-|Hne]; [done|].
      rewrite lookup_insert_ne in Hi by done. auto.
Qed.

Lemma finish_refines used id s : fresh used s ->
  (forall i d, activeSessions s !! i = Some d -> sd_status d <> session_error) ->
  refines used s (finish id s).
Proof.
  intros [H1 H2 H3] He. split.
  - intros i. unfold life. simpl. destruct (decide (id = i)) as [<-|Hne].
    2:{ rewrite lookup_alter_ne by done. constructor. }
    rewrite lookup_alter_eq. destruct (activeSessions s !! id) as [d|] eqn:E; simpl; [|constructor].
    specialize (He id d E). destruct (sd_status d); [constructor|constructor|done].
  - split; simpl; [exact H1| |].
    + intros i Hi. destruct (H2 i Hi) as [Hn Hu]. split; [|done].
      destruct (decide (id = i)) as [<-|Hne]; [by rewrite lookup_alter_eq, Hn|by rewrite lookup_alter_ne].
    + intros i Hi. apply H3. by rewrite lookup_alter_is_Some in Hi.
Qed.

Lemma tick_refines used now id s : fresh used s -> refines used s (tick now id s).1.
Proof.
  intros Hf. unfold tick. destruct (activeSessions s !! id) as [d|] eqn:E; [|by apply refines_same].
  destruct (decide _) as [Hr|Hr]; [|by apply refines_same]. cbn [sd_durationSeconds].
  set (d1 := mkSessionData _ _ _ _ _). set (s1 := with_sessions _ s).
  assert (H : refines used s s1).
  { destruct Hf as [H1 H2 H3]. split; [|split; simpl; [exact H1| |]].
    - intros i. unfold life, s1. simpl. destruct (decide (id = i)) as [<-|Hne].
      + rewrite lookup_insert_eq, E. simpl. constructor.
      + rewrite lookup_insert_ne by done. constructor.
    - intros i Hi. destruct (H2 i Hi) as [Hn Hu]. split; [|done].
      rewrite lookup_insert_ne; [done|]. intros <-. congruence.
    - intros i Hi. apply H3. destruct (decide (id = i)) as [<-|Hne]; [eauto|].
      by rewrite lookup_insert_ne in Hi. }
  destruct (_ <=?q _); [|exact H]. destruct H as [Hl Hf1]. split; [exact Hl|].
  apply (fresh_same used s1); [done| |exact Hf1]. cbn [fst]. rewrite claimed_suspend. apply app_nil_r.
Qed.

Lemma resume_refines used s k t now a r : tasks s !! k = Some t -> fresh used s -> watched s ->
  resume now t a (mkRelay (fftSubscribers s) (activeSessions s) (currentMode s) (fft s)
                    (delete k (tasks s)) (intervals s)) = Some r ->
  refines used s r.1.
Proof.
  intros Hk Hf Hw. set (s0 := mkRelay _ _ _ _ _ _).
  destruct (fresh_delete used s s0 k t Hk eq_refl eq_refl Hf) as [Hf0 Hid].
  pose proof (no_error_session s Hw : forall i d, activeSessions s0 !! i = Some d -> _) as He.
  enough (H : resume now t a s0 = Some r -> refines used s0 r.1) by exact H.
  destruct t as [rid|rid id d|rid id|id|rid id|rid f was], a; try done; cbn [resume];
    intros [= <-]; try (by apply refines_same).
  - destruct (Hid id eq_refl) as (? & ? & ?). by apply capture_started_refines.
  - by apply finish_refines.
  - by apply finish_refines.
  - unfold signal_checked, restart_fft. destruct was; [|by apply refines_same].
    destruct (FftStream.getFFTStreamConfig _); by apply refines_same.
Qed.

Lemma step_refines used now e s : watched s ->
  NoDup (used ++ option_list (drawn_by (now, e))) -> fresh used s ->
  refines (used ++ option_list (drawn_by (now, e))) s (step now e s).1.
Proof.
  intros Hw Hn Hf. destruct e as [r random method path b|k a|id|ws m|ws|throws e];
    [by apply request_refines|..]; rewrite app_nil_r; cbn [Relay.step].
  - destruct (tasks s !! k) as [t|] eqn:Hk; [|by apply refines_same].
    destruct (resume now t a _) as [r|] eqn:E; [|by apply refines_same].
    by apply (resume_refines used s k t now a).
  - case_bool_decide; [by apply tick_refines|by apply refines_same].
  - destruct m; [|by apply refines_same]. apply refines_same; [|apply handleFFTMessage_claimed|done].
    apply quiet_sessions, handleFFTMessage_quiet.
  - apply refines_same; [|exact (stop_unused_claimed (with_subscribers _ s))|done].
    apply (quiet_sessions (with_subscribers (set_del ws (fftSubscribers s)) s)), stop_unused_quiet.
  - destruct (FftStream.step _ _ _ _ _ _) as [f os].
    apply refines_same; [|exact (relay_fft_claimed throws os (mkRelay _ _ _ _ _ _))|done].
    apply (quiet_sessions (mkRelay (fftSubscribers s) (activeSessions s) (currentMode s) f (tasks s)
                             (intervals s))), relay_fft_quiet.
Qed.

Lemma relay_run_app evs1 evs2 s :
  (run (evs1 ++ evs2) s).1 = (run evs2 (run evs1 s).1).1.
Proof.
  revert s. induction evs1 as [|[now e] evs1 IH]; intros s; [done|]. simpl.
  destruct (step now e s) as [s1 o1]. specialize (IH s1).
  destruct (run (evs1 ++ evs2) s1), (run evs1 s1). simpl in *. congruence.
Qed.

Lemma run_fresh evs : NoDup (drawn evs) -> fresh (drawn evs) (run evs initial).1.
Proof.
  induction evs as [|[now e] evs IH] using rev_ind.
  - intros _. split; simpl; [constructor|by intros id Hid%not_elem_of_nil|by intros id [d Hd]].
  - unfold drawn. rewrite omap_app, relay_run_app. cbn [omap list_omap run].
    replace (match drawn_by (now, e) with Some y => [y] | None => [] end)
      with (option_list (drawn_by (now, e))) by (by destruct (drawn_by _)).
    intros Hn. assert (Hn' : NoDup (drawn evs)) by (by apply NoDup_app in Hn as [? _]).
    destruct (step_refines (drawn evs) now e (run evs initial).1) as [_ Hf]; [|done|by apply IH|].
    + apply run_watched, initial_watched.
    + by destruct (step now e _).
Qed.
End Step.

(** ** Properties *)

(** C5: The relay refines the life of a session: in every run whose starts draw distinct
    identifiers, each step takes the session of each identifier along at most one
    transition of absent, recording, complete, and no session is recorded twice. *)
Theorem relay_refines_session_life port host cos log10 transform evs now e
  (Hdistinct : NoDup (drawn (evs ++ [(now, e)]))) id :
  let s := (run port host cos log10 transform evs initial).1 in
  life_step (life id s) (life id (step port host cos log10 transform now e s).1).
Proof.
  unfold drawn in Hdistinct. rewrite omap_app in Hdistinct. cbn [omap list_omap] in Hdistinct.
  apply (step_refines port host cos log10 transform (drawn evs)).
  - apply run_watched, initial_watched.
  - by destruct (drawn_by (now, e)).
  - apply run_fresh. by apply NoDup_app in Hdistinct as [? _].
Qed.

Lemma relay_refines_session_life_witness :
  NoDup (drawn (take 5 sample_run ++ [(601300, EResume 0 AStopped)])) /\
  let s := (run 3001 "0.0.0.0" (fun _ _ => 0%Q) id no_transform (take 5 sample_run) initial).1 in
  life_step (life "capture-1000-a" s)
    (life "capture-1000-a" (step 3001 "0.0.0.0" (fun _ _ => 0%Q) id no_transform 601300
                              (EResume 0 AStopped) s).1).
Proof.
  assert (H : NoDup (drawn (take 5 sample_run ++ [(601300, EResume 0 AStopped)]))).
  { vm_compute. repeat constructor; by intros ?%not_elem_of_nil. }
  split; [exact H|].
  apply (relay_refines_session_life 3001 "0.0.0.0" (fun _ _ => 0%Q) id no_transform
           (take 5 sample_run) 601300 (EResume 0 AStopped) H).
Defined.

End RelaySpec.
