(* ===== verification/Wire.v ===== *)
(** * What the servers read from the wire (src/middleware/web/server.ts, src/sdr-relay/server.ts)

    Bodies that come in pieces, and the choice of the connections that become sockets.
    JSON is a parameter. *)

From S2P Require Import Prelude JsStd Types StateManager Effects.

Module Wire.

(** ** Bodies *)

(** What a request emits. *)
Inductive request_event := Data (chunk : string) | End | Error (message : string).

Section Body.
Context {J : Type} (JSON_parse : string -> J + string).

(** Both servers read a body in the same way; what comes after the promise is settled has
    no effect.  Every piece is turned into text by itself. *)
(* @src middleware/web/server.ts:741-754 readJsonBody *)
Fixpoint read_body (body : string) (evs : list request_event) : res J :=
  match evs with
  | [] => Pending
  | Data chunk :: evs => read_body (body ++ chunk)%string evs
  | End :: _ => match JSON_parse body with inl j => Ok j | inr err => Throw err end
  | Error m :: _ => Throw m
  end.

(* @src middleware/web/server.ts:740-755 readJsonBody *)
Definition readJsonBody (evs : list request_event) : res J := read_body "" evs.

(** The same routine of the relay. *)
(* @src sdr-relay/server.ts:538-553 readJsonBody *)
Definition relay_readJsonBody (evs : list request_event) : res J := read_body "" evs.

(** The text of the pieces before the first end or error, and how they end. *)
Fixpoint received (evs : list request_event) : string * option request_event :=
  match evs with
  | [] => (""%string, None)
  | Data chunk :: evs => let '(s, e) := received evs in ((chunk ++ s)%string, e)
  | e :: _ => (""%string, Some e)
  end.

Lemma read_body_received evs : forall body,
  read_body body evs =
  match received evs with
  | (s, Some End) => match JSON_parse (body ++ s)%string with inl j => Ok j | inr err => Throw err end
  | (_, Some (Error m)) => Throw m
  | (_, _) => Pending
  end.
Proof.
  induction evs as [|e evs IH]; intros body; [done|]. destruct e as [c| |m]; simpl.
  - rewrite IH. destruct (received evs) as [s [[| |]|]]; try done. by rewrite str_app_assoc.
  - by rewrite str_app_nil.
  - done.
Qed.

(** However a body is cut into pieces, it is read as one text: a request that ends is
    parsed from the whole of it, one that fails throws, and one that does neither is
    never answered. *)
Theorem body_in_pieces chunks rest :
  readJsonBody (map Data chunks ++ End :: rest) =
    match JSON_parse (String.concat "" chunks) with inl j => Ok j | inr err => Throw err end /\
  (forall m, readJsonBody (map Data chunks ++ Error m :: rest) = Throw m) /\
  readJsonBody (map Data chunks) = Pending.
Proof.
  assert (H : forall evs, received (map Data chunks ++ evs) =
    (String.concat "" chunks ++ (received evs).1, (received evs).2)%string).
  { intros evs. induction chunks as [|c l IH]; [simpl; by destruct (received evs)|].
    change (map Data (c :: l) ++ evs) with (Data c :: (map Data l ++ evs)). simpl received. rewrite IH.
    f_equal. destruct l as [|d l]; simpl; [done|]. by rewrite !str_app_assoc. }
  unfold readJsonBody. rewrite !read_body_received. split; [|split].
  - rewrite H. simpl. by rewrite str_app_nil.
  - intros m. by rewrite read_body_received, H.
  - rewrite <- (app_nil_r (map Data chunks)), H. done.
Qed.
End Body.

(** ** Sockets *)

(** An upgrade becomes a socket on one path; any other connection is closed. *)
(* @src middleware/web/server.ts:445-458 upgrade *)
Definition web_upgrade (pathname : string) : bool := String.eqb pathname "/ws".

(* @src sdr-relay/server.ts:476-489 upgrade *)
Definition relay_upgrade (pathname : string) : bool := String.eqb pathname "/sdr/fft".
End Wire.
