(* ===== verification/WebFiles.v ===== *)
(** * Files of the dashboard (src/middleware/web/server.ts)

    The routes that serve files: the page and its assets, and the images of the
    captures, whose names come from the request.  Strings are UTF-8 bytes. *)

From Stdlib Require Import Ascii.
From S2P Require Import Prelude JsStd Types RelayApi StateManager Effects.
Local Open Scope prog_scope.

Module WebFiles.

(** A response: status, content type and body. *)
Record reply := mkReply { r_status : Z; r_type : string; r_body : string }.

Definition text (status : Z) (body : string) : reply := mkReply status "text/plain" body.

(** [path.resolve(dir, name)], [dir] being absolute. *)
Definition path_resolve (dir name : string) : string :=
  if is_absolute name then path_normalize name else path_normalize (dir ++ "/" ++ name)%string.

(** [name.split('.').pop().toLowerCase()]. *)
Definition extension (name : string) : string :=
  toLowerCase (List.last (split_on "."%char name) ""%string).

(* @src middleware/web/server.ts:823-839 contentTypes *)
Definition contentTypes : list (string * string) :=
  [("js", "application/javascript"); ("mjs", "application/javascript"); ("css", "text/css");
   ("html", "text/html"); ("json", "application/json"); ("svg", "image/svg+xml");
   ("png", "image/png"); ("jpg", "image/jpeg"); ("jpeg", "image/jpeg"); ("gif", "image/gif");
   ("ico", "image/x-icon"); ("woff", "font/woff"); ("woff2", "font/woff2"); ("ttf", "font/ttf");
   ("eot", "application/vnd.ms-fontobject")]%string.

(* @src middleware/web/server.ts:821-841 getContentType *)
Definition getContentType (filename : string) : string :=
  default "application/octet-stream"%string (map_get (extension filename) contentTypes).

(** The file at a path: 404 when it is not there, 500 when it cannot be read. *)
Definition serve_file (filePath contentType : string) : prog reply :=
  exists_ <~ FileExists filePath;;
  if (exists_ : bool) then
    content <~ ReadText filePath;;
    Ret (match content with
         | inr content => mkReply 200 contentType content
         | inl _ => text 500 "Internal Server Error"
         end)
  else Ret (text 404 "Not Found").

(* @src middleware/web/server.ts:767-787 serveStaticNode *)
Definition serveStaticNode (dir filename contentType : string) : prog reply :=
  serve_file (path_resolve dir filename) contentType.

(* @src middleware/web/server.ts:790-819 serveImageNode *)
Definition serveImageNode (imagesDir filename : string) : prog reply :=
  if includes ".." filename then Ret (text 403 "Forbidden")
  else serve_file (path_resolve imagesDir filename) "image/png".

(** ** decodeURIComponent *)

Definition hex_val (c : ascii) : option nat :=
  let n := nat_of_ascii c in
  if (48 <=? n) && (n <=? 57) then Some (n - 48)
  else if (65 <=? n) && (n <=? 70) then Some (n - 55)
  else if (97 <=? n) && (n <=? 102) then Some (n - 87)
  else None.

(** [None] is a [URIError]; that the bytes of an escaped character form valid
    UTF-8 is not checked. *)
Fixpoint decodeURIComponent (s : string) : option string :=
  match s with
  | EmptyString => Some EmptyString
  | String "%"%char (String a (String b r)) =>
      match hex_val a, hex_val b with
      | Some x, Some y => String (ascii_of_nat (16 * x + y)) <$> decodeURIComponent r
      | _, _ => None
      end
  | String "%"%char _ => None
  | String c r => String c <$> decodeURIComponent r
  end.

(** ** Routes *)

(* @src middleware/web/server.ts:78-86 getStaticDir *)
Definition getStaticDir (dirname : string) : prog string :=
  let reactDir := path_resolve dirname "static-react" in
  let legacyDir := path_resolve dirname "static" in
  react <~ FileExists (reactDir ++ "/index.html")%string;;
  Ret (if (react : bool) then reactDir else legacyDir).

(** [Throw] is an exception of the request's handler, which nobody catches;
    [None] means that the path is none of these routes. *)
(* @src middleware/web/server.ts:106-151 startWebServer *)
Definition serve_path (staticDir imagesDir pathname : string) : option (prog (res reply)) :=
  let ok (p : prog reply) := Some (r <- p;; Ret (Ok r)) in
  if String.eqb pathname "/" || String.eqb pathname "/index.html" then
    ok (serveStaticNode staticDir "index.html" "text/html")
  else if String.eqb pathname "/styles.css" then
    ok (serveStaticNode staticDir "styles.css" "text/css")
  else if String.eqb pathname "/app.js" then
    ok (serveStaticNode staticDir "app.js" "application/javascript")
  else if startsWith "/assets/" pathname then
    let filename := slice_from 1 pathname in
    ok (serveStaticNode staticDir filename (getContentType filename))
  else if startsWith "/images/" pathname then
    ok (serveImageNode imagesDir (slice_from 8 pathname))
  else if startsWith "/api/images/" pathname then
    match decodeURIComponent (slice_from 12 pathname) with
    | Some filename => ok (serveImageNode imagesDir filename)
    | None => Some (Ret (Throw "URI malformed"%string))
    end
  else None.

(** ** Facts about paths *)

Lemma split_on_cat c a b : split_on c (a ++ String c b)%string = split_on c a ++ split_on c b.
Proof.
  induction a as [|x a IH]; simpl.
  - by rewrite Ascii.eqb_refl.
  - destruct (Ascii.eqb x c); [by rewrite IH|]. rewrite IH.
    destruct (split_on c a) eqn:E; [by apply split_on_ne in E|done].
Qed.

Lemma split_on_head c s h t : split_on c s = h :: t -> exists b, s = (h ++ b)%string.
Proof.
  revert h t. induction s as [|z s IH]; simpl; intros h t.
  - intros [= <- <-]. by exists ""%string.
  - destruct (Ascii.eqb z c); [intros [= <- <-]; by exists (String z s)|].
    destruct (split_on c s) as [|h' t']; intros [= <- <-]; [by exists s|].
    destruct (IH h' t' eq_refl) as [b ->]. by exists b.
Qed.

(** A part of a split is a substring without the separator. *)
Lemma split_on_part c s x : x ∈ split_on c s ->
  no_char c x = true /\ exists a b, s = (a ++ x ++ b)%string.
Proof.
  revert x. induction s as [|y s IH]; intros x; simpl.
  - intros Hx. apply list_elem_of_singleton in Hx as ->. split; [done|]. by exists ""%string, ""%string.
  - destruct (Ascii.eqb y c) eqn:E.
    + rewrite elem_of_cons. intros [->|Hx].
      * split; [done|]. by exists ""%string, (String y s).
      * destruct (IH x Hx) as (Hn & a & b & ->). split; [done|]. by exists (String y a), b.
    + destruct (split_on c s) as [|h t] eqn:Es; [by apply split_on_ne in Es|].
      rewrite elem_of_cons. intros [->|Hx].
      * destruct (IH h) as (Hn & _); [left|]. split; [simpl; by rewrite E, Hn|].
        exists ""%string. simpl.
        destruct (split_on_head c s h t Es) as [b ->]. by exists b.
      * destruct (IH x) as (Hn & a & b & ->); [by right|]. split; [done|]. by exists (String y a), b.
Qed.

(** A segment that stays in a normalised path. *)
Definition keep (s : string) : bool := negb (String.eqb s "" || String.eqb s ".").

Definition plain (s : string) : Prop :=
  keep s = true /\ s <> ".."%string /\ no_char slash s = true.

(** Without "..", normalising only drops empty and "." segments. *)
Lemma normalize_no_parent absolute l : Forall (fun s => s <> ".."%string) l -> forall acc,
  normalize_segments absolute acc l = rev acc ++ js_filter keep l.
Proof.
  induction 1 as [|s l Hs Hl IH]; intros acc; simpl; [by rewrite app_nil_r|].
  unfold keep at 1. destruct (String.eqb s "" || String.eqb s "."); simpl; [apply IH|].
  destruct (String.eqb_spec s ".."); [done|]. rewrite IH. simpl. by rewrite <- app_assoc.
Qed.

Lemma join_app l k : l <> [] -> k <> [] ->
  join "/" (l ++ k) = (join "/" l ++ "/" ++ join "/" k)%string.
Proof.
  unfold join. intros Hl Hk. induction l as [|x l IH]; [done|]. destruct l as [|y l].
  - simpl. by destruct k.
  - change (String.concat "/" ((x :: y :: l) ++ k))
      with (x ++ "/" ++ String.concat "/" ((y :: l) ++ k))%string.
    rewrite IH by done. change (String.concat "/" (x :: y :: l))
      with (x ++ "/" ++ String.concat "/" (y :: l))%string.
    by rewrite <- !str_app_assoc.
Qed.

(** A directory as [path.resolve] gives it, and the paths at or below it. *)
Definition resolved (dir : string) : Prop :=
  exists segs, segs <> [] /\ Forall plain segs /\ dir = ("/" ++ join "/" segs)%string.

Definition within (dir p : string) : Prop :=
  exists rest, Forall plain rest /\ p = match rest with [] => dir | _ => (dir ++ "/" ++ join "/" rest)%string end.

Lemma plain_keep l : Forall plain l -> js_filter keep l = l.
Proof. intros Hl. apply js_filter_all. intros x Hx.
  rewrite Forall_forall in Hl. by destruct (Hl x Hx). Qed.

Lemma name_segments name : includes ".." name = false ->
  Forall (fun s => s <> ".."%string) (split_on slash name) /\
  Forall plain (js_filter keep (split_on slash name)).
Proof.
  intros Hn.
  assert (H : Forall (fun s => s <> ".."%string) (split_on slash name)).
  { apply Forall_forall. intros x Hx ->. apply split_on_part in Hx as (_ & a & b & ->).
    assert (includes ".." (a ++ ".." ++ b)%string = true) by (apply includes_spec; by exists a, b). congruence. }
  split; [done|]. apply Forall_forall. intros x Hx. apply js_filter_elem in Hx as [Hx Hk].
  split; [done|]. split; [by rewrite Forall_forall in H; apply H|].
  by apply split_on_part in Hx as [? _].
Qed.

(** A relative name without ".." stays within the directory. *)
Lemma resolve_within dir name : resolved dir -> is_absolute name = false -> includes ".." name = false ->
  within dir (path_resolve dir name).
Proof.
  intros (segs & Hne & Hsegs & ->) Hrel Hup. destruct (name_segments name Hup) as [Hn Hp].
  unfold path_resolve. rewrite Hrel. unfold path_normalize.
  assert (Ha : is_absolute (("/" ++ join "/" segs) ++ "/" ++ name)%string = true).
  { rewrite str_app_assoc. apply prefix_app. }
  rewrite Ha. change (("/" ++ join "/" segs) ++ "/" ++ name)%string
    with (String slash (join "/" segs ++ String slash name)).
  exists (js_filter keep (split_on slash name)). split; [done|].
  cbn [split_on]. rewrite Ascii.eqb_refl, split_on_cat.
  assert (Hj : split_on slash (join "/" segs) = segs).
  { apply (split_join slash); [done|]. eapply Forall_impl; [exact Hsegs|]. by intros ? (? & ? & ?). }
  rewrite Hj.
  rewrite normalize_no_parent.
  2:{ apply Forall_cons. split; [done|]. apply Forall_app. split; [|done].
      eapply Forall_impl; [exact Hsegs|]. by intros ? (? & ? & ?). }
  simpl. unfold js_filter at 1. rewrite List.filter_app. fold (js_filter keep segs).
  rewrite plain_keep by done. fold (js_filter keep (split_on slash name)).
  destruct (js_filter keep (split_on slash name)) as [|x l]; [by rewrite app_nil_r|].
  by rewrite join_app.
Qed.

(** ** Properties *)

(** The calls of a request are about a directory. *)
Definition only_below (dir : string) (c : call) : Prop :=
  match c with FileExists p | ReadText p => within dir p | _ => False end.

Lemma serve_file_calls C p ct : C (FileExists p) -> C (ReadText p) ->
  holds C (fun _ => True) (serve_file p ct).
Proof. intros. unfold serve_file. repeat first [done | holds_step]. Qed.

(** C33: A request for an image by a relative name touches no file outside the images
    directory, whatever dots and slashes the name has; a name with ".." touches
    none. *)
Theorem image_requests_contained dir name
  (Hdir : resolved dir) (Hrel : is_absolute name = false) :
  holds (only_below dir) (fun _ => True) (serveImageNode dir name) /\
  (includes ".." name = true -> serveImageNode dir name = Ret (text 403 "Forbidden")).
Proof.
  unfold serveImageNode. destruct (includes ".." name) eqn:Hup; [done|]. split; [|done].
  pose proof (resolve_within dir name Hdir Hrel Hup). by apply serve_file_calls.
Qed.

Definition sample_images : string := "/srv/images".

Lemma sample_images_resolved : resolved sample_images.
Proof. exists ["srv"; "images"]%string. split; [done|]. split; [|done]. by repeat constructor. Qed.

Lemma image_requests_contained_witness :
  is_absolute ".//a/./ISS_2026.png" = false /\
  path_resolve sample_images ".//a/./ISS_2026.png" = "/srv/images/a/ISS_2026.png"%string /\
  holds (only_below sample_images) (fun _ => True) (serveImageNode sample_images ".//a/./ISS_2026.png") /\
  (includes ".." ".//a/./ISS_2026.png" = true ->
   serveImageNode sample_images ".//a/./ISS_2026.png" = Ret (text 403 "Forbidden")).
Proof.
  split; [reflexivity|]. split; [reflexivity|].
  apply (image_requests_contained sample_images ".//a/./ISS_2026.png" sample_images_resolved eq_refl).
Defined.

(** An absolute name replaces the directory: any file the process can read is
    served, through a double slash or an escaped one. *)
Example image_request_escapes {W} (h : forall c, W -> resp c * W) staticDir imagesDir content w
  (Hexists : forall w, (h (FileExists "/etc/passwd") w).1 = true)
  (Hread : forall w, (h (ReadText "/etc/passwd") w).1 = inr content) :
  Forall (fun path => exists p, serve_path staticDir imagesDir path = Some p /\
            result h p w = Ok (mkReply 200 "image/png" content))
    ["/images//etc/passwd"; "/api/images/%2Fetc%2Fpasswd"]%string.
Proof.
  repeat constructor; (eexists; split; [reflexivity|]).
  all: cbn [bind serveImageNode serve_file]; unfold serveImageNode.
  all: change (includes _ _) with false; cbv iota; unfold serve_file.
  all: change (path_resolve _ _) with "/etc/passwd"%string; cbn [bind]; props; rewrite Hexists.
  all: cbn [bind]; props; by rewrite Hread.
Qed.

(** A malformed escape in an image name is an exception nobody catches. *)
Example malformed_image_name staticDir imagesDir :
  serve_path staticDir imagesDir "/api/images/%" = Some (Ret (Throw "URI malformed"%string)).
Proof. reflexivity. Qed.

End WebFiles.
