(* ===== verification/Dashboard.v ===== *)
(** * The dashboard's connection (src/frontend/src/hooks/useWebSocket.ts, store/index.ts)

    The hook keeps the browser's copy of the server's state from the messages of
    a WebSocket that it reopens when it closes.  The main theorem relates the
    copy to the state manager that emits the messages. *)

From S2P Require Import Prelude JsStd Types RelayApi StateManager Effects FftStream.
Local Open Scope Z_scope.

Module Dashboard.

(** The client has a status of its own, 'recording', besides those the server
    sends. *)
(* @src frontend/src/types/index.ts:1-1 SystemStatus *)
Inductive ClientStatus := server_status (s : SystemStatus) | client_recording.

(* @src frontend/src/types/index.ts:47-62 SystemState *)
Record ClientState := mkClient {
  cl_status : ClientStatus;
  cl_statusMessage : option string;
  cl_currentPass : option SatellitePass;
  cl_nextPass : option SatellitePass;
  cl_upcomingPasses : list SatellitePass;
  cl_captureProgress : Z;
  cl_captureElapsed : Z;
  cl_captureTotal : Z;
  cl_lastUpdate : date;
  cl_scanningFrequency : option Z;
  cl_scanningFrequencyName : option string
}.

(* @src frontend/src/types/index.ts:125-129 CaptureProgress *)
Record CaptureProgress := mkProgress { cp_percentage : Z; cp_elapsed : Z; cp_total : Z }.

(* @src frontend/src/types/index.ts:131-135 WsState *)
Record WsState := mkWsState {
  ws_connected : bool;
  ws_error : option string;
  ws_reconnectAttempts : nat
}.

(* @src frontend/src/types/index.ts:154-158 FFTState *)
Record FFTState := mkFFTState {
  fs_running : bool;
  fs_config : option FftStream.FFTStreamConfig;
  fs_error : option string
}.

(** The server's events carry no status message and no Doppler data. *)
(* @src frontend/src/types/index.ts:161-175 WSMessage *)
Inductive WSMessage :=
| init (state : SystemState) (globe : option GlobeState) (fft : option FFTState)
| state_event (e : StateEvent)
| sstv_status (status : SSTVStatus)
| fft_data (data : FFTData)
| fft_history (data : list FFTData)
| fft_subscribed (running : bool) (config : option FftStream.FFTStreamConfig) (error : option string)
| fft_unsubscribed
| fft_error (error : string).

(** The state of the hook; [sockets] tells which of the WebSockets made so far
    are not closed, [timers] which reconnection timers are pending. *)
(* @src frontend/src/hooks/useWebSocket.ts:24-38 useWebSocket *)
Record dashboard := mkDashboard {
  wsRef : option nat;
  reconnectAttemptsRef : nat;
  wsState : WsState;
  systemState : option ClientState;
  globeState : option GlobeState;
  sstvStatus : option SSTVStatus;
  passes : list SatellitePass;
  progress : option CaptureProgress;
  fftState : FFTState;
  sockets : list bool;
  timers : list bool
}.

Definition initial : dashboard :=
  mkDashboard None 0 (mkWsState false None 0) None None None [] None (mkFFTState false None None)
    [] [].

(** [JSON.parse] of a state. *)
Definition client_of (s : SystemState) : ClientState :=
  mkClient (server_status (st_status s)) None (st_currentPass s) (st_nextPass s)
    (st_upcomingPasses s) (st_captureProgress s) (st_captureElapsed s) (st_captureTotal s)
    (st_lastUpdate s) (st_scanningFrequency s) (st_scanningFrequencyName s).

Definition with_system (f : ClientState -> ClientState) (d : dashboard) : dashboard :=
  mkDashboard (wsRef d) (reconnectAttemptsRef d) (wsState d) (f <$> systemState d) (globeState d)
    (sstvStatus d) (passes d) (progress d) (fftState d) (sockets d) (timers d).

Definition with_fft (f : FFTState) (d : dashboard) : dashboard :=
  mkDashboard (wsRef d) (reconnectAttemptsRef d) (wsState d) (systemState d) (globeState d)
    (sstvStatus d) (passes d) (progress d) f (sockets d) (timers d).

Definition with_progress (p : option CaptureProgress) (d : dashboard) : dashboard :=
  mkDashboard (wsRef d) (reconnectAttemptsRef d) (wsState d) (systemState d) (globeState d)
    (sstvStatus d) (passes d) p (fftState d) (sockets d) (timers d).

Definition with_passes (l : list SatellitePass) (d : dashboard) : dashboard :=
  mkDashboard (wsRef d) (reconnectAttemptsRef d) (wsState d) (systemState d) (globeState d)
    (sstvStatus d) l (progress d) (fftState d) (sockets d) (timers d).

Definition with_globe (g : GlobeState) (d : dashboard) : dashboard :=
  mkDashboard (wsRef d) (reconnectAttemptsRef d) (wsState d) (systemState d) (Some g)
    (sstvStatus d) (passes d) (progress d) (fftState d) (sockets d) (timers d).

Definition with_sstv (s : SSTVStatus) (d : dashboard) : dashboard :=
  mkDashboard (wsRef d) (reconnectAttemptsRef d) (wsState d) (systemState d) (globeState d)
    (Some s) (passes d) (progress d) (fftState d) (sockets d) (timers d).

(** Updates of the client's state. *)
Definition set_status (st : ClientStatus) (msg : option string) (c : ClientState) : ClientState :=
  mkClient st msg (cl_currentPass c) (cl_nextPass c) (cl_upcomingPasses c) (cl_captureProgress c)
    (cl_captureElapsed c) (cl_captureTotal c) (cl_lastUpdate c) (cl_scanningFrequency c)
    (cl_scanningFrequencyName c).

Definition set_current (st : ClientStatus) (p : option SatellitePass) (c : ClientState) : ClientState :=
  mkClient st (cl_statusMessage c) p (cl_nextPass c) (cl_upcomingPasses c) (cl_captureProgress c)
    (cl_captureElapsed c) (cl_captureTotal c) (cl_lastUpdate c) (cl_scanningFrequency c)
    (cl_scanningFrequencyName c).

Definition set_upcoming (l : list SatellitePass) (c : ClientState) : ClientState :=
  mkClient (cl_status c) (cl_statusMessage c) (cl_currentPass c) (head l) l (cl_captureProgress c)
    (cl_captureElapsed c) (cl_captureTotal c) (cl_lastUpdate c) (cl_scanningFrequency c)
    (cl_scanningFrequencyName c).

Definition set_scanning (f : Z) (name : string) (c : ClientState) : ClientState :=
  mkClient (cl_status c) (cl_statusMessage c) (cl_currentPass c) (cl_nextPass c)
    (cl_upcomingPasses c) (cl_captureProgress c) (cl_captureElapsed c) (cl_captureTotal c)
    (cl_lastUpdate c) (Some f) (Some name).

(* @src frontend/src/hooks/useWebSocket.ts:68-137 onmessage *)
Definition on_state_event (e : StateEvent) (d : dashboard) : dashboard :=
  match e with
  | status_change s => with_system (set_status (server_status s) None) d
  | capture_progress p e t => with_progress (Some (mkProgress p e t)) d
  | pass_start p => with_system (set_current client_recording (Some p)) d
  | pass_complete _ =>
      with_progress None (with_system (set_current (server_status idle) None) d)
  | passes_updated l => with_system (set_upcoming l) (with_passes l d)
  | satellite_positions g => with_globe g d
  | scanning_frequency f n => with_system (set_scanning f n) d
  end.

(** The second component is what goes to [onFFTData]. *)
(* @src frontend/src/hooks/useWebSocket.ts:54-165 onmessage *)
Definition on_message (m : WSMessage) (d : dashboard) : dashboard * list FFTData :=
  match m with
  | init s g f =>
      let d := mkDashboard (wsRef d) (reconnectAttemptsRef d) (wsState d) (Some (client_of s))
                 (match g with Some g => Some g | None => globeState d end) (sstvStatus d)
                 (st_upcomingPasses s) (progress d)
                 (match f with Some f => f | None => fftState d end) (sockets d) (timers d) in
      (d, [])
  | state_event e => (on_state_event e d, [])
  | sstv_status s => (with_sstv s d, [])
  | fft_data data =>
      let f := fftState d in
      let f := match fs_error f with
               | None | Some ""%string => f
               | Some _ => mkFFTState true (fs_config f) None
               end in
      (with_fft f d, [data])
  | fft_history l => (d, l)
  | fft_subscribed r c e => (with_fft (mkFFTState r c e) d, [])
  | fft_unsubscribed => (with_fft (mkFFTState false None None) d, [])
  | fft_error e => (with_fft (mkFFTState false (fs_config (fftState d)) (Some e)) d, [])
  end.

(** ** The connection *)

Definition reconnectDelay : Z := 1000.
Definition maxReconnectAttempts : nat := 20.

(* @src frontend/src/hooks/useWebSocket.ts:40-43 connect *)
Definition connect (d : dashboard) : dashboard :=
  mkDashboard (Some (length (sockets d))) (reconnectAttemptsRef d) (wsState d) (systemState d)
    (globeState d) (sstvStatus d) (passes d) (progress d) (fftState d) (sockets d ++ [true])
    (timers d).

(* @src frontend/src/hooks/useWebSocket.ts:45-52 onopen *)
Definition on_open (d : dashboard) : dashboard :=
  mkDashboard (wsRef d) 0 (mkWsState true None 0) (systemState d) (globeState d) (sstvStatus d)
    (passes d) (progress d) (fftState d) (sockets d) (timers d).

(* @src frontend/src/hooks/useWebSocket.ts:179-179 delay *)
Definition delay (attempt : nat) : Z := reconnectDelay * Z.of_nat (Nat.min attempt 10).

(** The second component is the delay of the timer that is set. *)
(* @src frontend/src/hooks/useWebSocket.ts:167-182 onclose *)
Definition on_close (i : nat) (d : dashboard) : dashboard * list Z :=
  let closed := <[i := false]> (sockets d) in
  if (reconnectAttemptsRef d <? maxReconnectAttempts)%nat then
    let n := S (reconnectAttemptsRef d) in
    (mkDashboard None n (mkWsState false None n) (systemState d) (globeState d) (sstvStatus d)
       (passes d) (progress d) (fftState d) closed (timers d ++ [true]), [delay n])
  else
    (mkDashboard None (reconnectAttemptsRef d) (mkWsState false None (ws_reconnectAttempts (wsState d)))
       (systemState d) (globeState d) (sstvStatus d) (passes d) (progress d) (fftState d) closed
       (timers d), []).

(* @src frontend/src/hooks/useWebSocket.ts:184-187 onerror *)
Definition on_error (d : dashboard) : dashboard :=
  mkDashboard (wsRef d) (reconnectAttemptsRef d)
    (mkWsState (ws_connected (wsState d)) (Some "Connection error"%string)
       (ws_reconnectAttempts (wsState d)))
    (systemState d) (globeState d) (sstvStatus d) (passes d) (progress d) (fftState d) (sockets d)
    (timers d).

Inductive event :=
| EOpen (i : nat) | EMessage (i : nat) (m : WSMessage) | EError (i : nat) | EClose (i : nat)
| ETimer (t : nat).

Definition live (i : nat) (d : dashboard) : bool := default false (sockets d !! i).

Definition step (e : event) (d : dashboard) : dashboard * list Z :=
  match e with
  | EOpen i => if live i d then (on_open d, []) else (d, [])
  | EMessage i m => if live i d then ((on_message m d).1, []) else (d, [])
  | EError i => if live i d then (on_error d, []) else (d, [])
  | EClose i => if live i d then on_close i d else (d, [])
  | ETimer t =>
      match timers d !! t with
      | Some true =>
          (connect (mkDashboard (wsRef d) (reconnectAttemptsRef d) (wsState d) (systemState d)
             (globeState d) (sstvStatus d) (passes d) (progress d) (fftState d) (sockets d)
             (<[t := false]> (timers d))), [])
      | _ => (d, [])
      end
  end.

Fixpoint run (evs : list event) (d : dashboard) : dashboard * list Z :=
  match evs with
  | [] => (d, [])
  | e :: r => let '(d1, o1) := step e d in let '(d2, o2) := run r d1 in (d2, o1 ++ o2)
  end.

(** ** The copy and the original *)

(** What the server calls 'capturing' after the start of a pass, the client calls
    'recording'. *)
Definition status_shown (s : SystemStatus) (c : ClientStatus) : Prop :=
  c = server_status s \/ (s = capturing /\ c = client_recording).

(** The dashboard shows a server state: the same pass and status; as upcoming
    passes a list that has the server's as a sublist, and its head as the next
    pass; and the frequency being scanned, when there is one. *)
Record shows (s : SystemState) (d : dashboard) (c : ClientState) : Prop := mkShows {
  shows_system : systemState d = Some c;
  shows_current : cl_currentPass c = st_currentPass s;
  shows_status : status_shown (st_status s) (cl_status c);
  shows_upcoming : cl_upcomingPasses c = passes d;
  shows_next : cl_nextPass c = head (passes d);
  shows_passes : sublist (st_upcomingPasses s) (passes d);
  shows_scanning : forall f, st_scanningFrequency s = Some f -> cl_scanningFrequency c = Some f
}.

Lemma js_filter_sublist {A} (p : A -> bool) l : sublist (js_filter p l) l.
Proof. induction l as [|x l IH]; simpl; [done|]. destruct (p x); by constructor. Qed.

Definition receive (es : list StateEvent) (d : dashboard) : dashboard :=
  foldl (fun d e => on_state_event e d) d es.

(** What an operation makes of the status and of the upcoming passes a client has. *)
Definition status_after (st : ClientStatus) (o : StateManager.op) : ClientStatus :=
  match o with
  | StateManager.SetStatus x => server_status x
  | StateManager.StartPass _ => client_recording
  | StateManager.CompletePass _ => server_status idle
  | _ => st
  end.

Definition passes_after (l : list SatellitePass) (o : StateManager.op) : list SatellitePass :=
  match o with StateManager.UpdatePasses l' => l' | _ => l end.

(** An operation of the state manager and its event keep the copy in step. *)
Lemma apply_shows now o s d c : shows s d c ->
  exists c', shows (StateManager.apply now o s).1
               (on_state_event (StateManager.apply now o s).2 d) c' /\
    cl_status c' = status_after (cl_status c) o /\
    passes (on_state_event (StateManager.apply now o s).2 d) = passes_after (passes d) o.
Proof.
  intros [H1 H2 H3 H4 H5 H6 H7].
  destruct o as [st|f n|p|p e t|r|l|g]; simpl; unfold with_system; simpl; rewrite ?H1; simpl.
  - exists (set_status (server_status st) None c). split; [|done]. split; simpl; [done..|by left|done|done|done|].
    intros f Hf. case_bool_decide; [by apply H7|done].
  - exists (set_scanning f n c). split; [|done]. split; simpl; done.
  - exists (set_current client_recording (Some p) c). split; [|done]. split; simpl; try done. by right.
  - exists c. split; [|done]. by split.
  - exists (set_current (server_status idle) None c). split; [|done]. split; simpl; try done; [by left|].
    etransitivity; [apply js_filter_sublist|exact H6].
  - exists (set_upcoming l c). split; [|done]. split; simpl; done.
  - exists c. split; [|done]. by split.
Qed.

Lemma run_shows ops : forall s d c, shows s d c ->
  exists c', shows (StateManager.run ops s).1 (receive (StateManager.run ops s).2 d) c'.
Proof.
  induction ops as [|[now o] ops IH]; intros s d c Hs; simpl; [by exists c|].
  destruct (apply_shows now o s d c Hs) as (c1 & H1 & _).
  destruct (StateManager.apply now o s) as [s1 e]. simpl in H1.
  destruct (IH s1 _ c1 H1) as [c2 H2]. destruct (StateManager.run ops s1) as [s2 es].
  by exists c2.
Qed.

Lemma init_shows s g f d : StateManager.next_is_head s ->
  shows s (on_message (init s g f) d).1 (client_of s).
Proof. intros Hn. split; simpl; try done. by left. Qed.

(** Until a capture completes, the upcoming passes are the server's. *)
Lemma run_passes ops : forall s d,
  Forall (fun o => match o.2 with StateManager.CompletePass _ => False | _ => True end) ops ->
  passes d = st_upcomingPasses s ->
  passes (receive (StateManager.run ops s).2 d) = st_upcomingPasses (StateManager.run ops s).1.
Proof.
  induction ops as [|[now o] ops IH]; intros s d Ho Hd; simpl; [done|].
  apply Forall_cons in Ho as [Ho Hos].
  destruct (StateManager.apply now o s) as [s1 e] eqn:E.
  specialize (IH s1 (on_state_event e d) Hos). destruct (StateManager.run ops s1) as [s2 es].
  apply IH. destruct o; simpl in E; injection E as <- <-; done.
Qed.

(** ** Properties *)

(** The dashboard follows the state manager: from the message sent on connection
    and the events of any run of operations it shows the server's current pass and
    status, every upcoming pass of the server, and exactly the server's list until
    a capture completes. *)
Theorem dashboard_follows_server s0 ops d g f
  (Hnext : StateManager.next_is_head s0) :
  let '(s, es) := StateManager.run ops s0 in
  let d' := receive es (on_message (init s0 g f) d).1 in
  (exists c, shows s d' c) /\
  (Forall (fun o => match o.2 with StateManager.CompletePass _ => False | _ => True end) ops ->
   passes d' = st_upcomingPasses s).
Proof.
  pose proof (run_shows ops s0 _ _ (init_shows s0 g f d Hnext)) as H.
  pose proof (run_passes ops s0 (on_message (init s0 g f) d).1) as Hp.
  destruct (StateManager.run ops s0) as [s es]. split; [exact H|]. intros Ho. by apply Hp.
Qed.

Definition sample_pass (norad aos : Z) : SatellitePass :=
  mkPass (mkSatelliteInfo "METEOR-M N2-3" norad 137900000 lrpt (SIGNAL_CONFIGS lrpt) true None)
    aos (aos + 600000) 45 (aos + 300000) 600.

Definition sample_ops : list (date * StateManager.op) :=
  [ (10, StateManager.UpdatePasses [sample_pass 57166 1000; sample_pass 59051 9000]);
    (20, StateManager.SetStatus scanning);
    (30, StateManager.SetScanningFrequency 145800000 "ISS");
    (1000, StateManager.StartPass (sample_pass 57166 1000)) ].

Lemma dashboard_follows_server_witness :
  (systemState (receive (StateManager.run sample_ops (StateManager.initial 0)).2
    (on_message (init (StateManager.initial 0) None None) initial).1)
   ≫= fun c => Some (cl_status c, cl_nextPass c, cl_scanningFrequency c)) =
  Some (client_recording, Some (sample_pass 57166 1000), Some 145800000) /\
  let '(s, es) := StateManager.run sample_ops (StateManager.initial 0) in
  let d' := receive es (on_message (init (StateManager.initial 0) None None) initial).1 in
  (exists c, shows s d' c) /\
  (Forall (fun o => match o.2 with StateManager.CompletePass _ => False | _ => True end) sample_ops ->
   passes d' = st_upcomingPasses s).
Proof.
  split; [reflexivity|].
  apply (dashboard_follows_server (StateManager.initial 0) sample_ops initial None None eq_refl).
Defined.

(** A pass the server drops on completion stays on the dashboard: the event does
    not carry the new list. *)
Lemma completed_pass_still_shown now r s d c p : shows s d c ->
  p ∈ st_upcomingPasses s -> StateManager.completed r p = true ->
  p ∉ st_upcomingPasses (StateManager.completePass now r s).1 /\
  p ∈ passes (on_state_event (StateManager.completePass now r s).2 d).
Proof.
  intros Hs Hp Hc. split; simpl.
  - intros Hin. apply js_filter_elem in Hin as [_ Hin]. by rewrite Hc in Hin.
  - eapply elem_of_sublist; [exact Hp|apply (shows_passes _ _ _ Hs)].
Qed.

(** A client that connects during a capture is told 'capturing', the status its
    own type lacks. *)
Lemma init_during_capture s g f d : st_status s = capturing ->
  (systemState (on_message (init s g f) d).1 ≫= fun c => Some (cl_status c)) =
  Some (server_status capturing).
Proof. simpl. by intros ->. Qed.

(** ** Reconnection *)

Definition opens (e : event) : bool := match e with EOpen _ => true | _ => false end.

Lemma dashboard_step_attempts e d : opens e = false ->
  (reconnectAttemptsRef (step e d).1 = reconnectAttemptsRef d /\ (step e d).2 = []) \/
  ((reconnectAttemptsRef d < maxReconnectAttempts)%nat /\
   reconnectAttemptsRef (step e d).1 = S (reconnectAttemptsRef d) /\
   (step e d).2 = [delay (S (reconnectAttemptsRef d))]).
Proof.
  intros He. destruct e as [i|i m|i|i|t]; simpl; [done| | | |].
  - left. destruct (live i d); [|done]. simpl. split; [|done].
    destruct m as [s g f|[]| | | | | |]; try done.
  - left. by destruct (live i d).
  - destruct (live i d); [|by left]. unfold on_close.
    destruct (reconnectAttemptsRef d <? maxReconnectAttempts)%nat eqn:E; [right|by left].
    apply Nat.ltb_lt in E. done.
  - left. by destruct (timers d !! t) as [[]|].
Qed.

Lemma dashboard_run_retry evs : forall d, run evs d = retry_run step evs d.
Proof.
  induction evs as [|e evs IH]; intros d; simpl; [done|]. destruct (step e d) as [d1 o1]. by rewrite IH.
Qed.

(** While no socket opens, the dashboard reconnects at most twenty times, the
    [n]-th time after [min(n, 10)] seconds. *)
Theorem dashboard_reconnect_bounded evs d
  (Hevs : Forall (fun e => opens e = false) evs)
  (Hd : (reconnectAttemptsRef d <= maxReconnectAttempts)%nat) :
  exists k, (reconnectAttemptsRef d + k <= 20)%nat /\
    (run evs d).2 = map delay (seq (S (reconnectAttemptsRef d)) k) /\
    Forall (fun z => 1000 <= z <= 10000) (run evs d).2.
Proof.
  rewrite dashboard_run_retry.
  destruct (bounded_retries step reconnectAttemptsRef maxReconnectAttempts delay opens dashboard_step_attempts
              evs d Hevs Hd) as (k & Hk & _ & Ho).
  exists k. split; [exact Hk|]. split; [exact Ho|]. rewrite Ho.
  apply Forall_map, Forall_seq. intros n Hn. simpl. unfold delay, reconnectDelay. lia.
Qed.

Lemma dashboard_reconnect_bounded_witness :
  let evs := [EClose 0; ETimer 0; EClose 1; ETimer 1; EClose 2] in
  (run evs (connect initial)).2 = [1000; 2000; 3000] /\
  exists k, (0 + k <= 20)%nat /\ (run evs (connect initial)).2 = map delay (seq 1 k) /\
    Forall (fun z => 1000 <= z <= 10000) (run evs (connect initial)).2.
Proof.
  split; [vm_compute; reflexivity|].
  apply (dashboard_reconnect_bounded _ (connect initial)).
  - by repeat constructor.
  - vm_compute. lia.
Defined.

End Dashboard.
