(* ===== verification/Waterfall.v ===== *)
(** * The waterfalls of the dashboard (src/frontend/src/components/WaterfallView.tsx, SatelliteTracking.tsx, App.tsx)

    The arithmetic behind the two canvases: which rows are kept, the range of
    levels they are drawn in, the colour of a level.  What is drawn with them is in
    Canvas. *)

From S2P Require Import Prelude JsStd Types StateManager Effects Dashboard.
Local Open Scope Z_scope.

Module Waterfall.

(** ** Rows *)

(** The state of a view: its rows and two references. *)
(* @src frontend/src/components/WaterfallView.tsx:25-33 WaterfallView *)
Record waterfall := mkWaterfall {
  fftHistory : list FFTData;
  currentConfig : option (Z * Z);
  lastDataRef : option FFTData;
  lastProcessedTimestamp : Z
}.

Definition empty : waterfall := mkWaterfall [] None None 0.

(* @src frontend/src/components/WaterfallView.tsx:14-14 MAX_HISTORY_ROWS *)
Definition MAX_HISTORY_ROWS : nat := 150.
(* @src frontend/src/components/SatelliteTracking.tsx:159-159 MAX_HISTORY_ROWS *)
Definition SPECTRUM_HISTORY_ROWS : nat := 100.

(** [newHistory], cut to its last [limit] rows. *)
(* @src frontend/src/components/WaterfallView.tsx:44-50 setFftHistory *)
Definition push_row (limit : nat) (data : FFTData) (prev : list FFTData) : list FFTData :=
  let newHistory := prev ++ [data] in
  if (limit <? length newHistory)%nat then drop (length newHistory - limit) newHistory else newHistory.

(** The effect that runs when the latest data changes. *)
(* @src frontend/src/components/WaterfallView.tsx:35-51 useEffect *)
Definition on_latest (latestFFTData : option FFTData) (w : waterfall) : waterfall :=
  match latestFFTData with
  | None => w
  | Some data =>
      if fft_timestamp data =? lastProcessedTimestamp w then w
      else mkWaterfall (push_row MAX_HISTORY_ROWS data (fftHistory w))
             (Some (fft_centerFreq data, 200000)) (Some data) (fft_timestamp data)
  end.

(** The rows of the spectrum view, with the time stamp it has processed. *)
(* @src frontend/src/components/SatelliteTracking.tsx:162-174 useEffect *)
Definition on_latest_spectrum (latestFFTData : option FFTData) (w : list FFTData * Z)
  : list FFTData * Z :=
  match latestFFTData with
  | None => w
  | Some data =>
      if fft_timestamp data =? w.2 then w
      else (push_row SPECTRUM_HISTORY_ROWS data w.1, fft_timestamp data)
  end.

(** The component [App] keeps the latest data.  React renders once after a message,
    however many data it had: effects see the last. *)
(* @src frontend/src/App.tsx:26-28 handleFFTData *)
Definition handleFFTData (data : FFTData) (latest : option FFTData) : option FFTData := Some data.

Definition receive (frames : list FFTData) (s : option FFTData * waterfall)
  : option FFTData * waterfall :=
  let latest := foldl (fun l d => handleFFTData d l) s.1 frames in (latest, on_latest latest s.2).

(** ** Levels *)

(* @src frontend/src/components/WaterfallView.tsx:135-142 drawWaterfall *)
Definition measure (m : Q * Q) (row : FFTData) : Q * Q :=
  let inside (p : Q) := ((-150)%Q <?q p) && (p <?q 0%Q) in
  (if inside (fft_minPower row) then js_min m.1 (fft_minPower row) else m.1,
   if inside (fft_maxPower row) then js_max m.2 (fft_maxPower row) else m.2).

(* @src frontend/src/components/WaterfallView.tsx:129-156 drawWaterfall *)
Definition reference_range (rows : list FFTData) : Q * Q :=
  match rows with
  | [] => (-80, -40)%Q
  | _ =>
      let '(measuredMin, measuredMax) := foldl measure (0, -150)%Q (lastn 30 rows) in
      let '(allMin, allMax) :=
        if (measuredMin <?q (-10)%Q) && (measuredMax <?q 0%Q)
        then (measuredMin - 5, measuredMax + 10)%Q else (-80, -40)%Q in
      let '(allMin, allMax) :=
        if (allMax - allMin)%Q <?q 30%Q
        then let mid := ((allMin + allMax) / 2)%Q in (mid - 20, mid + 15)%Q
        else (allMin, allMax) in
      (js_max allMin (-120), js_min allMax (-10))
  end.

(* @src frontend/src/components/SatelliteTracking.tsx:209-224 draw *)
Definition spectrum_range (rows : list FFTData) : Q * Q :=
  match rows with
  | [] => (-100, -20)%Q
  | _ =>
      let widen (m : Q * Q) (row : FFTData) : Q * Q :=
        (if (-120)%Q <?q fft_minPower row then js_min m.1 (fft_minPower row) else m.1,
         js_max m.2 (fft_maxPower row)) in
      let '(refMin, refMax) := foldl widen (-100, -20)%Q (lastn 20 rows) in
      let refMin := js_max (refMin - 5) (-110) in
      let refMax := js_min (refMax + 5) 0 in
      if (refMax - refMin)%Q <?q 20%Q
      then let mid := ((refMin + refMax) / 2)%Q in (mid - 15, mid + 15)%Q
      else (refMin, refMax)
  end.

(* @src frontend/src/components/WaterfallView.tsx:164-164 drawWaterfall *)
Definition normalized (range : Q * Q) (power : Q) : Q :=
  js_max 0 (js_min 1 ((power - range.1) / (range.2 - range.1))).

(** The channels of [rgb(..)]. *)
(* @src frontend/src/components/WaterfallView.tsx:53-72 getWaterfallColor *)
Definition getWaterfallColor (n : Q) : Z * Z * Z :=
  if n <?q (1 # 5) then
    let t := (n / (1 # 5))%Q in (0, 0, js_floor (30 + t * 170))
  else if n <?q (2 # 5) then
    let t := ((n - (1 # 5)) / (1 # 5))%Q in (0, js_floor (t * 200), js_floor (200 - t * 50))
  else if n <?q (3 # 5) then
    let t := ((n - (2 # 5)) / (1 # 5))%Q in
    (js_floor (t * 200), js_floor (200 + t * 55), js_floor (150 - t * 150))
  else if n <?q (4 # 5) then
    let t := ((n - (3 # 5)) / (1 # 5))%Q in (js_floor (200 + t * 55), js_floor (255 - t * 100), 0)
  else
    let t := ((n - (4 # 5)) / (1 # 5))%Q in (255, js_floor (155 - t * 155), 0).

(* @src frontend/src/components/SatelliteTracking.tsx:176-195 getColor *)
Definition getColor : Q -> Z * Z * Z := getWaterfallColor.

(* @src frontend/src/components/WaterfallView.tsx:210-216 drawWaterfall *)
Definition statusText (fftRunning isActive isScanning : bool) : string :=
  (if fftRunning then if isActive then "RECEIVING" else if isScanning then "SCANNING" else "MONITORING"
   else "OFFLINE")%string.

(** The frequency under a label of the scale, in MHz. *)
(* @src frontend/src/components/WaterfallView.tsx:180-191 drawWaterfall *)
Definition labelFreq (centerFreqMHz bandwidthMHz : Q) (i : nat) : Q :=
  let labelCount := 5%Q in
  let freqOffset := ((inject_Z (Z.of_nat i) / (labelCount - 1) - (1 # 2)) * bandwidthMHz)%Q in
  (centerFreqMHz + freqOffset)%Q.

(** ** Facts *)

Lemma push_row_lastn n d l : (0 < n)%nat -> push_row n d (lastn n l) = lastn n (l ++ [d]).
Proof.
  intros Hn. unfold push_row. rewrite length_app, length_lastn. cbn [length].
  destruct (Nat.ltb_spec n (Nat.min n (length l) + 1)) as [H|H].
  - replace (Nat.min n (length l) + 1 - n)%nat with 1%nat by lia. unfold lastn.
    rewrite length_app. cbn [length]. rewrite (drop_app_le (drop (length l - n) l)) by (rewrite length_drop; lia).
    rewrite drop_drop, drop_app_le by lia. do 2 f_equal. lia.
  - rewrite !lastn_all; [done|rewrite length_app; simpl; lia|lia].
Qed.

Lemma push_row_length n d l : (length l <= n)%nat -> (length (push_row n d l) <= n)%nat.
Proof.
  intros Hl. unfold push_row.
  destruct (Nat.ltb_spec n (length (l ++ [d]))); [rewrite length_drop|]; lia.
Qed.

(** What is drawn of the messages: the last data of each, unless it has the time stamp
    of the data before. *)
Fixpoint rendered (latest : option FFTData) (prev : Z) (messages : list (list FFTData)) : list FFTData :=
  match messages with
  | [] => []
  | frames :: rest =>
      let latest := match last frames with Some d => Some d | None => latest end in
      match latest with
      | Some d => if fft_timestamp d =? prev then rendered latest prev rest
                  else d :: rendered latest (fft_timestamp d) rest
      | None => rendered latest prev rest
      end
  end.

Lemma latest_last frames latest :
  foldl (fun l d => handleFFTData d l) latest frames =
  match last frames with Some d => Some d | None => latest end.
Proof.
  destruct frames as [|x frames _] using rev_ind; [done|]. by rewrite foldl_snoc, last_snoc.
Qed.

Lemma receive_rows messages : forall latest w l,
  fftHistory w = lastn MAX_HISTORY_ROWS l ->
  fftHistory (foldl (fun s m => receive m s) (latest, w) messages).2 =
  lastn MAX_HISTORY_ROWS (l ++ rendered latest (lastProcessedTimestamp w) messages).
Proof.
  induction messages as [|frames messages IH]; intros latest w l Hw; [simpl; by rewrite app_nil_r|].
  cbn [foldl rendered]. unfold receive at 2. cbn [fst snd]. rewrite latest_last.
  set (latest' := match last frames with Some d => Some d | None => latest end).
  destruct latest' as [d|]; cbn [on_latest]; [|by apply IH].
  destruct (fft_timestamp d =? lastProcessedTimestamp w) eqn:E; [by apply IH|].
  rewrite (IH _ _ (l ++ [d])); [by rewrite <- app_assoc|]. cbn [fftHistory]. rewrite Hw.
  apply push_row_lastn. unfold MAX_HISTORY_ROWS. lia.
Qed.

Ltac minmax := unfold js_min, js_max in *; repeat break_match; props; try lra.

(** A row whose lowest level is not below the floor of the spectrum. *)
Definition row_ok (row : FFTData) : Prop :=
  (fft_minPower row <= -150 \/ -120 <= fft_minPower row)%Q.

Lemma measure_bounds rows : Forall row_ok rows -> forall m,
  (-120 <= m.1 <= 0)%Q -> (-150 <= m.2)%Q -> (m.2 < 0)%Q ->
  let m' := foldl measure m rows in (-120 <= m'.1 <= 0)%Q /\ (-150 <= m'.2)%Q /\ (m'.2 < 0)%Q.
Proof.
  induction 1 as [|row rows Hr _ IH]; intros m H1 H2 H3; [done|]. cbn [foldl].
  destruct Hr; apply IH; unfold measure; cbn [fst snd]; minmax.
Qed.

Lemma floor_between a b q : (inject_Z a <= q)%Q -> (q <= inject_Z b)%Q -> a <= js_floor q <= b.
Proof.
  unfold js_floor. intros Ha Hb. apply Qfloor_resp_le in Ha, Hb. by rewrite !Qfloor_Z in *.
Qed.

Lemma normalized_unit range power : (0 <= normalized range power <= 1)%Q.
Proof. unfold normalized. minmax. Qed.

(** The channels of a colour are bytes. *)
Definition color_ok (c : Z * Z * Z) : Prop :=
  0 <= c.1.1 <= 255 /\ 0 <= c.1.2 <= 255 /\ 0 <= c.2 <= 255.

Lemma color_bytes n : (0 <= n <= 1)%Q -> color_ok (getWaterfallColor n).
Proof.
  intros Hn. unfold getWaterfallColor, color_ok.
  assert (Hdiv : forall x, (x / (1 # 5) == x * 5)%Q) by (intros x; field).
  repeat break_match; cbn [fst snd]; props; (split; [|split]);
    first [lia | apply floor_between; rewrite Hdiv; unfold inject_Z; lra].
Qed.

Lemma reference_range_ok rows : Forall row_ok (lastn 30 rows) ->
  let '(lo, hi) := reference_range rows in (-120 <= lo /\ lo < hi /\ hi <= -10)%Q.
Proof.
  intros Hrows. unfold reference_range. destruct rows as [|r rows]; [lra|].
  destruct (measure_bounds _ Hrows (0, -150)%Q) as (H1 & H2 & H3); cbn [fst snd]; try lra.
  destruct (foldl measure _ _) as [a b]. cbn [fst snd] in *.
  assert (Hhalf : forall x, (x / 2 == x * (1 # 2))%Q) by (intros x; field).
  destruct ((a <?q (-10)%Q) && (b <?q 0%Q)) eqn:E.
  - destruct (b + 10 - (a - 5) <?q 30)%Q eqn:E2; cbv beta iota zeta; props;
      pose proof (Hhalf (a - 5 + (b + 10))%Q); (split; [|split]); minmax.
  - change (-40 - -80 <?q 30)%Q with false. cbv beta iota zeta. (split; [|split]); minmax.
Qed.

Lemma widen_bounds rows : forall m : Q * Q, (-120 <= m.1 <= -100)%Q -> (-20 <= m.2)%Q ->
  let m' := foldl (fun m row =>
    (if (-120)%Q <?q fft_minPower row then js_min m.1 (fft_minPower row) else m.1,
     js_max m.2 (fft_maxPower row))) m rows in (-120 <= m'.1 <= -100)%Q /\ (-20 <= m'.2)%Q.
Proof.
  induction rows as [|row rows IH]; intros m H1 H2; [done|]. cbn [foldl].
  apply IH; cbn [fst snd]; minmax.
Qed.

Lemma spectrum_range_ok rows :
  let '(lo, hi) := spectrum_range rows in (-110 <= lo /\ lo + 80 <= hi /\ hi <= 0)%Q.
Proof.
  unfold spectrum_range. destruct rows as [|r rows]; [lra|].
  destruct (widen_bounds (lastn 20 (r :: rows)) (-100, -20)%Q) as [H1 H2]; cbn [fst snd]; try lra.
  destruct (foldl _ _ _) as [a b]. cbn [fst snd] in *. cbv zeta.
  assert (E : (js_min (b + 5) 0 - js_max (a - 5) (-110) <?q 20)%Q = false) by minmax.
  rewrite E. (split; [|split]); minmax.
Qed.

(** ** Properties *)

(** The rows of a waterfall are the last 150 of the data it was given to draw: of each
    message the last, unless it is the one drawn before. *)
Theorem waterfall_rows_recent messages :
  fftHistory (foldl (fun s m => receive m s) (None, empty) messages).2 =
  lastn MAX_HISTORY_ROWS (rendered None 0 messages).
Proof. by apply (receive_rows messages None empty []). Qed.

(** As long as no row is quieter than the floor of the spectrum, the waterfall has a
    proper range of levels within -120 and -10 dB, the spectrum view one of at least 90
    dB whatever its rows, and every level gets a colour whose channels are bytes. *)
Theorem waterfall_drawable rows (Hrows : Forall row_ok (lastn 30 rows)) :
  (let '(lo, hi) := reference_range rows in -120 <= lo /\ lo < hi /\ hi <= -10)%Q /\
  (let '(lo, hi) := spectrum_range rows in -110 <= lo /\ lo + 80 <= hi /\ hi <= 0)%Q /\
  (forall range power, color_ok (getWaterfallColor (normalized range power))).
Proof.
  split; [|split; [|intros; apply color_bytes, normalized_unit]].
  - by apply reference_range_ok.
  - apply spectrum_range_ok.
Qed.

Definition sample_row (t : Z) (lo hi : Q) : FFTData := mkFFTData t 137900000 [lo; hi] lo hi.

Lemma waterfall_drawable_witness :
  let rows := [sample_row 1 (-95) (-60); sample_row 2 (-90) (-40)] in
  reference_range rows = (-100, -30)%Q /\
  (let '(lo, hi) := reference_range rows in -120 <= lo /\ lo < hi /\ hi <= -10)%Q.
Proof.
  split; [vm_compute; reflexivity|].
  refine (proj1 (waterfall_drawable [sample_row 1 (-95) (-60); sample_row 2 (-90) (-40)] _)).
  change (Forall row_ok [sample_row 1 (-95) (-60); sample_row 2 (-90) (-40)]).
  apply Forall_cons. split; [right; vm_compute; discriminate|].
  apply Forall_cons. split; [right; vm_compute; discriminate|]. apply Forall_nil_2.
Defined.

(** ** What the views do with their inputs *)

(** The history that a new subscriber is sent, so that the waterfall survives a reload
    of the page, adds one row. *)
Example history_replay_adds_one_row :
  let history := map (fun i => sample_row (Z.of_nat i) (-90) (-40)) (seq 1 100) in
  map fft_timestamp (fftHistory (receive history (None, empty)).2) = [100].
Proof. vm_compute. reflexivity. Qed.

(** Rows below the floor turn the range upside down. *)
Example quiet_rows_invert_range :
  let '(lo, hi) := reference_range [sample_row 1 (-149) (-149)] in (hi < lo)%Q.
Proof. vm_compute. reflexivity. Qed.

End Waterfall.
