(* ===== verification/Tracking.v ===== *)
(** * The tracking page (src/frontend/src/components/SatelliteTracking.tsx, hooks/useWebSocket.ts)

    The component shows a frequency and asks the server for its spectrum, over the
    connection of the dashboard.  Its state is that connection, the tab, and the
    frequency its effect last ran for; React runs the effect after a render in which
    the frequency has changed.  An effect of a child runs before those of its parent,
    so the first request is made before the connection exists. *)

From S2P Require Import Prelude JsStd Types StateManager Effects FftStream Dashboard.
Local Open Scope Z_scope.

Module Tracking.

(* @src frontend/src/components/SatelliteTracking.tsx:13-13 ViewMode *)
Inductive ViewMode := satellite | sstv_2m.

(* @src frontend/src/components/SatelliteTracking.tsx:8-11 SSTV_2M_FREQUENCIES *)
Definition SSTV_2M_FREQUENCIES : list Z := [144500000; 145500000].

(** [opened] are the sockets that have opened. *)
(* @src frontend/src/components/SatelliteTracking.tsx:378-393 SatelliteTracking *)
Record page := mkPage {
  dash : Dashboard.dashboard;
  opened : list nat;
  mode : ViewMode;
  sstvFreqIndex : nat;
  effectFrequency : Z
}.

Inductive request := Subscribe (frequency : Z) | Unsubscribe | SetFrequency (frequency : Z).

(** The socket of the dashboard when it is open. *)
Definition ready (p : page) : option nat :=
  match Dashboard.wsRef (dash p) with
  | Some i => if Dashboard.live i (dash p) && bool_decide (i ∈ opened p) then Some i else None
  | None => None
  end.

Definition send (r : request) (p : page) : list (nat * request) :=
  match ready p with Some i => [(i, r)] | None => [] end.

(* @src frontend/src/hooks/useWebSocket.ts:199-205 subscribeFFT *)
Definition subscribeFFT (frequency : Z) (p : page) : list (nat * request) := send (Subscribe frequency) p.
(* @src frontend/src/hooks/useWebSocket.ts:207-211 unsubscribeFFT *)
Definition unsubscribeFFT (p : page) : list (nat * request) := send Unsubscribe p.
(* @src frontend/src/hooks/useWebSocket.ts:213-217 setFFTFrequency *)
Definition setFFTFrequency (frequency : Z) (p : page) : list (nat * request) := send (SetFrequency frequency) p.

(* @src frontend/src/components/SatelliteTracking.tsx:395-412 getCurrentFrequency *)
Definition getCurrentFrequency (p : page) : Z :=
  let system := Dashboard.systemState (dash p) in
  let currentPass := system ≫= Dashboard.cl_currentPass in
  let isScanning :=
    match Dashboard.cl_status <$> system with
    | Some (Dashboard.server_status scanning) => true
    | _ => false
    end in
  let manual := default 145500000 (SSTV_2M_FREQUENCIES !! sstvFreqIndex p) in
  match mode p with
  | satellite =>
      match currentPass with Some pass => si_frequency (pass_satellite pass) | None => 137500000 end
  | sstv_2m =>
      match system ≫= Dashboard.cl_scanningFrequency with
      | Some f => if isScanning && negb (f =? 0) then f else manual
      | None => manual
      end
  end.

(** The cleanup of the effect before, then the effect. *)
(* @src frontend/src/components/SatelliteTracking.tsx:418-423 useEffect *)
Definition run_effect (p : page) : page * list (nat * request) :=
  let currentFrequency := getCurrentFrequency p in
  if currentFrequency =? effectFrequency p then (p, [])
  else (mkPage (dash p) (opened p) (mode p) (sstvFreqIndex p) currentFrequency,
        unsubscribeFFT p ++ subscribeFFT currentFrequency p).

(** The first render, with the tab kept from the last visit; then the connection. *)
Definition mount (m : ViewMode) : page * list (nat * request) :=
  let p := mkPage Dashboard.initial [] m 0 0 in
  let currentFrequency := getCurrentFrequency p in
  (mkPage (Dashboard.connect Dashboard.initial) [] m 0 currentFrequency,
   subscribeFFT currentFrequency p).

Inductive event := EDash (e : Dashboard.event) | ESetMode (m : ViewMode) | ESetIndex (i : nat).

Definition update (e : event) (p : page) : page :=
  match e with
  | EDash e =>
      mkPage (Dashboard.step e (dash p)).1
        (match e with
         | Dashboard.EOpen i => if Dashboard.live i (dash p) then i :: opened p else opened p
         | _ => opened p
         end) (mode p) (sstvFreqIndex p) (effectFrequency p)
  | ESetMode m => mkPage (dash p) (opened p) m (sstvFreqIndex p) (effectFrequency p)
  | ESetIndex i => mkPage (dash p) (opened p) (mode p) i (effectFrequency p)
  end.

Definition step (e : event) (p : page) : page * list (nat * request) := run_effect (update e p).

Fixpoint run (evs : list event) (p : page) : page * list (nat * request) :=
  match evs with
  | [] => (p, [])
  | e :: r => let '(p1, o1) := step e p in let '(p2, o2) := run r p1 in (p2, o1 ++ o2)
  end.

(** ** Facts *)

(** The last request sent on a socket. *)
Definition told (i : nat) (outs : list (nat * request)) : option request :=
  last (omap (fun o => if decide (o.1 = i) then Some o.2 else None) outs).

Lemma told_app i o1 o2 :
  told i (o1 ++ o2) = match told i o2 with Some r => Some r | None => told i o1 end.
Proof.
  unfold told. rewrite omap_app. set (a := omap _ o1). set (b := omap _ o2).
  destruct b as [|x b _] using rev_ind; [by rewrite app_nil_r|].
  by rewrite app_assoc, !last_snoc.
Qed.

(** The current socket lives, and once it was told anything it is open and was told
    last the frequency of the effect. *)
Record told_ok (p : page) (outs : list (nat * request)) : Prop := mkToldOk {
  tk_effect : effectFrequency p = getCurrentFrequency p;
  tk_known : forall i r, (i, r) ∈ outs -> (i < length (Dashboard.sockets (dash p)))%nat;
  tk_live : forall i, Dashboard.wsRef (dash p) = Some i -> Dashboard.live i (dash p) = true;
  tk_told : forall i, Dashboard.wsRef (dash p) = Some i -> told i outs <> None ->
    i ∈ opened p /\ told i outs = Some (Subscribe (effectFrequency p))
}.

(** What a step of the connection does to its sockets. *)
Lemma dash_step_sockets e d : (forall i, Dashboard.wsRef d = Some i -> Dashboard.live i d = true) ->
  let d' := (Dashboard.step e d).1 in
  (length (Dashboard.sockets d) <= length (Dashboard.sockets d'))%nat /\
  (forall i, Dashboard.wsRef d' = Some i -> Dashboard.live i d' = true /\
     (Dashboard.wsRef d = Some i \/ i = length (Dashboard.sockets d))).
Proof.
  intros Hlive. cbv zeta.
  assert (Hsame : forall d', Dashboard.wsRef d' = Dashboard.wsRef d -> Dashboard.sockets d' = Dashboard.sockets d ->
    (length (Dashboard.sockets d) <= length (Dashboard.sockets d'))%nat /\
    (forall i, Dashboard.wsRef d' = Some i -> Dashboard.live i d' = true /\
       (Dashboard.wsRef d = Some i \/ i = length (Dashboard.sockets d)))).
  { intros d' E1 E2. unfold Dashboard.live in *. rewrite E1, E2. auto. }
  destruct e as [i|i m|i|i|t]; cbn [Dashboard.step].
  - destruct (Dashboard.live i d); by apply Hsame.
  - destruct (Dashboard.live i d); [|by apply Hsame]. apply Hsame; by destruct m as [| [] | | | | | |].
  - destruct (Dashboard.live i d); by apply Hsame.
  - destruct (Dashboard.live i d); [|by apply Hsame]. unfold Dashboard.on_close.
    destruct (_ <? _)%nat; cbn [fst Dashboard.sockets Dashboard.wsRef]; rewrite length_insert; done.
  - destruct (Dashboard.timers d !! t) as [[]|]; try by apply Hsame.
    cbn [fst Dashboard.connect Dashboard.sockets Dashboard.wsRef]. rewrite length_app. split; [lia|].
    intros i [= <-]. unfold Dashboard.live. cbn [Dashboard.sockets Dashboard.connect].
    split; [|by right]. rewrite lookup_app_r by done. by rewrite Nat.sub_diag.
Qed.

Lemma told_fresh i outs n : (forall j r, (j, r) ∈ outs -> (j < n)%nat) -> (n <= i)%nat -> told i outs = None.
Proof.
  intros Hk Hn. unfold told. replace (omap _ outs) with (@nil request); [done|]. symmetry.
  induction outs as [|[j r] outs IH]; [done|]. rewrite omap_cons. simpl.
  rewrite decide_False by (assert (j < n)%nat by (apply (Hk j r); left); lia).
  apply IH. intros j' r' Hin. apply (Hk j' r'). by right.
Qed.

(** After the update and before the effect. *)
Lemma update_told e p outs : told_ok p outs ->
  let p' := update e p in
  (forall i r, (i, r) ∈ outs -> (i < length (Dashboard.sockets (dash p')))%nat) /\
  (forall i, Dashboard.wsRef (dash p') = Some i -> Dashboard.live i (dash p') = true) /\
  (forall i, Dashboard.wsRef (dash p') = Some i -> told i outs <> None ->
    i ∈ opened p' /\ told i outs = Some (Subscribe (effectFrequency p'))).
Proof.
  intros [H1 H2 H3 H4]. destruct e as [e|m|i]; [|done|done]. cbn [update dash opened effectFrequency].
  destruct (dash_step_sockets e (dash p) H3) as [Hl Hw]. split; [|split].
  - intros i r Hin. specialize (H2 i r Hin). lia.
  - intros i Hi. by apply Hw.
  - intros i Hi Ht. destruct (Hw i Hi) as [_ [Hold| ->]].
    + destruct (H4 i Hold Ht) as [Hop Hto]. split; [|done].
      destruct e; try done. destruct (Dashboard.live _ _); [by right|done].
    + by rewrite (told_fresh _ outs _ H2) in Ht.
Qed.

Lemma step_told e p outs : told_ok p outs -> told_ok (step e p).1 (outs ++ (step e p).2).
Proof.
  intros Hp. destruct (update_told e p outs Hp) as (H2 & H3 & H4). unfold step, run_effect.
  set (p' := update e p) in *. destruct (_ =? _) eqn:E; props.
  { rewrite app_nil_r. by split. }
  assert (Hs : forall r, ready p' = None /\ send r p' = [] \/
    exists i, Dashboard.wsRef (dash p') = Some i /\ i ∈ opened p' /\ ready p' = Some i /\ send r p' = [(i, r)]).
  { intros r. unfold send, ready. destruct (Dashboard.wsRef (dash p')) as [i|] eqn:Ew; [|by left].
    rewrite (H3 i) by done. simpl. case_bool_decide; [right; eauto|by left]. }
  unfold subscribeFFT, unsubscribeFFT. set (f := getCurrentFrequency p').
  assert (Hfst : getCurrentFrequency (mkPage (dash p') (opened p') (mode p') (sstvFreqIndex p') f) = f) by done.
  destruct (Hs Unsubscribe) as [[Hr ->]|(i & Hw & Ho & Hr & ->)], (Hs (Subscribe f)) as [[Hr' ->]|(i' & Hw' & Ho' & Hr' & ->)];
    try congruence; cbn [fst snd app].
  - rewrite app_nil_r. split; cbn [effectFrequency dash opened]; try done.
    intros i Hi Ht. destruct (H4 i Hi Ht) as [Hop _]. unfold ready in Hr. rewrite Hi, (H3 i Hi) in Hr.
    simpl in Hr. by rewrite bool_decide_true in Hr.
  - assert (i' = i) as -> by congruence. split; cbn [effectFrequency dash opened]; try done.
    + intros j r [Hin|Hin]%elem_of_app; [by apply (H2 j r)|].
      assert (j = i) as ->.
      { apply elem_of_cons in Hin as [Heq|Hin]; [congruence|].
        apply list_elem_of_singleton in Hin. congruence. }
      specialize (H3 i Hw). unfold Dashboard.live in H3.
      destruct (Dashboard.sockets (dash p') !! i) eqn:El; [by eapply lookup_lt_Some|done].
    + intros j Hj _. assert (j = i) as -> by congruence. split; [done|]. rewrite told_app.
      assert (E2 : told i [(i, Unsubscribe); (i, Subscribe f)] = Some (Subscribe f)).
      { unfold told. rewrite !omap_cons. cbn [fst snd]. by rewrite !decide_True. }
      by rewrite E2.
Qed.

Lemma run_told evs : forall p outs, told_ok p outs -> told_ok (run evs p).1 (outs ++ (run evs p).2).
Proof.
  induction evs as [|e evs IH]; intros p outs Hp; simpl; [by rewrite app_nil_r|].
  pose proof (step_told e p outs Hp) as H1. destruct (step e p) as [p1 o1]. cbn [fst snd] in H1.
  specialize (IH p1 _ H1). destruct (run evs p1) as [p2 o2]. cbn [fst snd] in *. by rewrite app_assoc.
Qed.

Lemma mount_told m : told_ok (mount m).1 (mount m).2.
Proof.
  split; [done|by intros i r ?%not_elem_of_nil|by intros i [= <-]|done].
Qed.

(** ** Properties *)

(** C30: Whatever the connection and the user do, a server that was told anything on the
    current connection was told last to send the frequency that the page shows. *)
Theorem page_subscription m evs :
  let '(p, outs) := run evs (mount m).1 in
  forall i, Dashboard.wsRef (dash p) = Some i ->
    told i outs = None \/ told i outs = Some (Subscribe (getCurrentFrequency p)).
Proof.
  pose proof (run_told evs (mount m).1 (mount m).2 (mount_told m)) as Hp.
  destruct (run evs (mount m).1) as [p outs]. destruct Hp as [H1 _ _ H4]. intros i Hi.
  change ((mount m).2 ++ (p, outs).2) with outs in H4. cbn [fst] in *.
  destruct (told i outs) as [r|] eqn:E; [right|by left].
  destruct (H4 i Hi) as [_ Ht]; [by rewrite E|]. rewrite E in Ht. by rewrite <- H1.
Qed.

(** The effect does not change what is shown. *)
Lemma effect_frequency p : getCurrentFrequency (run_effect p).1 = getCurrentFrequency p.
Proof. unfold run_effect. by destruct (_ =? _). Qed.

Lemma silent_run f evs : forall p, effectFrequency p = f ->
  (forall k, getCurrentFrequency (run (take k evs) p).1 = f) -> (run evs p).2 = [].
Proof.
  induction evs as [|e evs IH]; intros p He Hs; [done|].
  assert (Hstep : step e p = (update e p, [])).
  { pose proof (Hs 1%nat) as H1. cbn [take run] in H1. unfold step in *.
    pose proof (effect_frequency (update e p)) as Hf. unfold run_effect in *.
    assert (E1 : effectFrequency (update e p) = f) by (by destruct e).
    destruct (_ =? _) eqn:E; [done|]. cbn [fst] in H1. props. rewrite E1 in E. by destruct E. }
  cbn [run]. rewrite Hstep. assert (IH' : (run evs (update e p)).2 = []).
  { apply IH; [by destruct e|]. intros k. specialize (Hs (S k)). cbn [take run] in Hs.
    rewrite Hstep in Hs. by destruct (run (take k evs) (update e p)). }
  by destruct (run evs (update e p)).
Qed.

(** It may have been told nothing: as long as the frequency stays the one of the first
    render, the page sends no request, however often it connects.  No spectrum is
    shown until the frequency changes. *)
Theorem page_load_never_subscribes m evs
  (Hsame : forall k, getCurrentFrequency (run (take k evs) (mount m).1).1 = getCurrentFrequency (mount m).1) :
  (mount m).2 = [] /\ (run evs (mount m).1).2 = [].
Proof. split; [done|]. by apply (silent_run (getCurrentFrequency (mount m).1)). Qed.

Definition load_events : list event :=
  [EDash (Dashboard.EOpen 0); EDash (Dashboard.EMessage 0 (Dashboard.init (StateManager.initial 0) None None));
   EDash (Dashboard.EMessage 0 (Dashboard.state_event (status_change waiting)))].

Lemma page_load_never_subscribes_witness :
  ready (run load_events (mount satellite).1).1 = Some 0%nat /\ (run load_events (mount satellite).1).2 = [].
Proof.
  split; [vm_compute; reflexivity|]. apply (page_load_never_subscribes satellite load_events).
  intros [|[|[|k]]]; [vm_compute; reflexivity..|]. rewrite take_ge by (simpl; lia). vm_compute. reflexivity.
Defined.

End Tracking.
