(* ===== verification/Views.v ===== *)
(** * The views of the dashboard (src/frontend/src: lib/utils.ts, store/index.ts, components/)

    What the components compute from their inputs before they draw: texts of times and
    frequencies, the timeline of passes, labels of quality and status, the log and the
    size of the diagnostics panel, the state kept between visits. *)

From Stdlib Require Import Qabs.
From S2P Require Import Prelude JsStd Types StateManager Effects Dashboard Tracking.
Local Open Scope Z_scope.

Module Views.

(** ** Texts (lib/utils.ts) *)

(** [q.toFixed(d)]: the nearest decimal, the larger of two, by magnitude. *)
Definition toFixed (q : Q) (d : nat) : string :=
  let scale := (10 ^ Z.of_nat d)%Z in
  let n := js_floor (Qabs q * inject_Z scale + (1 # 2)) in
  let digits := show_Z (n mod scale) in
  let zeros := String.concat "" (repeat "0"%string (d - String.length digits)) in
  let sign := if q <?q 0 then "-"%string else ""%string in
  let fraction := if Nat.eqb d 0 then ""%string else ("." ++ zeros ++ digits)%string in
  (sign ++ show_Z (n / scale)%Z ++ fraction)%string.

(* @src frontend/src/lib/utils.ts:1-6 formatFrequency *)
Definition formatFrequency (hz : Z) : string :=
  let q := inject_Z hz in
  if 1000000000 <=? hz then (toFixed (q / 1000000000)%Q 6 ++ " GHz")%string
  else if 1000000 <=? hz then (toFixed (q / 1000000)%Q 4 ++ " MHz")%string
  else if 1000 <=? hz then (toFixed (q / 1000)%Q 2 ++ " kHz")%string
  else (show_Z hz ++ " Hz")%string.

(* @src frontend/src/lib/utils.ts:8-16 formatDuration *)
Definition formatDuration (seconds : Z) : string :=
  let hours := seconds / 3600 in
  let minutes := Z.rem seconds 3600 / 60 in
  let secs := Z.rem seconds 60 in
  if 0 <? hours then (show_Z hours ++ "h " ++ show_Z minutes ++ "m " ++ show_Z secs ++ "s")%string
  else if 0 <? minutes then (show_Z minutes ++ "m " ++ show_Z secs ++ "s")%string
  else (show_Z secs ++ "s")%string.

(** Hours, minutes and seconds of a number of milliseconds. *)
(* @src frontend/src/lib/utils.ts:21-23 formatCountdown *)
Definition clock_fields (ms : Z) : Z * Z * Z :=
  (ms / 3600000, Z.rem ms 3600000 / 60000, Z.rem ms 60000 / 1000).

(* @src frontend/src/lib/utils.ts:18-26 formatCountdown *)
Definition formatCountdown (ms : Z) : string :=
  if ms <=? 0 then "Starting..."%string
  else
    let '(hours, minutes, seconds) := clock_fields ms in
    (padStart2 hours ++ ":" ++ padStart2 minutes ++ ":" ++ padStart2 seconds)%string.

(* @src frontend/src/lib/utils.ts:28-32 formatDopplerShift *)
Definition formatDopplerShift (hz : Q) : string :=
  let sign := if 0 <=?q hz then "+"%string else ""%string in
  if 1000 <=?q Qabs hz then (sign ++ toFixed (hz / 1000)%Q 2 ++ " kHz")%string
  else (sign ++ show_Z (js_round hz) ++ " Hz")%string.

(** [classes.filter(Boolean).join(' ')]; [None] is a falsy class. *)
(* @src frontend/src/lib/utils.ts:34-36 cn *)
Definition cn (classes : list (option string)) : string :=
  join " " (js_filter (fun c => negb (String.eqb c "")) (omap id classes)).

Example formats :
  (formatFrequency 137900000, formatDuration 754, formatCountdown 3723999, formatDopplerShift (-1250),
   cn [Some "a"; None; Some "b"]%string) =
  ("137.9000 MHz", "12m 34s", "01:02:03", "-1.25 kHz", "a b")%string.
Proof. vm_compute. reflexivity. Qed.

(** ** The timeline (components/PassTimeline.tsx) *)

Section Timeline.
Context (now hoursAhead : Z).

(* @src frontend/src/components/PassTimeline.tsx:37-39 PassTimeline *)
Definition endTime : Z := now + hoursAhead * 60 * 60 * 1000.
Definition timeRange : Z := endTime - now.

(* @src frontend/src/components/PassTimeline.tsx:43-47 visiblePasses *)
Definition visiblePasses (passes : list SatellitePass) : list SatellitePass :=
  js_filter (fun pass => (now <=? pass_los pass) && (pass_aos pass <=? endTime)) passes.

(* @src frontend/src/components/PassTimeline.tsx:49-52 getPassStartPos *)
Definition getPassStartPos (pass : SatellitePass) : Q :=
  let aosTime := Z.max (pass_aos pass) now in
  (inject_Z (aosTime - now) / inject_Z timeRange * 100)%Q.

(* @src frontend/src/components/PassTimeline.tsx:54-58 getPassWidth *)
Definition getPassWidth (pass : SatellitePass) : Q :=
  let aosTime := Z.max (pass_aos pass) now in
  let losTime := Z.min (pass_los pass) endTime in
  (inject_Z (losTime - aosTime) / inject_Z timeRange * 100)%Q.

(* @src frontend/src/components/PassTimeline.tsx:60-62 getElevationOpacity *)
Definition getElevationOpacity (elevation : Q) : Q := ((2 # 5) + elevation / 90 * (3 # 5))%Q.

(** The marks at 2 h, 4 h, ..., with their positions. *)
(* @src frontend/src/components/PassTimeline.tsx:117-121 hourMarkers *)
Definition hourMarkers : list (Z * Q) :=
  map (fun i => let h := 2 * Z.of_nat i in (h, (inject_Z h / inject_Z hoursAhead * 100)%Q))
    (seq 1 (Z.to_nat ((hoursAhead - 1) / 2))).

(** The pass of the countdown and the time to it. *)
(* @src frontend/src/components/PassTimeline.tsx:123-125 PassTimeline *)
Definition countdown (passes : list SatellitePass) : option (SatellitePass * Z * bool) :=
  (fun nextPass => let msToNext := pass_aos nextPass - now in (nextPass, msToNext, msToNext <=? 0))
    <$> head (visiblePasses passes).
End Timeline.

(* @src frontend/src/components/PassTimeline.tsx:85-94 formatCountdown *)
Definition timelineCountdown (ms : Z) : string :=
  if ms <=? 0 then "NOW"%string
  else
    let '(hours, mins, secs) := clock_fields ms in
    if 0 <? hours then (show_Z hours ++ "h " ++ padStart2 mins ++ "m")%string
    else (show_Z mins ++ ":" ++ padStart2 secs)%string.

(** ** Labels (components/CaptureGallery.tsx, App.tsx) *)

Inductive quality := q_unknown | q_excellent | q_good | q_fair | q_weak.

(* @src frontend/src/components/CaptureGallery.tsx:6-24 getSignalQuality *)
Definition getSignalQuality (signal : option Q) : quality :=
  match signal with
  | None => q_unknown
  | Some s =>
      if (-20)%Q <=?q s then q_excellent
      else if (-25)%Q <=?q s then q_good
      else if (-30)%Q <=?q s then q_fair
      else q_weak
  end.

(* @src frontend/src/components/CaptureGallery.tsx:26-40 getElevationQuality *)
Definition getElevationQuality (elevation : Q) : string :=
  if 60 <=?q elevation then "Excellent pass"%string
  else if 40 <=?q elevation then "Good pass"%string
  else if 25 <=?q elevation then "Fair pass"%string
  else "Low pass"%string.

Section Status.
Import Dashboard.

(** The status bar: an absent state is idle, and a status outside the client's type falls
    through to the default. *)
(* @src frontend/src/App.tsx:151-166 getStatusText *)
Definition getStatusText (status : ClientStatus) : string :=
  match status with
  | server_status idle => "IDLE"
  | server_status waiting => "WAIT"
  | client_recording => "REC"
  | server_status decoding => "DEC"
  | server_status scanning => "SCAN"
  | server_status capturing => "???"
  end%string.

(* @src frontend/src/App.tsx:168-176 getSdrStatus *)
Definition getSdrStatus (status : ClientStatus) (sdrConnected : bool) : string :=
  match status with
  | client_recording | server_status scanning => "ACT"
  | _ => if sdrConnected then "RDY" else "OFF"
  end%string.

(* @src frontend/src/App.tsx:131-131 showProgress *)
Definition showProgress (s : option ClientState) : bool :=
  match cl_status <$> s with
  | Some client_recording | Some (server_status decoding) => true
  | _ => false
  end.
End Status.

(** ** The diagnostics panel (components/DiagnosticsPanel.tsx) *)

Inductive level := info | warn | error | debug.

(* @src frontend/src/components/DiagnosticsPanel.tsx:25-30 LogEntry *)
Record LogEntry := mkLog { le_timestamp : Z; le_level : level; le_message : string }.

(** [prev.slice(-100)] and the new entry. *)
(* @src frontend/src/components/DiagnosticsPanel.tsx:68-84 addLog *)
Definition addLog (now : Z) (l : level) (message : string) (prev : list LogEntry) : list LogEntry :=
  lastn 100 prev ++ [mkLog now l message].

(* @src frontend/src/components/DiagnosticsPanel.tsx:91-96 handleMouseMove *)
Definition dragged (clientY : Z) (isResizing : bool) (height : Z) : Z :=
  let topOffset := 68 in
  if isResizing then Z.max 150 (Z.min 500 (clientY - topOffset)) else height.

(* @src frontend/src/components/DiagnosticsPanel.tsx:271-276 sdrStatusText *)
Definition sdrStatusText (status : option Dashboard.ClientStatus) : string :=
  match status with
  | Some Dashboard.client_recording | Some (Dashboard.server_status (scanning | decoding)) => "Active"%string
  | Some (Dashboard.server_status (idle | waiting)) => "Ready"%string
  | Some (Dashboard.server_status capturing) | None => "Unknown"%string
  end.

(* @src frontend/src/components/DiagnosticsPanel.tsx:137-142 formatDuration *)
Definition panelDuration (aos los : Z) : string :=
  let durationMs := los - aos in
  let mins := durationMs / 60000 in
  let secs := Z.rem durationMs 60000 / 1000 in
  (show_Z mins ++ "m " ++ show_Z secs ++ "s")%string.

(* @src frontend/src/components/DiagnosticsPanel.tsx:144-151 formatCountdown *)
Definition panelCountdown (aos now : Z) : string :=
  let msUntil := aos - now in
  if msUntil <=? 0 then "NOW"%string
  else
    let '(hours, mins, _) := clock_fields msUntil in
    if 0 <? hours then (show_Z hours ++ "h " ++ show_Z mins ++ "m")%string
    else (show_Z mins ++ "m")%string.

(** ** The state kept between visits (store/index.ts) *)

Inductive DiagnosticsTab := console | tab_state | network | sdr | tab_passes.

(* @src frontend/src/store/index.ts:7-20 UIState *)
Record UIState := mkUI {
  diagnosticsOpen : bool;
  diagnosticsTab : DiagnosticsTab;
  diagnosticsPanelHeight : Z;
  waterfallMode : Tracking.ViewMode;
  selectedFrequency : option Z
}.

(* @src frontend/src/store/index.ts:25-29 useUIStore *)
Definition initialUI : UIState := mkUI false console 300 Tracking.satellite None.

Inductive ui_op :=
| SetDiagnosticsOpen (b : bool) | ToggleDiagnostics | SetDiagnosticsTab (t : DiagnosticsTab)
| SetDiagnosticsPanelHeight (h : Z) | SetWaterfallMode (m : Tracking.ViewMode)
| SetSelectedFrequency (f : option Z).

(* @src frontend/src/store/index.ts:31-36 useUIStore *)
Definition ui_step (s : UIState) (o : ui_op) : UIState :=
  let 'mkUI opened tab height mode freq := s in
  match o with
  | SetDiagnosticsOpen b => mkUI b tab height mode freq
  | ToggleDiagnostics => mkUI (negb opened) tab height mode freq
  | SetDiagnosticsTab t => mkUI opened t height mode freq
  | SetDiagnosticsPanelHeight h => mkUI opened tab h mode freq
  | SetWaterfallMode m => mkUI opened tab height m freq
  | SetSelectedFrequency f => mkUI opened tab height mode f
  end.

(** What is stored, and the state a new visit starts with: the stored fields over the
    initial ones. *)
(* @src frontend/src/store/index.ts:38-46 partialize *)
Definition partialize (s : UIState) : bool * DiagnosticsTab * Z * Tracking.ViewMode :=
  (diagnosticsOpen s, diagnosticsTab s, diagnosticsPanelHeight s, waterfallMode s).

Definition rehydrate (stored : option (bool * DiagnosticsTab * Z * Tracking.ViewMode)) : UIState :=
  match stored with
  | Some (o, t, h, m) => mkUI o t h m (selectedFrequency initialUI)
  | None => initialUI
  end.

(** ** Facts *)

(** A share of the range, in percent. *)
Lemma percent_bounds n range : (0 < range) -> (0 <= n <= range) ->
  (0 <= inject_Z n / inject_Z range * 100 <= 100)%Q.
Proof.
  intros Hr Hn. assert (Hq : (0 < inject_Z range)%Q) by (change 0%Q with (inject_Z 0); by rewrite <- Zlt_Qlt).
  assert (H0 : (0 <= inject_Z n)%Q) by (change 0%Q with (inject_Z 0); rewrite <- Zle_Qle; lia).
  assert (H1 : (inject_Z n <= inject_Z range)%Q) by (rewrite <- Zle_Qle; lia).
  assert (Hd : (0 <= inject_Z n / inject_Z range <= 1)%Q).
  { split; [apply Qle_shift_div_l|apply Qle_shift_div_r]; lra. }
  lra.
Qed.

(** A pass that is visible is drawn inside the timeline: its bar starts at or after the
    left edge, has a width, and ends at or before the right edge. *)
Theorem timeline_inside now hoursAhead passes pass
  (Hh : 0 < hoursAhead) (Hin : pass ∈ visiblePasses now hoursAhead passes)
  (Hpass : pass_aos pass <= pass_los pass) :
  (0 <= getPassStartPos now hoursAhead pass)%Q /\ (0 <= getPassWidth now hoursAhead pass)%Q /\
  (getPassStartPos now hoursAhead pass + getPassWidth now hoursAhead pass <= 100)%Q.
Proof.
  apply js_filter_elem in Hin as [_ Hv]. props. destruct Hv as [Hlos Haos].
  unfold getPassStartPos, getPassWidth, timeRange, endTime in *. cbv zeta.
  set (range := now + hoursAhead * 60 * 60 * 1000 - now) in *.
  set (start := Z.max (pass_aos pass) now - now).
  set (width := Z.min _ _ - _). assert (Hr : 0 < range) by lia.
  destruct (percent_bounds start range Hr) as [H1 _]; [lia|].
  destruct (percent_bounds width range Hr) as [H2 _]; [lia|].
  destruct (percent_bounds (start + width) range Hr) as [_ H3]; [lia|].
  split; [done|]. split; [done|]. rewrite inject_Z_plus in H3.
  assert (E : ((inject_Z start + inject_Z width) / inject_Z range * 100 ==
    inject_Z start / inject_Z range * 100 + inject_Z width / inject_Z range * 100)%Q).
  { field. change 0%Q with (inject_Z 0). rewrite inject_Z_injective. lia. }
  lra.
Qed.

(** The fields of a countdown are what a clock shows, and add up to the seconds left. *)
Theorem countdown_fields ms (Hms : 0 <= ms) :
  let '(h, m, s) := clock_fields ms in
  0 <= h /\ 0 <= m < 60 /\ 0 <= s < 60 /\ h * 3600 + m * 60 + s = ms / 1000.
Proof.
  unfold clock_fields. cbv zeta. rewrite !Z.rem_mod_nonneg by lia.
  Z.div_mod_to_equations. lia.
Qed.

(** The panel shows at most 101 entries, the newest last, and stays between 150 and 500
    pixels high once it was dragged. *)
Theorem panel_bounded now l message logs clientY h :
  (length (addLog now l message logs) <= 101)%nat /\
  last (addLog now l message logs) = Some (mkLog now l message) /\
  150 <= dragged clientY true h <= 500.
Proof.
  unfold addLog, dragged. split; [|split].
  - rewrite length_app, length_lastn. cbn [length]. lia.
  - apply last_snoc.
  - lia.
Qed.

(** A new visit starts with the panel, the tab and the mode of the last, and without
    its frequency. *)
Theorem visit_restored s :
  partialize (rehydrate (Some (partialize s))) = partialize s /\
  selectedFrequency (rehydrate (Some (partialize s))) = None.
Proof. by destruct s. Qed.

(** A page that is loaded during a capture shows an unknown status and no progress. *)
Theorem page_loaded_during_capture s g f d (Hs : st_status s = capturing) :
  let d' := (Dashboard.on_message (Dashboard.init s g f) d).1 in
  getStatusText <$> (Dashboard.cl_status <$> Dashboard.systemState d') = Some "???"%string /\
  showProgress (Dashboard.systemState d') = false.
Proof. destruct s. simpl in Hs. by subst. Qed.

Lemma timeline_inside_witness :
  let pass := mkPass (mkSatelliteInfo "ISS" 25544 145800000 sstv (SIGNAL_CONFIGS sstv) false (Some true))
                (-60000) 540000 45 240000 600 in
  (getPassStartPos 0 12 pass == 0)%Q /\ (getPassStartPos 0 12 pass + getPassWidth 0 12 pass <= 100)%Q.
Proof.
  set (pass := mkPass _ _ _ _ _ _). cbv zeta. split; [reflexivity|].
  apply (timeline_inside 0 12 [pass] pass); [lia| |vm_compute; discriminate].
  change (visiblePasses 0 12 [pass]) with [pass]. left.
Defined.

Lemma countdown_fields_witness :
  0 <= 3723999 /\ let '(h, m, s) := clock_fields 3723999 in h * 3600 + m * 60 + s = 3723.
Proof. split; [lia|]. exact (proj2 (proj2 (proj2 (countdown_fields 3723999 ltac:(lia))))). Defined.

End Views.
