(* ===== verification/Canvas.v ===== *)
(** * The canvases of the dashboard (src/frontend/src/components/SatelliteTracking.tsx, WaterfallView.tsx)

    What the three drawing functions ask of their canvas, as lists of commands, and what
    they leave at a point: the style of the last rectangle over it, unless a line, an area
    or a text may have covered it since.  The square root and the trigonometric functions
    of the sky view and the extent of a text are parameters. *)

From S2P Require Import Prelude JsStd Types StateManager Effects Dashboard Waterfall Tracking Views.
Local Open Scope Z_scope.

Module Canvas.
Import Waterfall.

(** ** Commands *)

Inductive command :=
| FillStyle (style : string)
| FillGradient (y0 y1 : Q) (stops : list (Q * string))
| StrokeStyle (style : string)
| LineWidth (w : Z)
| LineDash (l : list Z)
| Font (font : string)
| TextAlign (align : string)
| FillRect (x y w h : Q)
| FillText (text : string) (x y : Q)
| BeginPath
| MoveTo (x y : Q)
| LineTo (x y : Q)
| Arc (x y r : Q)
| ClosePath
| Stroke
| Fill.

Definition num (n : nat) : Q := inject_Z (Z.of_nat n).

(** The text of a colour. *)
Definition rgb (c : Z * Z * Z) : string :=
  ("rgb(" ++ show_Z c.1.1 ++ ", " ++ show_Z c.1.2 ++ ", " ++ show_Z c.2 ++ ")")%string.

(** [l.forEach] with the index. *)
Definition each {A} (f : nat -> A -> list command) (l : list A) : list command := mjoin (imap f l).

(** ** What is left at a point

    A rectangle covers its left and upper edge; what is drawn later covers what is drawn
    earlier.  A line may cover what is within half its width of its end points' box, five
    times its width when it has corners (the limit of a mitre), and an area what is in the
    box; a text covers what the browser's fonts make it cover, a parameter. *)

Definition covers (x y w h : Q) (p : Q * Q) : bool :=
  (x <=?q p.1) && (p.1 <?q x + w) && (y <=?q p.2) && (p.2 <?q y + h).

(** The settings in use, the points of the current path, and the style of the last rectangle
    over a point, [None] when a line, an area or a text may have covered it since. *)
Record pen := mkPen {
  fill : string;
  lineWidth : Q;
  font : string;
  align : string;
  path : list (Q * Q);
  color : option string
}.

(** The settings of a new canvas. *)
Definition fresh_pen : pen := mkPen "#000000" 1 "10px sans-serif" "start" [] None.

(** The box of some points, and a margin. *)
Definition near (margin : Q) (l : list (Q * Q)) (p : Q * Q) : bool :=
  existsb (fun q => q.1 - margin <=?q p.1) l && existsb (fun q => p.1 <=?q q.1 + margin) l &&
  existsb (fun q => q.2 - margin <=?q p.2) l && existsb (fun q => p.2 <=?q q.2 + margin) l.

Definition margin (s : pen) : Q := if (length (path s) <=? 2)%nat then (lineWidth s / 2)%Q else (5 * lineWidth s)%Q.

Section Paint.
Context (ink : string -> string -> string -> Q -> Q -> Q * Q -> bool) (p : Q * Q).

Definition paint (s : pen) (c : command) : pen :=
  match c with
  | FillStyle style => mkPen style (lineWidth s) (font s) (align s) (path s) (color s)
  | FillGradient _ _ _ => mkPen "gradient" (lineWidth s) (font s) (align s) (path s) (color s)
  | LineWidth w => mkPen (fill s) (inject_Z w) (font s) (align s) (path s) (color s)
  | Font f => mkPen (fill s) (lineWidth s) f (align s) (path s) (color s)
  | TextAlign a => mkPen (fill s) (lineWidth s) (font s) a (path s) (color s)
  | StrokeStyle _ | LineDash _ | ClosePath => s
  | FillRect x y w h =>
      mkPen (fill s) (lineWidth s) (font s) (align s) (path s) (if covers x y w h p then Some (fill s) else color s)
  | FillText text x y =>
      mkPen (fill s) (lineWidth s) (font s) (align s) (path s)
        (if ink (font s) (align s) text x y p then None else color s)
  | BeginPath => mkPen (fill s) (lineWidth s) (font s) (align s) [] (color s)
  | MoveTo x y | LineTo x y => mkPen (fill s) (lineWidth s) (font s) (align s) (path s ++ [(x, y)]) (color s)
  | Arc x y r =>
      mkPen (fill s) (lineWidth s) (font s) (align s) (path s ++ [(x - r, y - r); (x + r, y + r)]%Q) (color s)
  | Stroke =>
      mkPen (fill s) (lineWidth s) (font s) (align s) (path s) (if near (margin s) (path s) p then None else color s)
  | Fill =>
      mkPen (fill s) (lineWidth s) (font s) (align s) (path s) (if near 0 (path s) p then None else color s)
  end.

Definition painted (l : list command) (s : pen) : pen := foldl paint s l.

Definition shown (l : list command) : option string := color (painted l fresh_pen).

(** No text is drawn over the point. *)
Fixpoint no_text (l : list command) (s : pen) : bool :=
  match l with
  | [] => true
  | c :: l =>
      negb (match c with FillText text x y => ink (font s) (align s) text x y p | _ => false end) &&
      no_text l (paint s c)
  end.
End Paint.

(** ** The rows of a waterfall *)

(** One row from [y] on, its bins side by side, each a point wider and higher than its
    cell. *)
(* @src frontend/src/components/WaterfallView.tsx:159-167 drawWaterfall *)
Definition draw_row (range : Q * Q) (width y rowHeight : Q) (row : FFTData) : list command :=
  let binWidth := (width / num (length (fft_bins row)))%Q in
  each (fun binIndex power =>
    let x := (num binIndex * binWidth)%Q in
    [FillStyle (rgb (getWaterfallColor (normalized range power)));
     FillRect x y (binWidth + 1) (rowHeight + 1)]) (fft_bins row).

(* @src frontend/src/components/WaterfallView.tsx:158-168 drawWaterfall *)
Definition draw_rows (range : Q * Q) (width top rowHeight : Q) (rows : list FFTData) : list command :=
  each (fun rowIndex row => draw_row range width (top + num rowIndex * rowHeight) rowHeight row) rows.

(** ** The waterfall (components/WaterfallView.tsx) *)

Record view := mkView {
  v_frequency : option Z;
  v_frequencyName : option string;
  v_isActive : bool;
  v_isScanning : bool;
  v_fftRunning : bool;
  v_fftError : option string
}.

Definition truthy (s : option string) : option string :=
  match s with Some ""%string => None | s => s end.

Section WaterfallView.
Context (width height : Q).

(* @src frontend/src/components/WaterfallView.tsx:82-82 drawWaterfall *)
Definition historyHeight : Q := (height - 60)%Q.

(* @src frontend/src/components/WaterfallView.tsx:127-127 drawWaterfall *)
Definition rowHeight (rows : nat) : Q := js_max 1 (historyHeight / num (Nat.max rows 50)).

(* @src frontend/src/components/WaterfallView.tsx:87-97 drawWaterfall *)
Definition draw_error (e : string) : list command :=
  [ FillStyle "#ef4444"; Font "bold 14px sans-serif"; TextAlign "center";
    FillText "SDR Hardware Not Found" (width / 2) (height / 2 - 30);
    FillStyle "#94a3b8"; Font "12px sans-serif";
    FillText e (width / 2) (height / 2);
    FillText "Connect an RTL-SDR device and refresh" (width / 2) (height / 2 + 25) ].

(* @src frontend/src/components/WaterfallView.tsx:99-125 drawWaterfall *)
Definition draw_empty (v : view) : list command :=
  [ FillStyle "#64748b"; Font "14px sans-serif"; TextAlign "center" ] ++
  if v_isActive v && negb (v_fftRunning v) then
    [ FillStyle "#22c55e"; Font "bold 16px sans-serif";
      FillText "📡 Capturing Satellite Signal" (width / 2) (height / 2 - 30);
      FillStyle "#94a3b8"; Font "13px sans-serif";
      FillText "Waterfall paused during signal reception" (width / 2) (height / 2);
      Font "12px sans-serif"; FillStyle "#64748b";
      FillText "SDR device is exclusively recording the pass" (width / 2) (height / 2 + 25) ]
  else
    [ FillText (if v_fftRunning v then "Waiting for FFT data..." else "FFT stream not running")
        (width / 2) (height / 2 - 20);
      Font "12px sans-serif"; FillText "Click to start waterfall" (width / 2) (height / 2 + 10) ].

(** The scale with its five labels. *)
(* @src frontend/src/components/WaterfallView.tsx:170-198 drawWaterfall *)
Definition draw_scale (centerFreqMHz bandwidthMHz : Q) : list command :=
  [ FillStyle "#1a2332"; FillRect 0 historyHeight width 60; StrokeStyle "#334155"; LineWidth 1;
    BeginPath; MoveTo 0 historyHeight; LineTo width historyHeight; Stroke;
    FillStyle "#94a3b8"; Font "11px monospace"; TextAlign "center" ] ++
  each (fun _ i =>
    let x := (width / 4 * num i)%Q in
    [ FillText (Views.toFixed (labelFreq centerFreqMHz bandwidthMHz i) 3) x (historyHeight + 20);
      BeginPath; MoveTo x historyHeight; LineTo x (historyHeight + 5); Stroke ]) (seq 0 5).

(* @src frontend/src/components/WaterfallView.tsx:180-181 drawWaterfall *)
Definition center_frequency (v : view) (w : waterfall) : Q * Q :=
  let or (a : option Z) (d : Z) := match a with Some 0 | None => d | Some f => f end in
  let frequency := or (v_frequency v) 137500000 in
  let centre := or (fst <$> currentConfig w) frequency in
  let bandwidth := or (snd <$> currentConfig w) 50000 in
  ((inject_Z centre / 1000000)%Q, (inject_Z bandwidth / 1000000)%Q).

(* @src frontend/src/components/WaterfallView.tsx:200-224 drawWaterfall *)
Definition draw_labels (v : view) (centerFreqMHz : Q) (last : option FFTData) : list command :=
  let center := Views.toFixed centerFreqMHz 3 in
  [ FillStyle (if v_isScanning v then "#8b5cf6" else "#22c55e"); Font "bold 12px monospace";
    FillText (match truthy (v_frequencyName v) with
              | Some name => center ++ " MHz - " ++ name
              | None => "Center: " ++ center ++ " MHz"
              end)%string (width / 2) (historyHeight + 40);
    FillStyle (if v_fftRunning v then if v_isScanning v then "#8b5cf6" else "#22c55e" else "#64748b");
    Font "11px sans-serif"; TextAlign "left";
    FillText (statusText (v_fftRunning v) (v_isActive v) (v_isScanning v)) 10 (historyHeight + 40) ] ++
  match last with
  | Some data =>
      [ FillStyle "#94a3b8"; TextAlign "right";
        FillText ("Peak: " ++ Views.toFixed (fft_maxPower data) 1 ++ " dB")%string (width - 10)
          (historyHeight + 40) ]
  | None => []
  end.

(* @src frontend/src/components/WaterfallView.tsx:226-245 drawWaterfall *)
Definition draw_overlay (v : view) : list command :=
  if v_isActive v && negb (v_fftRunning v) then
    [ FillStyle "rgba(26, 35, 50, 0.85)"; FillRect 0 0 width historyHeight;
      FillStyle "#22c55e"; Font "bold 18px sans-serif"; TextAlign "center";
      FillText "📡 Capturing Satellite Signal" (width / 2) (height / 2 - 35);
      FillStyle "#94a3b8"; Font "14px sans-serif";
      FillText "Waterfall paused during signal reception" (width / 2) (height / 2 - 5);
      Font "12px sans-serif"; FillStyle "#64748b";
      FillText "SDR device is exclusively recording the pass" (width / 2) (height / 2 + 25) ]
  else [].

(* @src frontend/src/components/WaterfallView.tsx:74-246 drawWaterfall *)
Definition drawWaterfall (v : view) (w : waterfall) : list command :=
  [ FillStyle "#1a2332"; FillRect 0 0 width height ] ++
  match truthy (v_fftError v) with
  | Some e => draw_error e
  | None =>
      match fftHistory w with
      | [] => draw_empty v
      | rows =>
          let '(centerFreqMHz, bandwidthMHz) := center_frequency v w in
          draw_rows (reference_range rows) width 0 (rowHeight (length rows)) rows ++
          draw_scale centerFreqMHz bandwidthMHz ++ draw_labels v centerFreqMHz (lastDataRef w) ++
          draw_overlay v
      end
  end.
End WaterfallView.

(* @src frontend/src/components/WaterfallView.tsx:268-271 WaterfallView *)
Definition view_size : Q * Q := (600, 350)%Q.

(** ** The spectrum (components/SatelliteTracking.tsx) *)

Record spectrum := mkSpectrum {
  sp_frequency : Z;
  sp_frequencyName : option string;
  sp_isScanning : bool;
  sp_fftRunning : bool;
  sp_latest : option FFTData
}.

(* @src frontend/src/components/SatelliteTracking.tsx:160-160 SPECTRUM_HEIGHT *)
Definition SPECTRUM_HEIGHT : Q := 80.

Section Spectrum.
Context (width height : Q).

(* @src frontend/src/components/SatelliteTracking.tsx:204-204 draw *)
Definition waterfallHeight : Q := (height - SPECTRUM_HEIGHT - 40)%Q.

(* @src frontend/src/components/SatelliteTracking.tsx:230-230 draw *)
Definition spectrumRowHeight (rows : nat) : Q :=
  js_max 1 (waterfallHeight / num (Nat.min rows SPECTRUM_HISTORY_ROWS)).

(* @src frontend/src/components/SatelliteTracking.tsx:295-295 draw *)
Definition scaleY : Q := (height - 40)%Q.

(** The five lines of the grid, and their levels. *)
(* @src frontend/src/components/SatelliteTracking.tsx:245-265 draw *)
Definition draw_grid (range : Q * Q) : list command :=
  [ FillStyle "rgba(15, 20, 25, 0.85)"; FillRect 0 0 width SPECTRUM_HEIGHT;
    StrokeStyle "#1e293b"; LineWidth 1 ] ++
  each (fun _ i =>
    let y := (SPECTRUM_HEIGHT / 4 * num i)%Q in [ BeginPath; MoveTo 0 y; LineTo width y; Stroke ]) (seq 0 5) ++
  [ FillStyle "#64748b"; Font "9px monospace"; TextAlign "right" ] ++
  each (fun _ i =>
    let y := (SPECTRUM_HEIGHT / 4 * num i)%Q in
    let db := (range.2 - num i * (range.2 - range.1) / 4)%Q in
    [ FillText (Views.toFixed db 0) 25 (y + 4) ]) (seq 0 5).

(** The point of a bin. *)
(* @src frontend/src/components/SatelliteTracking.tsx:273-275 draw *)
Definition curve_point (range : Q * Q) (bins : nat) (i : nat) (power : Q) : Q * Q :=
  (num i / num bins * width, SPECTRUM_HEIGHT - normalized range power * SPECTRUM_HEIGHT)%Q.

(* @src frontend/src/components/SatelliteTracking.tsx:267-293 draw *)
Definition draw_curve (range : Q * Q) (latest : option FFTData) : list command :=
  match fft_bins <$> latest with
  | None | Some [] => []
  | Some bins =>
      [ BeginPath; StrokeStyle "#8b5cf6"; LineWidth 2 ] ++
      each (fun i power =>
        let '(x, y) := curve_point range (length bins) i power in
        [ if Nat.eqb i 0 then MoveTo x y else LineTo x y ]) bins ++
      [ Stroke; LineTo width SPECTRUM_HEIGHT; LineTo 0 SPECTRUM_HEIGHT; ClosePath;
        FillGradient 0 SPECTRUM_HEIGHT [(0%Q, "rgba(139, 92, 246, 0.4)"%string); (1%Q, "rgba(139, 92, 246, 0.05)"%string)];
        Fill ]
  end.

(* @src frontend/src/components/SatelliteTracking.tsx:295-328 draw *)
Definition draw_spectrum_scale (centerFreqMHz : Q) : list command :=
  let bandwidthMHz := (1 # 5)%Q in
  [ FillStyle "#0f1419"; FillRect 0 scaleY width 40; StrokeStyle "#334155";
    BeginPath; MoveTo 0 scaleY; LineTo width scaleY; Stroke;
    FillStyle "#94a3b8"; Font "11px monospace"; TextAlign "center" ] ++
  each (fun _ i =>
    let x := (width / 4 * num i)%Q in
    [ FillText (Views.toFixed (labelFreq centerFreqMHz bandwidthMHz i) 3) x (scaleY + 20);
      BeginPath; MoveTo x scaleY; LineTo x (scaleY + 5); Stroke ]) (seq 0 5) ++
  [ StrokeStyle "#8b5cf6"; LineWidth 2; LineDash [4; 4];
    BeginPath; MoveTo (width / 2) 0; LineTo (width / 2) scaleY; Stroke; LineDash [] ].

(* @src frontend/src/components/SatelliteTracking.tsx:330-346 draw *)
Definition draw_status (s : spectrum) : list command :=
  let style := if sp_isScanning s then "#8b5cf6" else if sp_fftRunning s then "#22c55e" else "#64748b" in
  let text := if sp_isScanning s then "● SCANNING" else if sp_fftRunning s then "● MONITORING" else "○ OFFLINE" in
  [ FillStyle style; Font "bold 11px sans-serif"; TextAlign "left"; FillText text 10 (scaleY + 35) ] ++
  match truthy (sp_frequencyName s) with
  | Some name => [ FillStyle "#8b5cf6"; Font "10px sans-serif"; FillText name 100 (scaleY + 35) ]
  | None => []
  end ++
  [ FillStyle "#94a3b8"; TextAlign "right" ] ++
  match sp_latest s with
  | Some data =>
      [ FillText ("Peak: " ++ Views.toFixed (fft_maxPower data) 1 ++ " dB")%string (width - 10) (scaleY + 35) ]
  | None => []
  end.

(* @src frontend/src/components/SatelliteTracking.tsx:197-347 draw *)
Definition draw (s : spectrum) (rows : list FFTData) : list command :=
  let range := spectrum_range rows in
  let centerFreqMHz := (inject_Z (sp_frequency s) / 1000000)%Q in
  [ FillStyle "#0f1419"; FillRect 0 0 width height ] ++
  draw_rows range width SPECTRUM_HEIGHT (spectrumRowHeight (length rows)) rows ++
  draw_grid range ++ draw_curve range (sp_latest s) ++ draw_spectrum_scale centerFreqMHz ++ draw_status s.
End Spectrum.

(** ** The sky (components/SatelliteTracking.tsx) *)

Section Sky.
Context (sqrt sin cos : Q -> Q) (atan2 : Q -> Q -> Q).

(* @src frontend/src/components/SatelliteTracking.tsx:39-42 drawSkyView *)
Definition sky_radius (width height : Q) : Q := (js_min width height / 2 - 15)%Q.

(** The place of a satellite seen from the station: its elevation and azimuth; far ones are
    not shown. *)
(* @src frontend/src/components/SatelliteTracking.tsx:91-101 drawSkyView *)
Definition sky_place (stationLat stationLon : Q) (sat : SatelliteGeolocation) : option (Q * Q) :=
  let latDiff := (sg_latitude sat - stationLat)%Q in
  let lonDiff := (sg_longitude sat - stationLon)%Q in
  let distance := sqrt (latDiff * latDiff + lonDiff * lonDiff)%Q in
  if 40 <?q distance then None
  else Some (js_max 0 (90 - distance * 3), atan2 lonDiff latDiff).

(* @src frontend/src/components/SatelliteTracking.tsx:103-105 drawSkyView *)
Definition sky_point (width height : Q) (place : Q * Q) : Q * Q :=
  let '(elevation, azimuth) := place in
  let r := (sky_radius width height * (1 - elevation / 90))%Q in
  (width / 2 + r * sin azimuth, height / 2 - r * cos azimuth)%Q.

(* @src frontend/src/components/SatelliteTracking.tsx:90-117 drawSkyView *)
Definition draw_satellite (width height : Q) (g : GlobeState) (sat : SatelliteGeolocation) : list command :=
  match sky_place (gs_station_latitude g) (gs_station_longitude g) sat with
  | None => []
  | Some place =>
      let '(x, y) := sky_point width height place in
      [ FillStyle (match sg_signalType sat with sstv => "#8b5cf6" | _ => "#3b82f6" end);
        BeginPath; Arc x y 6; Fill;
        FillStyle "#f1f5f9"; Font "9px sans-serif"; TextAlign "center"; FillText (sg_name sat) x (y - 10) ]
  end.

(** The rings of elevation and the points of the compass. *)
(* @src frontend/src/components/SatelliteTracking.tsx:44-88 drawSkyView *)
Definition draw_rings (width height : Q) : list command :=
  let centerX := (width / 2)%Q in
  let centerY := (height / 2)%Q in
  let radius := sky_radius width height in
  [ FillStyle "#1a2332"; FillRect 0 0 width height; StrokeStyle "#334155"; LineWidth 1 ] ++
  each (fun _ i =>
    let elev := (30 * num i)%Q in
    let r := (radius * (1 - elev / 90))%Q in
    [ BeginPath; Arc centerX centerY r; Stroke ] ++
    if (0 <?q elev) && (elev <?q 90) then
      [ FillStyle "#64748b"; Font "9px sans-serif"; FillText (show_Z (30 * Z.of_nat i) ++ "°")%string (centerX + 3) (centerY - r + 10) ]
    else []) (seq 0 4) ++
  [ StrokeStyle "#334155"; LineWidth 1; BeginPath;
    MoveTo centerX (centerY - radius); LineTo centerX (centerY + radius);
    MoveTo (centerX - radius) centerY; LineTo (centerX + radius) centerY; Stroke;
    FillStyle "#94a3b8"; Font "bold 10px sans-serif"; TextAlign "center";
    FillText "N" centerX (centerY - radius - 3); FillText "S" centerX (centerY + radius + 10);
    FillText "E" (centerX + radius + 8) (centerY + 3); FillText "W" (centerX - radius - 8) (centerY + 3);
    StrokeStyle "#22c55e"; LineWidth 2; BeginPath; Arc centerX centerY radius; Stroke;
    FillStyle "#22c55e"; BeginPath; Arc centerX centerY 4; Fill ].

(* @src frontend/src/components/SatelliteTracking.tsx:32-118 drawSkyView *)
Definition drawSkyView (width height : Q) (globe : option GlobeState) : list command :=
  match globe with
  | None => []
  | Some g => draw_rings width height ++ each (fun _ sat => draw_satellite width height g sat) (gs_satellites g)
  end.
End Sky.

(** ** Facts about painting *)

Section Painting.
Context (ink : string -> string -> string -> Q -> Q -> Q * Q -> bool) (p : Q * Q).
Local Notation painted := (painted ink p).
Local Notation no_text := (no_text ink p).

Lemma painted_app a b s : painted (a ++ b) s = painted b (painted a s).
Proof. apply foldl_app. Qed.

Lemma no_text_app a b : forall s, no_text (a ++ b) s = no_text a s && no_text b (painted a s).
Proof. induction a as [|c a IH]; intros s; [done|]. cbn [app Canvas.no_text]. rewrite IH. by rewrite andb_assoc. Qed.

(** Rectangles that do not cover the point, and their styles. *)
Definition misses (c : command) : Prop :=
  match c with FillRect x y w h => covers x y w h p = false | FillStyle _ => True | _ => False end.

Lemma painted_misses l : Forall misses l -> forall s, color (painted l s) = color s.
Proof.
  induction 1 as [|c l Hc _ IH]; intros s; [done|]. cbn [Canvas.painted foldl]. unfold painted in IH. rewrite IH.
  destruct c; try done. simpl in *. by rewrite Hc.
Qed.

(** Rectangles and styles leave the width of the lines. *)
Definition flat (c : command) : Prop := match c with FillRect _ _ _ _ | FillStyle _ => True | _ => False end.

Lemma painted_flat l : Forall flat l -> forall s, lineWidth (painted l s) = lineWidth s.
Proof.
  induction 1 as [|c l Hc _ IH]; intros s; [done|]. cbn [Canvas.painted foldl]. unfold painted in IH. rewrite IH.
  by destruct c.
Qed.

(** Commands that leave the point as it is, unless a text is drawn over it; lines are at
    most two wide. *)
Definition quiet (l : list command) : Prop := forall s, (lineWidth s <= 2)%Q -> no_text l s = true ->
  color (painted l s) = color s /\ (lineWidth (painted l s) <= 2)%Q.

Lemma quiet_nil : quiet [].
Proof. by intros s Hw _. Qed.

Lemma quiet_app a b : quiet a -> quiet b -> quiet (a ++ b).
Proof.
  intros Ha Hb s Hw Ht. rewrite no_text_app in Ht. apply andb_true_iff in Ht as [Ht1 Ht2].
  destruct (Ha s Hw Ht1) as [H1 H2]. rewrite painted_app, <- H1. by apply Hb.
Qed.

Lemma quiet_each {A} (f : nat -> A -> list command) l :
  (forall i x, l !! i = Some x -> quiet (f i x)) -> quiet (each f l).
Proof.
  unfold each. revert f. induction l as [|x l IH]; intros f Hf; [apply quiet_nil|].
  rewrite imap_cons. apply quiet_app; [by apply (Hf 0%nat)|]. apply IH. intros i y Hi. by apply (Hf (S i)).
Qed.

(** A command that draws nothing on the point. *)
Definition idle_command (c : command) : bool :=
  match c with
  | Stroke | Fill => false
  | FillRect x y w h => negb (covers x y w h p)
  | LineWidth w => (w <=? 2)%Z
  | _ => true
  end.

Lemma quiet_cons c l : idle_command c = true -> quiet l -> quiet (c :: l).
Proof.
  intros Hc Hl s Hw Ht. cbn [Canvas.no_text] in Ht. apply andb_true_iff in Ht as [Ht1 Ht2].
  assert (H : color (paint ink p s c) = color s /\ (lineWidth (paint ink p s c) <= 2)%Q).
  { destruct c; try done; simpl in *.
    - split; [done|]. change 2%Q with (inject_Z 2). rewrite <- Zle_Qle. lia.
    - apply negb_true_iff in Hc. by rewrite Hc.
    - apply negb_true_iff in Ht1. by rewrite Ht1. }
  destruct H as [H1 H2]. cbn [Canvas.painted foldl]. rewrite <- H1. by apply Hl.
Qed.

Lemma near_below m l : Forall (fun q => q.2 + m < p.2)%Q l -> near m l p = false.
Proof.
  intros H. apply not_true_iff_false. unfold near. rewrite !andb_true_iff. intros [_ H4].
  apply existsb_exists in H4 as (q & Hq & H4). rewrite Forall_forall in H. specialize (H q).
  rewrite list_elem_of_In in H. specialize (H Hq). props. lra.
Qed.

(** A single line that does not come near the point. *)
Lemma quiet_line a b : near 1 [a; b] p = false -> quiet [BeginPath; MoveTo a.1 a.2; LineTo b.1 b.2; Stroke].
Proof.
  intros Hn s Hw _. cbn. split; [|done]. unfold margin. cbn.
  replace (near _ _ p) with false; [done|]. symmetry. apply not_true_iff_false. intros H.
  enough (near 1 [a; b] p = true) by congruence. revert H. unfold near. cbn. rewrite !orb_false_r.
  rewrite !andb_true_iff, !orb_true_iff. intros [[[H1 H2] H3] H4].
  assert (Hm : (lineWidth s / 2 <= 1)%Q) by (apply Qle_shift_div_r; lra).
  split_and!; [destruct H1|destruct H2|destruct H3|destruct H4]; props; [left|right|left|right|left|right|left|right]; props; lra.
Qed.
End Painting.

Lemma covers_false_x x y w h p : (p.1 < x)%Q -> covers x y w h p = false.
Proof. intros H. unfold covers. apply not_true_iff_false. props. lra. Qed.

Lemma covers_false_y x y w h p : (p.2 < y)%Q \/ (y + h <= p.2)%Q -> covers x y w h p = false.
Proof. intros H. unfold covers. apply not_true_iff_false. props. lra. Qed.

Lemma covers_true x y w h p : (x <= p.1)%Q -> (p.1 < x + w)%Q -> (y <= p.2)%Q -> (p.2 < y + h)%Q ->
  covers x y w h p = true.
Proof. intros. unfold covers. props. tauto. Qed.

Lemma each_split {A} (f : nat -> A -> list command) l i x : l !! i = Some x ->
  each f l = each f (take i l) ++ f i x ++ each (fun k => f (S (i + k))) (drop (S i) l).
Proof.
  intros Hi. unfold each. rewrite <- (take_drop_middle l i x Hi) at 1.
  rewrite imap_app, join_app. simpl. f_equal.
  assert (Hl : length (take i l) = i) by (rewrite length_take; apply lookup_lt_Some in Hi; lia).
  rewrite Hl, Nat.add_0_r. f_equal. f_equal. apply imap_ext. intros k y _. simpl. by rewrite Nat.add_succ_r.
Qed.

Lemma each_Forall {A} (P : command -> Prop) (f : nat -> A -> list command) l :
  (forall i x, l !! i = Some x -> Forall P (f i x)) -> Forall P (each f l).
Proof.
  intros Hf. unfold each. apply Forall_join, Forall_lookup. intros i c Hc.
  rewrite list_lookup_imap in Hc. apply fmap_Some in Hc as (x & Hx & ->). by apply Hf.
Qed.

(** ** Cells *)

Lemma num_S i : (num (S i) == num i + 1)%Q.
Proof. unfold num. rewrite Nat2Z.inj_succ. unfold inject_Z, Qeq, Qplus. simpl. lia. Qed.

Lemma num_le i j : (i <= j)%nat -> (num i <= num j)%Q.
Proof. unfold num. intros H. rewrite <- Zle_Qle. lia. Qed.

Lemma num_nonneg i : (0 <= num i)%Q.
Proof. apply (num_le 0). lia. Qed.

(** A later cell begins where this one ends, or after. *)
Lemma later_cell i j c : (0 <= c)%Q -> (i < j)%nat -> ((num i + 1) * c <= num j * c)%Q.
Proof. intros Hc Hij. rewrite <- num_S. apply Qmult_le_compat_r; [by apply num_le|done]. Qed.

Definition in_cell (i : nat) (c q : Q) : Prop := (num i * c <= q /\ q < (num i + 1) * c)%Q.

Section Cells.
Context (ink : string -> string -> string -> Q -> Q -> Q * Q -> bool).
Context (range : Q * Q) (width : Q) (Hwidth : (0 < width)%Q) (p : Q * Q).
Local Notation painted := (painted ink p).

Definition cell_color (power : Q) : string := rgb (getWaterfallColor (normalized range power)).

Lemma row_shown y rowHeight row j power s : fft_bins row !! j = Some power ->
  in_cell j (width / num (length (fft_bins row))) p.1 -> (y <= p.2)%Q -> (p.2 < y + rowHeight + 1)%Q ->
  color (painted (draw_row range width y rowHeight row) s) = Some (cell_color power).
Proof.
  intros Hj [Hx1 Hx2] Hy1 Hy2. unfold draw_row. set (b := (width / num _)%Q) in *.
  assert (Hb : (0 <= b)%Q).
  { subst b. apply Qle_shift_div_l; [|lra]. apply lookup_lt_Some in Hj.
    apply (Qlt_le_trans _ (num 1)); [done|apply num_le; lia]. }
  rewrite (each_split _ _ _ _ Hj), !painted_app, painted_misses.
  - cbn. rewrite covers_true; [done| | |done|]; [exact Hx1| |]; [|lra].
    apply (Qlt_le_trans _ _ _ Hx2). lra.
  - apply each_Forall. intros k x _. repeat constructor. cbn [misses]. apply covers_false_x. cbn.
    apply (Qlt_le_trans _ _ _ Hx2). apply later_cell; [done|lia].
Qed.

(** Rows that begin below the point. *)
Lemma row_misses y rowHeight row : (p.2 < y)%Q -> Forall (misses p) (draw_row range width y rowHeight row).
Proof.
  intros Hy. apply each_Forall. intros k x _. repeat constructor. apply covers_false_y. by left.
Qed.

Lemma rows_shown top rowHeight rows i row j power s : (0 <= rowHeight)%Q ->
  rows !! i = Some row -> fft_bins row !! j = Some power ->
  in_cell j (width / num (length (fft_bins row))) p.1 -> in_cell i rowHeight (p.2 - top) ->
  color (painted (draw_rows range width top rowHeight rows) s) = Some (cell_color power).
Proof.
  intros Hr Hi Hj Hx [Hy1 Hy2]. unfold draw_rows. rewrite (each_split _ _ _ _ Hi), !painted_app, painted_misses.
  - apply (row_shown _ _ _ j); [done|done|lra|lra].
  - apply each_Forall. intros k row' _. apply row_misses.
    pose proof (later_cell i (S (i + k)) rowHeight Hr ltac:(lia)). lra.
Qed.

Lemma rows_flat top rowHeight rows : Forall flat (draw_rows range width top rowHeight rows).
Proof. apply each_Forall. intros i row _. apply each_Forall. intros k x _. by repeat constructor. Qed.

(** A picture of rows on a ground, with something quiet over it. *)
Lemma rows_under style w h top rowHeight rows after i row j power : (0 <= rowHeight)%Q ->
  rows !! i = Some row -> fft_bins row !! j = Some power ->
  in_cell j (width / num (length (fft_bins row))) p.1 -> in_cell i rowHeight (p.2 - top) ->
  let l := [FillStyle style; FillRect 0 0 w h] ++ draw_rows range width top rowHeight rows ++ after in
  no_text ink p l fresh_pen = true -> quiet ink p after -> shown ink p l = Some (cell_color power).
Proof.
  cbv zeta. intros Hr Hi Hj Hx Hy Ht Hq. rewrite !no_text_app, !andb_true_iff in Ht. destruct Ht as (_ & _ & Ht).
  unfold shown. rewrite !painted_app. edestruct Hq as [-> _]; [|exact Ht|].
  { rewrite painted_flat by apply rows_flat. discriminate. }
  by apply (rows_shown _ _ _ i row j).
Qed.
End Cells.

(** Rows of the height [max(1, space / m)] fit into the space. *)
Lemma rows_fit space m n i : (0 < m)%nat -> (num m <= space)%Q -> (n <= m)%nat -> (i < n)%nat ->
  (0 <= js_max 1 (space / num m))%Q /\ ((num i + 1) * js_max 1 (space / num m) <= space)%Q.
Proof.
  intros Hm Hs Hn Hi. assert (H0 : (0 < num m)%Q) by (apply (Qlt_le_trans _ (num 1)); [done|apply num_le; lia]).
  assert (E : (js_max 1 (space / num m) == space / num m)%Q).
  { unfold js_max. destruct (Qle_bool 1 _) eqn:E1; [done|]. exfalso. props.
    assert (1 <= space / num m)%Q; [|lra]. apply Qle_shift_div_l; [done|]. lra. }
  assert (H1 : (0 <= space / num m)%Q) by (apply Qle_shift_div_l; [done|]; lra).
  rewrite E. split; [done|]. rewrite <- num_S. apply (Qle_trans _ (num m * (space / num m))).
  - apply Qmult_le_compat_r; [apply num_le; lia|done].
  - rewrite Qmult_div_r by lra. lra.
Qed.

Lemma history_fits n i : (n <= 150)%nat -> (i < n)%nat ->
  (0 <= rowHeight 350 n)%Q /\ ((num i + 1) * rowHeight 350 n <= historyHeight 350)%Q.
Proof.
  intros Hn Hi. apply (rows_fit _ _ n); [lia| |lia|done]. unfold historyHeight.
  apply (Qle_trans _ (num 150)); [apply num_le; lia|vm_compute; discriminate].
Qed.

Lemma spectrum_fits n i : (n <= 100)%nat -> (i < n)%nat ->
  (0 <= spectrumRowHeight 400 n)%Q /\ ((num i + 1) * spectrumRowHeight 400 n <= waterfallHeight 400)%Q.
Proof.
  intros Hn Hi. unfold spectrumRowHeight, SPECTRUM_HISTORY_ROWS. rewrite Nat.min_l by done.
  apply (rows_fit _ _ n); [lia| |done|done].
  apply (Qle_trans _ (num 100)); [apply num_le; lia|vm_compute; discriminate].
Qed.

(** The blocks of commands that are not rows, by what they do at a point. *)
Ltac quiet_step :=
  first [ apply quiet_nil
        | match goal with
          | |- quiet ?ink ?p (BeginPath :: MoveTo ?a ?b :: LineTo ?c ?d :: Stroke :: ?l) =>
              apply (quiet_app ink p [BeginPath; MoveTo a b; LineTo c d; Stroke] l); [apply (quiet_line ink p (a, b) (c, d))|]
          | |- quiet _ _ (_ ++ _) => apply quiet_app
          | |- quiet _ _ (each _ _) => apply quiet_each; intros
          end
        | apply quiet_cons; [reflexivity|] ].

(** Points above a height are not near lines below it. *)
Lemma near_above m l p : Forall (fun q => p.2 < q.2 - m)%Q l -> near m l p = false.
Proof.
  intros H. apply not_true_iff_false. unfold near. rewrite !andb_true_iff. intros [[_ H3] _].
  apply existsb_exists in H3 as (q & Hq & H3). rewrite Forall_forall in H. specialize (H q).
  rewrite list_elem_of_In in H. specialize (H Hq). props. lra.
Qed.

Lemma near_aside m a x1 x2 p : (p.1 < a - m \/ a + m < p.1)%Q -> near m [(a, x1); (a, x2)] p = false.
Proof. intros H. apply not_true_iff_false. unfold near. cbn. rewrite !orb_false_r, !orb_diag. props. lra. Qed.

Section Quiet.
Context (ink : string -> string -> string -> Q -> Q -> Q * Q -> bool) (p : Q * Q).
Local Notation quiet := (quiet ink p).

Lemma scale_quiet c b : (p.2 < 289)%Q -> quiet (draw_scale 600 350 c b).
Proof.
  intros Hy. unfold draw_scale.
  assert (Hn : forall a1 a2 b1 b2, (290 <= b1)%Q -> (290 <= b2)%Q -> near 1 [(a1, b1); (a2, b2)] p = false).
  { intros. apply near_above. repeat constructor; cbn; lra. }
  assert (Hc : negb (covers 0 (historyHeight 350) 600 60 p) = true).
  { rewrite covers_false_y; [done|]. left. unfold historyHeight. lra. }
  apply quiet_app; [|apply quiet_each; intros i x _]; cbn [app].
  - apply quiet_cons; [done|]. apply quiet_cons; [exact Hc|]. repeat quiet_step. by apply Hn.
  - cbv zeta. repeat quiet_step. by apply Hn.
Qed.

Lemma labels_quiet v c last : quiet (draw_labels 600 350 v c last).
Proof. unfold draw_labels. destruct last; repeat quiet_step. Qed.

Lemma grid_quiet range : (90 < p.2)%Q -> quiet (draw_grid 1200 range).
Proof.
  intros Hy. unfold draw_grid, SPECTRUM_HEIGHT.
  assert (Hc : negb (covers 0 0 1200 80 p) = true) by (rewrite covers_false_y; [done|]; right; lra).
  apply quiet_app; [|apply quiet_app; [|apply quiet_app]].
  - apply quiet_cons; [done|]. apply quiet_cons; [exact Hc|]. repeat quiet_step.
  - apply quiet_each. intros i x Hx. cbv zeta. repeat quiet_step. apply near_below.
    apply list_elem_of_lookup_2, elem_of_seq in Hx as [_ Hx].
    assert (Hn : (num x <= 4)%Q) by (apply (num_le x 4); lia).
    assert (E : (80 / 4 * num x == 20 * num x)%Q) by (unfold Qdiv; change (/ 4)%Q with (1 # 4)%Q; ring).
    apply Forall_cons; split; [|apply Forall_cons; split; [|apply Forall_nil_2]]; cbn [fst snd]; rewrite E; lra.
  - repeat quiet_step.
  - apply quiet_each. intros i x _. repeat quiet_step.
Qed.

(** The points of the curve, which are those of the next path. *)
Definition low (q : Q * Q) : Prop := (q.2 <= SPECTRUM_HEIGHT)%Q.

Lemma moves_low l : Forall (fun c => match c with MoveTo x y | LineTo x y => low (x, y) | _ => False end) l ->
  forall s, Forall low (path s) ->
  Forall low (path (painted ink p l s)) /\ color (painted ink p l s) = color s /\
  lineWidth (painted ink p l s) = lineWidth s.
Proof.
  induction 1 as [|c l Hc _ IH]; intros s Hs; [done|]. cbn [painted foldl]. unfold painted in IH.
  destruct (IH (paint ink p s c)) as (H1 & -> & ->); [|by destruct c].
  destruct c; try done; cbn; apply Forall_app_2; try done; by constructor.
Qed.

Lemma low_far m l : (90 < p.2)%Q -> (m <= 10)%Q -> Forall low l -> near m l p = false.
Proof.
  intros Hy Hm Hl. apply near_below. eapply Forall_impl; [exact Hl|]. intros q Hq.
  unfold low, SPECTRUM_HEIGHT in Hq. lra.
Qed.

Lemma curve_quiet range latest : (90 < p.2)%Q -> quiet (draw_curve 1200 range latest).
Proof.
  intros Hy. unfold draw_curve. destruct (fft_bins <$> latest) as [[|b bins]|]; [apply quiet_nil| |apply quiet_nil].
  set (bs := b :: bins). intros s Hw _. rewrite !painted_app. set (s1 := painted ink p [_; _; _] s).
  set (l := each _ bs).
  assert (Hl : Forall (fun c => match c with MoveTo x y | LineTo x y => low (x, y) | _ => False end) l).
  { subst l. apply each_Forall. intros i power _. unfold curve_point, low.
    pose proof (normalized_unit range power) as Hn.
    destruct (Nat.eqb i 0); (constructor; [|constructor]); cbn; unfold SPECTRUM_HEIGHT; nra. }
  destruct (moves_low l Hl s1 (Forall_nil_2 _)) as (H1 & H2 & H3). change (color s1) with (color s) in H2.
  change (lineWidth s1) with (inject_Z 2) in H3.
  set (s2 := painted ink p l s1) in *. clearbody s2. cbn. rewrite (low_far 0), (low_far (margin s2)), H2, H3; [|done| |exact H1|done|lra|].
  - by split.
  - unfold margin. rewrite H3. destruct (_ <=? 2)%nat; vm_compute; discriminate.
  - rewrite <- app_assoc. apply Forall_app_2; [exact H1|]. repeat constructor; by vm_compute.
Qed.

Lemma spectrum_scale_quiet c : (p.2 < 359)%Q -> (p.1 < 599 \/ 601 < p.1)%Q ->
  quiet (draw_spectrum_scale 1200 400 c).
Proof.
  intros Hy Hx. unfold draw_spectrum_scale, scaleY.
  assert (Hn : forall a1 a2 b1 b2, (360 <= b1)%Q -> (360 <= b2)%Q -> near 1 [(a1, b1); (a2, b2)] p = false).
  { intros. apply near_above. repeat constructor; cbn; lra. }
  assert (Hc : negb (covers 0 (400 - 40) 1200 40 p) = true) by (rewrite covers_false_y; [done|]; left; lra).
  apply quiet_app; [|apply quiet_app; [apply quiet_each; intros i x _|]]; cbn [app].
  - apply quiet_cons; [done|]. apply quiet_cons; [exact Hc|]. repeat quiet_step. by apply Hn.
  - cbv zeta. repeat quiet_step. by apply Hn.
  - repeat quiet_step. apply near_aside. assert (E : (1200 / 2 == 600)%Q) by reflexivity.
    destruct Hx; [left|right]; rewrite E; lra.
Qed.

Lemma status_quiet s : quiet (draw_status 1200 400 s).
Proof. unfold draw_status. destruct (truthy (sp_frequencyName s)), (sp_latest s); repeat quiet_step. Qed.
End Quiet.

Section Pixels.
Context (ink : string -> string -> string -> Q -> Q -> Q * Q -> bool).

(** Where no line is drawn over the rows: in the waterfall above the line of its scale, in
    the spectrum between the curve and the scale, beside the line in the middle. *)
Definition off_waterfall_lines (q : Q * Q) : Prop := (q.2 < 289)%Q.
Definition off_spectrum_lines (q : Q * Q) : Prop := (90 < q.2 /\ q.2 < 359 /\ (q.1 < 599 \/ 601 < q.1))%Q.

(** A point of a row of at most 150, and of the spectrum's at most 100. *)
Lemma waterfall_pixel v w i row j power x y :
  (length (fftHistory w) <= 150)%nat ->
  truthy (v_fftError v) = None -> v_isActive v && negb (v_fftRunning v) = false ->
  fftHistory w !! i = Some row -> fft_bins row !! j = Some power ->
  in_cell j (600 / num (length (fft_bins row))) x -> in_cell i (rowHeight 350 (length (fftHistory w))) y ->
  off_waterfall_lines (x, y) -> no_text ink (x, y) (drawWaterfall 600 350 v w) fresh_pen = true ->
  shown ink (x, y) (drawWaterfall 600 350 v w) =
    Some (rgb (getWaterfallColor (normalized (reference_range (fftHistory w)) power))).
Proof.
  intros Hlen Herror Hrecording Hi Hj Hx Hy Hoff.
  destruct (history_fits _ i Hlen (lookup_lt_Some _ _ _ Hi)) as [H0 _].
  unfold drawWaterfall. rewrite Herror.
  destruct (fftHistory w) as [|row0 rows0] eqn:E; [done|]. set (rows := row0 :: rows0) in *.
  destruct (center_frequency v w) as [c b]. intros Ht.
  refine (rows_under ink _ 600 eq_refl (x, y) _ 600 350 0 _ rows _ i row j power H0 Hi Hj Hx _ Ht _).
  - cbn [snd]. destruct Hy. split; lra.
  - unfold draw_overlay. rewrite Hrecording.
    apply quiet_app; [by apply scale_quiet|]. apply quiet_app; [apply labels_quiet|apply quiet_nil].
Qed.

Lemma spectrum_pixel s rows i row j power x y :
  (length rows <= 100)%nat -> rows !! i = Some row -> fft_bins row !! j = Some power ->
  in_cell j (1200 / num (length (fft_bins row))) x ->
  in_cell i (spectrumRowHeight 400 (length rows)) (y - SPECTRUM_HEIGHT) ->
  off_spectrum_lines (x, y) -> no_text ink (x, y) (draw 1200 400 s rows) fresh_pen = true ->
  shown ink (x, y) (draw 1200 400 s rows) =
    Some (rgb (getColor (normalized (spectrum_range rows) power))).
Proof.
  intros Hlen Hi Hj Hx Hy (H1 & H2 & H3) Ht.
  destruct (spectrum_fits _ i Hlen (lookup_lt_Some _ _ _ Hi)) as [H0 _].
  refine (rows_under ink _ 1200 eq_refl (x, y) _ 1200 400 SPECTRUM_HEIGHT _ rows _ i row j power H0 Hi Hj Hx Hy Ht _).
  apply quiet_app; [by apply grid_quiet|]. apply quiet_app; [by apply curve_quiet|].
  apply quiet_app; [by apply spectrum_scale_quiet|apply status_quiet].
Qed.
End Pixels.

Lemma receive_length messages :
  (length (fftHistory (foldl (fun s m => receive m s) (None, empty) messages).2) <= 150)%nat.
Proof.
  rewrite (receive_rows messages None empty [] eq_refl), length_lastn.
  change MAX_HISTORY_ROWS with 150%nat. lia.
Qed.

Lemma on_latest_length data w : (length (fftHistory w) <= 150)%nat ->
  (length (fftHistory (on_latest data w)) <= 150)%nat.
Proof.
  intros Hw. unfold on_latest. destruct data as [d|]; [|done]. destruct (_ =? _); [done|].
  by apply push_row_length.
Qed.

Lemma on_latest_spectrum_length data w : (length w.1 <= 100)%nat ->
  (length (on_latest_spectrum data w).1 <= 100)%nat.
Proof.
  intros Hw. unfold on_latest_spectrum. destruct data as [d|]; [|done]. destruct (_ =? _); [done|].
  by apply push_row_length.
Qed.

Lemma spectrum_rows messages : forall w,
  (length w.1 <= 100)%nat -> (length (foldl (fun w m => on_latest_spectrum m w) w messages).1 <= 100)%nat.
Proof.
  induction messages as [|m messages IH]; intros w Hw; [done|]. by apply IH, on_latest_spectrum_length.
Qed.

(** ** Properties *)

(** What the waterfall shows: whatever the page was sent, in the column of a bin and the
    line of a row the canvas has, after all commands, the colour of the level of that
    bin in that row, one of the last 150 drawn; unless the canvas tells of an error or
    of a recording under way, and where no line and no text is drawn over the rows. *)
Theorem waterfall_shows ink messages v i row j power x y
  (Herror : truthy (v_fftError v) = None) (Hrecording : v_isActive v && negb (v_fftRunning v) = false) :
  let w := (foldl (fun s m => receive m s) (None, empty) messages).2 in
  let rows := fftHistory w in
  rows !! i = Some row -> fft_bins row !! j = Some power ->
  in_cell j (600 / num (length (fft_bins row))) x -> in_cell i (rowHeight 350 (length rows)) y ->
  off_waterfall_lines (x, y) -> no_text ink (x, y) (drawWaterfall 600 350 v w) fresh_pen = true ->
  shown ink (x, y) (drawWaterfall 600 350 v w) =
    Some (rgb (getWaterfallColor (normalized (reference_range rows) power))).
Proof. cbv zeta. intros. by apply (waterfall_pixel ink v _ i row j); try apply receive_length. Qed.

Definition sample_view : view := mkView (Some 137900000) (Some "METEOR-M N2-3"%string) false false true None.

Definition sample_messages : list (list FFTData) :=
  [ [mkFFTData 1 137900000 [-95; -60]%Q (-95) (-60)]; [mkFFTData 2 137900000 [-90; -40]%Q (-90) (-40)] ].

(** A font whose texts stay within a hundred points beside their anchor, twelve above and
    four below it. *)
Definition sample_ink (font align text : string) (x y : Q) (p : Q * Q) : bool :=
  (x - 100 <=?q p.1) && (p.1 <=?q x + 100) && (y - 12 <=?q p.2) && (p.2 <=?q y + 4).

Lemma waterfall_shows_witness :
  let w := (foldl (fun s m => receive m s) (None, empty) sample_messages).2 in
  shown sample_ink (400, 7)%Q (drawWaterfall 600 350 sample_view w) = Some "rgb(255, 110, 0)"%string /\
  shown sample_ink (400, 7)%Q (drawWaterfall 600 350 sample_view w) =
    Some (rgb (getWaterfallColor (normalized (reference_range (fftHistory w)) (-40)))).
Proof.
  cbv zeta. split; [vm_compute; reflexivity|].
  apply (waterfall_shows sample_ink sample_messages sample_view 1 (mkFFTData 2 137900000 [-90; -40]%Q (-90) (-40)) 1 (-40) 400 7).
  - reflexivity.
  - reflexivity.
  - reflexivity.
  - reflexivity.
  - split; vm_compute; [discriminate|reflexivity].
  - split; vm_compute; [discriminate|reflexivity].
  - vm_compute. reflexivity.
  - vm_compute. reflexivity.
Defined.

(** The spectrum view shows its rows in the same way between the curve and the scale. *)
Theorem spectrum_shows ink messages s i row j power x y :
  let rows := (foldl (fun w m => on_latest_spectrum m w) ([], 0) messages).1 in
  rows !! i = Some row -> fft_bins row !! j = Some power ->
  in_cell j (1200 / num (length (fft_bins row))) x ->
  in_cell i (spectrumRowHeight 400 (length rows)) (y - SPECTRUM_HEIGHT) ->
  off_spectrum_lines (x, y) -> no_text ink (x, y) (draw 1200 400 s rows) fresh_pen = true ->
  shown ink (x, y) (draw 1200 400 s rows) =
    Some (rgb (getColor (normalized (spectrum_range rows) power))).
Proof. cbv zeta. apply spectrum_pixel, spectrum_rows. simpl. lia. Qed.

(** The curve stays in its band. *)
Theorem curve_in_band range (bins : list Q) i power width : (i < length bins)%nat -> (0 < width)%Q ->
  let '(x, y) := curve_point width range (length bins) i power in
  (0 <= x /\ x < width /\ 0 <= y /\ y <= SPECTRUM_HEIGHT)%Q.
Proof.
  intros Hi Hw. unfold curve_point, SPECTRUM_HEIGHT.
  assert (Hb : (0 < num (length bins))%Q) by (apply (Qlt_le_trans _ (num 1)); [done|apply num_le; lia]).
  pose proof (normalized_unit range power) as Hn.
  assert (H1 : (num i / num (length bins) < 1)%Q).
  { apply Qlt_shift_div_r; [done|]. rewrite Qmult_1_l. unfold num. rewrite <- Zlt_Qlt. lia. }
  assert (H2 : (0 <= num i / num (length bins))%Q).
  { apply Qle_shift_div_l; [done|]. rewrite Qmult_0_l. apply num_nonneg. }
  set (q := (num i / num (length bins))%Q) in *. split; [nra|]. split; [nra|]. split; lra.
Qed.

(** ** The sky *)

Section SkyFacts.
Context (sqrt sin cos : Q -> Q) (atan2 : Q -> Q -> Q).
Context (sqrt_nonneg : forall q, (0 <= sqrt q)%Q).
Context (sin_unit : forall a, (-1 <= sin a /\ sin a <= 1)%Q) (cos_unit : forall a, (-1 <= cos a /\ cos a <= 1)%Q).

(** A satellite that is shown has an elevation between the horizon and the zenith, and
    its disc lies on the canvas, around the point the elevation and azimuth give. *)
Theorem sky_on_canvas lat lon sat elevation azimuth :
  sky_place sqrt atan2 lat lon sat = Some (elevation, azimuth) ->
  (0 <= elevation <= 90)%Q /\
  let '(x, y) := sky_point sin cos 350 350 (elevation, azimuth) in
  (6 <= x /\ x <= 344 /\ 6 <= y /\ y <= 344)%Q.
Proof.
  unfold sky_place. set (d := sqrt _). pose proof (sqrt_nonneg _ : (0 <= d)%Q) as Hd. clearbody d.
  destruct (40 <?q d); [done|]. intros [= <- _].
  assert (He : (0 <= js_max 0 (90 - d * 3) <= 90)%Q).
  { split; [apply js_max_l|]. apply js_max_lub; lra. }
  split; [exact He|]. unfold sky_point. set (e := js_max 0 _) in *. clearbody e.
  pose proof (sin_unit azimuth) as Hs. pose proof (cos_unit azimuth) as Hc.
  set (a := sin azimuth) in *. set (b := cos azimuth) in *. clearbody a b.
  assert (Hr : (0 <= sky_radius 350 350 * (1 - e / 90) <= 160)%Q).
  { assert (E : (e / 90 == e * (1 # 90))%Q) by field.
    assert (Er : (sky_radius 350 350 == 160)%Q) by reflexivity. rewrite Er, E. split; lra. }
  set (r := (sky_radius 350 350 * (1 - e / 90))%Q) in *. clearbody r.
  assert (Hm : forall t, (-1 <= t /\ t <= 1)%Q -> (-160 <= r * t /\ r * t <= 160)%Q).
  { intros t [Ht1 Ht2]. destruct Hr. assert (0 <= r * (1 - t))%Q by (apply Qmult_le_0_compat; lra).
    assert (0 <= r * (1 + t))%Q by (apply Qmult_le_0_compat; lra). lra. }
  destruct (Hm _ Hs), (Hm _ Hc). assert (Eh : (350 / 2 == 175)%Q) by reflexivity. rewrite Eh.
  split; [lra|]. split; [lra|]. split; lra.
Qed.
End SkyFacts.

(** Longitudes are compared without their wrap: a satellite two degrees away across the
    date line is not shown. *)
Lemma date_line_hides sqrt atan2 sat : (40 < sqrt 128164)%Q ->
  sg_latitude sat = 0%Q -> sg_longitude sat = (-179)%Q -> sky_place sqrt atan2 0 179 sat = None.
Proof.
  intros Hs E1 E2. unfold sky_place. rewrite E1, E2. change (_ + _)%Q with (128164 # 1)%Q.
  destruct (40 <?q _) eqn:E; [done|]. props. lra.
Qed.

End Canvas.
