(* ===== verification/LegacyPage.v ===== *)
(** * The page without build step (src/middleware/web/static/app.js)

    The class [SatelliteMonitor]: a WebSocket with reconnections, a copy of the server's
    state, intervals, requests, and the elements of the page it writes to.  The page is
    the text of its elements by id, the set of hidden ones, and the contents of its table,
    gallery, chart and globe.  Requests under way are a list, answered in any order.  What
    [toLocaleString] makes of a time, and whether the library of the globe was loaded, are
    parameters. *)

From stdpp Require Import gmap.
From Stdlib Require Import Qabs.
From S2P Require Import Prelude JsStd Types StateManager Effects Dashboard Views.
Local Open Scope Z_scope.

Module LegacyPage.
Section Monitor.
Context (toLocaleString : Z -> string) (globeAvailable : bool).

(** ** The page *)

Record row := mkRow {
  row_name : string; row_signal : SignalType; row_frequency : string; row_time : string;
  row_minutes : Z; row_elevation : string
}.

Record card := mkCard {
  card_image : option string; card_name : string; card_success : bool; card_signal : SignalType;
  card_start : string; card_minutes : Z; card_elevation : string; card_error : option string
}.

Record globe_view := mkGlobeView {
  gv_points : list (Q * Q * Q * string * SignalType);
  gv_paths : list (list GroundTrackPoint * string * SignalType);
  gv_labels : list (string * Q * Q)
}.

(** [rows] and [cards] are empty when their place shows the message that there are none. *)
Record view := mkView {
  texts : gmap string string;
  hidden : gset string;
  rows : list row;
  cards : list card;
  chart : list (Q * Q);
  checked : bool;
  globe : option globe_view
}.

(** [element.textContent = t], [classList.add('hidden')], [classList.remove('hidden')] *)
Definition set_text (id t : string) (v : view) : view :=
  mkView (<[id := t]> (texts v)) (hidden v) (rows v) (cards v) (chart v) (checked v) (globe v).
Definition hide (id : string) (v : view) : view :=
  mkView (texts v) ({[ id ]} ∪ hidden v) (rows v) (cards v) (chart v) (checked v) (globe v).
Definition reveal (id : string) (v : view) : view :=
  mkView (texts v) (hidden v ∖ {[ id ]}) (rows v) (cards v) (chart v) (checked v) (globe v).
Definition set_rows (l : list row) (v : view) : view :=
  mkView (texts v) (hidden v) l (cards v) (chart v) (checked v) (globe v).
Definition set_cards (l : list card) (v : view) : view :=
  mkView (texts v) (hidden v) (rows v) l (chart v) (checked v) (globe v).
Definition set_chart (l : list (Q * Q)) (v : view) : view :=
  mkView (texts v) (hidden v) (rows v) (cards v) l (checked v) (globe v).
Definition set_checked (b : bool) (v : view) : view :=
  mkView (texts v) (hidden v) (rows v) (cards v) (chart v) b (globe v).
Definition set_globe (g : option globe_view) (v : view) : view :=
  mkView (texts v) (hidden v) (rows v) (cards v) (chart v) (checked v) g.

(** ** The monitor *)

Inductive request :=
| GetCaptures | GetSummary | GetSstvStatus | PostToggle (enabled : bool) | GetVersion | CheckVersion.

(** [sockets], [timers] and [countdowns] tell which sockets, reconnection timers and
    intervals made so far are not closed, fired or cleared; [timers] with their delays.
    Of [this.sstv] only [manualEnabled] is read. *)
(* @src middleware/web/static/app.js:2-14 constructor *)
Record monitor := mkMonitor {
  state : option SystemState;
  sstvManual : bool;
  reconnectAttempts : nat;
  countdownInterval : option nat;
  currentVersion : option (string * string);
  sockets : list bool;
  timers : list (Z * bool);
  countdowns : list bool;
  versionIntervals : nat;
  toggleListeners : nat;
  pending : list request;
  reloaded : bool;
  page : view
}.

Definition set_state (s : option SystemState) (m : monitor) : monitor :=
  let 'mkMonitor _ a b c d e f g h i j k l := m in mkMonitor s a b c d e f g h i j k l.
Definition on_page (f : view -> view) (m : monitor) : monitor :=
  let 'mkMonitor s a b c d e t g h i j k l := m in mkMonitor s a b c d e t g h i j k (f l).
Definition fetch (r : request) (m : monitor) : monitor :=
  let 'mkMonitor s a b c d e t g h i j k l := m in mkMonitor s a b c d e t g h i (j ++ [r]) k l.

(** Assignments to the fields of [this.state]. *)
Definition with_status (x : SystemStatus) (s : SystemState) : SystemState :=
  mkState x (st_currentPass s) (st_nextPass s) (st_upcomingPasses s) (st_captureProgress s)
    (st_captureElapsed s) (st_captureTotal s) (st_lastUpdate s) (st_scanningFrequency s)
    (st_scanningFrequencyName s).
Definition with_next (p : option SatellitePass) (s : SystemState) : SystemState :=
  mkState (st_status s) (st_currentPass s) p (st_upcomingPasses s) (st_captureProgress s)
    (st_captureElapsed s) (st_captureTotal s) (st_lastUpdate s) (st_scanningFrequency s)
    (st_scanningFrequencyName s).
Definition with_upcoming (l : list SatellitePass) (s : SystemState) : SystemState :=
  mkState (st_status s) (st_currentPass s) (st_nextPass s) l (st_captureProgress s)
    (st_captureElapsed s) (st_captureTotal s) (st_lastUpdate s) (st_scanningFrequency s)
    (st_scanningFrequencyName s).
Definition assign (f : SystemState -> SystemState) (m : monitor) : monitor :=
  set_state (f <$> state m) m.

(** ** What is written *)

(* @src middleware/web/static/app.js:118-129 formatFrequency *)
Definition formatFrequency : Z -> string := Views.formatFrequency.
(* @src middleware/web/static/app.js:131-137 formatDopplerShift *)
Definition formatDopplerShift : Q -> string := Views.formatDopplerShift.

(* @src middleware/web/static/app.js:145-152 statusMap *)
Definition statusMap (status : SystemStatus) : string :=
  match status with
  | waiting => "Waiting for Pass"
  | capturing => "Capturing"
  | decoding => "Decoding"
  | _ => "Standby"
  end.

Definition is_capturing (s : SystemStatus) : bool := bool_decide (s = capturing).
Definition is_busy (s : SystemStatus) : bool := bool_decide (s = capturing) || bool_decide (s = decoding).

(* @src middleware/web/static/app.js:139-167 updateStatus *)
Definition status_view (status : SystemStatus) (v : view) : view :=
  let v := set_text "status-badge" (statusMap status) v in
  let v := (if is_capturing status then reveal else hide) "progress-section" v in
  if is_busy status then reveal "current-pass" v
  else hide "doppler-section" (hide "current-pass" v).

(* @src middleware/web/static/app.js:139-172 updateStatus *)
Definition updateStatus (status : SystemStatus) (m : monitor) : monitor :=
  assign (with_status status) (on_page (status_view status) m).

(* @src middleware/web/static/app.js:174-186 updateProgress *)
Definition updateProgress (progress elapsed total : Z) (m : monitor) : monitor :=
  let remaining := total - elapsed in
  let minutes := remaining / 60 in
  let seconds := Z.rem remaining 60 in
  on_page (fun v =>
    set_text "progress-time" (show_Z minutes ++ ":" ++ padStart2 seconds ++ " remaining")%string
      (set_text "progress-percent" (show_Z progress ++ "%")%string v)) m.

(* @src middleware/web/static/app.js:188-194 updateCurrentPass *)
Definition updateCurrentPass (pass : SatellitePass) (m : monitor) : monitor :=
  on_page (fun v =>
    set_text "current-elevation" (Views.toFixed (pass_maxElevation pass) 1 ++ "°")%string
      (set_text "current-frequency" (formatFrequency (si_frequency (pass_satellite pass)))
         (set_text "current-satellite" (si_name (pass_satellite pass)) v))) m.

Definition next_view (pass : option SatellitePass) (v : view) : view :=
  let '(name, frequency, time) :=
    match pass with
    | Some p => (si_name (pass_satellite p), formatFrequency (si_frequency (pass_satellite p)),
                 toLocaleString (pass_aos p))
    | None => ("No upcoming passes", "-", "-")%string
    end in
  set_text "next-time" time (set_text "next-frequency" frequency (set_text "next-satellite" name v)).

(* @src middleware/web/static/app.js:196-214 updateNextPass *)
Definition updateNextPass (pass : option SatellitePass) (m : monitor) : monitor :=
  let m := on_page (next_view pass) m in
  match pass with
  | Some _ => assign (with_next pass) m
  | None => m
  end.

(* @src middleware/web/static/app.js:226-248 updateCountdown *)
Definition updateCountdown (now : Z) (m : monitor) : monitor :=
  let text :=
    match state m ≫= st_nextPass with
    | None => "-"%string
    | Some pass => Views.formatCountdown (pass_aos pass - now)
    end in
  on_page (set_text "next-countdown" text) m.

(* @src middleware/web/static/app.js:259-273 updatePassesList *)
Definition pass_row (pass : SatellitePass) : row :=
  let sat := pass_satellite pass in
  mkRow (si_name sat) (si_signalType sat) (formatFrequency (si_frequency sat))
    (toLocaleString (pass_aos pass)) (js_round (pass_duration pass / 60))
    (Views.toFixed (pass_maxElevation pass) 1 ++ "°")%string.

(* @src middleware/web/static/app.js:250-284 updatePassesList *)
Definition updatePassesList (passes : list SatellitePass) (m : monitor) : monitor :=
  match passes with
  | [] => on_page (set_rows []) m
  | first :: _ =>
      let m := on_page (set_rows (map pass_row passes)) m in
      let m := updateNextPass (Some first) m in
      assign (with_upcoming passes) m
  end.

(** The points of the chart: a point's place in the list and its shift, on a canvas of
    600 by 150. *)
(* @src middleware/web/static/app.js:296-306 showDopplerChart *)
Definition svgPoints (doppler : DopplerData) : list (Q * Q) :=
  let points := dd_points doppler in
  let maxShift := js_max (Qabs (dd_maxShift doppler)) (Qabs (dd_minShift doppler)) in
  let scale := if 0 <?q maxShift then (60 / maxShift)%Q else 1%Q in
  imap (fun i p => (inject_Z (Z.of_nat i) / inject_Z (Z.of_nat (length points) - 1) * 600,
                    75 - dp_shift p * scale)%Q) points.

(* @src middleware/web/static/app.js:286-311 showDopplerChart *)
Definition showDopplerChart (doppler : DopplerData) (m : monitor) : monitor :=
  match dd_points doppler with
  | p0 :: _ :: _ =>
      on_page (fun v =>
        let v := set_chart (svgPoints doppler) (reveal "doppler-section" v) in
        let v := set_text "doppler-current" ("Current: " ++ formatDopplerShift (dp_shift p0))%string v in
        set_text "doppler-range"
          ("Range: " ++ formatDopplerShift (dd_minShift doppler) ++ " to " ++
             formatDopplerShift (dd_maxShift doppler))%string v) m
  | _ => m
  end.

(* @src middleware/web/static/app.js:334-350 updateSstvStatus *)
Definition updateSstvStatus (status : SSTVStatus) (m : monitor) : monitor :=
  let 'mkMonitor s _ b c d e t g h i j k l := m in
  let badge :=
    match ss_activeEvent status with
    | Some _ => "Event Active"
    | None => if ss_manualEnabled status then "Manual Mode" else "Inactive"
    end%string in
  let label := (if ss_manualEnabled status then "Enabled" else "Disabled")%string in
  mkMonitor s (ss_manualEnabled status) b c d e t g h i j k
    (set_text "sstv-status-badge" badge
       (set_text "sstv-toggle-label" label (set_checked (ss_manualEnabled status) l))).

(** The composite image of a capture, or its first. *)
(* @src middleware/web/static/app.js:424-428 renderCaptures *)
Definition imageFilename (imagePaths : list string) : option string :=
  let compositeImage := List.find (fun p => includes "colour" p || includes "composite" p) imagePaths in
  let displayImage :=
    match compositeImage with
    | Some ""%string | None => head imagePaths
    | Some p => Some p
    end in
  match displayImage with
  | Some ""%string | None => None
  | Some p => List.last (map Some (split_on slash p)) None
  end.

(* @src middleware/web/static/app.js:418-459 renderCaptures *)
Definition capture_card (capture : CaptureHistoryEntry) : card :=
  mkCard
    (match imageFilename (he_imagePaths capture) with Some ""%string => None | i => i end)
    (he_satelliteName capture) (he_success capture) (he_signalType capture)
    (he_startTime capture) (js_round (inject_Z (he_durationSeconds capture) / 60))
    (Views.toFixed (he_maxElevation capture) 1 ++ "° max")%string
    (match he_errorMessage capture with Some ""%string => None | e => e end).

(* @src middleware/web/static/app.js:410-460 renderCaptures *)
Definition renderCaptures (captures : list CaptureHistoryEntry) (m : monitor) : monitor :=
  on_page (set_cards (map capture_card captures)) m.

(* @src middleware/web/static/app.js:462-507 initGlobe *)
Definition initGlobe (m : monitor) : monitor :=
  match globe (page m) with
  | Some _ => m
  | None => if globeAvailable then on_page (set_globe (Some (mkGlobeView [] [] []))) m else m
  end.

(* @src middleware/web/static/app.js:509-537 updateGlobe *)
Definition updateGlobe (g : GlobeState) (m : monitor) : monitor :=
  match globe (page m) with
  | None => m
  | Some _ =>
      let satellitePoints := map (fun s => (sg_latitude s, sg_longitude s, sg_altitude s,
                                            sg_name s, sg_signalType s)) (gs_satellites g) in
      let tracks := map (fun t => (gt_points t, gt_name t, gt_signalType t)) (gs_groundTracks g) in
      on_page (set_globe (Some (mkGlobeView satellitePoints tracks
        [("Station"%string, gs_station_latitude g, gs_station_longitude g)]))) m
  end.

(* @src middleware/web/static/app.js:551-555 updateVersionDisplay *)
Definition updateVersionDisplay (version commit : string) (m : monitor) : monitor :=
  let commitShort := match commit with ""%string => "---"%string | c => slice_to 7 c end in
  on_page (set_text "version-info" ("v" ++ version ++ " (" ++ commitShort ++ ")")%string) m.

(* @src middleware/web/static/app.js:579-601 updateSdrStatus *)
Definition updateSdrStatus (m : monitor) : monitor :=
  let text :=
    match state m with
    | Some s =>
        if is_busy (st_status s) then "SDR: Active"
        else match st_upcomingPasses s with [] => "SDR: Standby" | _ => "SDR: Ready" end
    | None => "SDR: Checking..."
    end%string in
  on_page (set_text "sdr-status-text" text) m.

(** ** Intervals and requests *)

(* @src middleware/web/static/app.js:216-224 startCountdown *)
Definition startCountdown (m : monitor) : monitor :=
  let 'mkMonitor s a b c d e t g h i j k l := m in
  let g := match c with Some n => <[n := false]> g | None => g end in
  mkMonitor s a b (Some (length g)) d e t (g ++ [true]) h i j k l.

(* @src middleware/web/static/app.js:352-354 setupSstvToggle *)
Definition setupSstvToggle (m : monitor) : monitor :=
  let 'mkMonitor s a b c d e t g h i j k l := m in mkMonitor s a b c d e t g h (S i) j k l.

(* @src middleware/web/static/app.js:557-559 startVersionCheck *)
Definition startVersionCheck (m : monitor) : monitor :=
  let 'mkMonitor s a b c d e t g h i j k l := m in mkMonitor s a b c d e t g (S h) i j k l.

(* @src middleware/web/static/app.js:100-116 renderAll *)
Definition renderAll (s : SystemState) (m : monitor) : monitor :=
  let m := updateStatus (st_status s) m in
  let m := updatePassesList (st_upcomingPasses s) m in
  let m := updateNextPass (state m ≫= st_nextPass) m in
  let m := match st_currentPass s with Some p => updateCurrentPass p m | None => m end in
  let m := fetch GetSstvStatus (fetch GetSummary (fetch GetCaptures m)) in
  let m := setupSstvToggle (startCountdown m) in
  let m := fetch GetVersion (initGlobe m) in
  updateSdrStatus (startVersionCheck m).

(* @src middleware/web/static/app.js:370-386 handlePassComplete *)
Definition handlePassComplete (now : Z) (m : monitor) : monitor :=
  let m := updateStatus idle m in
  let m := on_page (fun v => hide "doppler-section" (hide "current-pass" v)) m in
  let m :=
    match state m with
    | Some s =>
        let upcomingPasses := js_filter (fun p => now <? pass_aos p) (st_upcomingPasses s) in
        let nextPass := head upcomingPasses in
        let m := assign (fun s => with_next nextPass (with_upcoming upcomingPasses s)) m in
        updatePassesList upcomingPasses (updateNextPass nextPass m)
    | None => m
    end in
  fetch GetSummary (fetch GetCaptures m).

(** A message with the [doppler] field it may have, at time [now]; no event of the
    server has the field. *)
(* @src middleware/web/static/app.js:62-98 handleMessage *)
Definition handleMessage (now : Z) (data : Dashboard.WSMessage) (doppler : option DopplerData)
  (m : monitor) : monitor :=
  match data with
  | Dashboard.init s g _ =>
      let m := renderAll s (set_state (Some s) m) in
      match g with Some g => updateGlobe g m | None => m end
  | Dashboard.state_event (status_change status) => updateSdrStatus (updateStatus status m)
  | Dashboard.state_event (capture_progress progress elapsed total) =>
      updateProgress progress elapsed total m
  | Dashboard.state_event (pass_start pass) =>
      let m := updateStatus capturing (updateCurrentPass pass m) in
      match doppler with Some d => showDopplerChart d m | None => m end
  | Dashboard.state_event (pass_complete _) => handlePassComplete now m
  | Dashboard.state_event (passes_updated passes) => updatePassesList passes m
  | Dashboard.sstv_status status => updateSstvStatus status m
  | Dashboard.state_event (satellite_positions g) => updateGlobe g m
  | _ => m
  end.

(** What a request brings: the exception of a failed one, or the document of its route. *)
Inductive answer :=
| AFailed | ACaptures (l : list CaptureHistoryEntry) | ASummary (total successful failed : Z)
| ASstv (s : SSTVStatus) | AVersion (version commit : string).

(* @src middleware/web/static/app.js:324-332 loadSstvStatus *)
Definition sstv_loaded (a : answer) (m : monitor) : monitor :=
  match a with ASstv s => updateSstvStatus s m | _ => m end.

(* @src middleware/web/static/app.js:355-366 setupSstvToggle *)
Definition toggled (a : answer) (m : monitor) : monitor :=
  match a with
  | ASstv s => updateSstvStatus s m
  | _ => on_page (set_checked (sstvManual m)) m
  end.

(* @src middleware/web/static/app.js:388-396 loadCaptures *)
Definition captures_loaded (a : answer) (m : monitor) : monitor :=
  match a with ACaptures l => renderCaptures l m | _ => m end.

(* @src middleware/web/static/app.js:398-408 loadSummary *)
Definition summary_loaded (a : answer) (m : monitor) : monitor :=
  match a with
  | ASummary total successful failed =>
      on_page (fun v => set_text "stat-failed" (show_Z failed)
        (set_text "stat-success" (show_Z successful) (set_text "stat-total" (show_Z total) v))) m
  | _ => m
  end.

(* @src middleware/web/static/app.js:539-549 loadVersion *)
Definition version_loaded (a : answer) (m : monitor) : monitor :=
  match a with
  | AVersion version commit =>
      let 'mkMonitor s a b c _ e t g h i j k l := m in
      updateVersionDisplay version commit (mkMonitor s a b c (Some (version, commit)) e t g h i j k l)
  | _ => updateVersionDisplay "unknown" "---" m
  end.

(* @src middleware/web/static/app.js:561-577 checkVersion *)
Definition version_checked (a : answer) (m : monitor) : monitor :=
  let 'mkMonitor s x b c d e t g h i j k l := m in
  let differs :=
    match a, d with
    | AVersion _ commit, Some (_, current) =>
        negb (String.eqb current "") && negb (String.eqb commit "") && negb (String.eqb current commit)
    | _, _ => false
    end in
  mkMonitor s x b c d e t g h i j (k || differs) l.

Definition on_answer (r : request) : answer -> monitor -> monitor :=
  match r with
  | GetCaptures => captures_loaded
  | GetSummary => summary_loaded
  | GetSstvStatus => sstv_loaded
  | PostToggle _ => toggled
  | GetVersion => version_loaded
  | CheckVersion => version_checked
  end.

(** The user flips the switch: every listener posts it. *)
(* @src middleware/web/static/app.js:354-360 setupSstvToggle *)
Definition on_toggle (b : bool) (m : monitor) : monitor :=
  Nat.iter (toggleListeners m) (fetch (PostToggle b)) (on_page (set_checked b) m).

(** ** The connection *)

(* @src middleware/web/static/app.js:16-18 connect *)
Definition connect (m : monitor) : monitor :=
  let 'mkMonitor s a b c d e t g h i j k l := m in mkMonitor s a b c d (e ++ [true]) t g h i j k l.

(* @src middleware/web/static/app.js:51-60 updateConnectionStatus *)
Definition updateConnectionStatus (connected : bool) : monitor -> monitor :=
  on_page (set_text "connection-status" (if connected then "Connected" else "Disconnected")).

(* @src middleware/web/static/app.js:20-24 onopen *)
Definition on_open (m : monitor) : monitor :=
  let 'mkMonitor s a _ c d e t g h i j k l := m in
  updateConnectionStatus true (mkMonitor s a 0 c d e t g h i j k l).

(* @src middleware/web/static/app.js:45-45 delay *)
Definition delay (attempt : nat) : Z := 1000 * Z.of_nat (Nat.min attempt 10).

(* @src middleware/web/static/app.js:42-49 attemptReconnect *)
Definition attemptReconnect (m : monitor) : monitor :=
  let 'mkMonitor s a b c d e t g h i j k l := m in
  if (b <? 20)%nat then mkMonitor s a (S b) c d e (t ++ [(delay (S b), true)]) g h i j k l else m.

(* @src middleware/web/static/app.js:31-35 onclose *)
Definition on_close (n : nat) (m : monitor) : monitor :=
  let 'mkMonitor s a b c d e t g h i j k l := m in
  attemptReconnect (updateConnectionStatus false (mkMonitor s a b c d (<[n := false]> e) t g h i j k l)).

(* @src middleware/web/static/app.js:47-47 attemptReconnect *)
Definition on_timer (n : nat) (m : monitor) : monitor :=
  let 'mkMonitor s a b c d e t g h i j k l := m in
  match t !! n with
  | Some (z, true) => connect (mkMonitor s a b c d e (<[n := (z, false)]> t) g h i j k l)
  | _ => m
  end.

Inductive event :=
| EOpen (n : nat) | EMessage (n : nat) (now : Z) (data : Dashboard.WSMessage) (doppler : option DopplerData)
| EClose (n : nat) | ETimer (n : nat) | ECountdown (n : nat) (now : Z) | EVersionCheck (n : nat)
| EToggle (b : bool) | EAnswer (n : nat) (a : answer).

Definition live (n : nat) (m : monitor) : bool := default false (sockets m !! n).

Definition answered (n : nat) (a : answer) (m : monitor) : monitor :=
  match pending m !! n with
  | Some r =>
      let 'mkMonitor s x b c d e t g h i j k l := m in
      on_answer r a (mkMonitor s x b c d e t g h i (delete n j) k l)
  | None => m
  end.

Definition step (e : event) (m : monitor) : monitor :=
  match e with
  | EOpen n => if live n m then on_open m else m
  | EMessage n now data doppler => if live n m then handleMessage now data doppler m else m
  | EClose n => if live n m then on_close n m else m
  | ETimer n => on_timer n m
  | ECountdown n now => if default false (countdowns m !! n) then updateCountdown now m else m
  | EVersionCheck n => if (n <? versionIntervals m)%nat then fetch CheckVersion m else m
  | EToggle b => on_toggle b m
  | EAnswer n a => answered n a m
  end.

Definition run (evs : list event) (m : monitor) : monitor := foldl (fun m e => step e m) m evs.

(** The document before the script: what is hidden there. *)
Definition document : view :=
  mkView (<["status-badge" := "Idle"]> ∅)%string {[ "current-pass"; "progress-section"; "doppler-section" ]}
    [] [] [] false None.

(* @src middleware/web/static/app.js:604-607 DOMContentLoaded *)
Definition start : monitor :=
  connect (mkMonitor None false 0 None None [] [] [] 0 0 [] false document).

(** ** Facts *)

(** What the page shows of the status, and of the next pass. *)
Definition is_hidden (id : string) (m : monitor) : bool := bool_decide (id ∈ hidden (page m)).
Definition status_obs (m : monitor) : option SystemStatus * option string * bool * bool * bool :=
  (st_status <$> state m, texts (page m) !! "status-badge"%string,
   is_hidden "progress-section" m, is_hidden "current-pass" m, is_hidden "doppler-section" m).
Definition next_obs (m : monitor) : option (option SatellitePass) * option string :=
  (st_nextPass <$> state m, texts (page m) !! "next-satellite"%string).

(** A write elsewhere changes neither. *)
Lemma obs_page f m :
  (forall v, texts (f v) !! "status-badge"%string = texts v !! "status-badge"%string /\
             texts (f v) !! "next-satellite"%string = texts v !! "next-satellite"%string /\
             hidden (f v) = hidden v) ->
  status_obs (on_page f m) = status_obs m /\ next_obs (on_page f m) = next_obs m.
Proof.
  intros H. destruct m as [s]. unfold status_obs, next_obs, is_hidden. simpl.
  match goal with |- context [f ?v] => destruct (H v) as (-> & -> & ->) end. done.
Qed.

(** Lookups of the texts of elements. *)
Ltac lookups := repeat first [rewrite lookup_insert_eq | rewrite lookup_insert_ne by discriminate].

(** Closes the obligation of [obs_page] for a chain of writes. *)
Ltac elsewhere := apply obs_page; intros ?; simpl; rewrite ?lookup_insert_ne by discriminate; done.

Definition same_obs (f : monitor -> monitor) : Prop :=
  forall m, status_obs (f m) = status_obs m /\ next_obs (f m) = next_obs m.

Lemma same_obs_progress p e t : same_obs (updateProgress p e t).
Proof. intros m. elsewhere. Qed.
Lemma same_obs_current p : same_obs (updateCurrentPass p).
Proof. intros m. elsewhere. Qed.
Lemma same_obs_countdown now : same_obs (updateCountdown now).
Proof. intros m. elsewhere. Qed.
Lemma same_obs_sdr : same_obs updateSdrStatus.
Proof. intros m. elsewhere. Qed.
Lemma same_obs_version v c : same_obs (updateVersionDisplay v c).
Proof. intros m. elsewhere. Qed.
Lemma same_obs_captures l : same_obs (renderCaptures l).
Proof. intros m. elsewhere. Qed.
Lemma same_obs_fetch r : same_obs (fetch r).
Proof. by intros []. Qed.
Lemma same_obs_startCountdown : same_obs startCountdown.
Proof. by intros []. Qed.
Lemma same_obs_setup : same_obs setupSstvToggle.
Proof. by intros []. Qed.
Lemma same_obs_startVersionCheck : same_obs startVersionCheck.
Proof. by intros []. Qed.
Lemma same_obs_initGlobe : same_obs initGlobe.
Proof. intros m. unfold initGlobe. destruct (globe (page m)), globeAvailable; try done; elsewhere. Qed.
Lemma same_obs_globe g : same_obs (updateGlobe g).
Proof. intros m. unfold updateGlobe. destruct (globe (page m)); [elsewhere|done]. Qed.
Lemma same_obs_sstv s : same_obs (updateSstvStatus s).
Proof.
  intros []. unfold updateSstvStatus, status_obs, next_obs, is_hidden. simpl.
  by rewrite !lookup_insert_ne by discriminate.
Qed.
Lemma same_obs_toggle b : same_obs (on_toggle b).
Proof.
  intros m. unfold on_toggle. generalize (toggleListeners m). intros n.
  induction n as [|n IH]; simpl; [elsewhere|].
  split; by rewrite ?(proj1 (same_obs_fetch _ _)), ?(proj2 (same_obs_fetch _ _)), ?(proj1 IH), ?(proj2 IH).
Qed.

(** The page agrees with the copy of the state. *)
Definition status_ok (m : monitor) : Prop :=
  let '(status, badge, progress, current, doppler) := status_obs m in
  match status with
  | None => True
  | Some x =>
      badge = Some (statusMap x) /\ progress = negb (is_capturing x) /\
      current = negb (is_busy x) /\ (is_busy x = false -> doppler = true)
  end.

Definition next_name (pass : option SatellitePass) : string :=
  match pass with Some p => si_name (pass_satellite p) | None => "No upcoming passes" end.

Definition next_ok (m : monitor) : Prop :=
  match next_obs m with
  | (Some pass, text) => text = Some (next_name pass)
  | (None, _) => True
  end.

Lemma same_obs_ok f m : same_obs f ->
  (status_ok (f m) <-> status_ok m) /\ (next_ok (f m) <-> next_ok m).
Proof. intros H. destruct (H m) as [H1 H2]. unfold status_ok, next_ok. by rewrite H1, H2. Qed.

Lemma same_obs_iter f n : same_obs f -> same_obs (Nat.iter n f).
Proof. intros H m. induction n as [|n [IH1 IH2]]; simpl; [done|]. by rewrite (proj1 (H _)), (proj2 (H _)). Qed.

Lemma updateStatus_ok x m :
  status_ok (updateStatus x m) /\ next_obs (updateStatus x m) = next_obs m.
Proof.
  unfold status_ok, next_obs, status_obs, is_hidden, updateStatus, assign. destruct m as [s]. simpl.
  destruct s as [s|]; simpl; unfold is_capturing, is_busy.
  - destruct x; simpl; lookups;
      (split; [|reflexivity]); split_and!; try done; try intros _;
      first [apply bool_decide_eq_true_2; set_solver | apply bool_decide_eq_false_2; set_solver].
  - destruct x; simpl; by lookups.
Qed.

Lemma updateNextPass_obs pass m :
  status_obs (updateNextPass pass m) = status_obs m /\
  ((pass = None -> state m ≫= st_nextPass = None) -> next_ok (updateNextPass pass m)).
Proof.
  unfold next_ok, next_obs, status_obs, is_hidden, updateNextPass, assign. destruct m as [s]; simpl.
  destruct pass as [q|]; simpl.
  - destruct s as [s|]; simpl; by lookups.
  - lookups. split; [done|]. intros H. specialize (H eq_refl).
    destruct s as [s|]; simpl in *; [|done]. by rewrite H.
Qed.

Lemma updatePassesList_obs passes m :
  status_obs (updatePassesList passes m) = status_obs m /\
  (next_ok m -> next_ok (updatePassesList passes m)).
Proof.
  destruct passes as [|first rest]; [destruct m; by split|]. unfold updatePassesList. cbv zeta.
  set (m1 := on_page _ m). destruct (updateNextPass_obs (Some first) m1) as [H1 H2].
  assert (E : status_obs m1 = status_obs m) by (by destruct m).
  split.
  - rewrite <- E, <- H1. by destruct (updateNextPass (Some first) m1) as [[]].
  - intros _. specialize (H2 ltac:(discriminate)).
    by destruct (updateNextPass (Some first) m1) as [[]].
Qed.

Lemma showDopplerChart_obs d m : (is_busy <$> (st_status <$> state m)) <> Some false ->
  status_ok m -> status_ok (showDopplerChart d m).
Proof.
  intros Hb H. unfold showDopplerChart. destruct (dd_points d) as [|p0 [|p1 r]]; [done..|].
  unfold status_ok, status_obs, is_hidden in *. destruct m as [[s|]]; simpl in *; [|done].
  rewrite !lookup_insert_ne by discriminate.
  destruct H as (H1 & H2 & H3 & H4). split; [done|]. split; [|split].
  - rewrite <- H2. apply bool_decide_ext. set_solver.
  - rewrite <- H3. apply bool_decide_ext. set_solver.
  - intros E. by rewrite E in Hb.
Qed.

Lemma showDopplerChart_next d m : next_obs (showDopplerChart d m) = next_obs m.
Proof.
  unfold showDopplerChart. destruct (dd_points d) as [|p0 [|p1 r]]; [done..|].
  unfold next_obs. destruct m. simpl. by rewrite !lookup_insert_ne by discriminate.
Qed.

Definition page_ok (m : monitor) : Prop := status_ok m /\ next_ok m.

Lemma same_obs_page_ok f m : same_obs f -> page_ok m -> page_ok (f m).
Proof. intros H [H1 H2]. destruct (same_obs_ok f m H). split; naive_solver. Qed.

Lemma same_status_ok m m' : status_obs m' = status_obs m -> status_ok m -> status_ok m'.
Proof. unfold status_ok. by intros ->. Qed.
Lemma same_next_ok m m' : next_obs m' = next_obs m -> next_ok m -> next_ok m'.
Proof. unfold next_ok. by intros ->. Qed.

Hint Resolve same_obs_progress same_obs_current same_obs_sdr same_obs_version same_obs_captures
  same_obs_fetch same_obs_initGlobe same_obs_globe same_obs_sstv same_obs_toggle same_obs_countdown
  same_obs_startCountdown same_obs_setup same_obs_startVersionCheck : obs.

Lemma updateStatus_page_ok x m : next_ok m -> page_ok (updateStatus x m).
Proof. intros H. destruct (updateStatus_ok x m) as [H1 H2]. split; [done|by eapply same_next_ok]. Qed.

Lemma updateNextPass_page_ok pass m :
  status_ok m -> (pass = None -> state m ≫= st_nextPass = None) -> page_ok (updateNextPass pass m).
Proof.
  intros H Hp. destruct (updateNextPass_obs pass m) as [H1 H2]. split; [by eapply same_status_ok|auto].
Qed.

Lemma updatePassesList_page_ok l m : page_ok m -> page_ok (updatePassesList l m).
Proof.
  intros [H H0]. destruct (updatePassesList_obs l m) as [H1 H2]. split; [by eapply same_status_ok|auto].
Qed.

Ltac same := apply same_obs_page_ok; [by auto with obs|].

Lemma renderAll_ok s m : page_ok (renderAll s m).
Proof.
  unfold renderAll. cbv zeta. do 9 (try same).
  assert (H : page_ok (updateNextPass (state (updatePassesList (st_upcomingPasses s)
                (updateStatus (st_status s) m)) ≫= st_nextPass)
              (updatePassesList (st_upcomingPasses s) (updateStatus (st_status s) m)))).
  { apply updateNextPass_page_ok; [|done].
    eapply same_status_ok; [apply updatePassesList_obs|apply updateStatus_ok]. }
  destruct (st_currentPass s); [same|]; exact H.
Qed.

Lemma handlePassComplete_ok now m : next_ok m -> page_ok (handlePassComplete now m).
Proof.
  intros H. unfold handlePassComplete. cbv zeta. do 2 same.
  apply (updateStatus_page_ok idle) in H. set (m1 := updateStatus idle m) in *.
  assert (Hi : st_status <$> state m1 = (fun _ => idle) <$> state m1).
  { subst m1. by destruct m as [[]]. }
  set (m2 := on_page _ m1).
  assert (H2 : page_ok m2).
  { destruct H as [H Hn]. subst m2. clearbody m1. destruct m1 as [s]. split; [|exact Hn].
    unfold status_ok, status_obs, is_hidden in *. simpl in *. destruct s as [s|]; simpl in *; [|done].
    injection Hi as Hi. rewrite Hi in *. destruct H as (? & Hp & Hc & Hd). split; [done|].
    split; [rewrite <- Hp; apply bool_decide_ext; set_solver|].
    split; [|intros _]; apply bool_decide_eq_true_2; set_solver. }
  destruct (state m2) as [s|] eqn:E; [|exact H2].
  apply updatePassesList_page_ok, updateNextPass_page_ok.
  - eapply same_status_ok; [|apply H2]. clearbody m2. destruct m2. simpl in E. by subst.
  - intros Hh. clearbody m2. destruct m2. simpl in *. by subst.
Qed.

Lemma handleMessage_ok now data doppler m : page_ok m -> page_ok (handleMessage now data doppler m).
Proof.
  intros H. destruct data as [s g f|[st|q|r|p e t|l|g|f n]|st| | | | |]; simpl; try exact H.
  - destruct g; [same|]; apply renderAll_ok.
  - same. apply updateStatus_page_ok, H.
  - set (m1 := updateCurrentPass q m).
    assert (H1 : page_ok m1) by (by subst m1; same).
    destruct (updateStatus_page_ok capturing m1) as [Hs Hn]; [apply H1|].
    destruct doppler as [d|]; [|by split]. split.
    + apply showDopplerChart_obs; [|done]. by destruct m1 as [[]].
    + by eapply same_next_ok; [apply showDopplerChart_next|].
  - apply handlePassComplete_ok, H.
  - by same.
  - by apply updatePassesList_page_ok.
  - by same.
  - by same.
Qed.

Lemma on_answer_ok r a m : page_ok m -> page_ok (on_answer r a m).
Proof.
  intros H. assert (Hs : same_obs (on_answer r a)); [|by apply same_obs_page_ok].
  clear m H. intros m. destruct r, a; simpl; try done;
    try (by apply same_obs_captures || apply same_obs_sstv); try elsewhere;
    try apply same_obs_version; try (by destruct m).
  destruct m as [x a b c d e t g h i j k l].
  exact (same_obs_version version commit (mkMonitor x a b c (Some (version, commit)) e t g h i j k l)).
Qed.

Lemma page_step_ok e m : page_ok m -> page_ok (step e m).
Proof.
  intros H. destruct e as [n|n now data dop|n|n|n now|n|b|n a]; simpl.
  - destruct (live n m); [|done]. destruct m as [s]. unfold on_open, updateConnectionStatus.
    apply same_obs_page_ok; [intros m0; elsewhere|exact H].
  - destruct (live n m); [by apply handleMessage_ok|done].
  - destruct (live n m); [|done]. destruct m as [s ? b]. unfold on_close, attemptReconnect. simpl.
    destruct (b <? 20)%nat; refine (same_obs_page_ok (updateConnectionStatus false) _ _ H); intros m0; elsewhere.
  - destruct m as [s]. simpl. by destruct (timers0 !! n) as [[? []]|].
  - destruct (default false (countdowns m !! n)); [by same|done].
  - destruct (n <? versionIntervals m)%nat; [by same|done].
  - by same.
  - unfold answered. destruct (pending m !! n) as [r|]; [|done]. destruct m. by apply on_answer_ok.
Qed.

(** Whatever the server, the user and the timers do, the badge names the status of the
    page's copy of the state, the progress section is visible exactly while it captures,
    the current pass while it captures or decodes, and the satellite announced is that of
    the copy's next pass. *)
Theorem legacy_page_consistent evs : page_ok (run evs start).
Proof.
  unfold run. assert (H : page_ok start) by done. revert H. generalize start.
  induction evs as [|e evs IH]; intros m H; [done|]. apply IH, page_step_ok, H.
Qed.

(** ** The copy of the state *)

Definition receive (now : Z) (es : list StateEvent) (m : monitor) : monitor :=
  foldl (fun m e => handleMessage now (Dashboard.state_event e) None m) m es.

Definition event_status (e : StateEvent) (x : SystemStatus) : SystemStatus :=
  match e with
  | status_change y => y
  | pass_start _ => capturing
  | pass_complete _ => idle
  | _ => x
  end.

Lemma apply_status now o s :
  st_status (StateManager.apply now o s).1 = event_status (StateManager.apply now o s).2 (st_status s).
Proof. by destruct o. Qed.

Lemma updatePassesList_state l m :
  state (updatePassesList l m) =
  match l with [] => state m | p :: _ => (fun s => with_upcoming l (with_next (Some p) s)) <$> state m end.
Proof. destruct l as [|p l], m as [[]]; reflexivity. Qed.

Lemma updateNextPass_state p m :
  state (updateNextPass p m) =
  match p with Some _ => with_next p <$> state m | None => state m end.
Proof. by destruct p, m. Qed.

Lemma updateGlobe_state g m : state (updateGlobe g m) = state m.
Proof. unfold updateGlobe. destruct m as [? ? ? ? ? ? ? ? ? ? ? ? v]. simpl. by destruct (globe v). Qed.

Lemma handlePassComplete_state now m :
  state (handlePassComplete now m) =
  (fun s => let l := js_filter (fun p => now <? pass_aos p) (st_upcomingPasses s) in
            with_status idle (with_next (head l) (with_upcoming l s))) <$> state m.
Proof.
  unfold handlePassComplete. destruct m as [[s|]]; simpl; [|done].
  destruct (js_filter _ _) as [|p l]; reflexivity.
Qed.

Lemma message_status now e m :
  st_status <$> state (handleMessage now (Dashboard.state_event e) None m) =
  event_status e <$> (st_status <$> state m).
Proof.
  destruct e; simpl; try (by destruct m as [[]]).
  - rewrite handlePassComplete_state. by destruct (state m).
  - rewrite updatePassesList_state. destruct passes; by destruct (state m).
  - rewrite updateGlobe_state. by destruct (state m).
Qed.

Lemma renderAll_state s m :
  state (renderAll s (set_state (Some s) m)) =
  Some (match st_upcomingPasses s with [] => s | p :: _ => with_next (Some p) s end).
Proof.
  unfold renderAll. cbv zeta.
  assert (Hstart : forall m, state (updateSdrStatus (startVersionCheck (fetch GetVersion (initGlobe
    (setupSstvToggle (startCountdown (fetch GetSstvStatus (fetch GetSummary (fetch GetCaptures m))))))))) = state m).
  { intros []. unfold initGlobe. simpl. by destruct (globe page0), globeAvailable. }
  rewrite Hstart. destruct m as [x]. destruct s as [st cur next up].
  simpl. destruct up as [|q up]; simpl; destruct cur, next; reflexivity.
Qed.

(** The server's operations, until a pass completes, with updates that have passes. *)
Definition keeps_list (o : date * StateManager.op) : Prop :=
  match o.2 with StateManager.CompletePass _ | StateManager.UpdatePasses [] => False | _ => True end.

Lemma receive_ok now ops : forall s m,
  st_status <$> state m = Some (st_status s) -> page_ok m ->
  let m' := receive now (StateManager.run ops s).2 m in
  st_status <$> state m' = Some (st_status (StateManager.run ops s).1) /\ page_ok m'.
Proof.
  induction ops as [|[t o] ops IH]; intros s m Hs Hm; simpl; [done|].
  pose proof (apply_status t o s) as Ha. destruct (StateManager.apply t o s) as [s1 e]. simpl in Ha.
  specialize (IH s1 (handleMessage now (Dashboard.state_event e) None m)).
  destruct (StateManager.run ops s1) as [s2 es]. apply IH.
  - by rewrite message_status, Hs, Ha.
  - by apply handleMessage_ok.
Qed.

Lemma receive_list now ops : forall s m, Forall keeps_list ops ->
  (fun s => (st_nextPass s, st_upcomingPasses s)) <$> state m = Some (st_nextPass s, st_upcomingPasses s) ->
  let s' := (StateManager.run ops s).1 in
  (fun s => (st_nextPass s, st_upcomingPasses s)) <$> state (receive now (StateManager.run ops s).2 m) =
  Some (st_nextPass s', st_upcomingPasses s').
Proof.
  induction ops as [|[t o] ops IH]; intros s m Ho Hs; simpl; [done|].
  apply Forall_cons in Ho as [Ho Hos]. destruct (StateManager.apply t o s) as [s1 e] eqn:E.
  specialize (IH s1 (handleMessage now (Dashboard.state_event e) None m) Hos).
  destruct (StateManager.run ops s1) as [s2 es]. apply IH.
  destruct (state m) as [x|] eqn:Em; [|done]. injection Hs as Hx Hy.
  destruct o; injection E as <- <-; simpl;
    try (destruct m; simpl in *; subst; simpl; by rewrite Hx, Hy).
  - destruct Ho.
  - unfold keeps_list in Ho. simpl in Ho. rewrite updatePassesList_state, Em. by destruct passes.
  - rewrite updateGlobe_state, Em. simpl. by rewrite Hx, Hy.
Qed.

(** The page follows the state manager: from the message sent on connection and the events
    of any run of operations its copy has the server's status and it shows that status;
    and until a pass completes or the list becomes empty it has the server's passes. *)
Theorem legacy_follows_server s0 ops now g f m (Hnext : StateManager.next_is_head s0) :
  let '(s, es) := StateManager.run ops s0 in
  let m' := receive now es (handleMessage now (Dashboard.init s0 g f) None m) in
  texts (page m') !! "status-badge"%string = Some (statusMap (st_status s)) /\
  is_hidden "progress-section" m' = negb (is_capturing (st_status s)) /\
  is_hidden "current-pass" m' = negb (is_busy (st_status s)) /\
  (Forall keeps_list ops ->
   texts (page m') !! "next-satellite"%string = Some (next_name (st_nextPass s)) /\
   st_upcomingPasses <$> state m' = Some (st_upcomingPasses s)).
Proof.
  set (m0 := handleMessage now (Dashboard.init s0 g f) None m).
  assert (E : state m0 = Some s0).
  { assert (Hr : state (renderAll s0 (set_state (Some s0) m)) = Some s0).
    { rewrite renderAll_state. unfold StateManager.next_is_head in Hnext.
      destruct s0 as [st cur next [|q up]]; simpl in *; by subst. }
    subst m0. simpl. destruct g; [rewrite updateGlobe_state|]; exact Hr. }
  assert (H0 : page_ok m0) by (subst m0; simpl; destruct g; [same|]; apply renderAll_ok).
  pose proof (receive_ok now ops s0 m0) as H1. pose proof (receive_list now ops s0 m0) as H2.
  rewrite E in H1, H2. specialize (H1 eq_refl H0) as [Hst [Hok Hn]].
  destruct (StateManager.run ops s0) as [s es]. simpl in *. set (m' := receive now es m0) in *.
  unfold status_ok, status_obs in Hok. rewrite Hst in Hok. destruct Hok as (H3 & H4 & H5 & _).
  split; [done|]. split; [done|]. split; [done|]. intros Ho. specialize (H2 Ho eq_refl).
  unfold next_ok, next_obs in Hn. destruct (state m') as [x|]; [|done].
  injection H2 as Hx Hy. simpl in *. by rewrite Hn, Hx, Hy.
Qed.

(** After a pass completes, the page lists only passes that have not begun, and announces
    the first of them. *)
Lemma legacy_complete_future now r m s : state m = Some s ->
  let l := js_filter (fun p => now <? pass_aos p) (st_upcomingPasses s) in
  let m' := handleMessage now (Dashboard.state_event (pass_complete r)) None m in
  st_upcomingPasses <$> state m' = Some l /\ st_nextPass <$> state m' = Some (head l).
Proof. intros E. simpl. by rewrite handlePassComplete_state, E. Qed.

(** ** What piles up *)

Definition tally (m : monitor) : nat * nat * list bool * option nat :=
  (versionIntervals m, toggleListeners m, countdowns m, countdownInterval m).

Definition is_init (e : event) (m : monitor) : bool :=
  match e with EMessage n _ (Dashboard.init _ _ _) _ => live n m | _ => false end.

Fixpoint inits (evs : list event) (m : monitor) : nat :=
  match evs with
  | [] => 0
  | e :: r => ((if is_init e m then 1 else 0) + inits r (step e m))%nat
  end.

Lemma tally_next p m : tally (updateNextPass p m) = tally m.
Proof. by destruct p, m. Qed.
Lemma tally_list l m : tally (updatePassesList l m) = tally m.
Proof. by destruct l, m. Qed.
Lemma tally_globe g m : tally (updateGlobe g m) = tally m.
Proof. unfold updateGlobe. destruct m as [? ? ? ? ? ? ? ? ? ? ? ? v]. simpl. by destruct (globe v). Qed.
Lemma tally_initGlobe m : tally (initGlobe m) = tally m.
Proof. unfold initGlobe. destruct m as [? ? ? ? ? ? ? ? ? ? ? ? v]. simpl. by destruct (globe v), globeAvailable. Qed.
Lemma tally_toggle b m : tally (on_toggle b m) = tally m.
Proof.
  unfold on_toggle. generalize (toggleListeners m). intros n. induction n as [|n IH]; [by destruct m|].
  simpl. rewrite <- IH. by destruct (Nat.iter n _ _).
Qed.
Lemma tally_complete now m : tally (handlePassComplete now m) = tally m.
Proof.
  unfold handlePassComplete. destruct m as [[s|]]; simpl; [|done]. by destruct (js_filter _ _).
Qed.

(** Between init messages nothing is added. *)
Lemma step_tally e m : is_init e m = false -> tally (step e m) = tally m.
Proof.
  intros H. destruct e as [n|n now data dop|n|n|n now|n|b|n a]; simpl in *.
  - by destruct (live n m), m.
  - destruct (live n m); [|done].
    destruct data as [s g f|[st|q|r|p e t|l|g|f n0]|st| | | | |]; simpl; try done; try (by destruct m).
    + destruct dop as [d|]; [|by destruct m]. unfold showDopplerChart.
      destruct (dd_points d) as [|? [|? ?]]; by destruct m.
    + apply tally_complete.
    + apply tally_list.
    + apply tally_globe.
  - destruct (live n m), m as [? ? b]; simpl; [|done]. unfold attemptReconnect. simpl. by destruct (b <? 20)%nat.
  - destruct m. simpl. by destruct (timers0 !! n) as [[? []]|].
  - by destruct (default false (countdowns m !! n)), m.
  - by destruct (n <? versionIntervals m)%nat, m.
  - apply tally_toggle.
  - unfold answered. destruct (pending m !! n) as [r|]; [|done]. destruct m. by destruct r, a.
Qed.

Lemma init_tally n now s g f dop m : live n m = true ->
  tally (step (EMessage n now (Dashboard.init s g f) dop) m) =
  (S (versionIntervals m), S (toggleListeners m),
   (match countdownInterval m with Some i => <[i := false]> (countdowns m) | None => countdowns m end)
     ++ [true], Some (length (countdowns m))).
Proof.
  intros Hl. simpl. rewrite Hl.
  assert (H : tally (renderAll s (set_state (Some s) m)) =
    (S (versionIntervals m), S (toggleListeners m),
     (match countdownInterval m with Some i => <[i := false]> (countdowns m) | None => countdowns m end)
       ++ [true], Some (length (countdowns m)))).
  { unfold renderAll. cbv zeta. set (m0 := set_state (Some s) m).
    set (m1 := updateNextPass _ (updatePassesList _ (updateStatus _ m0))).
    assert (E1 : tally m1 = tally m).
    { subst m1. rewrite tally_next, tally_list. by destruct m. }
    set (m2 := match st_currentPass s with Some _ => _ | None => _ end).
    assert (E2 : tally m2 = tally m).
    { rewrite <- E1. subst m2. destruct (st_currentPass s); [|done]. clearbody m1. by destruct m1. }
    clearbody m2. clear m1 E1 m0 Hl. destruct m, m2. unfold tally in *. simpl in *.
    injection E2 as -> -> -> ->. unfold initGlobe. simpl.
    destruct (globe page1), globeAvailable, countdownInterval0; simpl; by rewrite ?length_insert. }
  destruct g; [by rewrite tally_globe|done].
Qed.

(** Of the intervals of the countdown only the current one lives. *)
Definition one_countdown (m : monitor) : Prop :=
  forall i, countdowns m !! i = Some true -> countdownInterval m = Some i.

Lemma step_one_countdown e m : one_countdown m -> one_countdown (step e m).
Proof.
  intros H. destruct (is_init e m) eqn:E.
  - destruct e as [|n now [s g f| | | | | | |] dop| | | | | |]; try discriminate. simpl in E.
    pose proof (init_tally n now s g f dop m E) as Ht.
    set (m1 := step _ m) in *. clearbody m1. unfold tally in Ht.
    injection Ht as _ _ Hc Hi. unfold one_countdown. rewrite Hc, Hi. intros i Hl.
    assert (Hlen : length (match countdownInterval m with Some i => <[i:=false]> (countdowns m)
                           | None => countdowns m end) = length (countdowns m)).
    { destruct (countdownInterval m); by rewrite ?length_insert. }
    apply lookup_app_Some in Hl as [Hl|[Hge Hl]].
    + exfalso. destruct (countdownInterval m) as [j|] eqn:Ej; [|by rewrite (H i Hl) in Ej].
      destruct (decide (i = j)) as [->|Hne]; [by apply list_lookup_insert_Some in Hl as [(_ & ? & _)|(? & _)]|].
      rewrite list_lookup_insert_ne in Hl by done. apply H in Hl. congruence.
    + apply list_lookup_singleton_Some in Hl as [Hl _]. f_equal. lia.
  - pose proof (step_tally e m E) as Ht. unfold tally in Ht. injection Ht as _ _ Hc Hi.
    unfold one_countdown. by rewrite Hc, Hi.
Qed.

(** Every init message, which the server sends on each connection, adds an interval that
    asks for the version and a listener of the switch, and none is ever removed; the
    countdown, which is cleared, keeps one interval. *)
Theorem legacy_listeners_pile_up evs :
  let m := run evs start in
  versionIntervals m = inits evs start /\ toggleListeners m = inits evs start /\ one_countdown m.
Proof.
  cbv zeta. assert (H : forall m, one_countdown m ->
    versionIntervals (run evs m) = (inits evs m + versionIntervals m)%nat /\
    toggleListeners (run evs m) = (inits evs m + toggleListeners m)%nat /\ one_countdown (run evs m)).
  { unfold run. induction evs as [|e evs IH]; intros m Hm; [done|]. simpl.
    destruct (IH (step e m) (step_one_countdown e m Hm)) as (-> & -> & H3).
    assert (Ht : versionIntervals (step e m) = ((if is_init e m then 1 else 0) + versionIntervals m)%nat /\
                 toggleListeners (step e m) = ((if is_init e m then 1 else 0) + toggleListeners m)%nat).
    { destruct (is_init e m) eqn:E.
      - destruct e as [|n now [s g f| | | | | | |] dop| | | | | |]; try discriminate. simpl in E.
        pose proof (init_tally n now s g f dop m E) as Ht.
        set (m1 := step _ m) in *. clearbody m1. by injection Ht as -> -> _ _.
      - pose proof (step_tally e m E) as Ht. by injection Ht as -> -> _ _. }
    destruct Ht as [-> ->]. split; [lia|]. split; [lia|exact H3]. }
  destruct (H start) as (-> & -> & H3); [by intros i|]. simpl. by rewrite !Nat.add_0_r.
Qed.

(** One change of the switch is posted once by each listener. *)
Lemma toggle_posts b m :
  pending (on_toggle b m) = pending m ++ repeat (PostToggle b) (toggleListeners m).
Proof.
  unfold on_toggle. generalize (toggleListeners m). intros n.
  assert (H : forall n m, pending (Nat.iter n (fetch (PostToggle b)) m) = pending m ++ repeat (PostToggle b) n).
  { induction n0 as [|k IH]; intros m0; simpl; [by rewrite app_nil_r|].
    pose proof (IH m0) as E. destruct (Nat.iter k _ m0). simpl in *.
    rewrite E, <- app_assoc. f_equal. by rewrite <- repeat_cons. }
  rewrite H. by destruct m.
Qed.

(** ** The chart *)

(** A shift within the extremes stays within 60 of the middle. *)
Lemma shift_inside doppler (p : DopplerPoint) :
  (dd_minShift doppler <= dp_shift p <= dd_maxShift doppler)%Q ->
  let maxShift := js_max (Qabs (dd_maxShift doppler)) (Qabs (dd_minShift doppler)) in
  let scale := if 0 <?q maxShift then (60 / maxShift)%Q else 1%Q in
  (15 <= 75 - dp_shift p * scale <= 135)%Q.
Proof.
  intros [Hlo Hhi]. cbv zeta. set (M := js_max _ _).
  assert (HM : (- M <= dp_shift p <= M)%Q).
  { pose proof (js_max_l (Qabs (dd_maxShift doppler)) (Qabs (dd_minShift doppler))) as H1.
    pose proof (js_max_r (Qabs (dd_maxShift doppler)) (Qabs (dd_minShift doppler))) as H2. fold M in H1, H2.
    apply Qabs_Qle_condition in H1, H2. lra. }
  destruct (0 <?q M) eqn:E; props; [|lra].
  assert (H1 : (-1 <= dp_shift p / M <= 1)%Q).
  { split; [apply Qle_shift_div_l|apply Qle_shift_div_r]; lra. }
  assert (H2 : (dp_shift p * (60 / M) == 60 * (dp_shift p / M))%Q) by (field; lra).
  rewrite H2. lra.
Qed.

(** Shifts within the declared extremes are drawn on the canvas. *)
Theorem chart_inside doppler x y
  (Hshift : Forall (fun p => dd_minShift doppler <= dp_shift p <= dd_maxShift doppler)%Q (dd_points doppler))
  (Hlen : (2 <= length (dd_points doppler))%nat) (Hin : (x, y) ∈ svgPoints doppler) :
  (0 <= x <= 600 /\ 15 <= y <= 135)%Q.
Proof.
  apply list_elem_of_lookup_1 in Hin as [i Hi]. unfold svgPoints in Hi. cbv zeta in Hi.
  rewrite list_lookup_imap in Hi. destruct (dd_points doppler !! i) as [p|] eqn:Ep; [|done].
  injection Hi as <- <-. rewrite Forall_lookup in Hshift. pose proof (Hshift i p Ep) as Hp.
  apply lookup_lt_Some in Ep. split; [|by apply shift_inside].
  destruct (Views.percent_bounds (Z.of_nat i) (Z.of_nat (length (dd_points doppler)) - 1)) as [H1 H2]; [lia|lia|].
  split; lra.
Qed.
End Monitor.

Definition sample_doppler : DopplerData :=
  mkDopplerData [mkDopplerPoint 0 137900000 3000; mkDopplerPoint 1000 137900000 (-1500)] 3000 (-1500).

Lemma chart_inside_witness :
  length (svgPoints sample_doppler) = 2%nat /\ (15 <= 75 - (-1500) * (60 / 3000) <= 135)%Q.
Proof.
  split; [reflexivity|].
  apply (chart_inside sample_doppler (1 / 1 * 600) (75 - (-1500) * (60 / 3000)));
    [repeat constructor; vm_compute; discriminate|vm_compute; lia|].
  right. left.
Defined.

(** A list that becomes empty leaves the pass announced and the receiver "Ready". *)
Example empty_list_keeps_next :
  let loc := show_Z in
  let s0 := mkState idle None None [] 0 0 0 0 None None in
  let p := Dashboard.sample_pass 57166 1000 in
  let m := run loc true
    [EOpen 0; EMessage 0 0 (Dashboard.init s0 None None) None;
     EMessage 0 0 (Dashboard.state_event (passes_updated [p])) None;
     EMessage 0 0 (Dashboard.state_event (passes_updated [])) None;
     EMessage 0 0 (Dashboard.state_event (status_change waiting)) None] start in
  (rows (page m), texts (page m) !! "next-satellite", texts (page m) !! "sdr-status-text")%string =
  ([], Some "METEOR-M N2-3", Some "SDR: Ready")%string.
Proof. vm_compute. reflexivity. Qed.

(** The status of a scan is shown as standby, and after two connections one change of the
    switch is posted twice. *)
Example scan_shown_as_standby : statusMap scanning = statusMap idle.
Proof. reflexivity. Qed.

Example reconnected_posts_twice :
  let s0 := mkState idle None None [] 0 0 0 0 None None in
  let hello n := [EOpen n; EMessage n 0 (Dashboard.init s0 None None) None] in
  let m := run show_Z false (hello 0%nat ++ [EClose 0; ETimer 0] ++ hello 1%nat ++ [EToggle true]) start in
  (versionIntervals m, length (js_filter id (countdowns m)),
   length (js_filter (fun r => match r with PostToggle true => true | _ => false end) (pending m)))
  = (2, 1, 2)%nat.
Proof. vm_compute. reflexivity. Qed.

Lemma legacy_follows_server_witness :
  let s0 := StateManager.initial 0 in
  st_status (StateManager.run Dashboard.sample_ops s0).1 = capturing /\
  let m' := receive show_Z true 0 (StateManager.run Dashboard.sample_ops s0).2
              (handleMessage show_Z true 0 (Dashboard.init s0 None None) None start) in
  texts (page m') !! "status-badge"%string = Some "Capturing"%string /\
  is_hidden "progress-section" m' = false.
Proof.
  split; [reflexivity|].
  pose proof (legacy_follows_server show_Z true (StateManager.initial 0) Dashboard.sample_ops 0 None None start
    eq_refl) as H.
  exact (conj (proj1 H) (proj1 (proj2 H))).
Defined.
End LegacyPage.
