(* ===== verification/WebServer.v ===== *)
(** * The web server (src/middleware/web/server.ts)

    The server relays the events of the state manager to its WebSocket clients,
    owns the spectrum subscriptions with their history and their debounced start,
    and steers the gain.  It is a transition system over the modules it calls: the
    FFT stream, the state manager, the SSTV events, the automatic gain.  A timer or
    an await is a step of its own. *)

From S2P Require Import Prelude JsStd Types RelayApi StateManager Effects Events AutoGain.
From S2P Require Import FftDsp FftStream.
Local Open Scope Z_scope.

Module WebServer.

#[local] Existing Instance AutoGain.FrequencyBand_eq_dec.

(** A pending [setTimeout]. *)
Inductive timer := TStart (frequency : Z) | TStop | TErrorCheck.

(** A suspended handler. *)
Inductive task :=
| AfterStart (thisTimeout : option nat)          (* await startFFTStream in the debounce *)
| HttpStart (rid : nat)                          (* await startFFTStream in /api/fft/start *)
| HttpStop (rid : nat)                           (* await stopFFTStream in /api/fft/stop *)
| TimerStop                                      (* await stopFFTStream in the deferred stop *)
| Forward (e : StateEvent).                      (* await stopFFTStream before a broadcast *)

(** [timers] are all those made so far, [None] once fired or cleared. *)
(* @src middleware/web/server.ts:34-75 module variables *)
Record state := mkWeb {
  clients : list nat;
  fftSubscribers : list nat;
  currentGain : Q;
  currentBand : AutoGain.FrequencyBand;
  bandGainStore : AutoGain.BandGainStore;
  autoGain : AutoGain.AutoGainState;
  autoGainConfig : AutoGain.AutoGainConfig;
  pendingFFTStart : option nat;
  pendingFFTStop : option nat;
  fftHistoryBuffer : list FFTData;
  fft : FftStream.state;
  system : SystemState;
  sstv : Events.state;
  timers : list (option timer);
  tasks : list task
}.

(* @src middleware/web/server.ts:46-50 BAND_GAIN_TARGETS *)
Definition BAND_GAIN_TARGETS (b : AutoGain.FrequencyBand) : Q * Q :=
  match b with
  | AutoGain.noaa => (-80, -55)%Q
  | AutoGain.two_m => (-55, -35)%Q
  | AutoGain.unknown => (-75, -50)%Q
  end.

(* @src middleware/web/server.ts:68-68 FFT_START_DEBOUNCE_MS *)
Definition FFT_START_DEBOUNCE_MS : Z := 500.
(* @src middleware/web/server.ts:74-74 FFT_HISTORY_MAX *)
Definition FFT_HISTORY_MAX : nat := 150.

Inductive message :=
| MEvent (e : StateEvent)
| MInit (system : SystemState) (globe : option GlobeState) (running : bool)
    (config : option FftStream.FFTStreamConfig) (filters : list FftDsp.NotchFilter)
    (error : option string)
| MHistory (l : list FFTData)
| MData (d : FFTData)
| MSubscribed (running : bool) (config : option FftStream.FFTStreamConfig) (error : option string)
| MUnsubscribed
| MGain (gain : Q)
| MError (error : string)
| MSstv (s : SSTVStatus).

Inductive reply :=
| ROk
| RText (status : Z) (body : string)
| RSystem (s : SystemState)
| RPasses (l : list SatellitePass)
| RSstv (s : SSTVStatus)
| RFftStatus (running : bool) (config : option FftStream.FFTStreamConfig) (subscribers : nat)
| RFft (success running : bool)
| RGain (gain : Q) (auto : bool)
| RCaptures (l : list CaptureHistoryEntry)
| RSummary (total successful failed : Z)
| RGlobe (g : option GlobeState)
| RVersion (v : option string)
| RConfig (latitude longitude altitude gain : Q) (band : AutoGain.FrequencyBand)
    (bandGains : list AutoGain.BandGainState) (ppmCorrection sampleRate minElevation minSignal : Q)
    (skipSignalCheck : bool)
| RFilters (success : bool) (l : list FftDsp.NotchFilter).

Inductive output :=
| Send (ws : nat) (m : message)
| Respond (rid : nat) (r : reply)
| Stream (o : FftStream.output)
| SetTimer (ms : Z)
| StopScanner
| Uncaught                      (* an exception nobody catches: node ends the process *)
| Untyped.                      (* a value of another type goes where a number or flag is expected *)

(** ** Field updates *)

Definition with_fft (f : FftStream.state) (s : state) : state :=
  mkWeb (clients s) (fftSubscribers s) (currentGain s) (currentBand s) (bandGainStore s)
    (autoGain s) (autoGainConfig s) (pendingFFTStart s) (pendingFFTStop s) (fftHistoryBuffer s) f
    (system s) (sstv s) (timers s) (tasks s).

Definition with_sockets (c f : list nat) (s : state) : state :=
  mkWeb c f (currentGain s) (currentBand s) (bandGainStore s) (autoGain s) (autoGainConfig s)
    (pendingFFTStart s) (pendingFFTStop s) (fftHistoryBuffer s) (fft s) (system s) (sstv s)
    (timers s) (tasks s).

Definition with_gain (g : Q) (b : AutoGain.FrequencyBand) (st : AutoGain.BandGainStore)
  (a : AutoGain.AutoGainState) (c : AutoGain.AutoGainConfig) (s : state) : state :=
  mkWeb (clients s) (fftSubscribers s) g b st a c (pendingFFTStart s) (pendingFFTStop s)
    (fftHistoryBuffer s) (fft s) (system s) (sstv s) (timers s) (tasks s).

Definition with_timers (start stop : option nat) (t : list (option timer)) (s : state) : state :=
  mkWeb (clients s) (fftSubscribers s) (currentGain s) (currentBand s) (bandGainStore s)
    (autoGain s) (autoGainConfig s) start stop (fftHistoryBuffer s) (fft s) (system s) (sstv s) t
    (tasks s).

Definition with_history (h : list FFTData) (s : state) : state :=
  mkWeb (clients s) (fftSubscribers s) (currentGain s) (currentBand s) (bandGainStore s)
    (autoGain s) (autoGainConfig s) (pendingFFTStart s) (pendingFFTStop s) h (fft s) (system s)
    (sstv s) (timers s) (tasks s).

Definition with_system (sys : SystemState) (s : state) : state :=
  mkWeb (clients s) (fftSubscribers s) (currentGain s) (currentBand s) (bandGainStore s)
    (autoGain s) (autoGainConfig s) (pendingFFTStart s) (pendingFFTStop s) (fftHistoryBuffer s)
    (fft s) sys (sstv s) (timers s) (tasks s).

Definition with_sstv (e : Events.state) (s : state) : state :=
  mkWeb (clients s) (fftSubscribers s) (currentGain s) (currentBand s) (bandGainStore s)
    (autoGain s) (autoGainConfig s) (pendingFFTStart s) (pendingFFTStop s) (fftHistoryBuffer s)
    (fft s) (system s) e (timers s) (tasks s).

Definition with_tasks (l : list task) (s : state) : state :=
  mkWeb (clients s) (fftSubscribers s) (currentGain s) (currentBand s) (bandGainStore s)
    (autoGain s) (autoGainConfig s) (pendingFFTStart s) (pendingFFTStop s) (fftHistoryBuffer s)
    (fft s) (system s) (sstv s) (timers s) l.

Definition suspend (t : task) (s : state) : state := with_tasks (tasks s ++ [t]) s.

Definition running (s : state) : bool := FftStream.isFFTStreamRunning (fft s).
Definition config (s : state) : option FftStream.FFTStreamConfig := FftStream.getFFTStreamConfig (fft s).
Definition filters (s : state) : list FftDsp.NotchFilter := FftStream.notchFilters (fft s).
Definition fft_error (s : state) : option string := FftStream.getFFTStreamError (fft s).

(** [clearTimeout]. *)
Definition clear_timer (t : option nat) (l : list (option timer)) : list (option timer) :=
  match t with Some i => <[i := None]> l | None => l end.

(** The server has one callback, [broadcastFFTData]. *)
Definition broadcast : nat := 0.

Definition default_frequency : Z := 137500000.

(** [n || d] on numbers. *)
Definition or_num (n : option Z) (d : Z) : Z :=
  match n with Some 0 | None => d | Some n => n end.

Definition config_frequency (s : state) : Z :=
  or_num (FftStream.fc_frequency <$> config s) default_frequency.

(** ** Debounced start *)

(* @src middleware/web/server.ts:619-624 debouncedFFTStart *)
Definition debouncedFFTStart (frequency : Z) (s : state) : state * list output :=
  let l := clear_timer (pendingFFTStart s) (timers s) in
  (with_timers (Some (length l)) (pendingFFTStop s) (l ++ [Some (TStart frequency)]) s,
   [SetTimer FFT_START_DEBOUNCE_MS]).

Section Server.
Context (env_gain : bool) (defaultGain : Q).

(** The gain of the band, and whether to calibrate it. *)
(* @src middleware/web/server.ts:630-648 debouncedFFTStart *)
Definition select_gain (frequency : Z) (s : state) : state :=
  let '(band, gain, needsCalibration) :=
    AutoGain.getForFrequency (inject_Z frequency) defaultGain (bandGainStore s) in
  if needsCalibration && negb env_gain then
    let '(lo, hi) := BAND_GAIN_TARGETS band in
    let c := autoGainConfig s in
    let c := AutoGain.mkAutoGainConfig lo hi (AutoGain.samplesNeeded c) (AutoGain.step c)
               (AutoGain.minGain c) (AutoGain.maxGain c) in
    let a := autoGain s in
    let a := AutoGain.mkAutoGain (AutoGain.enabled a) gain (AutoGain.samples a) in
    with_gain gain band (bandGainStore s) (AutoGain.enable a) c s
  else with_gain gain band (bandGainStore s) (AutoGain.disable (autoGain s)) (autoGainConfig s) s.

(* @src middleware/web/server.ts:624-653 debouncedFFTStart *)
Definition start_timer (now frequency : Z) (s : state) : state * list output :=
  let thisTimeout := pendingFFTStart s in
  let s := select_gain frequency (with_history [] s) in
  let '(f, o) :=
    FftStream.startFFTStream now (FftStream.mkFFTConfig frequency 200000 2048 (currentGain s) 30)
      broadcast (fft s) in
  (suspend (AfterStart thisTimeout) (with_fft f s), map Stream o).

(* @src middleware/web/server.ts:654-666 debouncedFFTStart *)
Definition after_start (thisTimeout : option nat) (s : state) : state * list output :=
  let l := timers s ++ [Some TErrorCheck] in
  let start := if decide (pendingFFTStart s = thisTimeout) then None else pendingFFTStart s in
  (with_timers start (pendingFFTStop s) l s, [SetTimer 1500]).

(** ** Broadcasts; [throws] are the sockets whose [send] throws *)

Definition alive (throws : nat -> bool) (l : list nat) : list nat :=
  js_filter (fun ws => negb (throws ws)) l.

(* @src middleware/web/server.ts:597-604 state listener *)
Definition broadcast_clients (throws : nat -> bool) (m : message) (s : state) : state * list output :=
  let l := alive throws (clients s) in
  (with_sockets l (fftSubscribers s) s, map (fun ws => Send ws m) l).

(* @src middleware/web/server.ts:724-737 broadcastFFTError *)
Definition broadcast_subscribers (throws : nat -> bool) (m : message) (s : state)
  : state * list output :=
  let l := alive throws (fftSubscribers s) in
  (with_sockets (clients s) l s, map (fun ws => Send ws m) l).

(* @src middleware/web/server.ts:683-688 broadcastFFTData *)
Definition push_history (data : FFTData) (h : list FFTData) : list FFTData :=
  let h := h ++ [data] in
  if (FFT_HISTORY_MAX <? length h)%nat then drop 1 h else h.

(* @src middleware/web/server.ts:693-708 broadcastFFTData *)
Definition feed_gain (data : FFTData) (s : state) : state * list output :=
  if AutoGain.enabled (autoGain s) then
    let '(a, r) := AutoGain.feed (autoGainConfig s) (autoGain s) (fft_bins data) in
    let set (g : Q) (calibrated : bool) :=
      with_gain g (currentBand s) (AutoGain.store_set (currentBand s) g calibrated (bandGainStore s))
        a (autoGainConfig s) s in
    match r with
    | AutoGain.adjusted _ newGain =>
        let s := set newGain false in debouncedFFTStart (config_frequency s) s
    | AutoGain.in_range g => (set g true, [])
    | AutoGain.limit_reached g => (set g true, [])
    | AutoGain.waiting_samples =>
        (with_gain (currentGain s) (currentBand s) (bandGainStore s) a (autoGainConfig s) s, [])
    end
  else (s, []).

(* @src middleware/web/server.ts:683-722 broadcastFFTData *)
Definition broadcastFFTData (throws : nat -> bool) (data : FFTData) (s : state)
  : state * list output :=
  let s := with_history (push_history data (fftHistoryBuffer s)) s in
  match fftSubscribers s with
  | [] => (s, [])
  | _ =>
      let '(s, o1) := feed_gain data s in
      let '(s, o2) := broadcast_subscribers throws (MData data) s in
      (s, o1 ++ o2)
  end.

(* @src middleware/web/server.ts:669-681 broadcastSstvStatus *)
Definition broadcastSstvStatus (throws : nat -> bool) (now : Z) (s : state) : state * list output :=
  broadcast_clients throws (MSstv (Events.getSstvStatus now (sstv s))) s.

(** ** The WebSocket *)

Definition in_use (s : state) : bool :=
  match st_status (system s) with capturing | decoding => true | _ => false end.

(* @src middleware/web/server.ts:461-477 connection *)
Definition on_connect (ws : nat) (globe : option GlobeState) (s : state) : state * list output :=
  let s := with_sockets (set_add ws (clients s)) (fftSubscribers s) s in
  (s, [Send ws (MInit (system s) globe (running s) (config s) (filters s) (fft_error s))]).

(* @src middleware/web/server.ts:480-483 close *)
Definition on_ws_close (ws : nat) (s : state) : state :=
  with_sockets (set_del ws (clients s)) (set_del ws (fftSubscribers s)) s.

(** [state.status === 'scanning' && state.scanningFrequency ? ... : ...] *)
(* @src middleware/web/server.ts:514-517 fft_subscribe *)
Definition subscribe_frequency (frequency : option Z) (s : state) : Z :=
  match st_status (system s), st_scanningFrequency (system s) with
  | scanning, Some f => if Z.eqb f 0 then or_num frequency default_frequency else f
  | _, _ => or_num frequency default_frequency
  end.

(* @src middleware/web/server.ts:491-530 fft_subscribe *)
Definition on_subscribe (ws : nat) (frequency : option Z) (s : state) : state * list output :=
  let s := with_sockets (clients s) (set_add ws (fftSubscribers s)) s in
  let s := with_timers (pendingFFTStart s) None (clear_timer (pendingFFTStop s) (timers s)) s in
  let history := match fftHistoryBuffer s with [] => [] | l => [Send ws (MHistory l)] end in
  let '(s, o) :=
    if running s then (s, [])
    else if in_use s then (s, [])
    else debouncedFFTStart (subscribe_frequency frequency s) s in
  (s, history ++ o ++ [Send ws (MSubscribed (running s) (config s) (fft_error s))]).

(* @src middleware/web/server.ts:533-549 fft_unsubscribe *)
Definition on_unsubscribe (ws : nat) (s : state) : state * list output :=
  let s := with_sockets (clients s) (set_del ws (fftSubscribers s)) s in
  let l := clear_timer (pendingFFTStop s) (timers s) in
  (with_timers (pendingFFTStart s) (Some (length l)) (l ++ [Some TStop]) s,
   [SetTimer 1000; Send ws MUnsubscribed]).

(** A gain chosen by the user: it is stored as calibrated, and the stream is
    restarted with it. *)
(* @src middleware/web/server.ts:336-343 startWebServer *)
Definition set_user_gain (gain : Q) (s : state) : state * list output :=
  let s := with_gain gain (currentBand s)
             (AutoGain.store_set (currentBand s) gain true (bandGainStore s))
             (AutoGain.setGain gain (autoGain s)) (autoGainConfig s) s in
  if running s then debouncedFFTStart (config_frequency s) s else (s, []).

(** A gain that was accepted.  What is not a number is kept as it came, and later put on a
    command line or added to: it leaves the model. *)
(* @src middleware/web/server.ts:336-343 startWebServer *)
Definition accept_gain (v : js_value) (answer : state -> output) (s : state) : state * list output :=
  match v with
  | JsNumber gain => let '(s, o) := set_user_gain gain s in (s, o ++ [answer s])
  | _ => (s, [Untyped])
  end.

(** [gain !== undefined && gain >= 0 && gain <= 49], of a value of any type. *)
(* @src middleware/web/server.ts:559-560 fft_set_gain *)
Definition ws_gain_ok (v : js_value) : bool :=
  num_leb (NFin 0) (js_ToNumber v) && num_leb (js_ToNumber v) (NFin 49).

(** [FftOther] asks for a frequency that is neither an integer nor absent. *)
Inductive ws_message :=
| FftSubscribe (frequency : option Z)
| FftUnsubscribe
| FftSetFrequency (frequency : option Z)
| FftSetGain (gain : option js_value)
| FftOther
| Unknown.

(** A message that does not parse is ignored, as one of an unknown type. *)
(* @src middleware/web/server.ts:486-577 message *)
Definition on_ws_message (ws : nat) (m : ws_message) (s : state) : state * list output :=
  match m with
  | FftSubscribe f => on_subscribe ws f s
  | FftUnsubscribe => on_unsubscribe ws s
  | FftSetFrequency f =>
      match f with
      | None | Some 0 => (s, [])
      | Some f => debouncedFFTStart f s
      end
  | FftSetGain (Some gain) =>
      if ws_gain_ok gain then accept_gain gain (fun s => Send ws (MGain (currentGain s))) s
      else (s, [])
  | FftOther => (s, [Untyped])
  | FftSetGain None | Unknown => (s, [])
  end.

(** ** Timers *)

(* @src middleware/web/server.ts:541-546 fft_unsubscribe *)
Definition stop_timer (s : state) : state * list output :=
  let s := with_timers (pendingFFTStart s) None (timers s) s in
  match fftSubscribers s with
  | [] =>
      if running s then
        let '(f, o) := FftStream.stopFFTStream (fft s) in
        (suspend TimerStop (with_fft f s), map Stream o)
      else (s, [])
  | _ => (s, [])
  end.

(* @src middleware/web/server.ts:655-660 debouncedFFTStart *)
Definition error_timer (throws : nat -> bool) (s : state) : state * list output :=
  match fft_error s with
  | None | Some ""%string => (s, [])
  | Some e => broadcast_subscribers throws (MError e) s
  end.

(** ** The state manager *)

(* @src middleware/web/server.ts:581-605 state listener *)
Definition on_state_event (throws : nat -> bool) (e : StateEvent) (s : state)
  : state * list output :=
  match e with
  | scanning_frequency f _ =>
      let '(s, o) :=
        match fftSubscribers s with
        | [] => (s, [])
        | _ => if in_use s then (s, []) else debouncedFFTStart f s
        end in
      let '(s, o2) := broadcast_clients throws (MEvent e) s in (s, o ++ o2)
  | pass_start _ =>
      if running s then
        let '(f, o) := FftStream.stopFFTStream (fft s) in
        (suspend (Forward e) (with_fft f s), map Stream o)
      else broadcast_clients throws (MEvent e) s
  | _ => broadcast_clients throws (MEvent e) s
  end.
(** ** HTTP *)

(** The fields of a parsed body that the routes read; [None] is an absent one.  [b_auto] is
    compared with true, so that any other value is as good as none; [b_other] tells that the
    frequency, the bandwidth, the size, the rate or the width has another type, which is
    outside the model. *)
Record Body := mkBody {
  b_frequency : option Z;
  b_bandwidth : option Z;
  b_gain : option js_value;
  b_fftSize : option nat;
  b_updateRate : option Z;
  b_width : option Q;
  b_auto : option bool;
  b_enabled : option js_value;
  b_other : bool
}.

(** [enabled ?? d]: null is as good as absent. *)
Definition or_flag (v : option js_value) (d : bool) : option bool :=
  match v with
  | None | Some JsNull => Some d
  | Some (JsBool b) => Some b
  | Some _ => None
  end.

Definition bad_request : reply := RText 400 "Bad Request".

(** What the read-only routes look at: the database, [None] when it throws, the
    globe service, the text of version.json, and the environment, whose variables
    are read as numbers, [None] for NaN, or as text. *)
Record Sources := mkSources {
  src_captures : Z -> Z -> option (list CaptureHistoryEntry);
  src_summary : option (Z * Z * Z);
  src_globe : option GlobeState;
  src_version : option string;
  src_number : string -> option Q;
  src_env : string -> option string
}.

(** [n || d] on floats. *)
Definition or_q (n : option Q) (d : Q) : Q :=
  match n with Some q => if q ==?q 0 then d else q | None => d end.

(** [Number(process.env.name) || d]. *)
Definition env_or (src : Sources) (name : string) (d : Q) : Q := or_q (src_number src name) d.

(** The position of the globe service, or the configured one. *)
(* @src middleware/web/server.ts:256-278 startWebServer *)
Definition config_reply (src : Sources) (s : state) : reply :=
  let env := env_or src in
  let at_station f name := default (env name 0%Q) (f <$> src_globe src) in
  RConfig
    (at_station gs_station_latitude "STATION_LATITUDE"%string)
    (at_station gs_station_longitude "STATION_LONGITUDE"%string)
    (env "STATION_ALTITUDE"%string 0%Q)
    (currentGain s) (currentBand s) (AutoGain.store_getAll (bandGainStore s))
    (env "SDR_PPM_CORRECTION"%string 0%Q) (env "SDR_SAMPLE_RATE"%string 48000%Q)
    (env "MIN_ELEVATION"%string 20%Q) (env "MIN_SIGNAL_STRENGTH"%string (-30)%Q)
    (match src_env src "SKIP_SIGNAL_CHECK"%string with
     | Some v => String.eqb v "true"
     | None => false
     end).

(** A body that does not parse, or is null, is answered 400. *)
Definition with_body (rid : nat) (body : option Body) (f : Body -> state * list output) (s : state)
  : state * list output :=
  match body with Some b => f b | None => (s, [Respond rid bad_request]) end.

Definition or_nat (n : option nat) (d : nat) : nat :=
  match n with Some 0%nat | None => d | Some n => n end.

(* @src middleware/web/server.ts:193-204 startWebServer *)
Definition sstv_status_reply (now : Z) (s : state) : reply :=
  let st := Events.getSstvStatus now (sstv s) in
  let over x := mkSstvStatus (ss_enabled st) (ss_manualEnabled st) (ss_groundScanEnabled st) x
                  (ss_activeEvent st) (ss_upcomingEvents st) in
  RSstv (match st_status (system s) with
         | scanning => over scanning
         | capturing => over capturing
         | _ => st
         end).

(* @src middleware/web/server.ts:206-218 startWebServer *)
Definition sstv_toggle (throws : nat -> bool) (rid : nat) (now : Z) (b : Body) (s : state)
  : state * list output :=
  match or_flag (b_enabled b) (negb (ss_manualEnabled (Events.getSstvStatus now (sstv s)))) with
  | None => (s, [Untyped])
  | Some enabled =>
      let s := with_sstv (Events.setManualSstvEnabled enabled (sstv s)) s in
      let '(s, o) := broadcastSstvStatus throws now s in
      (s, o ++ [Respond rid (RSstv (Events.getSstvStatus now (sstv s)))])
  end.

(* @src middleware/web/server.ts:220-232 startWebServer *)
Definition ground_scan_toggle (throws : nat -> bool) (rid : nat) (now : Z) (b : Body) (s : state)
  : state * list output :=
  match or_flag (b_enabled b) (negb (ss_groundScanEnabled (Events.getSstvStatus now (sstv s)))) with
  | None => (s, [Untyped])
  | Some enabled =>
      let '(e, stop) := Events.setGroundSstvScanEnabled enabled (sstv s) in
      let s := with_sstv e s in
      let '(s, o) := broadcastSstvStatus throws now s in
      (s, (if stop then [StopScanner] else []) ++ o ++
          [Respond rid (RSstv (Events.getSstvStatus now (sstv s)))])
  end.

(** [gain || currentGain]. *)
(* @src middleware/web/server.ts:297-297 startWebServer *)
Definition start_gain (v : option js_value) (s : state) : option Q :=
  match v with
  | None => Some (currentGain s)
  | Some v => if js_truthy v then match v with JsNumber q => Some q | _ => None end
              else Some (currentGain s)
  end.

(* @src middleware/web/server.ts:291-304 startWebServer *)
Definition http_fft_start (rid : nat) (now : Z) (b : Body) (s : state) : state * list output :=
  match start_gain (b_gain b) s, b_other b with
  | Some gain, false =>
      let cfg := FftStream.mkFFTConfig (or_num (b_frequency b) default_frequency)
                   (or_num (b_bandwidth b) 200000) (or_nat (b_fftSize b) 1024)
                   gain (or_num (b_updateRate b) 10) in
      let '(f, o) := FftStream.startFFTStream now cfg broadcast (fft s) in
      (suspend (HttpStart rid) (with_fft f s), map Stream o)
  | _, _ => (s, [Untyped])
  end.

(** [gain === undefined || gain < 0 || gain > 49], of a value of any type: what is not a
    number at all is neither below 0 nor above 49. *)
(* @src middleware/web/server.ts:330-331 startWebServer *)
Definition http_gain_bad (v : option js_value) : bool :=
  match v with
  | None => true
  | Some v => num_ltb (js_ToNumber v) (NFin 0) || num_ltb (NFin 49) (js_ToNumber v)
  end.

(* @src middleware/web/server.ts:315-350 startWebServer *)
Definition http_gain (rid : nat) (b : Body) (s : state) : state * list output :=
  match b_auto b with
  | Some true =>
      let s := with_gain (currentGain s) (currentBand s)
                 (AutoGain.store_clear (currentBand s) (bandGainStore s))
                 (AutoGain.enable (autoGain s)) (autoGainConfig s) s in
      (s, [Respond rid (RGain (currentGain s) true)])
  | _ =>
      if http_gain_bad (b_gain b) then (s, [Respond rid (RText 400 "Gain must be between 0 and 49")])
      else accept_gain (default JsNull (b_gain b)) (fun s => Respond rid (RGain (currentGain s) false)) s
  end.

(** An operation on the notch filters of the FFT module. *)
Definition notch (o : FftDsp.notch_op) (s : state) : state :=
  with_fft (FftStream.step (fun _ _ => 0%Q) id (fun _ l => l) 0 (FftStream.ENotch o) (fft s)).1 s.

(* @src middleware/web/server.ts:366-385 startWebServer *)
Definition http_notch_add (rid : nat) (b : Body) (s : state) : state * list output :=
  if b_other b then (s, [Untyped])
  else match b_frequency b with
  | None | Some 0 => (s, [Respond rid (RText 400 "frequency required")])
  | Some f =>
      let s := notch (FftDsp.AddNotch (inject_Z f) (or_q (b_width b) 5000)) s in
      (s, [Respond rid (RFilters true (filters s))])
  end.

(* @src middleware/web/server.ts:388-406 startWebServer *)
Definition http_notch_remove (rid : nat) (b : Body) (s : state) : state * list output :=
  if b_other b then (s, [Untyped])
  else match b_frequency b with
  | None | Some 0 => (s, [Respond rid (RText 400 "frequency required")])
  | Some f =>
      let removed := (FftDsp.removeNotchFilter (inject_Z f) (filters s)).2 in
      let s := notch (FftDsp.RemoveNotch (inject_Z f)) s in
      (s, [Respond rid (RFilters removed (filters s))])
  end.

(* @src middleware/web/server.ts:409-428 startWebServer *)
Definition http_notch_toggle (rid : nat) (b : Body) (s : state) : state * list output :=
  if b_other b then (s, [Untyped])
  else match b_frequency b, b_enabled b with
  | Some f, Some (JsBool enabled) =>
      if Z.eqb f 0 then (s, [Respond rid (RText 400 "frequency and enabled required")])
      else
        let updated := (FftDsp.setNotchFilterEnabled (inject_Z f) enabled (filters s)).2 in
        let s := notch (FftDsp.EnableNotch (inject_Z f) enabled) s in
        (s, [Respond rid (RFilters updated (filters s))])
  | _, _ => (s, [Respond rid (RText 400 "frequency and enabled required")])
  end.

(* @src middleware/web/server.ts:353-357 startWebServer *)
Definition http_fft_stop (rid : nat) (s : state) : state * list output :=
  let '(f, o) := FftStream.stopFFTStream (fft s) in
  (suspend (HttpStop rid) (with_fft f s), map Stream o).

(** The API routes, in the server's order; [limit] and [offset] are the numbers of
    the query. *)
(* @src middleware/web/server.ts:154-439 startWebServer *)
Definition on_request (src : Sources) (throws : nat -> bool) (rid : nat) (now : Z)
  (method path : string) (limit offset : option Z) (body : option Body) (s : state) : state * list output :=
  let is_post := String.eqb method "POST" in
  if String.eqb path "/api/status" then (s, [Respond rid (RSystem (system s))])
  else if String.eqb path "/api/passes" then
    (s, [Respond rid (RPasses (st_upcomingPasses (system s)))])
  else if String.eqb path "/api/captures" then
    (s, [Respond rid (RCaptures (default [] (src_captures src (or_num limit 50) (or_num offset 0))))])
  else if String.eqb path "/api/summary" then
    (s, [Respond rid (match src_summary src with
                      | Some (t, ok, ko) => RSummary t ok ko
                      | None => RSummary 0 0 0
                      end)])
  else if String.eqb path "/api/sstv/status" then (s, [Respond rid (sstv_status_reply now s)])
  else if String.eqb path "/api/sstv/toggle" && is_post then
    with_body rid body (fun b => sstv_toggle throws rid now b s) s
  else if String.eqb path "/api/sstv/ground-scan/toggle" && is_post then
    with_body rid body (fun b => ground_scan_toggle throws rid now b s) s
  else if String.eqb path "/api/globe" then (s, [Respond rid (RGlobe (src_globe src))])
  else if String.eqb path "/api/version" then (s, [Respond rid (RVersion (src_version src))])
  else if String.eqb path "/api/config" then (s, [Respond rid (config_reply src s)])
  else if String.eqb path "/api/fft/status" then
    (s, [Respond rid (RFftStatus (running s) (config s) (length (fftSubscribers s)))])
  else if String.eqb path "/api/fft/start" && is_post then
    with_body rid body (fun b => http_fft_start rid now b s) s
  else if String.eqb path "/api/config/gain" && is_post then
    with_body rid body (fun b => http_gain rid b s) s
  else if String.eqb path "/api/fft/stop" && is_post then http_fft_stop rid s
  else if String.eqb path "/api/fft/notch" && String.eqb method "GET" then
    (s, [Respond rid (RFilters true (filters s))])
  else if String.eqb path "/api/fft/notch" && is_post then
    with_body rid body (fun b => http_notch_add rid b s) s
  else if String.eqb path "/api/fft/notch" && String.eqb method "DELETE" then
    with_body rid body (fun b => http_notch_remove rid b s) s
  else if String.eqb path "/api/fft/notch/toggle" && is_post then
    with_body rid body (fun b => http_notch_toggle rid b s) s
  else if String.eqb path "/api/fft/notch/clear" && is_post then
    (notch FftDsp.ClearNotch s, [Respond rid (RFilters true [])])
  else (s, [Respond rid (RText 404 "Not Found")]).

(** ** The transition system *)

Context (cos : nat -> nat -> Q) (log10 : Q -> Q) (transform : nat -> list Q -> list Q).

Inductive event :=
| EConnect (ws : nat) (globe : option GlobeState)
| EClose (ws : nat)
| EMessage (ws : nat) (m : ws_message)
| ETimer (t : nat)
| EResume (k : nat) (success : option bool)
| ESystem (o : StateManager.op)
| ERequest (src : Sources) (rid : nat) (method path : string) (limit offset : option Z)
    (body : option Body)
| EStream (e : FftStream.event).

Definition fire (throws : nat -> bool) (now : Z) (t : timer) (s : state) : state * list output :=
  match t with
  | TStart f => start_timer now f s
  | TStop => stop_timer s
  | TErrorCheck => error_timer throws s
  end.

(** [success] is what [startFFTStream] resolves to, [None] when its promise is rejected: the
    route catches that, the timer does not. *)
Definition resume (throws : nat -> bool) (t : task) (success : option bool) (s : state)
  : state * list output :=
  match t, success with
  | AfterStart thisTimeout, Some _ => after_start thisTimeout s
  | AfterStart _, None => (s, [Uncaught])
  | HttpStart rid, Some success => (s, [Respond rid (RFft success (running s))])
  | HttpStart rid, None => (s, [Respond rid bad_request])
  | HttpStop rid, _ => (s, [Respond rid (RFft true false)])
  | TimerStop, _ => (s, [])
  | Forward e, _ => broadcast_clients throws (MEvent e) s
  end.

(** The outputs of the FFT module: a spectrum goes to [broadcastFFTData]. *)
Fixpoint emit (throws : nat -> bool) (os : list FftStream.output) (s : state)
  : state * list output :=
  match os with
  | [] => (s, [])
  | FftStream.Emit _ data :: r =>
      let '(s, o1) := broadcastFFTData throws data s in
      let '(s, o2) := emit throws r s in (s, o1 ++ o2)
  | o :: r => let '(s, o2) := emit throws r s in (s, Stream o :: o2)
  end.

Definition step (throws : nat -> bool) (now : Z) (e : event) (s : state) : state * list output :=
  match e with
  | EConnect ws globe => on_connect ws globe s
  | EClose ws => (on_ws_close ws s, [])
  | EMessage ws m => on_ws_message ws m s
  | ETimer t =>
      match timers s !! t with
      | Some (Some x) =>
          fire throws now x
            (with_timers (pendingFFTStart s) (pendingFFTStop s) (<[t := None]> (timers s)) s)
      | _ => (s, [])
      end
  | EResume k success =>
      match tasks s !! k with
      | Some t => resume throws t success (with_tasks (delete k (tasks s)) s)
      | None => (s, [])
      end
  | ESystem o =>
      let '(sys, e) := StateManager.apply now o (system s) in
      on_state_event throws e (with_system sys s)
  | ERequest src rid method path limit offset body =>
      on_request src throws rid now method path limit offset body s
  | EStream e =>
      let '(f, os) := FftStream.step cos log10 transform now e (fft s) in
      emit throws os (with_fft f s)
  end.

Fixpoint run (throws : nat -> bool) (evs : list (Z * event)) (s : state) : state * list output :=
  match evs with
  | [] => (s, [])
  | (now, e) :: r =>
      let '(s1, o1) := step throws now e s in
      let '(s2, o2) := run throws r s1 in (s2, o1 ++ o2)
  end.

(** The automatic gain of the server, off when the environment sets the gain, and
    the default notch filter. *)
(* @src middleware/web/server.ts:53-64 autoGain *)
Definition initial (sys : SystemState) (ground : option string) : state :=
  let a := AutoGain.createAutoGain defaultGain in
  notch (FftDsp.AddNotch 144420000 10000)
    (mkWeb [] [] defaultGain AutoGain.noaa AutoGain.createBandGainStore
       (if env_gain then AutoGain.disable a else a)
       (AutoGain.mkAutoGainConfig (-80) (-55) 10 5 0 49) None None [] FftStream.initial sys
       (Events.initial ground) [] []).
End Server.

(** ** The history *)

Lemma push_history_lastn d l :
  push_history d (lastn FFT_HISTORY_MAX l) = lastn FFT_HISTORY_MAX (l ++ [d]).
Proof.
  unfold push_history. assert (Hn : (1 <= FFT_HISTORY_MAX)%nat) by (unfold FFT_HISTORY_MAX; lia).
  generalize dependent FFT_HISTORY_MAX. intros n Hn. rewrite length_app, length_lastn. cbn [length].
  destruct (Nat.ltb_spec n (Nat.min n (length l) + 1)) as [H|H].
  - unfold lastn. rewrite length_app. cbn [length].
    rewrite (drop_app_le (drop (length l - n) l)) by (rewrite length_drop; lia).
    rewrite drop_drop, drop_app_le by lia. do 2 f_equal. lia.
  - rewrite !lastn_all; [done|rewrite length_app; simpl; lia|lia].
Qed.

Lemma push_all_lastn frames : forall l,
  foldl (fun h d => push_history d h) (lastn FFT_HISTORY_MAX l) frames =
  lastn FFT_HISTORY_MAX (l ++ frames).
Proof.
  induction frames as [|d frames IH]; intros l; simpl; [by rewrite app_nil_r|].
  rewrite push_history_lastn, IH. by rewrite <- app_assoc.
Qed.

Lemma push_history_length d h : (length h <= FFT_HISTORY_MAX)%nat ->
  (length (push_history d h) <= FFT_HISTORY_MAX)%nat.
Proof.
  unfold push_history. generalize FFT_HISTORY_MAX. intros n Hh. rewrite length_app. cbn [length].
  destruct (Nat.ltb_spec n (length h + 1)); [rewrite length_drop, length_app; cbn [length]; lia|].
  rewrite length_app. cbn [length]. lia.
Qed.

(** ** The gains *)

Definition in_range (limit g : Q) : Prop := (0 <= g /\ g <= limit)%Q.

(** What the bound of the gains assumes of an event: a gain that is sent is a number. *)
Definition gain_typed (e : event) : bool :=
  match e with
  | EMessage _ (FftSetGain (Some v)) => match v with JsNumber _ => true | _ => false end
  | ERequest _ _ _ _ _ _ (Some b) =>
      match b_gain b with None | Some (JsNumber _) => true | _ => false end
  | _ => true
  end.

Section Gains.
Context (top : Q) (Htop : (49 <= top)%Q).

Local Notation in_range := (in_range top).

(** What the gain of the radio depends on. *)
Definition gains (s : state) := (currentGain s, bandGainStore s, autoGain s, autoGainConfig s).

(** Every gain the server may use is in the range of the radio, and the buffer of
    spectra within its bound. *)
Record in_limits (s : state) : Prop := mkLimits {
  lim_gain : in_range (currentGain s);
  lim_auto : in_range (AutoGain.currentGain (autoGain s));
  lim_store : forall b x, map_get b (bandGainStore s) = Some x -> in_range (AutoGain.bg_gain x);
  lim_min : AutoGain.minGain (autoGainConfig s) = 0%Q;
  lim_max : AutoGain.maxGain (autoGainConfig s) = 49%Q;
  lim_step : (0 <= AutoGain.step (autoGainConfig s))%Q;
  lim_history : (length (fftHistoryBuffer s) <= FFT_HISTORY_MAX)%nat
}.

Lemma limits_same s s' : gains s' = gains s -> fftHistoryBuffer s' = fftHistoryBuffer s ->
  in_limits s -> in_limits s'.
Proof.
  unfold gains. intros [= E1 E2 E3 E4] Eh [H1 H2 H3 H4 H5 H6 H7].
  split; rewrite ?E1, ?E2, ?E3, ?E4, ?Eh; done.
Qed.

Lemma feed_result c a bins a' r : AutoGain.feed c a bins = (a', r) ->
  match r with
  | AutoGain.adjusted _ g | AutoGain.in_range g | AutoGain.limit_reached g =>
      g = AutoGain.currentGain a'
  | AutoGain.waiting_samples => True
  end.
Proof. unfold AutoGain.feed. repeat case_match; intros; simplify_eq/=; done. Qed.

Lemma store_set_limits b g c st : in_range g ->
  (forall b x, map_get b st = Some x -> in_range (AutoGain.bg_gain x)) ->
  forall b' x, map_get b' (AutoGain.store_set b g c st) = Some x -> in_range (AutoGain.bg_gain x).
Proof.
  intros Hg Hst b' x. unfold AutoGain.store_set. destruct (decide (b' = b)) as [->|Hne].
  - rewrite map_get_set. by intros [= <-].
  - rewrite map_get_set_ne by done. apply Hst.
Qed.

(** A state with other gains, all of them in range. *)
Lemma with_gain_limits g b st a c s : in_limits s -> in_range g ->
  in_range (AutoGain.currentGain a) ->
  (forall b x, map_get b st = Some x -> in_range (AutoGain.bg_gain x)) ->
  AutoGain.minGain c = 0%Q -> AutoGain.maxGain c = 49%Q -> (0 <= AutoGain.step c)%Q ->
  in_limits (with_gain g b st a c s).
Proof. intros [] ?????. by split. Qed.

Lemma debounced_limits f s : in_limits s -> in_limits (debouncedFFTStart f s).1.
Proof. by apply limits_same. Qed.

Lemma set_user_gain_limits g s : in_range g -> in_limits s -> in_limits (set_user_gain g s).1.
Proof.
  intros Hg Hs. unfold set_user_gain. set (s1 := with_gain _ _ _ _ _ _).
  assert (H1 : in_limits s1).
  { destruct Hs as [H1 H2 H3 H4 H5 H6 H7] eqn:E.
    apply with_gain_limits; try done. by apply store_set_limits. }
  destruct (running s1); [by apply debounced_limits|done].
Qed.

Lemma feed_gain_limits data s : in_limits s -> in_limits (feed_gain data s).1.
Proof.
  intros Hs. pose proof Hs as [H1 H2 H3 H4 H5 H6 H7]. unfold feed_gain.
  destruct (AutoGain.enabled (autoGain s)); [|done].
  pose proof (AutoGain.feed_gain_within 0 top (autoGainConfig s) (autoGain s) (fft_bins data) H6) as Hok.
  destruct (AutoGain.feed _ _ _) as [a r] eqn:E. apply feed_result in E.
  rewrite H4, H5 in Hok. specialize (Hok ltac:(lra) ltac:(lra) H2). simpl in Hok.
  assert (Hset : forall c, in_limits (with_gain (AutoGain.currentGain a) (currentBand s)
    (AutoGain.store_set (currentBand s) (AutoGain.currentGain a) c (bandGainStore s)) a (autoGainConfig s) s)).
  { intros c. apply with_gain_limits; try done. by apply store_set_limits. }
  destruct r; simplify_eq.
  - by apply with_gain_limits.
  - apply Hset.
  - apply debounced_limits, Hset.
  - apply Hset.
Qed.

Lemma broadcast_data_limits throws d s : in_limits s -> in_limits (broadcastFFTData throws d s).1.
Proof.
  intros Hs. unfold broadcastFFTData. set (s1 := with_history _ s).
  assert (H1 : in_limits s1).
  { destruct Hs. split; simpl; try done. by apply push_history_length. }
  destruct (fftSubscribers s1); [done|]. pose proof (feed_gain_limits d s1 H1) as H2.
  destruct (feed_gain d s1) as [s2 o]. by apply (limits_same s2).
Qed.

Lemma emit_limits throws os : forall s, in_limits s -> in_limits (emit throws os s).1.
Proof.
  induction os as [|o os IH]; intros s Hs; [done|]. simpl.
  destruct o; try (specialize (IH s Hs); by destruct (emit throws os s)).
  pose proof (broadcast_data_limits throws data s Hs) as H1.
  destruct (broadcastFFTData throws data s) as [s1 o1]. specialize (IH s1 H1).
  by destruct (emit throws os s1).
Qed.

(** A step that touches neither the gains nor the history. *)
Ltac limits_cases :=
  repeat (first [ assumption
                | by apply (limits_same _ _ eq_refl eq_refl)
                | progress cbn [fst snd]
                | match goal with
                  | |- context [match ?x with _ => _ end] => destruct x eqn:?
                  | H : (_, _) = (_, _) |- _ => injection H as <- <-
                  end ]).

Lemma accept_gain_limits v answer s : (forall g, v = JsNumber g -> in_range g) -> in_limits s ->
  in_limits (accept_gain v answer s).1.
Proof.
  intros Hv Hs. unfold accept_gain. destruct v as [| |g| | |]; try done.
  pose proof (set_user_gain_limits g s (Hv g eq_refl) Hs). by destruct (set_user_gain g s).
Qed.

Lemma ws_gain_range g : ws_gain_ok (JsNumber g) = true -> in_range g.
Proof. unfold ws_gain_ok, WebServer.in_range. cbn. props. intros [H1 H2]. split; [exact H1|lra]. Qed.

Lemma http_gain_range g : http_gain_bad (Some (JsNumber g)) = false -> in_range g.
Proof. unfold http_gain_bad, WebServer.in_range. cbn. props. intros [H1 H2]. split; lra. Qed.

Lemma on_ws_message_limits ws m s : in_limits s -> in_limits (on_ws_message ws m s).1.
Proof.
  intros Hs. destruct m as [f| |f|[g|]| |].
  - simpl. unfold on_subscribe. set (s1 := with_timers _ _ _ _).
    assert (H1 : in_limits s1) by (by apply (limits_same s)).
    destruct (running s1); [done|]. destruct (in_use s1); [done|].
    pose proof (debounced_limits (subscribe_frequency f s1) s1 H1). by destruct (debouncedFFTStart _ s1).
  - by apply (limits_same s).
  - simpl. destruct f as [[| |]|]; done || by apply debounced_limits.
  - cbn [on_ws_message]. destruct (ws_gain_ok g) eqn:E; [|done].
    apply accept_gain_limits; [|done]. intros x ->. by apply ws_gain_range.
  - done.
  - done.
  - done.
Qed.

Lemma stop_timer_limits s : in_limits s -> in_limits (stop_timer s).1.
Proof.
  intros Hs. unfold stop_timer. set (s1 := with_timers _ _ _ s).
  assert (H1 : in_limits s1) by (by apply (limits_same s)).
  destruct (fftSubscribers s1); [|done]. destruct (running s1); [|done].
  destruct (FftStream.stopFFTStream (fft s1)). by apply (limits_same s1).
Qed.

Lemma on_state_event_limits throws e s : in_limits s -> in_limits (on_state_event throws e s).1.
Proof.
  intros Hs. assert (Hb : forall s1, in_limits s1 -> in_limits (broadcast_clients throws (MEvent e) s1).1).
  { intros s1 H1. by apply (limits_same s1). }
  destruct e; simpl; try (by apply Hb).
  - destruct (running s); [|by apply Hb]. destruct (FftStream.stopFFTStream (fft s)).
    by apply (limits_same s).
  - set (r := match fftSubscribers s with [] => _ | _ => _ end).
    assert (Hr : in_limits r.1).
    { subst r. destruct (fftSubscribers s); [done|]. destruct (in_use s); [done|by apply debounced_limits]. }
    destruct r as [s1 o1]. specialize (Hb s1 Hr). by apply (limits_same s1).
Qed.

Section Limits.
Context (env_gain : bool) (defaultGain : Q) (Hdefault : in_range defaultGain).

Lemma select_gain_limits f s : in_limits s -> in_limits (select_gain env_gain defaultGain f s).
Proof.
  intros Hs. pose proof Hs as [H1 H2 H3 H4 H5 H6 H7]. unfold select_gain, AutoGain.getForFrequency.
  set (b := AutoGain.classifyBand _).
  destruct (map_get b (bandGainStore s)) as [x|] eqn:E.
  - apply with_gain_limits; try done. by apply (H3 b).
  - destruct (true && negb env_gain); [|by apply with_gain_limits].
    destruct (BAND_GAIN_TARGETS b). by apply with_gain_limits.
Qed.

Lemma start_timer_limits now f s : in_limits s ->
  in_limits (start_timer env_gain defaultGain now f s).1.
Proof.
  intros Hs. unfold start_timer. set (s1 := select_gain _ _ f _).
  assert (H1 : in_limits s1).
  { apply select_gain_limits. destruct Hs. split; simpl; try done. lia. }
  destruct (FftStream.startFFTStream _ _ _ _). by apply (limits_same s1).
Qed.

Lemma http_gain_limits rid b s : in_limits s -> in_limits (http_gain rid b s).1.
Proof.
  intros Hs. unfold http_gain.
  assert (Hauto : in_limits (with_gain (currentGain s) (currentBand s)
    (AutoGain.store_clear (currentBand s) (bandGainStore s)) (AutoGain.enable (autoGain s))
    (autoGainConfig s) s)).
  { destruct Hs as [H1 H2 H3 H4 H5 H6 H7]. apply with_gain_limits; try done. intros b' x.
    unfold AutoGain.store_clear. destruct (decide (b' = currentBand s)) as [->|Hne].
    - by rewrite map_get_delete.
    - rewrite map_get_delete_ne by done. apply H3. }
  assert (Hgain : in_limits
    (if http_gain_bad (b_gain b) then (s, [Respond rid (RText 400 "Gain must be between 0 and 49")])
     else accept_gain (default JsNull (b_gain b)) (fun s => Respond rid (RGain (currentGain s) false)) s).1).
  { destruct (http_gain_bad _) eqn:E; [done|]. apply accept_gain_limits; [|done].
    intros g Hg. destruct (b_gain b) as [v|]; [|done]. cbn in Hg. subst v. by apply http_gain_range. }
  by destruct (b_auto b) as [[]|].
Qed.

Lemma on_request_limits src throws rid now method path limit offset body s : in_limits s ->
  in_limits (on_request src throws rid now method path limit offset body s).1.
Proof.
  intros Hs. unfold on_request, with_body.
  repeat match goal with
  | |- in_limits (if ?c then _ else _).1 => destruct c
  | |- in_limits (match body with _ => _ end).1 => destruct body as [b|]; [|exact Hs]
  | |- in_limits (s, _).1 => exact Hs
  end; try (by apply (limits_same s)).
  - unfold sstv_toggle. destruct (or_flag _ _); [by apply (limits_same s)|done].
  - unfold ground_scan_toggle. destruct (or_flag _ _) as [f|]; [|done].
    destruct (Events.setGroundSstvScanEnabled f (sstv s)). by apply (limits_same s).
  - unfold http_fft_start. destruct (start_gain _ _), (b_other b); try done.
    destruct (FftStream.startFFTStream _ _ _ _). by apply (limits_same s).
  - by apply http_gain_limits.
  - unfold http_fft_stop. destruct (FftStream.stopFFTStream _). by apply (limits_same s).
  - unfold http_notch_add. destruct (b_other b); [done|]. destruct (b_frequency b) as [[]|]; try done; by apply (limits_same s).
  - unfold http_notch_remove. destruct (b_other b); [done|]. destruct (b_frequency b) as [[]|]; try done; by apply (limits_same s).
  - unfold http_notch_toggle. destruct (b_other b); [done|]. destruct (b_frequency b) as [f|]; [|done].
    destruct (b_enabled b) as [[]|]; try done.
    destruct (Z.eqb f 0); [done|]. by apply (limits_same s).
Qed.

Context (cos : nat -> nat -> Q) (log10 : Q -> Q) (transform : nat -> list Q -> list Q).
Local Notation step := (step env_gain defaultGain cos log10 transform).
Local Notation run := (run env_gain defaultGain cos log10 transform).

Lemma step_limits throws now e s : in_limits s -> in_limits (step throws now e s).1.
Proof.
  intros Hs. destruct e as [ws g|ws|ws m|t|k b|o|src rid method path limit offset body|e]; cbn [WebServer.step].
  - by apply (limits_same s).
  - by apply (limits_same s).
  - by apply on_ws_message_limits.
  - destruct (timers s !! t) as [[x|]|]; [|done..]. set (s1 := with_timers _ _ _ s).
    assert (H1 : in_limits s1) by (by apply (limits_same s)). destruct x; simpl.
    + by apply start_timer_limits.
    + by apply stop_timer_limits.
    + unfold error_timer. destruct (fft_error s1) as [[|]|]; try done. by apply (limits_same s1).
  - destruct (tasks s !! k) as [t|]; [|done]. set (s1 := with_tasks _ s).
    assert (H1 : in_limits s1) by (by apply (limits_same s)).
    destruct t, b; simpl; try done; by apply (limits_same s1).
  - destruct (StateManager.apply now o (system s)) as [sys e]. by apply on_state_event_limits, (limits_same s).
  - by apply on_request_limits.
  - destruct (FftStream.step _ _ _ _ _ _) as [f os]. by apply emit_limits, (limits_same s).
Qed.

Lemma run_limits throws evs : forall s, in_limits s -> in_limits (run throws evs s).1.
Proof.
  induction evs as [|[now e] evs IH]; intros s Hs; simpl; [done|].
  pose proof (step_limits throws now e s Hs) as H. destruct (step throws now e s) as [s1 o1].
  specialize (IH s1 H). by destruct (run throws evs s1).
Qed.

Lemma initial_limits sys ground : in_limits (initial env_gain defaultGain sys ground).
Proof.
  unfold initial. eapply limits_same; [reflexivity|reflexivity|]. split; simpl; try done.
  - by destruct env_gain.
  - lia.
Qed.
End Limits.

End Gains.

(** ** The timers *)

(** At most one start is pending and at most one deferred stop, each the latest;
    a start that waits for the stream has used up its timer. *)
Record timers_ok (s : state) : Prop := mkTimersOk {
  start_live : forall t f, timers s !! t = Some (Some (TStart f)) -> pendingFFTStart s = Some t;
  stop_live : forall t, timers s !! t = Some (Some TStop) -> pendingFFTStop s = Some t;
  start_made : forall t, pendingFFTStart s = Some t -> (t < length (timers s))%nat;
  after_fired : forall th, AfterStart th ∈ tasks s -> exists t, th = Some t /\ timers s !! t = Some None
}.

Lemma timers_same s s' : pendingFFTStart s' = pendingFFTStart s ->
  pendingFFTStop s' = pendingFFTStop s -> timers s' = timers s ->
  (forall th, AfterStart th ∈ tasks s' -> AfterStart th ∈ tasks s) -> timers_ok s -> timers_ok s'.
Proof. intros E1 E2 E3 Ht [H1 H2 H3 H4]. split; rewrite ?E1, ?E2, ?E3; auto. Qed.

Lemma clear_timer_length p l : length (clear_timer p l) = length l.
Proof. destruct p; [apply length_insert|done]. Qed.

(** A timer is used up or cleared by writing [None] over it. *)
Lemma insert_none_live i (l : list (option timer)) t x : <[i := None]> l !! t = Some (Some x) ->
  l !! t = Some (Some x) /\ i <> t.
Proof. by intros [(_ & ? & _)|[? ?]]%list_lookup_insert_Some. Qed.

Lemma insert_none_kept i (l : list (option timer)) t : l !! t = Some None ->
  <[i := None]> l !! t = Some None.
Proof.
  intros Ht. destruct (decide (i = t)) as [->|Hne].
  - apply list_lookup_insert_eq. by eapply lookup_lt_Some.
  - by rewrite list_lookup_insert_ne.
Qed.

Lemma clear_timer_live p l t x : clear_timer p l !! t = Some (Some x) ->
  l !! t = Some (Some x) /\ p <> Some t.
Proof.
  destruct p as [i|]; simpl; [|done]. intros [? ?]%insert_none_live. split; [done|congruence].
Qed.

Lemma clear_timer_kept p l t : l !! t = Some None -> clear_timer p l !! t = Some None.
Proof. destruct p; [apply insert_none_kept|done]. Qed.

Lemma lookup_snoc_inv {A} (l : list A) x t y : (l ++ [x]) !! t = Some y ->
  l !! t = Some y \/ (t = length l /\ x = y).
Proof.
  rewrite lookup_app_Some. intros [H|[Hle H]]; [by left|right].
  apply list_lookup_singleton_Some in H as [H ->]. split; [lia|done].
Qed.

Lemma snoc_none_kept (l : list (option timer)) x t : l !! t = Some None -> (l ++ [x]) !! t = Some None.
Proof. intros H. by apply lookup_app_l_Some. Qed.

#[local] Hint Resolve insert_none_kept clear_timer_kept snoc_none_kept : sat.

Lemma debounced_timers f s : timers_ok s -> timers_ok (debouncedFFTStart f s).1.
Proof.
  intros [H1 H2 H3 H4]. split; simpl.
  - intros t g [Ht|[-> _]]%lookup_snoc_inv; [|done].
    apply clear_timer_live in Ht as [Ht Hn]. by destruct Hn; apply H1 with g.
  - intros t [Ht|[_ [=]]]%lookup_snoc_inv. apply clear_timer_live in Ht as [Ht _]. auto.
  - intros t [= <-]. rewrite length_app. simpl. lia.
  - intros th Hth. destruct (H4 th Hth) as (t & -> & Ht). exists t. split; [done|]. auto with sat.
Qed.

(** The same timers, with another deferred stop cleared. *)
Lemma cleared_stop_timers s : timers_ok s ->
  timers_ok (with_timers (pendingFFTStart s) None (clear_timer (pendingFFTStop s) (timers s)) s).
Proof.
  intros [H1 H2 H3 H4]. split; simpl.
  - intros t g [Ht _]%clear_timer_live. by apply H1 with g.
  - intros t [Ht Hn]%clear_timer_live. by destruct Hn; apply H2.
  - intros t Ht. rewrite clear_timer_length. auto.
  - intros th Hth. destruct (H4 th Hth) as (t & -> & Ht). exists t. split; [done|]. auto with sat.
Qed.

(** A new timer that is no start. *)
Lemma new_stop_timers ws s : timers_ok s -> timers_ok (on_unsubscribe ws s).1.
Proof.
  intros Hs. pose proof (cleared_stop_timers s Hs) as [H1 H2 H3 H4]. simpl in *. split; simpl.
  - intros t g [Ht|[_ [=]]]%lookup_snoc_inv. by apply H1 with g.
  - intros t [Ht|[-> _]]%lookup_snoc_inv; [|done]. by apply H2 in Ht.
  - intros t Ht. rewrite length_app. specialize (H3 t Ht). lia.
  - intros th Hth. destruct (H4 th Hth) as (t & -> & Ht). exists t. split; [done|]. auto with sat.
Qed.

Lemma after_start_timers t s : timers_ok s -> timers s !! t = Some None ->
  timers_ok (after_start (Some t) s).1.
Proof.
  intros [H1 H2 H3 H4] Ht. split; simpl.
  - intros t' g [Hl|[_ [=]]]%lookup_snoc_inv. pose proof (H1 t' g Hl) as Hp.
    rewrite decide_False; [done|]. rewrite Hp. intros [= ->]. congruence.
  - intros t' [Hl|[_ [=]]]%lookup_snoc_inv. auto.
  - intros t' Hp. rewrite length_app. destruct (decide _); [done|]. specialize (H3 t' Hp). lia.
  - intros th Hth. destruct (H4 th Hth) as (t' & -> & Ht'). exists t'. split; [done|]. auto with sat.
Qed.

(** A timer that fires is used up. *)
Lemma used_timers t s : timers_ok s ->
  timers_ok (with_timers (pendingFFTStart s) (pendingFFTStop s) (<[t := None]> (timers s)) s).
Proof.
  intros [H1 H2 H3 H4]. split; simpl.
  - intros t' g [Ht _]%insert_none_live. by apply H1 with g.
  - intros t' [Ht _]%insert_none_live. auto.
  - intros t' Ht. rewrite length_insert. auto.
  - intros th Hth. destruct (H4 th Hth) as (t' & -> & Ht'). exists t'. split; [done|]. auto with sat.
Qed.

Lemma suspend_timers t s : timers_ok s -> (forall th, t <> AfterStart th) -> timers_ok (suspend t s).
Proof.
  intros Hs Ht. apply (timers_same s); [done..| |done]. simpl.
  intros th [H|H]%elem_of_app; [done|]. apply list_elem_of_singleton in H. by destruct (Ht th).
Qed.

Lemma stop_timer_timers s : timers_ok s -> (forall t, timers s !! t <> Some (Some TStop)) ->
  timers_ok (stop_timer s).1.
Proof.
  intros [H1 H2 H3 H4] Hn. unfold stop_timer. set (s1 := with_timers _ _ _ s).
  assert (Hs1 : timers_ok s1) by (split; simpl; [done|by intros t ?%Hn|done|done]).
  destruct (fftSubscribers s1); [|done]. destruct (running s1); [|done].
  destruct (FftStream.stopFFTStream (fft s1)) as [f o]. apply suspend_timers; [|done].
  by apply (timers_same s1).
Qed.

Lemma set_user_gain_timers g s : timers_ok s -> timers_ok (set_user_gain g s).1.
Proof.
  intros Hs. unfold set_user_gain. set (s1 := with_gain _ _ _ _ _ s).
  assert (Hs1 : timers_ok s1) by (by apply (timers_same s)).
  destruct (running s1); [by apply debounced_timers|done].
Qed.

Lemma feed_gain_timers d s : timers_ok s -> timers_ok (feed_gain d s).1.
Proof.
  intros Hs. unfold feed_gain. destruct (AutoGain.enabled _); [|done].
  destruct (AutoGain.feed _ _ _) as [a r]. destruct r; try (by apply (timers_same s)).
  apply debounced_timers. by apply (timers_same s).
Qed.

Lemma emit_timers throws os : forall s, timers_ok s -> timers_ok (emit throws os s).1.
Proof.
  induction os as [|o os IH]; intros s Hs; [done|]. simpl.
  destruct o; try (specialize (IH s Hs); by destruct (emit throws os s)).
  assert (H : timers_ok (broadcastFFTData throws data s).1).
  { unfold broadcastFFTData. set (s1 := with_history _ s).
    assert (H1 : timers_ok s1) by (by apply (timers_same s)).
    destruct (fftSubscribers s1); [done|]. pose proof (feed_gain_timers data s1 H1) as H2.
    destruct (feed_gain data s1) as [s2 o]. by apply (timers_same s2). }
  destruct (broadcastFFTData throws data s) as [s1 o1]. specialize (IH s1 H). by destruct (emit throws os s1).
Qed.

Lemma accept_gain_timers v answer s : timers_ok s -> timers_ok (accept_gain v answer s).1.
Proof.
  intros Hs. unfold accept_gain. destruct v as [| |g| | |]; try done.
  pose proof (set_user_gain_timers g s Hs). by destruct (set_user_gain g s).
Qed.

Lemma on_ws_message_timers ws m s : timers_ok s -> timers_ok (on_ws_message ws m s).1.
Proof.
  intros Hs. destruct m as [f| |f|[g|]| |]; simpl; try done.
  - unfold on_subscribe. set (s0 := with_sockets _ _ s).
    assert (H0 : timers_ok s0) by (by apply (timers_same s)).
    pose proof (cleared_stop_timers s0 H0) as H1. set (s1 := with_timers _ _ _ s0) in *.
    destruct (running s1); [done|]. destruct (in_use s1); [done|].
    pose proof (debounced_timers (subscribe_frequency f s1) s1 H1). by destruct (debouncedFFTStart _ s1).
  - apply (new_stop_timers ws s Hs).
  - destruct f as [[| |]|]; done || by apply debounced_timers.
  - destruct (ws_gain_ok g); [|done]. by apply accept_gain_timers.
Qed.

Lemma on_state_event_timers throws e s : timers_ok s -> timers_ok (on_state_event throws e s).1.
Proof.
  intros Hs. assert (Hb : forall s1, timers_ok s1 -> timers_ok (broadcast_clients throws (MEvent e) s1).1).
  { intros s1 H1. by apply (timers_same s1). }
  destruct e; simpl; try (by apply Hb).
  - destruct (running s); [|by apply Hb]. destruct (FftStream.stopFFTStream (fft s)).
    apply suspend_timers; [by apply (timers_same s)|done].
  - set (r := match fftSubscribers s with [] => _ | _ => _ end).
    assert (Hr : timers_ok r.1).
    { subst r. destruct (fftSubscribers s); [done|]. destruct (in_use s); [done|by apply debounced_timers]. }
    destruct r as [s1 o1]. specialize (Hb s1 Hr). by apply (timers_same s1).
Qed.

Section Timers.
Context (env_gain : bool) (defaultGain : Q).

Lemma select_gain_frame f s : let s' := select_gain env_gain defaultGain f s in
  pendingFFTStart s' = pendingFFTStart s /\ pendingFFTStop s' = pendingFFTStop s /\
  timers s' = timers s /\ tasks s' = tasks s.
Proof.
  unfold select_gain. destruct (AutoGain.getForFrequency _ _ _) as [[b g] c].
  destruct (c && negb env_gain); [|done]. by destruct (BAND_GAIN_TARGETS b).
Qed.

Lemma start_timer_timers now f t s : timers_ok s -> pendingFFTStart s = Some t ->
  timers s !! t = Some None -> timers_ok (start_timer env_gain defaultGain now f s).1.
Proof.
  intros [H1 H2 H3 H4] Hp Ht. unfold start_timer.
  destruct (select_gain_frame f (with_history [] s)) as (E1 & E2 & E3 & E4).
  set (s1 := select_gain _ _ f _) in *. destruct (FftStream.startFFTStream _ _ _ _) as [x o].
  split; simpl; rewrite ?E1, ?E2, ?E3, ?E4; [done..|].
  intros th [Hin|Hin]%elem_of_app; [auto|]. apply list_elem_of_singleton in Hin.
  injection Hin as ->. exists t. done.
Qed.

Lemma on_request_timers src throws rid now method path limit offset body s : timers_ok s ->
  timers_ok (on_request src throws rid now method path limit offset body s).1.
Proof.
  intros Hs. unfold on_request, with_body.
  repeat match goal with
  | |- timers_ok (if ?c then _ else _).1 => destruct c
  | |- timers_ok (match body with _ => _ end).1 => destruct body as [b|]; [|exact Hs]
  | |- timers_ok (s, _).1 => exact Hs
  end; try (by apply (timers_same s)).
  - unfold sstv_toggle. destruct (or_flag _ _); [by apply (timers_same s)|done].
  - unfold ground_scan_toggle. destruct (or_flag _ _) as [f|]; [|done].
    destruct (Events.setGroundSstvScanEnabled f (sstv s)). by apply (timers_same s).
  - unfold http_fft_start. destruct (start_gain _ _), (b_other b); try done.
    destruct (FftStream.startFFTStream _ _ _ _). apply suspend_timers; [by apply (timers_same s)|done].
  - unfold http_gain. destruct (b_auto b) as [[]|]; [by apply (timers_same s)|..].
    all: destruct (http_gain_bad _); [done|by apply accept_gain_timers].
  - unfold http_fft_stop. destruct (FftStream.stopFFTStream _).
    apply suspend_timers; [by apply (timers_same s)|done].
  - unfold http_notch_add. destruct (b_other b); [done|]. destruct (b_frequency b) as [[]|]; try done; by apply (timers_same s).
  - unfold http_notch_remove. destruct (b_other b); [done|]. destruct (b_frequency b) as [[]|]; try done; by apply (timers_same s).
  - unfold http_notch_toggle. destruct (b_other b); [done|]. destruct (b_frequency b) as [f|]; [|done].
    destruct (b_enabled b) as [[]|]; try done.
    destruct (Z.eqb f 0); [done|]. by apply (timers_same s).
Qed.

Context (cos : nat -> nat -> Q) (log10 : Q -> Q) (transform : nat -> list Q -> list Q).
Local Notation step := (step env_gain defaultGain cos log10 transform).
Local Notation run := (run env_gain defaultGain cos log10 transform).

Lemma fire_timers throws now t x s : timers_ok s -> timers s !! t = Some (Some x) ->
  timers_ok (fire env_gain defaultGain throws now x
    (with_timers (pendingFFTStart s) (pendingFFTStop s) (<[t := None]> (timers s)) s)).1.
Proof.
  intros Hs Ht. pose proof (used_timers t s Hs) as H1. set (s1 := with_timers _ _ _ s) in *.
  destruct x as [f| |]; simpl.
  - apply (start_timer_timers now f t); [done|by apply (start_live s Hs t f)|].
    apply list_lookup_insert_eq. by eapply lookup_lt_Some.
  - apply stop_timer_timers; [done|]. intros t' Hl. simpl in Hl.
    apply insert_none_live in Hl as [Hl Hn]. destruct Hs as [_ H2 _ _].
    apply H2 in Hl, Ht. congruence.
  - unfold error_timer. destruct (fft_error s1) as [[|]|]; try done. by apply (timers_same s1).
Qed.

Lemma resume_timers throws k t b s : timers_ok s -> tasks s !! k = Some t ->
  timers_ok (resume throws t b (with_tasks (delete k (tasks s)) s)).1.
Proof.
  intros Hs Ht. set (s1 := with_tasks _ s).
  assert (H1 : timers_ok s1).
  { apply (timers_same s); [done..| |done]. simpl. intros th Hth.
    rewrite delete_take_drop in Hth. apply elem_of_app in Hth as [H|H];
      [by apply elem_of_take_inv in H|by apply elem_of_drop_inv in H]. }
  destruct t as [th|rid|rid| |e], b as [b|]; simpl; try done; try (by apply (timers_same s1)).
  - apply list_elem_of_lookup_2 in Ht. destruct (after_fired s Hs th Ht) as (t & -> & Hn).
    exact (after_start_timers t s1 H1 Hn).
Qed.

Lemma step_timers throws now e s : timers_ok s -> timers_ok (step throws now e s).1.
Proof.
  intros Hs. destruct e as [ws g|ws|ws m|t|k b|o|src rid method path limit offset body|e]; cbn [WebServer.step].
  - by apply (timers_same s).
  - by apply (timers_same s).
  - by apply on_ws_message_timers.
  - destruct (timers s !! t) as [[x|]|] eqn:E; [|done..]. by apply fire_timers.
  - destruct (tasks s !! k) as [t|] eqn:E; [|done]. by apply resume_timers.
  - destruct (StateManager.apply now o (system s)) as [sys e]. by apply on_state_event_timers, (timers_same s).
  - by apply on_request_timers.
  - destruct (FftStream.step _ _ _ _ _ _) as [f os]. by apply emit_timers, (timers_same s).
Qed.

Lemma run_timers throws evs : forall s, timers_ok s -> timers_ok (run throws evs s).1.
Proof.
  induction evs as [|[now e] evs IH]; intros s Hs; simpl; [done|].
  pose proof (step_timers throws now e s Hs) as H. destruct (step throws now e s) as [s1 o1].
  specialize (IH s1 H). by destruct (run throws evs s1).
Qed.

Lemma initial_timers sys ground : timers_ok (initial env_gain defaultGain sys ground).
Proof. split; simpl; [done|done|done|]. by intros th ?%not_elem_of_nil. Qed.
End Timers.

(** ** Properties *)

Section Properties.
Context (env_gain : bool) (defaultGain : Q).
Context (cos : nat -> nat -> Q) (log10 : Q -> Q) (transform : nat -> list Q -> list Q).
Local Notation run := (run env_gain defaultGain cos log10 transform).

(** C17: Whatever clients, timers and spectra do, as long as every gain a client sends is a
    number, the gain of the radio stays between 0 and 49 dB or the configured default,
    whichever is higher: the current one, the one being calibrated and those kept per band;
    and the history never exceeds its bound. *)
Theorem web_gain_in_range throws evs sys ground
  (Hdefault : (0 <= defaultGain)%Q) (Htyped : Forall (fun e : Z * event => gain_typed e.2 = true) evs) :
  let limit := if 49 <=?q defaultGain then defaultGain else 49%Q in
  let s := (run throws evs (initial env_gain defaultGain sys ground)).1 in
  in_range limit (currentGain s) /\ in_range limit (AutoGain.currentGain (autoGain s)) /\
  (forall b x, map_get b (bandGainStore s) = Some x -> in_range limit (AutoGain.bg_gain x)) /\
  (length (fftHistoryBuffer s) <= FFT_HISTORY_MAX)%nat.
Proof.
  cbv zeta. set (limit := if 49 <=?q defaultGain then defaultGain else 49%Q).
  assert (Hl : (49 <= limit)%Q /\ in_range limit defaultGain).
  { subst limit. unfold in_range. destruct (49 <=?q defaultGain) eqn:E; props; split; lra || (split; lra). }
  destruct Hl as [Hl Hd].
  destruct (run_limits limit Hl env_gain defaultGain Hd cos log10 transform throws evs _
    (initial_limits limit env_gain defaultGain Hd sys ground)) as [H1 H2 H3 _ _ _ H7]. done.
Qed.

(** C18: Requests to start the stream are debounced: in every reachable state at most one
    start is pending, the one asked for last, and at most one deferred stop. *)
Theorem debounced_start_unique throws evs sys ground :
  let s := (run throws evs (initial env_gain defaultGain sys ground)).1 in
  (forall t f, timers s !! t = Some (Some (TStart f)) -> pendingFFTStart s = Some t) /\
  (forall t, timers s !! t = Some (Some TStop) -> pendingFFTStop s = Some t) /\
  (forall f, timers (debouncedFFTStart f s).1 !! length (timers s) = Some (Some (TStart f))).
Proof.
  cbv zeta. set (s := (run _ _ _).1).
  destruct (run_timers env_gain defaultGain cos log10 transform throws evs _
    (initial_timers env_gain defaultGain sys ground)) as [H1 H2 _ _].
  split; [exact H1|]. split; [exact H2|]. intros f. simpl.
  rewrite lookup_app_r by (by rewrite clear_timer_length).
  by rewrite clear_timer_length, Nat.sub_diag.
Qed.
End Properties.

(** The history sent to a new subscriber is the last 150 spectra, in order. *)
Theorem fft_history_is_recent frames :
  foldl (fun h d => push_history d h) [] frames = lastn FFT_HISTORY_MAX frames.
Proof. apply (push_all_lastn frames []). Qed.

Definition sample_system : SystemState := StateManager.initial 0.

Definition sample_evs : list (Z * event) :=
  [ (0, EConnect 1 None); (10, EMessage 1 (FftSetGain (Some (JsNumber 45))));
    (20, EMessage 1 (FftSetGain (Some (JsNumber 60)))); (30, EMessage 1 (FftSubscribe (Some 145800000)));
    (40, EMessage 1 (FftSetFrequency (Some 137900000))) ].

Lemma web_gain_in_range_witness :
  let s := (run false 20 (fun _ _ => 0%Q) id (fun _ l => l) (fun _ => false) sample_evs
              (initial false 20 sample_system None)).1 in
  currentGain s = 45%Q /\
  in_range 49 (currentGain s) /\ in_range 49 (AutoGain.currentGain (autoGain s)) /\
  (forall b x, map_get b (bandGainStore s) = Some x -> in_range 49 (AutoGain.bg_gain x)) /\
  (length (fftHistoryBuffer s) <= FFT_HISTORY_MAX)%nat.
Proof.
  split; [vm_compute; reflexivity|].
  apply (web_gain_in_range false 20 (fun _ _ => 0%Q) id (fun _ l => l) (fun _ => false) sample_evs
           sample_system None); [unfold Qle; simpl; lia|by repeat constructor].
Defined.

(** What is not a number passes both guards: over HTTP even a text that is none, over the
    socket null; and the default of the environment, which may be 50, is in use until it is
    changed. *)
Theorem other_gains_accepted :
  http_gain_bad (Some (JsString "abc")) = false /\ http_gain_bad (Some JsNull) = false /\
  ws_gain_ok (JsString "abc") = false /\ ws_gain_ok JsNull = true /\ ws_gain_ok (JsString "12") = true /\
  currentGain (initial true 50 sample_system None) = 50%Q.
Proof. vm_compute. done. Qed.

(** Both guards agree on numbers, and say what they are to say. *)
Theorem gain_guards_on_numbers g :
  ws_gain_ok (JsNumber g) = negb (http_gain_bad (Some (JsNumber g))) /\
  (ws_gain_ok (JsNumber g) = true <-> in_range 49 g).
Proof.
  unfold ws_gain_ok, http_gain_bad, in_range. cbn. split; [|by props].
  destruct (0 <=?q g) eqn:E1, (g <=?q 49) eqn:E2, (g <?q 0) eqn:E3, (49 <?q g) eqn:E4; props; try done; lra.
Qed.

(** ** What the server lets happen *)

Definition spawns (os : list output) : list Z :=
  omap (fun o => match o with Stream (FftStream.Spawned _ f _ _) => Some f | _ => None end) os.

Definition pass_on (t : Z) : StateManager.op :=
  StateManager.StartPass
    (mkPass (mkSatelliteInfo "METEOR-M N2-3" 57166 137900000 lrpt (SIGNAL_CONFIGS lrpt) true None)
       t (t + 600000) 45 (t + 300000) 600).

Section Findings.
Context (cos : nat -> nat -> Q) (log10 : Q -> Q) (transform : nat -> list Q -> list Q).
Local Notation run := (run false 20 cos log10 transform (fun _ => false)).
Local Notation start := (initial false 20 sample_system None).

(** A change of frequency, unlike a subscription, does not look at the capture: it
    starts rtl_sdr while rtl_fm records the pass. *)
Example frequency_change_during_capture :
  let r := run [ (0, EConnect 1 None); (1000, ESystem (pass_on 1000));
                 (2000, EMessage 1 (FftSetFrequency (Some 145800000))); (2500, ETimer 0) ] start in
  st_status (system r.1) = capturing /\ spawns r.2 = [145800000].
Proof. vm_compute. done. Qed.

(** Nor does a pending start know of a capture that begins in the meantime. *)
Example pending_start_during_capture :
  let r := run [ (0, EConnect 1 None); (800, EMessage 1 (FftSubscribe (Some 145800000)));
                 (1000, ESystem (pass_on 1000)); (1300, ETimer 0) ] start in
  st_status (system r.1) = capturing /\ spawns r.2 = [145800000].
Proof. vm_compute. done. Qed.

(** A client that closes its connection without unsubscribing leaves the stream
    running for nobody, with no stop pending. *)
Example closed_client_leaves_stream :
  let s := (run [ (0, EConnect 1 None); (800, EMessage 1 (FftSubscribe (Some 145800000)));
                  (1300, ETimer 0); (1301, EResume 0 (Some true)); (9000, EClose 1) ] start).1 in
  running s = true /\ fftSubscribers s = [] /\ pendingFFTStop s = None.
Proof. vm_compute. done. Qed.
End Findings.

End WebServer.
