(* ===== verification/Controls.v ===== *)
(** * The switches of the dashboard (src/frontend/src/components/SstvToggle.tsx, hooks/useApi.ts)

    The two switches of SstvToggle, which the page no longer mounts (see App for those it
    has), the requests they make and the status they are given, and their
    composition with the module of the server they switch (Events). *)

From S2P Require Import Prelude JsStd Types Effects FftStream Dashboard Events WebServer.
Local Open Scope Z_scope.

Module Controls.

(** ** Requests (hooks/useApi.ts) *)

(** What becomes of a request: an exception of [fetch] or of the parsing, or a response. *)
Inductive outcome (A : Type) := Failed (message : string) | Response (code : Z) (document : A).
Arguments Failed {A}. Arguments Response {A}.

(* @src frontend/src/hooks/useApi.ts:4-6 useApi *)
Record api := mkApi { loading : bool; api_error : option string }.

Definition ok_code (code : Z) : bool := (200 <=? code) && (code <=? 299).

(** The part before the request, and the part after it; [postJson] differs in the request
    only. *)
(* @src frontend/src/hooks/useApi.ts:9-12 fetchJson *)
Definition fetch_begin (a : api) : api := mkApi true None.

(* @src frontend/src/hooks/useApi.ts:12-20 fetchJson *)
Definition fetch_end {A} (o : outcome A) (a : api) : api * option A :=
  match o with
  | Response code document =>
      if ok_code code then (mkApi false (api_error a), Some document)
      else (mkApi false (Some ("HTTP " ++ show_Z code)%string), None)
  | Failed message => (mkApi false (Some message), None)
  end.

(* @src frontend/src/hooks/useApi.ts:42-48 getCaptures *)
Definition captures_of {A} (o : outcome (list A)) (a : api) : list A :=
  default [] (fetch_end o a).2.

(** ** The switches (components/SstvToggle.tsx) *)

Inductive request := GetStatus | ToggleSstv (enabled : bool) | ToggleGround (enabled : bool).

(** [pending] are the requests under way. *)
(* @src frontend/src/components/SstvToggle.tsx:11-17 SstvToggle *)
Record toggle := mkToggle {
  the_api : api;
  isLoading : bool;
  isLoadingGround : bool;
  enabled : bool;
  groundScanEnabled : bool;
  initialLoaded : bool;
  pending : list request
}.

Definition send (r : request) (t : toggle) : toggle :=
  mkToggle (fetch_begin (the_api t)) (isLoading t) (isLoadingGround t) (enabled t)
    (groundScanEnabled t) (initialLoaded t) (pending t ++ [r]).

(** The first render asks for the status. *)
(* @src frontend/src/components/SstvToggle.tsx:19-29 useEffect *)
Definition mount : toggle :=
  send GetStatus (mkToggle (mkApi false None) false false false true false []).

(* @src frontend/src/components/SstvToggle.tsx:20-27 fetchInitialStatus *)
Definition initial_answer (status : option SSTVStatus) (t : toggle) : toggle :=
  match status with
  | Some s => mkToggle (the_api t) (isLoading t) (isLoadingGround t) (ss_enabled s)
                (ss_groundScanEnabled s) true (pending t)
  | None => t
  end.

(** The status the page receives from the server changes. *)
(* @src frontend/src/components/SstvToggle.tsx:31-36 useEffect *)
Definition on_status (s : SSTVStatus) (t : toggle) : toggle :=
  if initialLoaded t then
    mkToggle (the_api t) (isLoading t) (isLoadingGround t) (ss_enabled s) (ss_groundScanEnabled s)
      true (pending t)
  else t.

(** A disabled button does not react. *)
(* @src frontend/src/components/SstvToggle.tsx:38-41 handleToggle *)
Definition handleToggle (t : toggle) : toggle :=
  if isLoading t then t
  else send (ToggleSstv (negb (enabled t)))
         (mkToggle (the_api t) true (isLoadingGround t) (enabled t) (groundScanEnabled t)
            (initialLoaded t) (pending t)).

(* @src frontend/src/components/SstvToggle.tsx:41-51 handleToggle *)
Definition toggle_answer (newStatus : option SSTVStatus) (t : toggle) : toggle :=
  mkToggle (the_api t) false (isLoadingGround t)
    (match newStatus with Some s => ss_enabled s | None => enabled t end) (groundScanEnabled t)
    (initialLoaded t) (pending t).

(* @src frontend/src/components/SstvToggle.tsx:53-56 handleGroundScanToggle *)
Definition handleGroundScanToggle (t : toggle) : toggle :=
  if isLoadingGround t then t
  else send (ToggleGround (negb (groundScanEnabled t)))
         (mkToggle (the_api t) (isLoading t) true (enabled t) (groundScanEnabled t)
            (initialLoaded t) (pending t)).

(* @src frontend/src/components/SstvToggle.tsx:56-65 handleGroundScanToggle *)
Definition ground_answer (newStatus : option SSTVStatus) (t : toggle) : toggle :=
  mkToggle (the_api t) (isLoading t) false (enabled t)
    (match newStatus with Some s => ss_groundScanEnabled s | None => groundScanEnabled t end)
    (initialLoaded t) (pending t).

(** The text beside the first switch; [status] is the status the page was given. *)
(* @src frontend/src/components/SstvToggle.tsx:67-87 SstvToggle *)
Definition sstv_badge (status : option SSTVStatus) (t : toggle) : string :=
  if bool_decide (ss_status <$> status = Some capturing) then "Capturing"
  else if enabled t then "Enabled" else "Disabled".

(* @src frontend/src/components/SstvToggle.tsx:68-129 SstvToggle *)
Definition ground_badge (status : option SSTVStatus) (t : toggle) : string :=
  if bool_decide (ss_status <$> status = Some scanning) then "Scanning"
  else if groundScanEnabled t then "Enabled" else "Disabled".

Inductive event :=
| EClick | EClickGround | EStatus (s : SSTVStatus) | EAnswer (i : nat) (o : outcome SSTVStatus).

Definition on_answer (r : request) : option SSTVStatus -> toggle -> toggle :=
  match r with
  | GetStatus => initial_answer
  | ToggleSstv _ => toggle_answer
  | ToggleGround _ => ground_answer
  end.

Definition step (e : event) (t : toggle) : toggle :=
  match e with
  | EClick => handleToggle t
  | EClickGround => handleGroundScanToggle t
  | EStatus s => on_status s t
  | EAnswer i o =>
      match pending t !! i with
      | Some r =>
          let '(a, status) := fetch_end o (the_api t) in
          on_answer r status
            (mkToggle a (isLoading t) (isLoadingGround t) (enabled t) (groundScanEnabled t)
               (initialLoaded t) (delete i (pending t)))
      | None => t
      end
  end.

Definition run (evs : list event) (t : toggle) : toggle := foldl (fun t e => step e t) t evs.

(** ** Facts *)

Definition is_toggle (r : request) : bool := match r with ToggleSstv _ => true | _ => false end.
Definition is_ground (r : request) : bool := match r with ToggleGround _ => true | _ => false end.
Definition count (f : request -> bool) (t : toggle) : nat := length (js_filter f (pending t)).

Lemma filter_delete {A} (f : A -> bool) (l : list A) i x : l !! i = Some x ->
  length (js_filter f l) = ((if f x then 1 else 0) + length (js_filter f (delete i l)))%nat.
Proof.
  unfold js_filter in *. revert i.
  induction l as [|y l IH]; intros [|i] H; simpl in *; [done..| |].
  - injection H as ->. by destruct (f x).
  - pose proof (IH i H) as E. destruct (f y); simpl; rewrite E; lia.
Qed.

(** Requests of a switch under way. *)
Record serial (t : toggle) : Prop := mkSerial {
  sr_toggle : count is_toggle t = if isLoading t then 1%nat else 0%nat;
  sr_ground : count is_ground t = if isLoadingGround t then 1%nat else 0%nat
}.

Lemma count_send f r t : count f (send r t) = (count f t + if f r then 1 else 0)%nat.
Proof.
  unfold count, send, js_filter. simpl. rewrite List.filter_app, length_app. simpl. by destruct (f r).
Qed.

Lemma step_serial e t : serial t -> serial (step e t).
Proof.
  intros [H1 H2]. destruct e as [| |s|i o]; simpl.
  - unfold handleToggle. destruct (isLoading t) eqn:E; [by split; rewrite ?E|].
    split; rewrite count_send; unfold count in *; simpl; lia.
  - unfold handleGroundScanToggle. destruct (isLoadingGround t) eqn:E; [by split; rewrite ?E|].
    split; rewrite count_send; unfold count in *; simpl; lia.
  - unfold on_status. by destruct (initialLoaded t).
  - destruct (pending t !! i) as [r|] eqn:Ei; [|by split].
    destruct (fetch_end o (the_api t)) as [a status].
    pose proof (filter_delete is_toggle _ _ _ Ei) as F1. pose proof (filter_delete is_ground _ _ _ Ei) as F2.
    unfold count in *. destruct r; simpl in *.
    + destruct status; split; unfold count; simpl; lia.
    + split; unfold count; simpl; [|lia]. destruct (isLoading t); lia.
    + split; unfold count; simpl; [lia|]. destruct (isLoadingGround t); lia.
Qed.

(** Each switch has at most one request under way, exactly while it is disabled, whatever
    the user does and in whatever order the answers come. *)
Theorem switches_serialized evs : serial (run evs mount).
Proof.
  unfold run. assert (H : serial mount) by done. revert H. generalize mount.
  induction evs as [|e evs IH]; intros t H; [done|]. apply IH, step_serial, H.
Qed.

(** What the route of the server does: it sets the switch and answers with the status,
    which it sends to every page as well. *)
Definition serve_toggle (now : Z) (enabled : bool) (e : Events.state) : Events.state * SSTVStatus :=
  let e := Events.setManualSstvEnabled enabled e in (e, Events.getSstvStatus now e).

Lemma toggle_route throws rid now body s b ws :
  WebServer.b_enabled body = Some (JsBool b) -> ws ∈ WebServer.clients s -> throws ws = false ->
  let '(e', status) := serve_toggle now b (WebServer.sstv s) in
  let '(s', o) := WebServer.sstv_toggle throws rid now body s in
  WebServer.sstv s' = e' /\ WebServer.Respond rid (WebServer.RSstv status) ∈ o /\
  WebServer.Send ws (WebServer.MSstv status) ∈ o.
Proof.
  intros Hb Hws Ht. unfold serve_toggle, WebServer.sstv_toggle, WebServer.or_flag. rewrite Hb. cbn. split; [done|].
  split; [apply elem_of_app; right; left|]. apply elem_of_app. left.
  apply (list_elem_of_fmap_2 (fun ws => WebServer.Send ws _)). unfold WebServer.alive.
  apply js_filter_elem. split; [done|]. by rewrite Ht.
Qed.

(** The switch after its flip was answered with a status, which the page is sent as well. *)
Lemma flip_answered t status : isLoading t = false -> initialLoaded t = true ->
  forall evs,
    evs = [EClick; EStatus status; EAnswer (length (pending t)) (Response 200 status)] \/
    evs = [EClick; EAnswer (length (pending t)) (Response 200 status); EStatus status] ->
  enabled (run evs t) = ss_enabled status /\ isLoading (run evs t) = false /\
  pending (run evs t) = pending t.
Proof.
  intros Hl Hi evs Hevs. assert (Hp : forall r : request, (pending t ++ [r]) !! length (pending t) = Some r /\
                         delete (length (pending t)) (pending t ++ [r]) = pending t).
  { intros r. rewrite lookup_app_r, Nat.sub_diag by lia. split; [done|].
    by rewrite delete_take_drop, take_app_length, drop_ge, app_nil_r by (rewrite length_app; simpl; lia). }
  destruct Hevs as [->| ->]; simpl; unfold handleToggle; rewrite Hl; simpl;
    unfold on_status; simpl; rewrite ?Hi; simpl;
    destruct (Hp (ToggleSstv (negb (enabled t)))) as [-> ->]; simpl; rewrite ?Hi; done.
Qed.

(** A flip of the first switch through the server's route: whether the status that is
    sent to the pages comes before the answer or after it, the switch shows what the
    server does, which is what was asked for unless an event is on. *)
Theorem flip_follows_server throws rid now body s ws t
  (Hl : isLoading t = false) (Hi : initialLoaded t = true)
  (Hbody : WebServer.b_enabled body = Some (JsBool (negb (enabled t))))
  (Hws : ws ∈ WebServer.clients s) (Ht : throws ws = false) :
  let '(s', o) := WebServer.sstv_toggle throws rid now body s in
  pending (step EClick t) = pending t ++ [ToggleSstv (negb (enabled t))] /\
  exists status, WebServer.Respond rid (WebServer.RSstv status) ∈ o /\
    WebServer.Send ws (WebServer.MSstv status) ∈ o /\
    forall evs, evs = [EClick; EStatus status; EAnswer (length (pending t)) (Response 200 status)] \/
                evs = [EClick; EAnswer (length (pending t)) (Response 200 status); EStatus status] ->
    let t' := run evs t in
    enabled t' = Events.isSstvActive now (WebServer.sstv s') /\ isLoading t' = false /\
    (Events.getActiveEvent now (WebServer.sstv s) = None -> enabled t' = negb (enabled t)) /\
    (Events.getActiveEvent now (WebServer.sstv s) <> None -> enabled t' = true).
Proof.
  pose proof (toggle_route throws rid now body s _ ws Hbody Hws Ht) as H.
  destruct (serve_toggle now _ _) as [e' status] eqn:Es. injection Es as <- <-.
  destruct (WebServer.sstv_toggle throws rid now body s) as [s' o].
  destruct H as (He & Ho & Hsend). split; [simpl; unfold handleToggle; by rewrite Hl|]. eexists. split; [exact Ho|]. split; [exact Hsend|].
  intros evs Hevs. destruct (flip_answered t _ Hl Hi evs Hevs) as (H1 & H2 & _).
  rewrite He. split; [exact H1|]. split; [exact H2|]. rewrite H1. simpl.
  unfold Events.isSstvActive. simpl.
  change (Events.getActiveEvent now (Events.setManualSstvEnabled _ ?e)) with (Events.getActiveEvent now e).
  destruct (Events.getActiveEvent now (WebServer.sstv s)), (enabled t); naive_solver.
Qed.

Definition sample_server : WebServer.state :=
  WebServer.with_sockets [7%nat] [] (WebServer.initial false 20 WebServer.sample_system None).
Definition sample_toggle : toggle :=
  step (EAnswer 0 (Response 200 (Events.getSstvStatus 0 (WebServer.sstv sample_server)))) mount.

Lemma flip_follows_server_witness :
  let body := WebServer.mkBody None None None None None None None (Some (JsBool true)) false in
  isLoading sample_toggle = false /\ initialLoaded sample_toggle = true /\
  exists status, WebServer.Respond 1 (WebServer.RSstv status) ∈
    (WebServer.sstv_toggle (fun _ => false) 1 0 body sample_server).2 /\
    enabled (run [EClick; EStatus status; EAnswer 0 (Response 200 status)] sample_toggle) = true.
Proof.
  cbv zeta. split; [reflexivity|]. split; [reflexivity|].
  destruct (flip_follows_server (fun _ => false) 1 0
    (WebServer.mkBody None None None None None None None (Some (JsBool true)) false) sample_server 7 sample_toggle
    eq_refl eq_refl eq_refl (list_elem_of_here _ _) eq_refl) as (_ & status & H1 & _ & H2).
  exists status. split; [exact H1|]. exact (proj1 (H2 _ (or_introl eq_refl))).
Defined.

(** While an event is on, the switch cannot be turned off, and each attempt turns the
    manual switch off or leaves it off. *)
Lemma event_holds_switch now e : Events.getActiveEvent now e <> None ->
  let '(e', status) := serve_toggle now false e in
  ss_enabled status = true /\ Events.manualSstvEnabled e' = false.
Proof.
  intros H. split; [|done]. simpl. unfold Events.isSstvActive. simpl.
  change (Events.getActiveEvent now (Events.setManualSstvEnabled false e)) with (Events.getActiveEvent now e).
  by destruct (Events.getActiveEvent now e).
Qed.

(** A page whose first request failed ignores every status the server sends it: its ground
    scan switch stays on, as it began, although the server's is off. *)
Lemma first_request_failed m (statuses : list SSTVStatus) :
  let t := run (EAnswer 0 (Failed m) :: map EStatus statuses) mount in
  initialLoaded t = false /\ enabled t = false /\ groundScanEnabled t = true.
Proof.
  simpl. unfold run. induction statuses as [|s l IH] using rev_ind; [done|].
  rewrite map_app, foldl_app. simpl. destruct IH as (H1 & H2 & H3). unfold on_status. by rewrite H1.
Qed.

(** The status the server sends to the pages is always idle, so the badges of the switches
    never say that a capture or a scan is under way. *)
Lemma badges_never_active now e t :
  sstv_badge (Some (Events.getSstvStatus now e)) t <> "Capturing"%string /\
  ground_badge (Some (Events.getSstvStatus now e)) t <> "Scanning"%string.
Proof. unfold sstv_badge, ground_badge. simpl. by destruct (enabled t), (groundScanEnabled t). Qed.

End Controls.
