(* ===== verification/App.v ===== *)
(** * The page (src/frontend/src/App.tsx, hooks/useFavicon.ts, hooks/usePageTitle.ts)

    The header of the dashboard: the texts it computes from the state, its three
    switches with the requests behind them, the check that reloads the page when
    another version is served; the icon and the title of the page. *)

From S2P Require Import Prelude JsStd Types Effects FftStream Dashboard Tracking Views Events WebServer Controls.
Local Open Scope Z_scope.

Module App.
Import Dashboard.

(** ** Texts *)

(** [systemState?.status || 'idle']. *)
(* @src frontend/src/App.tsx:132-132 status *)
Definition status (s : option ClientState) : ClientStatus := default (server_status idle) (cl_status <$> s).

(* @src frontend/src/App.tsx:136-149 getStatusColor *)
Definition getStatusColor (st : ClientStatus) : string :=
  match st with
  | client_recording => "bg-accent animate-pulse"
  | server_status decoding => "bg-success"
  | server_status waiting => "bg-warning"
  | server_status scanning => "bg-purple animate-pulse"
  | server_status (idle | capturing) => "bg-text-muted"
  end%string.

(* @src frontend/src/App.tsx:178-186 formatCountdown *)
Definition formatCountdown (nextPass : option SatellitePass) (now : Z) : string :=
  match nextPass with
  | None => "--:--:--"%string
  | Some pass =>
      let msUntil := pass_aos pass - now in
      if msUntil <=? 0 then "00:00:00"%string
      else
        let '(hours, mins, secs) := Views.clock_fields msUntil in
        (padStart2 hours ++ ":" ++ padStart2 mins ++ ":" ++ padStart2 secs)%string
  end.

(* @src frontend/src/App.tsx:188-191 formatFrequency *)
Definition formatFrequency (freq : option Z) : string :=
  match freq with
  | None | Some 0 => "---"%string
  | Some f => Views.toFixed (inject_Z f / 1000000)%Q 3
  end.

(** The frequency of the header, with its label: the one the station scans, or the one
    the spectrum is tuned to. *)
(* @src frontend/src/App.tsx:297-322 App *)
Definition shown_frequency (s : option ClientState) (currentFreq : option Z)
  (mode : Tracking.ViewMode) : string * string :=
  let tuned := (formatFrequency currentFreq,
                match mode with Tracking.sstv_2m => "2M" | _ => "SAT" end%string) in
  match status s, s ≫= cl_scanningFrequency with
  | server_status scanning, Some f =>
      if Z.eqb f 0 then tuned
      else (formatFrequency (Some f),
            match s ≫= cl_scanningFrequencyName with
            | None | Some ""%string => "2M"%string
            | Some name => name
            end)
  | _, _ => tuned
  end.

(** ** The icon (hooks/useFavicon.ts) *)

(* @src frontend/src/hooks/useFavicon.ts:19-36 useFavicon *)
Definition icon_color (st : ClientStatus) : string * bool :=
  match st with
  | client_recording | server_status scanning => ("#22c55e", true)
  | server_status decoding => ("#3b82f6", false)
  | server_status waiting => ("#f59e0b", false)
  | server_status (idle | capturing) => ("#64748b", false)
  end%string.

(** A circle around the centre: its radius, the width of its line, [None] when filled. *)
Record circle := mkCircle { ci_radius : Z; ci_line : option Z; ci_color : string }.

(* @src frontend/src/hooks/useFavicon.ts:38-73 useFavicon *)
Definition icon (st : ClientStatus) : list circle :=
  let '(color, pulseEffect) := icon_color st in
  let radius := 24 in
  mkCircle radius (Some 3) color ::
  map (fun i => mkCircle (8 + 4 * Z.of_nat i) (Some 2) color) (seq 0 3) ++
  mkCircle 4 None color ::
  (if pulseEffect then [mkCircle (radius + 4) (Some 2) color] else []).

(** ** The title (hooks/usePageTitle.ts), without its pictograms *)

(* @src frontend/src/hooks/usePageTitle.ts:11-33 usePageTitle *)
Definition title (st : ClientStatus) (satelliteName : option string) : string :=
  let named (a b : string) :=
    match satelliteName with
    | None | Some ""%string => (b ++ " - Night Watch")%string
    | Some n => (a ++ " " ++ n ++ " - Night Watch")%string
    end in
  match st with
  | client_recording => named "Recording" "Recording"
  | server_status decoding => named "Decoding" "Decoding"
  | server_status scanning => "Scanning SSTV - Night Watch"
  | server_status waiting => named "Waiting for" "Waiting"
  | server_status (idle | capturing) => "Night Watch - Satellite Signal Capture Station"
  end%string.

(** The name the page gives it. *)
(* @src frontend/src/App.tsx:55-58 App *)
Definition page_title (s : option ClientState) : string :=
  let name p := si_name (pass_satellite p) in
  title (status s)
    (match s with
     | Some c =>
         match name <$> cl_currentPass c with
         | None | Some ""%string => name <$> cl_nextPass c
         | Some n => Some n
         end
     | None => None
     end).

(** The icon fits its canvas of 64 by 64 points. *)
Theorem icon_fits st : Forall (fun c => 0 < ci_radius c + default 0 (ci_line c) / 2 <= 32) (icon st).
Proof.
  unfold icon. destruct (icon_color st) as [color []]; repeat (constructor; [by vm_compute|]); constructor.
Qed.

(** What a page loaded during a capture looks like: the state has the server's own word
    for it. *)
Lemma loaded_during_capture s g f d : st_status s = capturing ->
  let c := systemState (on_message (init s g f) d).1 in
  getStatusColor (status c) = "bg-text-muted"%string /\ icon_color (status c) = ("#64748b"%string, false) /\
  page_title c = "Night Watch - Satellite Signal Capture Station"%string.
Proof. intros Hs. simpl. unfold page_title, status. simpl. by rewrite Hs. Qed.

(** ** The switches and the version *)

(* @src frontend/src/types/index.ts:97-101 VersionInfo *)
Record VersionInfo := mkVersion { vi_version : string; vi_commit : string; vi_buildTime : option string }.

Inductive chip := iss | ground.

#[global] Instance chip_eq_dec : EqDecision chip.
Proof. solve_decision. Defined.

(** The requests of the page; a check compares with the version it was started with. *)
Inductive request :=
| GetSstv | GetVersion | CheckVersion (since : VersionInfo)
| ToggleSstv (enabled : bool) | ToggleGround (enabled : bool).

Inductive document := DSstv (s : SSTVStatus) | DVersion (v : VersionInfo).

(** [check] is the interval that looks for another version, [pending] the requests under
    way, [reloads] how often the page has been reloaded. *)
(* @src frontend/src/App.tsx:47-63 App *)
Record header := mkHeader {
  the_api : Controls.api;
  issEnabled : bool;
  groundEnabled : bool;
  noaaEnabled : bool;
  sstvLoading : option chip;
  version : option VersionInfo;
  check : option VersionInfo;
  pending : list request;
  reloads : nat
}.

Definition send (r : request) (h : header) : header :=
  mkHeader (Controls.fetch_begin (the_api h)) (issEnabled h) (groundEnabled h) (noaaEnabled h)
    (sstvLoading h) (version h) (check h) (pending h ++ [r]) (reloads h).

Definition with_chips (i g : bool) (l : option chip) (h : header) : header :=
  mkHeader (the_api h) i g (noaaEnabled h) l (version h) (check h) (pending h) (reloads h).

(** The first render, and its effects. *)
(* @src frontend/src/App.tsx:60-111 App *)
Definition mount (reloads : nat) : header :=
  send GetVersion (send GetSstv
    (mkHeader (Controls.mkApi false None) false true true None None None [] reloads)).

(** A status of the switches, from the socket or as the answer to the first request. *)
(* @src frontend/src/App.tsx:76-81 App *)
Definition on_status (s : SSTVStatus) (h : header) : header :=
  with_chips (ss_enabled s) (ss_groundScanEnabled s) (sstvLoading h) h.

(** A chip that is loading is disabled. *)
(* @src frontend/src/App.tsx:196-198 handleIssToggle *)
Definition handleIssToggle (h : header) : header :=
  if bool_decide (sstvLoading h = Some iss) then h
  else send (ToggleSstv (negb (issEnabled h))) (with_chips (issEnabled h) (groundEnabled h) (Some iss) h).

(* @src frontend/src/App.tsx:198-201 handleIssToggle *)
Definition iss_answer (result : option SSTVStatus) (h : header) : header :=
  with_chips (match result with Some s => ss_enabled s | None => issEnabled h end) (groundEnabled h) None h.

(* @src frontend/src/App.tsx:203-205 handleGroundToggle *)
Definition handleGroundToggle (h : header) : header :=
  if bool_decide (sstvLoading h = Some ground) then h
  else send (ToggleGround (negb (groundEnabled h)))
         (with_chips (issEnabled h) (groundEnabled h) (Some ground) h).

(* @src frontend/src/App.tsx:205-208 handleGroundToggle *)
Definition ground_answer (result : option SSTVStatus) (h : header) : header :=
  with_chips (issEnabled h) (match result with Some s => ss_groundScanEnabled s | None => groundEnabled h end)
    None h.

(* @src frontend/src/App.tsx:210-212 handleNoaaToggle *)
Definition handleNoaaToggle (h : header) : header :=
  mkHeader (the_api h) (issEnabled h) (groundEnabled h) (negb (noaaEnabled h)) (sstvLoading h)
    (version h) (check h) (pending h) (reloads h).

(** A version that was fetched starts the interval of checks. *)
(* @src frontend/src/App.tsx:102-129 App *)
Definition version_answer (v : option VersionInfo) (h : header) : header :=
  mkHeader (the_api h) (issEnabled h) (groundEnabled h) (noaaEnabled h) (sstvLoading h) v v
    (pending h) (reloads h).

(* @src frontend/src/App.tsx:116-121 checkVersion *)
Definition check_answer (since : VersionInfo) (newVersion : option VersionInfo) (h : header) : header :=
  match newVersion with
  | Some v => if String.eqb (vi_version v) (vi_version since) then h else mount (S (reloads h))
  | None => h
  end.

Inductive event :=
| EIss | EGround | ENoaa | EStatus (s : SSTVStatus) | ECheck
| EAnswer (i : nat) (o : Controls.outcome document).

Definition sstv_of (d : option document) : option SSTVStatus :=
  match d with Some (DSstv s) => Some s | _ => None end.
Definition version_of (d : option document) : option VersionInfo :=
  match d with Some (DVersion v) => Some v | _ => None end.

Definition on_answer (r : request) (d : option document) (h : header) : header :=
  match r with
  | GetSstv => match sstv_of d with Some s => on_status s h | None => h end
  | GetVersion => version_answer (version_of d) h
  | CheckVersion since => check_answer since (version_of d) h
  | ToggleSstv _ => iss_answer (sstv_of d) h
  | ToggleGround _ => ground_answer (sstv_of d) h
  end.

Definition answered (a : Controls.api) (i : nat) (h : header) : header :=
  mkHeader a (issEnabled h) (groundEnabled h) (noaaEnabled h) (sstvLoading h) (version h) (check h)
    (delete i (pending h)) (reloads h).

Definition step (e : event) (h : header) : header :=
  match e with
  | EIss => handleIssToggle h
  | EGround => handleGroundToggle h
  | ENoaa => handleNoaaToggle h
  | EStatus s => on_status s h
  | ECheck => match check h with Some v => send (CheckVersion v) h | None => h end
  | EAnswer i o =>
      match pending h !! i with
      | Some r => let '(a, d) := Controls.fetch_end o (the_api h) in on_answer r d (answered a i h)
      | None => h
      end
  end.

Definition run (evs : list event) (h : header) : header := foldl (fun h e => step e h) h evs.

(** *** Reloads *)

(** The version an event tells the page, if any. *)
Definition told (e : event) (h : header) : option string :=
  match e with
  | EAnswer i o =>
      match pending h !! i with
      | Some (GetVersion | CheckVersion _) =>
          vi_version <$> version_of (Controls.fetch_end o (the_api h)).2
      | _ => None
      end
  | _ => None
  end.

(** The versions a run tells the page, in order. *)
Fixpoint versions (evs : list event) (h : header) : list string :=
  match evs with
  | [] => []
  | e :: r => match told e h with Some v => [v] | None => [] end ++ versions r (step e h)
  end.

(** How often a list changes from one element to the next, after [last]. *)
Fixpoint changes (last : string) (l : list string) : nat :=
  match l with
  | [] => 0
  | v :: r => (if String.eqb v last then 0 else 1) + changes v r
  end.

(** The interval runs for the version shown, and a check compares with it; the version
    is asked for once, before there is one. *)
Record checked (h : header) : Prop := mkChecked {
  ck_interval : check h = version h;
  ck_since : forall v, CheckVersion v ∈ pending h -> version h = Some v;
  ck_asked : GetVersion ∈ pending h -> version h = None;
  ck_once : (length (js_filter (fun r => match r with GetVersion => true | _ => false end) (pending h)) <= 1)%nat
}.

Lemma mount_checked n : checked (mount n).
Proof. split; simpl; [done| |done|lia]. intros v H. set_solver. Qed.

Lemma checked_same h h' : version h' = version h -> check h' = check h -> pending h' = pending h ->
  checked h -> checked h'.
Proof. intros E1 E2 E3 [H1 H2 H3 H4]. split; rewrite ?E1, ?E2, ?E3; done. Qed.

Lemma send_checked r h : checked h -> (forall v, r = CheckVersion v -> version h = Some v) ->
  r <> GetVersion -> checked (send r h).
Proof.
  intros [H1 H2 H3 H4] Hr Hn. split; simpl; [done| | |].
  - intros v [H|H]%elem_of_app; [auto|]. apply list_elem_of_singleton in H as <-. by apply Hr.
  - intros [H|H]%elem_of_app; [auto|]. by apply list_elem_of_singleton in H as <-.
  - unfold js_filter in *. rewrite List.filter_app, length_app. destruct r; simpl; lia || done.
Qed.

Lemma delete_elem {A} (l : list A) i x : x ∈ delete i l -> x ∈ l.
Proof.
  rewrite delete_take_drop. intros [H|H]%elem_of_app; [by eapply elem_of_take_inv|by eapply elem_of_drop_inv].
Qed.

Lemma answered_checked a i h : checked h -> checked (answered a i h).
Proof.
  intros [H1 H2 H3 H4]. split; simpl; [done|..].
  - intros v H%delete_elem. auto.
  - intros H%delete_elem. auto.
  - destruct (pending h !! i) as [r|] eqn:E.
    + rewrite (Controls.filter_delete _ _ _ _ E) in H4. lia.
    + apply lookup_ge_None_1 in E. by rewrite delete_take_drop, take_ge, drop_ge, app_nil_r by lia.
Qed.

(** 1 while the last version told is not the one shown. *)
Definition behind (last : string) (h : header) : nat :=
  match version h with Some v => if String.eqb (vi_version v) last then 0 else 1 | None => 0 end.

Lemma answer_once i h : checked h -> pending h !! i = Some GetVersion ->
  forall r, r ∈ delete i (pending h) -> (forall v, r <> CheckVersion v) /\ r <> GetVersion.
Proof.
  intros [H1 H2 H3 H4] Hi r Hr. pose proof (list_elem_of_lookup_2 _ _ _ Hi) as Hg. split.
  - intros v ->. apply delete_elem, H2 in Hr. rewrite H3 in Hr; done.
  - intros ->. rewrite (Controls.filter_delete _ _ _ _ Hi) in H4.
    apply list_elem_of_lookup in Hr as [j Hj]. rewrite (Controls.filter_delete _ _ _ _ Hj) in H4. simpl in H4. lia.
Qed.

Lemma step_checked e h last : checked h ->
  checked (step e h) /\
  (reloads (step e h) + behind (default last (told e h)) (step e h) <=
   reloads h + behind last h + changes last (match told e h with Some v => [v] | None => [] end))%nat.
Proof.
  intros Hh. pose proof Hh as [H1 H2 H3 H4].
  assert (Hsame : forall h', version h' = version h -> check h' = check h -> pending h' = pending h ->
    reloads h' = reloads h -> checked h' /\ (reloads h' + behind last h' <= reloads h + behind last h + 0)%nat).
  { intros h' E1 E2 E3 E4. split; [by apply (checked_same h)|]. unfold behind. rewrite E1, E4. lia. }
  assert (Hsend : forall r h', version h' = version h -> check h' = check h -> pending h' = pending h ->
    reloads h' = reloads h -> (forall v, r = CheckVersion v -> version h = Some v) -> r <> GetVersion ->
    checked (send r h') /\ (reloads (send r h') + behind last (send r h') <= reloads h + behind last h + 0)%nat).
  { intros r h' E1 E2 E3 E4 Hr Hn. split.
    - apply send_checked; [by apply (checked_same h)|by rewrite E1|done].
    - unfold behind. simpl. rewrite E1, E4. lia. }
  destruct e as [| | |s| |i o]; simpl.
  - unfold handleIssToggle. case_bool_decide; [by apply Hsame|by apply Hsend].
  - unfold handleGroundToggle. case_bool_decide; [by apply Hsame|by apply Hsend].
  - by apply (Hsame (handleNoaaToggle h)).
  - by apply (Hsame (on_status s h)).
  - destruct (check h) as [v|] eqn:E; [|by apply Hsame]. apply Hsend; try done. intros v' [= <-]. congruence.
  - destruct (pending h !! i) as [r|] eqn:Ei; [|by apply Hsame].
    pose proof (answered_checked (Controls.fetch_end o (the_api h)).1 i h Hh) as Ha.
    pose proof (list_elem_of_lookup_2 _ _ _ Ei) as Hin.
    destruct (Controls.fetch_end o (the_api h)) as [a d]. cbn [fst snd] in *.
    destruct r as [| |since|b|b]; cbn [on_answer].
    + destruct (sstv_of d); split; [by apply (checked_same (answered a i h))| |done|]; unfold behind; simpl; lia.
    + pose proof (answer_once i h Hh Ei) as Hno. split.
      * destruct Ha as [A1 A2 A3 A4]. split; simpl in *; [done|..|done].
        -- intros v Hv. by destruct (Hno _ Hv) as [Hc _]; destruct (Hc v).
        -- intros Hg. by destruct (Hno _ Hg) as [_ Hc].
      * unfold behind. simpl. destruct (version_of d) as [v|]; simpl; [|lia].
        rewrite String.eqb_refl. lia.
    + apply H2 in Hin. destruct (version_of d) as [v|]; simpl; [|split; [done|unfold behind; simpl; lia]].
      destruct (String.eqb_spec (vi_version v) (vi_version since)) as [E|E].
      * split; [done|]. unfold behind. simpl. rewrite Hin, E, String.eqb_refl. lia.
      * split; [apply mount_checked|]. unfold behind. simpl. rewrite Hin.
        destruct (String.eqb_spec (vi_version since) last) as [<-|?]; [|lia].
        apply String.eqb_neq in E. rewrite E. lia.
    + split; [by apply (checked_same (answered a i h))|]. unfold behind. simpl. lia.
    + split; [by apply (checked_same (answered a i h))|]. unfold behind. simpl. lia.
Qed.

Lemma run_checked evs : forall h last, checked h ->
  (reloads (run evs h) <= reloads h + behind last h + changes last (versions evs h))%nat.
Proof.
  induction evs as [|e evs IH]; intros h last Hh; simpl; [lia|].
  destruct (step_checked e h last Hh) as [Hs Hc]. specialize (IH _ (default last (told e h)) Hs).
  destruct (told e h) as [v|]; simpl in *; lia.
Qed.

Lemma changes_const v l : Forall (eq v) l -> changes v l = 0%nat.
Proof. induction 1 as [|w l <- Hl IH]; [done|]. simpl. by rewrite String.eqb_refl. Qed.

(** A page reloads only when it is told to: whatever the user does and in whatever order
    the answers come, it reloads at most as often as the version it is told changes; in
    particular never while the server serves one version. *)
Theorem reloads_bounded evs :
  (reloads (run evs (mount 0)) <= changes (default ""%string (head (versions evs (mount 0)))) (versions evs (mount 0)))%nat /\
  (forall v, Forall (eq v) (versions evs (mount 0)) -> reloads (run evs (mount 0)) = 0%nat).
Proof.
  pose proof (fun last => run_checked evs (mount 0) last (mount_checked 0)) as H. simpl in H.
  split; [rewrite <- (H _) at 1; simpl; lia|].
  intros v Hv. specialize (H v). rewrite (changes_const v _ Hv) in H. lia.
Qed.

(** A version that is never told is never checked: when the first request for it fails,
    no interval is set, and the page is not reloaded however often the server changes. *)
Lemma version_never_checked evs : forall h,
  check h = None -> GetVersion ∉ pending h -> (forall v, CheckVersion v ∉ pending h) ->
  reloads (run evs h) = reloads h.
Proof.
  induction evs as [|e evs IH]; intros h Hc Hg Hv; [done|]. simpl.
  assert (Hsend : forall r h', (match r with GetVersion | CheckVersion _ => False | _ => True end) ->
    pending h' = pending h -> GetVersion ∉ pending (send r h') /\ (forall v, CheckVersion v ∉ pending (send r h'))).
  { intros r h' Hr Hp. simpl. rewrite Hp.
    split; [|intros v]; intros [H|H]%elem_of_app; [done|by apply list_elem_of_singleton in H as <-|
      by destruct (Hv v)|by apply list_elem_of_singleton in H as <-]. }
  assert (Hdel : forall i a, GetVersion ∉ pending (answered a i h) /\ (forall v, CheckVersion v ∉ pending (answered a i h))).
  { intros i a. split; [|intros v]; intros H%delete_elem; [by apply Hg|by apply (Hv v)]. }
  destruct e as [| | |s| |i o]; simpl;
    [| |by apply (IH (handleNoaaToggle h))|by apply (IH (on_status s h))| |].
  - unfold handleIssToggle. case_bool_decide; [by apply IH|]. set (h' := with_chips _ _ _ h).
    destruct (Hsend (ToggleSstv (negb (issEnabled h))) h') as [H1 H2]; [done..|]. by rewrite IH.
  - unfold handleGroundToggle. case_bool_decide; [by apply IH|]. set (h' := with_chips _ _ _ h).
    destruct (Hsend (ToggleGround (negb (groundEnabled h))) h') as [H1 H2]; [done..|]. by rewrite IH.
  - rewrite Hc. by apply IH.
  - destruct (pending h !! i) as [r|] eqn:Ei; [|by apply IH]. apply list_elem_of_lookup_2 in Ei.
    destruct (Controls.fetch_end o (the_api h)) as [a d]. destruct (Hdel i a) as [H1 H2].
    destruct r as [| |v|b|b]; cbn [on_answer]; [|done|by destruct (Hv v)| |].
    + destruct (sstv_of d) as [st|]; [by rewrite IH|by rewrite IH].
    + by rewrite IH.
    + by rewrite IH.
Qed.

(** ** What the page lets happen *)

Definition sample_status (i g : bool) : SSTVStatus := mkSstvStatus i i g idle None [].

Definition loaded : header :=
  run [EAnswer 0 (Controls.Response 200 (DSstv (sample_status false true)));
       EAnswer 0 (Controls.Response 200 (DVersion (mkVersion "1.0.0" "abc" None)))] (mount 0).

(** The two chips share one mark of loading: the answer to the request of one enables
    the other, whose own request is still under way and can be made again. *)
Example answer_frees_other :
  let h := run [EGround; EIss; EAnswer 1 (Controls.Response 200 (DSstv (sample_status true true))); EGround] loaded in
  sstvLoading h = Some ground /\ pending h = [ToggleGround false; ToggleGround false].
Proof. vm_compute. done. Qed.

(** The chip of the weather satellites is only that: no request tells the server. *)
Lemma noaa_chip_is_local h :
  pending (step ENoaa h) = pending h /\ noaaEnabled (step ENoaa h) = negb (noaaEnabled h).
Proof. done. Qed.

End App.
