(* ===== verification/Cards.v ===== *)
(** * The smaller components of the dashboard (src/frontend/src/components/)

    The labels and the pointer of the timeline, the progress of a capture, the chart of the
    Doppler shift, the footer, the log of the diagnostics panel; and the components the
    library exports and the page does not mount: status cards, header, status bar, table
    of passes. *)

From Stdlib Require Import Ascii.
From S2P Require Import Prelude JsStd Types StateManager Effects Dashboard Tracking Views Events WebServer Controls App.
From S2P Require Import Shell Recorder Scheduler.
Local Open Scope Z_scope.

Module Cards.
Import Dashboard.

(** ** The timeline (PassTimeline.tsx) *)

(** [/\d+/]: the first run of digits. *)
Fixpoint digits_of (s : string) : string :=
  match s with
  | String c r => if is_digit c then String c (digits_of r) else ""%string
  | EmptyString => ""%string
  end.

Fixpoint first_number (s : string) : option string :=
  match s with
  | EmptyString => None
  | String c r => if is_digit c then Some (digits_of s) else first_number r
  end.

(** [toUpperCase] on ASCII. *)
Definition upper_char (c : ascii) : ascii :=
  let n := nat_of_ascii c in if ((97 <=? n) && (n <=? 122))%nat then ascii_of_nat (n - 32) else c.

Definition str_upper (s : string) : string := str_map upper_char s.

(* @src frontend/src/components/PassTimeline.tsx:21-29 getShortName *)
Definition getShortName (name : string) : string :=
  if includes "NOAA" name then
    match first_number name with Some n => ("N" ++ n)%string | None => "N??"%string end
  else if String.eqb name "ISS" then "ISS"%string
  else if includes "METEOR" name then "MET"%string
  else str_upper (slice_to 3 name).

Inductive icon := dish | rocket | antenna.

(* @src frontend/src/components/PassTimeline.tsx:31-35 getSatIcon *)
Definition getSatIcon (name : string) : icon :=
  if includes "NOAA" name || includes "METEOR" name then dish
  else if String.eqb name "ISS" then rocket else antenna.

(* @src frontend/src/components/PassTimeline.tsx:64-69 getPassColor *)
Definition getPassColor (pass : SatellitePass) : string * string * string :=
  match si_signalType (pass_satellite pass) with
  | sstv => ("bg-purple", "text-purple", "border-purple")
  | _ => ("bg-accent", "text-accent", "border-accent")
  end%string.

(* @src frontend/src/components/PassTimeline.tsx:78-83 formatDuration *)
Definition timelineDuration (aos los : Z) : string :=
  let durationMs := los - aos in
  (show_Z (durationMs / 60000) ++ "m " ++ show_Z (Z.rem durationMs 60000 / 1000) ++ "s")%string.

(* @src frontend/src/components/PassTimeline.tsx:11-13 PassTimeline *)
Record pointer := mkPointer { hoveredPass : option SatellitePass; tooltipPos : Z * Z }.

Inductive pointer_event :=
| MouseEnter (clientX clientY : Z) (pass : SatellitePass)
| MouseMove (clientX clientY : Z)
| MouseLeave.

(** [rect] is the left upper corner of the container, when there is one. *)
(* @src frontend/src/components/PassTimeline.tsx:96-115 handleMouseEnter *)
Definition point (rect : option (Z * Z)) (e : pointer_event) (p : pointer) : pointer :=
  let at_ x y := match rect with Some (rect_left, rect_top) => (x - rect_left, y - rect_top) | None => tooltipPos p end in
  match e with
  | MouseEnter x y pass => mkPointer (Some pass) (at_ x y)
  | MouseMove x y =>
      match hoveredPass p with
      | Some _ => mkPointer (hoveredPass p) (at_ x y)
      | None => p
      end
  | MouseLeave => mkPointer None (tooltipPos p)
  end.

(** Where the tooltip begins; [offsetWidth] is that of the container. *)
(* @src frontend/src/components/PassTimeline.tsx:229-229 PassTimeline *)
Definition tooltip_left (offsetWidth : option Z) (p : pointer) : Z :=
  let width := match offsetWidth with None | Some 0 => 300 | Some w => w end in
  Z.min (tooltipPos p).1 (width - 160).

(** ** The progress of a capture (ProgressSection.tsx) *)

(* @src frontend/src/components/ProgressSection.tsx:42-43 ProgressSection *)
Definition remaining (p : CaptureProgress) : Z := cp_total p - cp_elapsed p.

(** [None] is NaN. *)
(* @src frontend/src/components/ProgressSection.tsx:43-43 ProgressSection *)
Definition percentage (p : CaptureProgress) : option Z :=
  if cp_total p =? 0 then None
  else Some (js_round (inject_Z (cp_elapsed p) / inject_Z (cp_total p) * 100)).

(** What the section shows: the name, the part done and the time left. *)
(* @src frontend/src/components/ProgressSection.tsx:39-46 ProgressSection *)
Definition progress_section (progress : option CaptureProgress) (visible : bool)
  (currentPass : option SatellitePass) : option (string * option Z * string) :=
  if visible then
    (fun p => (match si_name ∘ pass_satellite <$> currentPass with None | Some ""%string => "Unknown"%string | Some n => n end,
               percentage p, Views.formatDuration (remaining p))) <$> progress
  else None.

(** ** The Doppler shift (DopplerChart.tsx) *)

(* @src frontend/src/components/DopplerChart.tsx:11-12 DopplerChart *)
Definition normalizedCurrent (current min max : Q) : Q :=
  let range := (max - min)%Q in
  if 0 <?q range then ((current - min) / range * 100)%Q else 50%Q.

(* @src frontend/src/components/DopplerChart.tsx:37-40 DopplerChart *)
Definition marker_x (current min max : Q) : Q := (normalizedCurrent current min max * 6)%Q.

(** ** The footer (Footer.tsx); [date_text] is the locale's text of a time *)

(* @src frontend/src/components/Footer.tsx:9-24 formatBuildDate *)
Definition formatBuildDate (date_text : string -> string) (buildTime : option string) : string :=
  match buildTime with
  | None | Some ""%string => "Unknown"%string
  | Some t => date_text t
  end.

(* @src frontend/src/components/Footer.tsx:28-28 Footer *)
Definition commitShort (v : option App.VersionInfo) : string :=
  match App.vi_commit <$> v with
  | None | Some ""%string => "unknown"%string
  | Some c => slice_to 7 c
  end.

(* @src frontend/src/components/Footer.tsx:26-66 Footer *)
Definition footer_text (v : option App.VersionInfo) : string :=
  let versionText := match v with Some v => ("v" ++ App.vi_version v)%string | None => ""%string end in
  let commit := commitShort v in
  ("Night Watch " ++ versionText ++ " " ++
   match v with
   | Some _ => if String.eqb commit "unknown" then "" else "(" ++ commit ++ ")"
   | None => ""
   end)%string.

(* @src frontend/src/components/Footer.tsx:57-62 Footer *)
Definition footer_tooltip (date_text : string -> string) (v : option App.VersionInfo) : string :=
  match v with
  | Some v => ("Build: " ++ formatBuildDate date_text (App.vi_buildTime v) ++ " UTC • Commit: " ++ App.vi_commit v)%string
  | None => "Version information unavailable"%string
  end.

(** ** The log of the diagnostics panel (DiagnosticsPanel.tsx) *)

(** [seen] are the connection and the error that the first effect last ran for. *)
(* @src frontend/src/components/DiagnosticsPanel.tsx:45-46 DiagnosticsPanel *)
Record panel := mkPanel {
  logs : list Views.LogEntry;
  isResizing : bool;
  panelHeight : Z;
  seen : option (bool * option string)
}.

Definition status_name (st : ClientStatus) : string :=
  match st with
  | server_status idle => "idle" | server_status waiting => "waiting"
  | server_status capturing => "capturing" | server_status decoding => "decoding"
  | server_status scanning => "scanning" | client_recording => "recording"
  end%string.

Definition log (now : Z) (l : Views.level) (message : string) (p : panel) : panel :=
  mkPanel (Views.addLog now l message (logs p)) (isResizing p) (panelHeight p) (seen p).

(* @src frontend/src/components/DiagnosticsPanel.tsx:54-60 useEffect *)
Definition connection_effect (now : Z) (w : WsState) (p : panel) : panel :=
  let deps := (ws_connected w, ws_error w) in
  if bool_decide (seen p = Some deps) then p
  else
    let p := mkPanel (logs p) (isResizing p) (panelHeight p) (Some deps) in
    if ws_connected w then log now Views.info "WebSocket connected" p
    else match ws_error w with
         | None | Some ""%string => p
         | Some e => log now Views.error ("WebSocket error: " ++ e)%string p
         end.

(** The state is a new object whenever a message has set it. *)
(* @src frontend/src/components/DiagnosticsPanel.tsx:62-66 useEffect *)
Definition state_effect (now : Z) (changed : bool) (s : option ClientState) (p : panel) : panel :=
  match s with
  | Some c =>
      if changed then log now Views.debug ("Status changed: " ++ status_name (cl_status c))%string p else p
  | None => p
  end.

Inductive panel_event :=
| Render (now : Z) (w : WsState) (changed : bool) (s : option ClientState)
| MouseDown | DragTo (clientY : Z) | MouseUp.

(* @src frontend/src/components/DiagnosticsPanel.tsx:86-111 DiagnosticsPanel *)
Definition panel_step (e : panel_event) (p : panel) : panel :=
  match e with
  | Render now w changed s => state_effect now changed s (connection_effect now w p)
  | MouseDown => mkPanel (logs p) true (panelHeight p) (seen p)
  | DragTo y => mkPanel (logs p) (isResizing p) (Views.dragged y (isResizing p) (panelHeight p)) (seen p)
  | MouseUp => mkPanel (logs p) false (panelHeight p) (seen p)
  end.

(** ** Components the page does not mount *)

(* @src frontend/src/components/StatusCards.tsx:57-61 StatusCards *)
Definition card_status (st : ClientStatus) : string :=
  match st with
  | server_status idle => "Standby"
  | server_status waiting => "Waiting for Pass"
  | client_recording => "Recording"
  | server_status decoding => "Decoding"
  | server_status scanning => "Scanning 2m SSTV"
  | server_status capturing => ""
  end%string.

(** The statistics and the configuration of the cards keep their last answer. *)
(* @src frontend/src/components/StatusCards.tsx:21-30 fetchData *)
Definition cards_answer {A B} (summaryData : option A) (configData : option B) (s : option A * option B)
  : option A * option B :=
  (match summaryData with Some x => Some x | None => s.1 end,
   match configData with Some x => Some x | None => s.2 end).

(* @src frontend/src/components/StatusCards.tsx:32-48 updateCountdown *)
Definition card_countdown (nextPass : option SatellitePass) (now : Z) : string :=
  match nextPass with
  | None => "-"%string
  | Some pass => Views.formatCountdown (pass_aos pass - now)
  end.

(* @src frontend/src/components/Header.tsx:12-28 getStatusText *)
Definition header_status (st : ClientStatus) (statusMessage : option string) : string :=
  match statusMessage with
  | Some (String _ _ as m) => m
  | _ => match st with server_status capturing => "Unknown"%string | _ => card_status st end
  end.

(* @src frontend/src/components/Header.tsx:30-45 getStatusTooltip *)
Definition header_tooltip (st : ClientStatus) : string :=
  match st with
  | server_status idle => "System is idle, waiting for next scheduled pass or SSTV scan"
  | server_status waiting => "Satellite pass approaching, preparing to capture"
  | client_recording => "Actively recording RF signal from satellite"
  | server_status decoding => "Processing recorded audio into weather images"
  | server_status scanning => "Monitoring 2M frequencies for SSTV transmissions"
  | server_status capturing => "System status unknown"
  end%string.

(* @src frontend/src/components/StatusBar.tsx:31-44 getStatusMessage *)
Definition bar_message (st : ClientStatus) (nextPass : option SatellitePass) : string :=
  match st with
  | server_status waiting =>
      match nextPass with
      | Some p => "Waiting for " ++ si_name (pass_satellite p)
      | None => "Waiting for Pass"
      end
  | client_recording => "Recording Signal"
  | server_status decoding => "Decoding Image"
  | server_status scanning => "Scanning 2m SSTV"
  | server_status (idle | capturing) => "Night Watch - Satellite Signal Capture Station"
  end%string.

(* @src frontend/src/components/StatusBar.tsx:46-54 getSdrStatus *)
Definition bar_sdr (st : ClientStatus) (sdrConnected : bool) : string :=
  match st with
  | client_recording | server_status scanning => "SDR: Active"
  | _ => if sdrConnected then "SDR: Ready" else "SDR: Standby"
  end%string.

(** [date_text] is the locale's text of a time. *)
(* @src frontend/src/components/StatusBar.tsx:56-74 StatusBar *)
Definition bar_version (date_text : string -> string) (v : option App.VersionInfo) : string :=
  let nonempty (s : option string) (d : string) := match s with None | Some ""%string => d | Some s => s end in
  let build := match v ≫= App.vi_buildTime with None | Some ""%string => ""%string | Some t => date_text t end in
  ("v" ++ nonempty (App.vi_version <$> v) "-.-.-" ++ " (" ++
   nonempty (slice_to 7 ∘ App.vi_commit <$> v) "---" ++ ")" ++
   if String.eqb build "" then "" else " - " ++ build)%string.

(* @src frontend/src/components/PassesTable.tsx:17-26 getSignalBadgeClass *)
Definition getSignalBadgeClass (t : SignalType) : string :=
  match t with
  | sstv => "bg-purple/20 text-purple"
  | _ => "bg-text-muted/20 text-text-muted"
  end%string.

(* @src frontend/src/components/PassesTable.tsx:77-85 PassesTable *)
Definition elevation_class (elevation : Q) : string :=
  if 45 <=?q elevation then "text-success"%string
  else if 20 <=?q elevation then "text-warning"%string
  else "text-text-muted"%string.

(** ** Properties *)

(** The share of the capture that the page shows is the one the server computes: the bar
    of an update of the recording has the percentage of its event, between 0 and 100 while
    the recording lasts, and the time left is not negative. *)
Theorem progress_agrees {W} (h : forall c, W -> resp c * W) elapsed total w d
  (Ht : 0 < total) (He : 0 <= elapsed <= total) :
  exists p, trace h (Scheduler.on_progress elapsed total) w = [SM (StateManager.UpdateProgress p elapsed total)] /\
    let d' := on_state_event (capture_progress p elapsed total) d in
    (progress d' ≫= percentage) = Some p /\ 0 <= p <= 100 /\
    (forall x, progress d' = Some x -> 0 <= remaining x).
Proof.
  exists (js_round (inject_Z elapsed / inject_Z total * 100)).
  split; [unfold Scheduler.on_progress; by rewrite trace_Do|]. simpl. unfold percentage, remaining. simpl.
  destruct (Z.eqb_spec total 0) as [->|_]; [lia|]. split; [done|].
  split; [|by intros x [= <-]; simpl; lia].
  pose proof (Views.percent_bounds elapsed total Ht He) as Hb. set (q := (_ * 100)%Q) in *.
  unfold js_round. split.
  - change 0 with (Qfloor 0). apply Qfloor_resp_le. lra.
  - assert (Hlt : Qfloor (q + (1 # 2)) < 101); [|lia]. rewrite Zlt_Qlt.
    eapply Qle_lt_trans; [apply Qfloor_le|]. change (inject_Z 101) with 101%Q. lra.
Qed.

Lemma progress_agrees_witness :
  exists p, trace handle (Scheduler.on_progress 299 600) Recorder.sample_world = [SM (StateManager.UpdateProgress p 299 600)] /\
    p = 50 /\ (progress (on_state_event (capture_progress p 299 600) initial) ≫= percentage) = Some p.
Proof.
  destruct (progress_agrees handle 299 600 Recorder.sample_world initial ltac:(lia) ltac:(lia)) as (p & Ht & Hp & _).
  exists p. split; [exact Ht|]. split; [|exact Hp]. vm_compute in Ht. by injection Ht as <-.
Defined.

(** The marker of the shift stays on its chart of 600 points. *)
Theorem marker_on_chart current min max : (min <= current <= max)%Q ->
  (0 <= marker_x current min max <= 600)%Q.
Proof.
  intros H. unfold marker_x, normalizedCurrent. destruct (0 <?q max - min) eqn:E; [|lra]. props.
  assert (H0 : (0 <= (current - min) / (max - min))%Q) by (apply Qle_shift_div_l; lra).
  assert (H1 : ((current - min) / (max - min) <= 1)%Q) by (apply Qle_shift_div_r; lra).
  set (q := ((current - min) / (max - min))%Q) in *. lra.
Qed.

(** The tooltip leaves room for itself at the right edge. *)
Theorem tooltip_inside w p : 0 < w -> tooltip_left (Some w) p + 160 <= w.
Proof. intros H. unfold tooltip_left. destruct w; lia. Qed.

(** ** The log *)

Definition log_ok (now : Z) (p : panel) : Prop :=
  (length (logs p) <= 101)%nat /\
  StronglySorted (fun a b => Views.le_timestamp a <= Views.le_timestamp b) (logs p) /\
  Forall (fun e => Views.le_timestamp e <= now) (logs p).

Lemma sorted_drop {A} (R : relation A) k l : StronglySorted R l -> StronglySorted R (drop k l).
Proof.
  revert k. induction l as [|x l IH]; intros [|k] H; simpl; [done..|]. inversion H. by apply IH.
Qed.

Lemma sorted_snoc {A} (R : relation A) l x :
  StronglySorted R l -> Forall (fun y => R y x) l -> StronglySorted R (l ++ [x]).
Proof.
  induction 1 as [|y l Hl IH Hy]; intros Hx; simpl; [by repeat constructor|].
  apply Forall_cons in Hx as [Hyx Hx]. constructor; [by apply IH|]. apply Forall_app. by repeat constructor.
Qed.

Lemma log_log_ok now0 now l m p : now0 <= now -> log_ok now0 p -> log_ok now (log now l m p).
Proof.
  intros Hn (H1 & H2 & H3). assert (Hd : Forall (fun e => Views.le_timestamp e <= now) (lastn 100 (logs p))).
  { apply Forall_drop. eapply Forall_impl; [exact H3|]. intros e He. simpl in *. lia. }
  unfold log_ok, log, Views.addLog. cbn [logs]. split; [|split].
  - rewrite length_app, length_lastn. cbn [length]. lia.
  - apply sorted_snoc; [by apply sorted_drop|exact Hd].
  - apply Forall_app. by repeat constructor.
Qed.

Definition event_time (now : Z) (e : panel_event) : Z := match e with Render t _ _ _ => t | _ => now end.

Lemma panel_step_ok now e p : now <= event_time now e -> log_ok now p -> log_ok (event_time now e) (panel_step e p).
Proof.
  intros Ht Hp. destruct e as [t w c s| |y|]; try exact Hp. simpl in *.
  assert (Hw : log_ok now p -> log_ok now (connection_effect t w p) \/ log_ok t (connection_effect t w p)).
  { intros H. unfold connection_effect. case_bool_decide; [by left|].
    assert (H' : log_ok now (mkPanel (logs p) (isResizing p) (panelHeight p) (Some (ws_connected w, ws_error w)))) by exact H.
    destruct (ws_connected w); [right; by eapply log_log_ok|].
    destruct (ws_error w) as [[|a m]|]; [by left|right; by eapply log_log_ok|by left]. }
  assert (Hlate : forall q, log_ok now q -> log_ok t q).
  { intros q (H1 & H2 & H3). split; [done|]. split; [done|]. eapply Forall_impl; [exact H3|]. simpl. lia. }
  assert (Hc : log_ok t (connection_effect t w p)) by (destruct (Hw Hp); auto).
  unfold state_effect. destruct s as [c'|]; [|done]. destruct c; [|done].
  by apply (log_log_ok t t).
Qed.

Fixpoint in_order (now : Z) (evs : list panel_event) : Prop :=
  match evs with
  | [] => True
  | e :: r => now <= event_time now e /\ in_order (event_time now e) r
  end.

(** The log of the panel keeps at most 101 entries, the last ones, in the order of their
    times. *)
Theorem log_bounded evs : forall now p, in_order now evs -> log_ok now p ->
  exists now', log_ok now' (foldl (fun p e => panel_step e p) p evs).
Proof.
  induction evs as [|e evs IH]; intros now p Ho Hp; [by exists now|]. destruct Ho as [Ht Ho].
  simpl. apply (IH (event_time now e)); [done|by apply panel_step_ok].
Qed.

(** Both weather satellites have the same short name. *)
Example short_names :
  map getShortName ["METEOR-M N2-3"; "METEOR-M N2-4"; "ISS"; "NOAA-19"; "fox"]%string =
  ["MET"; "MET"; "ISS"; "N19"; "FOX"]%string.
Proof. reflexivity. Qed.

End Cards.
