(* ===== verification/Widgets.v ===== *)
(** * Elements of the smaller components (src/frontend/src/components/)

    The trees that Tooltip, Footer, DopplerChart, ProgressSection, StatusCards, StatusBar,
    Header and PassesTable return, over the texts that Cards and Views compute.  Texts of
    the locale (dates, times) are parameters. *)

From S2P Require Import Prelude JsStd Html Types StateManager Effects Dashboard Events Views Controls App Cards.
Local Open Scope string_scope.

Module Widgets.
Import Html Dashboard.

(** ** Tooltip (Tooltip.tsx) *)

Inductive position := top | bottom | pos_left | right.

(* @src frontend/src/components/Tooltip.tsx:14-19 positionClasses *)
Definition positionClasses (p : position) : string :=
  match p with
  | top => "bottom-full left-1/2 -translate-x-1/2 mb-2"
  | bottom => "top-full left-1/2 -translate-x-1/2 mt-2"
  | pos_left => "right-full top-1/2 -translate-y-1/2 mr-2"
  | right => "left-full top-1/2 -translate-y-1/2 ml-2"
  end.

(* @src frontend/src/components/Tooltip.tsx:21-28 arrowClasses *)
Definition arrowClasses (p : position) : string :=
  match p with
  | top => "top-full left-1/2 -translate-x-1/2 border-t-bg-tertiary border-x-transparent border-b-transparent"
  | bottom => "bottom-full left-1/2 -translate-x-1/2 border-b-bg-tertiary border-x-transparent border-t-transparent"
  | pos_left => "left-full top-1/2 -translate-y-1/2 border-l-bg-tertiary border-y-transparent border-r-transparent"
  | right => "right-full top-1/2 -translate-y-1/2 border-r-bg-tertiary border-y-transparent border-l-transparent"
  end.

(** [isVisible] is the state of this tooltip, [setIsVisible] what its change is sent as. *)
(* @src frontend/src/components/Tooltip.tsx:30-55 Tooltip *)
Definition Tooltip {msg} (isVisible : bool) (setIsVisible : bool -> msg) (content : string)
  (position : position) (children : list (node msg)) : node msg :=
  let on := both (both (onMouseEnter (fun _ _ => [Send (setIsVisible true)]))
                       (onMouseLeave [Send (setIsVisible false)]))
                 (both (onFocus [Send (setIsVisible true)]) (onBlur [Send (setIsVisible false)])) in
  El "div" [] on
    (children ++
     show isVisible
       [ela "div" [cls (positionClasses position); attr "role" "tooltip"]
          [Text content; ela "div" [cls (arrowClasses position); attr "aria-hidden" "true"] []]]).

(** The visibility of tooltips, and the change a pointer or the focus makes. *)
Definition set_tip {K A} `{EqDecision K} (k : K) (b : A) (tips : K -> A) : K -> A :=
  fun k' => if decide (k' = k) then b else tips k'.

(** ** Footer (Footer.tsx) *)

(* @src frontend/src/components/Footer.tsx:30-71 Footer *)
Definition Footer (date_text : string -> string) (isVisible : bool) (version : option App.VersionInfo) : node bool :=
  el "footer"
    [el "div"
       [ela "a" [attr "href" "https://github.com/milesburton/night-watch"; attr "target" "_blank"; attr "rel" "noopener noreferrer"]
          [ela "svg" [attr "aria-hidden" "true"] [el "path" []]; el "span" [Text "GitHub"]];
        ela "a" [attr "href" "https://github.com/milesburton/night-watch/blob/main/docs/API.md"; attr "target" "_blank";
                 attr "rel" "noopener noreferrer"]
          [Text "API Docs"]];
     Tooltip isVisible id (Cards.footer_tooltip date_text version) top [el "span" [Text (Cards.footer_text version)]];
     el "span" [Text "MIT License"]].

(** ** DopplerChart (DopplerChart.tsx) *)

(* @src frontend/src/components/DopplerChart.tsx:8-54 DopplerChart *)
Definition DopplerChart {msg} (current min max : Q) (visible : bool) : list (node msg) :=
  let hz q := (Views.toFixed q 0 ++ " Hz")%string in
  show visible
    [el "div"
       [el "h2" [Text "Doppler Shift"];
        el "div"
          [el "div"
             [el "span" [Text ("Current: " ++ hz current)];
              el "span" [Text ("Range: " ++ Views.toFixed min 0 ++ " to " ++ hz max)]];
           ela "svg" [attr "viewBox" "0 0 600 100"; attr "preserveAspectRatio" "xMidYMid meet"]
             [el "title" [Text "Doppler Shift Chart"];
              ela "line" [attr "x1" "0"; attr "y1" "50"; attr "x2" "600"; attr "y2" "50"] [];
              ela "circle" [("cx", [Num (Cards.marker_x current min max)]); attr "cy" "50"; attr "r" "6"] [];
              ela "text" [attr "x" "10"; attr "y" "90"] [Text (hz min)];
              ela "text" [attr "x" "540"; attr "y" "90"; attr "textAnchor" "end"] [Text (hz max)]]]]].

(** ** ProgressSection (ProgressSection.tsx) *)

(* @src frontend/src/components/ProgressSection.tsx:10-37 SATELLITE_INFO *)
Definition SATELLITE_INFO : list (string * (string * string)) :=
  let russian := "Russian weather satellite transmitting LRPT images at 137.9 MHz. High-resolution digital imagery." in
  [ ("NOAA-15", ("Weather satellite transmitting APT images at 137.62 MHz. Launched in 1998.",
                 "https://en.wikipedia.org/wiki/NOAA-15"));
    ("NOAA-18", ("Weather satellite transmitting APT images at 137.9125 MHz. Launched in 2005.",
                 "https://en.wikipedia.org/wiki/NOAA-18"));
    ("NOAA-19", ("Weather satellite transmitting APT images at 137.1 MHz. Launched in 2009.",
                 "https://en.wikipedia.org/wiki/NOAA-19"));
    ("ISS", ("International Space Station. Occasionally transmits SSTV images at 145.8 MHz.",
             "https://en.wikipedia.org/wiki/International_Space_Station"));
    ("METEOR-M N2-3", (russian, "https://en.wikipedia.org/wiki/Meteor-M_N2-3"));
    ("METEOR-M N2-4", (russian, "https://en.wikipedia.org/wiki/Meteor-M_N2-4")) ].

Definition satellite_info (name : string) : option (string * string) :=
  snd <$> List.find (fun e => String.eqb (fst e) name) SATELLITE_INFO.

Definition signal_text (t : SignalType) : string := match t with sstv => "sstv" | lrpt => "lrpt" end.

(** [s || other] on a string that may be absent. *)
Definition or_text (s : option string) (other : string) : string :=
  match s with None | Some "" => other | Some t => t end.

(** A frequency in MHz, three decimals. *)
Definition mhz3 (hz : Z) : string := Views.toFixed (inject_Z hz / 1000000) 3.

Definition degrees (q : Q) (decimals : nat) : string := Views.toFixed q decimals ++ "°".

Definition percent_text (p : option Z) : string := match p with Some n => show_Z n | None => "NaN" end ++ "%".

(* @src frontend/src/components/ProgressSection.tsx:39-119 ProgressSection *)
Definition ProgressSection {msg} (progress : option CaptureProgress) (visible : bool)
  (currentPass : option SatellitePass) : list (node msg) :=
  match progress with
  | Some p =>
    let satName := or_text (si_name ∘ pass_satellite <$> currentPass) "Unknown" in
    let signalType := default "RF" (Cards.str_upper ∘ signal_text ∘ si_signalType ∘ pass_satellite <$> currentPass) in
    let percentage := percent_text (Cards.percentage p) in
    show visible
      [el "div"
        ([el "div"
            [el "div"
               [el "h2" [Text ("Capturing: " ++ satName)];
                el "p" [Text (signalType ++ " signal at ");
                        el "span" [Text (Views.formatFrequency (default 0%Z (si_frequency ∘ pass_satellite <$> currentPass)))]]];
             el "span" [Text "LIVE"]]] ++
         match satellite_info satName with
         | Some (description, wikiUrl) =>
             [el "div"
                [el "p" [Text description];
                 ela "a" [attr "href" wikiUrl; attr "target" "_blank"; attr "rel" "noopener noreferrer"]
                   [Text "Learn more on Wikipedia"; ela "svg" [attr "aria-hidden" "true"] [el "path" []]]]]
         | None => []
         end ++
         match currentPass with
         | Some pass =>
             [el "div"
                [el "div" [el "span" [Text "Max Elevation"]; el "p" [Text (degrees (pass_maxElevation pass) 1)]];
                 el "div" [el "span" [Text "Pass Duration"];
                           el "p" [Text (Views.formatDuration (Qfloor (pass_duration pass)))]]]]
         | None => []
         end ++
         [el "div"
            [el "div" [ela "div" [attr "style.width" percentage] []];
             el "div"
               [el "span" [Text percentage];
                el "span" [Text (Views.formatDuration (Cards.remaining p) ++ " remaining")]]]])]
  | None => []
  end.

(** ** StatusCards (StatusCards.tsx) *)

(* @src frontend/src/types/index.ts:90-94 CaptureSummary *)
Record Summary := mkSummary { total : Z; successful : Z; failed : Z }.

(** The fields the cards show. *)
(* @src frontend/src/types/index.ts:102-117 StationConfig *)
Record StationConfig := mkStationConfig {
  station_latitude : Q;
  station_longitude : Q;
  sdr_gain : Q;
  recording_minElevation : Q
}.

Inductive card_tip := tip_qth | tip_gain | tip_elevation | tip_total | tip_success | tip_failed.

#[global] Instance card_tip_eq_dec : EqDecision card_tip.
Proof. solve_decision. Defined.

Section Cards.
Context (number_text : Q -> string) (toLocaleString : Z -> string).
Context (tips : card_tip -> bool).

Definition card_tooltip (k : card_tip) : string -> position -> list (node (card_tip * bool)) -> node (card_tip * bool) :=
  Tooltip (tips k) (pair k).

(* @src frontend/src/components/StatusCards.tsx:52-111 StatusCards *)
Definition system_card (systemState : option ClientState) (config : option StationConfig) : node (card_tip * bool) :=
  let status := default (server_status idle) (cl_status <$> systemState) in
  let line label := el "strong" [Text label] in
  el "div"
    ([el "h2" [Text "System Status"];
      el "div" [ela "span" [cls ("status-badge status-" ++ Cards.status_name status)] [Text (Cards.card_status status)]]] ++
     match systemState ≫= cl_currentPass with
     | Some p =>
         [el "div"
            [el "p" [line "Current:"; Text (" " ++ si_name (pass_satellite p))];
             el "p" [line "Frequency:"; Text " "; el "span" [Text (Views.formatFrequency (si_frequency (pass_satellite p)))]];
             el "p" [line "Max Elevation:"; Text (" " ++ degrees (pass_maxElevation p) 1)]]]
     | None => []
     end ++
     match config with
     | Some c =>
         [el "div"
            [card_tooltip tip_qth "Ground station coordinates (latitude, longitude)" right
               [el "p" [line "QTH:"; Text " ";
                        el "span" [Text (degrees (station_latitude c) 4 ++ ", " ++ degrees (station_longitude c) 4)]]];
             card_tooltip tip_gain "RTL-SDR receiver gain setting (higher = more sensitive but more noise)" right
               [el "p" [line "SDR Gain:"; Text " "; el "span" [Text (number_text (sdr_gain c))]]];
             card_tooltip tip_elevation "Minimum satellite elevation above horizon to start recording" right
               [el "p" [line "Min Elevation:"; Text " "; el "span" [Text (number_text (recording_minElevation c) ++ "°")]]]]]
     | None => []
     end).

(* @src frontend/src/components/StatusCards.tsx:113-128 StatusCards *)
Definition next_pass_card (nextPass : option SatellitePass) (countdown : string) : node (card_tip * bool) :=
  el "div"
    [el "h2" [Text "Next Pass"];
     match nextPass with
     | Some p =>
         el "div"
           [el "p" [Text (si_name (pass_satellite p))];
            el "p" [Text (Views.formatFrequency (si_frequency (pass_satellite p)))];
            el "p" [Text (toLocaleString (pass_aos p))];
            el "p" [Text countdown]]
     | None => el "p" [Text "No upcoming passes"]
     end].

(* @src frontend/src/components/StatusCards.tsx:130-158 StatusCards *)
Definition statistics_card (summary : option Summary) : node (card_tip * bool) :=
  let count f := Text (show_Z (default 0%Z (f <$> summary))) in
  let box n label := [el "div" [el "span" [n]; el "span" [Text label]]] in
  el "div"
    [el "h2" [Text "Statistics"];
     el "div"
       [card_tooltip tip_total "Total number of satellite passes captured" bottom (box (count total) "Total");
        card_tooltip tip_success "Passes with successfully decoded images" bottom (box (count successful) "Success");
        card_tooltip tip_failed "Passes that failed to decode or had poor signal quality" bottom
          (box (count failed) "Failed")]].

(* @src frontend/src/components/StatusCards.tsx:50-160 StatusCards *)
Definition StatusCards (systemState : option ClientState) (nextPass : option SatellitePass) (countdown : string)
  (summary : option Summary) (config : option StationConfig) : node (card_tip * bool) :=
  el "div" [system_card systemState config; next_pass_card nextPass countdown; statistics_card summary].
End Cards.

(** ** StatusBar (StatusBar.tsx) *)

(* @src frontend/src/components/StatusBar.tsx:46-54 getSdrStatus *)
Definition bar_sdr_class (st : ClientStatus) (sdrConnected : bool) : string :=
  match st with
  | client_recording | server_status scanning => "bg-success shadow-[0_0_6px_var(--success)]"
  | _ => if sdrConnected then "bg-success" else "bg-warning animate-pulse"
  end.

(* @src frontend/src/components/StatusBar.tsx:71-112 StatusBar *)
Definition StatusBar {msg} (date_text : string -> string) (status : ClientStatus) (nextPass : option SatellitePass)
  (sdrConnected : bool) (version : option App.VersionInfo) (wsConnected : bool) (onDiagnosticsToggle : msg)
  (diagnosticsOpen : bool) : node msg :=
  el "footer"
    [el "div"
       [el "div"
          [ela "span" [cls (bar_sdr_class status sdrConnected)] []; el "span" [Text (Cards.bar_sdr status sdrConnected)]]];
     el "div" [el "span" [Text (Cards.bar_message status nextPass)]];
     el "div"
       [El "button" [attr "type" "button"; cls (if diagnosticsOpen then "bg-bg-tertiary" else "");
                     attr "title" "Toggle Diagnostics Panel"] (onClick [Send onDiagnosticsToggle])
          ([el "svg" [el "title" [Text "Diagnostics Icon"]; el "path" []]; el "span" [Text "Diagnostics"]] ++
           show (negb wsConnected) [ela "span" [cls "bg-error"] []]);
        el "span" [Text (Cards.bar_version date_text version)]]].

(** ** Header (Header.tsx) *)

(* @src frontend/src/components/Header.tsx:53-60 Header *)
Definition header_class (st : ClientStatus) : string :=
  match st with
  | server_status idle => "bg-text-secondary/20 text-text-secondary"
  | server_status waiting => "bg-warning/20 text-warning"
  | client_recording => "bg-accent/20 text-accent animate-pulse"
  | server_status decoding => "bg-success/20 text-success"
  | server_status scanning => "bg-purple/20 text-purple animate-pulse"
  | server_status capturing => ""
  end.

Inductive header_tip := tip_status | tip_connection.

(* @src frontend/src/components/Header.tsx:47-84 Header *)
Definition Header (tips : header_tip -> bool) (status : ClientStatus) (statusMessage : option string)
  (connected : bool) : node (header_tip * bool) :=
  el "header"
    [el "h1" [Text "RFCapture"];
     el "div"
       [Tooltip (tips tip_status) (pair tip_status) (Cards.header_tooltip status) bottom
          [ela "span" [cls (header_class status)] [Text (Cards.header_status status statusMessage)]];
        Tooltip (tips tip_connection) (pair tip_connection)
          (if connected then "WebSocket connection to server is active"
           else "Lost connection to server, attempting to reconnect") bottom
          [ela "div" [cls (if connected then "bg-success/20 text-success" else "bg-error/20 text-error")]
             [Text (if connected then "Connected" else "Disconnected")]]]].

(** ** PassesTable (PassesTable.tsx); [formatTime] is the locale's text *)

Section Table.
Context {msg : Type} (formatTime : Z -> string).

(* @src frontend/src/components/PassesTable.tsx:54-89 PassesTable *)
Definition pass_row (index : nat) (pass : SatellitePass) : node msg :=
  ela "tr" [cls (if Nat.eqb index 0 then "bg-accent/5" else "")]
    [el "td" [Text (si_name (pass_satellite pass))];
     el "td" [ela "span" [cls (Cards.getSignalBadgeClass (si_signalType (pass_satellite pass)))]
                [Text (signal_text (si_signalType (pass_satellite pass)))]];
     el "td" [Text (mhz3 (si_frequency (pass_satellite pass)) ++ " MHz")];
     el "td" [Text (formatTime (pass_aos pass))];
     el "td" [Text (Views.formatDuration (Qfloor (pass_duration pass)))];
     el "td" [ela "span" [cls (Cards.elevation_class (pass_maxElevation pass))]
                [Text (degrees (pass_maxElevation pass) 1)]]].

(* @src frontend/src/components/PassesTable.tsx:28-96 PassesTable *)
Definition PassesTable (passes : list SatellitePass) : node msg :=
  match passes with
  | [] => el "div" [el "h2" [Text "Upcoming Passes"]; el "p" [Text "No upcoming passes scheduled"]]
  | _ =>
      el "div"
        [el "h2" [Text "Upcoming Passes"];
         el "div"
           [el "table"
              [el "thead"
                 [el "tr" (map (fun t => el "th" [Text t]) ["Satellite"; "Signal"; "Frequency"; "Time"; "Duration"; "Max Elev"])];
               el "tbody" (imap pass_row passes)]]]
  end.
End Table.

(** ** SstvToggle (SstvToggle.tsx) *)

Section Switches.
Context (toLocaleString : string -> string) (tips : App.chip -> bool).

Inductive switch_msg := Switch (e : Controls.event) | SwitchTip (c : App.chip) (visible : bool).

(** One of the two switches: [active] is whether the station is at it. *)
Definition switch (c : App.chip) (active enabled loading : bool) (badge active_class on_class title text tooltip : string)
  (e : Controls.event) : node switch_msg :=
  let state := if enabled then "Enabled" else "Disabled" in
  el "div"
    [el "div"
       [el "h3" [Text title];
        ela "span" [cls (if active then active_class else if enabled then "bg-success/20 text-success"
                         else "bg-text-muted/20 text-text-muted")] [Text badge]];
     el "p" [Text text];
     el "div"
       [Tooltip (tips c) (SwitchTip c) tooltip right
          [El "button"
             ([attr "type" "button";
               cls ((if enabled then on_class else "bg-bg-tertiary") ++
                    (if loading then " opacity-50 cursor-not-allowed" else " cursor-pointer"))] ++ flag "disabled" loading)
             (onClick [Send (Switch e)])
             [ela "span" [cls (if enabled then "translate-x-6" else "translate-x-1")] []]];
        el "span" [Text (if loading then "Updating..." else state)]]].

(* @src frontend/src/components/SstvToggle.tsx:74-114 SstvToggle *)
Definition iss_switch (status : option SSTVStatus) (t : Controls.toggle) : node switch_msg :=
  switch App.iss (bool_decide (ss_status <$> status = Some capturing)) (Controls.enabled t) (Controls.isLoading t)
    (Controls.sstv_badge status t) "bg-accent/20 text-accent" "bg-accent" "ISS SSTV Capture"
    "Enable capture for ISS SSTV events (145.800 MHz)" "Toggle ISS SSTV capture on scheduled events" Controls.EClick.

(* @src frontend/src/components/SstvToggle.tsx:116-160 SstvToggle *)
Definition ground_switch (status : option SSTVStatus) (t : Controls.toggle) : node switch_msg :=
  switch App.ground (bool_decide (ss_status <$> status = Some scanning)) (Controls.groundScanEnabled t)
    (Controls.isLoadingGround t) (Controls.ground_badge status t) "bg-purple/20 text-purple animate-pulse" "bg-purple"
    "2M Ground SSTV Scanning"
    "Scan 2M frequencies for ground-based SSTV transmissions during idle time (144.5, 145.5, 145.8 MHz)"
    "Scan for ground-based SSTV signals when no satellite passes are scheduled" Controls.EClickGround.

(* @src frontend/src/components/SstvToggle.tsx:67-168 SstvToggle *)
Definition SstvToggle (lastCapture : option string) (status : option SSTVStatus) (t : Controls.toggle) : node switch_msg :=
  el "div"
    ([el "h2" [Text "SSTV Settings"]; iss_switch status t; ground_switch status t] ++
     match lastCapture with
     | None | Some "" => []
     | Some time => [el "p" [Text ("Last SSTV capture: " ++ toLocaleString time)]]
     end).
End Switches.

(** ** Facts *)

(** The pointer and the focus show and hide a tooltip. *)
Lemma tooltip_events {msg} (set : bool -> msg) b content pos (children : list (node msg)) e :
  dispatch e [0%nat] [Tooltip b set content pos children] =
  match e with MouseEnter _ _ | Focus => [set true] | MouseLeave | Blur => [set false] | _ => [] end.
Proof. by destruct e. Qed.

Lemma tooltip_shown {msg} (set : bool -> msg) b content pos (children : list (node msg)) :
  by_attr "role" "tooltip" children = [] ->
  text_content (by_attr "role" "tooltip" [Tooltip b set content pos children]) = if b then content else "".
Proof.
  intros Hc. unfold Tooltip. rewrite by_attr_el. cbn [has_attr get_attr attrs_of List.find fmap option_fmap option_map app].
  rewrite by_attr_app, Hc. destruct b; [|done]. cbn. unfold text_content. cbn. by rewrite !str_app_nil.
Qed.

(** The table has a row for each pass, in their order, under the row of its titles; a table
    without passes has none. *)
Theorem table_rows {msg} formatTime (passes : list SatellitePass) :
  by_tag "tr" [@PassesTable msg formatTime passes] =
  match passes with
  | [] => []
  | _ => el "tr" (map (fun t => el "th" [Text t]) ["Satellite"; "Signal"; "Frequency"; "Time"; "Duration"; "Max Elev"])
         :: imap (pass_row formatTime) passes
  end.
Proof.
  destruct passes as [|p l]; [done|]. unfold PassesTable, el, ela.
  rewrite by_tag_el, by_tag_cons, !by_tag_el, by_tag_cons, !by_tag_el, by_tag_each by done. reflexivity.
Qed.

End Widgets.
