(* ===== verification/TimelineView.v ===== *)
(** * The elements of the timeline (src/frontend/src/components/PassTimeline.tsx)

    The countdown, the marks of the hours, a bar for every visible pass, and the tooltip
    that follows the pointer over a bar. *)

From S2P Require Import Prelude JsStd Html Types StateManager Effects Views Cards Widgets.
Local Open Scope string_scope.

Module TimelineView.
Import Html.

Definition icon_text (i : Cards.icon) : string :=
  match i with Cards.dish => "🛰" | Cards.rocket => "🚀" | Cards.antenna => "📡" end.

Section View.
Context (formatTime : Z -> string).

(** [===] on two passes: whether they are the same object. *)
Context (same : SatellitePass -> SatellitePass -> bool).

Definition sat_icon (p : SatellitePass) : string := icon_text (Cards.getSatIcon (si_name (pass_satellite p))).
Definition sat_short (p : SatellitePass) : string := Cards.getShortName (si_name (pass_satellite p)).

(* @src frontend/src/components/PassTimeline.tsx:134-161 PassTimeline *)
Definition countdown_panel (now hoursAhead : Z) (passes : list SatellitePass) : node Cards.pointer_event :=
  el "div"
    [match Views.countdown now hoursAhead passes with
     | Some (nextPass, msToNext, isPassActive) =>
         el "div"
           [el "div"
              [el "span" [Text (sat_icon nextPass)];
               ela "span" [cls (Cards.getPassColor nextPass).1.2] [Text (sat_short nextPass)]];
            ela "div" [cls (if isPassActive then "text-success animate-pulse" else "text-warning")]
              [Text (Views.timelineCountdown msToNext)]]
     | None => el "span" [Text "No passes"]
     end].

(* @src frontend/src/components/PassTimeline.tsx:165-181 PassTimeline *)
Definition track (hoursAhead : Z) : node Cards.pointer_event :=
  el "div"
    (el "div" [] ::
     map (fun '(hour, pos) =>
            ela "div" [("style.left", [Num pos; Lit "%"])]
              [el "div" []; el "span" [Text (show_Z hour ++ "h")]])
       (Views.hourMarkers hoursAhead)).

(* @src frontend/src/components/PassTimeline.tsx:184-222 PassTimeline *)
Definition bar (now hoursAhead : Z) (hovered : option SatellitePass) (pass : SatellitePass) : node Cards.pointer_event :=
  let startPos := Views.getPassStartPos now hoursAhead pass in
  let width := Views.getPassWidth now hoursAhead pass in
  let '(bg, _, border) := Cards.getPassColor pass in
  let isHovered := match hovered with Some h => same h pass | None => false end in
  El "div"
    [cls (Views.cn [Some bg; Some border; Some (if isHovered then "h-8 z-20 shadow-lg" else "z-10")]);
     ("style.left", [Lit "calc("; Num startPos; Lit "% + 16px)"]);
     ("style.width", [Lit "max("; Num width; Lit "%, 24px)"]);
     ("style.opacity", [Num (Views.getElevationOpacity (pass_maxElevation pass))])]
    (both (onMouseEnter (fun x y => [Send (Cards.MouseEnter x y pass)])) (onMouseLeave [Send Cards.MouseLeave]))
    [el "div"
       ([el "span" [Text (sat_short pass)]] ++
        show (3 <?q width) [el "span" [Text (Widgets.degrees (pass_maxElevation pass) 0)]])].

(** [offsetWidth] is that of the container. *)
(* @src frontend/src/components/PassTimeline.tsx:224-250 PassTimeline *)
Definition tooltip (offsetWidth : option Z) (p : Cards.pointer) : list (node Cards.pointer_event) :=
  match Cards.hoveredPass p with
  | Some pass =>
      [ela "div" [("style.left", [Num (inject_Z (Cards.tooltip_left offsetWidth p))]); ("style.top", [Num 36])]
         [el "div"
            [el "div" [el "span" [Text (sat_icon pass)]; el "span" [Text (si_name (pass_satellite pass))]];
             el "div" [Text (formatTime (pass_aos pass) ++ " → " ++ formatTime (pass_los pass))];
             el "div"
               [el "span" [Text ("El: " ++ Widgets.degrees (pass_maxElevation pass) 0)];
                el "span" [Text (Cards.timelineDuration (pass_aos pass) (pass_los pass))]];
             el "div" [Text (Widgets.mhz3 (si_frequency (pass_satellite pass)) ++ " MHz")]]]]
  | None => []
  end.

(* @src frontend/src/components/PassTimeline.tsx:163-258 PassTimeline *)
Definition timeline_area (now hoursAhead : Z) (passes : list SatellitePass) (offsetWidth : option Z)
  (p : Cards.pointer) : node Cards.pointer_event :=
  let visible := Views.visiblePasses now hoursAhead passes in
  el "div"
    (track hoursAhead :: map (bar now hoursAhead (Cards.hoveredPass p)) visible ++
     tooltip offsetWidth p ++
     match visible with
     | [] => [el "span" [Text ("No passes in next " ++ show_Z hoursAhead ++ "h")]]
     | _ => []
     end).

(* @src frontend/src/components/PassTimeline.tsx:127-260 PassTimeline *)
Definition PassTimeline (now hoursAhead : Z) (passes : list SatellitePass) (offsetWidth : option Z)
  (p : Cards.pointer) : node Cards.pointer_event :=
  El "div" [attr "data-testid" "pass-timeline"] (onMouseMove (fun x y => [Send (Cards.MouseMove x y)]))
    [countdown_panel now hoursAhead passes; timeline_area now hoursAhead passes offsetWidth p].

(** ** Facts *)

(** The handlers inside the timeline are those of the bars, which do not react to a move. *)
Lemma timeline_inert now hoursAhead passes w p x y :
  forallb (inert (MouseMove x y)) (children_of (PassTimeline now hoursAhead passes w p)) = true.
Proof.
  cbn [children_of PassTimeline forallb]. unfold countdown_panel, timeline_area.
  assert (Hbar : forall q, inert (MouseMove x y) (bar now hoursAhead (Cards.hoveredPass p) q) = true).
  { intros q. unfold bar. destruct (Cards.getPassColor q) as [[? ?] ?], (3 <?q Views.getPassWidth now hoursAhead q); done. }
  apply andb_true_iff. split; [by destruct (Views.countdown _ _ _) as [[[? ?] ?]|]|].
  rewrite andb_true_r. cbn. apply andb_true_iff. split.
  - unfold track. cbn. apply forallb_forall. intros n Hn. apply in_map_iff in Hn as ([h q] & <- & _). done.
  - rewrite !forallb_app. apply andb_true_iff. split.
    + apply forallb_forall. intros n Hn. apply in_map_iff in Hn as (q & <- & _). apply Hbar.
    + unfold tooltip. by destruct (Cards.hoveredPass p), (Views.visiblePasses _ _ _).
Qed.

(** The pointer enters or leaves the bar of a visible pass. *)
Lemma at_bar now hoursAhead passes w p i pass e :
  Views.visiblePasses now hoursAhead passes !! i = Some pass -> bubbles e = false ->
  dispatch e [0; 1; S i]%nat [PassTimeline now hoursAhead passes w p] =
  match e with
  | MouseEnter x y => [Cards.MouseEnter x y pass]
  | MouseLeave => [Cards.MouseLeave]
  | _ => []
  end.
Proof.
  intros Hi He. erewrite dispatch_own; [|done|reflexivity|].
  2:{ erewrite chain_child by reflexivity. erewrite chain_child; [reflexivity|]. by apply lookup_map_app. }
  unfold bar. destruct (Cards.getPassColor pass) as [[? ?] ?]. by destruct e.
Qed.

(** The pointer anywhere on the timeline. *)
Lemma at_timeline now hoursAhead passes w p path x y :
  dispatch (MouseMove x y) (0%nat :: path) [PassTimeline now hoursAhead passes w p] = [Cards.MouseMove x y].
Proof.
  erewrite dispatch_bubble by reflexivity. by rewrite bubble_children by apply timeline_inert.
Qed.

(** What the pointer of the component is after an event at an element. *)
Definition user (rect : option (Z * Z)) (e : dom_event) (path : list nat) (now hoursAhead : Z)
  (passes : list SatellitePass) (w : option Z) (p : Cards.pointer) : Cards.pointer :=
  foldl (fun p m => Cards.point rect m p) p (dispatch e path [PassTimeline now hoursAhead passes w p]).

(** The pointer over the bar of a pass brings up the tooltip of that pass, which follows
    it anywhere on the timeline and stays inside its right edge; it goes when the pointer
    leaves the bar, and does not come back by moving. *)
Theorem tooltip_follows now hoursAhead passes w p l t i pass path x y x' y'
  (Hi : Views.visiblePasses now hoursAhead passes !! i = Some pass) (Hw : (0 < w)%Z) :
  let user e path p := user (Some (l, t)) e path now hoursAhead passes (Some w) p in
  let p1 := user (MouseEnter x y) [0; 1; S i]%nat p in
  let p2 := user (MouseMove x' y') (0 :: path)%nat p1 in
  let p3 := user MouseLeave [0; 1; S i]%nat p2 in
  Cards.hoveredPass p1 = Some pass /\ Cards.tooltipPos p1 = (x - l, y - t)%Z /\
  Cards.hoveredPass p2 = Some pass /\ Cards.tooltipPos p2 = (x' - l, y' - t)%Z /\
  (Cards.tooltip_left (Some w) p2 + 160 <= w)%Z /\
  tooltip (Some w) p3 = [] /\ tooltip (Some w) (user (MouseMove x y) (0 :: path)%nat p3) = [].
Proof.
  cbv zeta. unfold user. rewrite (at_bar _ _ _ _ p i pass (MouseEnter x y) Hi eq_refl). cbn [foldl Cards.point].
  rewrite at_timeline. cbn [foldl Cards.point Cards.hoveredPass Cards.tooltipPos].
  rewrite (at_bar _ _ _ _ _ i pass MouseLeave Hi eq_refl). cbn [foldl Cards.point Cards.hoveredPass].
  rewrite at_timeline. repeat (split; [done|]). split; [|done].
  unfold Cards.tooltip_left. cbn [Cards.tooltipPos fst]. destruct w; lia.
Qed.

(** Where the bars of a view begin, and how wide they are, in percent of the track. *)
Definition bar_span {msg} (n : node msg) : option (Q * Q) :=
  match get_attr "style.left" n, get_attr "style.width" n with
  | Some [Lit _; Num start; Lit _], Some [Lit _; Num width; Lit _] => Some (start, width)
  | _, _ => None
  end.

Definition spans {msg} (l : list (node msg)) : list (Q * Q) := omap bar_span (all_elements l).

Lemma spans_app {msg} (l k : list (node msg)) : spans (l ++ k)%list = (spans l ++ spans k)%list.
Proof. unfold spans. by rewrite all_elements_app, omap_app. Qed.

Lemma spans_el {msg} tag attrs on (children : list (node msg)) :
  spans [El tag attrs on children] = (option_list (bar_span (El tag attrs on children)) ++ spans children)%list.
Proof.
  unfold spans, all_elements. cbn [map concat elements]. rewrite app_nil_r. cbn [omap list_omap].
  by destruct (bar_span (El tag attrs on children)).
Qed.

Lemma spans_map {A msg} (f : A -> node msg) l : spans (map f l) = concat (map (fun a => spans [f a]) l).
Proof.
  induction l as [|a l IH]; [done|]. cbn [map concat].
  change (f a :: map f l) with ([f a] ++ map f l)%list. by rewrite spans_app, IH.
Qed.

Lemma spans_track hoursAhead : spans [track hoursAhead] = [].
Proof.
  unfold track, el, ela. rewrite spans_el. cbn [bar_span get_attr attrs_of List.find fmap option_fmap option_map option_list app].
  change (?a :: ?l) with ([a] ++ l)%list. rewrite spans_app, spans_map. cbn [app].
  induction (Views.hourMarkers hoursAhead) as [|[h q] l IH]; [done|]. exact IH.
Qed.

Lemma spans_bar now hoursAhead h pass : spans [bar now hoursAhead h pass] =
  [(Views.getPassStartPos now hoursAhead pass, Views.getPassWidth now hoursAhead pass)].
Proof. unfold bar. destruct (Cards.getPassColor pass) as [[? ?] ?]. by destruct (3 <?q _). Qed.

Lemma spans_countdown now hoursAhead passes : spans [countdown_panel now hoursAhead passes] = [].
Proof. unfold countdown_panel. by destruct (Views.countdown now hoursAhead passes) as [[[? ?] ?]|]. Qed.

Lemma spans_area now hoursAhead passes w p : spans [timeline_area now hoursAhead passes w p] =
  map (fun pass => (Views.getPassStartPos now hoursAhead pass, Views.getPassWidth now hoursAhead pass))
    (Views.visiblePasses now hoursAhead passes).
Proof.
  unfold timeline_area, el, ela. rewrite spans_el. change (?a :: ?l) with ([a] ++ l)%list.
  rewrite !spans_app, spans_track, spans_map. set (l := Views.visiblePasses now hoursAhead passes).
  assert (Ht : spans (tooltip w p) = []) by (unfold tooltip; by destruct (Cards.hoveredPass p)).
  assert (Hb : forall l, concat (map (fun a => spans [bar now hoursAhead (Cards.hoveredPass p) a]) l) =
    map (fun pass => (Views.getPassStartPos now hoursAhead pass, Views.getPassWidth now hoursAhead pass)) l).
  { intros k. induction k as [|q k IH]; [done|]. cbn [map concat]. by rewrite spans_bar, IH. }
  rewrite Ht, Hb. by destruct l; rewrite ?app_nil_r.
Qed.

(** The bars of the timeline are those of the visible passes, one each, in their order;
    each begins and ends on the track. *)
Theorem timeline_bars now hoursAhead passes w p (Hh : (0 < hoursAhead)%Z)
  (Hp : Forall (fun pass => (pass_aos pass <= pass_los pass)%Z) passes) :
  let l := spans [PassTimeline now hoursAhead passes w p] in
  l = map (fun pass => (Views.getPassStartPos now hoursAhead pass, Views.getPassWidth now hoursAhead pass))
        (Views.visiblePasses now hoursAhead passes) /\
  Forall (fun s => 0 <= s.1 /\ 0 <= s.2 /\ s.1 + s.2 <= 100)%Q l.
Proof.
  cbv zeta. match goal with |- ?a = ?b /\ _ => assert (E : a = b) end.
  { unfold PassTimeline. rewrite spans_el. change ([?a; ?b]) with ([a] ++ [b])%list.
    by rewrite spans_app, spans_countdown, spans_area. }
  split; [exact E|]. rewrite E. apply Forall_map, Forall_forall. intros pass Hin.
  apply Views.timeline_inside with passes; [done..|].
  apply js_filter_elem in Hin as [Hin _]. by rewrite Forall_forall in Hp; apply Hp.
Qed.

End View.

(** Two passes of the ISS, the first under way at 0. *)
Local Notation sample_pass a l :=
  (mkPass (mkSatelliteInfo "ISS" 25544 145800000 sstv (SIGNAL_CONFIGS sstv) false (Some true)) a l 45 0%Z 600).
Local Notation sample_passes := [sample_pass (-60000)%Z 540000%Z; sample_pass 3600000%Z 4200000%Z].

Lemma tooltip_follows_witness :
  let user e path p := user show_Z (fun _ _ => false) (Some (10, 20)%Z) e path 0%Z 12%Z sample_passes (Some 800%Z) p in
  let p1 := user (MouseEnter 110 30) [0; 1; 2]%nat (Cards.mkPointer None (0, 0)%Z) in
  Cards.hoveredPass p1 = Some (sample_pass 3600000%Z 4200000%Z) /\ Cards.tooltipPos p1 = (100, 10)%Z.
Proof.
  destruct (tooltip_follows show_Z (fun _ _ => false) 0%Z 12%Z sample_passes 800 (Cards.mkPointer None (0, 0)%Z) 10 20 1
    (sample_pass 3600000%Z 4200000%Z) [] 110 30 0 0 eq_refl eq_refl) as (H1 & H2 & _). split; [exact H1|exact H2].
Defined.

Lemma timeline_bars_witness :
  length (spans [PassTimeline show_Z (fun _ _ => false) 0%Z 12%Z sample_passes None (Cards.mkPointer None (0, 0)%Z)]) = 2%nat /\
  Forall (fun s => 0 <= s.1 /\ 0 <= s.2 /\ s.1 + s.2 <= 100)%Q
    (spans [PassTimeline show_Z (fun _ _ => false) 0%Z 12%Z sample_passes None (Cards.mkPointer None (0, 0)%Z)]).
Proof.
  destruct (timeline_bars show_Z (fun _ _ => false) 0%Z 12%Z sample_passes None (Cards.mkPointer None (0, 0)%Z) eq_refl) as [E H].
  - repeat constructor; vm_compute; discriminate.
  - split; [by rewrite E|exact H].
Defined.

End TimelineView.
