(* ===== verification/TrackingView.v ===== *)
(** * The elements of the tracking component (src/frontend/src/components/SatelliteTracking.tsx)

    The tabs, the buttons of the frequencies, the canvases with the badge beside the
    waterfall, and what a click on them does to the page: the frequency the page asks the
    server for follows the buttons. *)

From S2P Require Import Prelude JsStd Html Types StateManager Effects FftStream Dashboard Tracking Waterfall Views Canvas Widgets.
Local Open Scope string_scope.

Module TrackingView.
Import Html.

(** ** WaterfallView (WaterfallView.tsx) *)

(* @src frontend/src/components/WaterfallView.tsx:286-286 WaterfallView *)
Definition badge_class (v : Canvas.view) : string :=
  match Canvas.truthy (Canvas.v_fftError v) with
  | Some _ => "bg-red-500"
  | None =>
      if Canvas.v_fftRunning v then
        if Canvas.v_isActive v then "bg-success animate-pulse"
        else if Canvas.v_isScanning v then "bg-purple animate-pulse" else "bg-accent"
      else "bg-text-muted"
  end.

(* @src frontend/src/components/WaterfallView.tsx:288-298 WaterfallView *)
Definition badge_text (v : Canvas.view) : string :=
  match Canvas.truthy (Canvas.v_fftError v) with
  | Some _ => "No Hardware"
  | None =>
      if Canvas.v_fftRunning v then
        if Canvas.v_isActive v then "Signal Active"
        else if Canvas.v_isScanning v then "Scanning" else "Monitoring"
      else "Offline"
  end.

(** The handlers of the canvas call [handleClick], which does nothing. *)
(* @src frontend/src/components/WaterfallView.tsx:262-301 WaterfallView *)
Definition WaterfallView {msg} (v : Canvas.view) : node msg :=
  el "div"
    [ela "canvas" [attr "width" "600"; attr "height" "350"; attr "role" "button"; attr "tabIndex" "0"] [];
     el "div" [ela "span" [cls (badge_class v)] []; el "span" [Text (badge_text v)]]].

(** ** SatelliteTracking (SatelliteTracking.tsx) *)

(* @src frontend/src/components/SatelliteTracking.tsx:131-139 SkyView *)
Definition SkyView {msg} : node msg :=
  ela "canvas" [attr "width" "350"; attr "height" "350"; attr "data-testid" "sky-view"] [].

(* @src frontend/src/components/SatelliteTracking.tsx:353-375 SpectrumWaterfall *)
Definition SpectrumWaterfall {msg} : node msg :=
  ela "canvas" [attr "width" "1200"; attr "height" "400"; attr "role" "button"; attr "tabIndex" "0";
                attr "data-testid" "spectrum-waterfall"] [].

(** The frequencies with their labels and tooltips. *)
(* @src frontend/src/components/SatelliteTracking.tsx:8-11 SSTV_2M_FREQUENCIES *)
Definition frequency_texts : list (string * string) :=
  [("144.500", "SSB SSTV calling frequency (UK/EU)"); ("145.500", "FM SSTV calling frequency")].

(** *** What is passed down to the views *)

Section Props.
Context (p : Tracking.page).

Definition system : option Dashboard.ClientState := Dashboard.systemState (Tracking.dash p).

(* @src frontend/src/App.tsx:384-384 currentPass *)
Definition currentPass : option SatellitePass := system ≫= Dashboard.cl_currentPass.

(* @src frontend/src/components/SatelliteTracking.tsx:396-396 isScanning *)
Definition isScanning : bool :=
  match Dashboard.cl_status <$> system with
  | Some (Dashboard.server_status scanning) => true
  | _ => false
  end.

(* @src frontend/src/components/SatelliteTracking.tsx:497-505 WaterfallView *)
Definition waterfall_props : Canvas.view :=
  Canvas.mkView (Some (Tracking.getCurrentFrequency p))
    ((fun c => si_name (pass_satellite c)) <$> currentPass)
    (match currentPass with Some _ => true | None => false end)
    false (Dashboard.fs_running (Dashboard.fftState (Tracking.dash p)))
    (Dashboard.fs_error (Dashboard.fftState (Tracking.dash p))).

(* @src frontend/src/components/SatelliteTracking.tsx:511-519 SpectrumWaterfall *)
Definition spectrum_props (latest : option FFTData) : Canvas.spectrum :=
  Canvas.mkSpectrum (Tracking.getCurrentFrequency p)
    (if isScanning then system ≫= Dashboard.cl_scanningFrequencyName
     else fst <$> frequency_texts !! Tracking.sstvFreqIndex p)
    isScanning (Dashboard.fs_running (Dashboard.fftState (Tracking.dash p))) latest.
End Props.

(** Identifier, label, whether its colour is purple, and tooltip. *)
(* @src frontend/src/components/SatelliteTracking.tsx:425-438 tabs *)
Definition tabs : list (Tracking.ViewMode * string * bool * string) :=
  [ (Tracking.satellite, "Satellites", false, "Track METEOR-M weather satellites and ISS passes");
    (Tracking.sstv_2m, "2M SSTV", true, "Monitor 2-meter amateur radio SSTV frequencies") ].

#[global] Instance view_mode_eq_dec : EqDecision Tracking.ViewMode.
Proof. solve_decision. Defined.

Inductive tip := tip_tab (m : Tracking.ViewMode) | tip_frequency (i : nat).

#[global] Instance tracking_tip_eq_dec : EqDecision tip.
Proof. solve_decision. Defined.

Inductive msg := Do (e : Tracking.event) | Tip (t : tip) (visible : bool).

Section View.
Context (tips : tip -> bool).

(* @src frontend/src/components/SatelliteTracking.tsx:444-461 SatelliteTracking *)
Definition tab_button (mode : Tracking.ViewMode) (tab : Tracking.ViewMode * string * bool * string) : node msg :=
  let '(id, label, purple, tooltip) := tab in
  Widgets.Tooltip (tips (tip_tab id)) (Tip (tip_tab id)) tooltip Widgets.bottom
    [El "button"
       [attr "type" "button";
        cls (if decide (mode = id) then if purple then "border-purple text-purple" else "border-accent text-accent"
             else "border-transparent text-text-secondary hover:text-text-primary hover:border-border")]
       (onClick [Send (Do (Tracking.ESetMode id))]) [Text label]].

(* @src frontend/src/components/SatelliteTracking.tsx:466-481 SatelliteTracking *)
Definition frequency_button (sstvFreqIndex idx : nat) (f : string * string) : node msg :=
  Widgets.Tooltip (tips (tip_frequency idx)) (Tip (tip_frequency idx)) f.2 Widgets.bottom
    [El "button"
       [attr "type" "button";
        cls (if Nat.eqb sstvFreqIndex idx then "bg-purple text-white"
             else "bg-bg-tertiary text-text-secondary hover:bg-bg-secondary")]
       (onClick [Send (Do (Tracking.ESetIndex idx))]) [Text f.1]].

(* @src frontend/src/components/SatelliteTracking.tsx:440-485 SatelliteTracking *)
Definition tab_bar (mode : Tracking.ViewMode) (sstvFreqIndex : nat) : node msg :=
  el "div"
    [ela "nav" [attr "aria-label" "Tabs"]
       (map (tab_button mode) tabs ++
        show (bool_decide (mode = Tracking.sstv_2m))
          [el "div" (el "span" [Text "Freq:"] :: imap (frequency_button sstvFreqIndex) frequency_texts)])].

(* @src frontend/src/components/SatelliteTracking.tsx:440-524 SatelliteTracking *)
Definition SatelliteTracking (p : Tracking.page) : node msg :=
  ela "div" [attr "data-testid" "satellite-tracking"]
    [tab_bar (Tracking.mode p) (Tracking.sstvFreqIndex p);
     el "div"
       [match Tracking.mode p with
        | Tracking.satellite =>
            el "div"
              [el "div" [el "div" [SkyView]];
               ela "div" [attr "data-testid" "waterfall-container"] [el "div" [WaterfallView (waterfall_props p)]]]
        | Tracking.sstv_2m => el "div" [SpectrumWaterfall]
        end]].

(** ** Facts *)

(** What the page is after an event at an element, and the requests it has made. *)
Definition done_by (l : list msg) : list Tracking.event :=
  omap (fun m => match m with Do e => Some e | Tip _ _ => None end) l.

Definition user (e : dom_event) (path : list nat) (p : Tracking.page) : Tracking.page * list (nat * Tracking.request) :=
  Tracking.run (done_by (dispatch e path [SatelliteTracking p])) p.

(** The canvases and the badge react to nothing: a click on the waterfall does not start it. *)
Theorem canvases_inert e path p :
  bubbles e = true -> dispatch e (0 :: 1 :: path)%nat [SatelliteTracking p] = [].
Proof.
  intros He. erewrite dispatch_bubble by (done || reflexivity). erewrite bubble_chain by reflexivity.
  rewrite bubble_inert; [by destruct e|]. by destruct (Tracking.mode p), e.
Qed.

Lemma click_frequency p idx f path : Tracking.mode p = Tracking.sstv_2m -> frequency_texts !! idx = Some f ->
  dispatch Click (0 :: 0 :: 0 :: 2 :: S idx :: 0 :: path)%nat [SatelliteTracking p] = [Do (Tracking.ESetIndex idx)].
Proof.
  intros Hm Hi. erewrite dispatch_bubble by reflexivity. unfold SatelliteTracking, tab_bar. rewrite Hm.
  do 3 (erewrite bubble_chain by reflexivity). 
  rewrite (bubble_chain _ (S idx) _ _ (frequency_button (Tracking.sstvFreqIndex p) idx f));
    [|by destruct idx as [|[|idx]]; [injection Hi as <-..|]].
  erewrite bubble_chain by reflexivity. by rewrite bubble_children.
Qed.

Lemma click_mode_tab p i t path : tabs !! i = Some t ->
  dispatch Click (0 :: 0 :: 0 :: i :: 0 :: path)%nat [SatelliteTracking p] = [Do (Tracking.ESetMode t.1.1.1)].
Proof.
  intros Hi. erewrite dispatch_bubble by reflexivity. unfold SatelliteTracking, tab_bar.
  do 2 (erewrite bubble_chain by reflexivity). erewrite bubble_chain by (by apply lookup_map_app).
  destruct t as [[[m l] c] tt]. erewrite bubble_chain by reflexivity. by rewrite bubble_children.
Qed.

(** A frequency of the 2 m band is chosen by a click on its button: unless the station is
    scanning, that is the frequency the page shows and, over an open connection, asks the
    server for, the old one given up before. *)
Theorem frequency_chosen p idx f freq path i
  (Hm : Tracking.mode p = Tracking.sstv_2m) (Hi : frequency_texts !! idx = Some f)
  (Hf : Tracking.SSTV_2M_FREQUENCIES !! idx = Some freq) (Hr : Tracking.ready p = Some i)
  (He : Tracking.effectFrequency p = Tracking.getCurrentFrequency p)
  (Hs : Dashboard.cl_status <$> Dashboard.systemState (Tracking.dash p) <> Some (Dashboard.server_status scanning)) :
  let '(p', sent) := user Click (0 :: 0 :: 0 :: 2 :: S idx :: 0 :: path)%nat p in
  Tracking.getCurrentFrequency p' = freq /\ Tracking.effectFrequency p' = freq /\
  sent = if (freq =? Tracking.effectFrequency p)%Z then [] else [(i, Tracking.Unsubscribe); (i, Tracking.Subscribe freq)].
Proof.
  unfold user. erewrite click_frequency by done. cbn [done_by omap list_omap Tracking.run Tracking.step].
  set (p1 := Tracking.update (Tracking.ESetIndex idx) p).
  assert (Hc : Tracking.getCurrentFrequency p1 = freq).
  { unfold Tracking.getCurrentFrequency. cbn. rewrite Hm, Hf. simpl.
    destruct (Dashboard.systemState (Tracking.dash p)) as [c|]; [|done]. cbn in *.
    destruct (Dashboard.cl_scanningFrequency c) as [g|]; [|done]. by destruct (Dashboard.cl_status c) as [[]|]. }
  change (Tracking.step (Tracking.ESetIndex idx) p) with (Tracking.run_effect p1).
  unfold Tracking.run_effect. rewrite Hc. change (Tracking.effectFrequency p1) with (Tracking.effectFrequency p).
  destruct (Z.eqb_spec freq (Tracking.effectFrequency p)) as [E|E]; cbn [fst snd app]; [by subst|].
  split; [exact Hc|]. split; [done|]. unfold Tracking.unsubscribeFFT, Tracking.subscribeFFT, Tracking.send.
  change (Tracking.ready p1) with (Tracking.ready p). by rewrite Hr.
Qed.
End View.

Lemma canvases_inert_witness :
  dispatch Click [0; 1; 0; 1; 0; 0; 0]%nat [SatelliteTracking (fun _ => false) (Tracking.mount Tracking.satellite).1] = [].
Proof. by apply (canvases_inert (fun _ => false) Click [0; 1; 0; 0; 0]%nat). Defined.

(** A page whose socket has opened, on the second tab. *)
Local Notation sample_page :=
  (Tracking.run [Tracking.EDash (Dashboard.EOpen 0); Tracking.ESetMode Tracking.sstv_2m]
    (Tracking.mount Tracking.satellite).1).1.

Lemma frequency_chosen_witness :
  (user (fun _ => false) Click [0; 0; 0; 2; 2; 0]%nat sample_page).2 =
    [(0%nat, Tracking.Unsubscribe); (0%nat, Tracking.Subscribe 145500000)].
Proof.
  pose proof (frequency_chosen (fun _ => false) sample_page 1 ("145.500", "FM SSTV calling frequency") 145500000 [] 0
    eq_refl eq_refl eq_refl eq_refl eq_refl ltac:(by vm_compute)) as H.
  destruct (user (fun _ => false) Click _ sample_page) as [p' sent]. exact (proj2 (proj2 H)).
Defined.

End TrackingView.
