(* ===== verification/PanelView.v ===== *)
(** * The elements of the diagnostics panel (src/frontend/src/components/DiagnosticsPanel.tsx)

    The five tabs with what each shows, the button that closes the panel and the handle that
    resizes it, over the log of Cards and the store of Views.  Texts of the locale, JSON
    and the address of the page are parameters. *)

From S2P Require Import Prelude JsStd Html Types StateManager Effects Dashboard Views Events WebServer Cards Widgets.
Local Open Scope string_scope.

Module PanelView.
Import Html Dashboard.

Inductive msg := Ui (o : Views.ui_op) | Panel (e : Cards.panel_event).

(** Identifier, label and icon. *)
(* @src frontend/src/components/DiagnosticsPanel.tsx:113-119 tabs *)
Definition tabs : list (Views.DiagnosticsTab * string * string) :=
  [ (Views.console, "Console", ">"); (Views.tab_passes, "Passes", "🛰"); (Views.tab_state, "State", "{}");
    (Views.network, "Network", "↔"); (Views.sdr, "SDR", "📡") ].

#[global] Instance tab_eq_dec : EqDecision Views.DiagnosticsTab.
Proof. solve_decision. Defined.

Definition level_name (l : Views.level) : string :=
  match l with Views.info => "info" | Views.warn => "warn" | Views.error => "error" | Views.debug => "debug" end.

(* @src frontend/src/components/DiagnosticsPanel.tsx:167-175 renderTabContent *)
Definition level_class (l : Views.level) : string :=
  match l with
  | Views.error => "text-error" | Views.warn => "text-warning" | Views.debug => "text-text-muted" | Views.info => "text-accent"
  end.

(* @src frontend/src/components/DiagnosticsPanel.tsx:277-281 sdrStatusColor *)
Definition sdrStatusColor (status : option ClientStatus) : string :=
  match status with
  | Some client_recording | Some (server_status (scanning | decoding)) => "bg-success shadow-[0_0_6px_var(--success)]"
  | Some (server_status (idle | waiting)) => "bg-success"
  | Some (server_status capturing) | None => "bg-warning"
  end.

(** What the panel is given, and its own log. *)
(* @src frontend/src/components/DiagnosticsPanel.tsx:12-21 DiagnosticsPanelProps *)
Record props := mkProps {
  wsState : WsState;
  systemState : option ClientState;
  globeState : option GlobeState;
  sstvStatus : option SSTVStatus;
  passes : list SatellitePass;
  progress : option CaptureProgress;
  the_logs : list Views.LogEntry
}.

Section View.
Context (toLocaleTimeString formatTime formatDate : Z -> string).
Context (json_state : option ClientState -> string) (json_sstv : option SSTVStatus -> string)
  (json_progress : option CaptureProgress -> string) (json_passes : list (string * Z * Q) -> string)
  (json_globe : option (Q * Q * nat * nat) -> string).
Context (location_protocol location_host : string).

(** A field of the client's state that the server's has not: current, least and largest shift. *)
Context (doppler : ClientState -> option (Q * Q * Q)).

Section Content.
Context (now : Z) (p : props).

Definition heading (t : string) : node msg := el "h4" [Text t].

(* @src frontend/src/components/DiagnosticsPanel.tsx:161-181 renderTabContent *)
Definition log_row (log : Views.LogEntry) : node msg :=
  el "div"
    [el "span" [Text (toLocaleTimeString (Views.le_timestamp log))];
     ela "span" [cls (level_class (Views.le_level log))] [Text ("[" ++ level_name (Views.le_level log) ++ "]")];
     el "span" [Text (Views.le_message log)]].

(* @src frontend/src/components/DiagnosticsPanel.tsx:155-185 renderTabContent *)
Definition console_tab : node msg :=
  el "div"
    (match the_logs p with [] => [el "p" [Text "No logs yet..."]] | logs => map log_row logs end ++ [el "div" []]).

Definition dump (title text : string) : node msg := el "div" [heading title; el "pre" [Text text]].

(* @src frontend/src/components/DiagnosticsPanel.tsx:187-239 renderTabContent *)
Definition state_tab : node msg :=
  el "div"
    [dump "System Status" (json_state (systemState p));
     dump "SSTV Status" (json_sstv (sstvStatus p));
     dump "Progress" (json_progress (progress p));
     dump ("Passes (" ++ show_Z (Z.of_nat (length (passes p))) ++ ")")
       (json_passes (map (fun q => (si_name (pass_satellite q), pass_aos q, pass_maxElevation q)) (take 3 (passes p))));
     dump "Globe State"
       (json_globe ((fun g => (gs_station_latitude g, gs_station_longitude g, length (gs_satellites g), length (gs_groundTracks g)))
                      <$> globeState p))].

(* @src frontend/src/components/DiagnosticsPanel.tsx:241-268 renderTabContent *)
Definition network_tab : node msg :=
  let connected := ws_connected (wsState p) in
  el "div"
    ([el "div"
        [ela "span" [cls (if connected then "bg-success" else "bg-error")] [];
         el "span" [Text ("WebSocket: " ++ if connected then "Connected" else "Disconnected")]]] ++
     match ws_error (wsState p) with
     | None | Some "" => []
     | Some e => [el "div" [Text ("Error: " ++ e)]]
     end ++
     [el "div"
        [heading "Connection Info";
         el "div"
           [el "p" [Text ("URL: " ++ (if String.eqb location_protocol "https:" then "wss:" else "ws:") ++ "//" ++ location_host ++ "/ws")];
            el "p" [Text ("Reconnect Attempts: " ++ show_Z (Z.of_nat (ws_reconnectAttempts (wsState p))))]]]]).

Definition line (t : string) : node msg := el "p" [Text t].

(** A frequency of 0 is shown as such. *)
(* @src frontend/src/components/DiagnosticsPanel.tsx:303-311 renderTabContent *)
Definition scanning_lines (c : ClientState) : list (node msg) :=
  match cl_status c, cl_scanningFrequency c with
  | server_status scanning, Some 0%Z => [Text "0"]
  | server_status scanning, Some f =>
      [ line "Mode: 2M SSTV Scanning";
        line ("Frequency: " ++ Widgets.mhz3 f ++ " MHz (" ++ Widgets.or_text (cl_scanningFrequencyName c) "Unknown" ++ ")") ]
  | _, _ => []
  end.

(* @src frontend/src/components/DiagnosticsPanel.tsx:291-317 renderTabContent *)
Definition activity : list (node msg) :=
  [line ("Status: " ++ match systemState p with Some c => Cards.status_name (cl_status c) | None => "Unknown" end)] ++
  match systemState p ≫= cl_currentPass with
  | Some pass =>
      [ line ("Satellite: " ++ si_name (pass_satellite pass));
        line ("Frequency: " ++ Widgets.mhz3 (si_frequency (pass_satellite pass)) ++ " MHz");
        line ("Max Elevation: " ++ Widgets.degrees (pass_maxElevation pass) 1) ]
  | None => []
  end ++
  match systemState p with Some c => scanning_lines c | None => [] end ++
  match progress p with
  | Some q => [line ("Progress: " ++ show_Z (cp_percentage q) ++ "% (" ++ show_Z (cp_elapsed q) ++ "s / " ++ show_Z (cp_total q) ++ "s)")]
  | None => []
  end.

(* @src frontend/src/components/DiagnosticsPanel.tsx:270-333 renderTabContent *)
Definition sdr_tab : node msg :=
  let status := cl_status <$> systemState p in
  let hz q := Views.toFixed q 0 in
  el "div"
    ([el "div"
        [ela "span" [cls (sdrStatusColor status)] []; el "span" [Text ("SDR: " ++ Views.sdrStatusText status)]];
      el "div" [heading "Current Activity"; el "div" activity]] ++
     match systemState p ≫= doppler with
     | Some (current, min, max) =>
         [el "div"
            [heading "Doppler";
             el "div" [line ("Current: " ++ hz current ++ " Hz"); line ("Range: " ++ hz min ++ " to " ++ hz max ++ " Hz")]]]
     | None => []
     end).

(* @src frontend/src/components/DiagnosticsPanel.tsx:353-375 renderTabContent *)
Definition pass_row (pass : SatellitePass) : node msg :=
  el "tr"
    [ela "td" [cls (match si_signalType (pass_satellite pass) with sstv => "text-purple" | _ => "text-accent" end)]
       [Text (si_name (pass_satellite pass))];
     el "td" [Text (formatDate (pass_aos pass))];
     el "td" [Text (formatTime (pass_aos pass))];
     el "td" [Text (formatTime (pass_los pass))];
     el "td" [Text (Views.panelDuration (pass_aos pass) (pass_los pass))];
     el "td" [Text (Widgets.degrees (pass_maxElevation pass) 0)];
     el "td" [Text (Widgets.mhz3 (si_frequency (pass_satellite pass)))];
     el "td" [Text (Views.panelCountdown (pass_aos pass) now)]].

Definition pass_titles : list string := ["Satellite"; "Date"; "AOS"; "LOS"; "Duration"; "Max El"; "Freq"; "In"].

(* @src frontend/src/components/DiagnosticsPanel.tsx:335-382 renderTabContent *)
Definition passes_tab : node msg :=
  el "div"
    ([el "div" [Text (show_Z (Z.of_nat (length (passes p))) ++ " upcoming passes")];
      el "table"
        [el "thead" [el "tr" (map (fun t => el "th" [Text t]) pass_titles)]; el "tbody" (map pass_row (passes p))]] ++
     match passes p with [] => [el "p" [Text "No upcoming passes"]] | _ => [] end).

(* @src frontend/src/components/DiagnosticsPanel.tsx:153-387 renderTabContent *)
Definition renderTabContent (activeTab : Views.DiagnosticsTab) : node msg :=
  match activeTab with
  | Views.console => console_tab
  | Views.tab_state => state_tab
  | Views.network => network_tab
  | Views.sdr => sdr_tab
  | Views.tab_passes => passes_tab
  end.

(* @src frontend/src/components/DiagnosticsPanel.tsx:399-413 DiagnosticsPanel *)
Definition tab_button (activeTab : Views.DiagnosticsTab) (tab : Views.DiagnosticsTab * string * string) : node msg :=
  let '(id, label, icon) := tab in
  El "button"
    [attr "type" "button";
     cls (if decide (activeTab = id) then "border-accent text-accent"
          else "border-transparent text-text-secondary hover:text-text-primary")]
    (onClick [Send (Ui (Views.SetDiagnosticsTab id))])
    [el "span" [Text icon]; Text label].

(* @src frontend/src/components/DiagnosticsPanel.tsx:389-443 DiagnosticsPanel *)
Definition DiagnosticsPanel (ui : Views.UIState) (isOpen : bool) (onClose : msg) : list (node msg) :=
  let panelHeight := Views.diagnosticsPanelHeight ui in
  show isOpen
    [ela "div" [("style.height", [Num (inject_Z panelHeight)]); ("style.top", [Num 68])]
       [el "div"
          [el "div" (map (tab_button (Views.diagnosticsTab ui)) tabs);
           El "button" [attr "type" "button"] (onClick [Send onClose]) [el "svg" [el "title" [Text "Close"]; el "path" []]]];
        ela "div" [("style.height", [Num (inject_Z (panelHeight - 49))])] [renderTabContent (Views.diagnosticsTab ui)];
        El "div" [] (onMouseDown [Send (Panel Cards.MouseDown)]) []]].
End Content.

(** ** What the user does *)

(** The store and the state of the component; a drag is an event of the document. *)
Definition step (m : msg) (s : Views.UIState * Cards.panel) : Views.UIState * Cards.panel :=
  match m with
  | Ui o => (Views.ui_step s.1 o, s.2)
  | Panel (Cards.DragTo y as e) =>
      let height := Views.dragged y (Cards.isResizing s.2) (Views.diagnosticsPanelHeight s.1) in
      (Views.ui_step s.1 (Views.SetDiagnosticsPanelHeight height), Cards.panel_step e s.2)
  | Panel e => (s.1, Cards.panel_step e s.2)
  end.

Definition steps (l : list msg) (s : Views.UIState * Cards.panel) : Views.UIState * Cards.panel :=
  foldl (fun s m => step m s) s l.

(** The panel as the page mounts it. *)
Definition view (now : Z) (p : props) (s : Views.UIState * Cards.panel) : list (node msg) :=
  DiagnosticsPanel now p s.1 (Views.diagnosticsOpen s.1) (Ui (Views.SetDiagnosticsOpen false)).

Definition user (now : Z) (p : props) (e : dom_event) (path : list nat) (s : Views.UIState * Cards.panel) :=
  steps (dispatch e path (view now p s)) s.

Lemma view_open now p ui c : Views.diagnosticsOpen ui = true ->
  view now p (ui, c) = DiagnosticsPanel now p ui true (Ui (Views.SetDiagnosticsOpen false)).
Proof. intros H. unfold view. cbn [fst]. by rewrite H. Qed.

Lemma click_tab now p ui c i t path : Views.diagnosticsOpen ui = true -> tabs !! i = Some t ->
  dispatch Click (0 :: 0 :: 0 :: i :: path)%nat (view now p (ui, c)) = [Ui (Views.SetDiagnosticsTab t.1.1)].
Proof.
  intros Ho Hi. rewrite view_open by done. erewrite dispatch_bubble by reflexivity.
  do 2 (erewrite bubble_chain by reflexivity).
  rewrite (bubble_chain _ i _ _ (tab_button (Views.diagnosticsTab ui) t)).
  2:{ cbn [children_of el ela]. change (map ?f ?l) with (f <$> l). by rewrite list_lookup_fmap, Hi. }
  destruct t as [[id label] icon]. by rewrite bubble_children.
Qed.

(** A click on a tab, anywhere on its button, shows what belongs to it, in the open panel
    and with the same size; the button beside the tabs takes the panel away, and so the
    tab is there when it is opened again. *)
Theorem tab_shown now p ui c i t path (Ho : Views.diagnosticsOpen ui = true) (Hi : tabs !! i = Some t) :
  let s := user now p Click (0 :: 0 :: 0 :: i :: path)%nat (ui, c) in
  (exists root content, view now p s = [root] /\ children_of root !! 1%nat = Some content /\
     children_of content = [renderTabContent now p t.1.1] /\
     get_attr "style.height" root = Some [Num (inject_Z (Views.diagnosticsPanelHeight ui))]) /\
  let closed := user now p Click (0 :: 0 :: 1 :: path)%nat s in
  view now p closed = [] /\ view now p (step (Ui Views.ToggleDiagnostics) closed) = view now p s.
Proof.
  destruct ui as [o tab h m f]. cbn in Ho. subst o. cbv zeta.
  replace (user now p Click (0 :: 0 :: 0 :: i :: path)%nat (Views.mkUI true tab h m f, c))
    with (Views.mkUI true t.1.1 h m f, c) by (unfold user; by erewrite click_tab). split.
  - eexists _, _. split; [reflexivity|]. by repeat split.
  - unfold user. rewrite view_open by done. erewrite dispatch_bubble by reflexivity.
    do 2 (erewrite bubble_chain by reflexivity). by rewrite bubble_children.
Qed.

(** The handle at the lower edge: while the button of the mouse is down the panel is as
    high as the pointer is below its top, between 150 and 500; once it is up, moves of the
    pointer leave the panel alone. *)
Theorem panel_resized now p ui c y z (Ho : Views.diagnosticsOpen ui = true) :
  let s := user now p MouseDown [0; 2]%nat (ui, c) in
  let dragged := step (Panel (Cards.DragTo y)) s in
  let up := steps [Panel Cards.MouseUp; Panel (Cards.DragTo z)] dragged in
  let height := Z.max 150 (Z.min 500 (y - 68)) in
  Views.diagnosticsPanelHeight dragged.1 = height /\ up.1 = dragged.1 /\
  exists root, view now p up = [root] /\ get_attr "style.height" root = Some [Num (inject_Z height)].
Proof.
  cbv zeta. destruct ui as [o tab h m f]. cbn in Ho. subst o. unfold user. rewrite view_open by done. cbn.
  split; [done|]. split; [done|]. by eexists.
Qed.

(** The passes of the panel have a row each, under the row of the titles. *)
Theorem panel_rows now p :
  by_tag "tr" [passes_tab now p] = el "tr" (map (fun t => el "th" [Text t]) pass_titles) :: map (pass_row now) (passes p).
Proof.
  unfold passes_tab, el, ela. rewrite by_tag_el, by_tag_app, by_tag_cons, !by_tag_el, by_tag_cons, !by_tag_el.
  rewrite (by_tag_map_each _ (pass_row now)) by done. destruct (passes p); cbn; by rewrite ?app_nil_r.
Qed.

(** The console shows the log from its oldest entry to its newest. *)
Theorem console_rows p : the_logs p <> [] ->
  children_of (console_tab p) = (map log_row (the_logs p) ++ [el "div" []])%list.
Proof. unfold console_tab. by destruct (the_logs p). Qed.
End View.
End PanelView.
