(* ===== verification/Gallery.v ===== *)
(** * The gallery of captures (src/frontend/src/components/CaptureGallery.tsx)

    The component lists the last captures, asks again every thirty seconds, and shows an
    image of each.  Its requests for images are composed with the route of the server
    that answers them (WebFiles) and the paths the decoders give their images. *)

From Stdlib Require Import Ascii.
From S2P Require Import Prelude JsStd Types RelayApi StateManager Effects FftStream WebFiles Dashboard Events WebServer Controls.
Local Open Scope prog_scope.

Module Gallery.
Import WebFiles.

(** ** encodeURIComponent, of UTF-8 bytes *)

Definition unreserved (c : ascii) : bool :=
  let n := nat_of_ascii c in
  is_digit c || ((65 <=? n) && (n <=? 90)) || ((97 <=? n) && (n <=? 122)) ||
  existsb (Ascii.eqb c) ["-"; "_"; "."; "!"; "~"; "*"; "'"; "("; ")"]%char.

Definition hex_digit (n : nat) : ascii := ascii_of_nat (if n <? 10 then 48 + n else 55 + n).

Fixpoint encodeURIComponent (s : string) : string :=
  match s with
  | EmptyString => EmptyString
  | String c r =>
      let n := nat_of_ascii c in
      if unreserved c then String c (encodeURIComponent r)
      else String "%"%char (String (hex_digit (Nat.div n 16)) (String (hex_digit (Nat.modulo n 16)) (encodeURIComponent r)))
  end.

(** ** The component *)

(** A capture as the page receives it: the entry of the database, and two of its fields
    under another name. *)
(* @src frontend/src/types/index.ts:73-87 CaptureRecord *)
Record CaptureRecord := mkCaptureRecord {
  entry : CaptureHistoryEntry;
  satellite : string;
  timestamp : string
}.

(* @src middleware/web/server.ts:171-175 mapped *)
Definition record_of (c : CaptureHistoryEntry) : CaptureRecord :=
  mkCaptureRecord c (he_satelliteName c) (he_startTime c).

(** [pending] counts the requests under way. *)
(* @src frontend/src/components/CaptureGallery.tsx:43-46 CaptureGallery *)
Record gallery := mkGallery {
  captures : list CaptureRecord;
  selectedImage : option string;
  loading : bool;
  pending : nat
}.

(* @src frontend/src/components/CaptureGallery.tsx:48-62 useEffect *)
Definition mount : gallery := mkGallery [] None true 1.

(** The answer to a request; one that failed is an empty list. *)
(* @src frontend/src/components/CaptureGallery.tsx:49-58 fetchCaptures *)
Definition fetched (o : Controls.outcome (list CaptureRecord)) (g : gallery) : gallery :=
  mkGallery (Controls.captures_of o (Controls.mkApi true None)) (selectedImage g) false (pred (pending g)).

(** The first image, when its path is not empty. *)
(* @src frontend/src/components/CaptureGallery.tsx:94-94 onClick *)
Definition first_image (c : CaptureRecord) : option string :=
  match he_imagePaths (entry c) with
  | [] | ""%string :: _ => None
  | p :: _ => Some p
  end.

(* @src frontend/src/components/CaptureGallery.tsx:84-94 CaptureGallery *)
Definition click (i : nat) (g : gallery) : gallery :=
  if loading g then g
  else match captures g !! i ≫= first_image with
       | Some p => mkGallery (captures g) (Some p) (loading g) (pending g)
       | None => g
       end.

(* @src frontend/src/components/CaptureGallery.tsx:163-176 CaptureGallery *)
Definition close (g : gallery) : gallery := mkGallery (captures g) None (loading g) (pending g).

(** The address of an image. *)
(* @src frontend/src/components/CaptureGallery.tsx:98-98 CaptureGallery *)
Definition image_src (path : string) : string :=
  ("/api/images/" ++ encodeURIComponent (List.last (split_on slash path) ""))%string.

(** The large image. *)
(* @src frontend/src/components/CaptureGallery.tsx:189-189 CaptureGallery *)
Definition lightbox (g : gallery) : option string := image_src <$> selectedImage g.

Inductive event := ETick | EFetched (o : Controls.outcome (list CaptureRecord)) | EClick (i : nat) | EClose.

Definition step (e : event) (g : gallery) : gallery :=
  match e with
  | ETick => mkGallery (captures g) (selectedImage g) (loading g) (S (pending g))
  | EFetched o => match pending g with O => g | S _ => fetched o g end
  | EClick i => click i g
  | EClose => close g
  end.

Definition run (evs : list event) (g : gallery) : gallery := foldl (fun g e => step e g) g evs.

(** ** Facts *)

Lemma decode_encode_char c r :
  decodeURIComponent (encodeURIComponent (String c r)) = String c <$> decodeURIComponent (encodeURIComponent r).
Proof. destruct c as [[] [] [] [] [] [] [] []]; reflexivity. Qed.

(** What is encoded is decoded to itself. *)
Theorem decode_encode s : decodeURIComponent (encodeURIComponent s) = Some s.
Proof. induction s as [|c s IH]; [done|]. by rewrite decode_encode_char, IH. Qed.

Lemma last_segment dir name : no_char slash name = true ->
  List.last (split_on slash (dir ++ "/" ++ name)) ""%string = name.
Proof.
  intros Hn. change (dir ++ "/" ++ name)%string with (dir ++ String slash name)%string.
  rewrite split_on_cat, (split_on_no_char slash name Hn). apply List.last_last.
Qed.

(** A plain name below a directory. *)
Lemma resolve_plain dir name : resolved dir -> plain name -> includes ".." name = false ->
  is_absolute name = false -> path_resolve dir name = (dir ++ "/" ++ name)%string.
Proof.
  intros (segs & Hne & Hsegs & ->) Hname Hup Hrel. unfold path_resolve. rewrite Hrel. unfold path_normalize.
  assert (Ha : is_absolute (("/" ++ join "/" segs) ++ "/" ++ name)%string = true).
  { rewrite str_app_assoc. apply prefix_app. }
  rewrite Ha. change (("/" ++ join "/" segs) ++ "/" ++ name)%string
    with (String slash (join "/" segs ++ String slash name)). cbn [split_on].
  rewrite Ascii.eqb_refl, split_on_cat. destruct Hname as (Hk & Hd & Hn).
  assert (Hj : split_on slash (join "/" segs) = segs).
  { apply (split_join slash); [done|]. eapply Forall_impl; [exact Hsegs|]. by intros ? (? & ? & ?). }
  rewrite Hj, (split_on_no_char slash name Hn), normalize_no_parent.
  2:{ apply Forall_cons. split; [done|]. apply Forall_app. split; [|by repeat constructor].
      eapply Forall_impl; [exact Hsegs|]. by intros ? (? & ? & ?). }
  simpl. unfold js_filter. rewrite List.filter_app. fold (js_filter keep segs). rewrite plain_keep by done.
  simpl. rewrite Hk. by rewrite join_app.
Qed.

(** The route of the images. *)
Lemma serve_api_image static dir e :
  serve_path static dir ("/api/images/" ++ e) =
  match decodeURIComponent e with
  | Some filename => Some (r <- serveImageNode dir filename;; Ret (Ok r))
  | None => Some (Ret (Throw "URI malformed"%string))
  end.
Proof.
  unfold serve_path. set (path := ("/api/images/" ++ e)%string).
  assert (E1 : startsWith "/api/images/" path = true) by apply prefix_app.
  assert (E2 : slice_from 12 path = e) by apply (slice_from_app "/api/images/").
  rewrite E1, E2. by replace (startsWith "/images/" path) with false by done.
Qed.

(** The answer to the address of an image depends on the last segment of its path. *)
Lemma serve_image_src static dir path name : resolved dir -> plain name -> includes ".." name = false ->
  List.last (split_on slash path) ""%string = name ->
  serve_path static dir (image_src path) = Some (r <- serve_file (dir ++ "/" ++ name) "image/png";; Ret (Ok r)).
Proof.
  intros Hdir Hname Hup Hp. pose proof Hname as (Hk & Hd & Hn).
  assert (Hrel : is_absolute name = false).
  { destruct name as [|c name]; [done|]. simpl in Hn. apply andb_true_iff in Hn as [Hc _].
    unfold is_absolute, startsWith. cbn [String.prefix]. by destruct (Ascii.ascii_dec _ c) as [<-|]. }
  unfold image_src. rewrite Hp, serve_api_image, decode_encode. unfold serveImageNode. by rewrite Hup, resolve_plain.
Qed.

(** ** Properties *)

(** The request for an image names the file it shows: for a path in the images directory,
    whatever bytes its name has, the server answers the address the gallery makes of it
    by looking for exactly that path; a path in a directory below is looked for in the
    images directory itself. *)
Theorem image_request_names_file static dir sub name
  (Hdir : resolved dir) (Hname : plain name) (Hup : includes ".." name = false) :
  let served := Some (r <- serve_file (dir ++ "/" ++ name) "image/png";; Ret (Ok r)) in
  serve_path static dir (image_src (dir ++ "/" ++ name)) = served /\
  serve_path static dir (image_src (dir ++ "/" ++ sub ++ "/" ++ name)) = served /\
  (dir ++ "/" ++ name <> dir ++ "/" ++ sub ++ "/" ++ name)%string.
Proof.
  cbv zeta. pose proof Hname as (Hk & Hd & Hn). split; [|split].
  - by apply serve_image_src; [..|apply last_segment].
  - apply serve_image_src; [done..|]. rewrite <- !str_app_assoc, (str_app_assoc _ "/" name). by apply last_segment.
  - intros E. apply (f_equal String.length) in E. rewrite !length_str_app in E. simpl in E. lia.
Qed.

Lemma image_request_names_file_witness :
  image_src "/srv/images/M2 #3 100%.png" = "/api/images/M2%20%233%20100%25.png"%string /\
  serve_path "/srv/static" sample_images (image_src "/srv/images/M2 #3 100%.png") =
    Some (r <- serve_file "/srv/images/M2 #3 100%.png" "image/png";; Ret (Ok r)).
Proof.
  split; [reflexivity|].
  apply (image_request_names_file "/srv/static" sample_images "sub" "M2 #3 100%.png" sample_images_resolved).
  - split; [reflexivity|]. split; [done|reflexivity].
  - reflexivity.
Defined.

(** The lists the page has received. *)
Definition lists (evs : list event) : list (list CaptureRecord) :=
  omap (fun e => match e with EFetched (Controls.Response _ l) => Some l | _ => None end) evs.

(** What the page shows it has been sent: its captures are one of the lists, or none, and
    the large image is the first of a capture of one. *)
Definition from (ls : list (list CaptureRecord)) (g : gallery) : Prop :=
  (captures g = [] \/ captures g ∈ ls) /\
  (forall p, selectedImage g = Some p -> exists l c, l ∈ ls /\ c ∈ l /\ first_image c = Some p).

Lemma first_image_nonempty c p : first_image c = Some p -> p <> ""%string.
Proof. unfold first_image. destruct (he_imagePaths (entry c)) as [|[|a q] l]; [done..|]. by intros [= <-]. Qed.

Lemma from_mono ls ls' g : (forall l, l ∈ ls -> l ∈ ls') -> from ls g -> from ls' g.
Proof.
  intros Hsub [H1 H2]. split; [destruct H1; auto|]. intros p Hp.
  destruct (H2 p Hp) as (l & c & Hl & Hc). exists l, c. split; [by apply Hsub|done].
Qed.

Lemma step_from e g ls : from ls g -> from (ls ++ lists [e]) (step e g).
Proof.
  intros Hg. assert (Hg' : from (ls ++ lists [e]) g).
  { eapply from_mono; [|exact Hg]. intros l Hl. apply elem_of_app. by left. }
  destruct e as [|o|i|]; simpl; [done| | |].
  - destruct (pending g); [done|]. destruct Hg' as [H1 H2]. split; [|exact H2].
    unfold fetched, Controls.captures_of. destruct o as [m|c l]; simpl; [by left|].
    destruct (Controls.ok_code c); simpl; [right|by left]. apply elem_of_app. right. left.
  - unfold click. destruct (loading g); [done|]. destruct Hg' as [H1 H2].
    destruct (captures g !! i) as [c|] eqn:Ei; simpl; [|done]. destruct (first_image c) as [p|] eqn:Ep; [|done].
    split; [done|]. intros p' [= <-]. apply list_elem_of_lookup_2 in Ei.
    destruct H1 as [H1|H1]; [rewrite H1 in Ei; by apply not_elem_of_nil in Ei|]. by exists (captures g), c.
  - destruct Hg' as [H1 H2]. by split.
Qed.

(** The gallery shows nothing it was not sent, and the large image has an address. *)
Theorem gallery_shows_received evs :
  from (lists evs) (run evs mount) /\ selectedImage (run evs mount) <> Some ""%string.
Proof.
  assert (H : from (lists evs) (run evs mount)).
  { unfold run. induction evs as [|e evs IH] using rev_ind; [split; [by left|done]|].
    rewrite foldl_app. unfold lists. rewrite omap_app. by apply (step_from e). }
  split; [exact H|]. intros Hs. destruct H as [_ H]. destruct (H _ Hs) as (l & c & _ & _ & Hc).
  by apply first_image_nonempty in Hc.
Qed.

(** A refresh that fails is an empty list: the captures on the page are replaced by the
    notice that there are none. *)
Lemma failed_refresh_empties g m :
  let g' := run [ETick; EFetched (Controls.Failed m)] g in captures g' = [] /\ loading g' = false.
Proof. done. Qed.

End Gallery.
