(* ===== verification/GalleryView.v ===== *)
(** * The elements of the gallery (src/frontend/src/components/CaptureGallery.tsx)

    What CaptureGallery returns in each of its states, the events of its elements, and what
    a click or a key does to the gallery: a thumbnail opens the large image, which is closed
    by a click beside it, and not by one on it. *)

From S2P Require Import Prelude JsStd Html Types RelayApi StateManager Effects Views Gallery Widgets.
Local Open Scope string_scope.

Module GalleryView.
Import Html Gallery.

(** Label, colour and description. *)
(* @src frontend/src/components/CaptureGallery.tsx:6-24 getSignalQuality *)
Definition quality_texts (q : Views.quality) : string * string * string :=
  match q with
  | Views.q_unknown => ("Unknown", "bg-text-muted", "Signal strength not recorded")
  | Views.q_excellent => ("Excellent", "bg-success", "Very strong signal")
  | Views.q_good => ("Good", "bg-accent", "Good signal quality")
  | Views.q_fair => ("Fair", "bg-warning", "Usable signal, may have artifacts")
  | Views.q_weak => ("Weak", "bg-error", "Poor signal quality, likely degraded")
  end.

(* @src frontend/src/components/CaptureGallery.tsx:26-40 getElevationQuality *)
Definition elevation_description (elevation : Q) : string :=
  Widgets.degrees elevation 1 ++
  (if 60 <=?q elevation then " - Nearly overhead"
   else if 40 <=?q elevation then " - High elevation"
   else if 25 <=?q elevation then " - Moderate elevation"
   else " - Near horizon").

(** The tooltip of the quality of a capture, or of its failure. *)
Inductive tip := tip_quality | tip_failure.

#[global] Instance gallery_tip_eq_dec : EqDecision tip.
Proof. solve_decision. Defined.

Inductive msg := Fire (e : Gallery.event) | Tip (capture : Z) (t : tip) (visible : bool).

(* @src frontend/src/components/CaptureGallery.tsx:127-132 CaptureGallery *)
Definition quality_tooltip (c : CaptureRecord) : string :=
  (quality_texts (Views.getSignalQuality (he_maxSignalStrength (entry c)))).2 ++ " • " ++
  elevation_description (he_maxElevation (entry c)).

Section View.
Context (toLocaleDateString toLocaleTimeString : string -> string) (tips : Z -> tip -> bool).

(** The image of a capture, or the sign that it has none. *)
(* @src frontend/src/components/CaptureGallery.tsx:96-115 CaptureGallery *)
Definition picture (c : CaptureRecord) : node msg :=
  match he_imagePaths (entry c) with
  | path :: _ =>
      ela "img" [attr "src" (image_src path); attr "alt" (satellite c ++ " capture"); attr "loading" "lazy"] []
  | [] => el "div" [el "svg" [el "title" [Text "No Image Available"]; el "path" []]]
  end.

(* @src frontend/src/components/CaptureGallery.tsx:116-141 CaptureGallery *)
Definition caption (c : CaptureRecord) : node msg :=
  el "div"
    [el "p" [Text (satellite c)];
     el "div"
       ([el "p" [Text (toLocaleDateString (timestamp c) ++ " " ++ toLocaleTimeString (timestamp c))]] ++
        show (he_success (entry c))
          [Widgets.Tooltip (tips (he_id (entry c)) tip_quality) (Tip (he_id (entry c)) tip_quality)
             (quality_tooltip c) Widgets.top
             [ela "div" [cls (quality_texts (Views.getSignalQuality (he_maxSignalStrength (entry c)))).1.2] []]])].

(* @src frontend/src/components/CaptureGallery.tsx:142-156 CaptureGallery *)
Definition failure_badge (c : CaptureRecord) : list (node msg) :=
  show (negb (he_success (entry c)))
    [Widgets.Tooltip (tips (he_id (entry c)) tip_failure) (Tip (he_id (entry c)) tip_failure)
       (Widgets.or_text (he_errorMessage (entry c)) "Capture failed - check signal strength and antenna positioning")
       Widgets.top
       [el "div" [el "span" [Text "Failed"]]]].

(* @src frontend/src/components/CaptureGallery.tsx:89-158 CaptureGallery *)
Definition thumbnail (i : nat) (c : CaptureRecord) : node msg :=
  El "button" [attr "type" "button"] (onClick [Send (Fire (EClick i))])
    ([picture c; caption c] ++ failure_badge c).

(** The large image, over the page. *)
(* @src frontend/src/components/CaptureGallery.tsx:163-196 CaptureGallery *)
Definition lightbox_view (path : string) : node msg :=
  let escape key := if String.eqb key "Escape" then [Send (Fire EClose)] else [] in
  El "div" [] (both (onClick [Send (Fire EClose)]) (onKeyDown escape))
    [El "button" [attr "type" "button"] (onClick [Send (Fire EClose)])
       [el "svg" [el "title" [Text "Close Image"]; el "path" []]];
     El "img" [attr "src" (image_src path); attr "alt" "Full size capture"]
       (both (onClick [StopPropagation]) (onKeyDown (fun _ => [StopPropagation]))) []].

(* @src frontend/src/components/CaptureGallery.tsx:64-198 CaptureGallery *)
Definition CaptureGallery (g : gallery) : list (node msg) :=
  let title := el "h2" [Text "Recent Captures"] in
  if loading g then [el "div" [title; el "div" [el "div" []]]]
  else match captures g with
       | [] => [el "div" [title; el "p" [Text "No captures yet"]]]
       | cs =>
           [ela "div" [attr "data-testid" "capture-gallery"] [title; el "div" (imap thumbnail cs)]] ++
           match selectedImage g with
           | None | Some "" => []
           | Some path => [lightbox_view path]
           end
       end.

(** What the gallery is after an event at an element of its view. *)
Definition fired (l : list msg) : list Gallery.event :=
  omap (fun m => match m with Fire e => Some e | Tip _ _ _ => None end) l.

Definition user (e : dom_event) (path : list nat) (g : gallery) : gallery :=
  run (fired (dispatch e path (CaptureGallery g))) g.

(** ** Facts *)

Lemma CaptureGallery_loaded g : loading g = false -> captures g <> [] ->
  CaptureGallery g =
    ([ela "div" [attr "data-testid" "capture-gallery"]
       [el "h2" [Text "Recent Captures"]; el "div" (imap thumbnail (captures g))]] ++
     match selectedImage g with None | Some "" => [] | Some path => [lightbox_view path] end)%list.
Proof. unfold CaptureGallery. intros -> H. by destruct (captures g). Qed.

(** The cases of what a thumbnail shows. *)
Ltac thumbnail_cases c tips :=
  unfold thumbnail, picture, caption, failure_badge, show, Widgets.Tooltip;
  by destruct (he_imagePaths (entry c)), (he_success (entry c)), (tips (he_id (entry c)) tip_quality),
    (tips (he_id (entry c)) tip_failure).

Lemma thumbnail_inert i c : forallb (inert Click) (children_of (thumbnail i c)) = true.
Proof.
  thumbnail_cases c tips.
Qed.

(** A click anywhere in a thumbnail is a click on its button. *)
Lemma click_thumbnail g i c p : loading g = false -> captures g !! i = Some c ->
  dispatch Click (0 :: 1 :: i :: p)%nat (CaptureGallery g) = [Fire (EClick i)].
Proof.
  intros Hl Hi. rewrite CaptureGallery_loaded; [|done|by intros E; rewrite E in Hi].
  erewrite dispatch_bubble by reflexivity. erewrite (bubble_chain _ 1) by reflexivity.
  erewrite bubble_chain; [|by cbn; rewrite list_lookup_imap, Hi].
  by rewrite bubble_children by apply thumbnail_inert.
Qed.

(** A key on a thumbnail does nothing: after a click on it the focus is there, and Escape does
    not close the large image. *)
Lemma key_on_thumbnail g i c p k : loading g = false -> captures g !! i = Some c ->
  dispatch (KeyDown k) (0 :: 1 :: i :: p)%nat (CaptureGallery g) = [].
Proof.
  intros Hl Hi. rewrite CaptureGallery_loaded; [|done|by intros E; rewrite E in Hi].
  erewrite dispatch_bubble by reflexivity. erewrite (bubble_chain _ 1) by reflexivity.
  erewrite bubble_chain; [|by cbn; rewrite list_lookup_imap, Hi].
  rewrite bubble_inert; [done|]. thumbnail_cases c tips.
Qed.

(** The parts of the lightbox, with the events they send. *)
Lemma lightbox_events g path e p : loading g = false -> captures g <> [] ->
  selectedImage g = Some path -> path <> "" ->
  dispatch e (1%nat :: p) (CaptureGallery g) = dispatch e (0%nat :: p) [lightbox_view path].
Proof.
  intros Hl Hc Hs Hp. rewrite CaptureGallery_loaded, Hs by done. by destruct path.
Qed.

Lemma user_close g path e p : loading g = false -> captures g <> [] ->
  selectedImage g = Some path -> path <> "" ->
  fired (dispatch e (0%nat :: p) [lightbox_view path]) ∈ [[EClose]; [EClose; EClose]] ->
  user e (1%nat :: p) g = close g.
Proof.
  intros Hl Hc Hs Hp He. unfold user. erewrite lightbox_events by done.
  apply elem_of_cons in He as [->|He]; [done|]. apply list_elem_of_singleton in He as ->. done.
Qed.

End View.

(** The images of a view, by their address. *)
Definition sources (l : list (node msg)) : list string :=
  omap (fun n => match get_attr "src" n with Some [Lit s] => Some s | _ => None end) (by_tag "img" l).

Section Properties.
Context (date_of time_of : string -> string) (tips : Z -> tip -> bool).

#[local] Notation user := (user date_of time_of tips).
#[local] Notation CaptureGallery := (CaptureGallery date_of time_of tips).

Lemma sources_app l k : sources (l ++ k)%list = (sources l ++ sources k)%list.
Proof. unfold sources. by rewrite by_tag_app, omap_app. Qed.

Lemma sources_thumbnails cs f : (forall i c, sources [f i c] = option_list (image_src <$> head (he_imagePaths (entry c)))) ->
  sources (imap f cs) = omap (fun c : CaptureRecord => image_src <$> head (he_imagePaths (entry c))) cs.
Proof.
  revert f. induction cs as [|c cs IH]; intros f H; [done|]. cbn [imap omap list_omap].
  change (f 0%nat c :: imap (f ∘ S) cs) with ([f 0%nat c] ++ imap (f ∘ S) cs)%list.
  rewrite sources_app, H, IH by (intros; apply (H (S _))). by destruct (head _).
Qed.

Lemma sources_thumbnail i c :
  sources [thumbnail date_of time_of tips i c] = option_list (image_src <$> head (he_imagePaths (entry c))).
Proof.
  unfold thumbnail, picture, caption, failure_badge, show, Widgets.Tooltip.
  by destruct (he_imagePaths (entry c)), (he_success (entry c)), (tips (he_id (entry c)) tip_quality),
    (tips (he_id (entry c)) tip_failure).
Qed.

(** The images of the page: the first one of every capture that has one, in the order of
    the captures, and the large one. *)
Theorem gallery_images g (Hl : loading g = false) (Hc : captures g <> []) :
  sources (CaptureGallery g) =
    (omap (fun c => image_src <$> head (he_imagePaths (entry c))) (captures g) ++
     match selectedImage g with None | Some "" => [] | Some path => [image_src path] end)%list.
Proof.
  rewrite CaptureGallery_loaded, sources_app by done. f_equal.
  - rewrite <- (sources_thumbnails _ _ sources_thumbnail). unfold sources, el, ela.
    by rewrite by_tag_el, by_tag_cons, !by_tag_el.
  - by destruct (selectedImage g) as [[|ch s']|].
Qed.

(** C31: The image of a capture is opened by a click anywhere in its thumbnail, whatever the
    gallery showed; a click or a key on the large image leaves it; a click beside it or on
    any part of the close button closes it.  Escape closes it only when the focus is beside
    the image or on the close button, where every other key leaves it; after the click that
    opened it the focus is on the thumbnail, where every key, Escape too, leaves it. *)
Theorem gallery_dialog g i c path p k (Hl : loading g = false) (Hc : captures g !! i = Some c)
  (Hp : first_image c = Some path) :
  let g' := user Click (0 :: 1 :: i :: p)%nat g in
  selectedImage g' = Some path /\ captures g' = captures g /\
  user Click [1; 1]%nat g' = g' /\ user (KeyDown k) [1; 1]%nat g' = g' /\
  user Click [1]%nat g' = close g /\ user Click (1 :: 0 :: p)%nat g' = close g /\
  user (KeyDown k) [1]%nat g' = (if String.eqb k "Escape" then close g else g') /\
  user (KeyDown k) [1; 0]%nat g' = (if String.eqb k "Escape" then close g else g') /\
  user (KeyDown k) (0 :: 1 :: i :: p)%nat g' = g'.
Proof.
  cbv zeta. assert (E : user Click (0 :: 1 :: i :: p)%nat g = mkGallery (captures g) (Some path) (loading g) (pending g)).
  { unfold GalleryView.user. erewrite click_thumbnail by done. cbn. unfold click. by rewrite Hl, Hc; simpl; rewrite Hp. }
  rewrite E. set (g' := mkGallery _ _ _ _). change (close g) with (close g').
  assert (Hne : captures g' <> []) by (intros E'; change (captures g = []) in E'; by rewrite E' in Hc).
  pose proof (first_image_nonempty _ _ Hp) as Hpath.
  assert (Hev : forall e p, dispatch e (1%nat :: p) (CaptureGallery g') = dispatch e (0%nat :: p) [lightbox_view path])
    by (intros; by apply lightbox_events).
  split; [done|]. split; [done|]. unfold GalleryView.user. rewrite !Hev.
  split; [done|]. split; [done|]. split; [done|]. split; [|split; [|split]].
  - erewrite dispatch_bubble, bubble_chain by reflexivity. by rewrite bubble_children.
  - cbn. by destruct (String.eqb k "Escape").
  - cbn. by destruct (String.eqb k "Escape").
  - by erewrite key_on_thumbnail.
Qed.

End Properties.

(** A gallery with a capture of two images and one that failed. *)
Definition sample_capture (id : Z) (ok : bool) (paths : list string) : CaptureRecord :=
  record_of (mkEntry id "p" "ISS" 25544 145800000 sstv "" "" 45 600 None "2024-01-01T00:00:00.000Z" None
    (Some (-22)%Q) ok None 0 paths).

Definition sample_gallery : gallery :=
  mkGallery [sample_capture 2 false []; sample_capture 1 true ["/srv/images/a b.png"; "/srv/images/c.png"]] None false 0.

Lemma gallery_dialog_witness :
  let view g := user id id (fun _ _ => false) Click g in
  let g' := view [0; 1; 1; 0]%nat sample_gallery in
  lightbox g' = Some "/api/images/a%20b.png" /\ view [1; 1]%nat g' = g' /\ view [1; 0; 0]%nat g' = sample_gallery.
Proof.
  destruct (gallery_dialog id id (fun _ _ => false) sample_gallery 1 (sample_capture 1 true ["/srv/images/a b.png"; "/srv/images/c.png"])
    "/srv/images/a b.png" [0]%nat "x" eq_refl eq_refl eq_refl) as (H1 & _ & H2 & _ & _ & H3 & _).
  cbv zeta. unfold lightbox. split; [|split]; [by rewrite H1|exact H2|exact H3].
Defined.

Lemma gallery_images_witness :
  sources (CaptureGallery id id (fun _ _ => false) sample_gallery) = ["/api/images/a%20b.png"].
Proof. rewrite (gallery_images id id (fun _ _ => false) sample_gallery); [reflexivity|done..]. Defined.

End GalleryView.
