(* ===== verification/Orbit.v ===== *)
(** * Orbit prediction (src/backend/prediction/orbit.ts, ground-track.ts)

    The search for passes on a grid of sample times, the refinement of their
    limits, positions and ground tracks.  The propagator is satellite.js: its
    functions are the fields of [SatelliteJs], about which nothing is assumed.
    Dates are UTC milliseconds.  The source steps a [Date] by [setSeconds], in local time:
    [findPasses_in] is the search in a time zone, [findPasses] the one in UTC, and they
    are equal wherever the offset of the zone does not change during the search. *)

From S2P Require Import Prelude JsStd Types.

(** The functions of satellite.js the program calls, and [Math.PI]. *)
Class SatelliteJs := {
  Satrec : Type;
  Eci : Type;
  Ecf : Type;
  Math_PI : Q;
  twoline2satrec : string -> string -> string + Satrec;
  propagate : Satrec -> Z -> string + option Eci;
  gstime : Z -> Q;
  eciToEcf : Eci -> Q -> Ecf;
  ecfToLookAngles : Q * Q * Q -> Ecf -> Q * Q * Q;
  eciToGeodetic : Eci -> Q -> Q * Q * Q;
  degreesLat : Q -> Q;
  degreesLong : Q -> Q
}.

Module Orbit.

Section Orbit.
Context `{SatelliteJs}.

(* @src backend/prediction/orbit.ts:11-12 RAD_TO_DEG *)
Definition DEG_TO_RAD : Q := Math_PI / 180.
Definition RAD_TO_DEG : Q := 180 / Math_PI.

(** longitude, latitude and height *)
Definition GeodeticLocation : Type := Q * Q * Q.

(* @src backend/prediction/orbit.ts:14-20 createObserver *)
Definition createObserver (coords : Coordinates) : GeodeticLocation :=
  (longitude coords * DEG_TO_RAD, latitude coords * DEG_TO_RAD, altitude coords / 1000)%Q.

(* @src backend/prediction/orbit.ts:22-37 computeLookAngles *)
Definition computeLookAngles (positionEci : Eci) (observer : GeodeticLocation) (time : Z)
  : SatellitePosition :=
  let gmst := gstime time in
  let positionEcf := eciToEcf positionEci gmst in
  let '(azimuth, elevation, rangeSat) := ecfToLookAngles observer positionEcf in
  mkPosition (azimuth * RAD_TO_DEG)%Q (elevation * RAD_TO_DEG)%Q rangeSat time.

(* @src backend/prediction/orbit.ts:39-53 getSatellitePosition *)
Definition getSatellitePosition (tle : TwoLineElement) (observer : GeodeticLocation) (time : Z)
  : option SatellitePosition :=
  match twoline2satrec (tle_line1 tle) (tle_line2 tle) with
  | inl _ => None
  | inr satrec =>
      match propagate satrec time with
      | inl _ | inr None => None
      | inr (Some position) => Some (computeLookAngles position observer time)
      end
  end.

(* @src backend/prediction/orbit.ts:55-81 getSatelliteGeolocation *)
Definition getSatelliteGeolocation (tle : TwoLineElement) (info : SatelliteInfo) (time : Z)
  : option SatelliteGeolocation :=
  match twoline2satrec (tle_line1 tle) (tle_line2 tle) with
  | inl _ => None
  | inr satrec =>
      match propagate satrec time with
      | inl _ | inr None => None
      | inr (Some position) =>
          let gmst := gstime time in
          let '(lat, long, height) := eciToGeodetic position gmst in
          Some (mkGeolocation (si_noradId info) (si_name info) (degreesLat lat) (degreesLong long)
                  height (si_signalType info))
      end
  end.

(** ** The search for passes *)

(** The variables of the loop. *)
(* @src backend/prediction/orbit.ts:99-103 findPasses *)
Record search := mkSearch {
  passes : list SatellitePass;
  inPass : bool;
  passStart : option Z;
  maxElev : Q;
  maxElevTime : option Z
}.

(** One sample. *)
(* @src backend/prediction/orbit.ts:108-140 findPasses *)
Definition search_step (tle : TwoLineElement) (info : SatelliteInfo) (observer : GeodeticLocation)
  (minElevation : Q) (current : Z) (s : search) : search :=
  match getSatellitePosition tle observer current with
  | None => s
  | Some position =>
      let el := sp_elevation position in
      let above := minElevation <?q el in
      if above && negb (inPass s) then
        mkSearch (passes s) true (Some current) el (Some current)
      else if above && inPass s then
        if maxElev s <?q el then mkSearch (passes s) (inPass s) (passStart s) el (Some current)
        else s
      else
        match passStart s, maxElevTime s with
        | Some start, Some maxTime =>
            if (el <=?q minElevation) && inPass s then
              let duration := (inject_Z (current - start) / 1000)%Q in
              let found := mkPass info start current (maxElev s) maxTime duration in
              mkSearch (if (240 <=?q duration) && (duration <=?q 1200)
                        then passes s ++ [found] else passes s)
                false None 0 None
            else s
        | _, _ => s
        end
  end.

(** The loop, [None] when the fuel does not reach the end of the window. *)
(* @src backend/prediction/orbit.ts:105-143 findPasses *)
Fixpoint search_loop (fuel : nat) (tle : TwoLineElement) (info : SatelliteInfo)
  (observer : GeodeticLocation) (minElevation : Q) (stepSeconds : Z) (endTime current : Z)
  (s : search) : option search :=
  match fuel with
  | 0 => None
  | S fuel =>
      if (current <=? endTime)%Z then
        search_loop fuel tle info observer minElevation stepSeconds endTime
          (current + stepSeconds * 1000) (search_step tle info observer minElevation current s)
      else Some s
  end.

Definition search_fuel (startTime endTime stepSeconds : Z) : nat :=
  S (S (Z.to_nat ((endTime - startTime) / (stepSeconds * 1000)))).

(* @src backend/prediction/orbit.ts:90-146 findPasses *)
Definition findPasses (tle : TwoLineElement) (info : SatelliteInfo) (observer : GeodeticLocation)
  (startTime endTime : Z) (minElevation : Q) (stepSeconds : Z) : option (list SatellitePass) :=
  passes <$> search_loop (search_fuel startTime endTime stepSeconds) tle info observer minElevation
    stepSeconds endTime startTime (mkSearch [] false None 0 None).

(** *** In local time *)

(** A time zone: the offset of local time at an instant, and the instant of a local time (the
    earlier of two in the hour that is repeated). *)
Record Zone := mkZone { offset : Z -> Z; utc : Z -> Z }.

(** [current.setSeconds(current.getSeconds() + s)] *)
(* @src backend/prediction/orbit.ts:142-142 findPasses *)
Definition add_seconds (zone : Zone) (current s : Z) : Z := utc zone (current + offset zone current + s * 1000).

(* @src backend/prediction/orbit.ts:105-143 findPasses *)
Fixpoint search_loop_in (zone : Zone) (fuel : nat) (tle : TwoLineElement) (info : SatelliteInfo)
  (observer : GeodeticLocation) (minElevation : Q) (stepSeconds : Z) (endTime current : Z)
  (s : search) : option search :=
  match fuel with
  | 0 => None
  | S fuel =>
      if (current <=? endTime)%Z then
        search_loop_in zone fuel tle info observer minElevation stepSeconds endTime
          (add_seconds zone current stepSeconds) (search_step tle info observer minElevation current s)
      else Some s
  end.

(* @src backend/prediction/orbit.ts:90-146 findPasses *)
Definition findPasses_in (zone : Zone) (tle : TwoLineElement) (info : SatelliteInfo) (observer : GeodeticLocation)
  (startTime endTime : Z) (minElevation : Q) (stepSeconds : Z) : option (list SatellitePass) :=
  passes <$> search_loop_in zone (search_fuel startTime endTime stepSeconds) tle info observer minElevation
    stepSeconds endTime startTime (mkSearch [] false None 0 None).

(** The offset is [o] between two instants. *)
Definition constant (zone : Zone) (o a b : Z) : Prop :=
  forall t, (a <= t <= b)%Z -> offset zone t = o /\ utc zone (t + o) = t.

Lemma search_loop_constant zone o tle info observer minElevation stepSeconds startTime endTime :
  (0 < stepSeconds)%Z -> constant zone o startTime (endTime + stepSeconds * 1000) ->
  forall fuel current s, (startTime <= current)%Z ->
  search_loop_in zone fuel tle info observer minElevation stepSeconds endTime current s =
  search_loop fuel tle info observer minElevation stepSeconds endTime current s.
Proof.
  intros Hstep Hz. induction fuel as [|fuel IH]; intros current s Hc; [done|]. cbn [search_loop_in search_loop].
  destruct (current <=? endTime)%Z eqn:E; [|done]. apply Z.leb_le in E.
  assert (En : add_seconds zone current stepSeconds = (current + stepSeconds * 1000)%Z).
  { unfold add_seconds. destruct (Hz current) as [-> _]; [lia|].
    replace (current + o + stepSeconds * 1000)%Z with (current + stepSeconds * 1000 + o)%Z by lia. apply Hz. lia. }
  rewrite En. apply IH. lia.
Qed.

(** Where the offset does not change, the search does not depend on the zone. *)
Theorem findPasses_any_zone zone o tle info observer startTime endTime minElevation stepSeconds
  (Hstep : (0 < stepSeconds)%Z) (Hz : constant zone o startTime (endTime + stepSeconds * 1000)) :
  findPasses_in zone tle info observer startTime endTime minElevation stepSeconds =
  findPasses tle info observer startTime endTime minElevation stepSeconds.
Proof. unfold findPasses_in, findPasses. f_equal. by eapply search_loop_constant. Qed.

(** ** Refinement *)

(* @src backend/prediction/orbit.ts:154-178 refineTime *)
Fixpoint refine_loop (n : nat) (tle : TwoLineElement) (observer : GeodeticLocation)
  (minElevation : Q) (approximate : Z) (searchDirection : Z) (current : Z) : Z :=
  match n with
  | 0 => approximate
  | S n =>
      match getSatellitePosition tle observer current with
      | None => approximate
      | Some position =>
          let isAboveHorizon := minElevation <?q sp_elevation position in
          if (searchDirection =? -1)%Z && negb isAboveHorizon then (current + 1000)%Z
          else if (searchDirection =? 1)%Z && negb isAboveHorizon then (current - 1000)%Z
          else refine_loop n tle observer minElevation approximate searchDirection
                 (current + searchDirection * 1000)%Z
      end
  end.

(* @src backend/prediction/orbit.ts:154-178 refineTime *)
Definition refineTime (tle : TwoLineElement) (observer : GeodeticLocation) (minElevation : Q)
  (approximate searchDirection : Z) : Z :=
  refine_loop 120 tle observer minElevation approximate searchDirection
    (approximate + searchDirection * 60 * 1000)%Z.

(** The highest sample, every 10 s. *)
(* @src backend/prediction/orbit.ts:183-196 refinePassTiming *)
Fixpoint peak_loop (fuel : nat) (tle : TwoLineElement) (observer : GeodeticLocation)
  (refinedLos checkTime : Z) (best : Q * Z) : option (Q * Z) :=
  match fuel with
  | 0 => None
  | S fuel =>
      if (checkTime <=? refinedLos)%Z then
        let best :=
          match getSatellitePosition tle observer checkTime with
          | Some position =>
              if best.1 <?q sp_elevation position then (sp_elevation position, checkTime) else best
          | None => best
          end in
        peak_loop fuel tle observer refinedLos (checkTime + 10000) best
      else Some best
  end.

(* @src backend/prediction/orbit.ts:148-206 refinePassTiming *)
Definition refinePassTiming (tle : TwoLineElement) (pass : SatellitePass)
  (observer : GeodeticLocation) (minElevation : Q) : option SatellitePass :=
  let refinedAos := refineTime tle observer minElevation (pass_aos pass) (-1) in
  let refinedLos := refineTime tle observer minElevation (pass_los pass) 1 in
  (fun best : Q * Z =>
     mkPass (pass_satellite pass) refinedAos refinedLos best.1 best.2
       (inject_Z (refinedLos - refinedAos) / 1000)%Q) <$>
  peak_loop (search_fuel refinedAos refinedLos 10) tle observer refinedLos refinedAos
    (0%Q, pass_maxElevationTime pass).

(** ** Ground tracks *)

(* @src backend/prediction/ground-track.ts:16-35 computeGroundTrack *)
Fixpoint track_loop (fuel : nat) (satrec : Satrec) (stepSeconds endTime current : Z)
  (points : list GroundTrackPoint) : option (list GroundTrackPoint) :=
  match fuel with
  | 0 => None
  | S fuel =>
      if (current <=? endTime)%Z then
        let points :=
          match propagate satrec current with
          | inr (Some position) =>
              let gmst := gstime current in
              let '(lat, long, _) := eciToGeodetic position gmst in
              points ++ [mkPoint (degreesLat lat) (degreesLong long)]
          | _ => points
          end in
        track_loop fuel satrec stepSeconds endTime (current + stepSeconds * 1000) points
      else Some points
  end.

(** [inl] is the exception of [twoline2satrec], which is outside the [try]. *)
(* @src backend/prediction/ground-track.ts:4-43 computeGroundTrack *)
Definition computeGroundTrack (tle : TwoLineElement) (info : SatelliteInfo) (startTime : Z)
  (durationMinutes stepSeconds : Z) : string + option GroundTrack :=
  match twoline2satrec (tle_line1 tle) (tle_line2 tle) with
  | inl e => inl e
  | inr satrec =>
      let endTime := (startTime + durationMinutes * 60 * 1000)%Z in
      inr ((fun points => mkGroundTrack (si_noradId info) (si_name info) (si_signalType info) points)
             <$> track_loop (search_fuel startTime endTime stepSeconds) satrec stepSeconds endTime
                   startTime [])
  end.

(** ** Facts about the search *)

(** The elevation the propagator gives at a time. *)
Definition elevation_at (tle : TwoLineElement) (observer : GeodeticLocation) (t : Z) : option Q :=
  sp_elevation <$> getSatellitePosition tle observer t.

Section Search.
Context (tle : TwoLineElement) (info : SatelliteInfo) (observer : GeodeticLocation).
Context (minElevation : Q) (startTime stepSeconds : Z) (Hstep : (0 < stepSeconds)%Z).

Notation elev := (elevation_at tle observer).

(** The sample times. *)
Definition on_grid (t : Z) : Prop := exists k : nat, t = (startTime + Z.of_nat k * (stepSeconds * 1000))%Z.

(** A maximum over the samples of an interval, all of them above the limit. *)
Definition peak_of (a b : Z) (m : Q) (mt : Z) : Prop :=
  (a <= mt < b)%Z /\ elev mt = Some m /\ (minElevation < m)%Q /\
  (forall t e, on_grid t -> (a <= t < b)%Z -> elev t = Some e -> (minElevation < e)%Q /\ (e <= m)%Q).

(** The sample before [t], when there is one, is not above the limit. *)
Definition low_before (t : Z) : Prop :=
  forall e, (startTime < t)%Z -> elev (t - stepSeconds * 1000)%Z = Some e -> (e <= minElevation)%Q.

(** A pass as the search reports it. *)
Record pass_sound (p : SatellitePass) : Prop := mkPassSound {
  ps_satellite : pass_satellite p = info;
  ps_start : (startTime <= pass_aos p)%Z;
  ps_grid : on_grid (pass_aos p) /\ on_grid (pass_los p);
  ps_rise : exists e, elev (pass_aos p) = Some e /\ (minElevation < e)%Q;
  ps_before : low_before (pass_aos p);
  ps_set : exists e, elev (pass_los p) = Some e /\ (e <= minElevation)%Q;
  ps_peak : peak_of (pass_aos p) (pass_los p) (pass_maxElevation p) (pass_maxElevationTime p);
  ps_duration : pass_duration p = (inject_Z (pass_los p - pass_aos p) / 1000)%Q;
  ps_limits : (240 <= pass_duration p)%Q /\ (pass_duration p <= 1200)%Q
}.

Definition before (p q : SatellitePass) : Prop := (pass_los p < pass_aos q)%Z.

(** The state of the search when the samples before [current] have been seen. *)
Record search_inv (current : Z) (s : search) : Prop := mkSearchInv {
  si_passes : Forall pass_sound (passes s);
  si_order : StronglySorted before (passes s);
  si_past : Forall (fun p => (pass_los p < current)%Z) (passes s);
  si_open : if inPass s
    then exists a mt, passStart s = Some a /\ maxElevTime s = Some mt /\ (startTime <= a)%Z /\
           on_grid a /\ low_before a /\ (exists e, elev a = Some e /\ (minElevation < e)%Q) /\
           peak_of a current (maxElev s) mt /\ Forall (fun p => (pass_los p < a)%Z) (passes s)
    else passStart s = None /\ low_before current
}.

Lemma grid_next t t' : on_grid t -> on_grid t' -> (t' < t + stepSeconds * 1000)%Z -> (t' <= t)%Z.
Proof.
  intros [k ->] [k' ->] Hlt. set (d := (stepSeconds * 1000)%Z) in *.
  assert (Hd : (0 < d)%Z) by (subst d; clear - Hstep; lia).
  assert (Hk : (Z.of_nat k' < Z.of_nat k + 1)%Z) by (apply (Z.mul_lt_mono_pos_r d); [done|lia]).
  apply Z.add_le_mono_l, Z.mul_le_mono_nonneg_r; lia.
Qed.

Lemma peak_extend a current m mt e :
  on_grid current -> peak_of a current m mt -> elev current = Some e -> (minElevation < e)%Q ->
  (a <= current)%Z ->
  if m <?q e then peak_of a (current + stepSeconds * 1000) e current
  else peak_of a (current + stepSeconds * 1000) m mt.
Proof.
  intros Hg (Hmt & Hm & Hmin & Hall) He Hlt Ha.
  destruct (m <?q e) eqn:E; props; split_and!; try done; try lia.
  - intros t e' Ht Hr He'. destruct (decide (t < current)%Z) as [Hlt'|Hge].
    + destruct (Hall t e') as [? ?]; [done|lia|done|]. split; [done|lra].
    + assert (t = current) as -> by (pose proof (grid_next current t Hg Ht); lia).
      rewrite He in He'. injection He' as <-. split; [done|lra].
  - intros t e' Ht Hr He'. destruct (decide (t < current)%Z) as [Hlt'|Hge].
    + apply (Hall t e'); [done|lia|done].
    + assert (t = current) as -> by (pose proof (grid_next current t Hg Ht); lia).
      rewrite He in He'. injection He' as <-. split; [done|lra].
Qed.

(** A sample without a position leaves the maximum as it is. *)
Lemma peak_skip a current m mt :
  on_grid current -> peak_of a current m mt -> elev current = None ->
  peak_of a (current + stepSeconds * 1000) m mt.
Proof.
  intros Hg (Hmt & Hm & Hmin & Hall) He. split_and!; try done; try lia.
  intros t e' Ht Hr He'. apply (Hall t e'); [done| |done]. split; [lia|].
  pose proof (grid_next current t Hg Ht). destruct (decide (t = current)); [congruence|lia].
Qed.

Lemma past_weaken c c' l : (c <= c')%Z ->
  Forall (fun p => (pass_los p < c)%Z) l -> Forall (fun p => (pass_los p < c')%Z) l.
Proof. intros Hc Hl. eapply Forall_impl; [exact Hl|]. simpl. intros. lia. Qed.

Lemma search_step_inv current s :
  on_grid current -> search_inv current s ->
  search_inv (current + stepSeconds * 1000) (search_step tle info observer minElevation current s).
Proof.
  intros Hg [H1 H2 H3 H4].
  assert (Hc : (startTime <= current)%Z) by (destruct Hg as [k ->]; nia).
  assert (Hpast : Forall (fun p => (pass_los p < current + stepSeconds * 1000)%Z) (passes s))
    by (eapply past_weaken; [|exact H3]; lia).
  assert (Hprev : (current + stepSeconds * 1000 - stepSeconds * 1000 = current)%Z) by lia.
  unfold search_step. destruct (getSatellitePosition tle observer current) as [pos|] eqn:Ep.
  2:{ split; [done|done|done|]. destruct (inPass s).
      2:{ destruct H4 as [? _]. split; [done|]. intros e _. rewrite Hprev. unfold elevation_at. by rewrite Ep. }
      destruct H4 as (a & mt & ? & ? & ? & ? & ? & ? & Hpk & ?). exists a, mt. split_and!; try done.
      apply peak_skip; [done|done|]. unfold elevation_at. by rewrite Ep. }
  assert (He : elev current = Some (sp_elevation pos)) by (unfold elevation_at; by rewrite Ep).
  set (el := sp_elevation pos) in *.
  destruct (minElevation <?q el) eqn:Eab; props.
  - destruct (inPass s) eqn:Ei; simpl.
    + destruct H4 as (a & mt & Ha & Hm & Hsa & Hga & Hba & Hra & Hpk & Hlos).
      assert (Hac : (a <= current)%Z) by (destruct Hpk as [? _]; lia).
      pose proof (peak_extend a current (maxElev s) mt el Hg Hpk He Eab Hac) as Hx.
      destruct (maxElev s <?q el); split; simpl; try done.
      * exists a, current. by split_and!.
      * rewrite Ei. exists a, mt. by split_and!.
    + destruct H4 as [_ Hlow]. split; simpl; try done. exists current, current. split_and!; try done; [by exists el|].
      split_and!; [lia|lia|done|done|]. intros t e Ht Hr He'.
      assert (t = current) as -> by (pose proof (grid_next current t Hg Ht); lia).
      rewrite He in He'. injection He' as <-. split; [done|lra].
  - assert (Hlow : low_before (current + stepSeconds * 1000)).
    { intros e _. rewrite Hprev, He. by intros [= <-]. }
    simpl. destruct (inPass s) eqn:Ei.
    2:{ destruct H4 as [Hps _]. rewrite Hps. split; simpl; try done. by rewrite Ei. }
    destruct H4 as (a & mt & Ha & Hm & Hsa & Hga & Hba & Hra & Hpk & Hlos).
    rewrite Ha, Hm. replace (el <=?q minElevation) with true by (symmetry; by props). simpl.
    set (dur := (inject_Z (current - a) / 1000)%Q). set (found := mkPass _ _ _ _ _ _).
    destruct ((240 <=?q dur) && (dur <=?q 1200)) eqn:Ed.
    + assert (Hf : pass_sound found).
      { props. destruct Hpk as (? & ? & ? & ?). split; simpl; try done.
        by exists el. }
      split; simpl; [|apply StronglySorted_app; split_and!| |done].
      * apply Forall_app. split; [done|by constructor].
      * intros x y Hx ->%list_elem_of_singleton. rewrite Forall_forall in Hlos. by apply Hlos.
      * done.
      * repeat constructor.
      * apply Forall_app. split; [done|]. constructor; [simpl; lia|constructor].
    + split; simpl; done.
Qed.

Lemma search_loop_inv fuel endTime current s r :
  on_grid current -> search_inv current s ->
  search_loop fuel tle info observer minElevation stepSeconds endTime current s = Some r ->
  exists final, search_inv final r /\ on_grid final /\
    ((final <= endTime + stepSeconds * 1000)%Z \/ final = current).
Proof.
  revert current s. induction fuel as [|fuel IH]; intros current s Hg Hs; simpl; [done|].
  destruct (current <=? endTime)%Z eqn:E; props.
  - intros Hr. apply IH in Hr as (f & Hf & Hgf & Hle).
    + exists f. split; [done|]. split; [done|]. left. destruct Hle as [?| ->]; lia.
    + destruct Hg as [k ->]. exists (S k). lia.
    + by apply search_step_inv.
  - intros [= <-]. exists current. auto.
Qed.

Lemma search_loop_total fuel endTime current s :
  (endTime - current < Z.of_nat fuel * (stepSeconds * 1000))%Z ->
  is_Some (search_loop (S fuel) tle info observer minElevation stepSeconds endTime current s).
Proof.
  revert current s. induction fuel as [|fuel IH]; intros current s Hf.
  - cbn [search_loop]. destruct (current <=? endTime)%Z eqn:E; props; [lia|eauto].
  - cbn [search_loop]. destruct (current <=? endTime)%Z eqn:E; props; [|eauto]. apply IH. lia.
Qed.

Lemma findPasses_total endTime :
  is_Some (findPasses tle info observer startTime endTime minElevation stepSeconds).
Proof.
  unfold findPasses, search_fuel. apply fmap_is_Some, search_loop_total.
  set (d := (stepSeconds * 1000)%Z). assert (0 < d)%Z by lia.
  pose proof (Z.div_mod (endTime - startTime) d). pose proof (Z.mod_pos_bound (endTime - startTime) d).
  destruct (decide (0 <= (endTime - startTime) / d)%Z); [|nia].
  rewrite Nat2Z.inj_succ, Z2Nat.id by done. nia.
Qed.
(** The passes of a search: sound, in order, within the window. *)
Lemma findPasses_spec endTime l :
  findPasses tle info observer startTime endTime minElevation stepSeconds = Some l ->
  Forall pass_sound l /\ StronglySorted before l /\ Forall (fun p => (pass_los p <= endTime)%Z) l.
Proof.
  unfold findPasses. intros (r & Hr & ->)%fmap_Some.
  assert (Hg : on_grid startTime) by (exists 0; lia).
  apply search_loop_inv in Hr as (f & [H1 H2 H3 _] & Hgf & Hle); [|done|].
  - split_and!; [done|done|]. rewrite Forall_forall in *. intros p Hp.
    pose proof (H1 p Hp) as Hs. pose proof (H3 p Hp) as Hlt. simpl in Hlt.
    pose proof (ps_start p Hs). destruct (ps_peak p Hs) as [? _].
    destruct Hle as [Hle| ->]; [|lia].
    pose proof (grid_next (pass_los p) f (proj2 (ps_grid p Hs)) Hgf).
    destruct (decide (f < pass_los p + stepSeconds * 1000)%Z); lia.
  - split; simpl; [constructor|constructor|constructor|]. split; [done|]. intros e ?. lia.
Qed.
End Search.

(** ** Facts about the refinement *)

Lemma refine_first tle observer m approximate d e :
  elevation_at tle observer (approximate + d * 60 * 1000)%Z = Some e -> (e <= m)%Q ->
  d = (-1)%Z \/ d = 1%Z ->
  refineTime tle observer m approximate d = (approximate + d * 59000)%Z.
Proof.
  intros He Hm Hd. unfold refineTime, refine_loop. unfold elevation_at in He.
  destruct (getSatellitePosition tle observer _) as [pos|]; [|done].
  injection He as He. cbv zeta. rewrite He.
  replace (m <?q e) with false by (symmetry; by props).
  destruct Hd as [-> | ->]; simpl; lia.
Qed.

Lemma peak_loop_total tle observer los fuel : forall t b,
  (los - t < Z.of_nat fuel * 10000)%Z -> is_Some (peak_loop (S fuel) tle observer los t b).
Proof.
  induction fuel as [|fuel IH]; intros t b Hf; cbn [peak_loop];
    destruct (t <=? los)%Z eqn:E; props; [lia|eauto| |eauto].
  apply IH. lia.
Qed.

Lemma refinePassTiming_total tle pass observer m :
  is_Some (refinePassTiming tle pass observer m).
Proof.
  unfold refinePassTiming. set (a := refineTime _ _ _ _ (-1)). set (b := refineTime _ _ _ _ 1).
  apply fmap_is_Some. unfold search_fuel. apply peak_loop_total.
  pose proof (Z.div_mod (b - a) 10000). pose proof (Z.mod_pos_bound (b - a) 10000).
  change (10 * 1000)%Z with 10000%Z.
  destruct (decide (0 <= (b - a) / 10000)%Z); [|nia].
  rewrite Nat2Z.inj_succ, Z2Nat.id by done. nia.
Qed.

Lemma refinePassTiming_fields tle pass observer m r :
  refinePassTiming tle pass observer m = Some r ->
  pass_satellite r = pass_satellite pass /\
  pass_aos r = refineTime tle observer m (pass_aos pass) (-1) /\
  pass_los r = refineTime tle observer m (pass_los pass) 1 /\
  pass_duration r = (inject_Z (pass_los r - pass_aos r) / 1000)%Q.
Proof. unfold refinePassTiming. intros (best & Hb & ->)%fmap_Some. done. Qed.

(** ** Properties *)

(** C6: The search ends, and what it reports are passes: each one rises above
    the limit at its AOS and is not above it at its LOS, both sample times of
    the window, stays above it at every sample in between, has its highest
    sample as maximum and lasts 4 to 20 minutes; the passes are in order and do
    not overlap. *)
Theorem findPasses_sound tle info observer minElevation startTime endTime stepSeconds
  (Hstep : (0 < stepSeconds)%Z) :
  exists l, findPasses tle info observer startTime endTime minElevation stepSeconds = Some l /\
    Forall (pass_sound tle info observer minElevation startTime stepSeconds) l /\
    StronglySorted before l /\ Forall (fun p => (pass_los p <= endTime)%Z) l.
Proof.
  destruct (findPasses_total tle info observer minElevation startTime stepSeconds Hstep endTime)
    as [l Hl]. exists l. split; [done|]. by eapply findPasses_spec.
Qed.

(** Refinement widens instead of refining: it starts its search one minute
    outside the coarse limits, where the satellite is already down, and stops at
    once; for a pass of the usual one-minute search the refined AOS is 59 s
    before the coarse one and the LOS 59 s after it, whatever the true times. *)
Theorem refinePassTiming_widens tle info observer minElevation startTime endTime l p e1 e2
  (Hl : findPasses tle info observer startTime endTime minElevation 60 = Some l)
  (Hp : p ∈ l) (Hstart : (startTime < pass_aos p)%Z)
  (Hbefore : elevation_at tle observer (pass_aos p - 60000)%Z = Some e1)
  (Hafter : elevation_at tle observer (pass_los p + 60000)%Z = Some e2)
  (Hlow : (e2 <= minElevation)%Q) :
  exists r, refinePassTiming tle p observer minElevation = Some r /\
    pass_aos r = (pass_aos p - 59000)%Z /\ pass_los r = (pass_los p + 59000)%Z /\
    (pass_duration r == pass_duration p + 118)%Q.
Proof.
  destruct (findPasses_spec tle info observer minElevation startTime 60 ltac:(lia) endTime l Hl)
    as (Hs & _ & _).
  rewrite Forall_forall in Hs. specialize (Hs p Hp).
  destruct (refinePassTiming_total tle p observer minElevation) as [r Hr].
  destruct (refinePassTiming_fields _ _ _ _ _ Hr) as (_ & Ha & Hb & Hd).
  assert (Ea : pass_aos r = (pass_aos p - 59000)%Z).
  { rewrite Ha. rewrite (refine_first _ _ _ _ (-1) e1); [lia| | |by left].
    - rewrite <- Hbefore. f_equal; lia.
    - by apply (ps_before _ _ _ _ _ _ p Hs). }
  assert (Eb : pass_los r = (pass_los p + 59000)%Z).
  { rewrite Hb. rewrite (refine_first _ _ _ _ 1 e2); [lia| |done|by right].
    rewrite <- Hafter. f_equal; lia. }
  exists r. split_and!; [done..|]. rewrite Hd, (ps_duration _ _ _ _ _ _ p Hs), Ea, Eb.
  replace (pass_los p + 59000 - (pass_aos p - 59000))%Z
    with ((pass_los p - pass_aos p) + 118000)%Z by lia.
  rewrite inject_Z_plus. change (inject_Z 118000) with (118000 # 1). field.
Qed.

End Orbit.

(** A propagator for the witnesses: the elevation, in degrees, is a parabola of
    the time that is positive from 110 s to 610 s. *)
#[export] Instance sample_propagator : SatelliteJs := {
  Satrec := unit; Eci := Z; Ecf := Z; Math_PI := 180%Q;
  twoline2satrec _ _ := inr tt;
  propagate _ t := inr (Some t);
  gstime _ := 0%Q;
  eciToEcf t _ := t;
  ecfToLookAngles _ t := (0, inject_Z ((t / 1000 - 110) * (610 - t / 1000)) / 1000, 1000 + inject_Z t)%Q;
  eciToGeodetic t _ := (0, 0, 400)%Q;
  degreesLat q := q;
  degreesLong q := q
}.

Definition sample_tle : TwoLineElement := mkTle "METEOR-M N2-3" "1 57166U" "2 57166".
Definition sample_info : SatelliteInfo :=
  mkSatelliteInfo "METEOR-M N2-3" 57166 137900000 lrpt (SIGNAL_CONFIGS lrpt) true None.

Lemma findPasses_sound_witness :
  exists l, findPasses sample_tle sample_info (0, 0, 0)%Q 0 3600000 0 60 = Some l /\
    StronglySorted before l.
Proof.
  destruct (findPasses_sound sample_tle sample_info (0, 0, 0)%Q 0 0 3600000 60)
    as (l & Hl & _ & Hs & _); [lia|]. exists l. split; [exact Hl|exact Hs].
Defined.

(** The clocks go back from two hours ahead of UTC to one at the instant [0]: the local hour
    before it is repeated. *)
Definition autumn : Zone :=
  mkZone (fun t => if (t <? 0)%Z then 7200000 else 3600000)%Z
    (fun l => if (l <? 7200000)%Z then l - 7200000 else l - 3600000)%Z.

(** The step that reaches the change skips the repeated hour, so the search misses the passes
    in it; from inside that hour a step goes back to before the change. *)
Example autumn_steps :
  add_seconds autumn (-60000) 60 = 3600000%Z /\ add_seconds autumn 600000 60 = (-2940000)%Z.
Proof. done. Qed.

Example autumn_misses :
  findPasses sample_tle sample_info (0, 0, 0)%Q (-3600000) 3600000 0 60 <> Some [] /\
  findPasses_in autumn sample_tle sample_info (0, 0, 0)%Q (-3600000) 3600000 0 60 = Some [].
Proof. split; [vm_compute; discriminate|vm_compute; reflexivity]. Qed.

Lemma findPasses_any_zone_witness :
  findPasses_in autumn sample_tle sample_info (0, 0, 0)%Q 7200000 10800000 0 60 =
  findPasses sample_tle sample_info (0, 0, 0)%Q 7200000 10800000 0 60.
Proof.
  apply (findPasses_any_zone autumn 3600000); [lia|]. intros t Ht. unfold autumn. cbn [offset utc].
  destruct (Z.ltb_spec t 0); [lia|]. destruct (Z.ltb_spec (t + 3600000) 7200000); lia.
Defined.

Definition sample_found : SatellitePass := Eval vm_compute in
  match findPasses sample_tle sample_info (0, 0, 0)%Q 0 3600000 0 60 with
  | Some [p] => p
  | _ => mkPass sample_info 0%Z 0%Z 0 0%Z 0
  end.

Definition sample_level (t : Z) : Q := Eval vm_compute in
  default 0%Q (elevation_at sample_tle (0, 0, 0)%Q t).

Lemma refinePassTiming_widens_witness :
  exists r, refinePassTiming sample_tle sample_found (0, 0, 0)%Q 0 = Some r /\
    pass_aos r = (pass_aos sample_found - 59000)%Z.
Proof.
  destruct (refinePassTiming_widens sample_tle sample_info (0, 0, 0)%Q 0 0 3600000
    [sample_found] sample_found (sample_level 60000) (sample_level 720000)) as (r & Hr & Ha & _).
  - vm_compute. reflexivity.
  - left.
  - reflexivity.
  - vm_compute. reflexivity.
  - vm_compute. reflexivity.
  - vm_compute. discriminate.
  - exists r. split; [exact Hr|exact Ha].
Defined.

End Orbit.
