(* ===== verification/Passes.v ===== *)
(** * Pass prediction and Doppler (src/backend/prediction/passes.ts, doppler.ts)

    Prediction joins the satellites with their orbital elements, searches and
    refines their passes and sorts them.  The positions of a pass carry the
    [Date] object that the sampling loop keeps mutating, so that loop is modelled
    with a heap of dates. *)

From S2P Require Import Prelude JsStd Types Orbit.
From Stdlib Require Import Ascii.
Import Orbit.

Module Passes.

(** ** Doppler *)

(* @src backend/prediction/doppler.ts:3-3 SPEED_OF_LIGHT *)
Definition SPEED_OF_LIGHT : Q := 299792458.

(** [(b.rangeSat - a.rangeSat) * 1000 / dt], unless [dt] is zero. *)
(* @src backend/prediction/doppler.ts:11-15 calculateRadialVelocity *)
Definition range_rate (a b : SatellitePosition) : option Q :=
  let dt := (inject_Z (sp_timestamp b - sp_timestamp a) / 1000)%Q in
  if dt ==?q 0 then None
  else
    let dRange := ((sp_rangeSat b - sp_rangeSat a) * 1000)%Q in
    Some (dRange / dt)%Q.

(* @src backend/prediction/doppler.ts:5-27 calculateRadialVelocity *)
Definition calculateRadialVelocity (prev : option SatellitePosition) (current : SatellitePosition)
  (next : option SatellitePosition) : Q :=
  match (next ≫= range_rate current) with
  | Some v => v
  | None => default 0%Q (prev ≫= fun p => range_rate p current)
  end.

(* @src backend/prediction/doppler.ts:40-52 calculateDopplerShift *)
Definition doppler_point (baseFrequency : Q) (arr : list SatellitePosition) (index : nat)
  (pos : SatellitePosition) : DopplerPoint :=
  let prev := match index with 0 => None | S i => arr !! i end in
  let velocity := calculateRadialVelocity prev pos (arr !! S index) in
  let shift := (- baseFrequency * (velocity / SPEED_OF_LIGHT))%Q in
  mkDopplerPoint (sp_timestamp pos) (baseFrequency + shift)%Q shift.

(** The extremes kept by the loop; [None] is an infinity. *)
Definition track (better : Q -> Q -> bool) (acc : option Q) (x : Q) : option Q :=
  match acc with None => Some x | Some m => if better x m then Some x else acc end.
Definition track_max : option Q -> Q -> option Q := track (fun x m => m <?q x).
Definition track_min : option Q -> Q -> option Q := track (fun x m => x <?q m).

(* @src backend/prediction/doppler.ts:29-59 calculateDopplerShift *)
Definition calculateDopplerShift (baseFrequency : Q) (positions : list SatellitePosition)
  : DopplerData :=
  match positions with
  | [] => mkDopplerData [] 0 0
  | _ =>
      let points := imap (doppler_point baseFrequency positions) positions in
      let shifts := map dp_shift points in
      mkDopplerData points (default 0%Q (foldl track_max None shifts))
        (default 0%Q (foldl track_min None shifts))
  end.

(** ** Names *)

(* @src backend/prediction/passes.ts:34-35 predictPasses *)
Definition squash (name : string) : string := replace_ws "" (toLowerCase name).

(** [line1.match(/^1\s+(\d+)/)] and [Number.parseInt] of its group. *)
(* @src backend/prediction/passes.ts:41-42 tleNoradMatch *)
Definition norad_of_line1 (line1 : string) : option Z :=
  match line1 with
  | String.String c rest =>
      if Ascii.eqb c "1"%char then
        match rest with
        | String.String w _ => if is_ws w then parseInt rest else None
        | _ => None
        end
      else None
  | _ => None
  end.

(* @src backend/prediction/passes.ts:33-49 predictPasses *)
Definition tle_matches (sat : SatelliteInfo) (t : TwoLineElement) : bool :=
  let tleName := squash (tle_name t) in
  let satName := squash (si_name sat) in
  if bool_decide (tleName = satName) then true
  else if bool_decide (norad_of_line1 (tle_line1 t) = Some (si_noradId sat)) then true
  else includes (slice_to 8 satName) tleName || includes (slice_to 8 tleName) satName.

(** [s.replace(' ', '-')], the first occurrence only. *)
Fixpoint replace_first_space (s : string) : string :=
  match s with
  | String.EmptyString => String.EmptyString
  | String.String c r =>
      if Ascii.eqb c " "%char then String.String "-"%char r else String.String c (replace_first_space r)
  end.

Section Predict.
Context `{SatelliteJs}.

(** [hoursAhead] and [minElevation] after their defaults (24 and 20). *)
(* @src backend/prediction/passes.ts:13-17 PredictionOptions *)
Record PredictionOptions := mkOptions {
  opt_startTime : Z;
  opt_hoursAhead : Q;
  opt_minElevation : Q
}.

(* @src backend/prediction/passes.ts:31-64 predictPasses *)
Definition passes_of (tles : list TwoLineElement) (observer : GeodeticLocation)
  (options : PredictionOptions) (endTime : Z) (sat : SatelliteInfo) : option (list SatellitePass) :=
  match js_find (tle_matches sat) tles with
  | None => Some []
  | Some tle =>
      passes ← findPasses tle sat observer (opt_startTime options) endTime (opt_minElevation options) 60;
      mapM (fun pass => refinePassTiming tle pass observer (opt_minElevation options)) passes
  end.

Definition aos_leb (a b : SatellitePass) : bool := (pass_aos a <=? pass_aos b)%Z.

(* @src backend/prediction/passes.ts:19-67 predictPasses *)
Definition predictPasses (satellites : list SatelliteInfo) (tles : list TwoLineElement)
  (station : Coordinates) (options : PredictionOptions) : option (list SatellitePass) :=
  let endTime := js_floor (inject_Z (opt_startTime options) + opt_hoursAhead options * 60 * 60 * 1000) in
  let observer := createObserver station in
  allPasses ← mapM (passes_of tles observer options endTime) satellites;
  Some (js_sort aos_leb (concat allPasses)).

(* @src backend/prediction/passes.ts:69-78 filterHighQualityPasses *)
Definition filterHighQualityPasses (passes : list SatellitePass) (minElevation : Q)
  : list SatellitePass :=
  js_filter (fun pass =>
    if 40 <=?q pass_maxElevation pass then true
    else (minElevation <=?q pass_maxElevation pass) && (360 <=?q pass_duration pass)) passes.

(** ** Positions along a pass

    A [Date] is a location of a heap; a position holds the location. *)
Record PositionRef := mkPositionRef {
  pr_azimuth : Q;
  pr_elevation : Q;
  pr_rangeSat : Q;
  pr_timestamp : nat
}.

Definition deref (heap : list Z) (p : PositionRef) : SatellitePosition :=
  mkPosition (pr_azimuth p) (pr_elevation p) (pr_rangeSat p) (default 0%Z (heap !! pr_timestamp p)).

(** [getSatellitePosition(tle, observer, current)] with [timestamp: time], the
    object it was given. *)
(* @src backend/prediction/orbit.ts:31-36 computeLookAngles *)
Definition position_ref (tle : TwoLineElement) (observer : GeodeticLocation) (heap : list Z)
  (current : nat) : option PositionRef :=
  (fun p => mkPositionRef (sp_azimuth p) (sp_elevation p) (sp_rangeSat p) current) <$>
  getSatellitePosition tle observer (default 0%Z (heap !! current)).

(* @src backend/prediction/passes.ts:125-131 getPassPositions *)
Fixpoint positions_loop (fuel : nat) (tle : TwoLineElement) (observer : GeodeticLocation)
  (los stepSeconds : Z) (current : nat) (heap : list Z) (positions : list PositionRef)
  : option (list PositionRef * list Z) :=
  match fuel with
  | 0 => None
  | S fuel =>
      let now := default 0%Z (heap !! current) in
      if (now <=? los)%Z then
        let positions :=
          match position_ref tle observer heap current with
          | Some p => positions ++ [p]
          | None => positions
          end in
        positions_loop fuel tle observer los stepSeconds current
          (<[current := (now + stepSeconds * 1000)%Z]> heap) positions
      else Some (positions, heap)
  end.

(** [new Date(pass.aos)] is the only location; a reader sees the final heap. *)
(* @src backend/prediction/passes.ts:115-134 getPassPositions *)
Definition getPassPositions (tle : TwoLineElement) (pass : SatellitePass) (station : Coordinates)
  (stepSeconds : Z) : option (list SatellitePosition) :=
  let observer := createObserver station in
  '(positions, heap) ←
    positions_loop (search_fuel (pass_aos pass) (pass_los pass) stepSeconds) tle observer
      (pass_los pass) stepSeconds 0 [pass_aos pass] [];
  Some (map (deref heap) positions).

(* @src backend/prediction/passes.ts:144-159 predictPassesWithDoppler *)
Definition with_doppler (tles : list TwoLineElement) (station : Coordinates) (pass : SatellitePass)
  : option PassPrediction :=
  let name := si_name (pass_satellite pass) in
  match js_find (fun t => includes name (tle_name t) ||
                          includes (replace_first_space name) (tle_name t)) tles with
  | None => Some (mkPrediction pass [] None)
  | Some tle =>
      positions ← getPassPositions tle pass station 10;
      let doppler :=
        calculateDopplerShift (inject_Z (si_frequency (pass_satellite pass))) positions in
      Some (mkPrediction pass positions (Some doppler))
  end.

(* @src backend/prediction/passes.ts:136-160 predictPassesWithDoppler *)
Definition predictPassesWithDoppler (satellites : list SatelliteInfo) (tles : list TwoLineElement)
  (station : Coordinates) (options : PredictionOptions) : option (list PassPrediction) :=
  passes ← predictPasses satellites tles station options;
  mapM (with_doppler tles station) passes.

(** ** Facts *)

Lemma positions_loop_refs fuel tle observer los step cur heap ps r :
  Forall (fun p => pr_timestamp p = cur) ps ->
  positions_loop fuel tle observer los step cur heap ps = Some r ->
  Forall (fun p => pr_timestamp p = cur) r.1.
Proof.
  revert heap ps. induction fuel as [|fuel IH]; intros heap ps Hps; cbn [positions_loop]; [done|].
  destruct (_ <=? los)%Z; [|by intros [= <-]]. apply IH.
  unfold position_ref. destruct (getSatellitePosition _ _ _); simpl; [|done].
  apply Forall_app. split; [done|]. by constructor.
Qed.

(** Every position of a pass carries the same time. *)
Lemma getPassPositions_same_time tle pass station step l :
  getPassPositions tle pass station step = Some l ->
  exists t, Forall (fun p => sp_timestamp p = t) l.
Proof.
  unfold getPassPositions. intros ([ps heap] & Hr & [= <-])%bind_Some.
  apply positions_loop_refs in Hr; [|constructor]. simpl in Hr.
  exists (default 0%Z (heap !! 0)). apply Forall_fmap. eapply Forall_impl; [exact Hr|].
  intros p Hp. simpl. by rewrite Hp.
Qed.

Lemma same_time_rate a b : sp_timestamp a = sp_timestamp b -> range_rate a b = None.
Proof. intros Ht. unfold range_rate. by rewrite Ht, Z.sub_diag. Qed.

Lemma same_time_shift f l t i p :
  Forall (fun p => sp_timestamp p = t) l -> l !! i = Some p ->
  (dp_shift (doppler_point f l i p) == 0)%Q.
Proof.
  intros Hl Hi. rewrite Forall_lookup in Hl.
  assert (Hv : calculateRadialVelocity (match i with 0 => None | S i => l !! i end) p (l !! S i) = 0%Q).
  { unfold calculateRadialVelocity.
    assert (Hn : (l !! S i) ≫= range_rate p = None).
    { destruct (l !! S i) as [q|] eqn:E; simpl; [|done].
      apply same_time_rate. by rewrite (Hl _ _ Hi), (Hl _ _ E). }
    rewrite Hn. destruct i as [|i]; simpl; [done|].
    destruct (l !! i) as [q|] eqn:E; simpl; [|done].
    rewrite same_time_rate; [done|]. by rewrite (Hl _ _ E), (Hl _ _ Hi). }
  unfold doppler_point. simpl. rewrite Hv. unfold SPEED_OF_LIGHT. field.
Qed.

End Predict.

(** The extremes of a list: every element is beyond or at the extreme, which is
    one of them. *)
Section Track.
Context (better : Q -> Q -> bool) (le : Q -> Q -> Prop) `{!PreOrder le}.
Context (better_le : forall x m, better x m = true -> le m x)
        (worse_le : forall x m, better x m = false -> le x m).

Lemma track_spec l : forall acc,
  let m := foldl (track better) acc l in
  (forall x, x ∈ l -> exists y, m = Some y /\ le x y) /\
  (forall a, acc = Some a -> exists y, m = Some y /\ le a y) /\
  (forall y, m = Some y -> y ∈ l \/ acc = Some y).
Proof.
  induction l as [|x l IH]; intros acc; cbn [foldl]; cbv zeta.
  - split_and!; [intros x Hx; inversion Hx| |auto]. intros a ->. by exists a.
  - destruct (IH (track better acc x)) as (H1 & H2 & H3).
    assert (Hx : exists z, track better acc x = Some z /\ le x z /\
                   (forall a, acc = Some a -> le a z) /\ (z = x \/ acc = Some z)).
    { unfold track. destruct acc as [a|]; [destruct (better x a) eqn:E|].
      - exists x. split_and!; [done|done| |by left]. intros ? [= <-]. auto.
      - exists a. split_and!; [done|auto| |by right]. by intros ? [= <-].
      - exists x. split_and!; [done|done|done|by left]. }
    destruct Hx as (z & Hz & Hxz & Haz & Hor). destruct (H2 z Hz) as (y & Hy & Hzy).
    split_and!.
    + intros w [->|Hw]%elem_of_cons; [|by apply H1]. exists y. split; [done|by etransitivity].
    + intros a Ha. exists y. split; [done|]. etransitivity; [by apply Haz|done].
    + intros w Hw. destruct (H3 w Hw) as [Hin|Heq]; [left; by right|].
      rewrite Hz in Heq. injection Heq as ->. destruct Hor as [->|?]; [left; left|by right].
Qed.
End Track.

#[local] Instance Qle_preorder : PreOrder Qle.
Proof. split; [exact Qle_refl|exact Qle_trans]. Qed.
#[local] Instance Qge_preorder : PreOrder (fun x y => y <= x)%Q.
Proof. split; [exact Qle_refl|intros x y z H1 H2; by eapply Qle_trans]. Qed.

Lemma track_max_spec l x : x ∈ l ->
  exists m, foldl track_max None l = Some m /\ m ∈ l /\ forall y, y ∈ l -> (y <= m)%Q.
Proof.
  intros Hx. destruct (track_spec (fun x m => m <?q x) Qle) with (l := l) (acc := @None Q)
    as (H1 & _ & H3); [intros; props; lra..|].
  destruct (H1 x Hx) as (m & Hm & _). exists m. split; [done|]. split.
  - by destruct (H3 m Hm).
  - intros y Hy. destruct (H1 y Hy) as (m' & Hm' & Hle). congruence.
Qed.

Lemma track_min_spec l x : x ∈ l ->
  exists m, foldl track_min None l = Some m /\ m ∈ l /\ forall y, y ∈ l -> (m <= y)%Q.
Proof.
  intros Hx. destruct (track_spec (fun x m => x <?q m) (fun x y => y <= x)%Q)
    with (l := l) (acc := @None Q) as (H1 & _ & H3); [intros; props; lra..|].
  destruct (H1 x Hx) as (m & Hm & _). exists m. split; [done|]. split.
  - by destruct (H3 m Hm).
  - intros y Hy. destruct (H1 y Hy) as (m' & Hm' & Hle). congruence.
Qed.

Lemma aos_leb_total x y : aos_leb x y = true \/ aos_leb y x = true.
Proof. unfold aos_leb. props. lia. Qed.

Lemma aos_leb_trans x y z : aos_leb x y = true -> aos_leb y z = true -> aos_leb x z = true.
Proof. unfold aos_leb. props. lia. Qed.

Section PredictFacts.
Context `{SatelliteJs}.

Lemma mapM_elem {A B} (f : A -> option B) l k y :
  mapM f l = Some k -> y ∈ k <-> exists x, x ∈ l /\ f x = Some y.
Proof.
  intros Hm. apply mapM_Some in Hm. split.
  - intros [i Hi]%list_elem_of_lookup. destruct (Forall2_lookup_r _ _ _ _ _ Hm Hi) as (x & Hx & Hf).
    exists x. split; [by eapply list_elem_of_lookup_2|done].
  - intros (x & [i Hi]%list_elem_of_lookup & Hf).
    destruct (Forall2_lookup_l _ _ _ _ _ Hm Hi) as (z & Hz & Hf').
    assert (z = y) as -> by congruence. by eapply list_elem_of_lookup_2.
Qed.

Lemma passes_of_spec tles observer options endTime sat l :
  passes_of tles observer options endTime sat = Some l ->
  forall p, p ∈ l <-> exists tle found p0,
    js_find (tle_matches sat) tles = Some tle /\
    findPasses tle sat observer (opt_startTime options) endTime (opt_minElevation options) 60
      = Some found /\ p0 ∈ found /\
    refinePassTiming tle p0 observer (opt_minElevation options) = Some p.
Proof.
  unfold passes_of. destruct (js_find _ tles) as [tle|] eqn:E.
  - intros (found & Hf & Hm)%bind_Some p. rewrite (mapM_elem _ _ _ p Hm). split.
    + intros (p0 & Hp0 & Hr). by exists tle, found, p0.
    + intros (tle' & found' & p0 & [= <-] & Hf' & Hp0 & Hr). exists p0. split; [congruence|done].
  - intros [= <-] p. split; [by intros ?%not_elem_of_nil|by intros (? & ? & ? & ? & _)].
Qed.

Lemma passes_of_total tles observer options endTime sat :
  is_Some (passes_of tles observer options endTime sat).
Proof.
  unfold passes_of. destruct (js_find _ tles) as [tle|]; [|by eexists].
  destruct (findPasses_total tle sat observer (opt_minElevation options) (opt_startTime options)
              60 ltac:(lia) endTime) as [l ->]. simpl.
  apply mapM_is_Some. apply Forall_forall. intros p _. apply refinePassTiming_total.
Qed.
End PredictFacts.

(** ** Properties *)

(** Prediction ends; what it returns is sorted and is what the search found. *)
Lemma predictPasses_total `{SatelliteJs} satellites tles station options :
  let observer := createObserver station in
  let endTime := js_floor (inject_Z (opt_startTime options) + opt_hoursAhead options * 60 * 60 * 1000) in
  exists l, predictPasses satellites tles station options = Some l /\
    StronglySorted (fun a b => pass_aos a <= pass_aos b)%Z l /\
    (forall p, p ∈ l <-> exists sat tle found p0,
       sat ∈ satellites /\ js_find (tle_matches sat) tles = Some tle /\
       findPasses tle sat observer (opt_startTime options) endTime (opt_minElevation options) 60
         = Some found /\ p0 ∈ found /\
       refinePassTiming tle p0 observer (opt_minElevation options) = Some p).
Proof.
  cbv zeta. unfold predictPasses. set (endTime := js_floor _).
  assert (Hm : is_Some (mapM (passes_of tles (createObserver station) options endTime) satellites)).
  { apply mapM_is_Some. apply Forall_forall. intros sat _. apply passes_of_total. }
  destruct Hm as [ls Hls]. rewrite Hls. simpl. eexists. split; [done|]. split.
  - pose proof (js_sort_sorted aos_leb aos_leb_total aos_leb_trans (concat ls)) as Hs.
    induction Hs as [|a l _ Hl Ha]; constructor; [done|].
    eapply Forall_impl; [exact Ha|]. simpl. intros b Hb. apply Is_true_true in Hb.
    unfold aos_leb in Hb. by props.
  - intros p. rewrite js_sort_elem, list_elem_of_In, in_concat. split.
    + intros (l & Hl & Hp). apply list_elem_of_In in Hl, Hp.
      apply (mapM_elem _ _ _ _ Hls) in Hl as (sat & Hsat & Hof).
      apply (passes_of_spec _ _ _ _ _ _ Hof p) in Hp as (tle & found & p0 & ? & ? & ? & ?).
      by exists sat, tle, found, p0.
    + intros (sat & tle & found & p0 & Hsat & H1 & H2 & H3 & H4).
      destruct (passes_of_total tles (createObserver station) options endTime sat) as [l Hof].
      exists l. rewrite <- !list_elem_of_In. split; [apply (mapM_elem _ _ _ _ Hls); by exists sat|].
      apply (passes_of_spec _ _ _ _ _ _ Hof p). by exists tle, found, p0.
Qed.

(** C7: Prediction always ends; its passes are sorted by AOS, and they are
    exactly refinements of passes that the search finds for a satellite of the
    list with the first element set that matches it. *)
Theorem predictPasses_spec `{SatelliteJs} satellites tles station options :
  let observer := createObserver station in
  let endTime := js_floor (inject_Z (opt_startTime options) + opt_hoursAhead options * 60 * 60 * 1000) in
  exists l, predictPasses satellites tles station options = Some l /\
    StronglySorted (fun a b => pass_aos a <= pass_aos b)%Z l /\
    (forall p, p ∈ l <-> exists sat tle found p0,
       sat ∈ satellites /\ js_find (tle_matches sat) tles = Some tle /\
       findPasses tle sat observer (opt_startTime options) endTime (opt_minElevation options) 60
         = Some found /\ p0 ∈ found /\
       refinePassTiming tle p0 observer (opt_minElevation options) = Some p).
Proof. exact (predictPasses_total satellites tles station options). Qed.

(** The Doppler curve has one point per position, in order, each at the base
    frequency plus its shift, and the reported extremes are the extremes of the
    shifts. *)
Theorem calculateDopplerShift_spec f positions (Hne : positions <> []) :
  let d := calculateDopplerShift f positions in
  map dp_timestamp (dd_points d) = map sp_timestamp positions /\
  Forall (fun p => dp_frequency p = f + dp_shift p /\
                   dd_minShift d <= dp_shift p /\ dp_shift p <= dd_maxShift d)%Q (dd_points d) /\
  dd_maxShift d ∈ map dp_shift (dd_points d) /\ dd_minShift d ∈ map dp_shift (dd_points d).
Proof.
  cbv zeta. destruct positions as [|p0 ps]; [done|]. unfold calculateDopplerShift.
  set (l := p0 :: ps). set (points := imap _ l). cbn [dd_points dd_maxShift dd_minShift].
  assert (Hlook : forall i, points !! i = doppler_point f l i <$> l !! i)
    by (intros i; apply list_lookup_imap).
  assert (Hx : dp_shift (doppler_point f l 0 p0) ∈ map dp_shift points).
  { apply list_elem_of_fmap. eexists. split; [done|]. apply (list_elem_of_lookup_2 _ 0).
    by rewrite Hlook. }
  destruct (track_max_spec _ _ Hx) as (mx & -> & Hmx & Hmax).
  destruct (track_min_spec _ _ Hx) as (mn & -> & Hmn & Hmin). cbn [from_option id].
  split_and!; [| |done|done].
  - apply list_eq. intros i.
    etransitivity; [apply list_lookup_fmap|]. etransitivity; [|symmetry; apply list_lookup_fmap].
    rewrite Hlook. by destruct (l !! i).
  - apply Forall_forall. intros p Hp. pose proof Hp as Hp'.
    apply list_elem_of_lookup in Hp as [i Hi]. rewrite Hlook in Hi.
    apply fmap_Some in Hi as (q & _ & ->). split; [done|].
    split; [apply Hmin|apply Hmax]; apply list_elem_of_fmap; eauto.
Qed.

Lemma calculateDopplerShift_spec_witness :
  map dp_timestamp (dd_points (calculateDopplerShift 137900000
    [mkPosition 0 10 1000 0%Z; mkPosition 0 20 900 10000%Z; mkPosition 0 15 950 20000%Z]%Q))
  = [0; 10000; 20000]%Z.
Proof.
  apply (calculateDopplerShift_spec 137900000
    [mkPosition 0 10 1000 0%Z; mkPosition 0 20 900 10000%Z; mkPosition 0 15 950 20000%Z]%Q).
  done.
Defined.

(** The Doppler shift of a predicted pass is always zero: all its positions
    hold the one [Date] the sampling loop mutates, so no two of them differ in
    time and every radial velocity is taken as 0. *)
Theorem predicted_doppler_is_zero `{SatelliteJs} satellites tles station options l pp d
  (Hl : predictPassesWithDoppler satellites tles station options = Some l)
  (Hpp : pp ∈ l) (Hd : pp_doppler pp = Some d) :
  Forall (fun p => dp_shift p == 0)%Q (dd_points d) /\ (dd_maxShift d == 0)%Q /\ (dd_minShift d == 0)%Q.
Proof.
  unfold predictPassesWithDoppler in Hl. apply bind_Some in Hl as (ps & _ & Hm).
  apply mapM_Some in Hm. apply list_elem_of_lookup in Hpp as [i Hi].
  destruct (Forall2_lookup_r _ _ _ _ _ Hm Hi) as (pass & _ & Hw). clear Hm Hi.
  unfold with_doppler in Hw. destruct (js_find _ tles) as [tle|]; [|injection Hw as <-; done].
  apply bind_Some in Hw as (pos & Hpos & [= <-]). simpl in Hd. injection Hd as <-.
  apply getPassPositions_same_time in Hpos as [t Ht].
  destruct pos as [|p0 pos]; [split_and!; [constructor|reflexivity..]|].
  set (f := inject_Z _). unfold calculateDopplerShift. set (ps' := p0 :: pos) in *.
  set (points := imap _ _). cbn [dd_points dd_maxShift dd_minShift].
  assert (Hz : Forall (fun p => dp_shift p == 0)%Q points).
  { apply Forall_lookup. intros j x Hx. subst points. rewrite list_lookup_imap in Hx.
    apply fmap_Some in Hx as (q & Hq & ->). by apply (same_time_shift f ps' t j q). }
  assert (Hin : forall m, m ∈ map dp_shift points -> (m == 0)%Q).
  { intros m (x & -> & Hx)%list_elem_of_fmap. rewrite Forall_forall in Hz. auto. }
  assert (Hx : dp_shift (doppler_point f ps' 0 p0) ∈ map dp_shift points) by (by left).
  destruct (track_max_spec _ _ Hx) as (mx & -> & Hmx & _).
  destruct (track_min_spec _ _ Hx) as (mn & -> & Hmn & _). simpl. auto.
Qed.

Definition sample_station : Coordinates := mkCoordinates (515 # 10) 0 10.

Definition predicted : list PassPrediction := Eval vm_compute in
  default [] (predictPassesWithDoppler [sample_info] [sample_tle] sample_station (mkOptions 0 1 0)).

Definition first_doppler : DopplerData := Eval vm_compute in
  default (mkDopplerData [] 1 1) (head predicted ≫= pp_doppler).

Lemma predicted_doppler_is_zero_witness : (dd_maxShift first_doppler == 0)%Q.
Proof.
  destruct predicted as [|pp l] eqn:E; [discriminate|].
  apply (predicted_doppler_is_zero [sample_info] [sample_tle] sample_station (mkOptions 0 1 0)
           predicted pp first_doppler).
  - vm_compute. reflexivity.
  - rewrite E. left.
  - injection E as <- _. reflexivity.
Defined.

(** The match by the first eight letters of a name gives METEOR-M N2-4 the
    elements of METEOR-M N2-3 whenever those come first, as they do in the order
    of the satellite table, although its own are in the list too. *)
Theorem tle_of_meteor_m_n2_4 l1 l2 l1' l2' rest :
  js_find (tle_matches (mkSatelliteInfo "METEOR-M N2-4" 59051 137900000 lrpt (SIGNAL_CONFIGS lrpt) true None))
    (mkTle "METEOR-M N2-3" l1 l2 :: mkTle "METEOR-M N2-4" l1' l2' :: rest)
  = Some (mkTle "METEOR-M N2-3" l1 l2).
Proof.
  cbn [js_find]. set (sat := mkSatelliteInfo _ _ _ _ _ _ _).
  assert (Hm : tle_matches sat (mkTle "METEOR-M N2-3" l1 l2) = true).
  { unfold tle_matches. destruct (bool_decide (_ = squash _)); [done|].
    destruct (bool_decide _); [done|]. vm_compute. reflexivity. }
  by rewrite Hm.
Qed.

End Passes.
