(* ===== verification/Tle.v ===== *)
(** * Orbital elements (src/backend/satellites/tle.ts)

    Parsing of the text CelesTrak serves, the cache file and the choice between
    the cache and fresh data.  [JSON.parse] and [JSON.stringify] on a cache
    record are arguments; parsing what was stringified is the only thing assumed
    of them, and only where it is used. *)

From Stdlib Require Import Ascii.
From S2P Require Import Prelude JsStd Types StateManager Effects.
Local Open Scope Z_scope.
Local Open Scope prog_scope.

Module Tle.

(* @src backend/satellites/tle.ts:11-14 TleCache *)
Record TleCache := mkCache { fetchedAt : Z; satellites : list TwoLineElement }.

(* @src backend/satellites/tle.ts:16-32 parseTleText *)
Definition parseTleText (text expectedName : string) : option TwoLineElement :=
  let lines := map trim (split_on nl (trim text)) in
  let starts p i := match lines !! i with Some l => startsWith p l | None => false end in
  let line i := default ""%string (lines !! i) in
  let isTwoLineFormat := Nat.eqb (length lines) 2 && starts "1 "%string 0%nat && starts "2 "%string 1%nat in
  let isThreeLineFormat := Nat.leb 3 (length lines) && starts "1 "%string 1%nat && starts "2 "%string 2%nat in
  if isTwoLineFormat then Some (mkTle expectedName (line 0%nat) (line 1%nat))
  else if isThreeLineFormat then Some (mkTle (line 0%nat) (line 1%nat) (line 2%nat))
  else None.

(* @src backend/satellites/tle.ts:34-50 fetchTle *)
Definition fetchTle (satellite : SatelliteInfo) : prog (option TwoLineElement) :=
  let url := (CELESTRAK_GP_API ++ "?CATNR=" ++ show_Z (si_noradId satellite) ++ "&FORMAT=TLE")%string in
  response <~ Fetch url;;
  match response with
  | inl _ => Ret None
  | inr r => Ret (if fr_ok r then parseTleText (fr_body r) (si_name satellite) else None)
  end.

Fixpoint map_prog {A B} (f : A -> prog B) (l : list A) : prog (list B) :=
  match l with
  | [] => Ret []
  | x :: r => y <- f x;; ys <- map_prog f r;; Ret (y :: ys)
  end.

(** The fetches run concurrently; their results are collected in order. *)
(* @src backend/satellites/tle.ts:52-55 fetchAllTles *)
Definition fetchAllTles (satellites : list SatelliteInfo) : prog (list TwoLineElement) :=
  results <- map_prog fetchTle satellites;;
  Ret (omap id results).

Section Cache.
Context (home : string) (json_parse : string -> option TleCache) (json_stringify : TleCache -> string).

(* @src backend/satellites/tle.ts:8-9 TLE_CACHE_FILE *)
Definition TLE_CACHE_DIR : string := path_join home ".night-watch/tle".
Definition TLE_CACHE_FILE : string := path_join TLE_CACHE_DIR "weather.txt".
Definition cache_json : string := path_join TLE_CACHE_DIR "cache.json".

(* @src backend/utils/fs.ts:25-28 writeTextFile *)
Definition writeTextFile (path content : string) : prog (res unit) :=
  d <~ EnsureDir (dirname path);;
  _ <-! Ret (of_sum d);;
  r <~ WriteText path content;;
  Ret (of_sum r).

(** [ageHours > maxAgeHours], in milliseconds. *)
(* @src backend/satellites/tle.ts:61-62 isExpired *)
Definition isExpired (now : Z) (maxAgeHours : Z) (cache : TleCache) : bool :=
  maxAgeHours * (1000 * 60 * 60) <? now - fetchedAt cache.

(* @src backend/satellites/tle.ts:57-72 loadCachedTles *)
Definition loadCachedTles (maxAgeHours : Z) : prog (option (list TwoLineElement)) :=
  cacheJson <~ ReadText cache_json;;
  match cacheJson with
  | inl _ => Ret None
  | inr text =>
      match json_parse text with
      | None => Ret None
      | Some cache =>
          now <~ Now;;
          Ret (if isExpired now maxAgeHours cache then None else Some (satellites cache))
      end
  end.

(* @src backend/satellites/tle.ts:84-84 tleText *)
Definition tleText (tles : list TwoLineElement) : string :=
  let nl := String.String nl ""%string in
  join (nl ++ nl)%string (map (fun t => tle_name t ++ nl ++ tle_line1 t ++ nl ++ tle_line2 t)%string tles).

(* @src backend/satellites/tle.ts:74-88 saveTlesToCache *)
Definition saveTlesToCache (tles : list TwoLineElement) : prog (res unit) :=
  d <~ EnsureDir TLE_CACHE_DIR;;
  _ <-! Ret (of_sum d);;
  now <~ Now;;
  _ <-! writeTextFile cache_json (json_stringify (mkCache now tles));;
  writeTextFile TLE_CACHE_FILE (tleText tles).

(* @src backend/satellites/tle.ts:90-116 getTles *)
Definition getTles (sats : list SatelliteInfo) (maxAgeHours : Z)
  : prog (res (list TwoLineElement)) :=
  cached <- loadCachedTles maxAgeHours;;
  let cacheIsValid :=
    match cached with Some c => Nat.eqb (length c) (length sats) | None => false end in
  fresh <- (if cacheIsValid then Ret [] else fetchAllTles sats);;
  let hasFresh := Nat.ltb 0 (length fresh) in
  _ <-! (if hasFresh then saveTlesToCache fresh else Ret (Ok tt));;
  let result := if cacheIsValid then cached else if hasFresh then Some fresh else cached in
  match result with
  | None => Ret (Throw "Failed to obtain TLE data")
  | Some tles => Ret (Ok tles)
  end.

(** ** Facts *)

(** A line as it is served: no line break, no white space at its ends. *)
Definition clean_line (s : string) : Prop :=
  no_char nl s = true /\ ltrim s = s /\ rtrim s = s /\ s <> ""%string.

Lemma clean_trim s : clean_line s -> trim s = s.
Proof. intros (_ & Hl & Hr & _). unfold trim. by rewrite Hl. Qed.

Lemma trim_lines a b m : clean_line a -> clean_line b -> trim (a ++ m ++ b)%string = (a ++ m ++ b)%string.
Proof.
  intros (_ & Ha & _ & Hna) (_ & _ & Hb & Hnb). unfold trim. rewrite ltrim_app by done.
  rewrite <- str_app_assoc. by apply rtrim_app.
Qed.

Lemma split_lines a b : no_char nl a = true ->
  split_on nl (a ++ String.String nl b)%string = a :: split_on nl b.
Proof. apply split_on_app. Qed.

Section Facts.
Context {W : Type} (h : forall c, W -> resp c * W).

(** What a fetched set consists of: elements parsed from an answer, at most one
    per satellite. *)
Lemma map_prog_length {A B} (f : A -> prog B) l w : length (result h (map_prog f l) w) = length l.
Proof. revert w. induction l as [|x l IH]; intros w; simpl; props; simpl; auto. Qed.

Lemma fetchAllTles_length sats w : (length (result h (fetchAllTles sats) w) <= length sats)%nat.
Proof.
  unfold fetchAllTles. props. rewrite <- (map_prog_length fetchTle sats w).
  set (l := result h (map_prog _ _) w). clearbody l.
  induction l as [|[x|] l IH]; [done| |]; rewrite omap_cons; simpl; lia.
Qed.
End Facts.

End Cache.

(** Files as the program relies on them: a read returns the last content
    written, and no other call changes a file. *)
Class FileStore {W : Type} (h : forall c, W -> resp c * W) (file : W -> string -> option string)
  : Prop := {
  fs_read : forall p w t, file w p = Some t -> (h (ReadText p) w).1 = inr t;
  fs_write : forall p t w q, (h (WriteText p t) w).1 = inr tt ->
    file (h (WriteText p t) w).2 q = if decide (q = p) then Some t else file w q;
  fs_other : forall c w q, (forall p t, c <> WriteText p t) -> file (h c w).2 q = file w q
}.

Section Roundtrip.
Context {W : Type} (h : forall c, W -> resp c * W) (file : W -> string -> option string).
Context `{!FileStore h file}.

Lemma writeTextFile_file p t w :
  result h (writeTextFile p t) w = Ok tt ->
  forall q, file (final h (writeTextFile p t) w) q = if decide (q = p) then Some t else file w q.
Proof.
  unfold writeTextFile, bindR. props. set (w1 := (h (EnsureDir _) w).2).
  assert (H1 : forall q, file w1 q = file w q) by (intros q; by apply fs_other).
  destruct ((h (EnsureDir _) w).1) as [m|[]]; cbn [of_sum]; props; [done|].
  intros Hr q. pose proof (fs_write p t w1 q) as Hw.
  destruct (h (WriteText p t) w1) as [[m|[]] w2]; simpl in *; [done|].
  rewrite Hw by done. by rewrite H1.
Qed.

Lemma saveTlesToCache_file home str time `{!Clock h time} tles w :
  cache_json home <> TLE_CACHE_FILE home ->
  result h (saveTlesToCache home str tles) w = Ok tt ->
  exists t, time w <= t /\
    file (final h (saveTlesToCache home str tles) w) (cache_json home) = Some (str (mkCache t tles)).
Proof.
  intros Hne. unfold saveTlesToCache, bindR. props.
  pose proof (clock_mono (EnsureDir (TLE_CACHE_DIR home)) w) as Hm.
  destruct (h (EnsureDir (TLE_CACHE_DIR home)) w) as [r w1]. cbn [fst snd] in *.
  destruct r as [m|[]]; cbn [of_sum]; props; [done|]. rewrite clock_now.
  set (w2 := (h Now w1).2).
  pose proof (writeTextFile_file (cache_json home) (str (mkCache (time w1) tles)) w2) as Hf.
  destruct (result h (writeTextFile (cache_json home) _) w2) as [[]|m|]; props; [|done|done].
  intros Hr. exists (time w1). split; [done|].
  rewrite (writeTextFile_file _ _ _ Hr). rewrite decide_False by done.
  rewrite Hf by done. by rewrite decide_True.
Qed.
End Roundtrip.

Lemma fetchTle_down {W} (h : forall c, W -> resp c * W) s w :
  (forall url w, exists e, (h (Fetch url) w).1 = inl e) -> result h (fetchTle s) w = None.
Proof.
  intros Hdown. unfold fetchTle. props. set (url := (CELESTRAK_GP_API ++ _)%string).
  destruct (Hdown url w) as [e He]. destruct (h (Fetch url) w) as [r w2].
  cbn [fst snd] in *. by subst r.
Qed.

(** ** Properties *)

(** Parsing reads back what the cache file and CelesTrak write: a name line
    and the two element lines give the named set, two element lines alone give
    the set under the expected name. *)
Theorem parseTleText_roundtrip name l1 l2 expectedName
  (Hn : clean_line name) (H1 : clean_line l1) (H2 : clean_line l2)
  (Hs1 : startsWith "1 " l1 = true) (Hs2 : startsWith "2 " l2 = true) :
  let nl := String.String nl ""%string in
  parseTleText (name ++ nl ++ l1 ++ nl ++ l2)%string expectedName = Some (mkTle name l1 l2) /\
  parseTleText (l1 ++ nl ++ l2)%string expectedName = Some (mkTle expectedName l1 l2).
Proof.
  cbv zeta. pose proof Hn as (Hn1 & _). pose proof H1 as (H11 & _). pose proof H2 as (H21 & _).
  split; unfold parseTleText.
  - set (text := (name ++ _)%string).
    assert (Ht : trim text = text).
    { pose proof (trim_lines name l2 (String.String nl "" ++ l1 ++ String.String nl "")%string Hn H2) as Ht.
      by rewrite !str_app_assoc in Ht. }
    rewrite Ht. subst text. cbn [String.append].
    rewrite split_lines, split_lines, split_on_no_char by done.
    cbn [map]. rewrite !clean_trim by done. simpl. by rewrite Hs1, Hs2.
  - set (text := (l1 ++ _)%string).
    assert (Ht : trim text = text) by (by apply (trim_lines l1 l2)).
    rewrite Ht. subst text. cbn [String.append]. rewrite split_lines, split_on_no_char by done.
    cbn [map]. rewrite !clean_trim by done. simpl. by rewrite Hs1, Hs2.
Qed.

Lemma parseTleText_roundtrip_witness :
  parseTleText ("METEOR-M N2-3" ++ String.String nl "1 57166U 23091A" ++ String.String nl "2 57166  98.7")%string "x"
  = Some (mkTle "METEOR-M N2-3" "1 57166U 23091A" "2 57166  98.7").
Proof.
  apply (parseTleText_roundtrip "METEOR-M N2-3" "1 57166U 23091A" "2 57166  98.7" "x"); done.
Defined.

(** C37: What was saved is what is loaded: when the save succeeds, a load within
    the maximal age, with no other write in between, returns the same elements. *)
Theorem tle_cache_roundtrip {W} (h : forall c, W -> resp c * W) file time home parse stringify
  tles maxAgeHours w
  (Hfs : FileStore h file) (Hc : Clock h time)
  (Hjson : forall c, parse (stringify c) = Some c)
  (Hpaths : cache_json home <> TLE_CACHE_FILE home) :
  let w' := final h (saveTlesToCache home stringify tles) w in
  result h (saveTlesToCache home stringify tles) w = Ok tt ->
  time (h (ReadText (cache_json home)) w').2 - time w <= maxAgeHours * 3600000 ->
  result h (loadCachedTles home parse maxAgeHours) w' = Some tles.
Proof.
  cbv zeta. intros Hr Ht.
  destruct (saveTlesToCache_file h file home stringify time tles w Hpaths Hr) as (t & Hle & Hf).
  unfold loadCachedTles. props. pose proof (fs_read _ _ _ Hf) as Hread.
  set (w1 := (h (ReadText _) _).2) in *.
  destruct (h (ReadText _) _) as [r w2]. cbn [fst snd] in *. subst r w1. rewrite Hjson.
  props. rewrite clock_now. unfold isExpired. cbn [fetchedAt satellites].
  destruct (_ <? _) eqn:E; [|done]. props. lia.
Qed.

(** A cache that is too old is never used, not even when no element set can
    be fetched: the fallback to stale data only concerns a cache whose number of
    entries does not match. *)
Theorem getTles_ignores_expired {W} (h : forall c, W -> resp c * W) home parse stringify sats
  maxAgeHours w text cache
  (Hread : (h (ReadText (cache_json home)) w).1 = inr text)
  (Hparse : parse text = Some cache)
  (Hold : isExpired (h Now (h (ReadText (cache_json home)) w).2).1 maxAgeHours cache = true)
  (Hdown : forall url w, exists e, (h (Fetch url) w).1 = inl e) :
  result h (getTles home parse stringify sats maxAgeHours) w = Throw "Failed to obtain TLE data".
Proof.
  assert (Hl : result h (loadCachedTles home parse maxAgeHours) w = None).
  { unfold loadCachedTles. props. destruct (h (ReadText _) w) as [r w1]. cbn [fst snd] in *.
    subst r. rewrite Hparse. props. by rewrite Hold. }
  assert (Hf : forall w, result h (fetchAllTles sats) w = []).
  { intros w0. unfold fetchAllTles. props.
    assert (Hm : forall w, omap id (result h (map_prog fetchTle sats) w) = []).
    { induction sats as [|s sats IH]; intros w1; [done|]. cbn [map_prog].
      rewrite result_bind, result_bind, result_Ret, omap_cons.
      rewrite fetchTle_down by done. apply IH. }
    apply Hm. }
  unfold getTles. props. rewrite Hl. cbv iota. rewrite Hf. simpl. unfold bindR. by props.
Qed.

(** A world of files for the witnesses. *)
Definition file_handle (c : call) (w : Z * (string -> option string)) : resp c * (Z * (string -> option string)) :=
  match c as c return resp c * (Z * (string -> option string)) with
  | Now => (w.1, w)
  | Sleep ms => (tt, (w.1 + Z.max 0 ms, w.2))
  | Spawn _ _ => ([], w)
  | FileExists _ | IsFFTRunning | IsScanning | ShouldStop | GroundScanEnabled
  | SstvActive => (false, w)
  | InitDatabase _ | StartGlobe _ => (inr tt, w)
  | EnsureDir _ => (inr tt, w)
  | ReadText p => (match w.2 p with Some t => inr t | None => inl "ENOENT"%string end, w)
  | WriteText p t => (inr tt, (w.1, fun q => if decide (q = p) then Some t else w.2 q))
  | Fetch _ => (inl "fetch failed"%string, w)
  | Http _ _ _ => (inl "fetch failed"%string, w)
  | WriteBody _ _ | Unlink _ => (inr tt, w)
  | SaveImages _ _ => (inr tt, w)
  | GetStatus => (idle, w)
  | LatestFFT => (None, w)
  | SaveCapture _ _ => (inr 1, w)
  | SpawnRecorder _ _ _ _ _ => (inr tt, w)
  | AwaitSoxClose _ => (true, w)
  | _ => (tt, w)
  end.

#[export] Instance file_handle_store : FileStore file_handle snd.
Proof.
  split.
  - intros p w t Hp. simpl. by rewrite Hp.
  - done.
  - intros c w q Hc. destruct c; try done. by destruct (Hc path content).
Qed.

#[export] Instance file_handle_clock : Clock file_handle fst.
Proof. split; [done| |]. - intros c w. destruct c; simpl; lia. - intros ms w. simpl. lia. Qed.

Definition sample_tle : TwoLineElement := mkTle "METEOR-M N2-3" "1 57166U" "2 57166".

(** A stand-in for JSON: the binary digits of a number that encodes the cache. *)
#[export] Instance TwoLineElement_countable : Countable TwoLineElement.
Proof.
  refine (inj_countable' (fun t => (tle_name t, tle_line1 t, tle_line2 t))
            (fun x => mkTle x.1.1 x.1.2 x.2) _). by intros [].
Defined.

#[export] Instance TleCache_eq_dec : EqDecision TleCache.
Proof. solve_decision. Defined.

#[export] Instance TleCache_countable : Countable TleCache.
Proof.
  refine (inj_countable' (fun c => (fetchedAt c, satellites c)) (fun x => mkCache x.1 x.2) _).
  by intros [].
Defined.

Fixpoint digits (p : positive) : string :=
  match p with
  | xH => String.EmptyString
  | xO p => String.String "0"%char (digits p)
  | xI p => String.String "1"%char (digits p)
  end.

Fixpoint undigits (s : string) : positive :=
  match s with
  | String.EmptyString => xH
  | String.String c r => if Ascii.eqb c "0"%char then xO (undigits r) else xI (undigits r)
  end.

Lemma undigits_digits p : undigits (digits p) = p.
Proof. induction p as [p IH|p IH|]; simpl; by rewrite ?IH. Qed.

Definition text_of (c : TleCache) : string := digits (encode c).
Definition of_text (s : string) : option TleCache := decode (undigits s).

Lemma of_text_of c : of_text (text_of c) = Some c.
Proof. unfold of_text, text_of. by rewrite undigits_digits, decode_encode. Qed.

Lemma tle_cache_roundtrip_witness :
  let w := (5000, fun _ => None) in
  result file_handle (loadCachedTles "/root" of_text 24)
    (final file_handle (saveTlesToCache "/root" text_of [sample_tle]) w) = Some [sample_tle].
Proof.
  intros w. apply (tle_cache_roundtrip file_handle snd fst "/root" of_text text_of [sample_tle] 24 w
    file_handle_store file_handle_clock of_text_of).
  - by vm_compute.
  - reflexivity.
  - simpl. lia.
Defined.

Definition one_cache : TleCache := mkCache 1000 [sample_tle].

Lemma getTles_ignores_expired_witness :
  result file_handle (getTles "/root" (fun _ => Some one_cache) (fun _ => "{}"%string)
    [sample_satellite] 24) (100000000, fun _ => Some "{}"%string)
  = Throw "Failed to obtain TLE data".
Proof.
  apply (getTles_ignores_expired file_handle "/root" (fun _ => Some one_cache) (fun _ => "{}"%string)
    [sample_satellite] 24 (100000000, fun _ => Some "{}"%string) "{}"%string one_cache).
  - reflexivity.
  - reflexivity.
  - reflexivity.
  - intros url w. by eexists.
Defined.

End Tle.
