(* ===== verification/Globe.v ===== *)
(** * The globe service (src/middleware/web/globe-service.ts)

    The service feeds the 3D globe of the dashboard: it loads orbital elements when
    it is started, computes ground tracks every minute and positions every three
    seconds.  It is a transition system: an event is a call of one of its two
    exported commands, the end of the await on the elements, or an interval that
    fires. *)

From S2P Require Import Prelude JsStd Types StateManager Effects Orbit Passes Tle.
Local Open Scope Z_scope.

Module Globe.

(* @src middleware/web/globe-service.ts:9-12 GROUND_TRACK_DURATION_MINUTES *)
Definition POSITION_UPDATE_INTERVAL_MS : Z := 3000.
Definition GROUND_TRACK_UPDATE_INTERVAL_MS : Z := 60000.
Definition GROUND_TRACK_DURATION_MINUTES : Z := 90.
Definition GROUND_TRACK_STEP_SECONDS : Z := 30.

Inductive interval := IPositions | ITracks.

(** [intervals] are all those ever made, [None] once cleared; [starting] counts the
    calls of [startGlobeService] that await the elements. *)
(* @src middleware/web/globe-service.ts:14-18 module variables *)
Record state := mkGlobe {
  positionInterval : option nat;
  groundTrackInterval : option nat;
  cachedTles : list TwoLineElement;
  cachedGroundTracks : list GroundTrack;
  stationCoords : option Coordinates;
  intervals : list (option interval);
  starting : nat
}.

Definition initial : state := mkGlobe None None [] [] None [] 0.

Inductive output :=
| GetTles (satellites : list SatelliteInfo) (maxAgeHours : Z)
| Emit (e : StateEvent)
| SetInterval (ms : Z)
| Rejected (error : string)                 (* startGlobeService rejects *)
| Uncaught (error : string).                (* thrown by an interval *)

Section Globe.
Context `{SatelliteJs}.

(* @src middleware/web/globe-service.ts:33-34 computeCurrentPositions *)
Definition find_tle (tles : list TwoLineElement) (satellite : SatelliteInfo) : option TwoLineElement :=
  js_find (fun t => String.eqb (tle_name t) (si_name satellite)) tles.

(* @src middleware/web/globe-service.ts:28-43 computeCurrentPositions *)
Definition computeCurrentPositions (now : Z) (s : state) : list SatelliteGeolocation :=
  omap (fun satellite =>
          tle ← find_tle (cachedTles s) satellite;
          Orbit.getSatelliteGeolocation tle satellite now) SATELLITES.

(** The tracks pushed, and the exception that ends the loop.  The fuel of
    [computeGroundTrack] never runs out ([track_total] below). *)
(* @src middleware/web/globe-service.ts:49-62 updateGroundTracks *)
Fixpoint tracks_of (tles : list TwoLineElement) (now : Z) (satellites : list SatelliteInfo)
  : list GroundTrack * option string :=
  match satellites with
  | [] => ([], None)
  | satellite :: rest =>
      match find_tle tles satellite with
      | None => tracks_of tles now rest
      | Some tle =>
          match Orbit.computeGroundTrack tle satellite now GROUND_TRACK_DURATION_MINUTES
                  GROUND_TRACK_STEP_SECONDS with
          | inl error => ([], Some error)
          | inr track =>
              let '(tracks, error) := tracks_of tles now rest in
              (option_list track ++ tracks, error)
          end
      end
  end.

Definition with_tracks (t : list GroundTrack) (s : state) : state :=
  mkGlobe (positionInterval s) (groundTrackInterval s) (cachedTles s) t (stationCoords s)
    (intervals s) (starting s).

(* @src middleware/web/globe-service.ts:45-63 updateGroundTracks *)
Definition updateGroundTracks (now : Z) (s : state) : state * option string :=
  let '(tracks, error) := tracks_of (cachedTles s) now SATELLITES in (with_tracks tracks s, error).

(* @src middleware/web/globe-service.ts:81-92 getGlobeState *)
Definition getGlobeState (now : Z) (s : state) : option GlobeState :=
  (fun c => mkGlobeState (computeCurrentPositions now s) (cachedGroundTracks s) (latitude c) (longitude c))
    <$> stationCoords s.

(* @src middleware/web/globe-service.ts:65-79 broadcastGlobeState *)
Definition broadcastGlobeState (now : Z) (s : state) : list output :=
  match stationCoords s with
  | None => []
  | Some c =>
      let globe := mkGlobeState (computeCurrentPositions now s) (cachedGroundTracks s)
                     (latitude c) (longitude c) in
      [Emit (satellite_positions globe)]
  end.

(* @src middleware/web/globe-service.ts:94-97 startGlobeService *)
Definition startGlobeService (station : Coordinates) (s : state) : state * list output :=
  (mkGlobe (positionInterval s) (groundTrackInterval s) (cachedTles s) (cachedGroundTracks s)
     (Some station) (intervals s) (S (starting s)),
   [GetTles SATELLITES 24]).

(** The elements of [updateTles]: an exception leaves those there are. *)
(* @src middleware/web/globe-service.ts:20-26 updateTles *)
Definition updateTles (r : string + list TwoLineElement) (s : state) : state :=
  mkGlobe (positionInterval s) (groundTrackInterval s)
    (match r with inr tles => tles | inl _ => cachedTles s end)
    (cachedGroundTracks s) (stationCoords s) (intervals s) (starting s).

(** The rest of a start, after [await updateTles()]. *)
(* @src middleware/web/globe-service.ts:98-110 startGlobeService *)
Definition started (now : Z) (s : state) : state * list output :=
  match updateGroundTracks now s with
  | (s, Some error) => (s, [Rejected error])
  | (s, None) =>
      let n := length (intervals s) in
      let s := mkGlobe (Some n) (Some (S n)) (cachedTles s) (cachedGroundTracks s) (stationCoords s)
                 (intervals s ++ [Some IPositions; Some ITracks]) (starting s) in
      (s, [SetInterval POSITION_UPDATE_INTERVAL_MS; SetInterval GROUND_TRACK_UPDATE_INTERVAL_MS]
            ++ broadcastGlobeState now s)
  end.

Definition clear_interval (i : option nat) (l : list (option interval)) : list (option interval) :=
  match i with Some i => <[i := None]> l | None => l end.

(* @src middleware/web/globe-service.ts:113-121 stopGlobeService *)
Definition stopGlobeService (s : state) : state :=
  mkGlobe None None (cachedTles s) (cachedGroundTracks s) (stationCoords s)
    (clear_interval (groundTrackInterval s) (clear_interval (positionInterval s) (intervals s)))
    (starting s).

(** [ETles] answers one of the starts under way. *)
Inductive event :=
| EStart (station : Coordinates)
| ETles (r : string + list TwoLineElement)
| EInterval (i : nat)
| EStop.

Definition step (now : Z) (e : event) (s : state) : state * list output :=
  match e with
  | EStart station => startGlobeService station s
  | ETles r =>
      match starting s with
      | O => (s, [])
      | S n =>
          let s := updateTles r s in
          started now (mkGlobe (positionInterval s) (groundTrackInterval s) (cachedTles s)
                         (cachedGroundTracks s) (stationCoords s) (intervals s) n)
      end
  | EInterval i =>
      match intervals s !! i with
      | Some (Some IPositions) => (s, broadcastGlobeState now s)
      | Some (Some ITracks) =>
          let '(s, error) := updateGroundTracks now s in
          (s, match error with Some error => [Uncaught error] | None => [] end)
      | _ => (s, [])
      end
  | EStop => (stopGlobeService s, [])
  end.

Fixpoint run (evs : list (Z * event)) (s : state) : state * list output :=
  match evs with
  | [] => (s, [])
  | (now, e) :: r =>
      let '(s1, o1) := step now e s in let '(s2, o2) := run r s1 in (s2, o1 ++ o2)
  end.
(** ** Facts *)

Lemma find_tle_name tles satellite tle :
  find_tle tles satellite = Some tle -> tle ∈ tles /\ tle_name tle = si_name satellite.
Proof. intros [Hin Hn]%js_find_Some. split; [done|]. by apply String.eqb_eq. Qed.

(** A track has a point per step at most, and its loop ends. *)
Lemma track_loop_points satrec step endTime fuel : 0 < step -> forall current points,
  endTime - current < Z.of_nat fuel * (step * 1000) ->
  exists r, Orbit.track_loop (S fuel) satrec step endTime current points = Some r /\
    (length r <= length points + fuel)%nat.
Proof.
  intros Hstep. induction fuel as [|fuel IH]; intros current points Hf;
    cbn [Orbit.track_loop]; (destruct (current <=? endTime) eqn:E; props; [|eexists; split; [done|lia]]).
  - lia.
  - set (points' := match propagate satrec current with inl _ => _ | inr _ => _ end).
    assert (Hl : (length points' <= S (length points))%nat).
    { subst points'. repeat case_match; rewrite ?length_app; simpl; lia. }
    destruct (IH (current + step * 1000) points') as (r & Hr & Hlen); [lia|].
    exists r. split; [exact Hr|lia].
Qed.

Lemma ground_track_spec tle satellite now r :
  Orbit.computeGroundTrack tle satellite now GROUND_TRACK_DURATION_MINUTES GROUND_TRACK_STEP_SECONDS
    = inr r ->
  exists track, r = Some track /\ gt_name track = si_name satellite /\
    (length (gt_points track) <= 181)%nat.
Proof.
  unfold Orbit.computeGroundTrack. destruct (twoline2satrec _ _) as [e|satrec]; [done|]. cbv zeta. intros <-%(inj inr).
  destruct (track_loop_points satrec GROUND_TRACK_STEP_SECONDS
    (now + GROUND_TRACK_DURATION_MINUTES * 60 * 1000) 181 eq_refl now []) as (l & Hl & Hn).
  { unfold GROUND_TRACK_DURATION_MINUTES, GROUND_TRACK_STEP_SECONDS. lia. }
  replace (Orbit.search_fuel now (now + GROUND_TRACK_DURATION_MINUTES * 60 * 1000)
    GROUND_TRACK_STEP_SECONDS) with 182%nat.
  - rewrite Hl. eexists. by repeat split.
  - unfold Orbit.search_fuel, GROUND_TRACK_DURATION_MINUTES, GROUND_TRACK_STEP_SECONDS.
    replace (now + 90 * 60 * 1000 - now) with 5400000 by lia. by vm_compute.
Qed.

Lemma tracks_of_spec tles now satellites : forall track,
  track ∈ (tracks_of tles now satellites).1 -> exists satellite tle,
    satellite ∈ satellites /\ find_tle tles satellite = Some tle /\
    gt_name track = si_name satellite /\ (length (gt_points track) <= 181)%nat.
Proof.
  induction satellites as [|x rest IH]; intros track; simpl; [by intros ?%not_elem_of_nil|].
  assert (Hrest : track ∈ (tracks_of tles now rest).1 -> exists satellite tle,
    satellite ∈ x :: rest /\ find_tle tles satellite = Some tle /\
    gt_name track = si_name satellite /\ (length (gt_points track) <= 181)%nat).
  { intros (satellite & tle & ? & ?)%IH. exists satellite, tle. split; [by constructor|done]. }
  destruct (find_tle tles x) as [tle|] eqn:Et; [|done].
  destruct (Orbit.computeGroundTrack _ _ _ _ _) as [e|r] eqn:Eg; [by intros ?%not_elem_of_nil|].
  apply ground_track_spec in Eg as (t & -> & Hn & Hl).
  destruct (tracks_of tles now rest) as [tracks error]. simpl.
  intros [->|Hin]%elem_of_cons; [|by apply Hrest].
  exists x, tle. split; [constructor|done].
Qed.

(** The tracks are those of the elements in use. *)
Definition tracks_ok (s : state) : Prop :=
  exists t, cachedGroundTracks s = (tracks_of (cachedTles s) t SATELLITES).1.

Lemma update_tracks_ok now s : tracks_ok (updateGroundTracks now s).1.
Proof.
  exists now. unfold updateGroundTracks. destruct (tracks_of (cachedTles s) now SATELLITES) eqn:E.
  cbn [fst with_tracks cachedGroundTracks cachedTles]. by rewrite E.
Qed.

Lemma update_tracks_frame now s : let s' := (updateGroundTracks now s).1 in
  cachedTles s' = cachedTles s /\ starting s' = starting s.
Proof. unfold updateGroundTracks. by destruct (tracks_of _ _ _). Qed.

Lemma started_spec now s : let r := started now s in
  tracks_ok r.1 /\ cachedTles r.1 = cachedTles s /\ starting r.1 = starting s.
Proof.
  unfold started. pose proof (update_tracks_ok now s) as Ht.
  pose proof (update_tracks_frame now s) as [Hc Hs].
  destruct (updateGroundTracks now s) as [s1 [error|]]; simpl in *; by repeat split.
Qed.

Lemma step_tracks_ok now e s : tracks_ok s -> tracks_ok (step now e s).1.
Proof.
  intros Hs. destruct e as [c|r|i|]; cbn [step].
  - exact Hs.
  - destruct (starting s); [done|]. apply started_spec.
  - destruct (intervals s !! i) as [[[]|]|]; try done.
    pose proof (update_tracks_ok now s). by destruct (updateGroundTracks now s).
  - exact Hs.
Qed.

Lemma run_tracks_ok evs : forall s, tracks_ok s -> tracks_ok (run evs s).1.
Proof.
  induction evs as [|[now e] evs IH]; intros s Hs; simpl; [done|].
  pose proof (step_tracks_ok now e s Hs) as H1. destruct (step now e s) as [s1 o1].
  specialize (IH s1 H1). by destruct (run evs s1).
Qed.

Lemma broadcast_served now s ev : Emit ev ∈ broadcastGlobeState now s ->
  exists g, ev = satellite_positions g /\ getGlobeState now s = Some g.
Proof.
  unfold broadcastGlobeState, getGlobeState. destruct (stationCoords s); [|by intros ?%not_elem_of_nil].
  intros H1%list_elem_of_singleton. injection H1 as ->. by eexists.
Qed.

Lemma step_emits now e s ev : Emit ev ∈ (step now e s).2 ->
  exists g, ev = satellite_positions g /\ getGlobeState now (step now e s).1 = Some g.
Proof.
  destruct e as [c|r|i|]; cbn [step].
  - simpl. by intros H1%list_elem_of_singleton.
  - destruct (starting s); [by intros ?%not_elem_of_nil|]. unfold started.
    destruct (updateGroundTracks _ _) as [s1 [error|]]; simpl; [by intros H1%list_elem_of_singleton|].
    intros [H1|[H1|H1]%elem_of_cons]%elem_of_cons; [done..|]. by apply broadcast_served.
  - destruct (intervals s !! i) as [[[]|]|]; simpl; try (by intros ?%not_elem_of_nil).
    + apply broadcast_served.
    + destruct (updateGroundTracks now s) as [s1 [error|]]; simpl;
        [by intros H1%list_elem_of_singleton|by intros ?%not_elem_of_nil].
  - by intros ?%not_elem_of_nil.
Qed.

(** ** Properties *)

(** In every run, the ground tracks are those of the elements in use, each of at
    most 181 points and named after a satellite of the table that has elements of its
    name; and what is broadcast is the state that a client asking at that moment
    is given. *)
Theorem globe_consistent evs now e :
  let s := (run evs initial).1 in
  let '(s', outs) := step now e s in
  (exists t, cachedGroundTracks s' = (tracks_of (cachedTles s') t SATELLITES).1) /\
  (forall track, track ∈ cachedGroundTracks s' -> exists satellite tle,
     satellite ∈ SATELLITES /\ find_tle (cachedTles s') satellite = Some tle /\
     gt_name track = si_name satellite /\ (length (gt_points track) <= 181)%nat) /\
  (forall ev, Emit ev ∈ outs ->
     exists g, ev = satellite_positions g /\ getGlobeState now s' = Some g).
Proof.
  cbv zeta. set (s := (run evs initial).1).
  assert (Hs : tracks_ok s) by (apply run_tracks_ok; by exists 0).
  pose proof (step_tracks_ok now e s Hs) as Ht. pose proof (step_emits now e s) as He.
  destruct (step now e s) as [s' outs]. simpl in *. split; [done|]. split; [|exact He].
  destruct Ht as [t Ht]. intros track Hin. rewrite Ht in Hin. by apply tracks_of_spec in Hin.
Qed.

(** The elements are loaded by a start and never again: whatever intervals fire
    afterwards, and however long, they stay as they are and none are asked for. *)
Theorem globe_elements_never_refreshed evs s
  (Hevs : Forall (fun e => match e.2 with EInterval _ | EStop => True | _ => False end) evs) :
  cachedTles (run evs s).1 = cachedTles s /\
  (forall satellites hours, GetTles satellites hours ∉ (run evs s).2).
Proof.
  revert s. induction Hevs as [|[now e] evs He Hevs IH]; intros s; simpl.
  - split; [done|]. intros satellites hours. apply not_elem_of_nil.
  - assert (H1 : cachedTles (step now e s).1 = cachedTles s /\
      forall satellites hours, GetTles satellites hours ∉ (step now e s).2).
    { destruct e as [c|r|i|]; try done; simpl.
      - destruct (intervals s !! i) as [[[]|]|]; simpl; try (split; [done|set_solver]).
        + split; [done|]. intros l n. unfold broadcastGlobeState. destruct (stationCoords s); set_solver.
        + pose proof (update_tracks_frame now s) as [Hc _].
          destruct (updateGroundTracks now s) as [s1 [error|]]; simpl in *; (split; [done|set_solver]).
      - split; [done|set_solver]. }
    destruct (step now e s) as [s1 o1], (IH s1) as [IH1 IH2], (run evs s1) as [s2 o2]. simpl in *.
    destruct H1 as [H1 H2]. split; [congruence|]. intros l n [Hin|Hin]%elem_of_app; [by apply H2 in Hin|by apply IH2 in Hin].
Qed.
End Globe.

#[local] Existing Instance Orbit.sample_propagator.

Definition sample_station : Coordinates := mkCoordinates 51 0 50.

Definition running_globe : state :=
  (run [(0, EStart sample_station); (900, ETles (inr [Orbit.sample_tle]))] initial).1.

Lemma globe_elements_never_refreshed_witness :
  let evs := [(3900, EInterval 0); (60900, EInterval 1); (86400000, EInterval 0)] in
  length (run evs running_globe).2 = 2%nat /\
  cachedTles (run evs running_globe).1 = [Orbit.sample_tle] /\
  (forall satellites hours, GetTles satellites hours ∉ (run evs running_globe).2).
Proof.
  split; [vm_compute; reflexivity|]. change [Orbit.sample_tle] with (cachedTles running_globe).
  apply globe_elements_never_refreshed. by repeat constructor.
Defined.

(** ** What the service lets happen *)

(** CelesTrak names satellites its own way: the prediction matches its elements, the
    globe, which compares whole names, shows nothing. *)
Example catalogue_name_hidden :
  let line1 := "1 57166U 23091A   25085.56541919  .00000082  00000+0  69653-4 0  9990"%string in
  let line2 := "2 57166  98.7 136.4 0014198 103.3 256.9 14.12"%string in
  exists tle,
    Tle.parseTleText (join (String.String nl "") ["METEOR-M2 3"; line1; line2]%string)
      (si_name Orbit.sample_info) = Some tle /\
    Passes.tle_matches Orbit.sample_info tle = true /\
    find_tle [tle] Orbit.sample_info = None.
Proof. eexists. split; [vm_compute; reflexivity|]. split; vm_compute; reflexivity. Qed.

(** A stop that comes while the elements are fetched clears nothing, and the start
    goes on to make its intervals. *)
Example stop_during_start :
  let s := (run [(0, EStart sample_station); (400, EStop); (900, ETles (inr [Orbit.sample_tle]))]
              initial).1 in
  intervals s = [Some IPositions; Some ITracks] /\
  (run [(3900, EInterval 0)] s).2 <> [].
Proof. by vm_compute. Qed.

(** The handles of a first start are lost to a second, and its intervals run on after
    a stop. *)
Example second_start_leaks_intervals :
  let start t := [(t, EStart sample_station); (t + 900, ETles (inr [Orbit.sample_tle]))] in
  intervals (run (start 0 ++ start 5000 ++ [(9000, EStop)]) initial).1 =
    [Some IPositions; Some ITracks; None; None].
Proof. by vm_compute. Qed.

End Globe.
