(* ===== verification/MainLoop.v ===== *)
(** * The main program (src/backend/cli/commands/run.ts, serve.ts)

    [runCommand] prepares the station and then captures for ever.  The preparation
    and one round of the loop are programs; a number of rounds stands for the loop,
    which has no exit.  The elements come from Tle, the passes from Passes, the captures
    from Scheduler. *)

From S2P Require Import Prelude JsStd Types StateManager Effects Shell.
From S2P Require Import Recorder Orbit Passes Tle Scheduler.
Local Open Scope Z_scope.
Local Open Scope prog_scope.

Module MainLoop.
Import Recorder Passes Tle Scheduler.

(* @src backend/cli/commands/run.ts:17-18 REQUIRED_COMMANDS *)
Definition REQUIRED_COMMANDS : list string := ["rtl_fm"; "rtl_power"; "sox"]%string.
Definition OPTIONAL_COMMANDS : list string := ["satdump"; "sstv"]%string.

(** ** The preparation *)

(* @src backend/cli/commands/run.ts:45-46 missing *)
Definition missing_of (deps : list (string * bool)) : list string :=
  map fst (js_filter (fun d => negb d.2) deps).

(** [true] when the capture loop is reached, [false] when the process has exited. *)
(* @src backend/cli/commands/run.ts:20-79 runCommand *)
Definition prepare (config : ReceiverConfig) : prog (res bool) :=
  (if cfg_issSstvEnabled config then Do (SetManualSstv true) (fun _ => Ret tt) else Ret tt);;
  d1 <~ EnsureDir (cfg_recordingsDir config);;
  _ <-! Ret (of_sum d1);;
  d2 <~ EnsureDir (cfg_imagesDir config);;
  _ <-! Ret (of_sum d2);;
  db <~ InitDatabase (cfg_database_path config);;
  _ <-! Ret (of_sum db);;
  deps <-! checkDependencies REQUIRED_COMMANDS;;
  match missing_of deps with
  | _ :: _ => Exit 1;;; Ret (Ok false)
  | [] =>
      _ <-! checkDependencies OPTIONAL_COMMANDS;;
      StartWebServer (cfg_web_port config) (cfg_web_host config) (cfg_imagesDir config);;;
      globe <~ StartGlobe (cfg_station config);;
      _ <-! Ret (of_sum globe);;
      Ret (Ok true)
  end.

(** The dashboard without captures. *)
(* @src backend/cli/commands/serve.ts:10-28 serveCommand *)
Definition serveCommand (config : ReceiverConfig) : prog (res unit) :=
  d <~ EnsureDir (cfg_imagesDir config);;
  _ <-! Ret (of_sum d);;
  db <~ InitDatabase (cfg_database_path config);;
  _ <-! Ret (of_sum db);;
  StartWebServer (cfg_web_port config) (cfg_web_host config) (cfg_imagesDir config);;;
  globe <~ StartGlobe (cfg_station config);;
  Ret (of_sum globe).

(** ** The loop *)

Section Loop.
Context `{SatelliteJs}.
Context (home cwd : string) (json_parse : string -> option TleCache).
Context (json_stringify : TleCache -> string).

(** The end of a round: idle, then a pause. *)
Definition rest (ms : Z) : prog (res unit) :=
  SM (StateManager.SetStatus idle);;; Sleep ms;;; Ret (Ok tt).

(** The table has one satellite bound to events, so the filter asks for them once. *)
(* @src backend/cli/commands/run.ts:85-142 runCommand *)
Definition round_body (config : ReceiverConfig) : prog (res unit) :=
  sstv <~ SstvActive;;
  let satellites := activeSatellites sstv in
  match satellites with
  | [] => rest (60 * 1000)
  | _ =>
      tles <-! getTles home json_parse json_stringify satellites (cfg_tle_updateIntervalHours config);;
      now <~ Now;;
      match predictPasses satellites tles (cfg_station config)
              (mkOptions now 24 (cfg_minElevation config)) with
      | None => Ret Pending
      | Some [] => SM (StateManager.UpdatePasses []);;; rest (60 * 60 * 1000)
      | Some allPasses =>
          let passes := filterHighQualityPasses allPasses (cfg_minElevation config) in
          SM (StateManager.UpdatePasses passes);;;
          match passes with
          | [] => rest (60 * 60 * 1000)
          | _ => results <-! runScheduler cwd passes config [];; rest 5000
          end
      end
  end.

(* @src backend/cli/commands/run.ts:84-150 runCommand *)
Definition round (config : ReceiverConfig) : prog (res unit) :=
  try_catch (round_body config) (fun _ => rest (5 * 60 * 1000)).

(* @src backend/cli/commands/run.ts:83-151 runCommand *)
Fixpoint rounds (n : nat) (config : ReceiverConfig) : prog (res unit) :=
  match n with
  | O => Ret (Ok tt)
  | S n => _ <-! round config;; rounds n config
  end.

(** ** Facts *)

(** A call that touches neither the upcoming passes nor the current one. *)
Definition calm (c : call) : Prop :=
  match c with
  | SM (StateManager.UpdatePasses _) | SM (StateManager.StartPass _)
  | SM (StateManager.CompletePass _) => False
  | _ => True
  end.

Lemma map_prog_holds {A B} (C : call -> Prop) (f : A -> prog B) l :
  (forall x, holds C (fun _ => True) (f x)) -> holds C (fun _ => True) (map_prog f l).
Proof.
  intros Hf. induction l as [|x l IH]; [done|]. simpl.
  eapply holds_bind; [apply Hf|]. intros y _. eapply holds_bind; [exact IH|done].
Qed.

Lemma of_sum_settles {A} (r : string + A) : of_sum r <> Pending.
Proof. by destruct r. Qed.

Lemma writeTextFile_calls p t : holds calm (fun r => r <> Pending) (writeTextFile p t).
Proof.
  split; [done|]. intros [m|[]]; [done|]. split; [done|]. intros r. apply of_sum_settles.
Qed.

Lemma saveTlesToCache_calls tles :
  holds calm (fun r => r <> Pending) (saveTlesToCache home json_stringify tles).
Proof.
  split; [done|]. intros [m|[]]; [done|]. split; [done|]. intros now.
  eapply holds_bind; [apply writeTextFile_calls|].
  intros [[]|m|] Hr; [apply writeTextFile_calls|done|done].
Qed.

Lemma getTles_calls satellites hours :
  holds calm (fun r => r <> Pending) (getTles home json_parse json_stringify satellites hours).
Proof.
  unfold getTles. eapply (holds_bind _ (fun _ => True)).
  { split; [done|]. intros [m|t]; [done|]. destruct (json_parse t); [|done].
    split; [done|]. by intros now. }
  intros cached _. cbv zeta. set (valid := match cached with Some _ => _ | None => _ end).
  eapply (holds_bind _ (fun _ => True)).
  { destruct valid; [done|]. eapply holds_bind; [|done]. apply map_prog_holds.
    intros x. split; [done|]. by intros [m|r]. }
  intros fresh _. eapply (holds_bind _ (fun r => r <> Pending)).
  { destruct (Nat.ltb _ _); [apply saveTlesToCache_calls|done]. }
  intros [[]|m|] Hr; [|done|done]. by destruct (if valid then cached else _).
Qed.

Lemma waitForPass_calls pass cfg : holds calm (fun _ => True) (waitForPass pass cfg).
Proof.
  split; [done|]. intros now. split; [done|]. intros _. destruct (_ <=? now); [done|].
  eapply (holds_bind _ (fun _ => True)).
  { unfold may_scan. destruct cfg; [|done]. destruct (_ <? _); [|done].
    split; [done|]. intros b. by destruct b. }
  intros [] _; repeat (split; [done|intros _]); done.
Qed.

(** What the loop lists: passes in order, each high or long enough. *)
Definition listed (config : ReceiverConfig) (l : list SatellitePass) : Prop :=
  StronglySorted (fun a b => pass_aos a <= pass_aos b) l /\
  Forall (fun p => (40 <= pass_maxElevation p)%Q \/
                   (cfg_minElevation config <= pass_maxElevation p)%Q /\
                   (360 <= pass_duration p)%Q) l.

Lemma high_quality_listed config satellites tles now l :
  predictPasses satellites tles (cfg_station config) (mkOptions now 24 (cfg_minElevation config))
    = Some l ->
  listed config (filterHighQualityPasses l (cfg_minElevation config)).
Proof.
  intros Hl. destruct (predictPasses_total satellites tles (cfg_station config)
    (mkOptions now 24 (cfg_minElevation config))) as (l' & Hl' & Hs & _).
  assert (l' = l) as -> by congruence. split; [by apply js_filter_sorted|].
  apply Forall_forall. intros p [_ Hp]%js_filter_elem.
  destruct (40 <=?q pass_maxElevation p) eqn:E; props; tauto.
Qed.

(** ** A round, when the clock advances and child processes end *)

Section Settled.
Context {W : Type} (h : forall c, W -> resp c * W) (time : W -> Z).
Context `{!Clock h time} `{!Settles h}.
Context (config : ReceiverConfig).

(** A run that ends by a rest of at least five seconds. *)
Definition rested (w : W) (r : res unit) (w' : W) (t : list call) : Prop :=
  r = Ok tt /\ time w + 5000 <= time w' /\
  exists before ms, 5000 <= ms /\ t = before ++ [SM (StateManager.SetStatus idle); Sleep ms].

Definition rested_or_thrown (w : W) (r : res unit) (w' : W) (t : list call) : Prop :=
  rested w r w' t \/ exists m, r = Throw m.

Lemma rest_runs ms w : 5000 <= ms -> runs h (rest ms) w (rested w).
Proof.
  intros Hms. unfold rest. apply runs_Do. intros r w1 E1. apply runs_Do. intros r' w2 E2. apply runs_Ret.
  pose proof (clock_mono (SM (StateManager.SetStatus idle)) w) as H1. rewrite E1 in H1. simpl in H1.
  pose proof (clock_sleep ms w1) as H2. rewrite E2 in H2. simpl in H2.
  split; [done|]. split; [lia|]. by exists [], ms.
Qed.

Lemma rested_later w w1 r w' t0 t : time w <= time w1 -> rested w1 r w' t -> rested w r w' (t0 ++ t).
Proof.
  intros Hw (-> & Ht & before & ms & Hms & ->). split; [done|]. split; [lia|].
  exists (t0 ++ before), ms. by rewrite <- app_assoc.
Qed.

(** A program that comes before one that rests. *)
Lemma bind_rests {A} (p : prog A) (f : A -> prog (res unit)) w (R : A -> Prop) :
  R (result h p w) -> (forall a w1, R a -> runs h (f a) w1 (rested_or_thrown w1)) ->
  runs h (bind p f) w (rested_or_thrown w).
Proof.
  intros Hp Hf. apply runs_bind. unfold runs at 1. pose proof (clock_final h time p w) as Hw.
  eapply runs_mono; [by apply Hf|]. intros r w' t [Hr|[m ->]]; [left|right; by exists m].
  by eapply rested_later.
Qed.

Lemma do_rests c (k : resp c -> prog (res unit)) w :
  (forall r w1, runs h (k r) w1 (rested_or_thrown w1)) -> runs h (Do c k) w (rested_or_thrown w).
Proof. intros Hk. apply (bind_rests (ask c) k w (fun _ => True)); auto. Qed.

Lemma rest_rests ms w : 5000 <= ms -> runs h (rest ms) w (rested_or_thrown w).
Proof. intros Hms. eapply runs_mono; [by apply rest_runs|]. by left. Qed.

Lemma round_body_runs w : runs h (round_body config) w (rested_or_thrown w).
Proof.
  unfold round_body. apply do_rests. intros sstv w1. cbv zeta.
  set (sats := activeSatellites sstv). clearbody sats.
  destruct sats as [|s0 sats0]; [by apply rest_rests|]. set (sats := s0 :: sats0).
  apply (bind_rests _ _ _ (fun r => r <> Pending)); [eapply holds_result, getTles_calls|].
  intros [tles|m|] w2 Hr; [|by right; exists m|done]. apply do_rests. intros now w3.
  destruct (predictPasses_total sats tles (cfg_station config)
    (mkOptions now 24 (cfg_minElevation config))) as (l & -> & _).
  destruct l as [|p0 l]; [by apply do_rests; intros; apply rest_rests|].
  apply do_rests. intros _ w4. set (passes := filterHighQualityPasses _ _). clearbody passes.
  destruct passes as [|p passes]; [by apply rest_rests|].
  apply (bind_rests _ _ _ (fun r => exists rs, r = Ok rs)).
  - destruct (runScheduler_results h time cwd config (p :: passes) [] w4) as (kept & out & Hr' & _).
    by exists ([] ++ out).
  - intros r w5 [rs ->]. by apply rest_rests.
Qed.

Lemma round_rests w : runs h (round config) w (rested w).
Proof.
  unfold round, try_catch. apply runs_bind. pose proof (round_body_runs w) as Hr.
  pose proof (clock_final h time (round_body config) w) as Hw. unfold runs in Hr |- * at 1.
  set (r := result h (round_body config) w) in *. set (w1 := final h (round_body config) w) in *.
  clearbody r w1. destruct Hr as [Hr|[m ->]].
  - pose proof Hr as [-> _]. apply runs_Ret. by rewrite app_nil_r.
  - eapply runs_mono; [by apply rest_runs|]. intros r w2 t2 H2. by eapply rested_later.
Qed.

(** [n] rounds, one after the other. *)
Lemma rounds_rest n : forall w,
  result h (rounds n config) w = Ok tt /\
  time w + 5000 * Z.of_nat n <= time (final h (rounds n config) w) /\
  (n <> 0%nat -> exists before ms, 5000 <= ms /\
     trace h (rounds n config) w = before ++ [SM (StateManager.SetStatus idle); Sleep ms]).
Proof.
  induction n as [|n IH]; intros w; cbn [rounds]; [split; [done|]; split; [rewrite final_Ret; lia|done]|].
  unfold bindR. props. pose proof (round_rests w) as (Hr & Hw & before & ms & Hms & Ht).
  rewrite Hr, Ht. set (w1 := final h (round config) w) in *.
  destruct (IH w1) as (Hr1 & Hw1 & Ht1). split; [exact Hr1|]. split; [lia|]. intros _.
  destruct n as [|n].
  - exists before, ms. split; [done|]. apply app_nil_r.
  - destruct Ht1 as (before1 & ms1 & Hms1 & Ht1); [done|].
    eexists _, ms1. split; [done|]. rewrite Ht1, app_assoc. done.
Qed.

(** ** What the rounds list *)

(** A property of traces that calm calls, good lists and whole captures have, and that
    sequencing keeps, is one of the rounds. *)
Section Rounds.
Context (P : list call -> Prop) (P_nil : P []) (P_app : forall a b, P a -> P b -> P (a ++ b)).
Context (P_calm : forall c, calm c -> P [c]).
Context (P_listed : forall l, listed config l -> P [SM (StateManager.UpdatePasses l)]).
Context (P_capture : forall pass w, P (trace h (capturePass cwd pass config) w)).

Lemma P_cons c t : P [c] -> P t -> P (c :: t).
Proof. apply P_app. Qed.

Lemma P_calms t : Forall calm t -> P t.
Proof. induction 1; [done|]. apply P_cons; auto. Qed.

Lemma P_rest ms w : P (trace h (rest ms) w).
Proof. unfold rest. props. apply P_calms. by repeat constructor. Qed.

Lemma P_scheduler passes : forall rs w, P (trace h (runScheduler cwd passes config rs) w).
Proof.
  induction passes as [|p passes IH]; intros rs w; cbn [runScheduler]; [exact P_nil|].
  props. apply P_cons; [by apply P_calm|]. destruct (pass_los p <? _); [apply IH|]. unfold bindR. props.
  apply P_app; [eapply P_calms, holds_trace, waitForPass_calls|].
  set (w1 := final h (waitForPass _ _) _). apply P_app; [apply P_capture|].
  destruct (capturePass_ok h time cwd config p w1) as [r Hr]. rewrite Hr. apply IH.
Qed.

Lemma P_round_body w : P (trace h (round_body config) w).
Proof.
  unfold round_body, bindR; cbv zeta. props. apply P_cons; [by apply P_calm|].
  set (sats := activeSatellites _). clearbody sats.
  destruct sats as [|s0 sats0]; [apply P_rest|]. set (sats := s0 :: sats0). props.
  apply P_app; [eapply P_calms, holds_trace, getTles_calls|].
  destruct (result h (getTles _ _ _ _ _) _) as [tles|m|]; [|exact P_nil..]. props.
  apply P_cons; [by apply P_calm|]. set (now := (h Now _).1). clearbody now.
  destruct (predictPasses _ _ _ _) as [l|] eqn:El; [|exact P_nil].
  pose proof (high_quality_listed _ _ _ _ _ El) as Hl.
  destruct l as [|p0 l]; props; (apply P_cons; [by apply P_listed|]); [apply P_rest|].
  set (passes := filterHighQualityPasses _ _) in *. clearbody passes.
  destruct passes as [|p passes]; [apply P_rest|]. props. apply P_app; [apply P_scheduler|].
  destruct (result h (runScheduler _ _ _ _) _); [apply P_rest|exact P_nil..].
Qed.

Lemma P_rounds n : forall w, P (trace h (rounds n config) w).
Proof.
  induction n as [|n IH]; intros w; cbn [rounds]; [exact P_nil|]. unfold bindR. props.
  apply P_app.
  - unfold round, try_catch. props. apply P_app; [apply P_round_body|].
    destruct (result h (round_body config) w); [exact P_nil|apply P_rest|exact P_nil].
  - destruct (round_rests w) as (-> & _). apply IH.
Qed.
End Rounds.

Definition lists_well (c : call) : Prop :=
  match c with SM (StateManager.UpdatePasses l) => listed config l | _ => True end.

Lemma busy_lists_well c : busy_call c -> lists_well c.
Proof. destruct c; try done. by destruct o. Qed.

Lemma capturePass_lists pass w : Forall lists_well (trace h (capturePass cwd pass config) w).
Proof.
  destruct (capturePass_runs h cwd pass config w) as (t0 & t1 & -> & H0 & H1).
  destruct (capturePass_ok h time cwd config pass w) as [r Hr]. rewrite Hr in H1.
  destruct H1 as (_ & mid & fin & -> & Hmid & saved & -> & Hsaved).
  apply Forall_app. split; [rewrite H0; by destruct (h IsFFTRunning w).1; repeat constructor|]. constructor; [done|].
  apply Forall_app. split; [eapply Forall_impl; [exact Hmid|apply busy_lists_well]|].
  constructor; [done|]. apply Forall_app. split; [|by repeat constructor].
  by destruct Hsaved as [->|(id & -> & _)]; repeat constructor.
Qed.

Lemma rounds_list n w : Forall lists_well (trace h (rounds n config) w).
Proof.
  apply (P_rounds (Forall lists_well)); [done|by apply Forall_app_2| |intros l Hl|].
  - intros c Hc. constructor; [|done]. destruct c; try done; by destruct o.
  - by constructor.
  - apply capturePass_lists.
Qed.

(** The pass under way after some operations. *)
Definition under_way (c : option SatellitePass) (o : StateManager.op) : option SatellitePass :=
  match o with
  | StateManager.StartPass p => Some p
  | StateManager.CompletePass _ => None
  | _ => c
  end.

(** After the rounds no pass is under way. *)
Lemma rounds_closed n w : foldl under_way None (sm_ops (trace h (rounds n config) w)) = None.
Proof.
  apply (P_rounds (fun t => foldl under_way None (sm_ops t) = None)); [done| | |done|].
  - intros a b Ha Hb. by rewrite sm_ops_app, foldl_app, Ha.
  - intros c Hc. destruct c; try done; by destruct o.
  - intros pass w'. destruct (capturePass_ok h time cwd config pass w') as [r Hr].
    destruct (capturePass_sm_ops h cwd pass config w' r Hr) as (mid & _ & ->).
    cbn [foldl]. by rewrite foldl_app.
Qed.
End Settled.
End Loop.

(** ** The preparation *)

(** The commands that are missing, by what [which] reported of them. *)
Lemma dependencies_spec {W} (h : forall c, W -> resp c * W) `{!Settles h} commands w : NoDup commands ->
  exists reports deps, length reports = length commands /\
    answers h (checkDependencies commands) w = which commands reports /\
    result h (checkDependencies commands) w = Ok deps /\
    (missing_of deps = [] <-> Forall (fun evs => found evs = true) reports).
Proof.
  intros Hnd. destruct (checkDependencies_asks h commands [] w) as (reports & Hl & Ha & Hr).
  eexists reports, _. split; [exact Hl|]. split; [exact Ha|]. split; [exact Hr|].
  assert (H : forall m, (forall c, c ∈ commands -> c ∉ m.*1) ->
    missing_of (foldl (fun m x => map_set x.1 (found x.2) m) m (zip commands reports)) = [] <->
    missing_of m = [] /\ Forall (fun evs => found evs = true) reports).
  { clear Ha Hr. revert reports Hl. induction Hnd as [|c commands Hc _ IH]; intros [|evs reports] Hl m Hm; try done.
    - split; [by intros|by intros []].
    - injection Hl as Hl. cbn [zip zip_with foldl fst snd]. rewrite IH; [|exact Hl|].
      2:{ intros x Hx. rewrite map_set_keys. intros [->|Hin]; [done|]. apply (Hm x); [by right|done]. }
      rewrite map_set_new by (apply Hm; left). unfold missing_of, js_filter. rewrite List.filter_app, map_app.
      rewrite Forall_cons. cbn. destruct (found evs); cbn; [rewrite app_nil_r; tauto|].
      split; [by intros [[]%app_nil _]|by intros (_ & ? & _)]. }
  rewrite H by (intros c _ Hc; by apply elem_of_nil in Hc). split; [by intros []|done].
Qed.

(** The calls of a preparation and their answers, by how it ends.  A start makes the two
    directories and opens the database. *)
Definition started (config : ReceiverConfig) : list answered :=
  [Answer (EnsureDir (cfg_recordingsDir config)) (inr tt); Answer (EnsureDir (cfg_imagesDir config)) (inr tt);
   Answer (InitDatabase (cfg_database_path config)) (inr tt)].

Definition opened (config : ReceiverConfig) (globe : string + unit) : list answered :=
  [Answer (StartWebServer (cfg_web_port config) (cfg_web_host config) (cfg_imagesDir config)) tt;
   Answer (StartGlobe (cfg_station config)) globe].

(** The required commands were found, then the optional ones were asked for. *)
Definition equipped (t : list answered) : Prop :=
  exists required optional,
    length required = length REQUIRED_COMMANDS /\ length optional = length OPTIONAL_COMMANDS /\
    Forall (fun evs => found evs = true) required /\
    t = which REQUIRED_COMMANDS required ++ which OPTIONAL_COMMANDS optional.

Definition prepared (config : ReceiverConfig) (r : res bool) (t : list answered) : Prop :=
  match r with
  | Ok true => exists checks, equipped checks /\ t = started config ++ checks ++ opened config (inr tt)
  | Ok false => exists required, length required = length REQUIRED_COMMANDS /\
      Exists (fun evs => found evs = false) required /\
      t = started config ++ which REQUIRED_COMMANDS required ++ [Answer (Exit 1) tt]
  | Throw m =>
      t = [Answer (EnsureDir (cfg_recordingsDir config)) (inl m)] \/
      t = take 1 (started config) ++ [Answer (EnsureDir (cfg_imagesDir config)) (inl m)] \/
      t = take 2 (started config) ++ [Answer (InitDatabase (cfg_database_path config)) (inl m)] \/
      exists checks, equipped checks /\ t = started config ++ checks ++ opened config (inl m)
  | Pending => False
  end.

(** The part of the preparation that follows the database. *)
Definition equip (config : ReceiverConfig) : prog (res bool) :=
  deps <-! checkDependencies REQUIRED_COMMANDS;;
  match missing_of deps with
  | _ :: _ => Exit 1;;; Ret (Ok false)
  | [] =>
      _ <-! checkDependencies OPTIONAL_COMMANDS;;
      StartWebServer (cfg_web_port config) (cfg_web_host config) (cfg_imagesDir config);;;
      globe <~ StartGlobe (cfg_station config);;
      _ <-! Ret (of_sum globe);;
      Ret (Ok true)
  end.

Lemma equip_prepared {W} (h : forall c, W -> resp c * W) `{!Settles h} config w :
  prepared config (result h (equip config) w) (started config ++ answers h (equip config) w).
Proof.
  unfold equip, bindR. props.
  destruct (dependencies_spec h REQUIRED_COMMANDS w) as (required & deps & Hl & Ha & Hd & Hall);
    [by apply (bool_decide_unpack _)|]. rewrite Hd, Ha.
  set (w1 := final h (checkDependencies REQUIRED_COMMANDS) w) in *.
  destruct (missing_of deps) as [|m ms] eqn:Em; props.
  - destruct (dependencies_spec h OPTIONAL_COMMANDS w1) as (optional & deps2 & Hl2 & Ha2 & Hd2 & _);
      [by apply (bool_decide_unpack _)|]. rewrite Hd2, Ha2. props.
    assert (Hq : equipped (which REQUIRED_COMMANDS required ++ which OPTIONAL_COMMANDS optional)).
    { exists required, optional. split_and!; [done..|by apply Hall|done]. }
    destruct ((h (StartWebServer _ _ _) _).1).
    destruct ((h (StartGlobe _) _).1) as [m|[]] eqn:Eg; cbn [of_sum]; props; rewrite ?Eg.
    + do 3 right. exists (which REQUIRED_COMMANDS required ++ which OPTIONAL_COMMANDS optional).
      split; [exact Hq|]. by rewrite <- !app_assoc.
    + exists (which REQUIRED_COMMANDS required ++ which OPTIONAL_COMMANDS optional).
      split; [exact Hq|]. by rewrite <- !app_assoc.
  - exists required. split; [exact Hl|]. split; [|by destruct ((h (Exit 1) _).1)].
    assert (Hn : ~ Forall (fun evs => found evs = true) required) by (intros H; by apply Hall in H).
    apply (not_Forall_Exists _) in Hn. eapply Exists_impl; [exact Hn|]. intros evs Hf. by apply not_true_iff_false in Hf.
Qed.

(** C20: The preparation makes the directories, opens the database and asks for every command,
    in this order: the station is opened, web server before globe, exactly when both
    directories were made, the database was opened and every required command was found,
    as the last acts; a missing command ends the process instead; the first failure of the
    directories, the database or the globe is thrown, with nothing done after it; and no
    preparation hangs. *)
Theorem prepare_outcome {W} (h : forall c, W -> resp c * W) (Hs : Settles h) config w :
  exists rest, answers h (prepare config) w =
      (if cfg_issSstvEnabled config then [Answer (SetManualSstv true) tt] else []) ++ rest /\
    prepared config (result h (prepare config) w) rest.
Proof.
  unfold prepare. fold (equip config). unfold bindR. rewrite result_bind, answers_bind.
  set (p0 := if cfg_issSstvEnabled config then _ else _).
  replace (answers h p0 w) with (if cfg_issSstvEnabled config then [Answer (SetManualSstv true) tt] else [])
    by (subst p0; destruct (cfg_issSstvEnabled config); [|done];
        rewrite answers_Do; set (u := (h (SetManualSstv true) w).1); clearbody u; by destruct u).
  set (w0 := final h p0 w). clearbody w0. clear p0. eexists. split; [reflexivity|].
  rewrite result_Do, answers_Do. set (w1 := (h (EnsureDir (cfg_recordingsDir config)) w0).2).
  destruct ((h (EnsureDir _) w0).1) as [m|[]]; cbn [of_sum bind]; [by left|].
  rewrite result_Do, answers_Do. set (w2 := (h (EnsureDir (cfg_imagesDir config)) w1).2).
  destruct ((h (EnsureDir _) w1).1) as [m|[]]; cbn [of_sum bind]; [by right; left|].
  rewrite result_Do, answers_Do. set (w3 := (h (InitDatabase _) w2).2).
  destruct ((h (InitDatabase _) w2).1) as [m|[]]; cbn [of_sum bind]; [by do 2 right; left|].
  exact (equip_prepared h config w3).
Qed.

(** ** Properties *)

(** C4: The capture loop never dies and never spins: whatever the elements, the passes and
    the receiver do, each round ends normally, idle, with a pause of at least five
    seconds as its last act; [n] rounds take at least five seconds each. *)
Theorem capture_loop_endures `{SatelliteJs} {W} (h : forall c, W -> resp c * W) (time : W -> Z)
  (Hc : Clock h time) (Hs : Settles h) home cwd parse stringify config n w :
  let loop := rounds home cwd parse stringify n config in
  result h loop w = Ok tt /\ time w + 5000 * Z.of_nat n <= time (final h loop w) /\
  (n <> 0%nat -> exists before ms, 5000 <= ms /\
     trace h loop w = before ++ [SM (StateManager.SetStatus idle); Sleep ms]).
Proof. exact (rounds_rest home cwd parse stringify h time config n w). Qed.

(** C16: Every list of passes that the loop publishes is in the order of their AOS, and each
    of its passes rises to 40 degrees, or reaches the configured elevation and lasts six
    minutes. *)
Theorem published_passes_good `{SatelliteJs} {W} (h : forall c, W -> resp c * W) (time : W -> Z)
  (Hc : Clock h time) (Hs : Settles h) home cwd parse stringify config n w l
  (Hl : SM (StateManager.UpdatePasses l) ∈ trace h (rounds home cwd parse stringify n config) w) :
  StronglySorted (fun a b => pass_aos a <= pass_aos b) l /\
  Forall (fun p => (40 <= pass_maxElevation p)%Q \/
    (cfg_minElevation config <= pass_maxElevation p)%Q /\ (360 <= pass_duration p)%Q) l.
Proof.
  pose proof (rounds_list home cwd parse stringify h time config n w) as H1.
  rewrite Forall_forall in H1. exact (H1 _ Hl).
Qed.

(** The globe and the loop share one cache, and the loop, which asks for two
    satellites while SSTV is off, takes the three sets the globe stored for stale: it
    fetches again. *)
Theorem shared_cache_misses {W} (h : forall c, W -> resp c * W) home parse stringify hours tles w
  (Hcached : result h (loadCachedTles home parse hours) w = Some tles)
  (Hlen : length tles = length SATELLITES) :
  exists url, Fetch url ∈ trace h (getTles home parse stringify (activeSatellites false) hours) w.
Proof.
  unfold getTles. rewrite trace_bind, Hcached. cbv zeta. rewrite trace_bind.
  replace (Nat.eqb (length tles) _) with false by (by rewrite Hlen).
  cbv iota. unfold fetchAllTles. rewrite (trace_bind h (map_prog fetchTle _)).
  change (activeSatellites false) with (drop 1 SATELLITES). cbn [drop SATELLITES map_prog].
  rewrite (trace_bind h (fetchTle _)). unfold fetchTle at 1. rewrite trace_Do.
  eexists. apply elem_of_app. right. do 3 (apply elem_of_app; left). left.
Qed.

#[local] Existing Instance Orbit.sample_propagator.

Lemma capture_loop_endures_witness :
  let loop := rounds "/root" "/app" (fun _ => None) (fun _ => ""%string) 3 sample_config in
  result handle loop sample_world = Ok tt /\
  w_time sample_world + 15000 <= w_time (final handle loop sample_world).
Proof.
  destruct (capture_loop_endures handle w_time handle_clock handle_settles "/root" "/app"
    (fun _ => None) (fun _ => ""%string) sample_config 3 sample_world) as (H1 & H2 & _).
  split; [exact H1|exact H2].
Defined.


(** A world in which CelesTrak answers. *)
Definition online (c : call) (w : world) : resp c * world :=
  match c as c return resp c * world with
  | Fetch _ =>
      (inr (mkFetchResponse true (join (String.String nl "") ["1 57166U"; "2 57166"]%string)), w)
  | c => handle c w
  end.

#[local] Instance online_clock : Clock online w_time.
Proof.
  split; intros.
  - done.
  - pose proof (clock_mono (h := handle) c w). by destruct c.
  - apply (clock_sleep (h := handle)).
Qed.

#[local] Instance online_settles : Settles online.
Proof. intros cmd args w. apply handle_settles. Qed.

Definition first_hour : world := mkWorld 0 None [] [] false false idle.

Definition station_trace : list call :=
  trace online (rounds "/root" "/app" (fun _ => None) (fun _ => ""%string) 1 sample_config) first_hour.

Definition first_published : list SatellitePass := Eval vm_compute in
  default [] (head (omap (fun c => match c with SM (StateManager.UpdatePasses l) => Some l | _ => None end)
                      station_trace)).

Definition published_at : nat := Eval vm_compute in
  default 0%nat (js_findIndex
    (fun c => match c with SM (StateManager.UpdatePasses _) => true | _ => false end) station_trace).

Lemma published_passes_good_witness :
  length first_published = 2%nat /\
  StronglySorted (fun a b => pass_aos a <= pass_aos b) first_published.
Proof.
  split; [reflexivity|].
  apply (published_passes_good online w_time online_clock online_settles "/root" "/app"
    (fun _ => None) (fun _ => ""%string) sample_config 1 first_hour).
  apply (list_elem_of_lookup_2 _ published_at). vm_compute. reflexivity.
Defined.

Lemma prepare_outcome_witness :
  exists checks, equipped checks /\
    answers handle (prepare sample_config) sample_world =
      Answer (SetManualSstv true) tt :: started sample_config ++ checks ++ opened sample_config (inr tt).
Proof.
  assert (E : result handle (prepare sample_config) sample_world = Ok true) by (vm_compute; reflexivity).
  destruct (prepare_outcome handle handle_settles sample_config sample_world) as (rest & Ha & Ho).
  rewrite E in Ho. destruct Ho as (checks & Hc & ->). exists checks. split; [exact Hc|exact Ha].
Defined.

(** The cache of the globe, as a file. *)
Definition three_tles : list TwoLineElement :=
  map (fun s => mkTle (si_name s) "1 " "2 ") SATELLITES.

Lemma shared_cache_misses_witness :
  exists url, Fetch url ∈
    trace file_handle
      (getTles "/root" (fun _ => Some (mkCache 0 three_tles)) (fun _ => ""%string) (activeSatellites false) 24)
      (1000, fun _ => Some "cache"%string).
Proof.
  apply (shared_cache_misses file_handle "/root" (fun _ => Some (mkCache 0 three_tles))
    (fun _ => ""%string) 24 three_tles); reflexivity.
Defined.

End MainLoop.
