(* ===== verification/Station.v ===== *)
(** * The station (src/middleware/web/server.ts and src/frontend/src/hooks/useWebSocket.ts)

    The web server, the state manager behind it and a dashboard at the other end of
    a WebSocket.  Every event of the state manager is delivered once to a client whose
    socket takes what is sent; only a pass start may be held back, while the server
    awaits the stop of the spectrum.  When nothing happens in the meantime, the
    dashboard shows the state of the server. *)

From S2P Require Import Prelude JsStd Types StateManager Effects FftDsp FftStream Shell Recorder.
From S2P Require Import Orbit Passes Tle SstvScanner Scheduler Dashboard WebServer MainLoop.
Local Open Scope Z_scope.

Module Station.
Import WebServer Tle.

(** ** The messages *)

(** A message of the server as the dashboard parses it; it has no case for the gain. *)
(* @src frontend/src/hooks/useWebSocket.ts:54-67 onmessage *)
Definition deliver (m : message) : option Dashboard.WSMessage :=
  match m with
  | MEvent e => Some (Dashboard.state_event e)
  | MInit sys globe running config _ error =>
      Some (Dashboard.init sys globe (Some (Dashboard.mkFFTState running config error)))
  | MHistory l => Some (Dashboard.fft_history l)
  | MData d => Some (Dashboard.fft_data d)
  | MSubscribed r c e => Some (Dashboard.fft_subscribed r c e)
  | MUnsubscribed => Some Dashboard.fft_unsubscribed
  | MError e => Some (Dashboard.fft_error e)
  | MSstv s => Some (Dashboard.sstv_status s)
  | MGain _ => None
  end.

(** What the server sends to one socket, in order. *)
Definition sent (ws : nat) (os : list output) : list message :=
  omap (fun o => match o with Send w m => if Nat.eqb w ws then Some m else None | _ => None end) os.

(** The dashboard after those messages. *)
Definition feed (l : list message) (d : Dashboard.dashboard) : Dashboard.dashboard :=
  foldl (fun d m => match deliver m with Some m => (Dashboard.on_message m d).1 | None => d end) d l.

(** The messages that touch the copy of the state. *)
Definition is_update (m : message) : bool :=
  match m with MEvent _ | MInit _ _ _ _ _ _ => true | _ => false end.

Definition updates (ws : nat) (os : list output) : list message := js_filter is_update (sent ws os).

(** The messages about the switches. *)
Definition is_status (m : message) : bool := match m with MSstv _ => true | _ => false end.

Definition statuses (ws : nat) (os : list output) : list message := js_filter is_status (sent ws os).

(** The events whose broadcast awaits the stop of the spectrum. *)
Definition held (l : list task) : list StateEvent :=
  omap (fun t => match t with Forward e => Some e | _ => None end) l.

(** The operations of the state manager among the events of a run. *)
Definition sm_run (evs : list (Z * event)) : list (Z * StateManager.op) :=
  omap (fun x => match x.2 with ESystem o => Some (x.1, o) | _ => None end) evs.

Lemma sent_app ws a b : sent ws (a ++ b) = sent ws a ++ sent ws b.
Proof. apply omap_app. Qed.

Lemma updates_app ws a b : updates ws (a ++ b) = updates ws a ++ updates ws b.
Proof. unfold updates. rewrite sent_app. apply List.filter_app. Qed.

Lemma sent_cons ws w m os :
  sent ws (Send w m :: os) = if Nat.eqb w ws then m :: sent ws os else sent ws os.
Proof. unfold sent. rewrite omap_cons. by destruct (Nat.eqb w ws). Qed.

Lemma sent_stream ws os : sent ws (map Stream os) = [].
Proof. by induction os. Qed.

Lemma updates_stream ws os : updates ws (map Stream os) = [].
Proof. unfold updates. by rewrite sent_stream. Qed.

Lemma held_app a b : held (a ++ b) = held a ++ held b.
Proof. apply omap_app. Qed.

Lemma alive_keeps ws throws l : throws ws = false -> ws ∈ l -> ws ∈ alive throws l.
Proof. intros Hws H. apply js_filter_elem. by rewrite Hws. Qed.

Lemma alive_nodup throws l : NoDup l -> NoDup (alive throws l).
Proof. intros H. apply NoDup_ListNoDup, List.NoDup_filter. by apply NoDup_ListNoDup. Qed.

Lemma sent_map ws m l : NoDup l ->
  sent ws (map (fun w => Send w m) l) = if bool_decide (ws ∈ l) then [m] else [].
Proof.
  induction 1 as [|w l Hw Hl IH]; [done|]. cbn [map]. rewrite sent_cons, IH.
  destruct (Nat.eqb_spec w ws) as [->|Hne].
  - rewrite (bool_decide_false (ws ∈ l)) by done. by rewrite bool_decide_true by left.
  - by rewrite (bool_decide_ext (ws ∈ w :: l) (ws ∈ l)) by set_solver.
Qed.

(** ** Steps that leave the copy alone *)

Section Quiet.
Context (ws : nat) (throws : nat -> bool) (switches : bool).

(** The updates, and with [switches] the messages about them as well. *)
Definition news (os : list output) : list message :=
  js_filter (fun m => is_update m || is_status m && switches) (sent ws os).

(** A step that leaves the state of the station, the events held back and the
    client's place as they are, and sends it no news; with [switches], one that leaves
    the switches alone too. *)
Record quiet (s : state) (r : state * list output) : Prop := mkQuiet {
  quiet_system : system r.1 = system s;
  quiet_held : held (tasks r.1) = held (tasks s);
  quiet_client : throws ws = false -> ws ∈ clients s -> ws ∈ clients r.1;
  quiet_nodup : NoDup (clients s) -> NoDup (clients r.1);
  quiet_sstv : (if switches then Some (sstv r.1) else None) = (if switches then Some (sstv s) else None);
  quiet_news : news r.2 = []
}.

(** A message that is no news. *)
Definition quiet_message (m : message) : Prop := (is_update m || is_status m && switches) = false.

(** The part of the state that matters here. *)
Definition kept (s : state) :=
  (system s, held (tasks s), clients s, if switches then Some (sstv s) else None).

Lemma news_app a b : news (a ++ b) = news a ++ news b.
Proof. unfold news. rewrite sent_app. apply List.filter_app. Qed.

Lemma news_stream os : news (map Stream os) = [].
Proof. unfold news. by rewrite sent_stream. Qed.

Lemma quiet_same s s' os : kept s' = kept s -> news os = [] -> quiet s (s', os).
Proof. unfold kept. intros [= E1 E2 E3 E4] Ho. split; simpl; rewrite ?E1, ?E2, ?E3; done. Qed.

Lemma quiet_refl s : quiet s (s, []).
Proof. by apply quiet_same. Qed.

Lemma quiet_trans s s1 o1 r : quiet s (s1, o1) -> quiet s1 r ->
  quiet s (let '(s2, o2) := r in (s2, o1 ++ o2)).
Proof.
  destruct r as [s2 o2]. intros [H1 H2 H3 H4 H5 H6] [G1 G2 G3 G4 G5 G6]. simpl in *.
  split; simpl; [congruence|congruence|auto|auto|congruence|]. by rewrite news_app, H6, G6.
Qed.

Lemma quiet_from s0 s r : kept s = kept s0 -> quiet s r -> quiet s0 r.
Proof. unfold kept. intros [= E1 E2 E3 E4] [H1 H2 H3 H4 H5 H6]. split; rewrite <- ?E1, <- ?E2, <- ?E3, <- ?E4; done. Qed.

Lemma quiet_snoc s s1 o1 o2 : quiet s (s1, o1) -> news o2 = [] -> quiet s (s1, o1 ++ o2).
Proof. intros H Ho. apply (quiet_trans _ _ _ (s1, o2) H). by apply quiet_same. Qed.

Lemma news_map m l : quiet_message m -> news (map (fun w => Send w m) l) = [].
Proof.
  unfold quiet_message. intros Hm. induction l as [|w l IH]; [done|]. unfold news in *. cbn [map].
  rewrite sent_cons. destruct (Nat.eqb w ws); [|done]. simpl. by rewrite Hm.
Qed.

(** A broadcast of another message. *)
Lemma broadcast_clients_quiet m s : quiet_message m -> quiet s (broadcast_clients throws m s).
Proof.
  intros Hm. split; simpl; [done|done|apply alive_keeps|apply alive_nodup|done|by apply news_map].
Qed.

Lemma broadcast_subscribers_quiet m s : quiet_message m -> quiet s (broadcast_subscribers throws m s).
Proof. intros Hm. apply quiet_same; [done|by apply news_map]. Qed.

Lemma debounced_quiet f s : quiet s (debouncedFFTStart f s).
Proof. by apply quiet_same. Qed.

Lemma set_user_gain_quiet g s : quiet s (set_user_gain g s).
Proof.
  unfold set_user_gain. destruct (running _); by apply quiet_same.
Qed.

Lemma feed_gain_quiet d s : quiet s (feed_gain d s).
Proof.
  unfold feed_gain. destruct (AutoGain.AutoGain.enabled _); [|apply quiet_refl].
  destruct (AutoGain.AutoGain.feed _ _ _) as [a r].
  destruct r; by apply quiet_same.
Qed.

Lemma broadcast_data_quiet d s : quiet s (broadcastFFTData throws d s).
Proof.
  unfold broadcastFFTData. set (s1 := with_history _ s).
  destruct (fftSubscribers s1); [by apply quiet_same|]. apply (quiet_from s s1); [done|].
  pose proof (feed_gain_quiet d s1) as H. destruct (feed_gain d s1) as [s2 o].
  apply (quiet_trans _ _ _ _ H). by apply broadcast_subscribers_quiet.
Qed.

Lemma emit_quiet os : forall s, quiet s (emit throws os s).
Proof.
  induction os as [|o os IH]; intros s; [apply quiet_refl|]. simpl.
  destruct o; try (by apply (quiet_trans _ s [Stream _]); [apply quiet_same|]).
  pose proof (broadcast_data_quiet data s) as H. destruct (broadcastFFTData throws data s) as [s1 o1].
  by apply (quiet_trans _ s1).
Qed.

Lemma accept_gain_quiet v answer s : (forall s1, news [answer s1] = []) -> quiet s (accept_gain v answer s).
Proof.
  intros Ha. unfold accept_gain. destruct v as [| |g| | |]; try by apply quiet_same.
  pose proof (set_user_gain_quiet g s) as H. destruct (set_user_gain g s). by apply quiet_snoc.
Qed.

Lemma on_ws_message_quiet w m s : quiet s (on_ws_message w m s).
Proof.
  assert (Hone : forall m, quiet_message m -> news [Send w m] = []).
  { intros m' Hm. exact (news_map m' [w] Hm). }
  destruct m as [f| |f|[g|]| |]; simpl; try apply quiet_refl.
  - unfold on_subscribe. set (s1 := with_timers _ _ _ _).
    set (hist := match fftHistoryBuffer s1 with [] => [] | l => _ end).
    assert (Hh : news hist = []) by (subst hist; destruct (fftHistoryBuffer s1); [done|by apply Hone]).
    set (r := if running s1 then _ else _).
    assert (Hr : quiet s r).
    { subst r. destruct (running s1); [by apply quiet_same|]. destruct (in_use s1); by apply quiet_same. }
    destruct r as [s2 o]. destruct Hr as [H1 H2 H3 H4 H5 H6].
    split; try done. simpl in *. by rewrite !news_app, Hh, H6, Hone.
  - apply quiet_same; [done|]. by apply Hone.
  - destruct f as [[| |]|]; apply quiet_refl || apply debounced_quiet.
  - destruct (ws_gain_ok g); [|apply quiet_refl]. apply accept_gain_quiet. intros s1. by apply Hone.
  - by apply quiet_same.
Qed.

Lemma stop_timer_quiet s : quiet s (stop_timer s).
Proof.
  unfold stop_timer. set (s1 := with_timers _ _ _ s).
  destruct (fftSubscribers s1); [|by apply quiet_same]. destruct (running s1); [|by apply quiet_same].
  destruct (FftStream.stopFFTStream (fft s1)) as [f o]. apply quiet_same; [|apply news_stream].
  unfold kept. simpl. by rewrite held_app, app_nil_r.
Qed.

Section Requests.
Context (env_gain : bool) (defaultGain : Q).

Lemma select_gain_kept f s : kept (select_gain env_gain defaultGain f s) = kept s.
Proof.
  unfold select_gain. destruct (AutoGain.AutoGain.getForFrequency _ _ _) as [[b g] c].
  destruct (c && negb env_gain); [|done]. by destruct (BAND_GAIN_TARGETS b).
Qed.

(** A task that holds back no event. *)
Lemma suspend_kept t s : held [t] = [] -> kept (suspend t s) = kept s.
Proof. intros Ht. unfold kept. simpl. by rewrite held_app, Ht, app_nil_r. Qed.

Lemma start_timer_quiet now f s : quiet s (start_timer env_gain defaultGain now f s).
Proof.
  unfold start_timer. pose proof (select_gain_kept f (with_history [] s)) as Hk.
  set (s1 := select_gain _ _ f _) in *. destruct (FftStream.startFFTStream _ _ _ _) as [x o].
  apply quiet_same; [|apply news_stream]. by rewrite suspend_kept.
Qed.

(** Two routes switch. *)
Definition switching (path : string) : bool :=
  String.eqb path "/api/sstv/toggle" || String.eqb path "/api/sstv/ground-scan/toggle".

Lemma server_request_quiet src rid now method path limit offset body s :
  switches && switching path = false ->
  quiet s (on_request src throws rid now method path limit offset body s).
Proof.
  unfold switching. intros Hp.
  assert (Htoggle : forall b p, String.eqb path "/api/sstv/toggle" && p = true ->
    quiet s (sstv_toggle throws rid now b s)).
  { intros b p [Hpath _]%andb_true_iff. rewrite Hpath, andb_true_r in Hp. rename Hp into Hsw. unfold sstv_toggle.
    destruct (or_flag _ _) as [x|]; [|by apply quiet_same]. set (s1 := with_sstv _ s). apply (quiet_from s s1); [unfold kept; by rewrite Hsw|].
    pose proof (broadcast_clients_quiet (MSstv (Events.Events.getSstvStatus now (sstv s1))) s1 Hsw) as H.
    unfold broadcastSstvStatus. destruct (broadcast_clients _ _ _) as [s2 o]. by apply quiet_snoc. }
  assert (Hground : forall b p, String.eqb path "/api/sstv/ground-scan/toggle" && p = true ->
    quiet s (ground_scan_toggle throws rid now b s)).
  { intros b p [Hpath _]%andb_true_iff. rewrite Hpath, orb_true_r, andb_true_r in Hp. rename Hp into Hsw. unfold ground_scan_toggle.
    destruct (or_flag _ _) as [x|]; [|by apply quiet_same]. destruct (Events.Events.setGroundSstvScanEnabled _ _) as [e stop].
    set (s1 := with_sstv e s). apply (quiet_from s s1); [unfold kept; by rewrite Hsw|].
    pose proof (broadcast_clients_quiet (MSstv (Events.Events.getSstvStatus now (sstv s1))) s1 Hsw) as H.
    unfold broadcastSstvStatus. destruct (broadcast_clients _ _ _) as [s2 o].
    apply (quiet_trans s1 s1 _ (s2, _)); [by apply quiet_same; destruct stop|by apply quiet_snoc]. }
  unfold on_request, with_body.
  repeat match goal with
  | |- quiet s (if ?c then _ else _) => destruct c eqn:?
  | |- quiet s (match body with _ => _ end) => destruct body as [b|]
  | |- quiet s (s, _) => by apply quiet_same
  end; eauto; try (by apply quiet_same); clear Hp.
  - unfold http_fft_start. destruct (start_gain _ _), (b_other b); try by apply quiet_same.
    destruct (FftStream.startFFTStream _ _ _ _). apply quiet_same; [|apply news_stream]. by rewrite suspend_kept.
  - unfold http_gain. destruct (b_auto b) as [[]|]; [by apply quiet_same|..].
    all: destruct (http_gain_bad _); [by apply quiet_same|by apply accept_gain_quiet].
  - unfold http_fft_stop. destruct (FftStream.stopFFTStream _).
    apply quiet_same; [|apply news_stream]. by rewrite suspend_kept.
  - unfold http_notch_add. destruct (b_other b); [by apply quiet_same|]. by destruct (b_frequency b) as [[]|]; apply quiet_same.
  - unfold http_notch_remove. destruct (b_other b); [by apply quiet_same|]. by destruct (b_frequency b) as [[]|]; apply quiet_same.
  - unfold http_notch_toggle. destruct (b_other b); [by apply quiet_same|].
    destruct (b_frequency b) as [f|]; [|by apply quiet_same].
    destruct (b_enabled b) as [[]|]; try by apply quiet_same. by destruct (Z.eqb f 0); apply quiet_same.
Qed.

Context (cos : nat -> nat -> Q) (log10 : Q -> Q) (transform : nat -> list Q -> list Q).
Local Notation step := (step env_gain defaultGain cos log10 transform).
Local Notation run := (run env_gain defaultGain cos log10 transform).

Lemma timer_quiet now t s : quiet s (step throws now (ETimer t) s).
Proof.
  simpl. destruct (timers s !! t) as [[x|]|]; [|apply quiet_refl..].
  set (s1 := with_timers _ _ _ s). apply (quiet_from s s1); [done|]. destruct x; simpl.
  - apply start_timer_quiet.
  - apply stop_timer_quiet.
  - unfold error_timer. destruct (fft_error s1) as [[|]|]; try apply quiet_refl.
    by apply broadcast_subscribers_quiet.
Qed.

Lemma stream_quiet now e s : quiet s (step throws now (EStream e) s).
Proof.
  simpl. destruct (FftStream.step _ _ _ _ _ _) as [f os].
  eapply quiet_from; [|apply emit_quiet]; done.
Qed.

End Requests.
End Quiet.

Lemma updates_news ws os : updates ws os = news ws false os.
Proof.
  unfold updates, news, js_filter. apply List.filter_ext. intros m. by rewrite andb_false_r, orb_false_r.
Qed.

(** ** Steps that carry an event *)

Section Client.
Context (ws : nat) (throws : nat -> bool).
Local Notation quiet := (quiet ws throws false).

Section Requests.
Context (env_gain : bool) (defaultGain : Q).
Context (cos : nat -> nat -> Q) (log10 : Q -> Q) (transform : nat -> list Q -> list Q).
Local Notation step := (step env_gain defaultGain cos log10 transform).
Local Notation run := (run env_gain defaultGain cos log10 transform).

Lemma on_state_event_wf e s :
  system (on_state_event throws e s).1 = system s /\
  (NoDup (clients s) -> NoDup (clients (on_state_event throws e s).1)).
Proof.
  destruct e; simpl; try (split; [done|apply alive_nodup]).
  - destruct (running s); [|split; [done|apply alive_nodup]].
    by destruct (FftStream.stopFFTStream (fft s)).
  - destruct (fftSubscribers s); [split; [done|apply alive_nodup]|].
    destruct (in_use s); split; done || apply alive_nodup.
Qed.

Context (Hws : throws ws = false).

(** A broadcast of an event reaches the client once. *)
Lemma broadcast_event e s : ws ∈ clients s -> NoDup (clients s) ->
  let r := broadcast_clients throws (MEvent e) s in
  ws ∈ clients r.1 /\ NoDup (clients r.1) /\ system r.1 = system s /\ tasks r.1 = tasks s /\
  updates ws r.2 = [MEvent e].
Proof.
  intros Hc Hd. simpl. split_and!; [by apply alive_keeps|by apply alive_nodup|done|done|].
  unfold updates. rewrite sent_map by by apply alive_nodup.
  by rewrite bool_decide_true by by apply alive_keeps.
Qed.

(** A step delivers some events, of those held back and the one it emits, and holds
    the others. *)
Record carries (emitted : list StateEvent) (s : state) (r : state * list output) : Prop := mkCarries {
  carries_client : ws ∈ clients r.1;
  carries_nodup : NoDup (clients r.1);
  carries_events : exists ns, updates ws r.2 = map MEvent ns /\
    ns ++ held (tasks r.1) ≡ₚ held (tasks s) ++ emitted /\
    ((length (held (tasks s) ++ emitted) <= 1)%nat -> ns ++ held (tasks r.1) = held (tasks s) ++ emitted)
}.

Lemma quiet_carries s r : quiet s r -> ws ∈ clients s -> NoDup (clients s) -> carries [] s r.
Proof.
  intros [H1 H2 H3 H4 _ H6] Hc Hd. split; auto. exists []. by rewrite updates_news, H2, H6, app_nil_r.
Qed.

Lemma on_state_event_carries e s : ws ∈ clients s -> NoDup (clients s) ->
  carries [e] s (on_state_event throws e s) /\ system (on_state_event throws e s).1 = system s.
Proof.
  intros Hc Hd.
  assert (Hb : forall s1 o, kept false s1 = kept false s -> updates ws o = [] ->
    let r := let '(s2, o2) := broadcast_clients throws (MEvent e) s1 in (s2, o ++ o2) in
    carries [e] s r /\ system r.1 = system s).
  { unfold kept. intros s1 o [= E1 E2 E3] Ho. rewrite <- E3 in Hc, Hd.
    destruct (broadcast_event e s1 Hc Hd) as (B1 & B2 & B3 & B4 & B5).
    destruct (broadcast_clients _ _ _) as [s2 o2]. simpl in *. split; [|congruence].
    split; simpl; [done|done|]. exists [e]. rewrite updates_app, Ho, B5, B4, E2. split; [done|].
    split; [apply Permutation_app_comm|]. rewrite length_app. simpl. intros Hl.
    destruct (held (tasks s)); [done|]. simpl in Hl. lia. }
  destruct e; try (by apply (Hb s [])).
  - simpl. destruct (running s); [|by apply (Hb s [])].
    destruct (FftStream.stopFFTStream (fft s)) as [f o]. split; [|done]. split; simpl; [done|done|].
    exists []. by rewrite updates_stream, held_app.
  - simpl. destruct (fftSubscribers s); [by apply (Hb s [])|].
    destruct (in_use s); [by apply (Hb s [])|]. by apply (Hb _ [SetTimer _]).
Qed.

Lemma held_delete k t l : l !! k = Some t ->
  (held [t] = [] -> held (delete k l) = held l) /\
  (forall e, t = Forward e -> e :: held (delete k l) ≡ₚ held l).
Proof.
  intros Hk.
  assert (El : held l = held (take k l) ++ held [t] ++ held (drop (S k) l)).
  { rewrite <- !held_app. f_equal. symmetry. by apply take_drop_middle. }
  rewrite delete_take_drop, held_app, El. split.
  - by intros ->.
  - intros e ->. simpl. by rewrite Permutation_middle.
Qed.

Lemma resume_carries k t success s : ws ∈ clients s -> NoDup (clients s) -> tasks s !! k = Some t ->
  let r := resume throws t success (with_tasks (delete k (tasks s)) s) in
  carries [] s r /\ system r.1 = system s.
Proof.
  intros Hc Hd Hk. destruct (held_delete k t _ Hk) as [H1 H2].
  assert (Hq : forall r, held [t] = [] -> quiet (with_tasks (delete k (tasks s)) s) r ->
    carries [] s r /\ system r.1 = system s).
  { intros r Ht Hr. assert (Hr' : quiet s r) by (eapply quiet_from; [|exact Hr]; by unfold kept; simpl; rewrite H1).
    split; [by apply quiet_carries|]. apply Hr'. }
  destruct t as [th|rid|rid| |e]; try (by destruct success; apply Hq; [|apply quiet_same| |apply quiet_same]).
  specialize (H2 e eq_refl). set (s1 := with_tasks _ s) in *.
  destruct (broadcast_event e s1 Hc Hd) as (B1 & B2 & B3 & B4 & B5). simpl resume.
  destruct (broadcast_clients _ _ _) as [s2 o2]. simpl in *. split; [|exact B3].
  split; simpl; [done|done|]. exists [e]. rewrite B4, B5, app_nil_r. split; [done|]. split; [done|].
  intros Hl. apply Permutation_length in H2 as Hl2. simpl in Hl2.
  destruct (held (delete k (tasks s))) as [|x l] eqn:E; [|simpl in Hl2; lia].
  symmetry. by apply Permutation_singleton_r.
Qed.
(** The copies of the state are those of the state manager, and no client is listed twice. *)
Lemma step_wf now e s : NoDup (clients s) ->
  NoDup (clients (step throws now e s).1) /\
  system (step throws now e s).1 = (StateManager.run (sm_run [(now, e)]) (system s)).1.
Proof.
  intros Hd. assert (Hq : forall r, quiet s r -> NoDup (clients r.1) /\ system r.1 = system s).
  { intros r []. auto. }
  destruct e as [w g|w|w m|t|k b|o|src rid method path limit offset body|e].
  - split; [by apply set_add_NoDup|done].
  - split; [by apply set_del_NoDup|done].
  - apply Hq, on_ws_message_quiet.
  - apply Hq, timer_quiet.
  - simpl. destruct (tasks s !! k) as [t|]; [|done]. destruct t, b; try done; by split; [apply alive_nodup|].
  - simpl. destruct (StateManager.apply now o (system s)) as [sys e].
    destruct (on_state_event_wf e (with_system sys s)) as [E Hn]. auto.
  - by apply Hq, server_request_quiet.
  - apply Hq, stream_quiet.
Qed.

Lemma run_wf evs : forall s, NoDup (clients s) ->
  NoDup (clients (run throws evs s).1) /\
  system (run throws evs s).1 = (StateManager.run (sm_run evs) (system s)).1.
Proof.
  induction evs as [|[now e] evs IH]; intros s Hd; [done|].
  change ((now, e) :: evs) with ([(now, e)] ++ evs). unfold sm_run.
  rewrite omap_app, StateManager.run_app. fold (sm_run [(now, e)]) (sm_run evs). cbn [app WebServer.run].
  destruct (step_wf now e s Hd) as [H1 H2]. destruct (step throws now e s) as [s1 o1].
  destruct (IH s1 H1) as [H3 H4]. destruct (run throws evs s1) as [s2 o2]. simpl in *. split; [done|].
  rewrite H4, H2. destruct (StateManager.run _ (system s)) as [sys1 es1]. simpl.
  by destruct (StateManager.run _ sys1).
Qed.

(** The client keeps its connection. *)
Definition stays (e : event) : Prop :=
  match e with EConnect w _ | EClose w => w <> ws | _ => True end.

Lemma step_carries now e s : stays e -> ws ∈ clients s -> NoDup (clients s) ->
  let '(sys, es) := StateManager.run (sm_run [(now, e)]) (system s) in
  carries es s (step throws now e s) /\ system (step throws now e s).1 = sys.
Proof.
  intros He Hc Hd.
  assert (Hq : forall r, quiet s r -> carries [] s r /\ system r.1 = system s).
  { intros r Hr. split; [by apply quiet_carries|apply Hr]. }
  destruct e as [w g|w|w m|t|k b|o|src rid method path limit offset body|e].
  - split; [|done]. split; simpl; [by apply set_add_elem; right|by apply set_add_NoDup|].
    exists []. unfold updates. rewrite sent_cons, (proj2 (Nat.eqb_neq w ws)) by done.
    by rewrite app_nil_r.
  - split; [|done]. split; simpl; [by apply set_del_elem; split; [|apply not_eq_sym]|by apply set_del_NoDup|].
    exists []. by rewrite app_nil_r.
  - apply Hq, on_ws_message_quiet.
  - apply Hq, timer_quiet.
  - cbn [WebServer.step]. destruct (tasks s !! k) as [t|] eqn:E; [by apply (resume_carries k t b s)|by apply Hq, quiet_refl].
  - simpl. destruct (StateManager.apply now o (system s)) as [sys e].
    by destruct (on_state_event_carries e (with_system sys s) Hc Hd) as [[] H].
  - by apply Hq, server_request_quiet.
  - apply Hq, stream_quiet.
Qed.
(** What a run has emitted has been sent to the client or is held back. *)
Lemma run_carries evs : forall s, Forall (fun x => stays x.2) evs -> ws ∈ clients s -> NoDup (clients s) ->
  let '(sys, es) := StateManager.run (sm_run evs) (system s) in
  let r := run throws evs s in
  system r.1 = sys /\ exists ns, updates ws r.2 = map MEvent ns /\
    ns ++ held (tasks r.1) ≡ₚ held (tasks s) ++ es.
Proof.
  induction evs as [|[now e] evs IH]; intros s Hs Hc Hd.
  { split; [done|]. exists []. simpl. by rewrite app_nil_r. }
  apply Forall_cons in Hs as [He Hs]. change ((now, e) :: evs) with ([(now, e)] ++ evs).
  unfold sm_run. rewrite omap_app, StateManager.run_app. fold (sm_run [(now, e)]) (sm_run evs).
  pose proof (step_carries now e s He Hc Hd) as Hstep.
  destruct (StateManager.run (sm_run [(now, e)]) (system s)) as [sys1 es1]. cbn [app WebServer.run].
  destruct (step throws now e s) as [s1 o1]. destruct Hstep as [[C1 C2 (ns1 & U1 & P1 & _)] E1]. simpl in *.
  specialize (IH s1 Hs C1 C2). rewrite E1 in IH. destruct (StateManager.run (sm_run evs) sys1) as [sys2 es2].
  destruct (run throws evs s1) as [s2 o2]. destruct IH as [E2 (ns2 & U2 & P2)]. simpl in *.
  split; [done|]. exists (ns1 ++ ns2). rewrite updates_app, U1, U2, map_app. split; [done|].
  by rewrite <- app_assoc, P2, !app_assoc, P1.
Qed.

(** No operation of the state manager while an event is held back. *)
Fixpoint orderly (evs : list (Z * event)) (s : state) : Prop :=
  match evs with
  | [] => True
  | (now, e) :: r =>
      (match e with ESystem _ => held (tasks s) = [] | _ => True end) /\
      orderly r (step throws now e s).1
  end.

Lemma run_orderly evs : forall s, Forall (fun x => stays x.2) evs -> orderly evs s ->
  (length (held (tasks s)) <= 1)%nat -> ws ∈ clients s -> NoDup (clients s) ->
  (length (held (tasks (run throws evs s).1)) <= 1)%nat /\
  exists ns, updates ws (run throws evs s).2 = map MEvent ns /\
    ns ++ held (tasks (run throws evs s).1) =
    held (tasks s) ++ (StateManager.run (sm_run evs) (system s)).2.
Proof.
  induction evs as [|[now e] evs IH]; intros s Hs Ho Hl Hc Hd.
  { split; [done|]. exists []. simpl. by rewrite app_nil_r. }
  apply Forall_cons in Hs as [He Hs]. destruct Ho as [Hh Ho].
  pose proof (step_carries now e s He Hc Hd) as Hstep. change ((now, e) :: evs) with ([(now, e)] ++ evs).
  unfold sm_run. rewrite omap_app, StateManager.run_app. fold (sm_run [(now, e)]) (sm_run evs).
  assert (Hes : (length (held (tasks s) ++ (StateManager.run (sm_run [(now, e)]) (system s)).2) <= 1)%nat).
  { destruct e; simpl; rewrite ?app_nil_r; try done. rewrite Hh. by destruct (StateManager.apply _ _ _). }
  destruct (StateManager.run (sm_run [(now, e)]) (system s)) as [sys1 es1]. cbn [app WebServer.run].
  destruct (step throws now e s) as [s1 o1]. destruct Hstep as [[C1 C2 (ns1 & U1 & _ & P1)] E1]. simpl in *.
  specialize (P1 Hes). destruct (IH s1 Hs Ho) as (Hl2 & ns2 & U2 & P2); [|done..|].
  { rewrite <- P1, length_app in Hes. lia. }
  rewrite E1 in P2. destruct (StateManager.run (sm_run evs) sys1) as [sys2 es2].
  destruct (run throws evs s1) as [s2 o2]. simpl in *.
  split; [done|]. exists (ns1 ++ ns2). rewrite updates_app, U1, U2, map_app. split; [done|].
  by rewrite <- app_assoc, P2, !app_assoc, P1.
Qed.
End Requests.
End Client.

(** ** The dashboard at the other end *)

(** Only the updates touch the copy of the state. *)
Lemma feed_shows l : forall sys d c, Dashboard.shows sys d c ->
  js_filter is_update l = [] ->
  exists c', Dashboard.shows sys (feed l d) c' /\ Dashboard.cl_status c' = Dashboard.cl_status c /\
    Dashboard.passes (feed l d) = Dashboard.passes d.
Proof.
  induction l as [|m l IH]; intros sys d c Hs Hl; [by exists c|]. simpl in Hl.
  destruct m; try done; simpl in *; try (by apply IH);
    match goal with |- context [feed l ?d1] =>
      change (Dashboard.passes d) with (Dashboard.passes d1); apply IH; [|exact Hl] end;
    destruct Hs as [H1 H2 H3 H4 H5 H6 H7]; by split.
Qed.

(** The copy after some operations, from the status and the upcoming passes it had. *)
Definition told (ops : list (Z * StateManager.op)) (st : Dashboard.ClientStatus) (l : list SatellitePass)
  (d : Dashboard.dashboard) (c : Dashboard.ClientState) : Prop :=
  Dashboard.cl_status c = foldl Dashboard.status_after st ops.*2 /\
  Dashboard.passes d = foldl Dashboard.passes_after l ops.*2.

(** The dashboard receives the events of operations. *)
Lemma feed_events l : forall ops sys d c, Dashboard.shows sys d c ->
  js_filter is_update l = map MEvent (StateManager.run ops sys).2 ->
  exists c', Dashboard.shows (StateManager.run ops sys).1 (feed l d) c' /\
    told ops (Dashboard.cl_status c) (Dashboard.passes d) (feed l d) c'.
Proof.
  induction l as [|m l IH]; intros ops sys d c Hs Hl.
  { destruct ops as [|[now o] ops]; [by exists c|]. simpl in Hl.
    destruct (StateManager.apply now o sys) as [s1 e]. by destruct (StateManager.run ops s1). }
  destruct (is_update m) eqn:Hm; simpl in Hl; rewrite Hm in Hl.
  - destruct ops as [|[now o] ops]; [done|]. simpl in Hl |- *.
    pose proof (Dashboard.apply_shows now o sys d c Hs) as (c1 & Hs1 & Hc1 & Hp1).
    destruct (StateManager.apply now o sys) as [s1 e]. specialize (IH ops s1). unfold told in *.
    cbn [fmap list_fmap foldl snd]. rewrite <- Hc1. simpl in Hp1. rewrite <- Hp1.
    destruct (StateManager.run ops s1) as [s2 es]. simpl in *. injection Hl as -> Hl. by apply IH.
  - destruct (feed_shows [m] sys d c Hs) as (c1 & Hs1 & <- & <-); [simpl; by rewrite Hm|].
    by apply (IH ops sys (feed [m] d)).
Qed.

(** The first events of a run are those of its first operations. *)
Lemma run_events_prefix ops : forall sys ns late, (StateManager.run ops sys).2 = ns ++ late ->
  exists ops1 ops2, ops = ops1 ++ ops2 /\ length ops2 = length late /\
    (StateManager.run ops1 sys).2 = ns.
Proof.
  induction ops as [|[now o] ops IH]; intros sys ns late; simpl.
  { intros [-> ->]%eq_sym%app_eq_nil. by exists [], []. }
  destruct (StateManager.apply now o sys) as [s1 e] eqn:E. specialize (IH s1).
  pose proof (StateManager.run_app [(now, o)] ops sys) as Hr. simpl in Hr. rewrite E in Hr.
  destruct (StateManager.run ops s1) as [s2 es] eqn:Er. destruct ns as [|n ns]; simpl.
  - intros <-. exists [], ((now, o) :: ops). split; [done|]. split; [|done]. simpl. f_equal.
    replace es with (StateManager.run ops s1).2 by by rewrite Er. clear.
    revert s1. induction ops as [|[t o] ops IH]; intros s1; simpl; [done|].
    destruct (StateManager.apply t o s1) as [s2 e]. specialize (IH s2). destruct (StateManager.run ops s2).
    simpl in *. by f_equal.
  - intros [= <- ->]. destruct (IH ns late eq_refl) as (o1 & o2 & -> & Hl & Hn).
    exists ((now, o) :: o1), o2. split; [done|]. split; [done|]. simpl. rewrite E.
    destruct (StateManager.run o1 s1). simpl in *. by subst.
Qed.

(** ** Properties *)

Section Properties.
Context (env_gain : bool) (defaultGain : Q).
Context (cos : nat -> nat -> Q) (log10 : Q -> Q) (transform : nat -> list Q -> list Q).
Local Notation run := (run env_gain defaultGain cos log10 transform).
Local Notation start := (initial env_gain defaultGain).

(** The state after [connection]. *)
Definition connected (ws : nat) (s : state) : state :=
  with_sockets (set_add ws (clients s)) (fftSubscribers s) s.

Lemma connected_elem ws s : ws ∈ clients (connected ws s).
Proof. apply set_add_elem. by left. Qed.

Lemma connected_nodup ws s : NoDup (clients s) -> NoDup (clients (connected ws s)).
Proof. apply set_add_NoDup. Qed.

Lemma run_connect throws ws now g evs s :
  run throws ((now, EConnect ws g) :: evs) s =
  ((run throws evs (connected ws s)).1,
   Send ws (MInit (system s) g (running s) (config s) (filters s) (fft_error s))
     :: (run throws evs (connected ws s)).2).
Proof. cbn. by destruct (WebServer.run _ _ _ _ _ _ _ _). Qed.

Lemma reached_wf throws pre sys ground :
  NoDup (clients (run throws pre (start sys ground)).1) /\
  system (run throws pre (start sys ground)).1 = (StateManager.run (sm_run pre) sys).1.
Proof.
  by apply (run_wf 0 throws env_gain defaultGain cos log10 transform pre (start sys ground) (NoDup_nil_2)).
Qed.

Lemma sm_run_app a b : sm_run (a ++ b) = sm_run a ++ sm_run b.
Proof. apply omap_app. Qed.

(** C10: Whatever clients, requests, timers and spectra do, a client that connects to a running
    station and stays is sent the state of the station once, first, and then every
    event of the state manager exactly once, but for the pass starts whose broadcast
    still awaits the stop of the spectrum; and the state the server reports is the
    state manager's. *)
Theorem events_delivered_once throws pre sys ground ws now g evs
  (Htakes : throws ws = false) (Hstays : Forall (fun x => stays ws x.2) evs) :
  let s := (run throws pre (start sys ground)).1 in
  let r := run throws ((now, EConnect ws g) :: evs) s in
  system r.1 = (StateManager.run (sm_run (pre ++ evs)) sys).1 /\
  exists ns, updates ws r.2 =
      MInit (system s) g (running s) (config s) (filters s) (fft_error s) :: map MEvent ns /\
    ns ++ held (tasks r.1) ≡ₚ held (tasks s) ++ (StateManager.run (sm_run evs) (system s)).2.
Proof.
  cbv zeta. destruct (reached_wf throws pre sys ground) as [Hd Hsys].
  set (s := (run throws pre _).1) in *. rewrite run_connect.
  pose proof (run_carries ws throws env_gain defaultGain cos log10 transform Htakes evs
    (connected ws s) Hstays (connected_elem ws s) (connected_nodup ws s Hd)) as H.
  change (system (connected ws s)) with (system s) in H. rewrite sm_run_app, StateManager.run_app.
  rewrite Hsys in H |- *. destruct (StateManager.run (sm_run pre) sys) as [sys1 es1]. simpl in H |- *.
  destruct (StateManager.run (sm_run evs) sys1) as [sys2 es2]. destruct H as [E (ns & U & P)].
  split; [exact E|]. exists ns. split; [|exact P].
  unfold updates. rewrite sent_cons, Nat.eqb_refl. simpl. f_equal. exact U.
Qed.

(** From a state that holds nothing back, a dashboard that connects and stays. *)
Lemma connection_shows throws ws now g evs d s :
  throws ws = false -> Forall (fun x => stays ws x.2) evs -> NoDup (clients s) ->
  StateManager.next_is_head (system s) -> held (tasks s) = [] ->
  orderly throws env_gain defaultGain cos log10 transform evs (connected ws s) ->
  let r := run throws ((now, EConnect ws g) :: evs) s in
  (length (held (tasks r.1)) <= 1)%nat /\
  system r.1 = (StateManager.run (sm_run evs) (system s)).1 /\
  exists ops late c, sm_run evs = ops ++ late /\ length late = length (held (tasks r.1)) /\
    Dashboard.shows (StateManager.run ops (system s)).1 (feed (sent ws r.2) d) c /\
    told ops (Dashboard.server_status (st_status (system s))) (st_upcomingPasses (system s)) (feed (sent ws r.2) d) c.
Proof.
  intros Htakes Hstays Hd Hnext Hheld Horder. cbv zeta. rewrite run_connect. cbn [fst snd].
  pose proof (connected_elem ws s) as Hc. pose proof (connected_nodup ws s Hd) as Hcd.
  destruct (run_orderly ws throws env_gain defaultGain cos log10 transform Htakes evs (connected ws s)
    Hstays Horder ltac:(simpl; rewrite Hheld; simpl; lia) Hc Hcd) as (Hl & ns & U & E).
  destruct (run_wf ws throws env_gain defaultGain cos log10 transform evs (connected ws s) Hcd) as [_ Hfin].
  set (r := run throws evs (connected ws s)) in *.
  change (system (connected ws s)) with (system s) in E, Hfin.
  change (tasks (connected ws s)) with (tasks s) in E. rewrite Hheld in E. symmetry in E.
  destruct (run_events_prefix _ _ _ _ E) as (ops & late & Ho & Hlate & Hns). subst ns.
  rewrite sent_cons, Nat.eqb_refl.
  destruct (feed_events (sent ws r.2) ops (system s) _ _
    (Dashboard.init_shows (system s) g (Some (Dashboard.mkFFTState (running s) (config s) (fft_error s))) d Hnext) U)
    as (c & Hs & Ht).
  split; [exact Hl|]. split; [exact Hfin|]. by exists ops, late, c.
Qed.

(** The copy of a dashboard that connects to a running station, after everything it was
    sent: of the state after all operations but those whose event is held back. *)
Lemma connected_shows throws pre t0 ground ws now g evs d
  (Htakes : throws ws = false) (Hstays : Forall (fun x => stays ws x.2) evs)
  (Hheld : held (tasks (run throws pre (start (StateManager.initial t0) ground)).1) = [])
  (Horder : orderly throws env_gain defaultGain cos log10 transform evs
              (connected ws (run throws pre (start (StateManager.initial t0) ground)).1)) :
  let s := (run throws pre (start (StateManager.initial t0) ground)).1 in
  let r := run throws ((now, EConnect ws g) :: evs) s in
  let d' := feed (sent ws r.2) d in
  (length (held (tasks r.1)) <= 1)%nat /\
  (exists ops late c, sm_run evs = ops ++ late /\ length late = length (held (tasks r.1)) /\
     Dashboard.shows (StateManager.run ops (system s)).1 d' c) /\
  (held (tasks r.1) = [] -> exists c, Dashboard.shows (system r.1) d' c /\
     told (sm_run evs) (Dashboard.server_status (st_status (system s))) (st_upcomingPasses (system s)) d' c).
Proof.
  cbv zeta. destruct (reached_wf throws pre (StateManager.initial t0) ground) as [Hd Hsys].
  pose proof (StateManager.reachable_next_is_head t0 (sm_run pre)) as [Hnext _]. rewrite <- Hsys in Hnext.
  destruct (connection_shows throws ws now g evs d _ Htakes Hstays Hd Hnext Hheld Horder)
    as (Hl & Hfin & ops & late & c & Ho & Hlate & Hs & Ht).
  split; [exact Hl|]. split; [by exists ops, late, c|].
  intros Hn. rewrite Hn in Hlate. destruct late; [|discriminate]. rewrite app_nil_r in Ho.
  exists c. by rewrite Hfin, Ho.
Qed.

(** C9: What a dashboard shows is what the station does: it opens its connection to a running
    station that holds no event back, and stays, and no operation comes while the broadcast
    of a pass start awaits the stop of the spectrum; then it shows, after everything it was
    sent, the state after every operation but those whose event is still held back, at most
    one; and the station's own state when none is. *)
Theorem dashboard_shows_station throws pre t0 ground ws now g evs d
  (Htakes : throws ws = false) (Hstays : Forall (fun x => stays ws x.2) evs)
  (Hheld : held (tasks (run throws pre (start (StateManager.initial t0) ground)).1) = [])
  (Horder : orderly throws env_gain defaultGain cos log10 transform evs
              (connected ws (run throws pre (start (StateManager.initial t0) ground)).1)) :
  let s := (run throws pre (start (StateManager.initial t0) ground)).1 in
  let r := run throws ((now, EConnect ws g) :: evs) s in
  let d' := feed (sent ws r.2) d in
  (length (held (tasks r.1)) <= 1)%nat /\
  (exists ops late c, sm_run evs = ops ++ late /\ length late = length (held (tasks r.1)) /\
     Dashboard.shows (StateManager.run ops (system s)).1 d' c) /\
  (held (tasks r.1) = [] -> exists c, Dashboard.shows (system r.1) d' c).
Proof.
  cbv zeta. destruct (connected_shows throws pre t0 ground ws now g evs d Htakes Hstays Hheld Horder) as (H1 & H2 & H3).
  split; [exact H1|]. split; [exact H2|]. intros Hn. destruct (H3 Hn) as (c & Hc & _). by exists c.
Qed.
End Properties.
(** ** The station at work *)






Section Loop.
Context `{SatelliteJs}.
Context {W : Type} (h : forall c, W -> resp c * W) (time : W -> Z) (Hclock : Clock h time) (Hsettles : Settles h).
Context (home cwd : string) (json_parse : string -> option TleCache) (json_stringify : TleCache -> string).
Context (env_gain : bool) (defaultGain : Q).
Context (cos : nat -> nat -> Q) (log10 : Q -> Q) (transform : nat -> list Q -> list Q).
Local Notation run := (run env_gain defaultGain cos log10 transform).

End Loop.

(** ** Concrete runs *)

Definition sample_trace : list (Z * event) :=
  [ (10, ESystem (StateManager.UpdatePasses [Dashboard.sample_pass 57166 2000]));
    (20, ESystem (StateManager.SetStatus scanning));
    (30, ESystem (StateManager.SetScanningFrequency 145800000 "ISS"));
    (800, EMessage 7 (FftSubscribe (Some 145800000))); (1300, ETimer 0); (1301, EResume 0 (Some true));
    (2000, ESystem (StateManager.StartPass (Dashboard.sample_pass 57166 2000))) ].

Local Notation sample_run evs :=
  (run false 20 (fun _ _ => 0%Q) id (fun _ l => l) (fun _ => false) evs
     (run false 20 (fun _ _ => 0%Q) id (fun _ l => l) (fun _ => false) [(0, EConnect 7 None)]
        (initial false 20 (StateManager.initial 0) None)).1).

Definition shown_status (l : list message) : option Dashboard.ClientStatus :=
  Dashboard.cl_status <$> Dashboard.systemState (feed l Dashboard.initial).

Lemma events_delivered_once_witness :
  let r := sample_run ((5, EConnect 1 None) :: sample_trace) in
  length (updates 1 r.2) = 4%nat /\ length (held (tasks r.1)) = 1%nat /\
  system r.1 = (StateManager.run (sm_run ([(0, EConnect 7 None)] ++ sample_trace)) (StateManager.initial 0)).1.
Proof.
  split; [reflexivity|]. split; [reflexivity|].
  apply (events_delivered_once false 20 (fun _ _ => 0%Q) id (fun _ l => l) (fun _ => false)
    [(0, EConnect 7 None)] (StateManager.initial 0) None 1 5 None sample_trace eq_refl).
  by repeat constructor.
Defined.

Lemma dashboard_shows_station_witness :
  let r := sample_run ((5, EConnect 1 None) :: sample_trace ++ [(2300, EResume 0 (Some true))]) in
  shown_status (sent 1 r.2) = Some Dashboard.client_recording /\
  exists c, Dashboard.shows (system r.1) (feed (sent 1 r.2) Dashboard.initial) c.
Proof.
  split; [reflexivity|].
  apply (dashboard_shows_station false 20 (fun _ _ => 0%Q) id (fun _ l => l) (fun _ => false)
    [(0, EConnect 7 None)] 0 None 1 5 None (sample_trace ++ [(2300, EResume 0 (Some true))]) Dashboard.initial eq_refl).
  - by repeat constructor.
  - reflexivity.
  - vm_compute. by repeat split.
  - reflexivity.
Defined.



#[local] Existing Instance Orbit.sample_propagator.
#[local] Existing Instances MainLoop.online_clock MainLoop.online_settles.


(** Without the hypothesis on order: a capture that fails at once ends before the
    spectrum has stopped, and its start is broadcast after its end; the dashboard then
    shows a recording that is over. *)
Definition failed_capture : CaptureResult :=
  mkResult (pass_satellite (Dashboard.sample_pass 57166 2000)) ""%string [] 2000 2100 0 false
    (Some "Signal check failed"%string).

Example late_pass_start :
  let r := sample_run ((5, EConnect 1 None) :: sample_trace ++
             [(2100, ESystem (StateManager.CompletePass failed_capture)); (2300, EResume 0 (Some true))]) in
  st_status (system r.1) = idle /\ held (tasks r.1) = [] /\
  shown_status (sent 1 r.2) = Some Dashboard.client_recording.
Proof. vm_compute. done. Qed.

End Station.
