(* ===== verification/PageView.v ===== *)
(** * The elements of the page (src/frontend/src/App.tsx)

    The header with its switches, the components mounted under it, and the whole page as
    a state that every event of the user changes.  The header is composed with the station
    (Station): what it says is what the station does. *)

From S2P Require Import Prelude JsStd Html Types StateManager Effects FftStream Dashboard Tracking Views Canvas.
From S2P Require Import WebServer Controls App Cards Widgets TimelineView TrackingView PanelView Gallery GalleryView Station.
Local Open Scope string_scope.

Module PageView.
Import Html Station.

(** The state of the page: that of its connection and tracking, of the switches, the store,
    and of each component it mounts. *)
(* @src frontend/src/App.tsx:20-63 App *)
Record app := mkApp {
  page : Tracking.page;
  head : App.header;
  ui : Views.UIState;
  panel : Cards.panel;
  captures : Gallery.gallery;
  pointer : Cards.pointer;
  currentFreq : option Z;
  waterfallMode : Tracking.ViewMode;
  serverTime : string;
  tracking_tips : TrackingView.tip -> bool;
  gallery_tips : Z -> GalleryView.tip -> bool;
  footer_tip : bool
}.

Inductive msg :=
| OnChip (e : App.event) | OnTimeline (e : Cards.pointer_event) | OnTracking (m : TrackingView.msg)
| OnGallery (m : GalleryView.msg) | OnPanel (m : PanelView.msg) | OnFooter (visible : bool).

Definition dash (a : app) : Dashboard.dashboard := Tracking.dash (page a).
Definition system (a : app) : option Dashboard.ClientState := Dashboard.systemState (dash a).

(** ** The header *)

(* @src frontend/src/App.tsx:214-243 ToggleChip *)
Definition ToggleChip (label : string) (enabled loading : bool) (color tooltip : string) (onClick : msg) : node msg :=
  El "button"
    ([attr "type" "button"; attr "title" tooltip;
      cls (Views.cn [Some (if enabled then color ++ " text-white" else "bg-bg-tertiary text-text-muted");
                     if loading then Some "opacity-50 cursor-wait" else None;
                     if loading then None else Some "hover:opacity-80"])] ++ flag "disabled" loading)
    (Html.onClick [Send onClick]) [Text label].

Definition is_loading (c : App.chip) (h : App.header) : bool := bool_decide (App.sstvLoading h = Some c).

(* @src frontend/src/App.tsx:253-277 App *)
Definition chips (h : App.header) : node msg :=
  el "div"
    [ToggleChip "METEOR" (App.noaaEnabled h) false "bg-accent"
       "METEOR-M LRPT weather satellites (137.9 MHz) - High-resolution weather imagery from Russian satellites"
       (OnChip App.ENoaa);
     ToggleChip "ISS" (App.issEnabled h) (is_loading App.iss h) "bg-purple"
       "ISS SSTV events on 145.800 MHz - Capture slow-scan TV from the International Space Station"
       (OnChip App.EIss);
     ToggleChip "2M" (App.groundEnabled h) (is_loading App.ground h) "bg-purple"
       "2M ground SSTV scanning (144.5, 145.5, 145.8 MHz) - Scan for amateur radio SSTV during idle time"
       (OnChip App.EGround)].

Definition badge (test_id class text : string) : node msg :=
  ela "div" [attr "data-testid" test_id] [ela "span" [cls class] []; el "span" [Text text]].

(* @src frontend/src/App.tsx:168-176 getSdrStatus *)
Definition sdr_class (status : Dashboard.ClientStatus) (sdrConnected : bool) : string :=
  match status with
  | Dashboard.client_recording | Dashboard.server_status scanning => "bg-success shadow-[0_0_6px_var(--success)]"
  | _ => if sdrConnected then "bg-success" else "bg-warning"
  end.

(** Whether the header shows the frequency the station scans. *)
(* @src frontend/src/App.tsx:298-298 App *)
Definition shows_scan (s : option Dashboard.ClientState) : bool :=
  match App.status s, s ≫= Dashboard.cl_scanningFrequency with
  | Dashboard.server_status scanning, Some f => negb (Z.eqb f 0)
  | _, _ => false
  end.

(* @src frontend/src/App.tsx:297-322 App *)
Definition frequency_view (s : option Dashboard.ClientState) (currentFreq : option Z) (mode : Tracking.ViewMode) : node msg :=
  let '(freq, label) := App.shown_frequency s currentFreq mode in
  let class := if shows_scan s then "text-purple animate-pulse"
               else match mode with Tracking.sstv_2m => "text-purple" | _ => "text-accent" end in
  ela "div" [attr "data-testid" "current-frequency"]
    [ela "span" [cls class] [Text (freq ++ " MHz")]; el "span" [Text label]].

Section View.
Context (now : Z).

(** Two fields of the client's state that the server's has not. *)
Context (sdrConnected : Dashboard.ClientState -> bool) (doppler : Dashboard.ClientState -> option (Q * Q * Q)).

Definition sdr_connected (s : option Dashboard.ClientState) : bool := default false (sdrConnected <$> s).

(* @src frontend/src/App.tsx:279-323 App *)
Definition badges (a : app) : node msg :=
  let s := system a in
  let status := App.status s in
  let connected := Dashboard.ws_connected (Dashboard.wsState (dash a)) in
  el "div"
    [badge "system-status" (App.getStatusColor status) (Views.getStatusText status);
     badge "sdr-status" (sdr_class status (sdr_connected s)) (Views.getSdrStatus status (sdr_connected s));
     badge "ws-status" (if connected then "bg-success" else "bg-error animate-pulse") (if connected then "WS" else "WS!");
     frequency_view s (currentFreq a) (waterfallMode a)].

(* @src frontend/src/App.tsx:326-335 App *)
Definition next_pass_view (nextPass : option SatellitePass) : list (node msg) :=
  match nextPass with
  | Some pass =>
      [ela "div" [attr "data-testid" "next-pass"]
         [el "span" [Text (si_name (pass_satellite pass))];
          el "span" [Text (App.formatCountdown nextPass now)];
          el "span" [Text (Widgets.degrees (pass_maxElevation pass) 0)]]]
  | None => []
  end.

(* @src frontend/src/App.tsx:194-194 versionText *)
Definition versionText (v : option App.VersionInfo) : string := Widgets.or_text (App.vi_version <$> v) "-.-.-".

(* @src frontend/src/App.tsx:346-371 App *)
Definition diagnostics_toggle (diagnosticsOpen : bool) : node msg :=
  El "button"
    [attr "type" "button"; attr "data-testid" "diagnostics-toggle";
     cls (if diagnosticsOpen then "bg-accent/20 text-accent" else "hover:bg-bg-tertiary text-text-muted");
     attr "title" (if diagnosticsOpen then "Close dev tools" else "Open dev tools")]
    (onClick [Send (OnPanel (PanelView.Ui Views.ToggleDiagnostics))])
    [el "span" [Text "Dev"];
     ela "svg" [cls (if diagnosticsOpen then "rotate-180" else ""); attr "aria-hidden" "true"] [el "path" []]].

(* @src frontend/src/App.tsx:246-373 App *)
Definition header (a : app) : node msg :=
  ela "header" [attr "data-testid" "status-bar"]
    [el "div" [chips (head a); badges a];
     el "div"
       (next_pass_view (List.hd_error (Dashboard.passes (dash a))) ++
        [ela "span" [attr "data-testid" "server-time"; attr "title" "Server time (UTC)"] [Text (serverTime a ++ " UTC")];
         ela "span" [attr "data-testid" "version"] [Text (versionText (App.version (head a)))];
         diagnostics_toggle (Views.diagnosticsOpen (ui a))])].

(** ** The page *)

(** What the page asks the browser for: texts of times, JSON, its address, whether two passes
    are one object, the place and width of the timeline. *)
Record host := mkHost {
  toLocaleTimeString : Z -> string;
  formatTime : Z -> string;
  formatDate : Z -> string;
  capture_date : string -> string;
  capture_time : string -> string;
  build_date : string -> string;
  json_state : option Dashboard.ClientState -> string;
  json_sstv : option SSTVStatus -> string;
  json_progress : option Dashboard.CaptureProgress -> string;
  json_passes : list (string * Z * Q) -> string;
  json_globe : option (Q * Q * nat * nat) -> string;
  location_protocol : string;
  location_host : string;
  same_pass : SatellitePass -> SatellitePass -> bool;
  rect : option (Z * Z);
  offsetWidth : option Z
}.

Context (browser : host).

(* @src frontend/src/App.tsx:397-413 App *)
Definition progress_column (a : app) : list (node msg) :=
  let showProgress := Views.showProgress (system a) in
  show showProgress
    [el "div"
       (Widgets.ProgressSection (Dashboard.progress (dash a)) showProgress (system a ≫= Dashboard.cl_currentPass) ++
        match system a ≫= doppler with
        | Some (current, min, max) => Widgets.DopplerChart current min max true
        | None => []
        end)].

Definition gallery_view (a : app) : list (node GalleryView.msg) :=
  GalleryView.CaptureGallery (capture_date browser) (capture_time browser) (gallery_tips a) (captures a).

Definition timeline_view (a : app) : node Cards.pointer_event :=
  TimelineView.PassTimeline (formatTime browser) (same_pass browser) now 12 (Dashboard.passes (dash a))
    (offsetWidth browser) (pointer a).

(* @src frontend/src/App.tsx:377-417 App *)
Definition main_view (a : app) : node msg :=
  let showProgress := Views.showProgress (system a) in
  el "main"
    (ela "div" [cls (if showProgress then "grid-cols-1 xl:grid-cols-3" else "grid-cols-1")]
       (ela "div" [cls (if showProgress then "xl:col-span-2" else "")]
          [lift OnTracking (TrackingView.SatelliteTracking (tracking_tips a) (page a))] :: progress_column a) ::
     map (lift OnGallery) (gallery_view a)).

(* @src frontend/src/App.tsx:419-428 App *)
Definition panel_props (a : app) : PanelView.props :=
  let d := dash a in
  PanelView.mkProps (Dashboard.wsState d) (system a) (Dashboard.globeState d) (Dashboard.sstvStatus d)
    (Dashboard.passes d) (Dashboard.progress d) (Cards.logs (panel a)).

(* @src frontend/src/App.tsx:419-428 App *)
Definition panel_view (a : app) : list (node PanelView.msg) :=
  PanelView.view (toLocaleTimeString browser) (formatTime browser) (formatDate browser) (json_state browser)
    (json_sstv browser) (json_progress browser) (json_passes browser) (json_globe browser)
    (location_protocol browser) (location_host browser) doppler now (panel_props a) (ui a, panel a).

(* @src frontend/src/App.tsx:245-432 App *)
Definition App (a : app) : node msg :=
  el "div"
    ([header a; lift OnTimeline (timeline_view a); main_view a] ++ map (lift OnPanel) (panel_view a) ++
     [lift OnFooter (Widgets.Footer (build_date browser) (footer_tip a) (App.version (head a)))]).

(** ** What the user does *)

(** The tracking component tells the page its frequency after every render. *)
(* @src frontend/src/App.tsx:30-33 handleFrequencyChange *)
Definition handleFrequencyChange (p : Tracking.page) (a : app) : app :=
  mkApp p (head a) (ui a) (panel a) (captures a) (pointer a) (Some (Tracking.getCurrentFrequency p)) (Tracking.mode p)
    (serverTime a) (tracking_tips a) (gallery_tips a) (footer_tip a).

Definition with_head (h : App.header) (a : app) : app :=
  mkApp (page a) h (ui a) (panel a) (captures a) (pointer a) (currentFreq a) (waterfallMode a)
    (serverTime a) (tracking_tips a) (gallery_tips a) (footer_tip a).

Definition with_pointer (p : Cards.pointer) (a : app) : app :=
  mkApp (page a) (head a) (ui a) (panel a) (captures a) p (currentFreq a) (waterfallMode a)
    (serverTime a) (tracking_tips a) (gallery_tips a) (footer_tip a).

Definition with_gallery (g : Gallery.gallery) (a : app) : app :=
  mkApp (page a) (head a) (ui a) (panel a) g (pointer a) (currentFreq a) (waterfallMode a)
    (serverTime a) (tracking_tips a) (gallery_tips a) (footer_tip a).

Definition with_panel (s : Views.UIState * Cards.panel) (a : app) : app :=
  mkApp (page a) (head a) s.1 s.2 (captures a) (pointer a) (currentFreq a) (waterfallMode a)
    (serverTime a) (tracking_tips a) (gallery_tips a) (footer_tip a).

Definition with_tips (t : TrackingView.tip -> bool) (g : Z -> GalleryView.tip -> bool) (f : bool) (a : app) : app :=
  mkApp (page a) (head a) (ui a) (panel a) (captures a) (pointer a) (currentFreq a) (waterfallMode a)
    (serverTime a) t g f.

(** A message changes the part it is for; the requests are those of the tracking component. *)
Definition step (m : msg) (a : app) : app * list (nat * Tracking.request) :=
  match m with
  | OnChip e => (with_head (App.step e (head a)) a, [])
  | OnTimeline e => (with_pointer (Cards.point (rect browser) e (pointer a)) a, [])
  | OnTracking (TrackingView.Do e) =>
      let '(p, out) := Tracking.step e (page a) in (handleFrequencyChange p a, out)
  | OnTracking (TrackingView.Tip t b) =>
      (with_tips (Widgets.set_tip t b (tracking_tips a)) (gallery_tips a) (footer_tip a) a, [])
  | OnGallery (GalleryView.Fire e) => (with_gallery (Gallery.step e (captures a)) a, [])
  | OnGallery (GalleryView.Tip c t b) =>
      (with_tips (tracking_tips a) (Widgets.set_tip c (Widgets.set_tip t b (gallery_tips a c)) (gallery_tips a))
         (footer_tip a) a, [])
  | OnPanel m => (with_panel (PanelView.step m (ui a, panel a)) a, [])
  | OnFooter b => (with_tips (tracking_tips a) (gallery_tips a) b a, [])
  end.

Fixpoint steps (l : list msg) (a : app) : app * list (nat * Tracking.request) :=
  match l with
  | [] => (a, [])
  | m :: l => let '(a1, o1) := step m a in let '(a2, o2) := steps l a1 in (a2, o1 ++ o2)%list
  end.

Definition user (e : dom_event) (path : list nat) (a : app) : app * list (nat * Tracking.request) :=
  steps (dispatch e path [App a]) a.

(** ** Facts *)

(** The parts of the page react to what their components react to. *)
Lemma on_gallery a e j path n : bubbles e = true -> gallery_view a !! j = Some n ->
  dispatch e (0 :: 2 :: S j :: path)%nat [App a] = map OnGallery (dispatch e (j :: path) (gallery_view a)).
Proof.
  intros He Hj. erewrite dispatch_bubble by done. erewrite bubble_chain by reflexivity.
  rewrite (bubble_chain _ (S j) _ _ (lift OnGallery n)).
  2:{ unfold main_view. cbn [children_of el ela]. change (map ?f ?l) with (f <$> l).
      change (_ !! S j) with ((lift OnGallery <$> gallery_view a) !! j). by rewrite list_lookup_fmap, Hj. }
  rewrite bubble_lift by (repeat constructor; apply reactions_silent). by erewrite dispatch_bubble.
Qed.

Lemma on_timeline a e path : bubbles e = true ->
  dispatch e (0 :: 1 :: path)%nat [App a] = map OnTimeline (dispatch e (0 :: path)%nat [timeline_view a]).
Proof.
  intros He. erewrite dispatch_bubble by done. erewrite bubble_chain by reflexivity.
  rewrite bubble_lift by (repeat constructor; apply reactions_silent). by erewrite dispatch_bubble.
Qed.

Lemma on_tracking a e path : bubbles e = true ->
  dispatch e (0 :: 2 :: 0 :: 0 :: 0 :: path)%nat [App a] =
  map OnTracking (dispatch e (0 :: path)%nat [TrackingView.SatelliteTracking (tracking_tips a) (page a)]).
Proof.
  intros He. erewrite dispatch_bubble by done. do 4 (erewrite bubble_chain by reflexivity).
  rewrite bubble_lift by (repeat constructor; apply reactions_silent). by erewrite dispatch_bubble.
Qed.

Lemma on_panel a e path : bubbles e = true -> Views.diagnosticsOpen (ui a) = true ->
  dispatch e (0 :: 3 :: path)%nat [App a] = map OnPanel (dispatch e (0 :: path)%nat (panel_view a)).
Proof.
  intros He Ho. assert (E : exists n, panel_view a = [n]).
  { unfold panel_view. rewrite PanelView.view_open by done. by eexists. }
  destruct E as [n E]. erewrite dispatch_bubble by done.
  rewrite (bubble_chain _ 3 _ _ (lift OnPanel n)) by (cbn; by rewrite E).
  rewrite bubble_lift by (repeat constructor; apply reactions_silent). rewrite E. by erewrite dispatch_bubble.
Qed.

(** *** The header *)

(** A chip, whatever it is labelled: a click is its event unless it is loading. *)
Lemma on_chip a i label enabled loading color tooltip m :
  children_of (chips (head a)) !! i = Some (ToggleChip label enabled loading color tooltip m) ->
  forall path, dispatch Click (0 :: 0 :: 0 :: 0 :: i :: path)%nat [App a] = if loading then [] else [m].
Proof.
  intros Hi path. erewrite dispatch_bubble by done. do 3 (erewrite bubble_chain by reflexivity).
  erewrite bubble_chain by exact Hi. rewrite bubble_children by done. by destruct loading.
Qed.

(** A click on a chip is the event of the chip for the page, also while it is loading, when the
    button is disabled and the event changes nothing. *)
Theorem chips_faithful a e i path :
  [App.ENoaa; App.EIss; App.EGround] !! i = Some e ->
  user Click (0 :: 0 :: 0 :: 0 :: i :: path)%nat a = step (OnChip e) a.
Proof.
  intros Hi. unfold user. assert (Hsame : App.step e (head a) = head a -> step (OnChip e) a = (a, [])).
  { intros H. cbn [step]. rewrite H. by destruct a. }
  assert (Hchip : forall loading label enabled color tooltip,
    children_of (chips (head a)) !! i = Some (ToggleChip label enabled loading color tooltip (OnChip e)) ->
    (loading = true -> App.step e (head a) = head a) ->
    steps (dispatch Click (0 :: 0 :: 0 :: 0 :: i :: path)%nat [App a]) a = step (OnChip e) a).
  { intros loading label enabled color tooltip Hc Hl. erewrite on_chip by exact Hc.
    destruct loading; [by rewrite Hsame by auto|]. done. }
  destruct i as [|[|[|i]]]; [injection Hi as <-..|done]; eapply Hchip; try reflexivity; [done|..];
    unfold is_loading; intros Hl; cbn [App.step]; unfold App.handleIssToggle, App.handleGroundToggle; by rewrite Hl.
Qed.

(** The texts of the header, by the identifiers the tests use. *)
Definition header_text (id : string) (a : app) : string := text_content (by_test_id id [header a]).

(** What the header says of the state of the page. *)
Lemma header_reads a :
  header_text "system-status" a = Views.getStatusText (App.status (system a)) /\
  header_text "sdr-status" a = Views.getSdrStatus (App.status (system a)) (sdr_connected (system a)) /\
  header_text "ws-status" a = (if Dashboard.ws_connected (Dashboard.wsState (dash a)) then "WS" else "WS!") /\
  header_text "current-frequency" a =
    (let '(freq, label) := App.shown_frequency (system a) (currentFreq a) (waterfallMode a) in freq ++ " MHz" ++ label) /\
  header_text "next-pass" a =
    match List.hd_error (Dashboard.passes (dash a)) with
    | Some p => si_name (pass_satellite p) ++ App.formatCountdown (Some p) now ++ Widgets.degrees (pass_maxElevation p) 0
    | None => ""
    end /\
  header_text "version" a = versionText (App.version (head a)).
Proof.
  unfold header_text, header, chips, badges, frequency_view, next_pass_view.
  destruct (is_loading App.iss (head a)), (is_loading App.ground (head a)), (Dashboard.ws_connected (Dashboard.wsState (dash a))),
    (App.shown_frequency (system a) (currentFreq a) (waterfallMode a)) as [freq label],
    (List.hd_error (Dashboard.passes (dash a))); cbn; rewrite ?str_app_assoc; done.
Qed.

(** *** The components on the page *)

(** Messages of the gallery change the gallery as they do alone, and nothing else of the
    page, tooltips apart. *)
Lemma gallery_steps ms : forall a,
  let r := steps (map OnGallery ms) a in
  captures r.1 = Gallery.run (GalleryView.fired ms) (captures a) /\ page r.1 = page a /\ head r.1 = head a /\
  ui r.1 = ui a /\ panel r.1 = panel a /\ pointer r.1 = pointer a /\ r.2 = [].
Proof.
  induction ms as [|m ms IH]; intros a; [done|]. cbn [map steps]. cbv zeta.
  destruct m as [e|c t b]; cbn [step].
  - specialize (IH (with_gallery (Gallery.step e (captures a)) a)). cbv zeta in IH.
    destruct (steps _ _) as [a2 o2]. exact IH.
  - match goal with |- context [steps (map OnGallery ms) ?x] => specialize (IH x) end. cbv zeta in IH.
    destruct (steps _ _) as [a2 o2]. exact IH.
Qed.

(** The gallery of the page is the component alone: an event at one of its elements makes of
    it what it makes of the gallery, and leaves the rest of the page. *)
Theorem gallery_on_page a e j path n : bubbles e = true -> gallery_view a !! j = Some n ->
  let r := user e (0 :: 2 :: S j :: path)%nat a in
  captures r.1 = GalleryView.user (capture_date browser) (capture_time browser) (gallery_tips a) e (j :: path) (captures a) /\
  page r.1 = page a /\ head r.1 = head a /\ ui r.1 = ui a /\ panel r.1 = panel a /\ r.2 = [].
Proof.
  intros He Hj. cbv zeta. unfold user. erewrite on_gallery by done.
  destruct (gallery_steps (dispatch e (j :: path) (gallery_view a)) a) as (H1 & H2 & H3 & H4 & H5 & _ & H6).
  split; [exact H1|]. by repeat split.
Qed.

Lemma set_index_keeps idx p :
  Tracking.dash (Tracking.step (Tracking.ESetIndex idx) p).1 = Tracking.dash p /\
  Tracking.mode (Tracking.step (Tracking.ESetIndex idx) p).1 = Tracking.mode p.
Proof. unfold Tracking.step, Tracking.run_effect. by destruct (_ =? _)%Z. Qed.

(** Unless the station scans, the header shows the frequency the page is tuned to. *)
Lemma shown_tuned s f m : Dashboard.cl_status <$> s <> Some (Dashboard.server_status scanning) ->
  App.shown_frequency s f m =
    (App.formatFrequency f, match m with Tracking.sstv_2m => "2M" | _ => "SAT" end).
Proof.
  intros H. unfold App.shown_frequency, App.status. destruct s as [c|]; [|done]. cbn in *.
  by destruct (Dashboard.cl_status c) as [[]|].
Qed.

(** A click on the button of a frequency, anywhere on it: the page asks the server for that
    frequency over its connection, when it is another, and the header says so. *)
Theorem chosen_frequency_shown a idx f freq path i
  (Hm : Tracking.mode (page a) = Tracking.sstv_2m) (Hi : TrackingView.frequency_texts !! idx = Some f)
  (Hf : Tracking.SSTV_2M_FREQUENCIES !! idx = Some freq) (Hr : Tracking.ready (page a) = Some i)
  (He : Tracking.effectFrequency (page a) = Tracking.getCurrentFrequency (page a))
  (Hs : Dashboard.cl_status <$> system a <> Some (Dashboard.server_status scanning)) :
  let r := user Click (0 :: 2 :: 0 :: 0 :: 0 :: 0 :: 0 :: 2 :: S idx :: 0 :: path)%nat a in
  header_text "current-frequency" r.1 = f.1 ++ " MHz" ++ "2M" /\
  r.2 = (if (freq =? Tracking.effectFrequency (page a))%Z then []
         else [(i, Tracking.Unsubscribe); (i, Tracking.Subscribe freq)]).
Proof.
  cbv zeta. unfold user. rewrite on_tracking by done. rewrite (TrackingView.click_frequency _ _ idx f) by done.
  pose proof (TrackingView.frequency_chosen (tracking_tips a) (page a) idx f freq path i Hm Hi Hf Hr He Hs) as H.
  unfold TrackingView.user in H. rewrite (TrackingView.click_frequency _ _ idx f) in H by done.
  cbn [TrackingView.done_by omap list_omap Tracking.run] in H. cbn [map steps step].
  pose proof (set_index_keeps idx (page a)) as [Hk Hmode].
  destruct (Tracking.step (Tracking.ESetIndex idx) (page a)) as [p out]. cbn [fst] in Hk, Hmode.
  destruct H as (Hc & _ & Ho). cbn [fst snd]. rewrite app_nil_r in Ho |- *. split; [|exact Ho].
  rewrite (proj1 (proj2 (proj2 (proj2 (header_reads _))))). unfold system, dash in Hs |- *.
  cbn [handleFrequencyChange page currentFreq waterfallMode]. rewrite Hk, Hmode, Hm, Hc.
  rewrite shown_tuned by exact Hs. destruct idx as [|[|]]; simplify_eq/=; by rewrite <- Hf.
Qed.

End View.

(** What the badge is to say of a station, whether or not a capture is that of a pass whose
    start the page was told. *)
Definition station_text (s : SystemStatus) (announced : bool) : string :=
  match s with
  | idle => "IDLE" | waiting => "WAIT" | decoding => "DEC" | scanning => "SCAN"
  | capturing => if announced then "REC" else "???"
  end.

(** Whether the last operation that set the status was the start of a pass. *)
Definition announces (b : bool) (o : StateManager.op) : bool :=
  match o with
  | StateManager.StartPass _ => true
  | StateManager.SetStatus _ | StateManager.CompletePass _ => false
  | _ => b
  end.

Definition announced (ops : list StateManager.op) : bool := foldl announces false ops.

Definition is_recording (c : Dashboard.ClientStatus) : bool :=
  match c with Dashboard.client_recording => true | _ => false end.

Lemma recording_announced ops : forall c,
  is_recording (foldl Dashboard.status_after c ops) = foldl announces (is_recording c) ops.
Proof. induction ops as [|o ops IH]; intros c; [done|]. cbn [foldl]. rewrite IH. by destruct o. Qed.

(** Until a capture completes, the list of a client is the station's. *)
Lemma listed_upcoming ops : forall s,
  Forall (fun o => match o with StateManager.CompletePass _ => False | _ => True end) ops.*2 ->
  foldl Dashboard.passes_after (st_upcomingPasses s) ops.*2 = st_upcomingPasses (StateManager.run ops s).1.
Proof.
  induction ops as [|[now o] ops IH]; intros s Ho; [done|]. apply Forall_cons in Ho as [Ho Hos].
  cbn [fmap list_fmap foldl snd]. specialize (IH (StateManager.apply now o s).1 Hos). simpl.
  destruct (StateManager.apply now o s) as [s1 e] eqn:E. cbn [fst] in IH.
  destruct (StateManager.run ops s1) as [s2 es]. cbn [fst] in IH |- *. rewrite <- IH. f_equal.
  destruct o; simpl in E; injection E as <- _; done.
Qed.

(** The header of a page whose copy of the state shows a state of the station. *)
Lemma header_of_shown now sdrConnected a sys c : Dashboard.shows sys (dash a) c ->
  header_text now sdrConnected "system-status" a = station_text (st_status sys) (is_recording (Dashboard.cl_status c)) /\
  (forall f, st_status sys = scanning -> st_scanningFrequency sys = Some f -> f <> 0%Z ->
     startsWith (Widgets.mhz3 f ++ " MHz") (header_text now sdrConnected "current-frequency" a) = true).
Proof.
  intros [Hs Hc Hst Hu Hn Hp Hf]. destruct (header_reads now sdrConnected a) as (E1 & _ & _ & E2 & _).
  rewrite E1, E2. unfold system. rewrite Hs. unfold App.status. cbn [fmap option_fmap option_map default].
  split.
  - destruct Hst as [->|[Hcap ->]]; [|by rewrite Hcap]. by destruct (st_status sys).
  - intros f Hsc Hfr Hf0. unfold App.shown_frequency, App.status. cbn [mbind option_bind fmap option_fmap option_map default].
    rewrite (Hf f Hfr). destruct Hst as [->|[E _]]; [|congruence]. rewrite Hsc.
    destruct (Z.eqb_spec f 0) as [|_]; [done|]. cbv beta iota delta [id]. rewrite <- str_app_assoc.
    replace (App.formatFrequency (Some f)) with (Widgets.mhz3 f) by (by destruct f). apply prefix_app.
Qed.

(** C13: The header of a page says what the station does.  A page connects while no event is held
    back, stays, and no operation comes while the broadcast of a pass start awaits the stop
    of the spectrum; once no event is held back, the badge has the text of the station's
    status: while it captures, [REC] when the last change of the status was the start of a
    pass, which the page was told, and [???] otherwise, in a recording of an SSTV scan or a
    pass that had begun before the page connected.  The frequency is the one being scanned
    while the station scans.  The next pass is the first of the last list published, with
    its name, countdown and elevation, or there is none; that list contains the station's
    passes in their order, and is the station's until a capture completes. *)
Theorem header_shows_station env_gain defaultGain cos log10 transform throws pre t0 ground ws now g evs d a time sdr
  (Htakes : throws ws = false) (Hstays : Forall (fun x => stays ws x.2) evs)
  (s := (WebServer.run env_gain defaultGain cos log10 transform throws pre
           (WebServer.initial env_gain defaultGain (StateManager.initial t0) ground)).1)
  (Hheld : held (WebServer.tasks s) = [])
  (Horder : orderly throws env_gain defaultGain cos log10 transform evs (connected ws s))
  (r := WebServer.run env_gain defaultGain cos log10 transform throws ((now, WebServer.EConnect ws g) :: evs) s)
  (Hquiet : held (WebServer.tasks r.1) = []) (Ha : dash a = feed (sent ws r.2) d) (sys := WebServer.system r.1)
  (ops := (sm_run evs).*2)
  (listed := foldl Dashboard.passes_after (st_upcomingPasses (WebServer.system s)) ops) :
  header_text time sdr "system-status" a = station_text (st_status sys) (announced ops) /\
  (forall f, st_status sys = scanning -> st_scanningFrequency sys = Some f -> f <> 0%Z ->
     startsWith (Widgets.mhz3 f ++ " MHz") (header_text time sdr "current-frequency" a) = true) /\
  header_text time sdr "next-pass" a =
    match listed with
    | p :: _ => si_name (pass_satellite p) ++ App.formatCountdown (Some p) time ++ Widgets.degrees (pass_maxElevation p) 0
    | [] => ""
    end /\
  sublist (st_upcomingPasses sys) listed /\
  (Forall (fun o => match o with StateManager.CompletePass _ => False | _ => True end) ops ->
   listed = st_upcomingPasses sys).
Proof.
  destruct (connected_shows env_gain defaultGain cos log10 transform throws pre t0 ground ws now g evs d
    Htakes Hstays Hheld Horder) as (_ & _ & H).
  destruct (H Hquiet) as (c & Hc & Hst & Hp).
  assert (Hshows : Dashboard.shows sys (dash a) c) by (rewrite Ha; exact Hc).
  assert (Hlisted : Dashboard.passes (dash a) = listed) by (rewrite Ha; exact Hp).
  destruct (header_of_shown time sdr a sys c Hshows) as [H1 H2].
  split; [|split; [exact H2|split; [|split]]].
  - by rewrite H1, Hst, recording_announced.
  - destruct (header_reads time sdr a) as (_ & _ & _ & _ & -> & _). rewrite Hlisted. by destruct listed.
  - rewrite <- Hlisted. exact (Dashboard.shows_passes _ _ _ Hshows).
  - intros Hno. unfold listed, ops. rewrite listed_upcoming by exact Hno. f_equal.
    unfold sys, r. rewrite run_connect. symmetry. apply (run_wf ws throws env_gain defaultGain cos log10 transform evs (connected ws s)),
      connected_nodup, (reached_wf env_gain defaultGain cos log10 transform throws pre (StateManager.initial t0) ground).
Qed.

(** A page at the start, with a copy of the state. *)
Definition fresh (d : Dashboard.dashboard) : app :=
  mkApp (Tracking.mkPage d [] Tracking.satellite 0 137500000) (App.mount 0) Views.initialUI (Cards.mkPanel [] false 300 None)
    Gallery.mount (Cards.mkPointer None (0, 0)%Z) None Tracking.satellite "" (fun _ => false) (fun _ _ => false) false.

Local Notation sample_start :=
  (WebServer.run false 20 (fun _ _ => 0%Q) id (fun _ l => l) (fun _ => false) [(0%Z, WebServer.EConnect 7 None)]
     (WebServer.initial false 20 (StateManager.initial 0%Z) None)).1.

Local Notation sample_run evs :=
  (WebServer.run false 20 (fun _ _ => 0%Q) id (fun _ l => l) (fun _ => false) ((5%Z, WebServer.EConnect 1 None) :: evs) sample_start).

Lemma header_shows_station_witness :
  let r := sample_run (sample_trace ++ [(2300%Z, WebServer.EResume 0 (Some true))])%list in
  let a := fresh (feed (Station.sent 1 r.2) Dashboard.initial) in
  st_status (WebServer.system r.1) = capturing /\ header_text 2000%Z (fun _ => false) "system-status" a = "REC" /\
  header_text 1000%Z (fun _ => false) "next-pass" a = "METEOR-M N2-300:00:0145°".
Proof.
  cbv zeta. split; [reflexivity|].
  pose proof (fun t => header_shows_station false 20 (fun _ _ => 0%Q) id (fun _ l => l) (fun _ => false)
    [(0%Z, WebServer.EConnect 7 None)] 0%Z None 1 5%Z None (sample_trace ++ [(2300%Z, WebServer.EResume 0 (Some true))]) Dashboard.initial
    (fresh (feed (Station.sent 1 (sample_run (sample_trace ++ [(2300%Z, WebServer.EResume 0 (Some true))])%list).2) Dashboard.initial))
    t (fun _ => false) eq_refl ltac:(by repeat constructor) ltac:(reflexivity) ltac:(vm_compute; by repeat split)
    ltac:(reflexivity) ltac:(reflexivity)) as H. cbv zeta in H.
  split; [by destruct (H 2000%Z) as (-> & _)|]. destruct (H 1000%Z) as (_ & _ & -> & _). by vm_compute.
Defined.

(** A page that connects while the station records an SSTV signal of a scan. *)
Example scan_recording :
  let r := sample_run [(10%Z, WebServer.ESystem (StateManager.SetStatus capturing))] in
  let a := fresh (feed (Station.sent 1 r.2) Dashboard.initial) in
  st_status (WebServer.system r.1) = capturing /\ header_text 2000%Z (fun _ => false) "system-status" a = "???".
Proof. by vm_compute. Qed.

Lemma chips_faithful_witness :
  let browser := mkHost show_Z show_Z show_Z id id id (fun _ => "") (fun _ => "") (fun _ => "") (fun _ => "") (fun _ => "")
                   "http:" "host" (fun _ _ => false) None None in
  let a := fresh Dashboard.initial in
  App.pending (head (user 0%Z (fun _ => false) (fun _ => None) browser Click [0; 0; 0; 0; 1]%nat a).1) =
    [App.GetSstv; App.GetVersion; App.ToggleSstv true].
Proof.
  cbv zeta. rewrite (chips_faithful 0%Z (fun _ => false) (fun _ => None) _ (fresh Dashboard.initial) App.EIss 1 [] eq_refl).
  reflexivity.
Defined.

Local Notation sample_tracking :=
  (Tracking.run [Tracking.EDash (Dashboard.EOpen 0); Tracking.ESetMode Tracking.sstv_2m]
    (Tracking.mount Tracking.satellite).1).1.

Lemma chosen_frequency_shown_witness :
  let browser := mkHost show_Z show_Z show_Z id id id (fun _ => "") (fun _ => "") (fun _ => "") (fun _ => "") (fun _ => "")
                   "http:" "host" (fun _ _ => false) None None in
  let a := handleFrequencyChange sample_tracking (fresh Dashboard.initial) in
  let r := user 0%Z (fun _ => false) (fun _ => None) browser Click [0; 2; 0; 0; 0; 0; 0; 2; 2; 0]%nat a in
  header_text 0%Z (fun _ => false) "current-frequency" a = "144.500 MHz2M" /\
  header_text 0%Z (fun _ => false) "current-frequency" r.1 = "145.500 MHz2M" /\
  r.2 = [(0%nat, Tracking.Unsubscribe); (0%nat, Tracking.Subscribe 145500000)].
Proof.
  cbv zeta. split; [reflexivity|].
  apply (chosen_frequency_shown 0%Z (fun _ => false) (fun _ => None) _
    (handleFrequencyChange sample_tracking (fresh Dashboard.initial)) 1
    ("145.500", "FM SSTV calling frequency") 145500000 [] 0 eq_refl eq_refl eq_refl eq_refl eq_refl).
  by vm_compute.
Defined.

End PageView.
