(* ===== verification/Switches.v ===== *)
(** * The switches across the network (src/frontend/src/App.tsx, src/middleware/web/server.ts)

    The page of App and the server of WebServer with what is on its way between
    them.  Other pages switch, requests are lost, clients come and go; when all that was
    sent has arrived, the chips of the page show the switches of the server. *)

From S2P Require Import Prelude JsStd Types StateManager Effects FftStream Controls App Events WebServer Station.
Local Open Scope Z_scope.

Module Switches.
Import WebServer Station.

(** ** The server's part *)

(** The switches of the server, and what a status says of them. *)
Definition switches (e : Events.state) : bool * bool :=
  (Events.manualSstvEnabled e, Events.groundSstvScanEnabled e).
Definition told (st : SSTVStatus) : bool * bool := (ss_enabled st, ss_groundScanEnabled st).

(** No event is scheduled: nothing in the program adds one. *)
Definition eventless (s : state) : Prop := Events.activeEvents (sstv s) = [].

Lemma status_told now s : eventless s -> told (Events.getSstvStatus now (sstv s)) = switches (sstv s).
Proof.
  unfold eventless, told, switches, Events.getSstvStatus, Events.isSstvActive, Events.getActiveEvent. simpl.
  intros ->. simpl. by rewrite orb_false_r.
Qed.

Section Server.
Context (ws : nat) (throws : nat -> bool) (Hws : throws ws = false).
Context (env_gain : bool) (defaultGain : Q).
Context (cos : nat -> nat -> Q) (log10 : Q -> Q) (transform : nat -> list Q -> list Q).
Local Notation step := (step env_gain defaultGain cos log10 transform).

(** The client is connected, once, and no event is scheduled. *)
Record connected (s : state) : Prop := mkConnected {
  cn_client : ws ∈ clients s;
  cn_nodup : NoDup (clients s);
  cn_events : eventless s
}.

(** A step tells the client the switches when it may have changed them. *)
Definition tells (s : state) (r : state * list output) : Prop :=
  connected r.1 /\
  ((switches (sstv r.1) = switches (sstv s) /\ statuses ws r.2 = []) \/
   exists st, statuses ws r.2 = [MSstv st] /\ told st = switches (sstv r.1)).

Lemma news_statuses os : news ws true os = [] -> statuses ws os = [].
Proof.
  unfold news, statuses. induction (sent ws os) as [|m l IH]; [done|]. simpl.
  destruct m; simpl; done || (intros H; by apply IH).
Qed.

Lemma quiet_tells s r : connected s -> quiet ws throws true s r -> tells s r.
Proof.
  intros [H1 H2 H3] [Q1 Q2 Q3 Q4 Q5 Q6]. injection Q5 as Q5. split.
  - split; [by apply Q3|by apply Q4|]. unfold eventless. by rewrite Q5.
  - left. rewrite Q5. split; [done|by apply news_statuses].
Qed.

Lemma event_statuses e l : statuses ws (map (fun w => Send w (MEvent e)) l) = [].
Proof.
  unfold statuses. induction l as [|w l IH]; [done|]. cbn [map]. rewrite sent_cons.
  by destruct (Nat.eqb w ws).
Qed.

Lemma statuses_app a b : statuses ws (a ++ b) = statuses ws a ++ statuses ws b.
Proof. unfold statuses. rewrite sent_app. apply List.filter_app. Qed.

Lemma statuses_stream os : statuses ws (map Stream os) = [].
Proof. unfold statuses. by rewrite sent_stream. Qed.

(** The broadcast of an event, after steps of the spectrum. *)
Lemma event_tells e o s1 s : connected s -> clients s1 = clients s -> sstv s1 = sstv s ->
  statuses ws o = [] ->
  tells s (let '(s2, o2) := broadcast_clients throws (MEvent e) s1 in (s2, o ++ o2)).
Proof.
  intros [H1 H2 H3] E1 E2 Ho. split.
  - split; simpl; rewrite E1; [by apply alive_keeps|by apply alive_nodup|]. unfold eventless. simpl. by rewrite E2.
  - left. simpl. by rewrite E2, statuses_app, Ho, event_statuses.
Qed.

Lemma on_state_event_tells e s : connected s -> tells s (on_state_event throws e s).
Proof.
  intros Hs. destruct e; try (by apply (event_tells _ [] s s)).
  - simpl. destruct (running s); [|by apply (event_tells _ [] s s)].
    destruct (FftStream.stopFFTStream (fft s)) as [f o]. destruct Hs. split; [by split|].
    left. split; [done|apply statuses_stream].
  - simpl. destruct (fftSubscribers s); [by apply (event_tells _ [] s s)|].
    destruct (in_use s); [by apply (event_tells _ [] s s)|]. by apply (event_tells _ [SetTimer _] _ s).
Qed.

(** A broadcast of the switches reaches the client once. *)
Lemma status_broadcast st s : ws ∈ clients s -> NoDup (clients s) ->
  statuses ws (broadcast_clients throws (MSstv st) s).2 = [MSstv st].
Proof.
  intros Hc Hd. simpl. unfold statuses. rewrite sent_map by by apply alive_nodup.
  by rewrite bool_decide_true by by apply alive_keeps.
Qed.

(** A route that switches tells the client, and answers the same. *)
Lemma toggle_tells e now rid s pre : connected s -> Events.activeEvents e = [] -> statuses ws pre = [] ->
  let s1 := with_sstv e s in
  let r := let '(s2, o) := broadcastSstvStatus throws now s1 in
           (s2, pre ++ o ++ [Respond rid (RSstv (Events.getSstvStatus now (sstv s2)))]) in
  connected r.1 /\ statuses ws r.2 = [MSstv (Events.getSstvStatus now e)] /\
  sstv r.1 = e /\ told (Events.getSstvStatus now e) = switches e.
Proof.
  intros [H1 H2 H3] He Hp. cbv zeta. unfold broadcastSstvStatus.
  pose proof (status_broadcast (Events.getSstvStatus now e) (with_sstv e s) H1 H2) as Hb.
  pose proof (status_told now (with_sstv e s) He) as Ht.
  split; [split; simpl; [by apply alive_keeps|by apply alive_nodup|done]|].
  split; [|by split]. cbn [broadcast_clients fst snd] in *. rewrite !statuses_app, Hp.
  change (sstv (with_sstv e s)) with e. rewrite Hb. done.
Qed.

Lemma on_request_tells src rid now method path limit offset body s : connected s ->
  tells s (on_request src throws rid now method path limit offset body s).
Proof.
  intros Hs. destruct (switching path) eqn:Hp; [|by apply quiet_tells, server_request_quiet].
  assert (Hno : tells s (s, [])) by (by apply quiet_tells, quiet_refl).
  assert (Hone : forall r, tells s (s, [Respond rid r])) by (intros r; by apply quiet_tells, quiet_same).
  unfold switching in Hp. apply orb_true_iff in Hp as [->%String.eqb_eq| ->%String.eqb_eq];
    unfold on_request, with_body; simpl; (destruct (String.eqb method "POST"); [|by apply Hone]);
    (destruct body as [b|]; [|by apply Hone]).
  - unfold sstv_toggle. destruct (or_flag _ _) as [x|]; [|by apply quiet_tells, quiet_same].
    destruct (toggle_tells (Events.setManualSstvEnabled x (sstv s)) now rid s []
      Hs (cn_events s Hs) eq_refl) as (H1 & H2 & H3 & H4).
    split; [exact H1|right]. eexists. split; [exact H2|]. rewrite H4. by rewrite <- H3.
  - unfold ground_scan_toggle. destruct (or_flag _ _) as [x|]; [|by apply quiet_tells, quiet_same].
    cbn [Events.setGroundSstvScanEnabled].
    destruct (toggle_tells (Events.setGroundSstvScanEnabled x (sstv s)).1 now rid s
      (if negb x then [StopScanner] else []) Hs (cn_events s Hs)) as (H1 & H2 & H3 & H4); [by destruct x|].
    split; [exact H1|right]. eexists. split; [exact H2|]. rewrite H4. by rewrite <- H3.
Qed.

Lemma step_tells now e s : stays ws e -> connected s -> tells s (step throws now e s).
Proof.
  intros He Hs. pose proof Hs as [H1 H2 H3].
  destruct e as [w g|w|w m|t|k b|o|src rid method path limit offset body|e].
  - split; [split; [by apply set_add_elem; right|by apply set_add_NoDup|done]|].
    left. split; [done|]. unfold statuses. cbn [WebServer.step on_connect snd].
    rewrite sent_cons. by destruct (Nat.eqb w ws).
  - split; [split; [by apply set_del_elem; split; [|apply not_eq_sym]|by apply set_del_NoDup|done]|]. by left.
  - by apply quiet_tells, on_ws_message_quiet.
  - by apply quiet_tells, timer_quiet.
  - cbn [WebServer.step]. destruct (tasks s !! k) as [t|]; [|by apply quiet_tells, quiet_refl].
    destruct t as [th|rid|rid| |e], b; try (split; [by split|by left]); by apply (event_tells _ [] _ s).
  - simpl. destruct (StateManager.apply now o (system s)) as [sys e].
    assert (Hs' : connected (with_system sys s)) by by split.
    by destruct (on_state_event_tells e _ Hs') as [Hc Ht].
  - by apply on_request_tells.
  - by apply quiet_tells, stream_quiet.
Qed.
End Server.

(** ** The network *)

(** The end of a request that is on its way to the page; [an_after] statuses had been sent
    to the page by then. *)
Record answer := mkAnswer {
  an_request : App.request;
  an_outcome : Controls.outcome App.document;
  an_after : nat
}.

(** The page has a socket, whose messages arrive in the order they were sent, [arrived] of
    them so far, and for each request a connection of its own: answers arrive in any order. *)
Record network := mkNet {
  page : App.header;
  server : state;
  socket : list SSTVStatus;
  arrived : nat;
  answers : list answer
}.

Definition sent_so_far (n : network) : nat := (arrived n + length (socket n))%nat.

#[local] Instance VersionInfo_eq_dec : EqDecision App.VersionInfo.
Proof. solve_decision. Defined.
#[local] Instance request_eq_dec : EqDecision App.request.
Proof. solve_decision. Defined.

(** The body [{ enabled }]. *)
Definition body_of (enabled : bool) : Body := mkBody None None None None None None None (Some (JsBool enabled)) false.

(** The requests about the switches, as the server sees them. *)
(* @src frontend/src/hooks/useApi.ts:54-70 useApi *)
Definition route (r : App.request) : option (string * string * option Body) :=
  match r with
  | App.GetSstv => Some ("GET", "/api/sstv/status", None)
  | App.ToggleSstv b => Some ("POST", "/api/sstv/toggle", Some (body_of b))
  | App.ToggleGround b => Some ("POST", "/api/sstv/ground-scan/toggle", Some (body_of b))
  | _ => None
  end%string.

(** The statuses among the outputs of the server for the socket [ws]. *)
Definition statuses_to (ws : nat) (os : list output) : list SSTVStatus :=
  omap (fun m => match m with MSstv st => Some st | _ => None end) (sent ws os).

(** The statuses the request numbered [rid] is answered with. *)
Definition replies_to (rid : nat) (os : list output) : list SSTVStatus :=
  omap (fun o => match o with
                 | Respond i (RSstv st) => if Nat.eqb i rid then Some st else None
                 | _ => None
                 end) os.

(** The end of a request at the page: one of those it belongs to. *)
Definition receive (x : answer) (h : App.header) : App.header :=
  match js_findIndex (fun r => bool_decide (r = an_request x)) (App.pending h) with
  | Some i => App.step (App.EAnswer i (an_outcome x)) h
  | None => h
  end.

Inductive action :=
| Click (e : App.event)                                     (* on the page *)
| Serve (now : Z) (src : Sources) (rid : nat) (r : App.request) (lost : bool)
| Other (now : Z) (e : event)                               (* anything else at the server *)
| ArriveStatus                                              (* the first of the socket *)
| ArriveAnswer (i : nat).                                   (* any answer *)

Section Network.
Context (ws : nat) (throws : nat -> bool) (Hws : throws ws = false).
Context (env_gain : bool) (defaultGain : Q).
Context (cos : nat -> nat -> Q) (log10 : Q -> Q) (transform : nat -> list Q -> list Q).
Local Notation step := (step env_gain defaultGain cos log10 transform).

(** Statuses are sent, and answers after them. *)
Definition sends (s : state) (sts : list SSTVStatus) (r : option (App.request * bool)) (replies : list SSTVStatus)
  (n : network) : network :=
  let socket := socket n ++ sts in
  let ends :=
    match r with
    | Some (r, lost) =>
        map (fun st => mkAnswer r (if lost : bool then Controls.Failed "Failed to fetch"
                                   else Controls.Response 200 (App.DSstv st))
                         (arrived n + length socket)) replies
    | None => []
    end in
  mkNet (page n) s socket (arrived n) (answers n ++ ends).

Definition act (a : action) (n : network) : network :=
  match a with
  | Click e => mkNet (App.step e (page n)) (server n) (socket n) (arrived n) (answers n)
  | Serve now src rid r lost =>
      match route r with
      | Some (method, path, body) =>
          let '(s, os) := step throws now (ERequest src rid method path None None body) (server n) in
          sends s (statuses_to ws os) (Some (r, lost)) (replies_to rid os) n
      | None => n
      end
  | Other now e =>
      let '(s, os) := step throws now e (server n) in sends s (statuses_to ws os) None [] n
  | ArriveStatus =>
      match socket n with
      | [] => n
      | st :: r => mkNet (App.step (App.EStatus st) (page n)) (server n) r (S (arrived n)) (answers n)
      end
  | ArriveAnswer i =>
      match answers n !! i with
      | Some x => mkNet (receive x (page n)) (server n) (socket n) (arrived n) (delete i (answers n))
      | None => n
      end
  end.

Definition acts (l : list action) (n : network) : network := foldl (fun n a => act a n) n l.

(** The user clicks; the page checks no version; the client keeps its connection; and an
    answer does not arrive after a status that was sent later than it. *)
Definition allowed (a : action) (n : network) : Prop :=
  match a with
  | Click (App.EIss | App.EGround | App.ENoaa) => True
  | Click _ => False
  | Other _ e => stays ws e
  | ArriveAnswer i =>
      match answers n !! i with Some x => (arrived n <= an_after x)%nat | None => True end
  | _ => True
  end.

Fixpoint allowed_run (l : list action) (n : network) : Prop :=
  match l with
  | [] => True
  | a :: l => allowed a n /\ allowed_run l (act a n)
  end.

Definition chips (h : App.header) : bool * bool := (App.issEnabled h, App.groundEnabled h).

(** What the statuses on the socket make of the chips. *)
Definition last_told (v : bool * bool) (l : list SSTVStatus) : bool * bool :=
  foldl (fun _ st => told st) v l.

Definition tells_now (v : bool * bool) (x : answer) : Prop :=
  match an_outcome x with Controls.Response _ (App.DSstv st) => told st = v | _ => True end.

(** The last status on its way tells the switches, and so does every answer that no status
    was sent after. *)
Record in_step (n : network) : Prop := mkInStep {
  is_connected : connected ws (server n);
  is_last : last_told (chips (page n)) (socket n) = switches (sstv (server n));
  is_fresh : Forall (fun x => route (an_request x) <> None /\ (an_after x <= sent_so_far n)%nat /\
    (an_after x = sent_so_far n -> tells_now (switches (sstv (server n))) x)) (answers n)
}.

Lemma statuses_to_spec os : statuses_to ws os =
  omap (fun m => match m with MSstv st => Some st | _ => None end) (statuses ws os).
Proof.
  unfold statuses_to, statuses. induction (sent ws os) as [|m l IH]; [done|].
  rewrite omap_cons, IH. by destruct m.
Qed.

(** What a step sends ends with the new switches, when there is anything. *)
Lemma tells_last s r : tells ws s r ->
  (statuses_to ws r.2 = [] /\ switches (sstv r.1) = switches (sstv s)) \/
  (exists st, statuses_to ws r.2 = [st] /\ told st = switches (sstv r.1)).
Proof.
  rewrite statuses_to_spec. intros [_ [[E ->]|(st & -> & E)]]; [by left|right]. by exists st.
Qed.

Lemma last_told_app v l k : last_told v (l ++ k) = last_told (last_told v l) k.
Proof. apply foldl_app. Qed.

(** The outputs of a step join what is on its way. *)
Lemma sends_in_step s sts r replies n : in_step n -> connected ws s ->
  (sts = [] /\ switches (sstv s) = switches (sstv (server n)) \/
   exists st, sts = [st] /\ told st = switches (sstv s)) ->
  Forall (fun st => told st = switches (sstv s)) replies ->
  (forall q lost, r = Some (q, lost) -> route q <> None) ->
  in_step (sends s sts r replies n).
Proof.
  intros [H1 H2 H3] Hs Hsts Hrep Hr. split; [done| |]; cbn [sends page server socket answers arrived].
  - rewrite last_told_app, H2. by destruct Hsts as [[-> ->]|(st & -> & E)].
  - unfold sent_so_far in *. cbn [sends socket arrived]. rewrite length_app. apply Forall_app. split.
    + eapply Forall_impl; [exact H3|]. intros x (X1 & X2 & X3). split; [done|]. split; [lia|]. intros Heq.
      destruct Hsts as [[-> ->]|(st & -> & _)]; simpl in Heq; [apply X3; lia|lia].
    + destruct r as [[q lost]|]; [|done]. specialize (Hr q lost eq_refl). apply Forall_map.
      eapply Forall_impl; [exact Hrep|]. intros st E. cbn. split; [done|]. split; [lia|].
      intros _. by destruct lost.
Qed.

Lemma answer_chips q d h v : route q <> None ->
  (forall st, d = Some (App.DSstv st) -> told st = v) -> chips h = v -> chips (App.on_answer q d h) = v.
Proof.
  unfold chips, told. intros Hq Hd Hh. destruct q; simpl in *; try done;
    (destruct d as [[st|]|]; simpl; [specialize (Hd st eq_refl)|done|done]); congruence.
Qed.

(** An answer that tells what the chips show leaves them. *)
Lemma receive_chips x h : route (an_request x) <> None -> tells_now (chips h) x ->
  chips (receive x h) = chips h.
Proof.
  unfold receive, tells_now. intros Hq Ho.
  destruct (js_findIndex _ _) as [i|] eqn:Ei; [|done]. apply js_findIndex_Some in Ei as (q' & Ei & Hq').
  apply bool_decide_eq_true in Hq' as ->. simpl. rewrite Ei.
  destruct (Controls.fetch_end (an_outcome x) _) as [a d] eqn:Ef. apply answer_chips; [done| |done].
  intros st ->. destruct (an_outcome x) as [m|c [st'|]]; simpl in Ef; [done|..];
    destruct (Controls.ok_code c); by simplify_eq.
Qed.

(** The answer to a switch, and its status. *)
Lemma toggle_answers e now rid s pre : connected ws s -> Events.activeEvents e = [] ->
  pre = [] \/ pre = [StopScanner] ->
  let s1 := with_sstv e s in
  let x := let '(s2, o) := broadcastSstvStatus throws now s1 in
           (s2, pre ++ o ++ [Respond rid (RSstv (Events.getSstvStatus now (sstv s2)))]) in
  Forall (fun st => told st = switches (sstv x.1)) (replies_to rid x.2).
Proof.
  intros Hs He Hpre. cbv zeta.
  assert (Hp : statuses ws pre = []) by by destruct Hpre as [->| ->].
  destruct (toggle_tells ws throws Hws e now rid s pre Hs He Hp) as (_ & _ & H3 & H4).
  rewrite H3, <- H4. unfold broadcastSstvStatus. cbn [broadcast_clients fst snd].
  change (sstv (with_sockets _ _ (with_sstv e s))) with e.
  unfold replies_to. rewrite !omap_app. apply Forall_app_2; [by destruct Hpre as [->| ->]|].
  apply Forall_app_2; [|simpl; rewrite Nat.eqb_refl; by repeat constructor].
  induction (alive throws _) as [|w l IH]; [done|exact IH].
Qed.

Lemma serve_answers now src rid r method path body s : connected ws s ->
  route r = Some (method, path, body) ->
  let x := step throws now (ERequest src rid method path None None body) s in
  Forall (fun st => told st = switches (sstv x.1)) (replies_to rid x.2).
Proof.
  intros Hs Hr. cbv zeta. destruct r as [| |v|b|b]; try done; injection Hr as <- <- <-.
  - simpl. rewrite Nat.eqb_refl. pose proof (status_told now s (cn_events _ _ Hs)) as Ht.
    unfold sstv_status_reply. destruct (st_status (system s)); simpl; by repeat constructor.
  - apply (toggle_answers (Events.setManualSstvEnabled b (sstv s)) now rid s []); [done|apply Hs|by left].
  - apply (toggle_answers (Events.setGroundSstvScanEnabled b (sstv s)).1 now rid s
      (if negb b then [StopScanner] else [])); [done|apply Hs|]. destruct b; [by left|by right].
Qed.

Lemma click_chips e h : match e with App.EIss | App.EGround | App.ENoaa => True | _ => False end ->
  chips (App.step e h) = chips h.
Proof.
  destruct e; try done; intros _; simpl.
  - unfold App.handleIssToggle. by case_bool_decide.
  - unfold App.handleGroundToggle. by case_bool_decide.
Qed.

Lemma act_in_step a n : allowed a n -> in_step n -> in_step (act a n).
Proof.
  intros Ha Hn. pose proof Hn as [Hc Hl Hf]. destruct a as [e|now src rid r lost|now e| |i]; cbn [act].
  - split; [exact Hc| |exact Hf]. cbn [page socket server]. by rewrite click_chips by by destruct e.
  - destruct (route r) as [[[method path] body]|] eqn:Hr; [|done].
    pose proof (step_tells ws throws Hws env_gain defaultGain cos log10 transform now
      (ERequest src rid method path None None body) (server n) I Hc) as H.
    pose proof (serve_answers now src rid r method path body (server n) Hc Hr) as Hrep.
    pose proof (tells_last _ _ H) as Ht. destruct H as [H1 _].
    destruct (step throws now _ (server n)) as [s os]. apply sends_in_step; [done..|].
    intros q l [= <- _]. congruence.
  - pose proof (step_tells ws throws Hws env_gain defaultGain cos log10 transform now e (server n) Ha Hc) as H.
    pose proof (tells_last _ _ H) as Ht. destruct H as [H1 _].
    destruct (step throws now e (server n)) as [s os]. by apply sends_in_step.
  - destruct (socket n) as [|st r] eqn:E; [done|]. split; [done|exact Hl|]. cbn [answers server].
    eapply Forall_impl; [exact Hf|]. unfold sent_so_far. rewrite E. cbn [length arrived socket].
    intros x (X1 & X2 & X3). split; [done|]. split; [lia|]. intros. apply X3. lia.
  - cbn [allowed] in Ha. destruct (answers n !! i) as [x|] eqn:E; [|done].
    pose proof (Forall_lookup_1 _ _ _ _ Hf E) as (X1 & X2 & X3). split; [done| |].
    + cbn [page socket server]. unfold sent_so_far in *. destruct (socket n) as [|st r] eqn:Es.
      * cbn in Hl. cbn. rewrite receive_chips; [done..|]. rewrite Hl. apply X3. simpl in *. lia.
      * exact Hl.
    + cbn [answers server]. by apply Forall_delete.
Qed.

Lemma acts_in_step l : forall n, allowed_run l n -> in_step n -> in_step (acts l n).
Proof.
  induction l as [|a l IH]; intros n Hl Hn; [done|]. destruct Hl as [Ha Hl].
  apply IH; [done|by apply act_in_step].
Qed.

Lemma acts_app l1 l2 n : acts (l1 ++ l2) n = acts l2 (acts l1 n).
Proof. apply foldl_app. Qed.

Lemma arrivals k : forall n, length (socket n) = k ->
  socket (acts (repeat ArriveStatus k) n) = [] /\ server (acts (repeat ArriveStatus k) n) = server n /\
  allowed_run (repeat ArriveStatus k) n.
Proof.
  induction k as [|k IH]; intros n Hk; [by apply nil_length_inv in Hk|].
  destruct n as [h s [|st w] a xs]; [done|]. injection Hk as Hk.
  destruct (IH (mkNet (App.step (App.EStatus st) h) s w (S a) xs) Hk) as (H1 & H2 & H3). by split_and!.
Qed.

(** C29: The chips agree with the server: a page and a server that agree are switched by the
    user, by other pages and by requests whose answer is lost, in any order, while other
    clients come and go and the station works.  The page keeps its socket, on which
    statuses arrive in order, while the answers to its requests arrive in any order; as
    long as none arrives after a status that was sent later than it, the chips show the
    switches of the server again once the statuses on their way have arrived, whatever
    answers are still missing. *)
Theorem chips_agree l n (Hl : allowed_run l n) (Hc : connected ws (server n))
  (Hs : socket n = []) (Ha : answers n = []) (Hp : chips (page n) = switches (sstv (server n))) :
  let n1 := acts l n in
  let n2 := acts (repeat ArriveStatus (length (socket n1))) n1 in
  socket n2 = [] /\ server n2 = server n1 /\ chips (page n2) = switches (sstv (server n2)).
Proof.
  cbv zeta. assert (Hn : in_step n) by (split; [done|by rewrite Hs|by rewrite Ha]).
  destruct (arrivals (length (socket (acts l n))) (acts l n) eq_refl) as (H1 & H2 & H3).
  split; [exact H1|]. split; [exact H2|].
  pose proof (acts_in_step _ _ H3 (acts_in_step l n Hl Hn)) as [_ H _]. by rewrite H1 in H.
Qed.
End Network.

(** ** Concrete runs *)

Definition sample_server : state :=
  with_sockets [7%nat] [] (initial false 20 WebServer.sample_system (Some "true"%string)).

Definition sample_net : network := mkNet App.loaded sample_server [] 0 [].

Definition no_sources : Sources :=
  mkSources (fun _ _ => None) None None None (fun _ => None) (fun _ => None).

Local Notation sample_acts :=
  (acts 7 (fun _ => false) false 20 (fun _ _ => 0%Q) id (fun _ l => l)).

(** A request of another page. *)
Definition ground_of_other (rid : nat) (enabled : bool) : action :=
  Other 20 (ERequest no_sources rid "POST" "/api/sstv/ground-scan/toggle" None None (Some (body_of enabled))).

(** The user turns the first chip on, and the answer is lost, which the page learns before
    the status; another page turns the second off; then the user turns it on. *)
Definition sample_actions : list action :=
  [ Click App.EIss; Serve 10 no_sources 1 (App.ToggleSstv true) true; ArriveAnswer 0; ground_of_other 2 false;
    ArriveStatus; Other 30 (EConnect 8 None); Click App.EGround; Serve 40 no_sources 3 (App.ToggleGround true) false;
    ArriveAnswer 0 ].

Lemma chips_agree_witness :
  let n := sample_acts sample_actions sample_net in
  length (socket n) = 2%nat /\
  let n2 := sample_acts [ArriveStatus; ArriveStatus] n in
  chips (page n2) = (true, true) /\ chips (page n2) = switches (sstv (server n2)).
Proof.
  cbv zeta. split; [vm_compute; reflexivity|]. split; [vm_compute; reflexivity|].
  apply (chips_agree 7 (fun _ => false) eq_refl false 20 (fun _ _ => 0%Q) id (fun _ l => l) sample_actions sample_net).
  - vm_compute. repeat split; lia.
  - split; [set_solver|repeat constructor; set_solver|reflexivity].
  - reflexivity.
  - reflexivity.
  - vm_compute. reflexivity.
Defined.

(** Without that order: the answer to an own request that arrives after the status of a
    later switch shows the state before it, with nothing left on its way. *)
Example overtaken_answer :
  let n := sample_acts [ Click App.EGround; Serve 10 no_sources 1 (App.ToggleGround false) false;
                         ground_of_other 2 true; ArriveStatus; ArriveStatus; ArriveAnswer 0 ] sample_net in
  socket n = [] /\ answers n = [] /\
  (chips (page n)).2 = false /\ (switches (sstv (server n))).2 = true.
Proof. vm_compute. done. Qed.

End Switches.
