(* ===== verification/Monitor.v ===== *)
(** * The spectrum from the server to the canvas (src/frontend/src/App.tsx, components/SatelliteTracking.tsx)

    The tracking page with the view that is mounted: what the page is sent becomes the
    latest data, the effect of the view makes rows of it, and the canvas is drawn with the
    properties the page passes down. *)

From S2P Require Import Prelude JsStd Types StateManager Effects FftStream Dashboard Tracking Waterfall.
From S2P Require Import Views Canvas TrackingView WebServer Station.
Local Open Scope Z_scope.

Module Monitor.
Import Tracking WebServer Station.
Import TrackingView (waterfall_props, spectrum_props).

(** ** The page with its view *)

(** A view keeps its rows as long as it is mounted. *)
Inductive mounted := MWaterfall (w : Waterfall.waterfall) | MSpectrum (rows : list FFTData * Z).

(* @src frontend/src/App.tsx:22-28 App *)
Record monitor := mkMonitor { tracking : page; latestFFTData : option FFTData; shown_view : mounted }.

Definition fresh (m : ViewMode) : mounted :=
  match m with satellite => MWaterfall Waterfall.empty | sstv_2m => MSpectrum ([], 0) end.

Definition effect (latest : option FFTData) (v : mounted) : mounted :=
  match v with
  | MWaterfall w => MWaterfall (Waterfall.on_latest latest w)
  | MSpectrum rows => MSpectrum (Waterfall.on_latest_spectrum latest rows)
  end.

Definition mount (m : ViewMode) : monitor := mkMonitor (Tracking.mount m).1 None (fresh m).

(** The data a message hands to [onFFTData]. *)
Definition frames (e : Tracking.event) (p : page) : list FFTData :=
  match e with
  | EDash (Dashboard.EMessage i m) =>
      if Dashboard.live i (dash p) then (Dashboard.on_message m (dash p)).2 else []
  | _ => []
  end.

Definition same_mode (a b : ViewMode) : bool :=
  match a, b with satellite, satellite | sstv_2m, sstv_2m => true | _, _ => false end.

(** One of the two views is mounted, with nothing, when the tab changes. *)
(* @src frontend/src/components/SatelliteTracking.tsx:488-521 SatelliteTracking *)
Definition render (before : ViewMode) (m : monitor) : monitor :=
  let v := if same_mode before (mode (tracking m)) then shown_view m else fresh (mode (tracking m)) in
  mkMonitor (tracking m) (latestFFTData m) (effect (latestFFTData m) v).

Definition step (e : Tracking.event) (m : monitor) : monitor :=
  render (mode (tracking m))
    (mkMonitor (Tracking.step e (tracking m)).1
       (foldl (fun l d => Waterfall.handleFFTData d l) (latestFFTData m) (frames e (tracking m)))
       (shown_view m)).

Definition run (evs : list Tracking.event) (m : monitor) : monitor := foldl (fun m e => step e m) m evs.

Definition rows (v : mounted) : list FFTData :=
  match v with MWaterfall w => Waterfall.fftHistory w | MSpectrum r => r.1 end.

(* @src frontend/src/components/SatelliteTracking.tsx:357-363 SpectrumWaterfall *)
Definition spectrum_size : Q * Q := (1200, 400)%Q.

Definition picture (m : monitor) : list Canvas.command :=
  match shown_view m with
  | MWaterfall w =>
      Canvas.drawWaterfall Canvas.view_size.1 Canvas.view_size.2 (waterfall_props (tracking m)) w
  | MSpectrum r =>
      Canvas.draw spectrum_size.1 spectrum_size.2 (spectrum_props (tracking m) (latestFFTData m)) r.1
  end.

(** ** Facts *)

(** The data received in a run. *)
Fixpoint received (evs : list Tracking.event) (m : monitor) : list FFTData :=
  match evs with
  | [] => []
  | e :: evs => frames e (tracking m) ++ received evs (step e m)
  end.

Definition row_limit (v : mounted) : nat := match v with MWaterfall _ => 150 | MSpectrum _ => 100 end.

(** Rows are data that was received, in the order in which it was, and the latest of it may
    still become one; a view of the tab has at most its number of rows. *)
Record sound (l : list FFTData) (m : monitor) : Prop := mkSound {
  so_latest : forall d, latestFFTData m = Some d -> d ∈ l;
  so_rows : forall d, d ∈ rows (shown_view m) -> d ∈ l;
  so_limit : (length (rows (shown_view m)) <= row_limit (shown_view m))%nat;
  so_mode : match shown_view m with
            | MWaterfall _ => mode (tracking m) = satellite
            | MSpectrum _ => mode (tracking m) = sstv_2m
            end
}.

Lemma push_row_elem n d l x : x ∈ Waterfall.push_row n d l -> x ∈ l \/ x = d.
Proof.
  unfold Waterfall.push_row. intros Hx. assert (H : x ∈ l ++ [d]).
  { destruct (_ <? _)%nat; [|done]. eapply elem_of_sublist; [exact Hx|apply sublist_drop]. }
  apply elem_of_app in H as [H|H]; [by left|]. right. by apply list_elem_of_singleton in H.
Qed.

Lemma effect_rows latest v x : x ∈ rows (effect latest v) -> x ∈ rows v \/ latest = Some x.
Proof.
  destruct v as [w|r]; simpl; unfold Waterfall.on_latest, Waterfall.on_latest_spectrum;
    (destruct latest as [d|]; [|by left]); (destruct (_ =? _); [by left|]); simpl; intros Hx;
    apply push_row_elem in Hx as [Hx|Hx]; [by left|right; by rewrite Hx|by left|right; by rewrite Hx].
Qed.

Lemma effect_limit latest v : (length (rows v) <= row_limit v)%nat ->
  (length (rows (effect latest v)) <= row_limit (effect latest v))%nat.
Proof.
  destruct v as [w|r]; simpl; [apply Canvas.on_latest_length|apply Canvas.on_latest_spectrum_length].
Qed.

Lemma latest_elem fs latest d :
  foldl (fun l d => Waterfall.handleFFTData d l) latest fs = Some d -> latest = Some d \/ d ∈ fs.
Proof.
  rewrite Waterfall.latest_last. destruct (last fs) as [x|] eqn:E; [|by left].
  intros [= ->]. right. by apply last_Some_elem_of.
Qed.

Lemma fresh_rows m : rows (fresh m) = [].
Proof. by destruct m. Qed.

Lemma effect_fresh latest m :
  match effect latest (fresh m) with MWaterfall _ => m = satellite | MSpectrum _ => m = sstv_2m end.
Proof. by destruct m. Qed.

Lemma step_sound e m l : sound l m -> sound (l ++ frames e (tracking m)) (step e m).
Proof.
  intros [H1 H2 H3 H4]. set (fs := frames e (tracking m)). unfold step. fold fs.
  set (p := (Tracking.step e (tracking m)).1).
  set (latest := foldl _ _ fs).
  assert (Hl : forall d, latest = Some d -> d ∈ l ++ fs).
  { intros d Hd. apply latest_elem in Hd as [Hd|Hd]; apply elem_of_app; [left; by apply H1|by right]. }
  assert (Hr : forall d, d ∈ rows (shown_view m) -> d ∈ l ++ fs).
  { intros d Hd. apply elem_of_app. left. by apply H2. }
  unfold render. cbn [tracking latestFFTData shown_view].
  destruct (same_mode (mode (tracking m)) (mode p)) eqn:E; split; cbn [latestFFTData shown_view tracking].
  - exact Hl.
  - intros d Hd. apply effect_rows in Hd as [Hd|Hd]; auto.
  - by apply effect_limit.
  - destruct (shown_view m); simpl; rewrite H4 in E; by destruct (mode p).
  - exact Hl.
  - intros d Hd. apply effect_rows in Hd as [Hd|Hd]; [|auto]. rewrite fresh_rows in Hd.
    by apply not_elem_of_nil in Hd.
  - apply effect_limit. rewrite fresh_rows. simpl. lia.
  - apply effect_fresh.
Qed.

Lemma run_sound evs : forall m l, sound l m -> sound (l ++ received evs m) (run evs m).
Proof.
  induction evs as [|e evs IH]; intros m l Hm; [simpl; by rewrite app_nil_r|].
  cbn [received run foldl]. rewrite app_assoc. by apply IH, step_sound.
Qed.

Lemma mount_sound md : sound [] (mount md).
Proof.
  split; try done; simpl; [|rewrite fresh_rows; simpl; lia|by destruct md].
  intros d Hd. by rewrite fresh_rows in Hd.
Qed.

(** ** The spectra of the server *)

Definition spectra (m : message) : list FFTData :=
  match m with MData d => [d] | MHistory l => l | _ => [] end.

Definition spectra_sent (ws : nat) (os : list output) : list FFTData := mjoin (spectra <$> sent ws os).

(** What the receiver's process publishes in a run of the server. *)
Definition emitted (os : list FftStream.output) : list FFTData :=
  omap (fun o => match o with FftStream.Emit _ d => Some d | _ => None end) os.

Section Source.
Context (ws : nat) (throws : nat -> bool) (P : FFTData -> Prop).

(** A step from a buffer of spectra that satisfy [P] leaves such a buffer and sends such
    spectra only. *)
Definition honest (s : state) (r : state * list output) : Prop :=
  Forall P (fftHistoryBuffer s) -> Forall P (fftHistoryBuffer r.1) /\ Forall P (spectra_sent ws r.2).

Lemma spectra_app a b : spectra_sent ws (a ++ b) = spectra_sent ws a ++ spectra_sent ws b.
Proof. unfold spectra_sent. by rewrite sent_app, fmap_app, join_app. Qed.

Lemma spectra_stream os : spectra_sent ws (map Stream os) = [].
Proof. unfold spectra_sent. by rewrite sent_stream. Qed.

Lemma spectra_map m l : Forall P (spectra m) -> Forall P (spectra_sent ws (map (fun w => Send w m) l)).
Proof.
  intros Hm. induction l as [|w l IH]; [constructor|]. unfold spectra_sent in *. cbn [map]. rewrite sent_cons.
  destruct (Nat.eqb w ws); [|done]. simpl. by apply Forall_app_2.
Qed.

Lemma honest_same s s' os :
  fftHistoryBuffer s' = fftHistoryBuffer s \/ fftHistoryBuffer s' = [] ->
  Forall P (spectra_sent ws os) -> honest s (s', os).
Proof. intros [E|E] Ho Hs; simpl; rewrite E; by split. Qed.

Lemma honest_quiet s s' os :
  fftHistoryBuffer s' = fftHistoryBuffer s \/ fftHistoryBuffer s' = [] ->
  spectra_sent ws os = [] -> honest s (s', os).
Proof. intros H Ho. apply honest_same; [done|by rewrite Ho]. Qed.

Lemma honest_refl s : honest s (s, []).
Proof. apply honest_quiet; [by left|done]. Qed.

Lemma honest_trans s s1 o1 r : honest s (s1, o1) -> honest s1 r ->
  honest s (let '(s2, o2) := r in (s2, o1 ++ o2)).
Proof.
  destruct r as [s2 o2]. intros H1 H2 Hs. destruct (H1 Hs) as [A B]. destruct (H2 A) as [C D].
  split; [done|]. simpl in *. rewrite spectra_app. by apply Forall_app_2.
Qed.

Lemma honest_from s0 s r :
  fftHistoryBuffer s = fftHistoryBuffer s0 \/ fftHistoryBuffer s = [] -> honest s r -> honest s0 r.
Proof. intros [E|E] H Hs; apply H; rewrite E; done. Qed.

Lemma honest_snoc s s1 o1 o2 : honest s (s1, o1) -> spectra_sent ws o2 = [] -> honest s (s1, o1 ++ o2).
Proof. intros H Ho. apply (honest_trans _ _ _ (s1, o2) H). apply honest_quiet; [by left|done]. Qed.

Lemma broadcast_clients_honest m s : Forall P (spectra m) -> honest s (broadcast_clients throws m s).
Proof. intros Hm. apply honest_same; [by left|by apply spectra_map]. Qed.

Lemma broadcast_subscribers_honest m s : Forall P (spectra m) -> honest s (broadcast_subscribers throws m s).
Proof. intros Hm. apply honest_same; [by left|by apply spectra_map]. Qed.

Lemma set_user_gain_honest g s : honest s (set_user_gain g s).
Proof. unfold set_user_gain. destruct (running _); by apply honest_quiet; [left|]. Qed.

Lemma feed_gain_honest d s : honest s (feed_gain d s).
Proof.
  unfold feed_gain. destruct (AutoGain.AutoGain.enabled _); [|apply honest_refl].
  destruct (AutoGain.AutoGain.feed _ _ _) as [a r]. destruct r; by apply honest_quiet; [left|].
Qed.

Lemma push_history_honest d s : P d -> honest s (with_history (push_history d (fftHistoryBuffer s)) s, []).
Proof.
  intros Hd Hs. split; [|constructor]. simpl. unfold push_history.
  assert (H : Forall P (fftHistoryBuffer s ++ [d])) by (apply Forall_app_2; [done|by constructor]).
  destruct (_ <? _)%nat; [by apply Forall_drop|done].
Qed.

Lemma broadcast_data_honest d s : P d -> honest s (broadcastFFTData throws d s).
Proof.
  intros Hd. unfold broadcastFFTData. pose proof (push_history_honest d s Hd) as H0.
  set (s1 := with_history _ s) in *. destruct (fftSubscribers s1); [exact H0|].
  pose proof (feed_gain_honest d s1) as H1. destruct (feed_gain d s1) as [s2 o1].
  apply (honest_trans s s1 [] (let '(s3, o2) := broadcast_subscribers throws (MData d) s2 in (s3, o1 ++ o2)) H0).
  apply (honest_trans _ _ _ _ H1), broadcast_subscribers_honest. by constructor.
Qed.

Lemma emit_honest os : forall s, Forall P (emitted os) -> honest s (emit throws os s).
Proof.
  induction os as [|o os IH]; intros s Ho; [apply honest_refl|]. simpl.
  destruct o; try (apply (honest_trans _ s [Stream _]); [by apply honest_quiet; [left|]|by apply IH]).
  apply Forall_cons in Ho as [Hd Ho]. pose proof (broadcast_data_honest data s Hd) as H.
  destruct (broadcastFFTData throws data s) as [s1 o1]. apply (honest_trans _ s1 _ _ H). by apply IH.
Qed.

Lemma on_subscribe_honest w f s : honest s (on_subscribe w f s).
Proof.
  unfold on_subscribe. set (s1 := with_timers _ _ _ _). intros Hs. change (Forall P (fftHistoryBuffer s1)) in Hs.
  set (hist := match fftHistoryBuffer s1 with [] => [] | l => _ end).
  assert (Hh : Forall P (spectra_sent ws hist)).
  { subst hist. destruct (fftHistoryBuffer s1) as [|d l]; [constructor|]. by apply (spectra_map (MHistory (d :: l)) [w]). }
  set (r := if running s1 then _ else _).
  assert (Hr : honest s1 r).
  { subst r. destruct (running s1); [apply honest_refl|]. destruct (in_use s1); [apply honest_refl|].
    by apply honest_quiet; [left|]. }
  destruct r as [s2 o]. destruct (Hr Hs) as [A B]. split; [done|]. simpl in *.
  rewrite !spectra_app. apply Forall_app_2; [done|]. apply Forall_app_2; [done|].
  by apply (spectra_map (MSubscribed (running s2) (config s2) (fft_error s2)) [w]).
Qed.

Lemma spectra_one w m : spectra m = [] -> spectra_sent ws [Send w m] = [].
Proof. intros Hm. unfold spectra_sent. rewrite sent_cons. destruct (Nat.eqb w ws); simpl; [by rewrite Hm|done]. Qed.

Lemma accept_gain_honest v answer s : (forall s1, spectra_sent ws [answer s1] = []) ->
  honest s (accept_gain v answer s).
Proof.
  intros Ha. unfold accept_gain. destruct v as [| |g| | |]; try by apply honest_quiet; [left|].
  pose proof (set_user_gain_honest g s) as H. destruct (set_user_gain g s). by apply honest_snoc.
Qed.

Lemma on_ws_message_honest w m s : honest s (on_ws_message w m s).
Proof.
  destruct m as [f| |f|[g|]| |]; simpl; try apply honest_refl.
  - apply on_subscribe_honest.
  - apply honest_quiet; [by left|]. by apply spectra_one.
  - destruct f as [[| |]|]; try apply honest_refl; by apply honest_quiet; [left|].
  - destruct (ws_gain_ok g); [|apply honest_refl]. apply accept_gain_honest. intros s1. by apply spectra_one.
Qed.

Lemma stop_timer_honest s : honest s (stop_timer s).
Proof.
  unfold stop_timer. set (s1 := with_timers _ _ _ s).
  destruct (fftSubscribers s1); [|by apply honest_quiet; [left|]].
  destruct (running s1); [|by apply honest_quiet; [left|]].
  destruct (FftStream.stopFFTStream (fft s1)) as [f o]. apply honest_quiet; [by left|apply spectra_stream].
Qed.

Lemma on_state_event_honest e s : honest s (on_state_event throws e s).
Proof.
  assert (Hb : forall s, honest s (broadcast_clients throws (MEvent e) s))
    by (intros s1; by apply broadcast_clients_honest).
  destruct e; simpl; try apply Hb.
  - destruct (running s); [|apply Hb]. destruct (FftStream.stopFFTStream (fft s)) as [f o].
    apply honest_quiet; [by left|apply spectra_stream].
  - set (r := match fftSubscribers s with [] => _ | _ => _ end).
    assert (Hr : honest s r).
    { subst r. destruct (fftSubscribers s); [apply honest_refl|]. destruct (in_use s); [apply honest_refl|].
      by apply honest_quiet; [left|]. }
    destruct r as [s1 o1]. exact (honest_trans _ _ _ _ Hr (Hb s1)).
Qed.

Lemma on_request_honest src rid now method path limit offset body s :
  honest s (on_request src throws rid now method path limit offset body s).
Proof.
  assert (Hsnoc : forall s1 o m, honest s1 (let '(s2, o2) := broadcast_clients throws (MSstv m) s1 in (s2, o2 ++ [Respond rid o]))).
  { intros s1 o m. pose proof (broadcast_clients_honest (MSstv m) s1 ltac:(constructor)) as H.
    destruct (broadcast_clients _ _ _) as [s2 o2]. by apply honest_snoc. }
  unfold on_request, with_body.
  repeat match goal with
  | |- honest s (if ?c then _ else _) => destruct c eqn:?
  | |- honest s (match body with _ => _ end) => destruct body as [b|]
  | |- honest s (s, _) => by apply honest_quiet; [left|]
  end; eauto; try (by apply honest_quiet; [left|]).
  - unfold sstv_toggle. destruct (or_flag _ _) as [x|]; [|by apply honest_quiet; [left|]]. set (s1 := with_sstv _ s). apply (honest_from s s1); [by left|].
    unfold broadcastSstvStatus. apply Hsnoc.
  - unfold ground_scan_toggle. destruct (or_flag _ _) as [x|]; [|by apply honest_quiet; [left|]].
    destruct (Events.Events.setGroundSstvScanEnabled _ _) as [e stop].
    set (s1 := with_sstv e s). apply (honest_from s s1); [by left|]. unfold broadcastSstvStatus.
    pose proof (Hsnoc s1) as H. destruct (broadcast_clients _ _ _) as [s2 o] eqn:E.
    apply (honest_trans s1 s1 _ (s2, _)); [by apply honest_quiet; [left|destruct stop]|].
    apply honest_snoc; [|done]. rewrite <- E. by apply broadcast_clients_honest.
  - unfold http_fft_start. destruct (start_gain _ _), (b_other b); try by apply honest_quiet; [left|].
    destruct (FftStream.startFFTStream _ _ _ _). apply honest_quiet; [by left|apply spectra_stream].
  - unfold http_gain. destruct (b_auto b) as [[]|]; [by apply honest_quiet; [left|]|..].
    all: destruct (http_gain_bad _); [by apply honest_quiet; [left|]|by apply accept_gain_honest].
  - unfold http_fft_stop. destruct (FftStream.stopFFTStream _).
    apply honest_quiet; [by left|apply spectra_stream].
  - unfold http_notch_add. destruct (b_other b); [by apply honest_quiet; [left|]|]. by destruct (b_frequency b) as [[]|]; apply honest_quiet; [left| |left| |left| |left|].
  - unfold http_notch_remove. destruct (b_other b); [by apply honest_quiet; [left|]|]. by destruct (b_frequency b) as [[]|]; apply honest_quiet; [left| |left| |left| |left|].
  - unfold http_notch_toggle. destruct (b_other b); [by apply honest_quiet; [left|]|].
    destruct (b_frequency b) as [f|]; [|by apply honest_quiet; [left|]].
    destruct (b_enabled b) as [[]|]; try by apply honest_quiet; [left|]. by destruct (Z.eqb f 0); apply honest_quiet; [left| |left|].
Qed.

Section Steps.
Context (env_gain : bool) (defaultGain : Q).
Context (cos : nat -> nat -> Q) (log10 : Q -> Q) (transform : nat -> list Q -> list Q).

Lemma start_timer_honest now f s : honest s (start_timer env_gain defaultGain now f s).
Proof.
  unfold start_timer. destruct (FftStream.startFFTStream _ _ _ _) as [x o].
  apply honest_quiet; [|apply spectra_stream]. right. simpl.
  unfold select_gain. destruct (AutoGain.AutoGain.getForFrequency _ _ _) as [[b g] c].
  destruct (c && negb env_gain); [|done]. by destruct (BAND_GAIN_TARGETS b).
Qed.

Definition published (now : Z) (e : event) (s : state) : list FFTData :=
  match e with
  | EStream e => emitted (FftStream.step cos log10 transform now e (fft s)).2
  | _ => []
  end.

Lemma step_honest now e s : Forall P (published now e s) ->
  honest s (WebServer.step env_gain defaultGain cos log10 transform throws now e s).
Proof.
  intros Hp. destruct e as [w g|w|w m|t|k b|o|src rid method path limit offset body|e]; cbn [WebServer.step].
  - apply honest_quiet; [by left|]. by apply spectra_one.
  - by apply honest_quiet; [left|].
  - apply on_ws_message_honest.
  - destruct (timers s !! t) as [[x|]|]; [|apply honest_refl..].
    set (s1 := with_timers _ _ _ s). apply (honest_from s s1); [by left|]. destruct x; simpl.
    + apply start_timer_honest.
    + apply stop_timer_honest.
    + unfold error_timer. destruct (fft_error s1) as [[|]|]; try apply honest_refl.
      by apply broadcast_subscribers_honest.
  - destruct (tasks s !! k) as [t|]; [|apply honest_refl]. set (s1 := with_tasks _ s).
    apply (honest_from s s1); [by left|]. destruct t, b; simpl; try by apply honest_quiet; [left|].
    all: by apply broadcast_clients_honest.
  - destruct (StateManager.apply now o (WebServer.system s)) as [sys e]. set (s1 := with_system sys s).
    apply (honest_from s s1); [by left|]. apply on_state_event_honest.
  - apply on_request_honest.
  - simpl in Hp. destruct (FftStream.step _ _ _ _ _ _) as [f os]. set (s1 := with_fft f s).
    apply (honest_from s s1); [by left|]. by apply emit_honest.
Qed.

Fixpoint published_run (evs : list (Z * event)) (s : state) : list FFTData :=
  match evs with
  | [] => []
  | (now, e) :: r =>
      published now e s ++
      published_run r (WebServer.step env_gain defaultGain cos log10 transform throws now e s).1
  end.

Lemma run_honest evs : forall s, Forall P (published_run evs s) ->
  honest s (WebServer.run env_gain defaultGain cos log10 transform throws evs s).
Proof.
  induction evs as [|[now e] evs IH]; intros s Hp; [apply honest_refl|]. cbn [published_run] in Hp.
  apply Forall_app in Hp as [He Hp]. pose proof (step_honest now e s He) as H. cbn [WebServer.run].
  destruct (WebServer.step _ _ _ _ _ _ _ _ _) as [s1 o1]. exact (honest_trans _ _ _ _ H (IH s1 Hp)).
Qed.
End Steps.
End Source.

(** ** Properties *)

(** The size of a cell, the colour of a level and the top of the rows of a view. *)
Definition cell (v : mounted) (row : FFTData) : Q * Q :=
  match v with
  | MWaterfall w => (600 / Canvas.num (length (fft_bins row)), Canvas.rowHeight 350 (length (rows v)))%Q
  | MSpectrum _ => (1200 / Canvas.num (length (fft_bins row)), Canvas.spectrumRowHeight 400 (length (rows v)))%Q
  end.

Definition level_color (v : mounted) (power : Q) : string :=
  Canvas.rgb (match v with
    | MWaterfall _ => Waterfall.getWaterfallColor (Waterfall.normalized (Waterfall.reference_range (rows v)) power)
    | MSpectrum _ => Waterfall.getColor (Waterfall.normalized (Waterfall.spectrum_range (rows v)) power)
    end).

Definition top (v : mounted) : Q := match v with MWaterfall _ => 0 | MSpectrum _ => Canvas.SPECTRUM_HEIGHT end.

(** The waterfall is hidden by an error or by a capture that pauses the spectrum. *)
Definition hidden (m : monitor) : bool :=
  match shown_view m with
  | MWaterfall _ =>
      let v := waterfall_props (tracking m) in
      (match Canvas.truthy (Canvas.v_fftError v) with Some _ => true | None => false end) ||
      (Canvas.v_isActive v && negb (Canvas.v_fftRunning v))
  | MSpectrum _ => false
  end.

(** Where no line is drawn over the rows of a view. *)
Definition off_lines (v : mounted) (q : Q * Q) : Prop :=
  match v with
  | MWaterfall _ => Canvas.off_waterfall_lines q
  | MSpectrum _ => Canvas.off_spectrum_lines q
  end.

(** A point of a cell of the view that is mounted, unless the waterfall is hidden or a line
    or a text is drawn over the point. *)
Lemma cell_shown ink md evs i row j power x y :
  hidden (run evs (mount md)) = false ->
  let m := run evs (mount md) in
  let v := shown_view m in
  rows v !! i = Some row -> fft_bins row !! j = Some power ->
  Canvas.in_cell j (cell v row).1 x -> Canvas.in_cell i (cell v row).2 (y - top v) ->
  off_lines v (x, y) -> Canvas.no_text ink (x, y) (picture m) Canvas.fresh_pen = true ->
  row ∈ received evs (mount md) /\ (i < row_limit v)%nat /\
  Canvas.shown ink (x, y) (picture m) = Some (level_color v power).
Proof.
  intros Hshown. cbv zeta. pose proof (run_sound evs _ _ (mount_sound md)) as [_ Hrows Hlimit _].
  set (m := run evs (mount md)) in *. intros Hi Hj Hx Hy Hoff Ht.
  split; [by apply Hrows, (list_elem_of_lookup_2 _ i)|].
  split; [apply lookup_lt_Some in Hi; lia|].
  unfold hidden, picture, level_color, cell, top, off_lines in *. destruct (shown_view m) as [w|r]; cbn [rows row_limit fst snd] in *.
  - apply orb_false_iff in Hshown as [He Ha]. apply (Canvas.waterfall_pixel ink _ w i row j); try done.
    + by destruct (Canvas.truthy _).
    + destruct Hy as [Hy1 Hy2]. split; lra.
  - by apply (Canvas.spectrum_pixel ink _ r.1 i row j).
Qed.

(** A page whose messages are messages the server sent, to any of its clients; what else
    happens to the page is free. *)
Definition from_server (os : list output) (e : Tracking.event) : Prop :=
  match e with
  | EDash (Dashboard.EMessage _ m) => exists w m', m' ∈ sent w os /\ deliver m' = Some m
  | _ => True
  end.

Lemma deliver_spectra m' m d : deliver m' = Some m -> (Dashboard.on_message m d).2 = spectra m'.
Proof. by destruct m'; intros [= <-]. Qed.

Lemma received_sent os evs : forall m, Forall (from_server os) evs ->
  forall d, d ∈ received evs m -> exists w, d ∈ spectra_sent w os.
Proof.
  induction evs as [|e evs IH]; intros m Hf d Hd; [by apply not_elem_of_nil in Hd|].
  apply Forall_cons in Hf as [He Hf]. cbn [received] in Hd. apply elem_of_app in Hd as [Hd|Hd]; [|by eapply IH].
  destruct e as [[i|i msg|i|i|t]|md|n]; simpl in Hd; try by apply not_elem_of_nil in Hd.
  destruct (Dashboard.live i _); [|by apply not_elem_of_nil in Hd].
  destruct He as (w & m' & Hm & Hdel). rewrite (deliver_spectra _ _ _ Hdel) in Hd.
  exists w. unfold spectra_sent. apply list_elem_of_join. exists (spectra m'). split; [done|].
  by apply list_elem_of_fmap_2.
Qed.

Section EndToEnd.
Context (throws : nat -> bool) (env_gain : bool) (defaultGain : Q).
Context (cos : nat -> nat -> Q) (log10 : Q -> Q) (transform : nat -> list Q -> list Q).

(** C14: What a page shows comes from the receiver: whatever clients, requests, timers and
    processes do to the server, and whatever messages, reconnections, changes of the
    tab and of the frequency the page goes through, a point in the cell of a bin has the
    colour of the level of that bin in a spectrum that the receiver's process published in
    that run; unless the waterfall is hidden, by an error or by a capture that pauses the
    spectrum, or a text or a line is drawn over the point: in the waterfall the line of the
    scale below, in the view of the 2 m band the curve above, the scale below and the
    dashed line in the middle.  No view shows more rows than its limit. *)
Theorem canvas_shows_receiver ink server sys ground md evs i row j power x y
  (Hserver : Forall (from_server (WebServer.run env_gain defaultGain cos log10 transform throws server
               (initial env_gain defaultGain sys ground)).2) evs)
  (Hshown : hidden (run evs (mount md)) = false) :
  let m := run evs (mount md) in
  let v := shown_view m in
  rows v !! i = Some row -> fft_bins row !! j = Some power ->
  Canvas.in_cell j (cell v row).1 x -> Canvas.in_cell i (cell v row).2 (y - top v) ->
  off_lines v (x, y) -> Canvas.no_text ink (x, y) (picture m) Canvas.fresh_pen = true ->
  row ∈ published_run throws env_gain defaultGain cos log10 transform server
          (initial env_gain defaultGain sys ground) /\
  (i < row_limit v)%nat /\ Canvas.shown ink (x, y) (picture m) = Some (level_color v power).
Proof.
  cbv zeta. intros Hi Hj Hx Hy Hoff Ht.
  destruct (cell_shown ink md evs i row j power x y Hshown Hi Hj Hx Hy Hoff Ht) as (Hr & Hl & Hc).
  split; [|by split]. destruct (received_sent _ _ _ Hserver _ Hr) as [w Hw].
  set (s := initial _ _ _ _) in *. set (l := published_run _ _ _ _ _ _ _ _).
  assert (Hl' : Forall (fun d => d ∈ l) l) by (apply Forall_forall; auto).
  destruct (run_honest w throws (fun d => d ∈ l) env_gain defaultGain cos log10 transform server s Hl')
    as [_ H]; [constructor|].
  rewrite Forall_forall in H. by apply H.
Qed.
End EndToEnd.

(** ** Concrete runs *)

(** A client connects and subscribes; the stream, started with frames of two samples,
    publishes two spectra. *)
Definition start_body : Body := mkBody (Some 137900000) None None (Some 2%nat) None None None None false.

Definition sample_server : list (Z * WebServer.event) :=
  [ (9000, EConnect 1 None);
    (10000, ERequest (mkSources (fun _ _ => None) None None None (fun _ => None) (fun _ => None)) 0
              "POST" "/api/fft/start" None None (Some start_body));
    (10010, EResume 0 (Some true));
    (10020, EMessage 1 (FftSubscribe (Some 137900000)));
    (20000, EStream (FftStream.EData 0 [200; 128; 100; 128]));
    (20200, EStream (FftStream.EData 0 [180; 128; 110; 128]));
    (20400, EStream (FftStream.EData 0 [180; 128; 110; 128])) ].

Definition flat (n k : nat) : Q := 1.
Definition loud (q : Q) : Q := -4.
Definition same (n : nat) (l : list Q) : list Q := l.

Local Notation sample_outputs :=
  ((WebServer.run false 20 flat loud same (fun _ => false) sample_server
     (initial false 20 (StateManager.initial 0) None)).2).

(** A page whose first socket gets what the server sends to one client. *)
Definition page_of (ws : nat) (os : list output) : list Tracking.event :=
  EDash (Dashboard.EOpen 0) :: map (fun m => EDash (Dashboard.EMessage 0 m)) (omap deliver (sent ws os)).

Lemma page_served ws os : Forall (from_server os) (page_of ws os).
Proof.
  constructor; [done|]. apply Forall_forall. intros e He.
  apply list_elem_of_fmap in He as (m & -> & Hm). apply list_elem_of_omap in Hm as (m' & Hm & Hd).
  by exists ws, m'.
Qed.

Local Notation sample_page := (page_of 1 sample_outputs).

(** -40 dB, in the terms in which the average comes out. *)
Definition sample_level : Q := -2560 # 64.

Definition sample_row (t : Z) : FFTData :=
  mkFFTData t 137900000 [sample_level; sample_level] sample_level sample_level.

Lemma canvas_shows_receiver_witness :
  let m := run sample_page (mount satellite) in
  Canvas.shown Canvas.sample_ink (400, 2)%Q (picture m) = Some "rgb(100, 227, 75)"%string /\
  sample_row 20200 ∈ published_run (fun _ => false) false 20 flat loud same sample_server
    (initial false 20 (StateManager.initial 0) None) /\
  Canvas.shown Canvas.sample_ink (400, 2)%Q (picture m) = Some (level_color (shown_view m) sample_level).
Proof.
  cbv zeta. split; [vm_compute; reflexivity|].
  destruct (canvas_shows_receiver (fun _ => false) false 20 flat loud same Canvas.sample_ink sample_server
    (StateManager.initial 0) None satellite sample_page 0 (sample_row 20200) 1 sample_level 400 2
    (page_served 1 sample_outputs)) as (H1 & _ & H2).
  - vm_compute. reflexivity.
  - vm_compute. reflexivity.
  - reflexivity.
  - split; vm_compute; [discriminate|reflexivity].
  - split; vm_compute; [discriminate|reflexivity].
  - vm_compute. reflexivity.
  - vm_compute. reflexivity.
  - split; [exact H1|exact H2].
Defined.

(** The latest data outlives its frequency: when the tab is changed, the view that is
    mounted begins with a row of the satellite, under the scale of the frequency of the
    tab. *)
Example other_frequency_shown :
  let m := run (sample_page ++ [ESetMode sstv_2m]) (mount satellite) in
  map fft_centerFreq (rows (shown_view m)) = [137900000] /\
  Canvas.sp_frequency (spectrum_props (tracking m) (latestFFTData m)) = 144500000.
Proof. vm_compute. done. Qed.
End Monitor.
