(* ===== verification/Commands.v ===== *)
(** * The commands (src/backend/cli/main.ts, src/backend/index.ts)

    Which command the arguments name, and the single session of the older entry point: it
    captures the good passes of the next day once and ends, without database or web
    server.  What the commands print is not modelled. *)

From S2P Require Import Prelude JsStd Types StateManager Effects Shell.
From S2P Require Import Recorder Orbit Passes Tle Scheduler MainLoop.
Local Open Scope Z_scope.
Local Open Scope prog_scope.

Module Commands.
Import Recorder Passes Tle Scheduler.

(** ** The arguments *)

Inductive command := CRun | CPredict | CStatus | CServe | CHelp | CUnknown (name : string).

(** [argv] are the arguments after the script. *)
(* @src backend/cli/main.ts:31-63 main *)
Definition command_of (argv : list string) : command :=
  let command := match head argv with None | Some ""%string => "run"%string | Some c => c end in
  let named c := String.eqb command c in
  if named "run" || named "start" then CRun
  else if named "predict" then CPredict
  else if named "status" then CStatus
  else if named "serve" then CServe
  else if named "help" || named "--help" || named "-h" then CHelp
  else CUnknown command.

(** The hours [predict] looks ahead: the first argument as a number, 24 without one. *)
(* @src backend/cli/commands/predict.ts:14-14 hoursAhead *)
Definition hoursAhead (args : list string) : Q :=
  match head args ≫= js_Number with
  | Some n => if n ==?q 0 then 24%Q else n
  | None => 24%Q
  end.

Example predict_arguments :
  (command_of ["predict"; "48"], hoursAhead ["48"], hoursAhead [], hoursAhead ["soon"], command_of [])%string =
  (CPredict, 48, 24, 24, CRun)%Q.
Proof. vm_compute. reflexivity. Qed.

(** ** One session (index.ts) *)

(* @src backend/index.ts:11-11 REQUIRED_COMMANDS *)
Definition REQUIRED_COMMANDS : list string := ["rtl_fm"; "rtl_power"; "sox"; "satdump"]%string.

(* @src backend/index.ts:38-39 SATELLITES *)
Definition enabled_satellites : list SatelliteInfo := js_filter si_enabled SATELLITES.

Section Session.
Context `{SatelliteJs}.
Context (home cwd : string) (json_parse : string -> option TleCache).
Context (json_stringify : TleCache -> string).

(** [None] when the process has exited. *)
(* @src backend/index.ts:37-72 main *)
Definition session_passes (config : ReceiverConfig) : prog (res (option (list CaptureResult))) :=
  tles <-! getTles home json_parse json_stringify enabled_satellites (cfg_tle_updateIntervalHours config);;
  now <~ Now;;
  match predictPasses enabled_satellites tles (cfg_station config)
          (mkOptions now 24 (cfg_minElevation config)) with
  | None => Ret Pending
  | Some [] => Exit 0;;; Ret (Ok None)
  | Some allPasses =>
      let passes := filterHighQualityPasses allPasses (cfg_minElevation config) in
      results <-! runScheduler cwd passes config [];;
      Ret (Ok (Some results))
  end.

(* @src backend/index.ts:13-72 main *)
Definition session (config : ReceiverConfig) : prog (res (option (list CaptureResult))) :=
  d1 <~ EnsureDir (cfg_recordingsDir config);;
  _ <-! Ret (of_sum d1);;
  d2 <~ EnsureDir (cfg_imagesDir config);;
  _ <-! Ret (of_sum d2);;
  deps <-! checkDependencies REQUIRED_COMMANDS;;
  match MainLoop.missing_of deps with
  | _ :: _ => Exit 1;;; Ret (Ok None)
  | [] => session_passes config
  end.

(** The handler of an exception exits as well. *)
(* @src backend/index.ts:74-77 main *)
Definition main (config : ReceiverConfig) : prog (res (option (list CaptureResult))) :=
  try_catch (session config) (fun _ => Exit 1;;; Ret (Ok None)).

Section Settled.
Context {W : Type} (h : forall c, W -> resp c * W) (time : W -> Z).
Context `{!Clock h time} `{!Settles h}.
Context (config : ReceiverConfig).

(** A session that captured good passes in their order, exited or threw. *)
Definition session_done (r : res (option (list CaptureResult))) (t : list call) : Prop :=
  match r with
  | Ok (Some results) => exists kept,
      map cr_satellite results = map pass_satellite kept /\ MainLoop.listed config kept
  | Ok None => exists before code, t = before ++ [Exit code]
  | Throw _ => True
  | Pending => False
  end.

Lemma forall_sublist {A} (P : A -> Prop) k l : k `sublist_of` l -> Forall P l -> Forall P k.
Proof.
  intros Hk Hf. rewrite Forall_forall in Hf |- *. intros x Hx. by apply Hf, (elem_of_sublist _ _ _ Hx).
Qed.

Lemma listed_sublist l k : k `sublist_of` l -> MainLoop.listed config l -> MainLoop.listed config k.
Proof.
  intros Hk [Hs Hf]. split.
  - revert Hs Hf. induction Hk as [|x k l Hk IH|x k l Hk IH]; intros Hs Hf; [constructor|..];
      apply StronglySorted_inv in Hs as [Hs Hx]; apply Forall_cons in Hf as [_ Hf].
    + constructor; [by apply IH|]. by eapply forall_sublist.
    + by apply IH.
  - by eapply forall_sublist.
Qed.

Lemma done_later r t0 t : session_done r t -> session_done r (t0 ++ t).
Proof.
  destruct r as [[rs|]|m|]; try done. intros (before & code & ->).
  exists (t0 ++ before), code. by rewrite app_assoc.
Qed.

Lemma session_passes_done w :
  session_done (result h (session_passes config) w) (trace h (session_passes config) w).
Proof.
  unfold session_passes, bindR. rewrite result_bind, trace_bind. apply done_later.
  pose proof (holds_result h _ _ _ w (MainLoop.getTles_calls home json_parse json_stringify
    enabled_satellites (cfg_tle_updateIntervalHours config))) as Hp.
  destruct (result h (getTles _ _ _ _ _) w) as [tles|m|]; [|done|done].
  rewrite result_Do, trace_Do. apply (done_later _ [Now]).
  set (now := (h Now _).1). clearbody now. set (w2 := (h Now _).2). clearbody w2.
  destruct (predictPasses_total enabled_satellites tles (cfg_station config)
    (mkOptions now 24 (cfg_minElevation config))) as (l & El & _). rewrite El.
  pose proof El as Hl. apply (MainLoop.high_quality_listed home json_parse) in Hl.
  destruct l as [|p l]; [rewrite result_Do, trace_Do; by exists [], 0|]. cbv zeta. set (passes := filterHighQualityPasses _ _) in *.
  rewrite result_bind, trace_bind. apply done_later.
  destruct (runScheduler_results h time cwd config passes [] w2) as (kept & out & -> & Hk & Hm & _).
  exists kept. split; [exact Hm|]. by eapply listed_sublist.
Qed.

Lemma session_ok w : session_done (result h (session config) w) (trace h (session config) w).
Proof.
  unfold session, bindR. rewrite result_Do, trace_Do. apply (done_later _ [_]).
  destruct ((h (EnsureDir _) w).1) as [m|[]]; cbn [of_sum bind]; [done|].
  rewrite result_Do, trace_Do. apply (done_later _ [_]).
  destruct ((h (EnsureDir _) _).1) as [m|[]]; cbn [of_sum bind]; [done|].
  rewrite result_bind, trace_bind. apply done_later.
  set (w2 := (h (EnsureDir (cfg_imagesDir config)) _).2).
  destruct (MainLoop.dependencies_spec h REQUIRED_COMMANDS w2) as (reports & deps & _ & _ & -> & _); [by apply (bool_decide_unpack _)|].
  destruct (MainLoop.missing_of deps) as [|c cs]; [apply session_passes_done|].
  rewrite result_Do, trace_Do. by exists [], 1.
Qed.
End Settled.

(** A session ends: with the results of good passes, attempted in their order, or by
    leaving the process as its last act; it neither throws nor hangs. *)
Theorem session_ends {W} (h : forall c, W -> resp c * W) (time : W -> Z)
  (Hc : Clock h time) (Hs : Settles h) config w :
  match result h (main config) w with
  | Ok (Some results) => exists kept,
      map cr_satellite results = map pass_satellite kept /\ MainLoop.listed config kept
  | Ok None => exists before code, trace h (main config) w = before ++ [Exit code]
  | _ => False
  end.
Proof.
  unfold main, try_catch. rewrite result_bind, trace_bind.
  pose proof (session_ok h time config w) as H0.
  destruct (result h (session config) w) as [[rs|]|m|]; [exact H0| |rewrite result_Do, trace_Do; by eexists _, 1|done].
  destruct H0 as (before & code & ->). exists before, code. rewrite trace_Ret. apply app_nil_r.
Qed.
End Session.

#[local] Existing Instance Orbit.sample_propagator.

Definition sample_session : prog (res (option (list CaptureResult))) :=
  main "/root" "/app" (fun _ => None) (fun _ => ""%string) sample_config.

(** In the sample world the session captures two passes. *)
Definition sample_results : list CaptureResult := Eval vm_compute in
  match result MainLoop.online sample_session MainLoop.first_hour with
  | Ok (Some results) => results
  | _ => []
  end.

Lemma session_ends_witness :
  length sample_results = 2%nat /\
  exists kept, map cr_satellite sample_results = map pass_satellite kept /\
    MainLoop.listed sample_config kept.
Proof.
  split; [reflexivity|].
  assert (E : result MainLoop.online sample_session MainLoop.first_hour = Ok (Some sample_results))
    by (vm_compute; reflexivity).
  pose proof (session_ends "/root" "/app" (fun _ => None) (fun _ => ""%string) MainLoop.online w_time
    MainLoop.online_clock MainLoop.online_settles sample_config MainLoop.first_hour) as Ho.
  fold sample_session in Ho. rewrite E in Ho. exact Ho.
Defined.
End Commands.
