(* ===== verification/Schema.v ===== *)
(** * The tables of the database file (src/backend/db/database.ts)

    What opening the database does to the file: the tables and indexes that are missing are
    created, and a table of captures from before the column signal_type gets it.  A table
    is its columns and its rows of as many values; the statements are those of the source,
    with the meaning SQL gives them. *)

From S2P Require Import Prelude JsStd.

Module Schema.

Inductive value := VText (s : string) | VInteger (n : Z) | VReal (q : Q) | VNull.

Record table := mkTable { columns : list string; rows : list (list value) }.

Record file := mkFile { captures : option table; images : option table; indexes : list string }.

(* @src backend/db/database.ts:23-43 initialize *)
Definition capture_columns : list string :=
  ["id"; "pass_id"; "satellite_name"; "satellite_norad_id"; "frequency"; "signal_type"; "aos_time"; "los_time";
   "max_elevation"; "duration_seconds"; "recording_path"; "start_time"; "end_time"; "max_signal_strength";
   "success"; "error_message"; "created_at"]%string.

(* @src backend/db/database.ts:47-56 initialize *)
Definition image_columns : list string := ["id"; "capture_id"; "image_type"; "file_path"; "created_at"]%string.

(** CREATE TABLE IF NOT EXISTS, CREATE INDEX IF NOT EXISTS, ALTER TABLE ADD COLUMN: the rows
    there are get the default. *)
Definition create_table (cols : list string) (t : option table) : table :=
  match t with Some t => t | None => mkTable cols [] end.

Definition create_index (name : string) (l : list string) : list string :=
  if bool_decide (name ∈ l) then l else l ++ [name].

Definition add_column (name : string) (v : value) (t : table) : table :=
  mkTable (columns t ++ [name]) (map (fun r => r ++ [v]) (rows t)).

(* @src backend/db/database.ts:69-75 migrateIfNeeded *)
Definition migrateIfNeeded (t : table) : table :=
  if existsb (fun c => String.eqb c "signal_type") (columns t) then t
  else add_column "signal_type" (VText "lrpt") t.

(* @src backend/db/database.ts:22-67 initialize *)
Definition initialize (f : file) : file :=
  mkFile (Some (migrateIfNeeded (create_table capture_columns (captures f))))
    (Some (create_table image_columns (images f)))
    (create_index "idx_captures_success" (create_index "idx_captures_created"
       (create_index "idx_captures_satellite" (indexes f)))).

(** A directory that is missing is an exception, before the file is made. *)
(* @src backend/db/database.ts:10-20 constructor *)
Definition construct (existsSync : string -> bool) (dbPath : string) (f : file) : string + file :=
  let dir := dirname dbPath in
  if negb (existsSync dir) then inl ("Database directory does not exist: " ++ dir)%string
  else inr (initialize f).

(** The value of a row in a column. *)
Definition get (name : string) (cols : list string) (r : list value) : option value :=
  snd <$> List.find (fun e => String.eqb e.1 name) (combine cols r).

(** Every row has a value in every column, and no column is there twice. *)
Definition wf (t : table) : Prop := NoDup (columns t) /\ Forall (fun r => length r = length (columns t)) (rows t).

(** ** Facts *)

Lemma has_signal_type t : existsb (fun c => String.eqb c "signal_type"%string) (columns t) = true <-> "signal_type"%string ∈ columns t.
Proof.
  rewrite existsb_exists. split.
  - intros (c & Hc & E). apply String.eqb_eq in E as ->. by apply list_elem_of_In.
  - intros H. exists "signal_type"%string. split; [by apply list_elem_of_In|done].
Qed.

Lemma migrated t : "signal_type"%string ∈ columns (migrateIfNeeded t).
Proof.
  unfold migrateIfNeeded. destruct (existsb _ _) eqn:E; [by apply has_signal_type|]. cbn. set_solver.
Qed.

Lemma migrate_twice t : migrateIfNeeded (migrateIfNeeded t) = migrateIfNeeded t.
Proof.
  unfold migrateIfNeeded at 1. pose proof (migrated t) as H. apply has_signal_type in H. by rewrite H.
Qed.

Lemma create_index_in name l : name ∈ l -> create_index name l = l.
Proof. intros H. unfold create_index. by rewrite bool_decide_true. Qed.

Lemma create_index_elem name l x : x = name \/ x ∈ l -> x ∈ create_index name l.
Proof. unfold create_index. case_bool_decide; set_solver. Qed.

Lemma initialize_twice f : initialize (initialize f) = initialize f.
Proof.
  unfold initialize. cbn [captures images indexes create_table]. rewrite migrate_twice. f_equal.
  set (l := create_index "idx_captures_success"
    (create_index "idx_captures_created" (create_index "idx_captures_satellite" (indexes f)))).
  assert (H1 : "idx_captures_satellite"%string ∈ l) by (apply create_index_elem; right; apply create_index_elem; right;
    apply create_index_elem; by left).
  assert (H2 : "idx_captures_created"%string ∈ l) by (apply create_index_elem; right; apply create_index_elem; by left).
  assert (H3 : "idx_captures_success"%string ∈ l) by (apply create_index_elem; by left).
  by rewrite (create_index_in _ _ H1), (create_index_in _ _ H2), (create_index_in _ _ H3).
Qed.

Lemma get_app name cols r c v : length r = length cols -> name ∈ cols -> get name (cols ++ [c]) (r ++ [v]) = get name cols r.
Proof.
  revert r. induction cols as [|d cols IH]; intros [|x r] Hl Hn; try done; [by apply not_elem_of_nil in Hn|].
  unfold get in *. cbn in *. destruct (String.eqb_spec d name) as [->|Hd]; [done|].
  apply IH; [lia|]. set_solver.
Qed.

Lemma get_last name cols r v : length r = length cols -> name ∉ cols -> get name (cols ++ [name]) (r ++ [v]) = Some v.
Proof.
  revert r. induction cols as [|d cols IH]; intros [|x r] Hl Hn; try done.
  - unfold get. cbn. by rewrite String.eqb_refl.
  - unfold get in *. cbn in *. destruct (String.eqb_spec d name) as [->|Hd]; [set_solver|]. apply IH; [lia|set_solver].
Qed.

(** To open a database loses nothing: each capture keeps its values, in the same order,
    and has a signal type, which is lrpt for those from before the column; what is opened
    again is left as it is. *)
Theorem opening_keeps_captures f t (Hc : captures f = Some t) (Hwf : wf t) :
  exists t', captures (initialize f) = Some t' /\ wf t' /\ "signal_type"%string ∈ columns t' /\
    Forall2 (fun r r' => (forall c, c ∈ columns t -> get c (columns t') r' = get c (columns t) r) /\
                         ("signal_type"%string ∉ columns t -> get "signal_type" (columns t') r' = Some (VText "lrpt")))
      (rows t) (rows t') /\
    initialize (initialize f) = initialize f.
Proof.
  destruct Hwf as [Hd Hr]. exists (migrateIfNeeded t). split; [unfold initialize; by rewrite Hc|].
  assert (Hrows : wf (migrateIfNeeded t) /\
    Forall2 (fun r r' => (forall c, c ∈ columns t -> get c (columns (migrateIfNeeded t)) r' = get c (columns t) r) /\
      ("signal_type"%string ∉ columns t -> get "signal_type" (columns (migrateIfNeeded t)) r' = Some (VText "lrpt")))
      (rows t) (rows (migrateIfNeeded t))).
  { unfold migrateIfNeeded. destruct (existsb _ (columns t)) eqn:E.
    - apply has_signal_type in E. split; [done|]. apply Forall_Forall2_diag, Forall_true. by intros r.
    - assert (Hn : "signal_type"%string ∉ columns t) by (rewrite <- has_signal_type, E; done). split.
      + split; cbn; [apply NoDup_app; split_and!; [done|set_solver|apply NoDup_singleton]|].
        apply Forall_map. eapply Forall_impl; [exact Hr|]. intros r Hl. cbn in *. rewrite !length_app. cbn. lia.
      + cbn. induction Hr as [|r l Hl _ IH]; constructor; [|done].
        split; [intros c Hcol; by apply get_app|intros _; by apply get_last]. }
  destruct Hrows as [H1 H2]. split; [done|]. split; [apply migrated|]. split; [done|apply initialize_twice].
Qed.

Lemma opening_keeps_captures_witness :
  let old := mkFile (Some (mkTable ["id"; "satellite_name"]%string [[VInteger 1; VText "NOAA-19"]])) None [] in
  exists t', captures (initialize old) = Some t' /\ rows t' = [[VInteger 1; VText "NOAA-19"; VText "lrpt"]] /\
    "signal_type"%string ∈ columns t'.
Proof.
  cbv zeta. destruct (opening_keeps_captures
    (mkFile (Some (mkTable ["id"; "satellite_name"]%string [[VInteger 1; VText "NOAA-19"]])) None [])
    (mkTable ["id"; "satellite_name"]%string [[VInteger 1; VText "NOAA-19"]]) eq_refl) as (t' & Ht & _ & Hs & _).
  - split; [|by repeat constructor]. apply (bool_decide_unpack _). by vm_compute.
  - exists t'. split; [exact Ht|]. split; [|exact Hs]. by injection Ht as <-.
Defined.

End Schema.
