(* ===== verification/Database.v ===== *)
(** * The capture database (src/backend/db/database.ts)

    The two tables as lists of rows in insertion order, with what the SQL
    statements of the source say: AUTOINCREMENT keys, the UNIQUE pass key, the
    foreign key of images (on by default in better-sqlite3).  [created_at] is the
    second of [datetime('now')], whose text sorts as the time does.  What SQL
    leaves open, the order of rows with equal [created_at] and of the elements of
    GROUP_CONCAT, is the argument [sql]. *)

From S2P Require Import Prelude JsStd JsDate Types.
Local Open Scope Z_scope.

Module Database.

(** A row of [captures]. *)
(* @src backend/db/database.ts:23-43 captures *)
Record CaptureRow := mkCaptureRow {
  r_id : Z;
  r_pass_id : string;
  r_satellite_name : string;
  r_satellite_norad_id : Z;
  r_frequency : Z;
  r_signal_type : SignalType;
  r_aos_time : string;
  r_los_time : string;
  r_max_elevation : Q;
  r_duration_seconds : Z;
  r_recording_path : option string;
  r_start_time : string;
  r_end_time : option string;
  r_max_signal_strength : option Q;
  r_success : Z;
  r_error_message : option string;
  r_created_at : Z
}.

(* @src backend/db/database.ts:47-56 images *)
Record ImageRow := mkImageRow {
  i_id : Z;
  i_capture_id : Z;
  i_image_type : string;
  i_file_path : string
}.

Record db := mkDb {
  captures : list CaptureRow;
  images : list ImageRow;
  capture_seq : Z;
  image_seq : Z
}.

Definition empty_db : db := mkDb [] [] 0 0.

(** [s || null] *)
Definition or_null (s : string) : option string :=
  match s with String.EmptyString => None | _ => Some s end.

(* @src backend/db/database.ts:201-205 generatePassId *)
Definition generatePassId (pass : SatellitePass) : string :=
  let timestamp := slice_to 19 (dash_punct (toISOString (pass_aos pass))) in
  let safeName := replace_ws "-" (si_name (pass_satellite pass)) in
  (safeName ++ "_" ++ timestamp)%string.

(** The row written for a capture. *)
(* @src backend/db/database.ts:89-105 saveCapture *)
Definition capture_row (id now : Z) (result : CaptureResult) (pass : SatellitePass) : CaptureRow :=
  let satellite := cr_satellite result in
  mkCaptureRow id (generatePassId pass) (si_name satellite) (si_noradId satellite)
    (si_frequency satellite) (si_signalType satellite)
    (toISOString (pass_aos pass)) (toISOString (pass_los pass)) (pass_maxElevation pass)
    (js_ceil (pass_duration pass)) (or_null (cr_recordingPath result))
    (toISOString (cr_startTime result)) (Some (toISOString (cr_endTime result)))
    (Some (cr_maxSignalStrength result)) (if cr_success result then 1 else 0)
    (cr_error result ≫= or_null) now.

Definition has_pass (passId : string) (d : db) : bool :=
  existsb (fun r => bool_decide (r_pass_id r = passId)) (captures d).

(** [inl] is the exception of a violated constraint. *)
(* @src backend/db/database.ts:77-108 saveCapture *)
Definition saveCapture (now : Z) (result : CaptureResult) (pass : SatellitePass) (d : db)
  : string + (Z * db) :=
  if has_pass (generatePassId pass) d then inl "UNIQUE constraint failed: captures.pass_id"%string
  else
    let id := capture_seq d + 1 in
    inr (id, mkDb (captures d ++ [capture_row id now result pass]) (images d) id (image_seq d)).

(* @src backend/db/database.ts:117-121 imageType *)
Definition imageType (path : string) : string :=
  if includes "-chA" path then "channelA"
  else if includes "-chB" path then "channelB"
  else "composite".

Definition has_capture (captureId : Z) (d : db) : bool :=
  existsb (fun r => r_id r =? captureId) (captures d).

(** The statements run one by one: an exception leaves the earlier rows. *)
(* @src backend/db/database.ts:110-124 saveImages *)
Fixpoint saveImages (captureId : Z) (imagePaths : list string) (d : db) : (string + unit) * db :=
  match imagePaths with
  | [] => (inr tt, d)
  | path :: rest =>
      if has_capture captureId d then
        let id := image_seq d + 1 in
        saveImages captureId rest
          (mkDb (captures d) (images d ++ [mkImageRow id captureId (imageType path) path])
             (capture_seq d) id)
      else (inl "FOREIGN KEY constraint failed"%string, d)
  end.

(** The order in which the engine answers rows, and in which it concatenates the images of
    one row. *)
Record SqlOrder := mkSqlOrder {
  order_rows : list CaptureRow -> list CaptureRow;
  order_images : list ImageRow -> list ImageRow
}.

(** The images of a capture, as GROUP_CONCAT gives them: NULL without images. *)
(* @src backend/db/database.ts:130-133 image_paths *)
Definition image_paths (sql : SqlOrder) (d : db) (id : Z) : option string :=
  match js_filter (fun i => i_capture_id i =? id) (images d) with
  | [] => None
  | l => Some (join (String.String comma "") (map i_file_path (order_images sql l)))
  end.

(* @src backend/db/database.ts:159-178 getRecentCaptures *)
Definition history_entry (sql : SqlOrder) (d : db) (row : CaptureRow) : CaptureHistoryEntry :=
  mkEntry (r_id row) (r_pass_id row) (r_satellite_name row) (r_satellite_norad_id row)
    (r_frequency row) (r_signal_type row) (r_aos_time row) (r_los_time row)
    (r_max_elevation row) (r_duration_seconds row) (r_recording_path row) (r_start_time row)
    (r_end_time row) (r_max_signal_strength row) (r_success row =? 1) (r_error_message row)
    (r_created_at row)
    (match image_paths sql d (r_id row) with
     | None | Some String.EmptyString => []
     | Some s => split_on comma s
     end).

(** [ORDER BY c.created_at DESC]: newest first. *)
Definition newer (a b : CaptureRow) : Prop := r_created_at b <= r_created_at a.

(* @src backend/db/database.ts:126-179 getRecentCaptures *)
Definition getRecentCaptures (sql : SqlOrder) (limit offset : nat) (d : db) : list CaptureHistoryEntry :=
  map (history_entry sql d) (take limit (drop offset (order_rows sql (captures d)))).

(* @src backend/db/database.ts:181-199 getCaptureSummary *)
Definition getCaptureSummary (d : db) : nat * nat * nat :=
  (length (captures d),
   length (js_filter (fun r => r_success r =? 1) (captures d)),
   length (js_filter (fun r => r_success r =? 0) (captures d))).

(** ** The singleton *)

(** [None]: not initialised. *)
Definition instance : Type := option db.

(* @src backend/db/database.ts:228-233 getDatabase *)
Definition getDatabase (i : instance) : string + db :=
  match i with
  | None => inl "Database not initialized. Call initializeDatabase() first."%string
  | Some d => inr d
  end.

(* @src backend/db/database.ts:215-226 initializeDatabase *)
Definition initializeDatabase (opened : db) (i : instance) : instance :=
  match i with Some d => Some d | None => Some opened end.

(* @src backend/db/database.ts:235-240 closeDatabase *)
Definition closeDatabase (i : instance) : instance := None.

(** ** Operations in sequence *)

Inductive op :=
| SaveCaptureOp (now : Z) (result : CaptureResult) (pass : SatellitePass)
| SaveImagesOp (captureId : Z) (paths : list string).

Definition step (d : db) (o : op) : db :=
  match o with
  | SaveCaptureOp now r p => match saveCapture now r p d with inl _ => d | inr x => x.2 end
  | SaveImagesOp id paths => (saveImages id paths d).2
  end.

(** ** Invariant *)

Record db_ok (d : db) : Prop := mkDbOk {
  ok_pass_ids : NoDup (map r_pass_id (captures d));
  ok_ids : Forall (fun r => 0 < r_id r <= capture_seq d) (captures d);
  ok_ids_distinct : NoDup (map r_id (captures d));
  ok_success : Forall (fun r => r_success r = 0 \/ r_success r = 1) (captures d);
  ok_images : Forall (fun i => has_capture (i_capture_id i) d = true) (images d);
  ok_seq : 0 <= capture_seq d
}.

Lemma has_capture_app id r d m s : has_capture id d = true ->
  has_capture id (mkDb (captures d ++ [r]) (images d) m s) = true.
Proof. unfold has_capture. simpl. rewrite existsb_app. by intros ->. Qed.

Lemma has_pass_spec p d : has_pass p d = false <-> p ∉ map r_pass_id (captures d).
Proof.
  unfold has_pass. rewrite <- not_true_iff_false, existsb_exists, list_elem_of_fmap.
  setoid_rewrite bool_decide_eq_true. setoid_rewrite <- list_elem_of_In.
  split; intros H [r Hr]; apply H; exists r; naive_solver.
Qed.

Lemma saveImages_ok id paths d : db_ok d -> db_ok (saveImages id paths d).2 /\
  captures (saveImages id paths d).2 = captures d.
Proof.
  revert d. induction paths as [|p paths IH]; intros d Hd; simpl; [done|].
  destruct (has_capture id d) eqn:E; [|done]. destruct Hd as [H1 H2 H3 H4 H5 H6].
  set (d2 := mkDb _ _ _ _). assert (Hd2 : db_ok d2).
  { split; simpl; try done. apply Forall_app. split; [done|]. by repeat constructor. }
  destruct (IH d2 Hd2) as [H7 H8]. split; [exact H7|by rewrite H8].
Qed.

Lemma saveCapture_ok now r p d id d' : db_ok d -> saveCapture now r p d = inr (id, d') ->
  db_ok d' /\ id = capture_seq d + 1 /\ captures d' = captures d ++ [capture_row id now r p] /\
  images d' = images d.
Proof.
  unfold saveCapture. destruct (has_pass _ d) eqn:E; [done|]. intros [H1 H2 H3 H4 H5 H6] [= <- <-].
  apply has_pass_spec in E. split_and!; [|done..]. split; simpl.
  - rewrite map_app. apply NoDup_app. split_and!; [done| |apply NoDup_singleton].
    intros x Hx ->%list_elem_of_singleton. done.
  - apply Forall_app. split; [|constructor; [simpl; lia|constructor]].
    eapply Forall_impl; [exact H2|]. simpl. intros. lia.
  - rewrite map_app. apply NoDup_app. split_and!; [done| |apply NoDup_singleton].
    intros x (r' & -> & Hr')%list_elem_of_fmap Hx%list_elem_of_singleton. simpl in Hx.
    rewrite Forall_forall in H2. specialize (H2 r' Hr'). lia.
  - apply Forall_app. split; [done|]. constructor; [|constructor]. simpl.
    destruct (cr_success r); auto.
  - eapply Forall_impl; [exact H5|]. simpl. intros i Hi. by apply has_capture_app.
  - lia.
Qed.

Lemma step_ok d o : db_ok d -> db_ok (step d o).
Proof.
  intros Hd. destruct o as [now r p|id paths]; simpl; [|by apply saveImages_ok].
  destruct (saveCapture now r p d) as [m|[id d']] eqn:E; [done|]. by eapply saveCapture_ok.
Qed.

Lemma run_ok ops d : db_ok d -> db_ok (foldl step d ops).
Proof. revert d. induction ops as [|o ops IH]; simpl; auto using step_ok. Qed.

Lemma empty_ok : db_ok empty_db.
Proof. split; try constructor. done. Qed.

Lemma count_split rows : Forall (fun r => r_success r = 0 \/ r_success r = 1) rows ->
  (length (js_filter (fun r => r_success r =? 1)%Z rows) +
   length (js_filter (fun r => r_success r =? 0)%Z rows) = length rows)%nat.
Proof.
  induction 1 as [|r rows Hr _ IH]; simpl; [done|].
  destruct Hr as [-> | ->]; simpl; lia.
Qed.

(** The images of a capture after [saveImages] on it. *)
Lemma saveImages_images id paths d : has_capture id d = true ->
  (saveImages id paths d).1 = inr tt /\
  map i_file_path (js_filter (fun i => i_capture_id i =? id) (images (saveImages id paths d).2)) =
  map i_file_path (js_filter (fun i => i_capture_id i =? id) (images d)) ++ paths.
Proof.
  revert d. induction paths as [|p paths IH]; intros d Hd; simpl.
  - by rewrite app_nil_r.
  - rewrite Hd. destruct (IH (mkDb (captures d)
      (images d ++ [mkImageRow (image_seq d + 1) id (imageType p) p]) (capture_seq d) (image_seq d + 1)))
      as [H1 H2]; [done|]. split; [done|]. rewrite H2. simpl. unfold js_filter.
    rewrite List.filter_app, map_app. simpl. rewrite Z.eqb_refl. simpl. by rewrite <- app_assoc.
Qed.

(** Paths without commas come back from GROUP_CONCAT, in the engine's order. *)
Lemma concat_split paths : Forall (fun p => no_char comma p = true) paths -> paths <> [""%string] ->
  match join (String.String comma "") paths with
  | String.EmptyString => []
  | String.String _ _ => split_on comma (join (String.String comma "") paths)
  end = paths.
Proof.
  intros Hp Hne. destruct (join _ paths) as [|c s] eqn:Ej.
  - destruct paths as [|p [|q paths]]; [done| |]; cbn in Ej; [by subst p|]. by destruct p.
  - rewrite <- Ej. apply split_join; [|done]. by destruct paths.
Qed.

(** The row of a new capture, and the entry the history makes of it and its images, in some
    order, when no path contains a comma, on which the code splits. *)
Lemma saved_entry sql d now result pass id d' paths (Hok : db_ok d) (Hconcat : forall l, order_images sql l ≡ₚ l)
  (Hsave : saveCapture now result pass d = inr (id, d'))
  (Hpaths : Forall (fun p => no_char comma p = true) paths) (Hne : paths <> [""%string]) :
  let d2 := (saveImages id paths d').2 in
  let row := capture_row id now result pass in
  captures d2 = captures d ++ [row] /\ he_imagePaths (history_entry sql d2 row) ≡ₚ paths.
Proof.
  cbv zeta. destruct (saveCapture_ok _ _ _ _ _ _ Hok Hsave) as (Hok' & Hid & Hc & Hi).
  destruct (saveImages_ok id paths d' Hok') as [_ Hc2].
  set (row := capture_row id now result pass) in *.
  assert (Hhas : has_capture id d' = true).
  { unfold has_capture. rewrite Hc, existsb_app. simpl. rewrite Z.eqb_refl. by rewrite orb_true_r. }
  destruct (saveImages_images id paths d' Hhas) as [_ Him].
  assert (Hnone : js_filter (fun i => i_capture_id i =? id) (images d') = []).
  { rewrite Hi. destruct Hok as [_ H2 _ _ H5 _]. clear -H2 H5 Hid.
    induction (images _) as [|i l IH]; simpl; [done|]. inversion H5 as [|? ? Hh H5']; subst.
    destruct (i_capture_id i =? _) eqn:E; [|by apply IH]. props. exfalso.
    unfold has_capture in Hh. apply existsb_exists in Hh as (r & Hr & He). props.
    apply list_elem_of_In in Hr. rewrite Forall_forall in H2. specialize (H2 r Hr). lia. }
  rewrite Hnone in Him. simpl in Him. split; [by rewrite Hc2, Hc|].
  unfold history_entry, image_paths. cbn [he_imagePaths r_id row capture_row].
  destruct (js_filter _ _) as [|i l] eqn:E; simpl in Him; [by subst paths|].
  change (i_file_path i :: map i_file_path l) with (map i_file_path (i :: l)) in Him.
  assert (Hperm : map i_file_path (order_images sql (i :: l)) ≡ₚ paths)
    by (rewrite <- Him; by apply Permutation_map).
  rewrite concat_split; [exact Hperm|by rewrite Hperm|].
  intros E1. rewrite E1 in Hperm. by apply Permutation_singleton_l in Hperm.
Qed.

(** A capture is among the recent ones when few are as recent. *)
Lemma recent_in_history sql limit d row
  (Horder : forall l, order_rows sql l ≡ₚ l /\ StronglySorted newer (order_rows sql l)) (Hin : row ∈ captures d)
  (Hfew : (length (js_filter (fun r => (r_created_at row <=? r_created_at r)%Z) (captures d)) <= limit)%nat) :
  history_entry sql d row ∈ getRecentCaptures sql limit 0 d.
Proof.
  unfold getRecentCaptures. rewrite drop_0. destruct (Horder (captures d)) as [Hp Hs].
  apply list_elem_of_fmap. exists row. split; [done|]. rewrite <- Hp in Hin.
  apply list_elem_of_split in Hin as (a & b & E). rewrite E in *.
  assert (Ha : forall x, x ∈ a -> (r_created_at row <=? r_created_at x) = true).
  { intros x Hx. apply Z.leb_le. clear -Hs Hx. induction a as [|y a IH]; [by apply not_elem_of_nil in Hx|].
    inversion Hs as [|? ? Hs' Hall]; subst. apply elem_of_cons in Hx as [->|Hx]; [|by apply IH].
    rewrite Forall_forall in Hall. apply Hall. set_solver. }
  assert (Hl : (length a + 1 <= limit)%nat).
  { etransitivity; [|exact Hfew]. rewrite <- (Permutation_length (js_filter_perm _ _ _ Hp)).
    unfold js_filter at 1. rewrite List.filter_app, length_app. fold (js_filter (fun r => (r_created_at row <=? r_created_at r)%Z) a).
    rewrite js_filter_all by done. simpl. rewrite Z.leb_refl. simpl. lia. }
  rewrite take_app_ge by lia. apply elem_of_app. right. destruct (limit - length a)%nat eqn:El; [lia|]. left.
Qed.

(** ** Properties *)

(** C39: Whatever is saved, no pass is stored twice, the keys are distinct and
    every image belongs to a stored capture; the counts shown to the user are
    consistent, the total being the successful plus the failed captures. *)
Theorem database_consistent ops :
  let d := foldl step empty_db ops in
  NoDup (map r_pass_id (captures d)) /\ NoDup (map r_id (captures d)) /\
  Forall (fun i => has_capture (i_capture_id i) d = true) (images d) /\
  let '(total, successful, failed) := getCaptureSummary d in
  total = (successful + failed)%nat.
Proof.
  cbv zeta. destruct (run_ok ops empty_db empty_ok) as [H1 H2 H3 H4 H5 H6].
  split_and!; [done..|]. symmetry. by apply count_split.
Qed.

(** What is saved is what the history shows: after a capture and its images
    were saved in any reachable database, the history has an entry under the new
    key, with the satellite, times and outcome of the result, and with exactly
    the saved images, in the engine's order, provided no path contains a comma (the separator
    of GROUP_CONCAT on which the code splits). *)
Theorem saved_capture_in_history ops sql now result pass id d' limit paths
  (Horder : forall l, order_rows sql l ≡ₚ l) (Hconcat : forall l, order_images sql l ≡ₚ l)
  (Hsave : saveCapture now result pass (foldl step empty_db ops) = inr (id, d'))
  (Hpaths : Forall (fun p => no_char comma p = true) paths) (Hne : paths <> [""%string])
  (Hlimit : (length (captures d') <= limit)%nat) :
  exists e, e ∈ getRecentCaptures sql limit 0 (saveImages id paths d').2 /\
    he_id e = id /\ he_passId e = generatePassId pass /\
    he_satelliteName e = si_name (cr_satellite result) /\
    he_startTime e = toISOString (cr_startTime result) /\
    he_success e = cr_success result /\ he_imagePaths e ≡ₚ paths.
Proof.
  pose proof (run_ok ops empty_db empty_ok) as Hok.
  destruct (saved_entry sql _ _ _ _ _ _ paths Hok Hconcat Hsave Hpaths Hne) as [Hc Him].
  destruct (saveCapture_ok _ _ _ _ _ _ Hok Hsave) as (_ & _ & Hc' & _).
  eexists. split; [|split_and!; [..|exact Him]; try done].
  - unfold getRecentCaptures. apply list_elem_of_fmap. eexists. split; [done|].
    rewrite drop_0, take_ge by (rewrite Horder, Hc, <- Hc'; done).
    rewrite Horder, Hc. apply elem_of_app. right. by left.
  - simpl. by destruct (cr_success result).
Qed.

Definition sample_info : SatelliteInfo :=
  mkSatelliteInfo "METEOR-M N2-3" 57166 137900000 lrpt (SIGNAL_CONFIGS lrpt) true None.

Definition stored_pass : SatellitePass :=
  mkPass sample_info 1770105999123 1770106599123 45 1770106299123 600.

Definition stored_result : CaptureResult :=
  mkResult sample_info "recordings/a.wav" ["images/a.png"; "images/b.png"]%string
    1770105939123 1770106659123 0 true None.

Definition stored_db : db := mkDb [capture_row 1 1770106660 stored_result stored_pass] [] 1 0.

Definition inserted : SqlOrder := mkSqlOrder id id.

Lemma saved_capture_in_history_witness :
  exists e, e ∈ getRecentCaptures inserted 50 0
      (saveImages 1 ["images/a.png"; "images/b.png"]%string stored_db).2 /\
    he_passId e = "METEOR-M-N2-3_2026-02-03T08-06-39"%string /\
    he_imagePaths e ≡ₚ ["images/a.png"; "images/b.png"]%string.
Proof.
  destruct (saved_capture_in_history [] inserted 1770106660 stored_result stored_pass 1 stored_db
    50 ["images/a.png"; "images/b.png"]%string) as (e & He & _ & Hp & _ & _ & _ & Hi).
  - done.
  - done.
  - reflexivity.
  - by repeat constructor.
  - done.
  - simpl. lia.
  - exists e. split_and!; [exact He|rewrite Hp; vm_compute; reflexivity|exact Hi].
Defined.

End Database.
