(* ===== verification/Pipeline.v ===== *)
(** * From a pass to the gallery (src/backend/scheduler/scheduler.ts, src/backend/db/database.ts, src/middleware/web/server.ts, src/frontend/src/components/CaptureGallery.tsx)

    The parts composed: the scheduler captures a pass in an environment whose calls to the
    database are those of Database; the server answers the gallery from that database;
    the gallery shows the capture, and the server answers the address of its image with
    the file the decoder wrote. *)

From S2P Require Import Prelude JsStd JsDate Html Types StateManager Effects Shell Signal Recorder Decoders Scheduler Database.
From S2P Require Import WebFiles WebServer Controls Gallery GalleryView.
Local Open Scope prog_scope.

Module Pipeline.
Import Recorder Decoders Scheduler Shell Signal WebFiles.

(** ** An environment with the database *)

Section Env.
Context {W : Type} (h : forall c, W -> resp c * W) (second : W -> Z).

(** [h] answers every other call; [second] is the second of [datetime('now')]. *)
Definition with_db (c : call) (w : W * Database.db) : resp c * (W * Database.db) :=
  let w' := (h c w.1).2 in
  match c as c return resp c -> resp c * (W * Database.db) with
  | SaveCapture r p => fun _ =>
      match Database.saveCapture (second w.1) r p w.2 with
      | inl m => (inl m, (w', w.2))
      | inr (id, d) => (inr id, (w', d))
      end
  | SaveImages id paths => fun _ => let '(a, d) := Database.saveImages id paths w.2 in (a, (w', d))
  | _ => fun a => (a, (w', w.2))
  end (h c w.1).1.

Definition saving (c : call) : bool := match c with SaveCapture _ _ | SaveImages _ _ => true | _ => false end.

Lemma with_db_kept c w r w' : with_db c w = (r, w') -> saving c = false -> w'.2 = w.2.
Proof. destruct c; try done; by intros [= <- <-]. Qed.

Lemma with_db_world c w : (with_db c w).2.1 = (h c w.1).2.
Proof.
  destruct c; try done; unfold with_db; [destruct (Database.saveCapture _ _ _ _) as [m|[id d]]|destruct (Database.saveImages _ _ _) as [a d]]; done.
Qed.

#[global] Instance with_db_clock time `{!Clock h time} : Clock with_db (time ∘ fst).
Proof.
  split; intros; cbn [compose fst].
  - apply (clock_now (h := h)).
  - unfold compose. rewrite with_db_world. apply clock_mono.
  - unfold compose. rewrite with_db_world. apply clock_sleep.
Qed.

#[global] Instance with_db_settles `{!Settles h} : Settles with_db.
Proof. intros cmd args w. apply (settles (h := h)). Qed.

(** What a capture does to the database: its row and its images, unless the pass is there. *)
Definition saved (pass : SatellitePass) (a : res CaptureResult) (d d' : Database.db) : Prop :=
  match a with
  | Ok r =>
      exists now, match Database.saveCapture now r pass d with
                  | inl _ => d' = d
                  | inr (id, d1) => d' = (Database.saveImages id (cr_imagePaths r) d1).2
                  end
  | Throw _ => d' = d
  | Pending => True
  end.

Lemma busy_runs {A} (p : prog A) w : holds busy_call (fun _ => True) p ->
  runs with_db p w (fun _ w' _ => w'.2 = w.2).
Proof.
  revert w. induction p as [a|c k IH]; intros w; [done|]. intros [Hc Hk]. apply runs_Do. intros r w' E.
  apply with_db_kept in E; [|by destruct c]. unfold runs in *. rewrite <- E. by apply IH.
Qed.

Ltac db_step :=
  lazymatch goal with
  | |- runs _ (Do _ _) _ _ =>
      apply runs_Do; let E := fresh "E" in intros ? ? E; apply with_db_kept in E; [|reflexivity]
  | _ => run_step
  end.

Lemma finish_saved r pass w : runs with_db (finish r pass) w (fun a w' _ => a = Ok r /\ saved pass (Ok r) w.2 w'.2).
Proof.
  unfold finish, saveResultToDatabase, saved. run_step. apply runs_Do. intros id w1 E. cbn in E.
  destruct (Database.saveCapture (second w.1) r pass w.2) as [m|[i d]] eqn:Es; injection E as <- <-.
  - run_step. db_step. run_step. split; [done|]. exists (second w.1). rewrite Es. done.
  - destruct (cr_imagePaths r) as [|path rest] eqn:Ep.
    + run_step. db_step. run_step. split; [done|]. exists (second w.1). by rewrite Es.
    + apply runs_Do. intros u w2 E2. cbn [with_db] in E2. cbv zeta in E2. cbn [snd] in E2.
      destruct (Database.saveImages i (path :: rest) d) as [o d2] eqn:Ei. injection E2 as <- <-.
      run_step. db_step. run_step. split; [done|]. exists (second w.1). rewrite Es, Ei. done.
Qed.

Context (cwd : string).

Lemma record_and_decode_saved pass cfg dur w :
  runs with_db (record_and_decode cwd pass cfg dur) w (fun a w' _ => saved pass a w.2 w'.2 /\ no_throw a).
Proof.
  unfold record_and_decode; cbv zeta. db_step. run_step. run_step. rewrite <- E. clear E.
  eapply (runs_mono _ _ _ (fun a w1 _ => saved pass a w'.2 w1.2)).
  - unfold bindR. run_step. eapply runs_mono; [apply busy_runs, recording_calls|].
    cbv beta. intros [path|m|] w1 t1 H1; db_step; [|exact H1|done].
    run_step. eapply runs_mono; [apply busy_runs, decoding_calls|].
    cbv beta. intros [o|m|] w3 t3 H3; db_step; [|cbn; congruence|done].
    eapply runs_mono; [apply finish_saved|].
    cbv beta. intros a w5 t5 [-> H5]. by replace (w'.2) with (w'1.2) by congruence.
  - cbv beta. intros [x|m|] w1 t1 H1; db_step; [by split| |done].
    eapply runs_mono; [apply finish_saved|].
    cbv beta. intros a w3 t3 [-> H3]. split; [|done]. cbn in H1. by replace (w'.2) with (w'0.2) by congruence.
Qed.

(** Whatever the environment answers, the capture that ends with a result has stored that
    result, and nothing else. *)
Lemma capturePass_saved pass cfg w :
  runs with_db (capturePass cwd pass cfg) w (fun a w' _ => saved pass a w.2 w'.2).
Proof.
  unfold capturePass; cbv zeta. run_step. unfold release_sdr. db_step.
  assert (Hrest : forall w1, w1.2 = w.2 -> runs with_db
    (SM (StateManager.StartPass pass);;;
     signalOk <-! (if cfg_skipSignalCheck cfg then Ret (Ok true)
                else verifySignal (pass_satellite pass) (cfg_gain cfg) (cfg_minSignalStrength cfg) default_attempts);;
     if signalOk : bool then record_and_decode cwd pass cfg (js_ceil (pass_duration pass) + captureBufferSeconds * 2)
     else startTime <~ Now;; endTime <~ Now;;
       finish (mkResult (pass_satellite pass) "" [] startTime endTime 0 false (Some "Signal too weak"%string)) pass) w1
    (fun a w' _ => saved pass a w.2 w'.2)).
  { intros w1 <-. db_step. rewrite <- E0. clear E0. run_step. run_step.
    apply (runs_mono _ _ _ (fun _ w2 _ => w2.2 = w'0.2)).
    { destruct (cfg_skipSignalCheck cfg); [by run_step|]. apply busy_runs, verifySignal_calls. }
    cbv beta. intros [[|]|m|] w2 t2 H2; [| |done..].
    - rewrite <- H2. eapply runs_mono; [apply record_and_decode_saved|]. by intros a w3 t3 [H3 _].
    - db_step. db_step. eapply runs_mono; [apply finish_saved|]. cbv beta. intros a w5 t5 [-> H5].
      by replace (w'0.2) with (w'2.2) by congruence. }
  destruct r.
  - db_step. db_step. run_step. apply Hrest. congruence.
  - run_step. apply Hrest. congruence.
Qed.
End Env.

(** ** From the database to the page *)

(** A capture the page is sent, with its place in the gallery. *)
Lemma sent_shown l e g : e ∈ l -> Gallery.pending g <> 0%nat ->
  let g' := Gallery.step (Gallery.EFetched (Controls.Response 200 (map Gallery.record_of l))) g in
  Gallery.loading g' = false /\ exists i, Gallery.captures g' !! i = Some (Gallery.record_of e).
Proof.
  intros He Hg. cbv zeta. cbn [Gallery.step]. destruct (Gallery.pending g) as [|n]; [done|].
  split; [done|]. apply list_elem_of_lookup in He as [i Hi]. exists i.
  cbn. change (map Gallery.record_of l) with (Gallery.record_of <$> l). by rewrite list_lookup_fmap, Hi.
Qed.

(** The image of a capture in the gallery, in its thumbnail and, after a click on it, large. *)
Lemma capture_image date_of time_of tips g i c path : Gallery.loading g = false ->
  Gallery.captures g !! i = Some c -> Gallery.first_image c = Some path ->
  Gallery.image_src path ∈ GalleryView.sources (GalleryView.CaptureGallery date_of time_of tips g) /\
  Gallery.lightbox (GalleryView.user date_of time_of tips Html.Click [0; 1; i]%nat g) = Some (Gallery.image_src path).
Proof.
  intros Hl Hi Hp. split.
  - rewrite GalleryView.gallery_images; [|done|by intros E; rewrite E in Hi].
    apply elem_of_app. left. apply list_elem_of_omap. exists c. split; [by eapply list_elem_of_lookup_2|].
    unfold Gallery.first_image in Hp. destruct (he_imagePaths (Gallery.entry c)) as [|[|x q] rest]; [done..|].
    by injection Hp as <-.
  - unfold GalleryView.user. erewrite GalleryView.click_thumbnail by done. cbn. unfold Gallery.click.
    rewrite Hl, Hi. simpl. by rewrite Hp.
Qed.

Section Whole.
Context {W : Type} (h : forall c, W -> resp c * W) (time : W -> Z) `{!Clock h time} `{!Settles h}.
Context (second : W -> Z) (cwd : string).

(** What the page shows of a capture with a result. *)
Record shown (r : CaptureResult) (pass : SatellitePass) (c : Gallery.CaptureRecord) : Prop := mkShown {
  shown_pass : he_passId (Gallery.entry c) = Database.generatePassId pass;
  shown_satellite : Gallery.satellite c = si_name (pass_satellite pass);
  shown_start : Gallery.timestamp c = toISOString (cr_startTime r);
  shown_success : he_success (Gallery.entry c) = cr_success r;
  shown_images : he_imagePaths (Gallery.entry c) ≡ₚ cr_imagePaths r
}.

(** C12: What the station captures the gallery shows: whatever the environment answers, a pass
    that was not captured before is captured with a result; when the page next asks the
    server, it shows that result among its captures, with its images, if at most twelve
    captures are as recent and no path of an image contains a comma.  The image the
    database lists first is in the thumbnail, and large after a click on it; and when it
    lies directly in the images directory, given as an absolute path, the server answers
    its address by reading that very file. *)
Theorem capture_reaches_gallery config pass ops w sql
  (Hdb : w.2 = foldl Database.step Database.empty_db ops)
  (Hnew : Database.has_pass (Database.generatePassId pass) w.2 = false)
  (Horder : forall l, Database.order_rows sql l ≡ₚ l /\ StronglySorted Database.newer (Database.order_rows sql l))
  (Hconcat : forall l, Database.order_images sql l ≡ₚ l) :
  let d := (final (with_db h second) (capturePass cwd pass config) w).2 in
  exists r, result (with_db h second) (capturePass cwd pass config) w = Ok r /\
  (Forall (fun p => no_char comma p = true) (cr_imagePaths r) -> cr_imagePaths r <> [""%string] ->
   (forall x, x ∈ Database.captures d -> Database.r_pass_id x = Database.generatePassId pass ->
      (length (js_filter (fun y => Database.r_created_at x <=? Database.r_created_at y)%Z (Database.captures d)) <= 12)%nat) ->
   forall src throws rid now s g static dir date_of time_of tips,
   WebServer.src_captures src 12 0 = Some (Database.getRecentCaptures sql 12 0 d) -> Gallery.pending g <> 0%nat ->
   exists l i c,
     WebServer.on_request src throws rid now "GET" "/api/captures" (Some 12%Z) None None s = (s, [WebServer.Respond rid (WebServer.RCaptures l)]) /\
     let g' := Gallery.step (Gallery.EFetched (Controls.Response 200 (map Gallery.record_of l))) g in
     Gallery.captures g' !! i = Some c /\ shown r pass c /\
     forall path, Gallery.first_image c = Some path ->
       let url := Gallery.image_src path in
       path ∈ cr_imagePaths r /\
       url ∈ GalleryView.sources (GalleryView.CaptureGallery date_of time_of tips g') /\
       Gallery.lightbox (GalleryView.user date_of time_of tips Html.Click [0; 1; i]%nat g') = Some url /\
       forall name, path = (dir ++ "/" ++ name)%string -> resolved dir -> plain name -> includes ".." name = false ->
         serve_path static dir url = Some (reply <- serve_file path "image/png";; Ret (Ok reply))).
Proof.
  cbv zeta. set (d := (final _ _ w).2).
  destruct (capturePass_ok (with_db h second) (time ∘ fst) cwd config pass w) as [r Hr]. exists r. split; [done|].
  intros Hcomma Hne Hfew src throws rid now s g static dir date_of time_of tips Hsrc Hg.
  pose proof (capturePass_satellite (with_db h second) cwd config pass w r Hr) as Hsat.
  assert (Hs : saved pass (Ok r) w.2 d) by (rewrite <- Hr; exact (capturePass_saved h second cwd pass config w)).
  destruct Hs as [sec Hs]. unfold Database.saveCapture in Hs. rewrite Hnew in Hs.
  edestruct (Database.saved_entry sql w.2 sec r pass) as [Hc Him]; [rewrite Hdb; apply Database.run_ok, Database.empty_ok|exact Hconcat| |exact Hcomma|exact Hne|].
  { unfold Database.saveCapture. by rewrite Hnew. }
  rewrite <- Hs in Hc, Him. set (row := Database.capture_row _ _ _ _) in *.
  assert (Hin : row ∈ Database.captures d) by (rewrite Hc; set_solver).
  pose proof (Database.recent_in_history sql 12 d row Horder Hin (Hfew row Hin eq_refl)) as He.
  set (l := Database.getRecentCaptures sql 12 0 d) in *.
  destruct (sent_shown l _ g He Hg) as [Hl [i Hi]].
  exists l, i, (Gallery.record_of (Database.history_entry sql d row)). split.
  { unfold WebServer.on_request. cbn. by rewrite Hsrc. }
  split; [exact Hi|]. split.
  { split; try done; [cbn; by rewrite Hsat|]. cbn. by destruct (cr_success r). }
  intros path Hfirst. cbv zeta. destruct (capture_image date_of time_of tips _ i _ path Hl Hi Hfirst) as [H1 H2].
  split; [|split; [exact H1|split; [exact H2|]]].
  - rewrite <- Him. unfold Gallery.first_image in Hfirst.
    change (he_imagePaths (Gallery.entry (Gallery.record_of (Database.history_entry sql d row))))
      with (he_imagePaths (Database.history_entry sql d row)) in Hfirst.
    destruct (he_imagePaths _) as [|[|x q] ps]; [done|done|]. injection Hfirst as <-. left.
  - intros name -> Hdir Hplain Hup. apply Gallery.serve_image_src; [done..|].
    apply Gallery.last_segment. by destruct Hplain as (_ & _ & ?).
Qed.
End Whole.

(** ** A capture of the ISS *)

#[local] Instance newer_dec a b : Decision (Database.newer a b).
Proof. unfold Database.newer. apply _. Defined.
#[local] Instance newer_total : Total Database.newer.
Proof. intros a b. unfold Database.newer. lia. Qed.
#[local] Instance newer_trans : Transitive Database.newer.
Proof. intros a b c. unfold Database.newer. lia. Qed.

(** The newest row first, and the image inserted last first. *)
Definition newest_first : Database.SqlOrder := Database.mkSqlOrder (merge_sort Database.newer) (@rev _).

Lemma newest_first_ok l :
  Database.order_rows newest_first l ≡ₚ l /\ StronglySorted Database.newer (Database.order_rows newest_first l).
Proof. split; [apply merge_sort_Permutation|apply StronglySorted_merge_sort; apply _]. Qed.

Definition iss_pass : SatellitePass :=
  mkPass (mkSatelliteInfo "ISS" 25544 145800000 sstv (SIGNAL_CONFIGS sstv) false (Some true))
    1770105939123%Z 1770105940123%Z 45 1770105939623%Z 1.

Definition iss_config : ReceiverConfig :=
  mkConfig mode_full None 3001 "0.0.0.0" (mkCoordinates (515 # 10) 0 10) 45 48000 0 20 (-30)
    true "/srv/recordings" "/srv/images" 24 3000 "0.0.0.0" "./data/captures.db" log_info true.

Definition iss_image : string := "ISS_2026-02-03T08-05-39-sstv.png".

(** The decoder is installed and leaves its image. *)
Definition iss_world : world :=
  mkWorld 1770105939123 None [[OnStdout "OK"]]
    ["/app/scripts/sstv-decode-wrapper.py"; "/srv/images/" ++ iss_image]%string false false idle.

Local Notation iss_result := (result (with_db handle w_time) (capturePass "/app" iss_pass iss_config) (iss_world, Database.empty_db)).
Local Notation iss_final := (final (with_db handle w_time) (capturePass "/app" iss_pass iss_config) (iss_world, Database.empty_db)).

Definition iss_sources (d : Database.db) : WebServer.Sources :=
  WebServer.mkSources
    (fun limit offset => Some (Database.getRecentCaptures newest_first (Z.to_nat limit) (Z.to_nat offset) d))
    None None None (fun _ => None) (fun _ => None).

Lemma iss_captured : exists r, iss_result = Ok r /\ cr_imagePaths r = ["/srv/images/" ++ iss_image]%string.
Proof. eexists. split; [vm_compute; reflexivity|reflexivity]. Qed.

Lemma iss_stored : length (Database.captures iss_final.2) = 1%nat.
Proof. vm_compute. reflexivity. Qed.

Lemma capture_reaches_gallery_witness :
  exists l i, let g' := Gallery.step (Gallery.EFetched (Controls.Response 200 (map Gallery.record_of l))) Gallery.mount in
    Gallery.lightbox (GalleryView.user id id (fun _ _ => false) Html.Click [0; 1; i]%nat g') =
      Some "/api/images/ISS_2026-02-03T08-05-39-sstv.png"%string /\
    serve_path "/srv/static" "/srv/images" "/api/images/ISS_2026-02-03T08-05-39-sstv.png" =
      Some (reply <- serve_file "/srv/images/ISS_2026-02-03T08-05-39-sstv.png" "image/png";; Ret (Ok reply)).
Proof.
  destruct (capture_reaches_gallery handle w_time w_time "/app" iss_config iss_pass [] (iss_world, Database.empty_db)
    newest_first eq_refl eq_refl newest_first_ok (fun l => symmetry (Permutation_rev l))) as (r & Hr & H).
  pose proof iss_stored as Hd. revert Hr H Hd. generalize iss_final as w. intros w Hr H Hd.
  destruct iss_captured as (r' & Hr' & Hi). assert (E : r = r') by congruence. subst r'. rewrite Hi in H.
  specialize (H ltac:(by repeat constructor) ltac:(done)).
  destruct (H ltac:(intros; etransitivity; [apply js_filter_length|rewrite Hd; lia]) (iss_sources w.2) (fun _ => false) 0%nat 0%Z
    (WebServer.initial false 20 (StateManager.initial 0%Z) None) Gallery.mount "/srv/static"%string "/srv/images"%string
    id id (fun _ _ => false) eq_refl ltac:(done)) as (l & i & c & _ & _ & Hshown & Hc).
  exists l, i. apply shown_images in Hshown. rewrite Hi in Hshown. apply Permutation_singleton_r in Hshown.
  destruct (Hc ("/srv/images/" ++ iss_image)%string) as (_ & _ & Hl & Hserve); [unfold Gallery.first_image; by rewrite Hshown|].
  split; [exact Hl|]. apply (Hserve iss_image eq_refl sample_images_resolved); [by repeat split|reflexivity].
Defined.
End Pipeline.
