(* ===== verification/Maintenance.v ===== *)
(** * Maintenance (src/backend/cli/commands/maintenance.ts)

    The names of the recordings are parsed back into a satellite and a time, and
    the recordings are compared with the database.  The parsed text has no zone,
    so [new Date] reads it as local time: the offset of local time is an
    argument. *)

From Stdlib Require Import Ascii.
From S2P Require Import Prelude JsStd JsDate Types StateManager Effects Shell Recorder Decoders Database.
Import Recorder Decoders Database.
Local Open Scope Z_scope.
#[local] Ltac Zify.zify_post_hook ::= Z.div_mod_to_equations.

Module Maintenance.

(* @src backend/cli/commands/maintenance.ts:20-26 WavFileInfo *)
Record WavFileInfo := mkWav {
  wav_path : string;
  wav_name : string;
  wav_size : Z;
  wav_satellite : string;
  wav_timestamp : option Z
}.

(** A pattern where 9 stands for a digit. *)
Fixpoint match_pattern (pattern s : string) : bool :=
  match pattern, s with
  | String.EmptyString, String.EmptyString => true
  | String.String p pattern, String.String c s =>
      (if Ascii.eqb p "9" then is_digit c else Ascii.eqb c p) && match_pattern pattern s
  | _, _ => false
  end.

Definition num2 (a b : ascii) : Z := digit_val a * 10 + digit_val b.

(** The fields of [_YYYY-MM-DDTHH-MM-SS.wav]. *)
Definition tail_fields (tail : string) : option fields :=
  match String.list_ascii_of_string tail with
  | _ :: y1 :: y2 :: y3 :: y4 :: _ :: m1 :: m2 :: _ :: d1 :: d2 :: _ :: h1 :: h2 :: _ ::
    n1 :: n2 :: _ :: s1 :: s2 :: _ =>
      Some (Fields (num2 y1 y2 * 100 + num2 y3 y4) (num2 m1 m2) (num2 d1 d2) (num2 h1 h2)
              (num2 n1 n2) (num2 s1 s2) 0)
  | _ => None
  end.

Definition valid_fields (f : fields) : bool :=
  (1 <=? f_month f) && (f_month f <=? 12) && (1 <=? f_day f) && (f_day f <=? 31) &&
  (f_hour f <=? 23) && (f_min f <=? 59) && (f_sec f <=? 59).

(** [new Date("YYYY-MM-DDTHH:MM:SS")]: local time; [None] is an invalid date. *)
Definition local_date (local_offset : fields -> Z) (f : fields) : option Z :=
  if valid_fields f then Some (time_of_fields f - local_offset f) else None.

(** The date part of the expression has a fixed length, so the lazy match of the
    name ends at the 24th character from the end. *)
(* @src backend/cli/commands/maintenance.ts:28-44 parseWavFilename *)
Definition parseWavFilename (local_offset : fields -> Z) (filename : string)
  : option (string * option Z) :=
  let k := (String.length filename - 24)%nat in
  let satellite := slice_to k filename in
  let tail := slice_from k filename in
  if Nat.ltb 24 (String.length filename) && match_pattern "_9999-99-99T99-99-99.wav" tail
     && no_char nl satellite
  then Some (satellite, tail_fields tail ≫= local_date local_offset)
  else None.

(** The listing of the directory, with the sizes [stat] gives. *)
(* @src backend/cli/commands/maintenance.ts:49-76 scanRecordings *)
Definition scanRecordings (local_offset : fields -> Z) (recordingsDir : string)
  (files : list (string * Z)) : list WavFileInfo :=
  omap (fun '(file, size) =>
          if endsWith ".wav" file then
            (fun '(satellite, timestamp) =>
               mkWav (path_join recordingsDir file) file size satellite timestamp) <$>
            parseWavFilename local_offset file
          else None) files.

(** The history entry whose recording path contains a file name. *)
(* @src backend/cli/commands/maintenance.ts:92-93 existing *)
Definition entry_of (history : list CaptureHistoryEntry) (name : string)
  : option CaptureHistoryEntry :=
  js_find (fun c => match he_recordingPath c with Some p => includes name p | None => false end)
    history.

(* @src backend/cli/commands/maintenance.ts:81-97 findMissingRecordings *)
Definition findMissingRecordings (history : list CaptureHistoryEntry) (minSize : Z)
  (recordings : list WavFileInfo) : list WavFileInfo :=
  js_filter (fun r => if wav_size r <? minSize then false
                      else match entry_of history (wav_name r) with Some _ => false | None => true end)
    recordings.

(* @src backend/cli/commands/maintenance.ts:102-117 findUndecodedRecordings *)
Definition findUndecodedRecordings (history : list CaptureHistoryEntry) (minSize : Z)
  (recordings : list WavFileInfo) : list WavFileInfo :=
  js_filter (fun r => if wav_size r <? minSize then false
                      else match entry_of history (wav_name r) with
                           | Some c => Nat.eqb (length (he_imagePaths c)) 0
                           | None => false
                           end) recordings.

(* @src backend/cli/commands/maintenance.ts:128-128 signalType *)
Definition signal_type_of (satellite : string) : SignalType :=
  if startsWith "METEOR" satellite then lrpt else sstv.

(** [inl] when an exception was caught: no images. *)
(* @src backend/cli/commands/maintenance.ts:122-151 decodeRecording *)
Definition decode_recording (cwd imagesDir : string) (recording : WavFileInfo)
  : prog (res (bool * list string)) :=
  try_catch
    (match getDecoder (signal_type_of (wav_satellite recording)) (decoderRegistry cwd) with
     | None => Ret (Ok (false, []))
     | Some decoder =>
         bindR (dec_decode decoder (wav_path recording) imagesDir) (fun result =>
           Ret (Ok (match result with
                    | Some r => if Nat.ltb 0 (length (outputPaths r)) then (true, outputPaths r)
                                else (false, [])
                    | None => (false, [])
                    end)))
     end)
    (fun _ => Ret (Ok (false, []))).

(* @src backend/cli/commands/maintenance.ts:156-172 addImagesToDatabase *)
Definition addImagesToDatabase (history : list CaptureHistoryEntry) (recordingName : string)
  (imagePaths : list string) (d : db) : (string + unit) * db :=
  match entry_of history recordingName with
  | None => (inr tt, d)
  | Some capture => saveImages (he_id capture) imagePaths d
  end.

(** An exception of [unlink] is logged; the result counts the files that were deleted. *)
(* @src backend/cli/commands/maintenance.ts:177-196 cleanupFailedRecordings *)
Fixpoint cleanupFailedRecordings (maxSize : Z) (recordings : list WavFileInfo) : prog nat :=
  match recordings with
  | [] => Ret 0%nat
  | recording :: rest =>
      if wav_size recording <=? maxSize then
        Do (Unlink (wav_path recording)) (fun r =>
          bind (cleanupFailedRecordings maxSize rest) (fun deletedCount =>
            Ret (match r with inr _ => S deletedCount | inl _ => deletedCount end)))
      else cleanupFailedRecordings maxSize rest
  end.

(** ** The routine *)

Section Routine.
Context (cwd : string) (local_offset : fields -> Z) (sql_order : SqlOrder).
Context (config : ReceiverConfig).

(** One recording after the other; an exception of the database ends the loop, with
    what was written before. *)
(* @src backend/cli/commands/maintenance.ts:226-232 runMaintenance *)
Fixpoint decode_all (undecoded : list WavFileInfo) (d : db) : prog (db * res unit) :=
  match undecoded with
  | [] => Ret (d, Ok tt)
  | recording :: rest =>
      bind (decode_recording cwd (cfg_imagesDir config) recording) (fun result =>
        match result with
        | Ok (success, imagePaths) =>
            if success && Nat.ltb 0 (length imagePaths) then
              match addImagesToDatabase (getRecentCaptures sql_order 1000 0 d) (wav_name recording)
                      imagePaths d with
              | (inr _, d) => decode_all rest d
              | (inl m, d) => Ret (d, Throw m)
              end
            else decode_all rest d
        | Throw m => Ret (d, Throw m)
        | Pending => Ret (d, Pending)
        end)
  end.

(** [files] is the listing with the sizes at the time of the scan, [None] when it failed;
    [opened] is the database when it is first asked for: its initialisation is not awaited.
    The recordings that are not in the database are only counted. *)
(* @src backend/cli/commands/maintenance.ts:201-249 runMaintenance *)
Definition runMaintenance (decode cleanup : bool) (files : option (list (string * Z)))
  (opened : instance) : prog (instance * res unit) :=
  let recordings := match files with
                    | Some l => scanRecordings local_offset (cfg_recordingsDir config) l
                    | None => []
                    end in
  let decoded :=
    if decode then
      match getDatabase opened with
      | inl m => Ret (opened, Throw m)
      | inr d =>
          let undecoded := findUndecodedRecordings (getRecentCaptures sql_order 1000 0 d) 1000000 recordings in
          bind (decode_all undecoded d) (fun '(d, r) => Ret (Some d, r))
      end
    else Ret (opened, Ok tt) in
  bind decoded (fun '(i, r) =>
    match r with
    | Ok _ =>
        if cleanup then
          let failedRecordings := js_filter (fun r => wav_size r <=? 10000) recordings in
          bind (cleanupFailedRecordings 10000 failedRecordings) (fun _ => Ret (i, Ok tt))
        else Ret (i, Ok tt)
    | _ => Ret (i, r)
    end).
End Routine.

(** What the arguments ask for; [None] prints the usage and exits. *)
(* @src backend/cli/commands/maintenance.ts:253-272 main *)
Definition maintenance_options (args : list string) : option (bool * bool) :=
  let has a := bool_decide (a ∈ args) in
  let shouldDecode := has "--decode"%string || has "--all"%string in
  let shouldCleanup := has "--cleanup"%string || has "--all"%string in
  if negb shouldDecode && negb shouldCleanup then None else Some (shouldDecode, shouldCleanup).

(** ** Facts *)

Lemma num2_pad n : 0 <= n <= 99 -> num2 (digit_char (n / 10)) (digit_char n) = n.
Proof. intros Hn. unfold num2. rewrite !digit_char_value. lia. Qed.

Lemma num4_pad n : 0 <= n <= 9999 ->
  num2 (digit_char (n / 100 / 10)) (digit_char (n / 100)) * 100 +
  num2 (digit_char (n / 10)) (digit_char n) = n.
Proof. intros Hn. unfold num2. rewrite !digit_char_value. lia. Qed.

Definition punct (c : ascii) : ascii := if Ascii.eqb c ":" || Ascii.eqb c "." then "-"%char else c.

Lemma dash_cons c s : dash_punct (String.String c s) = String.String (punct c) (dash_punct s).
Proof. done. Qed.

Lemma punct_digit n : punct (digit_char n) = digit_char n.
Proof. unfold punct. by rewrite !digit_char_neq. Qed.

(** The time part of a file name. *)
Lemma filename_time now :
  slice_to 19 (dash_punct (toISOString now)) = show_to_seconds "-" (fields_of_time now).
Proof.
  unfold toISOString, show_to_seconds. set (f := fields_of_time now).
  unfold pad4, pad3, pad2. cbn [String.append]. rewrite !dash_cons, !punct_digit. done.
Qed.

Lemma replace_ws_from_no_nl b s : no_char nl (replace_ws_from b "-" s) = true.
Proof.
  revert b. induction s as [|c s IH]; intros b; simpl; [done|].
  destruct (is_ws c) eqn:E; [by destruct b; simpl; rewrite IH|]. simpl. rewrite IH, andb_true_r.
  apply negb_true_iff, Ascii.eqb_neq. intros ->. done.
Qed.

Lemma replace_ws_no_nl s : no_char nl (replace_ws "-" s) = true.
Proof. apply replace_ws_from_no_nl. Qed.

Lemma match_cons p pattern c s :
  match_pattern (String.String p pattern) (String.String c s) =
  (if Ascii.eqb p "9" then is_digit c else Ascii.eqb c p) && match_pattern pattern s.
Proof. done. Qed.

(** The end of a file name: it has the pattern and its fields. *)
Lemma filename_tail f : fields_wf f ->
  let tail := String.String "_" (show_to_seconds "-" f ++ ".wav")%string in
  String.length tail = 24%nat /\
  match_pattern "_9999-99-99T99-99-99.wav" tail = true /\
  tail_fields tail = Some (Fields (f_year f) (f_month f) (f_day f) (f_hour f) (f_min f) (f_sec f) 0).
Proof.
  intros (Hy & Hm & Hd & Hh & Hn & Hs & _). cbv zeta. unfold show_to_seconds, pad4, pad2.
  cbn [String.append]. split_and!.
  - done.
  - rewrite !match_cons. cbn [Ascii.eqb Bool.eqb]. rewrite !digit_char_digit. done.
  - unfold tail_fields. cbn [String.list_ascii_of_string]. by rewrite num4_pad, !num2_pad by lia.
Qed.

(** ** Properties *)

(** C38: The name given to a recording is parsed back to the satellite, its spaces
    replaced, and to the second it was started, read as local time: the time is
    the right one where local time is UTC, and off by the offset elsewhere. *)
Theorem parse_generated_filename local_offset now name
  (Hyear : four_digit_year now) (Hname : name <> ""%string) :
  parseWavFilename local_offset (generateFilename now name "wav") =
  Some (replace_ws "-" name, Some (seconds_floor now - local_offset
    (let f := fields_of_time now in
     Fields (f_year f) (f_month f) (f_day f) (f_hour f) (f_min f) (f_sec f) 0))).
Proof.
  unfold generateFilename. rewrite filename_time. set (safe := replace_ws "-" name).
  pose proof (fields_of_time_wf now Hyear) as Hwf.
  destruct (filename_tail (fields_of_time now) Hwf) as (Hl & Hp & Hf).
  set (tail := String.String "_" _) in *.
  assert (Hfile : (safe ++ "_" ++ show_to_seconds "-" (fields_of_time now) ++ "." ++ "wav")%string
                  = (safe ++ tail)%string) by done.
  rewrite Hfile. unfold parseWavFilename. rewrite length_str_app, Hl.
  replace (String.length safe + 24 - 24)%nat with (String.length safe) by lia.
  assert (Hnl : no_char nl safe = true) by apply replace_ws_no_nl.
  rewrite slice_to_app, slice_from_app, Hp, Hnl, Hf.
  assert (Hsafe : (0 < String.length safe)%nat).
  { subst safe. destruct name as [|c s]; [done|]. unfold replace_ws. simpl.
    destruct (is_ws c); simpl; lia. }
  replace (Nat.ltb 24 (String.length safe + 24)) with true by (symmetry; apply Nat.ltb_lt; lia).
  cbn [andb]. f_equal. f_equal. cbn [mbind option_bind]. unfold local_date.
  assert (Hv : valid_fields (Fields (f_year (fields_of_time now)) (f_month (fields_of_time now))
    (f_day (fields_of_time now)) (f_hour (fields_of_time now)) (f_min (fields_of_time now))
    (f_sec (fields_of_time now)) 0) = true).
  { unfold valid_fields. cbn [f_month f_day f_hour f_min f_sec].
    destruct Hwf as (? & ? & ? & ? & ? & ? & ?). rewrite !andb_true_iff, !Z.leb_le. lia. }
  rewrite Hv. do 2 f_equal. apply seconds_floor_fields.
Qed.

Lemma parse_generated_filename_witness :
  parseWavFilename (fun _ => 3600000) (generateFilename 1770105939123 "METEOR-M N2-3" "wav")
  = Some ("METEOR-M-N2-3"%string, Some (1770105939000 - 3600000)).
Proof.
  apply (parse_generated_filename (fun _ => 3600000) 1770105939123 "METEOR-M N2-3").
  - unfold four_digit_year. vm_compute. split; discriminate.
  - discriminate.
Defined.

(** Maintenance never decodes a recording whose capture already has images, and what it
    counts as missing has no entry. *)
Theorem maintenance_selects history recordings minSize r :
  (r ∈ findUndecodedRecordings history minSize recordings <->
   r ∈ recordings /\ minSize <= wav_size r /\
   exists c, entry_of history (wav_name r) = Some c /\ he_imagePaths c = []) /\
  (r ∈ findMissingRecordings history minSize recordings <->
   r ∈ recordings /\ minSize <= wav_size r /\ entry_of history (wav_name r) = None).
Proof.
  unfold findUndecodedRecordings, findMissingRecordings.
  rewrite !js_filter_elem. split_and!.
  - destruct (wav_size r <? minSize) eqn:E; props; [split; [by intros []|intros (_ & ? & _); lia]|].
    destruct (entry_of history (wav_name r)) as [c|].
    + rewrite Nat.eqb_eq, length_zero_iff_nil. split; [intros [? ?]; eauto|].
      by intros (? & _ & c' & [= <-] & ?).
    + split; [by intros []|by intros (_ & _ & c' & ? & _)].
  - destruct (wav_size r <? minSize) eqn:E; props; [split; [by intros []|intros (_ & ? & _); lia]|].
    destruct (entry_of history (wav_name r)); [split; [by intros []|by intros (_ & _ & ?)]|].
    split; [by intros []|]. by intros (? & _ & _).
Qed.

(** ** The routine and the database *)

(** What is appended by [saveImages] belongs to the capture. *)
Lemma saveImages_appends id paths : forall d, has_capture id d = true ->
  exists new, images (saveImages id paths d).2 = images d ++ new /\
    Forall (fun i => i_capture_id i = id) new.
Proof.
  induction paths as [|p paths IH]; intros d Hd; simpl; [exists []; by rewrite app_nil_r|].
  rewrite Hd. set (d2 := mkDb _ _ _ _). destruct (IH d2 Hd) as (new & -> & Hn).
  exists (mkImageRow (image_seq d + 1) id (imageType p) p :: new).
  split; [subst d2; cbn [images]; by rewrite <- app_assoc|by constructor].
Qed.

Lemma decode_recording_settles {W} (h : forall c, W -> resp c * W) `{!Settles h} cwd dir r w :
  exists x, result h (decode_recording cwd dir r) w = Ok x.
Proof.
  unfold decode_recording, try_catch.
  destruct (getDecoder _ (decoderRegistry cwd)) as [dec|] eqn:E; [|by eexists].
  pose proof (getDecoder_ok _ _ _ E) as Hd. pose proof (dec_settles h (wav_path r) dir w) as Hs.
  unfold bindR. props.
  destruct (result h (dec_decode dec _ _) w) as [x|m|]; [by props; eexists|by props; eexists|done].
Qed.

Section Outcome.
Context (sql_order : SqlOrder) (Horder : forall l, order_rows sql_order l ≡ₚ l).

(** An entry of the history is a stored capture. *)
Lemma history_stored limit d c : c ∈ getRecentCaptures sql_order limit 0 d -> has_capture (he_id c) d = true.
Proof.
  unfold getRecentCaptures. rewrite drop_0. intros (row & -> & Hr)%list_elem_of_fmap.
  apply elem_of_take_inv in Hr. rewrite Horder in Hr. apply existsb_exists. exists row.
  split; [by apply list_elem_of_In|]. apply Z.eqb_refl.
Qed.

(** With the same captures a name finds the same capture, whatever images were added. *)
Lemma entry_of_same d d' name : captures d' = captures d ->
  he_id <$> entry_of (getRecentCaptures sql_order 1000 0 d') name =
  he_id <$> entry_of (getRecentCaptures sql_order 1000 0 d) name.
Proof.
  intros Hc. unfold getRecentCaptures, entry_of. rewrite Hc.
  set (rows := take 1000 (drop 0 (order_rows sql_order (captures d)))). clearbody rows.
  induction rows as [|r rows IH]; [done|]. cbn [map js_find history_entry he_recordingPath].
  by destruct (match r_recording_path r with Some p => includes name p | None => false end).
Qed.

(** [d'] is [d] with images of captures that had none. *)
Record images_added (d d' : db) : Prop := mkAdded {
  ad_ok : db_ok d';
  ad_captures : captures d' = captures d;
  ad_images : exists new, images d' = images d ++ new /\
    Forall (fun i => exists c, c ∈ getRecentCaptures sql_order 1000 0 d /\
                               he_id c = i_capture_id i /\ he_imagePaths c = []) new
}.

Lemma add_images d d' name paths c : images_added d d' ->
  entry_of (getRecentCaptures sql_order 1000 0 d) name = Some c -> he_imagePaths c = [] ->
  let r := addImagesToDatabase (getRecentCaptures sql_order 1000 0 d') name paths d' in
  r.1 = inr tt /\ images_added d r.2.
Proof.
  intros [Hok Hc (new & Hi & Hn)] He Hp. cbv zeta. unfold addImagesToDatabase.
  pose proof (entry_of_same d d' name Hc) as Hs. rewrite He in Hs.
  destruct (entry_of (getRecentCaptures sql_order 1000 0 d') name) as [c'|] eqn:E; [|done].
  cbn in Hs. injection Hs as Hid.
  assert (Hin : c ∈ getRecentCaptures sql_order 1000 0 d) by (by apply js_find_Some in He as [? _]).
  apply js_find_Some in E as [Hin' _]. apply history_stored in Hin'.
  destruct (saveImages_images _ paths _ Hin') as [H1 _]. split; [exact H1|].
  destruct (saveImages_ok (he_id c') paths d' Hok) as [H2 H3].
  destruct (saveImages_appends _ paths _ Hin') as (more & H4 & H5).
  split; [exact H2|by rewrite H3|]. exists (new ++ more). split; [by rewrite H4, Hi, app_assoc|].
  apply Forall_app. split; [exact Hn|]. eapply Forall_impl; [exact H5|]. intros i Hi'. simpl in Hi'.
  exists c. by rewrite Hi'.
Qed.

Lemma decode_all_added {W} (h : forall c, W -> resp c * W) `{!Settles h} cwd config d undecoded :
  (forall r, r ∈ undecoded -> exists c,
     entry_of (getRecentCaptures sql_order 1000 0 d) (wav_name r) = Some c /\ he_imagePaths c = []) ->
  forall d' w, images_added d d' -> exists d2,
    result h (decode_all cwd sql_order config undecoded d') w = (d2, Ok tt) /\ images_added d d2.
Proof.
  induction undecoded as [|r rest IH]; intros Hu d' w Hd; cbn [decode_all]; [by exists d'|].
  rewrite result_bind. destruct (decode_recording_settles h cwd (cfg_imagesDir config) r w) as [[success paths] ->].
  assert (Hrest : forall r, r ∈ rest -> exists c,
     entry_of (getRecentCaptures sql_order 1000 0 d) (wav_name r) = Some c /\ he_imagePaths c = []).
  { intros x Hx. apply Hu. by right. }
  destruct (success && _); [|by apply IH].
  destruct (Hu r) as (c & He & Hp); [by left|].
  destruct (add_images d d' (wav_name r) paths c Hd He Hp) as [H1 H2].
  destruct (addImagesToDatabase _ _ _ _) as [[m|u] d2]; [done|]. by apply IH.
Qed.
End Outcome.

(** The paths a run deletes. *)
Definition unlinked (t : list call) : list string :=
  omap (fun c => match c with Unlink p => Some p | _ => None end) t.

Lemma unlinked_app a b : unlinked (a ++ b) = unlinked a ++ unlinked b.
Proof. apply omap_app. Qed.

Lemma no_unlink t : Forall (fun c => match c with Unlink _ => False | _ => True end) t -> unlinked t = [].
Proof. induction 1 as [|c t Hc _ IH]; [done|]. by destruct c. Qed.

(** The clean-up deletes the small recordings, one after the other. *)
Lemma cleanup_unlinks {W} (h : forall c, W -> resp c * W) maxSize recordings : forall w,
  unlinked (trace h (cleanupFailedRecordings maxSize recordings) w) =
  map wav_path (js_filter (fun r => wav_size r <=? maxSize) recordings).
Proof.
  induction recordings as [|r rest IH]; intros w; [done|]. cbn [cleanupFailedRecordings js_filter List.filter].
  destruct (wav_size r <=? maxSize); [|apply IH]. rewrite trace_Do, trace_bind, trace_Ret, app_nil_r.
  cbn. f_equal. apply IH.
Qed.

(** Decoding deletes nothing. *)
Lemma decode_all_keeps {W} (h : forall c, W -> resp c * W) cwd sql_order config undecoded : forall d w,
  unlinked (trace h (decode_all cwd sql_order config undecoded d) w) = [].
Proof.
  intros d w. apply no_unlink. eapply (holds_trace h _ (fun _ => True)). revert d.
  induction undecoded as [|r rest IH]; intros d; [done|]. cbn [decode_all].
  apply (holds_bind _ (fun _ => True)).
  - unfold decode_recording, try_catch. apply (holds_bind _ (fun _ => True)); [|by intros []].
    destruct (getDecoder _ _) as [x|] eqn:E; [|done]. pose proof (getDecoder_ok _ _ _ E) as Hd. unfold bindR.
    apply (holds_bind _ (fun _ => True)); [|by intros []].
    eapply holds_mono; [apply dec_calls| |done]. by intros [].
  - intros [[success paths]|m|] _; [|done..]. destruct (success && _); [|apply IH].
    destruct (addImagesToDatabase _ _ _ _) as [[m|u] d2]; [done|apply IH].
Qed.

(** The recordings of a scan come from the listing. *)
Lemma scanned local_offset dir files r : r ∈ scanRecordings local_offset dir files ->
  exists name, (name, wav_size r) ∈ files /\ wav_path r = path_join dir name.
Proof.
  intros ([name size] & Hin & Hr)%list_elem_of_omap.
  destruct (endsWith _ name); [|done]. destruct (parseWavFilename _ name) as [[sat t]|]; [|done].
  injection Hr as <-. by exists name.
Qed.

(** What a run ends with and what it deletes. *)
Lemma maintenance_runs {W} (h : forall c, W -> resp c * W) `{!Settles h}
  cwd local_offset sql_order config decode cleanup files opened w :
  (forall l, order_rows sql_order l ≡ₚ l) -> (forall d, opened = Some d -> db_ok d) ->
  let p := runMaintenance cwd local_offset sql_order config decode cleanup files opened in
  let recordings := match files with
                    | Some l => scanRecordings local_offset (cfg_recordingsDir config) l
                    | None => []
                    end in
  exists i r, result h p w = (i, r) /\
  match opened with
  | None => i = None /\ (decode = true -> exists m, r = Throw m)
  | Some d => (exists d', i = Some d' /\ images_added sql_order d d') /\ r = Ok tt
  end /\
  unlinked (trace h p w) =
    match r with
    | Ok _ => if cleanup then map wav_path (js_filter (fun r => wav_size r <=? 10000) recordings) else []
    | _ => []
    end.
Proof.
  intros Horder Hopened. cbv zeta. unfold runMaintenance. set (recordings := match files with Some _ => _ | None => _ end).
  rewrite result_bind, trace_bind, unlinked_app. set (decoded := if decode then _ else _).
  assert (H : exists i r, result h decoded w = (i, r) /\ unlinked (trace h decoded w) = [] /\
    match opened with
    | None => i = None /\ (decode = true -> exists m, r = Throw m) /\ r <> Pending
    | Some d => (exists d', i = Some d' /\ images_added sql_order d d') /\ r = Ok tt
    end).
  { subst decoded. destruct decode; [destruct opened as [d|]|]; cbn [getDatabase].
    - set (undecoded := findUndecodedRecordings _ _ _).
      destruct (decode_all_added sql_order Horder h cwd config d undecoded) with (d' := d) (w := w) as (d2 & E & Hd2).
      { intros r Hr. by apply maintenance_selects in Hr as (_ & _ & Hr). }
      { split; [by apply Hopened|done|]. exists []. by rewrite app_nil_r. }
      eexists _, _. rewrite result_bind, trace_bind, unlinked_app, decode_all_keeps, E. split; [done|]. split; [done|].
      split; [by exists d2|done].
    - eexists _, (Throw _). split; [done|]. split; [done|]. split; [done|]. split; [by eexists|done].
    - exists opened, (Ok tt). split; [done|]. split; [done|]. destruct opened as [d|]; [|done].
      split; [|done]. exists d. split; [done|]. split; [by apply Hopened|done|]. exists []. by rewrite app_nil_r. }
  destruct H as (i & r & -> & -> & H). destruct r as [[]|m|].
  - exists i, (Ok tt). cbn [app]. split; [by destruct cleanup; rewrite ?result_bind|]. split; [destruct opened; [exact H|split; apply H]|].
    destruct cleanup; [|done]. rewrite trace_bind, unlinked_app, cleanup_unlinks, app_nil_r. f_equal.
    apply js_filter_all. intros x Hx. by apply js_filter_elem in Hx as [_ Hx].
  - exists i, (Throw m). split; [done|]. split; [|done]. destruct opened; [by destruct H|]. split; apply H.
  - exfalso. destruct opened; [by destruct H as [_ H]|by destruct H as (_ & _ & H)].
Qed.

(** C40: Maintenance ends.  Once the database is open it succeeds: no capture changes, the
    images added belong to captures that had none; and with the clean-up it deletes exactly
    the recordings that had at most ten kilobytes when the directory was scanned, which it
    never decodes.  The only exception is that of a database that is not open yet, and then
    nothing is changed or deleted. *)
Theorem maintenance_outcome {W} (h : forall c, W -> resp c * W) (Hs : Settles h)
  cwd local_offset sql_order config decode cleanup files opened w
  (Horder : forall l, order_rows sql_order l ≡ₚ l) (Hopened : forall d, opened = Some d -> db_ok d) :
  let p := runMaintenance cwd local_offset sql_order config decode cleanup files opened in
  let '(i, r) := result h p w in
  match opened with
  | None => i = None /\ (decode = true -> exists m, r = Throw m)
  | Some d => (exists d', i = Some d' /\ images_added sql_order d d') /\ r = Ok tt
  end /\
  (r = Ok tt -> cleanup = true -> unlinked (trace h p w) =
     map wav_path (js_filter (fun r => wav_size r <=? 10000)
       (default [] (scanRecordings local_offset (cfg_recordingsDir config) <$> files)))) /\
  (forall path, Unlink path ∈ trace h p w -> r = Ok tt /\ cleanup = true /\
     exists name size, (name, size) ∈ default [] files /\ size <= 10000 /\
       path = path_join (cfg_recordingsDir config) name).
Proof.
  cbv zeta. set (p := runMaintenance _ _ _ _ _ _ _ _).
  set (recordings := default [] (scanRecordings local_offset (cfg_recordingsDir config) <$> files)).
  assert (H : exists i r, result h p w = (i, r) /\
    match opened with
    | None => i = None /\ (decode = true -> exists m, r = Throw m)
    | Some d => (exists d', i = Some d' /\ images_added sql_order d d') /\ r = Ok tt
    end /\
    unlinked (trace h p w) =
      match r with
      | Ok _ => if cleanup then map wav_path (js_filter (fun r => wav_size r <=? 10000) recordings) else []
      | _ => []
      end).
  { subst p recordings. destruct files as [l|]; by apply maintenance_runs. }
  destruct H as (i & r & -> & H1 & H2). split; [exact H1|]. split; [by intros -> ->|].
  intros path Hp. assert (Hu : path ∈ unlinked (trace h p w)) by (apply list_elem_of_omap; by eexists).
  rewrite H2 in Hu. destruct r as [[]|m|]; [|by apply not_elem_of_nil in Hu..].
  destruct cleanup; [|by apply not_elem_of_nil in Hu]. split_and!; [done..|].
  apply list_elem_of_fmap in Hu as (x & -> & Hx). apply js_filter_elem in Hx as [Hx Hsize]. props.
  destruct files as [l|]; [|by apply not_elem_of_nil in Hx].
  apply scanned in Hx as (name & Hn & ->). by exists name, (wav_size x).
Qed.

Definition sample_listing : list (string * Z) :=
  [("ISS_2026-02-03T13-56-39.wav", 44); ("METEOR-M-N2-3_2026-02-03T08-05-39.wav", 2000000)]%string.

Definition meteor_result : CaptureResult :=
  mkResult sample_info "recordings/METEOR-M-N2-3_2026-02-03T08-05-39.wav" []
    1770105939123 1770106659123 0 true None.

Definition undecoded_db : db := mkDb [capture_row 1 1770106660 meteor_result stored_pass] [] 1 0.

Lemma undecoded_db_ok : db_ok undecoded_db.
Proof.
  split; cbn.
  - apply NoDup_singleton.
  - repeat constructor; done.
  - apply NoDup_singleton.
  - constructor; [by right|constructor].
  - constructor.
  - done.
Qed.

Lemma maintenance_outcome_witness :
  let p := runMaintenance "/app" (fun _ => 0) inserted sample_config true true (Some sample_listing) (Some undecoded_db) in
  unlinked (trace handle p sample_world) = ["recordings/ISS_2026-02-03T13-56-39.wav"%string] /\
  exists d', (result handle p sample_world).1 = Some d' /\ images_added inserted undecoded_db d'.
Proof.
  cbv zeta. split; [vm_compute; reflexivity|].
  pose proof (maintenance_outcome handle handle_settles "/app" (fun _ => 0) inserted sample_config true true
    (Some sample_listing) (Some undecoded_db) sample_world (fun l => Permutation_refl l)
    (fun d Hd => eq_ind undecoded_db db_ok undecoded_db_ok d (f_equal (default empty_db) Hd))) as Ho.
  cbv zeta in Ho. destruct (result handle _ sample_world) as [i r]. by destruct Ho as [[Ho _] _].
Defined.

End Maintenance.
