(* ===== verification/Reports.v ===== *)
(** * The commands that print (src/backend/cli/commands/predict.ts, status.ts, cli/predict.ts)

    What they print as data: the table of the predicted passes with its cells, the lines of
    the status.  Colours of titles and empty lines are left out.  The texts of local times
    are a parameter, as the locale makes them. *)

From S2P Require Import Prelude JsStd JsDate Types StateManager Effects Shell Dashboard.
From S2P Require Import Recorder Orbit Passes Tle MainLoop Commands Views Cards.
Local Open Scope Z_scope.
Local Open Scope prog_scope.

Module Reports.
Import Passes Tle.

(** ** Texts *)

(** [s.padEnd(n)]. *)
Definition padEnd (n : nat) (s : string) : string :=
  (s ++ String.concat "" (repeat " "%string (n - String.length s)))%string.

(** The degree sign, one character. *)
Definition degree : string := String (Ascii.ascii_of_nat 176) "".

(* @src backend/utils/fs.ts:30-34 formatBytes *)
Definition formatBytes (bytes : Z) : string :=
  if bytes <? 1024 then (show_Z bytes ++ " B")%string
  else if bytes <? 1024 * 1024 then (Views.toFixed (inject_Z bytes / 1024)%Q 1 ++ " KB")%string
  else (Views.toFixed (inject_Z bytes / (1024 * 1024))%Q 1 ++ " MB")%string.

(** A byte less than a megabyte is already rounded to 1024 kilobytes. *)
Example formatBytes_ex :
  map formatBytes [0; 1023; 1536; 1048575; 1048576] =
  ["0 B"; "1023 B"; "1.5 KB"; "1024.0 KB"; "1.0 MB"]%string.
Proof. vm_compute. reflexivity. Qed.

Lemma length_spaces n : String.length (String.concat "" (repeat " "%string n)) = n.
Proof.
  induction n as [|n IH]; [done|]. destruct n as [|n]; [done|].
  change (S (String.length (String.concat "" (repeat " "%string (S n)))) = S (S n)). by rewrite IH.
Qed.

Lemma length_padEnd n s : String.length (padEnd n s) = Nat.max n (String.length s).
Proof. unfold padEnd. rewrite length_str_app, length_spaces. lia. Qed.

(** ** The passes *)

Section Locale.
Context (toLocaleString toLocaleTimeString : Z -> string).

(** The text before the arrow, that up to the degree sign, and the rest. *)
(* @src backend/prediction/passes.ts:80-86 formatPass *)
Definition formatPass (pass : SatellitePass) : string * string * string :=
  ((si_name (pass_satellite pass) ++ ": " ++ toLocaleString (pass_aos pass))%string,
   (toLocaleTimeString (pass_los pass) ++ " (" ++ show_Z (js_round (pass_duration pass / 60)) ++
     "min, max " ++ Views.toFixed (pass_maxElevation pass) 1)%string,
   ")"%string).

(* @src backend/prediction/passes.ts:103-105 formatPassesTable *)
Definition pass_status (now : Z) (pass : SatellitePass) : string :=
  if (pass_aos pass <=? now) && (now <=? pass_los pass) then "Active"%string
  else if pass_los pass <? now then "Passed"%string else "Pending"%string.

(** The cells between the bars. *)
(* @src backend/prediction/passes.ts:98-107 formatPassesTable *)
Definition table_row (now : Z) (pass : SatellitePass) : list string :=
  [ padEnd 11 (si_name (pass_satellite pass));
    padEnd 19 (toLocaleString (pass_aos pass));
    padEnd 8 (show_Z (js_round (pass_duration pass / 60)) ++ "min")%string;
    padEnd 9 (Views.toFixed (pass_maxElevation pass) 1 ++ degree)%string;
    padEnd 8 (pass_status now pass) ].

(* @src backend/prediction/passes.ts:91-91 formatPassesTable *)
Definition table_header : list string :=
  ["Satellite  "; "Start Time         "; "Duration"; "Max Elev "; "Status  "]%string.

(** Without the rules above, below and between. *)
(* @src backend/prediction/passes.ts:88-113 formatPassesTable *)
Definition formatPassesTable (now : Z) (passes : list SatellitePass) : list (list string) :=
  table_header :: map (table_row now) passes.

(** ** predict *)

Inductive report :=
| NoPasses (minElevation : Q)
| PassesReport (hours : Q) (table : list (list string)) (details : list (string * string * string))
    (total : nat).

Section Predict.
Context `{SatelliteJs}.
Context (home : string) (json_parse : string -> option TleCache).
Context (json_stringify : TleCache -> string).

(** The configuration as it was loaded.  The table asks for the time again. *)
(* @src backend/cli/commands/predict.ts:8-51 predictCommand *)
Definition predictCommand (config : ReceiverConfig) (args : list string) : prog (res report) :=
  let hours := Commands.hoursAhead args in
  tles <-! getTles home json_parse json_stringify Commands.enabled_satellites
             (cfg_tle_updateIntervalHours config);;
  now <~ Now;;
  match predictPasses Commands.enabled_satellites tles (cfg_station config)
          (mkOptions now hours (cfg_minElevation config)) with
  | None => Ret Pending
  | Some [] => Ret (Ok (NoPasses (cfg_minElevation config)))
  | Some passes =>
      now <~ Now;;
      Ret (Ok (PassesReport hours (formatPassesTable now passes) (map formatPass passes)
                 (length passes)))
  end.

(** The older entry point does the same and ends the process after an error; [argv] are
    the arguments after the script. *)
(* @src backend/cli/predict.ts:8-56 main *)
Definition predict_main (config : ReceiverConfig) (argv : list string) : prog (res (option report)) :=
  try_catch (r <-! predictCommand config argv;; Ret (Ok (Some r)))
    (fun _ => Exit 1;;; Ret (Ok None)).
End Predict.
End Locale.

(** ** status *)

(* @src backend/cli/commands/status.ts:5-9 CaptureSummary *)
Record CaptureSummary := mkSummary { total : Z; successful : Z; failed : Z }.

Inductive color := gray | yellow | blue | green | white.

(* @src backend/cli/commands/status.ts:26-33 statusColors *)
Definition statusColors (st : SystemStatus) : color :=
  match st with
  | idle => gray | waiting => yellow | capturing => blue | decoding => green | scanning => white
  end.

Definition status_name (st : SystemStatus) : string :=
  match st with
  | idle => "idle" | waiting => "waiting" | capturing => "capturing" | decoding => "decoding"
  | scanning => "scanning"
  end%string.

Inductive line :=
| LStatus (c : color) (name : string)
| LLastUpdate (time : string)
| LCurrentPass (name : string) (progress : Z)
| LNextPass (name time elevation : string)
| LUpcoming (n : nat)
| LStatistics (s : CaptureSummary)
| LDashboard (url : string)
| LNotRunning.

Section Status.
Context (toLocaleString : Z -> string).
Context (parse_state : string -> option SystemState) (parse_summary : string -> option CaptureSummary).

(* @src backend/cli/commands/status.ts:33-50 statusCommand *)
Definition state_lines (s : SystemState) : list line :=
  [LStatus (statusColors (st_status s)) (str_map Cards.upper_char (status_name (st_status s)));
   LLastUpdate (toLocaleString (st_lastUpdate s))] ++
  match st_currentPass s with
  | Some p => [LCurrentPass (si_name (pass_satellite p)) (st_captureProgress s)]
  | None => []
  end ++
  match st_nextPass s with
  | Some p => [LNextPass (si_name (pass_satellite p)) (toLocaleString (pass_aos p))
                 (Views.toFixed (pass_maxElevation p) 1)]
  | None => []
  end ++
  [LUpcoming (length (st_upcomingPasses s))].

(** A body that is no JSON throws as a failed request does. *)
(* @src backend/cli/commands/status.ts:53-65 statusCommand *)
Definition summary_lines (baseUrl : string) (r : string + FetchResponse) : list line :=
  match r with
  | inr r =>
      if fr_ok r then
        match parse_summary (fr_body r) with
        | Some s => [LStatistics s; LDashboard baseUrl]
        | None => [LNotRunning]
        end
      else [LDashboard baseUrl]
  | inl _ => [LNotRunning]
  end.

(* @src backend/cli/commands/status.ts:11-67 statusCommand *)
Definition statusCommand (config : ReceiverConfig) : prog (list line) :=
  let baseUrl := ("http://localhost:" ++ show_Z (cfg_web_port config))%string in
  r <~ Fetch (baseUrl ++ "/api/status");;
  match r with
  | inr r =>
      match (if fr_ok r then parse_state (fr_body r) else None) with
      | Some s =>
          r <~ Fetch (baseUrl ++ "/api/summary");;
          Ret (state_lines s ++ summary_lines baseUrl r)
      | None => Ret [LNotRunning]
      end
  | inl _ => Ret [LNotRunning]
  end.
End Status.

(** ** Properties *)

(** The order in which a pass goes through the states of the table. *)
Definition rank (s : string) : nat :=
  if String.eqb s "Pending" then 0 else if String.eqb s "Active" then 1 else 2.

(** As time goes by a pass is pending, then active, then passed, and never goes back. *)
Theorem pass_status_advances now now' pass : now <= now' -> pass_aos pass <= pass_los pass ->
  (rank (pass_status now pass) <= rank (pass_status now' pass))%nat.
Proof.
  intros Hn Hp. unfold pass_status.
  destruct (Z.leb_spec (pass_aos pass) now), (Z.leb_spec now (pass_los pass)),
    (Z.leb_spec (pass_aos pass) now'), (Z.leb_spec now' (pass_los pass)),
    (Z.ltb_spec (pass_los pass) now), (Z.ltb_spec (pass_los pass) now'); simpl; try done; try lia; vm_compute; lia.
Qed.

(** The width of a row, without its bars. *)
Definition width (cells : list string) : nat := sum_list_with String.length cells.

(** No row fits: a date and a time of the locale have twenty characters, the column has
    nineteen; the row of a METEOR satellite, whose name has thirteen characters in a
    column of eleven, is three too wide. *)
Theorem rows_overflow toLocaleString now pass
  (Hlocale : String.length (toLocaleString (pass_aos pass)) = 20%nat) :
  (width table_header < width (table_row toLocaleString now pass))%nat /\
  (String.length (si_name (pass_satellite pass)) = 13 ->
     width table_header + 3 <= width (table_row toLocaleString now pass))%nat.
Proof.
  assert (E : width (table_row toLocaleString now pass) =
    (Nat.max 11 (String.length (si_name (pass_satellite pass))) + (20 +
     (Nat.max 8 (String.length (show_Z (js_round (pass_duration pass / 60)) ++ "min")%string) +
     (Nat.max 9 (String.length (Views.toFixed (pass_maxElevation pass) 1 ++ degree)%string) +
     (Nat.max 8 (String.length (pass_status now pass)) + 0)))))%nat).
  { unfold width, table_row. cbn [sum_list_with]. rewrite !length_padEnd, Hlocale. done. }
  rewrite E. change (width table_header) with 55%nat. lia.
Qed.

(** The text of the British locale, in UTC. *)
Definition en_GB (t : Z) : string :=
  let f := fields_of_time t in
  (pad2 (f_day f) ++ "/" ++ pad2 (f_month f) ++ "/" ++ pad4 (f_year f) ++ ", " ++
   pad2 (f_hour f) ++ ":" ++ pad2 (f_min f) ++ ":" ++ pad2 (f_sec f))%string.

Lemma rows_overflow_witness :
  let pass := Dashboard.sample_pass 57166 1770105939123 in
  en_GB (pass_aos pass) = "03/02/2026, 08:05:39"%string /\
  (width table_header < width (table_row en_GB 0 pass))%nat.
Proof. split; [vm_compute; reflexivity|]. by apply rows_overflow. Defined.

Section Printed.
Context `{SatelliteJs} {W : Type} (h : forall c, W -> resp c * W).
Context (toLocaleString toLocaleTimeString : Z -> string).
Context (home : string) (json_parse : string -> option TleCache) (json_stringify : TleCache -> string).
Local Notation predictCommand :=
  (predictCommand toLocaleString toLocaleTimeString home json_parse json_stringify).

(** A report that lists passes lists them in AOS order, one row and one line for each, as the
    prediction over the hours asked for found them at one time, and there is one. *)
Definition lists_passes (config : ReceiverConfig) (args : list string) (r : report) : Prop :=
  match r with
  | NoPasses e => e = cfg_minElevation config
  | PassesReport hours table details total =>
      exists tles found printed l,
        predictPasses Commands.enabled_satellites tles (cfg_station config)
          (mkOptions found (Commands.hoursAhead args) (cfg_minElevation config)) = Some l /\
        l <> [] /\ StronglySorted (fun a b => pass_aos a <= pass_aos b) l /\
        hours = Commands.hoursAhead args /\ total = length l /\
        table = table_header :: map (table_row toLocaleString printed) l /\
        details = map (formatPass toLocaleString toLocaleTimeString) l
  end.

(** [predict] ends, with such a report or the exception of the elements. *)
Theorem predict_reports config args w :
  match result h (predictCommand config args) w with
  | Ok r => lists_passes config args r
  | Throw _ => True
  | Pending => False
  end.
Proof.
  unfold Reports.predictCommand, bindR. rewrite result_bind.
  pose proof (holds_result h _ _ _ w (MainLoop.getTles_calls home json_parse json_stringify
    Commands.enabled_satellites (cfg_tle_updateIntervalHours config))) as Hp.
  destruct (result h (getTles _ _ _ _ _) w) as [tles|m|]; [|done|done].
  rewrite result_Do. set (now := (h Now _).1).
  destruct (predictPasses_total Commands.enabled_satellites tles (cfg_station config)
    (mkOptions now (Commands.hoursAhead args) (cfg_minElevation config))) as (l & El & Hs & _).
  rewrite El. destruct l as [|p l]; [done|]. rewrite result_Do.
  set (printed := (h Now _).1). by exists tles, now, printed, (p :: l).
Qed.

(** The older entry point reports the same or leaves the process, as its last act. *)
Theorem predict_main_reports config args w :
  let main := predict_main toLocaleString toLocaleTimeString home json_parse json_stringify config args in
  match result h main w with
  | Ok (Some r) => lists_passes config args r
  | Ok None => exists before, trace h main w = before ++ [Exit 1]
  | _ => False
  end.
Proof.
  cbv zeta. unfold predict_main, try_catch, bindR. rewrite result_bind, trace_bind, !result_bind.
  pose proof (predict_reports config args w) as Hr.
  destruct (result h (predictCommand config args) w) as [r|m|]; [done| |done].
  rewrite !result_Ret, result_Do. cbv beta iota. rewrite trace_Do. by eexists.
Qed.

Context (parse_state : string -> option SystemState) (parse_summary : string -> option CaptureSummary).
Local Notation statusCommand := (statusCommand toLocaleString parse_state parse_summary).

(** What [status] prints of an answered request: the lines of the state, then those of the
    summary; without an answer only that the server is not running.  It asks at most
    twice and does nothing else. *)
Theorem status_reports config w :
  let url path := ("http://localhost:" ++ show_Z (cfg_web_port config) ++ path)%string in
  let '(r, w1) := h (Fetch (url "/api/status"%string)) w in
  match (match r with inr r => if fr_ok r then parse_state (fr_body r) else None | inl _ => None end) with
  | Some s =>
      result h (statusCommand config) w =
        state_lines toLocaleString s ++
        summary_lines parse_summary (url ""%string) (h (Fetch (url "/api/summary"%string)) w1).1 /\
      trace h (statusCommand config) w = [Fetch (url "/api/status"%string); Fetch (url "/api/summary"%string)]
  | None =>
      result h (statusCommand config) w = [LNotRunning] /\
      trace h (statusCommand config) w = [Fetch (url "/api/status"%string)]
  end.
Proof.
  cbv zeta. unfold Reports.statusCommand. rewrite result_Do, trace_Do.
  rewrite <- !(str_app_assoc "http://localhost:"), !str_app_nil.
  destruct (h (Fetch _) w) as [r w1]. cbn [fst snd].
  destruct r as [m|r]; [done|]. destruct (fr_ok r); [|done].
  destruct (parse_state (fr_body r)) as [s|]; [|done]. by rewrite result_Do, trace_Do.
Qed.
End Printed.

(** A server that stops between the two requests is said both to be waiting and not to
    run. *)
Example status_contradicts :
  let answer (c : call) (w : unit) : resp c * unit :=
    match c as c return resp c * unit with
    | Fetch url =>
        ((if includes "status" url then inr (mkFetchResponse true "") else inl "refused"%string), w)
    | c => ((handle c Recorder.sample_world).1, w)
    end in
  result answer (statusCommand en_GB (fun _ => Some (StateManager.initial 0)) (fun _ => None)
                   Recorder.sample_config) tt =
  [LStatus gray "IDLE"; LLastUpdate "01/01/1970, 00:00:00"; LUpcoming 0; LNotRunning]%string.
Proof. vm_compute. reflexivity. Qed.
End Reports.
